(* ===== verification/_CoqProject ===== *)
-Q . S2P
Prelude.v
VarInt.v
Wire.v
Packet.v
Stream.v
Timeout.v
GoFloat.v
Nbt.v
Config.v
Net.v
Json.v
Packets.v
JsonText.v
StatusJson.v
Access.v
Snbt.v
SnbtParser.v
Resources.v
Dimension.v
ServerProperties.v
Files.v
ForgeStatus.v
Start.v
Terminal.v
Logger.v
Cli.v
ConfigLoad.v
Main.v
Process.v
JoinGame.v
ServerState.v
Command.v
Proxy.v
RelayRun.v
Cipher.v
Link.v
Profile.v
Velocity.v
OnlineAuth.v
PlayPackets.v
ForgeLogin.v
Backend.v
Rcon.v
Monitor.v
TestServer.v
TestServerRun.v
MockMain.v
Sections.v
Rounds.v
Lifecycle.v
LifecycleSpec.v
Owned.v
Races.v
Admission.v
Status.v
Join.v
Service.v
Watcher.v
Probe.v
Interop.v
Lobby.v
KeepAlive.v
Identity.v
