(* ===== verification/Prelude.v ===== *)
(** * LazyGate: a verification library for the LazyGate Minecraft gateway

    LazyGate listens on the public address of a Minecraft server. While the
    server sleeps it answers status requests itself, starts the server when an
    admitted player logs in, keeps that player occupied until the server is
    up, and then relays the connection; when nobody has played for a while it
    puts the server to sleep again. Either the gateway owns the server process,
    or an external controller does and the gateway only launches a helper.

    ** Files and sources

    Wire protocol:
    - [VarInt]: src/proto/varint.go. [Wire]: the packet writer of
      src/proto/encode.go and the field reader of src/proto/packets.go.
    - [Packet]: src/proto/packet.go, client.go, zlib.go: frames with and
      without compression. The class [Zlib] stands for the compression library
      and [ZlibLaws] for what the code relies on (compression succeeds, and
      decompression under a large enough limit inverts it).
    - [Stream]: src/proto/stream.go: [ReadPacket] over a connection that is a
      list of read events, each a chunk of bytes with an optional error.
      [Timeout]: the timer of a packet read and the code that stops it, as a
      step relation of two goroutines.
    - [Packets]: the typed packets of src/proto/packets.go, the JSON rendering
      of a status and [Kick] of src/proto/action.go.
    - [GoFloat], [Nbt]: src/nbt/nbt.go and read.go (compounds, writer, reader).
      The class [ByteWriter] is the Go interface of that name, with two
      instances. [SnbtParser]: the SNBT parser of src/nbt/nbt.go with its position
      and checked indices; [Snbt]: the same on the unread text. [Resources],
      [Dimension]: src/mc/dimension.go over the embedded SNBT files.
    Text and configuration:
    - [Config]: the configuration of src/config.go and the validations of
      src/service_server.go. [ConfigLoad]: the values with decoders of their
      own, address resolution and loading, with the TOML package and the name
      resolver as parameters.
    - [Files]: paths and a file system with directories, symbolic links,
      modification times and sizes, for the code that reads and writes files.
    - [Net]: peer addresses as text (src/status.go, src/process.go) with the
      used part of the net package. [Json], [JsonText]: the used part of
      encoding/json, and that rendered texts are recognised.
    - [StatusJson]: the status decoders of src/monitor.go. [Access]:
      src/mc/ban.go and whitelist.go. [Process]: src/process.go, src/os.go.
      [Command]: the command [invokeServerCmd] starts.
    - [ServerProperties]: src/mc/server_properties.go. [Start]: the parts of
      the start action src/action_start.go. [Rcon]: src/mc/rcon.go.
    The program:
    - [Terminal]: src/util without the logger: a [World] of standard streams,
      environment and files, programs that may exit, error reports, prompts.
      [Logger]: src/util/logger.go, src/log.go. [Cli]: src/cli.go. [Main]:
      src/main.go and the actions, up to the call of [Service].
    The server state:
    - [JoinGame], [ServerState]: src/server.go. An operation is a function from
      the state to a result, a state and the list of events it causes outside;
      [Env] holds the clock and the answers of the kernel and the RCON peer.
    - [Monitor]: src/monitor.go. [Sections]: the same operations, the monitor
      round and [invokeServerCmd] as programs [Prog] over the critical sections
      [Sec] the code goes through, one per lock, clock reading, signal or
      outside answer; a program that runs undisturbed is the operation of
      [ServerState] (the lemmas [..._alone]). [Rounds]: what operations and
      rounds do as functions of the state. [Lifecycle]: all goroutines of the
      gateway as a transition system in which every critical section is a step
      of its own, with [reachable] and rule induction. [LifecycleSpec]: the
      machine that the state promises to its clients, and the proof that
      [Lifecycle] implements it. [Owned]: the process the gateway owns.
      [Races]: a harmful interleaving of two state changes.
    - [ForgeStatus]: src/forge_status.go on a file system whose calls may fail
      and whose intermediate states are recorded. [Watcher]: the file watcher
      of src/service_tasks.go over a history of file systems.
    Connections:
    - [Status]: [Serve] of src/status.go. [Admission]: the semaphores and the
      routes of src/service_server.go, with the transition system of live
      tasks. [Join]: src/join.go and the join methods. [Proxy]: src/proxy.go
      and src/proxyv2/proxyv2.go, with a finished relay; [RelayRun]: the relay
      while it runs. [Service]: start-up, signals and reloads
      (src/service_tasks.go).
    The lobby:
    - [Link]: a connection that is read and written, with its buffer and
      cipher ([Link]), under a protocol state ([Side]); the state and error
      monad [ST] of this code; and the ways to reason about it: [spec], and the
      classes of computations [only_writes], [tame], [calm] and [ends].
    - [Cipher], [Profile], [OnlineAuth]: src/online_auth.go and src/mc/uuid.go:
      the CFB8 connection, identities with the session lookup, and the
      encryption exchange. [Velocity]: src/velocity_forwarding.go. The classes
      [AES], [MD5], [SHA1], [HMAC] and [UnicodeFold] stand for library
      functions, with the lengths of digests as laws; RSA and the session
      service are the record [AuthEnv].
    - [PlayPackets]: src/proto/packets/play. [ForgeLogin]: src/forge.go.
    - [Backend]: the login on the backend, [connectToServerNoTimeout] of
      src/lobby.go. [Probe]: src/probe.go. [Lobby]: the rest of src/lobby.go,
      [LobbyServe] above all. [KeepAlive]: the keep-alive goroutine beside its
      caller. [Identity]: what the client and the backend are told of a player.
    The test server:
    - [TestServer]: src/internal/testserver/testserver.go, the handling of a
      connection, and the monitor against it. [TestServerRun]: its accept loop,
      stopping and the state file. [MockMain]: src/cmd/mockserver/main.go.
      [Interop]: the probe against it.

    ** How the parts interact

    [Main] reads the arguments and the configuration and calls [Service], which
    validates the configuration, installs the admission object and routes
    connections ([route]). A connection goes to the proxy when the server is up,
    or to [Serve], which works on the shared [ServerState]: it answers the
    status or checks a login and calls [Start]. [Occupy] then takes the client
    with its history; its hold method watches a subscription of the
    [ServerState], and hands the client to a proxy task; its lobby method hands
    it to [LobbyServe], which authenticates it, starts the server, keeps it in a
    lobby world, logs in to the backend for it and relays. What a lobby imitates
    was recorded by a [Probe] or by the relay of an earlier Forge client, both
    kept in the [ServerState]. Beside them the monitor round polls the server,
    moves the state and stores a Forge status that [Service] loads at the next
    start, the file watcher reloads the access lists, and the phases of
    [invokeServerCmd] run the command.

    ** What the theorems show

    - The whole path: [Join.held_client_reaches_server] composes [Serve],
      [Start], [Occupy], admission and the relay: a client that wakes the
      server has it started and reaches it with its byte stream unchanged.
    - The lobby: [Lobby.lobby_admits_only_authenticated] composes the encryption
      exchange, the session lookup, the start of the server and the backend
      login: nobody gets through unauthenticated, and the backend reads the
      verified profile from a signed message. [Lobby.lobby_handover_lossless]:
      the relay after the lobby misses only the frames of the backend's login
      and the join game frame. Beneath them:
      the encrypted connection is transparent, the client and the backend are
      told the same player, the keep-alive goroutine and the caller do not mix
      their own packets, a recorded Forge login stands in for the live one and is
      bounded, a probe opens the lobby, the start action makes the server's
      configuration agree with the gateway's, an RCON command gets its whole
      answer.
    - The relay: [RelayRun.relay_run_refines] shows every interleaving of the
      two copying goroutines to deliver what [Proxy] says of a finished relay,
      in order, and to return.
    - The contract of the server state:
      [LifecycleSpec.lifecycle_refines_machine] shows every interleaving of the
      critical sections to be a run of a machine whose rules say for which cause
      a phase is entered, who announces it and sets its deadline, and when the
      outside is touched.
    - The lifecycle, over all interleavings: a controller-managed gateway never
      touches the backend, and its helper is single-flight; a stale child exit
      does not clear a newer helper. In runs whose state changes do not overlap
      (the ones of [Races] do), deadlines and subscribers are consistent and the
      failed starts of a controller-managed gateway expire. Undisturbed, a
      monitor round puts an idle server to sleep and a termination signal stops
      an owned server first, on every branch of the means they have.
    - Access: only admitted clients wake the server; banned addresses are
      locked out; online mode without Forge always ends in the lobby; admission
      limits are exact; the access lists follow the files one watcher round
      after the files have settled.
    - Files: a Forge status snapshot is replaced atomically and durably, and a
      restart at any moment, after a crash or not, finds the old or the new one;
      the settings of server.properties the gateway depends on hold its values
      after the start action.
    - The program: every run ends or calls the service with a checked
      configuration, and changes no file but the ones it is meant to; options
      may stand anywhere, log specifications and printed addresses mean what
      they say, and generating a configuration asks before it overwrites.
    - Interoperation: the monitor and the probe, run against the bundled test
      server in any segmentation, get its status and its join game data.
    - The wire: round trips of VarInts, packets, NBT, statuses and login
      packets; the stream reader returns the framed packet for every
      segmentation, is bounded and loses no byte; a read timeout ends the read
      and leaves no deadline behind; loops terminate.
    - Behaviours that depart from the intention, each shown by a run or for all
      inputs: a packet prefix split after two bytes is refused, a malformed
      packet makes the poll spin, a failed spawn is stuck in starting, a failed
      poll allows a second process, a stale deadline survives a race, an
      unreadable name passes the whitelist, an uncompressed IPv6 ban is not
      found, old clients of an online Forge server are relayed without
      authentication, long NBT strings panic the reader, the lobby does not
      void the client's backlog, replies of the older Forge protocol are
      misframed, protocols newer than 1.20.1 get the 1.17 layout, an RCON
      length check wraps around, a file that changes while the watcher starts is
      missed, the advertised option --verbose is refused, a negative time wraps,
      ports are not checked, the probe sends no PROXY header, a late keep-alive
      splits a relayed packet, an encrypted client is not told that the server's
      stream has ended, bytes in the lobby's own buffer do not reach the server,
      a property that is set twice keeps its second value, and a number with the
      suffix of a byte is not checked to be one.

    ** Conventions, bounds and fuel

    Machine integers are [Z] with the wrap-around written out ([u8], [u32],
    [i32] and so on below); bytes are [Byte.byte]; Go strings are byte lists.
    Errors are [option], sums or result types. Loops that are not structural
    take fuel, and their termination is a theorem: [ReadPacket] and the NBT
    reader choose their own fuel and never run out; [Serve] needs one round per
    byte of the stream ([Serve_terminates]); the wait for a status needs one
    round per byte unless a packet is malformed ([malformed_packet_spins]);
    the JSON recogniser's fuel is twice the length of the text
    ([jvalue_enough]); the login, probe, join game, drain and lobby loops take
    one round per packet and a packet at least one byte, so that one more than
    the bytes of the stream is enough, and their theorems include that they end.
    A question is asked at most once per byte of the input and once more
    ([PromptYes_answers]); a path is resolved through at most 40 symbolic links,
    like the kernel does. The timer and the reader of [Timeout] need at most
    eight steps after the timeout, the keep-alive goroutine twelve after the
    stop, and the relay two per unread byte and thirteen more.
    Times are nanoseconds.

    ** Not modelled

    The TOML package, the name resolver, the cryptographic primitives, zlib and
    the session service are parameters with the laws the code relies on; so is
    the operating system that starts a child process. The texts of system
    errors are inputs. Log lines are left out except those of the logger itself
    and of loading the configuration. Each critical section on the shared state
    is a step of its own in [Lifecycle]; subscribing and broadcasting are one
    section each, the lock around an RCON exchange is not taken, and a sleep
    lasts any time. Code that calls one operation of the state ([Serve], the
    lobby, the signal handler) uses it undisturbed. A timeout abandons the
    goroutine that does the work and decides whether its result is used. In
    [Lobby] a keep-alive round that has begun is finished when the wait is
    over, and a relay is the finished one of [Proxy]; [KeepAlive] and
    [RelayRun] have the interleavings. *)

From stdpp Require Export prelude list numbers strings.
From Stdlib Require Export Strings.Byte.

Global Open Scope Z_scope.

(** ** Bytes

    Go's [byte] is the 256-element type [Byte.byte] of the Standard Library;
    [b2z] is the conversion [int(b)] and [z2b] the truncating conversion
    [byte(x)]. A Go string is its sequence of bytes. *)

Abbreviation byte := Byte.byte.
Abbreviation bytes := (list Byte.byte).

Definition b2z (b : byte) : Z := Z.of_N (Byte.to_N b).

Definition z2b (z : Z) : byte :=
  match Byte.of_N (Z.to_N (z mod 256)) with
  | Some b => b
  | None => x00
  end.

Definition str (s : string) : bytes := String.list_byte_of_string s.

#[export] Instance byte_eq_dec : EqDecision Byte.byte := Byte.byte_eq_dec.

Definition Zlen {A} (l : list A) : Z := Z.of_nat (length l).

(** ** Machine integers

    Every Go integer is a [Z]; the conversions below are the truncations
    [uintN(x)] and [intN(x)] of the language specification. *)

Definition uintw (w : Z) (z : Z) : Z := z mod 2 ^ w.
Definition sintw (w : Z) (z : Z) : Z := (z + 2 ^ (w - 1)) mod 2 ^ w - 2 ^ (w - 1).

Abbreviation u16 := (uintw 16).
Abbreviation u32 := (uintw 32).
Abbreviation u64 := (uintw 64).
Abbreviation i8 := (sintw 8).
Abbreviation i16 := (sintw 16).
Abbreviation i32 := (sintw 32).
Abbreviation i64 := (sintw 64).

Definition is_sint (w z : Z) : Prop := - 2 ^ (w - 1) <= z < 2 ^ (w - 1).
Definition is_uint (w z : Z) : Prop := 0 <= z < 2 ^ w.

Abbreviation is_i16 := (is_sint 16).
Abbreviation is_i32 := (is_sint 32).
Abbreviation is_i64 := (is_sint 64).
Abbreviation is_u16 := (is_uint 16).
Abbreviation is_u32 := (is_uint 32).
Abbreviation is_u64 := (is_uint 64).

(** [zpow] turns the powers of two of the usual widths into literals so that
    [lia] can reason about them. *)
Ltac zpow :=
  repeat first
    [ progress change (2 ^ (8 - 1)) with 128 in *
    | progress change (2 ^ (16 - 1)) with 32768 in *
    | progress change (2 ^ (32 - 1)) with 2147483648 in *
    | progress change (2 ^ (64 - 1)) with 9223372036854775808 in *
    | progress change (2 ^ 7) with 128 in *
    | progress change (2 ^ 8) with 256 in *
    | progress change (2 ^ 16) with 65536 in *
    | progress change (2 ^ 24) with 16777216 in *
    | progress change (2 ^ 28) with 268435456 in *
    | progress change (2 ^ 31) with 2147483648 in *
    | progress change (2 ^ 32) with 4294967296 in *
    | progress change (2 ^ 63) with 9223372036854775808 in *
    | progress change (2 ^ 64) with 18446744073709551616 in * ].

(** [int_lia] proves linear facts about truncations at a literal width. *)
Ltac int_lia :=
  unfold Zlen, is_sint, is_uint, uintw, sintw in *; zpow;
  try (Z.to_euclidean_division_equations; lia).

Lemma b2z_range (b : byte) : 0 <= b2z b < 256.
Proof. unfold b2z. pose proof (Byte.to_N_bounded b). lia. Qed.

Lemma b2z_z2b (z : Z) : b2z (z2b z) = z mod 256.
Proof.
  unfold b2z, z2b. pose proof (Z.mod_pos_bound z 256 ltac:(lia)) as Hb.
  destruct (Byte.of_N (Z.to_N (z mod 256))) as [b|] eqn:E.
  - apply Byte.to_of_N in E. rewrite E. lia.
  - apply Byte.of_N_None_iff in E. lia.
Qed.

Lemma z2b_b2z (b : byte) : z2b (b2z b) = b.
Proof.
  unfold z2b. pose proof (b2z_range b). rewrite Z.mod_small by lia.
  unfold b2z. by rewrite N2Z.id, Byte.of_to_N.
Qed.

Lemma b2z_inj (a b : byte) : b2z a = b2z b -> a = b.
Proof. intros E. by rewrite <- (z2b_b2z a), <- (z2b_b2z b), E. Qed.

Lemma b2z_z2b_small (z : Z) : 0 <= z < 256 -> b2z (z2b z) = z.
Proof. intros. rewrite b2z_z2b. by apply Z.mod_small. Qed.

Lemma sintw_id (w z : Z) : 0 < w -> is_sint w z -> sintw w z = z.
Proof.
  unfold is_sint, sintw. intros Hw Hz.
  assert (2 ^ w = 2 * 2 ^ (w - 1)) as E.
  { rewrite <- Z.pow_succ_r by lia. f_equal. lia. }
  rewrite Z.mod_small; lia.
Qed.

Lemma uintw_id (w z : Z) : is_uint w z -> uintw w z = z.
Proof. unfold is_uint, uintw. apply Z.mod_small. Qed.

Lemma uintw_range (w z : Z) : 0 <= w -> is_uint w (uintw w z).
Proof. intros. apply Z.mod_pos_bound. lia. Qed.

Lemma sintw_range (w z : Z) : 0 < w -> is_sint w (sintw w z).
Proof.
  unfold is_sint, sintw. intros Hw.
  assert (2 ^ w = 2 * 2 ^ (w - 1)) as E.
  { rewrite <- Z.pow_succ_r by lia. f_equal. lia. }
  pose proof (Z.mod_pos_bound (z + 2 ^ (w - 1)) (2 ^ w) ltac:(lia)). lia.
Qed.

Lemma sintw_uintw (w z : Z) : 0 < w -> is_sint w z -> sintw w (uintw w z) = z.
Proof.
  intros Hw Hz. unfold sintw, uintw.
  rewrite Zplus_mod_idemp_l. by apply sintw_id.
Qed.

Lemma uintw_sintw (w z : Z) : 0 < w -> is_uint w z -> uintw w (sintw w z) = z.
Proof.
  intros Hw Hz. unfold sintw, uintw. unfold is_uint in Hz.
  rewrite Zminus_mod_idemp_l. rewrite Z.add_simpl_r. by apply Z.mod_small.
Qed.

(** Or-ing a value below [2^n] with a multiple of [2^n] adds them. *)
Lemma lor_disjoint_add (a k n : Z) :
  0 <= n -> 0 <= a < 2 ^ n -> Z.lor a (k * 2 ^ n) = a + k * 2 ^ n.
Proof.
  intros Hn Ha. symmetry. apply Z.add_nocarry_lor. apply Z.bits_inj'.
  intros i Hi. rewrite Z.land_spec, Z.bits_0.
  destruct (Z.lt_ge_cases i n).
  - rewrite Z.mul_pow2_bits_low by lia. apply andb_false_r.
  - rewrite (Z.testbit_eqb a) by lia.
    rewrite Z.div_small; [done|].
    split; [lia|]. eapply Z.lt_le_trans; [apply Ha|]. apply Z.pow_le_mono_r; lia.
Qed.

Lemma land_127 (z : Z) : Z.land z 127 = z mod 128.
Proof. change 127 with (Z.ones 7). by rewrite Z.land_ones by lia. Qed.

(** Testing the continuation bit [0x80] of a byte. *)
Lemma land_128_spec (b : byte) :
  (Z.land (b2z b) 128 =? 0) = (b2z b <? 128).
Proof. by destruct b. Qed.

(** ** Big- and little-endian integers *)

Fixpoint be_bytes (n : nat) (v : Z) : bytes :=
  match n with
  | O => []
  | S n' => z2b (Z.shiftr v (8 * Z.of_nat n')) :: be_bytes n' v
  end.

Definition be_val (l : bytes) : Z := fold_left (fun acc b => acc * 256 + b2z b) l 0.

Definition le_bytes (n : nat) (v : Z) : bytes := rev (be_bytes n v).
Definition le_val (l : bytes) : Z := be_val (rev l).

Lemma be_bytes_length n v : length (be_bytes n v) = n.
Proof. induction n; simpl; congruence. Qed.

Lemma be_val_acc (l : bytes) (acc : Z) :
  fold_left (fun acc b => acc * 256 + b2z b) l acc
  = acc * 256 ^ Zlen l + be_val l.
Proof.
  unfold be_val, Zlen. revert acc. induction l as [|b l IH]; intros acc; cbn [fold_left length].
  - change (Z.of_nat 0) with 0. lia.
  - rewrite (IH (acc * 256 + b2z b)), (IH (0 * 256 + b2z b)).
    rewrite Nat2Z.inj_succ, Z.pow_succ_r by lia. ring.
Qed.

Lemma be_val_cons b (l : bytes) : be_val (b :: l) = b2z b * 256 ^ Zlen l + be_val l.
Proof. unfold be_val at 1. cbn [fold_left]. rewrite be_val_acc. lia. Qed.

Lemma be_val_range (l : bytes) : 0 <= be_val l < 256 ^ Zlen l.
Proof.
  induction l as [|b l IH]; [done|]. rewrite be_val_cons.
  pose proof (b2z_range b). unfold Zlen in *. simpl length.
  rewrite Nat2Z.inj_succ, Z.pow_succ_r by lia. nia.
Qed.

Lemma be_val_bytes n v : be_val (be_bytes n v) = v mod 256 ^ Z.of_nat n.
Proof.
  induction n as [|n IH]; [by rewrite Z.mod_1_r|].
  cbn [be_bytes]. rewrite be_val_cons, IH, b2z_z2b. unfold Zlen.
  rewrite be_bytes_length, Nat2Z.inj_succ, Z.shiftr_div_pow2 by lia.
  rewrite Z.pow_succ_r by lia. rewrite Z.mul_comm with (n := 256).
  rewrite Z.rem_mul_r by (try apply Z.pow_nonzero; lia).
  replace (2 ^ (8 * Z.of_nat n)) with (256 ^ Z.of_nat n); [lia|].
  rewrite Z.pow_mul_r by lia. done.
Qed.

Lemma be_bytes_val (l : bytes) : be_bytes (length l) (be_val l) = l.
Proof.
  induction l as [|b l IH]; [done|]. cbn [length be_bytes].
  pose proof (be_val_range l) as Hr. pose proof (b2z_range b).
  assert (256 ^ Zlen l = 2 ^ (8 * Z.of_nat (length l))) as E.
  { unfold Zlen. by rewrite Z.pow_mul_r by lia. }
  f_equal.
  - apply b2z_inj. rewrite b2z_z2b, be_val_cons, Z.shiftr_div_pow2, <- E by lia.
    rewrite Z.div_add_l by lia. rewrite Z.div_small by lia.
    rewrite Z.mod_small; lia.
  - transitivity (be_bytes (length l) (be_val l)); [|done]. clear IH.
    enough (forall n v k, (n <= length l)%nat ->
      be_bytes n (k * 256 ^ Zlen l + v) = be_bytes n v) as Hm
      by (rewrite be_val_cons; by apply Hm).
    intros n v k. induction n as [|n IHn]; intros Hn; [done|]. cbn [be_bytes].
    f_equal; [|apply IHn; lia].
    apply b2z_inj. rewrite !b2z_z2b, !Z.shiftr_div_pow2 by lia.
    unfold Zlen. replace (Z.of_nat (length l)) with
      (Z.of_nat n + (1 + Z.of_nat (length l - S n))) by lia.
    rewrite !Z.pow_add_r by lia.
    replace (2 ^ (8 * Z.of_nat n)) with (256 ^ Z.of_nat n)
      by (rewrite Z.pow_mul_r by lia; done).
    replace (k * (256 ^ Z.of_nat n * (256 ^ 1 * 256 ^ Z.of_nat (length l - S n))))
      with ((k * 256 ^ Z.of_nat (length l - S n) * 256) * 256 ^ Z.of_nat n) by ring.
    rewrite Z.div_add_l by (apply Z.pow_nonzero; lia).
    rewrite Z.add_comm, Z.mod_add by lia. done.
Qed.

(** ** Lines of text *)

(** [strings.Split] at the line feed *)
Fixpoint split_lines (s : bytes) : list bytes :=
  match s with
  | [] => [[]]
  | b :: s' =>
      match split_lines s' with
      | [] => [[]] (* never: the result is not empty *)
      | w :: ws => if decide (b = x0a) then [] :: w :: ws else (b :: w) :: ws
      end
  end.

(** [strings.TrimSuffix] of a carriage return *)
Definition TrimSuffix_cr (s : bytes) : bytes :=
  if bool_decide (last s = Some x0d) then take (length s - 1) s else s.
