(* ===== verification/VarInt.v ===== *)
(** * VarInt: the variable-length integers of the wire protocol

    Models [src/proto/varint.go]: [EncodeVarInt], [decodeVarInt] and
    [ReadVarInt]. The value of a list of 7-bit groups, [groups_val], is the
    reference the decoder is proved against. *)

From S2P Require Import Prelude.

(** ** The code *)

(** [decodeVarInt]: the accumulating loop over [range buf], with [result] an
    [int32] that receives [int32(b&0x7F) << (7*i)]. *)
Fixpoint decodeVarInt_loop (i result : Z) (buf : bytes) : Z :=
  match buf with
  | [] => result
  | b :: buf' =>
      decodeVarInt_loop (i + 1)
        (Z.lor result (i32 (Z.shiftl (Z.land (b2z b) 127) (7 * i)))) buf'
  end.

Definition decodeVarInt (buf : bytes) : Z * bool := (decodeVarInt_loop 0 0 buf, true).

(** The [for length := 1; length <= max; length++] loop; [k] counts the
    iterations that are left. *)
Fixpoint ReadVarInt_loop (k len : nat) (buf : bytes) : option (nat * Z) :=
  match k with
  | O => None
  | S k' =>
      match buf !! (len - 1)%nat with
      | None => None
      | Some b =>
          if Z.land (b2z b) 128 >? 0 then ReadVarInt_loop k' (S len) buf
          else
            let '(val, ok) := decodeVarInt (take len buf) in
            if ok then Some (len, val) else None
      end
  end.

(** [ReadVarInt] returns the bytes consumed and the value; [None] is the
    result [0, 0, false]. *)
Definition ReadVarInt (buf : bytes) : option (nat * Z) :=
  let max := if (length buf <? 5)%nat then length buf else 5%nat in
  ReadVarInt_loop max 1 buf.

(** One turn of the [for] loop of [EncodeVarInt] per unit of fuel. *)
Fixpoint EncodeVarInt_loop (fuel : nat) (u : Z) : option bytes :=
  match fuel with
  | O => None
  | S fuel' =>
      let b := Z.land u 127 in
      let u := Z.shiftr u 7 in
      let b := if u =? 0 then b else Z.lor b 128 in
      if u =? 0 then Some [z2b b]
      else cons (z2b b) <$> EncodeVarInt_loop fuel' u
  end.

Definition EncodeVarInt (i : Z) : bytes := default [] (EncodeVarInt_loop 5 (u32 i)).

(** ** Reference value of a list of 7-bit groups *)

Fixpoint groups_val (l : bytes) : Z :=
  match l with
  | [] => 0
  | b :: l' => b2z b mod 128 + 128 * groups_val l'
  end.

(** A complete var-int: every byte but the last carries the continuation bit. *)
Fixpoint terminated (l : bytes) : Prop :=
  match l with
  | [] => False
  | [b] => b2z b < 128
  | b :: l' => 128 <= b2z b /\ terminated l'
  end.

Lemma groups_val_nonneg l : 0 <= groups_val l.
Proof. induction l as [|b l IH]; simpl; [lia|]. pose proof (Z.mod_pos_bound (b2z b) 128). lia. Qed.

Lemma groups_val_bound l : groups_val l < 128 ^ Zlen l.
Proof.
  induction l as [|b l IH]; [done|]. cbn [groups_val]. unfold Zlen in *. cbn [length].
  rewrite Nat2Z.inj_succ, Z.pow_succ_r by lia.
  pose proof (Z.mod_pos_bound (b2z b) 128). lia.
Qed.

(** ** Correctness of the decoder *)

Lemma decode_group (acc g i : Z) :
  0 <= i <= 4 -> 0 <= acc < 2 ^ (7 * i) -> 0 <= g < 128 ->
  Z.lor acc (i32 (Z.shiftl g (7 * i))) = i32 (acc + g * 2 ^ (7 * i)).
Proof.
  intros Hi Ha Hg. rewrite Z.shiftl_mul_pow2 by lia.
  assert (i < 4 \/ i = 4) as [Hlt| ->] by lia.
  - assert (acc + g * 2 ^ (7 * i) < 2 ^ 28).
    { replace 28 with (7 * i + (28 - 7 * i)) by lia. rewrite Z.pow_add_r by lia.
      assert (2 ^ 7 <= 2 ^ (28 - 7 * i)) by (apply Z.pow_le_mono_r; lia).
      change (2 ^ 7) with 128 in *. nia. }
    rewrite !sintw_id; try lia.
    + by apply lor_disjoint_add; lia.
    + split; [nia|]. zpow. lia.
    + split; [nia|]. zpow. nia.
  - change (7 * 4) with 28 in *.
    assert (i32 (g * 2 ^ 28) = sintw 4 g * 2 ^ 28) as E by (int_lia).
    rewrite E, lor_disjoint_add by lia. int_lia.
Qed.

Lemma decodeVarInt_loop_spec (l : bytes) (i a : Z) :
  0 <= i -> i + Zlen l <= 5 -> 0 <= a < 2 ^ (7 * i) ->
  decodeVarInt_loop i (i32 a) l = i32 (a + groups_val l * 2 ^ (7 * i)).
Proof.
  revert i a. induction l as [|b l IH]; intros i a Hi Hl Ha;
    cbn [decodeVarInt_loop groups_val]; [f_equal; lia|].
  unfold Zlen in *. cbn [length] in Hl. rewrite Nat2Z.inj_succ in Hl.
  pose proof (Z.mod_pos_bound (b2z b) 128 ltac:(lia)) as Hg.
  assert (2 ^ (7 * i) <= 2 ^ 28) by (apply Z.pow_le_mono_r; lia).
  rewrite land_127. rewrite (sintw_id 32 a) by (try split; zpow; lia).
  rewrite decode_group by lia.
  assert (2 ^ (7 * (i + 1)) = 128 * 2 ^ (7 * i)) as E.
  { replace (7 * (i + 1)) with (7 + 7 * i) by lia. by rewrite Z.pow_add_r by lia. }
  rewrite IH by (try rewrite E; nia). rewrite E. f_equal. ring.
Qed.

Lemma decodeVarInt_spec (l : bytes) :
  (length l <= 5)%nat -> decodeVarInt l = (i32 (groups_val l), true).
Proof.
  intros Hl. unfold decodeVarInt. change 0 with (i32 0) at 2.
  rewrite decodeVarInt_loop_spec; [do 2 f_equal; lia|lia|unfold Zlen; lia|lia].
Qed.

Lemma terminated_length l : terminated l -> (1 <= length l)%nat.
Proof. destruct l; simpl; [done|lia]. Qed.

Lemma high_bit_gt (b : byte) : (Z.land (b2z b) 128 >? 0) = negb (b2z b <? 128).
Proof. by destruct b. Qed.

(** The scan for the terminating byte, on a buffer that starts with [p]
    continuation bytes already inspected. *)
Lemma ReadVarInt_loop_spec (l p rest : bytes) (k : nat) :
  terminated l -> (length l <= k)%nat -> (length (p ++ l) <= 5)%nat ->
  ReadVarInt_loop k (S (length p)) (p ++ l ++ rest)
  = Some (length (p ++ l), i32 (groups_val (p ++ l))).
Proof.
  revert p k. induction l as [|b l IH]; intros p k Ht Hk Hlen; [done|].
  destruct k as [|k]; [simpl in Hk; lia|]. cbn [ReadVarInt_loop].
  replace (S (length p) - 1)%nat with (length p) by lia.
  rewrite lookup_app_r, Nat.sub_diag by lia. cbn [lookup list_lookup app].
  rewrite high_bit_gt. destruct l as [|c l].
  - simpl in Ht. rewrite (proj2 (Z.ltb_lt _ _)) by lia. cbn [negb].
    replace (p ++ b :: [] ++ rest) with ((p ++ [b]) ++ rest) by (by rewrite <- app_assoc).
    replace (S (length p)) with (length (p ++ [b])) by (rewrite length_app; simpl; lia).
    rewrite take_app_length. by rewrite decodeVarInt_spec.
  - destruct Ht as [Hb Ht]. rewrite (proj2 (Z.ltb_ge _ _)) by lia. cbn [negb].
    specialize (IH (p ++ [b]) k Ht).
    rewrite <- !app_assoc in IH. cbn [app] in IH.
    replace (length (p ++ [b])) with (S (length p)) in IH by (rewrite length_app; simpl; lia).
    apply IH; [simpl in *; lia|done].
Qed.

Lemma ReadVarInt_terminated (l rest : bytes) :
  terminated l -> (length l <= 5)%nat ->
  ReadVarInt (l ++ rest) = Some (length l, i32 (groups_val l)).
Proof.
  intros Ht Hl. unfold ReadVarInt.
  apply (ReadVarInt_loop_spec l [] rest); [done| |done].
  rewrite length_app. destruct (Nat.ltb_spec (length l + length rest) 5); lia.
Qed.

(** Conversely a successful read found a complete var-int of at most five
    bytes at the front of the buffer. *)
Lemma ReadVarInt_loop_inv k p (l : bytes) n v :
  (k <= length l)%nat -> (length p + k <= 5)%nat ->
  ReadVarInt_loop k (S (length p)) (p ++ l) = Some (n, v) ->
  exists t rest, l = t ++ rest /\ terminated t /\ n = length (p ++ t)
            /\ (n <= 5)%nat /\ v = i32 (groups_val (p ++ t)).
Proof.
  revert p l. induction k as [|k IH]; intros p l Hk Hp; [done|].
  destruct l as [|b l]; [simpl in Hk; lia|]. cbn [ReadVarInt_loop].
  replace (S (length p) - 1)%nat with (length p) by lia.
  rewrite lookup_app_r, Nat.sub_diag by lia. cbn [lookup list_lookup].
  rewrite high_bit_gt. destruct (b2z b <? 128) eqn:Eb; cbn [negb].
  - replace (p ++ b :: l) with ((p ++ [b]) ++ l) by (by rewrite <- app_assoc).
    replace (S (length p)) with (length (p ++ [b])) by (rewrite length_app; simpl; lia).
    rewrite take_app_length, decodeVarInt_spec by (rewrite length_app; simpl; lia).
    intros [= <- <-]. exists [b], l. apply Z.ltb_lt in Eb.
    rewrite length_app. simpl. repeat split; [done|lia].
  - intros Hr. replace (p ++ b :: l) with ((p ++ [b]) ++ l) in Hr by (by rewrite <- app_assoc).
    replace (S (S (length p))) with (S (length (p ++ [b]))) in Hr by (rewrite length_app; simpl; lia).
    apply IH in Hr as (t & rest & -> & Ht & -> & Hn & ->);
      [|simpl in *; lia|rewrite length_app; simpl; lia].
    apply Z.ltb_ge in Eb. exists (b :: t), rest.
    rewrite <- app_assoc in *. cbn [app] in *.
    split; [done|]. split; [by destruct t; [done|split; [lia|]]|]. done.
Qed.

Lemma ReadVarInt_inv buf n v :
  ReadVarInt buf = Some (n, v) ->
  exists t rest, buf = t ++ rest /\ terminated t /\ n = length t /\ (n <= 5)%nat
            /\ v = i32 (groups_val t).
Proof.
  unfold ReadVarInt. intros Hr.
  apply (ReadVarInt_loop_inv _ [] buf) in Hr; [exact Hr| |];
    destruct (Nat.ltb_spec (length buf) 5); cbn [length]; lia.
Qed.

(** ** Correctness of the encoder *)

Lemma EncodeVarInt_loop_spec fuel u :
  0 <= u < 128 ^ Z.of_nat fuel -> (0 < fuel)%nat ->
  exists l, EncodeVarInt_loop fuel u = Some l /\ terminated l /\ groups_val l = u
       /\ (length l <= fuel)%nat /\ (u = 0 \/ 128 ^ (Zlen l - 1) <= u).
Proof.
  revert u. induction fuel as [|fuel IH]; intros u Hu Hf; [lia|].
  cbn [EncodeVarInt_loop]. rewrite land_127, Z.shiftr_div_pow2 by lia.
  change (2 ^ 7) with 128. rewrite Nat2Z.inj_succ, Z.pow_succ_r in Hu by lia.
  pose proof (Z.mod_pos_bound u 128 ltac:(lia)) as Hm.
  pose proof (Z.div_mod u 128 ltac:(lia)) as Hd.
  destruct (Z.eqb_spec (u / 128) 0) as [E|E].
  - exists [z2b (u mod 128)]. cbn [terminated groups_val length]. unfold Zlen. cbn [length].
    rewrite b2z_z2b_small, Z.mod_mod by lia. change (Z.of_nat 1 - 1) with 0.
    repeat split; lia.
  - destruct (IH (u / 128)) as (l & -> & Ht & Hg & Hl & Hmin);
      [split; [apply Z.div_pos; lia|apply Z.div_lt_upper_bound; lia]
      |destruct fuel; [exfalso; apply E; simpl in Hu; apply Z.div_small; lia|lia]|].
    exists (z2b (Z.lor (u mod 128) 128) :: l).
    assert (Z.lor (u mod 128) 128 = u mod 128 + 128) as Elor.
    { change 128 with (1 * 2 ^ 7) at 2 4. by apply lor_disjoint_add; lia. }
    assert (b2z (z2b (u mod 128 + 128)) = u mod 128 + 128) as Eb by (apply b2z_z2b_small; lia).
    split; [done|]. rewrite Elor. split; [|split; [|split]].
    + destruct l; [done|]. split; [rewrite Eb; lia|done].
    + cbn [groups_val]. rewrite Eb, Hg. Z.to_euclidean_division_equations; lia.
    + simpl; lia.
    + right. destruct Hmin as [|Hmin]; [lia|]. unfold Zlen in *. cbn [length].
      pose proof (terminated_length _ Ht).
      replace (Z.of_nat (S (length l)) - 1) with (1 + (Z.of_nat (length l) - 1)) by lia.
      rewrite Z.pow_add_r by lia. change (128 ^ 1) with 128. lia.
Qed.

Lemma EncodeVarInt_spec i :
  terminated (EncodeVarInt i) /\ groups_val (EncodeVarInt i) = u32 i
  /\ (length (EncodeVarInt i) <= 5)%nat
  /\ (u32 i = 0 \/ 128 ^ (Zlen (EncodeVarInt i) - 1) <= u32 i).
Proof.
  unfold EncodeVarInt.
  destruct (EncodeVarInt_loop_spec 5 (u32 i)) as (l & -> & H); [|lia|exact H].
  pose proof (uintw_range 32 i ltac:(lia)) as [H1 H2]. split; [done|].
  eapply Z.lt_trans; [apply H2|done].
Qed.

Lemma EncodeVarInt_length i : (1 <= length (EncodeVarInt i) <= 5)%nat.
Proof.
  destruct (EncodeVarInt_spec i) as (Ht & _ & Hl & _).
  pose proof (terminated_length _ Ht). lia.
Qed.

Lemma ReadVarInt_EncodeVarInt_app (i : Z) (rest : bytes) :
  is_i32 i ->
  ReadVarInt (EncodeVarInt i ++ rest) = Some (length (EncodeVarInt i), i).
Proof.
  intros Hi. destruct (EncodeVarInt_spec i) as (Ht & Hv & Hl & _).
  rewrite ReadVarInt_terminated by done. by rewrite Hv, sintw_uintw.
Qed.

(** ** Facts other components use *)

Lemma ReadVarInt_bounds buf n v :
  ReadVarInt buf = Some (n, v) -> (1 <= n <= 5)%nat /\ (n <= length buf)%nat /\ is_i32 v.
Proof.
  intros (t & rest & -> & Ht & -> & Hn & ->)%ReadVarInt_inv.
  pose proof (terminated_length _ Ht). rewrite length_app.
  split; [lia|]. split; [lia|]. by apply sintw_range.
Qed.

(** Bytes after the var-int do not influence the result. *)
Lemma ReadVarInt_prefix buf n v rest :
  ReadVarInt buf = Some (n, v) -> ReadVarInt (take n buf ++ rest) = Some (n, v).
Proof.
  intros (t & r & -> & Ht & -> & Hn & ->)%ReadVarInt_inv.
  rewrite take_app_length. by apply ReadVarInt_terminated.
Qed.

Lemma ReadVarInt_app buf n v rest :
  ReadVarInt buf = Some (n, v) -> ReadVarInt (buf ++ rest) = Some (n, v).
Proof.
  intros H. pose proof (ReadVarInt_prefix _ _ _ (drop n buf ++ rest) H) as E.
  by rewrite app_assoc, take_drop in E.
Qed.

(** The encoder produces the shortest encoding of a value. *)
Lemma EncodeVarInt_shortest buf n v :
  ReadVarInt buf = Some (n, v) -> (length (EncodeVarInt v) <= n)%nat.
Proof.
  intros (t & r & -> & Ht & -> & Hn & ->)%ReadVarInt_inv.
  set (v := i32 (groups_val t)).
  destruct (EncodeVarInt_spec v) as (_ & _ & Hl & Hmin).
  assert (length t = 5 \/ length t < 5)%nat as [->|Ht5] by lia; [done|].
  assert (u32 v = groups_val t) as Ev.
  { apply uintw_sintw; [done|]. pose proof (groups_val_nonneg t).
    pose proof (groups_val_bound t). split; [done|].
    assert (128 ^ Zlen t <= 128 ^ 4) by (apply Z.pow_le_mono_r; unfold Zlen; lia).
    change (128 ^ 4) with 268435456 in *. zpow. lia. }
  pose proof (terminated_length _ Ht). rewrite Ev in Hmin.
  destruct Hmin as [E0|Hmin].
  - unfold EncodeVarInt. rewrite Ev, E0. change (1 <= length t)%nat. lia.
  - pose proof (groups_val_bound t) as Hb.
    apply Nat.nlt_ge. intros Hlt.
    assert (128 ^ Zlen t <= 128 ^ (Zlen (EncodeVarInt v) - 1)); [|lia].
    apply Z.pow_le_mono_r; unfold Zlen; lia.
Qed.

(** [ReadVarInt] fails exactly when none of the first five bytes of the
    buffer ends a var-int, i.e. all of the (at most five) available bytes
    carry the continuation bit. *)
Lemma ReadVarInt_fails_iff (buf : bytes) :
  ReadVarInt buf = None <-> Forall (fun b => 128 <= b2z b) (take 5 buf).
Proof.
  split.
  - intros Hn. destruct (decide (Forall (fun b => 128 <= b2z b) (take 5 buf))) as [|Hf]; [done|].
    exfalso. apply not_Forall_Exists in Hf; [|apply _].
    enough (exists t r, take 5 buf = t ++ r /\ terminated t) as (t & r & E & Ht).
    { rewrite <- (take_drop 5 buf), E, <- app_assoc in Hn.
      assert (length t <= 5)%nat.
      { pose proof (f_equal length E) as El. rewrite length_take, length_app in El. lia. }
      by rewrite ReadVarInt_terminated in Hn. }
    clear Hn. induction Hf as [b l Hb|b l Hex (t & r & -> & Ht)].
    + exists [b], l. split; [done|]. cbn [terminated]. by apply Z.nle_gt.
    + destruct (decide (128 <= b2z b)).
      * exists (b :: t), r. split; [done|]. destruct t; [done|]. by split.
      * exists [b], (t ++ r). split; [done|]. cbn [terminated]. lia.
  - intros Hf. destruct (ReadVarInt buf) as [[n v]|] eqn:E; [|done]. exfalso.
    apply ReadVarInt_inv in E as (t & r & -> & Ht & -> & Hn & _).
    rewrite take_app_ge, Forall_app in Hf by lia. destruct Hf as [Hf _]. cbn beta in Hf.
    clear Hn. induction t as [|b t IH]; [done|]. inversion Hf; subst.
    destruct t; [simpl in Ht; lia|]. apply IH; [done|apply Ht].
Qed.

(** ** Properties *)

(** Every [int32] survives [EncodeVarInt] followed by [ReadVarInt],
    whatever bytes follow it on the wire; [ReadVarInt] reports exactly the
    encoded length; and no other byte string that decodes to the same value
    is shorter than the one [EncodeVarInt] writes. *)
Lemma varint_roundtrip (i : Z) (rest : bytes) :
  is_i32 i ->
  ReadVarInt (EncodeVarInt i ++ rest) = Some (length (EncodeVarInt i), i)
  /\ (1 <= length (EncodeVarInt i) <= 5)%nat
  /\ forall buf n, ReadVarInt buf = Some (n, i) -> (length (EncodeVarInt i) <= n)%nat.
Proof.
  intros Hi. split; [by apply ReadVarInt_EncodeVarInt_app|].
  split; [apply EncodeVarInt_length|]. intros buf n. apply EncodeVarInt_shortest.
Qed.

Lemma varint_roundtrip_witness :
  ReadVarInt (EncodeVarInt (-1) ++ [x2a]) = Some (5%nat, -1).
Proof. exact (proj1 (varint_roundtrip (-1) [x2a] ltac:(split; vm_compute; congruence))). Defined.
