(* ===== verification/Wire.v ===== *)
(** * Wire: field readers and writers of the protocol

    Models [PacketWriter] of [src/proto/encode.go] and [packetReader] of
    [src/proto/packets.go]. A writer is its byte buffer; a reader is the byte
    slice with a position, and every reading method returns its result
    together with the reader it leaves behind. [None] is the [ok=false]
    result.

    The class [Codec] is the contract between the two sides: a reader and a
    writer of the same field are inverse, at every position of every buffer. *)

From S2P Require Import Prelude VarInt.

(** ** PacketWriter *)

Record PacketWriter := { wbuf : bytes }.

Definition NewPacketWriter : PacketWriter := {| wbuf := [] |}.

(** [w |> f] is the call statement [w.f(...)]. *)
Notation "w |> f" := (f w) (at level 50, left associativity, only parsing).

Definition Bytes (w : PacketWriter) : bytes := wbuf w.

Definition Write (b : bytes) (w : PacketWriter) : PacketWriter := {| wbuf := wbuf w ++ b |}.

Definition WriteU8 (b : byte) (w : PacketWriter) : PacketWriter := {| wbuf := wbuf w ++ [b] |}.

Definition WriteBool (b : bool) (w : PacketWriter) : PacketWriter :=
  if b then {| wbuf := wbuf w ++ [x01] |} else {| wbuf := wbuf w ++ [x00] |}.

Definition WriteUint16 (v : Z) (w : PacketWriter) : PacketWriter := {| wbuf := wbuf w ++ be_bytes 2 v |}.
Definition WriteInt16 (v : Z) (w : PacketWriter) : PacketWriter := {| wbuf := wbuf w ++ be_bytes 2 (u16 v) |}.
Definition WriteUint32 (v : Z) (w : PacketWriter) : PacketWriter := {| wbuf := wbuf w ++ be_bytes 4 v |}.
Definition WriteInt32 (v : Z) (w : PacketWriter) : PacketWriter := {| wbuf := wbuf w ++ be_bytes 4 (u32 v) |}.
Definition WriteUint64 (v : Z) (w : PacketWriter) : PacketWriter := {| wbuf := wbuf w ++ be_bytes 8 v |}.
Definition WriteInt64 (v : Z) (w : PacketWriter) : PacketWriter := {| wbuf := wbuf w ++ be_bytes 8 (u64 v) |}.

(** A [float32] or [float64] is its IEEE 754 bit pattern, so
    [math.Float32bits] and [math.Float64bits] are the identity. *)
Definition WriteFloat32 (bits : Z) (w : PacketWriter) : PacketWriter := WriteUint32 bits w.
Definition WriteFloat64 (bits : Z) (w : PacketWriter) : PacketWriter := WriteUint64 bits w.

Definition WriteVarInt (v : Z) (w : PacketWriter) : PacketWriter := Write (EncodeVarInt v) w.

Definition WriteString (s : bytes) (w : PacketWriter) : PacketWriter :=
  w |> WriteVarInt (i32 (Zlen s)) |> Write s.

Definition WriteByteArray (b : bytes) (w : PacketWriter) : PacketWriter :=
  w |> WriteVarInt (i32 (Zlen b)) |> Write b.

(** ** packetReader *)

Record packetReader := mkReader { rdata : bytes; rpos : nat }.

(** A reading method: its result and the reader afterwards. *)
Definition Rd (A : Type) : Type := packetReader -> option A * packetReader.

#[export] Instance Rd_ret : MRet Rd := fun A a r => (Some a, r).
#[export] Instance Rd_bind : MBind Rd := fun A B k m r =>
  match m r with
  | (Some a, r') => k a r'
  | (None, r') => (None, r')
  end.

Definition remaining (r : packetReader) : Z := Zlen (rdata r) - Z.of_nat (rpos r).

(** [r.data[r.pos : r.pos+n]], the unread suffix and the position update. *)
Definition unread (r : packetReader) : bytes := drop (rpos r) (rdata r).
Definition advance (n : nat) (r : packetReader) : packetReader := mkReader (rdata r) (rpos r + n).

(** The [for i := 0; i < 5; i++] loop of [varInt]; [k] iterations are left. *)
Fixpoint varInt_loop (k : nat) (i result : Z) : Rd Z := fun r =>
  match k with
  | O => (None, r)
  | S k' =>
      match rdata r !! rpos r with
      | None => (None, r)
      | Some b =>
          let r := advance 1 r in
          let result := Z.lor result (i32 (Z.shiftl (Z.land (b2z b) 127) (7 * i))) in
          if Z.land (b2z b) 128 =? 0 then (Some result, r)
          else varInt_loop k' (i + 1) result r
      end
  end.

Definition varInt : Rd Z := varInt_loop 5 0 0.

Definition read_u8 : Rd byte := fun r =>
  if remaining r <? 1 then (None, r)
  else match rdata r !! rpos r with
       | Some v => (Some v, advance 1 r)
       | None => (None, r)
       end.

Definition read_bool : Rd bool := fun r =>
  if remaining r <? 1 then (None, r)
  else match rdata r !! rpos r with
       | Some v => (Some (negb (b2z v =? 0)), advance 1 r)
       | None => (None, r)
       end.

(** The fixed-width readers share the length check and the big-endian load. *)
Definition read_be (n : nat) : Rd Z := fun r =>
  if remaining r <? Z.of_nat n then (None, r)
  else (Some (be_val (take n (unread r))), advance n r).

Definition read_u16 : Rd Z := read_be 2.
Definition read_u64 : Rd Z := read_be 8.
Definition read_i64 : Rd Z := v ← read_be 8; mret (i64 v).

Definition read_str (maxLen : Z) : Rd bytes := fun r =>
  match varInt r with
  | (None, r) => (None, r)
  | (Some n, r) =>
      if (n <? 0) || (remaining r <? n) || (maxLen <? n) then (None, r)
      else (Some (take (Z.to_nat n) (unread r)), advance (Z.to_nat n) r)
  end.

Definition rest : Rd bytes := fun r => (Some (unread r), mkReader (rdata r) (length (rdata r))).

(** Running a decoder on a fresh reader over [data]. *)
Definition decode_with {A} (m : Rd A) (data : bytes) : option A := fst (m (mkReader data 0)).

(** ** The codec contract *)

(** [reads m e a]: wherever the unread bytes start with [e], the reader [m]
    returns [a] and stops right after [e]. *)
Definition reads {A} (m : Rd A) (e : bytes) (a : A) : Prop :=
  forall d p tail, drop p d = e ++ tail -> m (mkReader d p) = (Some a, mkReader d (p + length e)).

Class Codec {A} (ok : A -> Prop) (enc : A -> bytes) (dec : Rd A) : Prop :=
  codec_reads : forall a, ok a -> reads dec (enc a) a.

(** The bytes a writer method appends. *)
Definition appends (f : PacketWriter -> PacketWriter) (e : bytes) : Prop :=
  forall w, wbuf (f w) = wbuf w ++ e.

Create HintDb wire.

Lemma reads_ret {A} (a : A) : reads (mret a) [] a.
Proof. intros d p tail _. cbn. by rewrite Nat.add_0_r. Qed.

Lemma drop_add_app {A} (d e tail : list A) (p : nat) :
  drop p d = e ++ tail -> drop (p + length e) d = tail.
Proof. intros E. by rewrite <- drop_drop, E, drop_app_length. Qed.

Lemma reads_bind {A B} (m : Rd A) (k : A -> Rd B) e1 e2 a b :
  reads m e1 a -> reads (k a) e2 b -> reads (m ≫= k) (e1 ++ e2) b.
Proof.
  intros H1 H2 d p tail E. rewrite <- app_assoc in E.
  unfold mbind, Rd_bind. rewrite (H1 _ _ _ E).
  rewrite (H2 d (p + length e1)%nat tail) by (by eapply drop_add_app).
  by rewrite length_app, Nat.add_assoc.
Qed.

(** Variant for a last field, whose encoding is not followed by an append. *)
Lemma reads_bind_ret {A B} (m : Rd A) (f : A -> B) e a :
  reads m e a -> reads (x ← m; mret (f x)) e (f a).
Proof.
  intros H. rewrite <- (app_nil_r e). eapply reads_bind; [done|]. apply reads_ret.
Qed.

Lemma reads_decode {A} (m : Rd A) e a : reads m e a -> decode_with m e = Some a.
Proof.
  intros H. unfold decode_with. rewrite (H e 0%nat []); [done|]. by rewrite app_nil_r.
Qed.

Lemma drop_lookup {A} (d : list A) p x l : drop p d = x :: l -> d !! p = Some x.
Proof. intros E. rewrite <- (Nat.add_0_r p), <- lookup_drop, E. done. Qed.

(** ** varInt agrees with ReadVarInt *)

Lemma advance_mk n d p : advance n (mkReader d p) = mkReader d (p + n).
Proof. done. Qed.

Lemma varInt_loop_terminated (t : bytes) k i acc d p tail :
  terminated t -> (length t <= k)%nat -> drop p d = t ++ tail ->
  varInt_loop k i acc (mkReader d p)
  = (Some (decodeVarInt_loop i acc t), mkReader d (p + length t)).
Proof.
  revert k i acc p. induction t as [|b t IH]; intros k i acc p Ht Hk Hd; [done|].
  destruct k as [|k]; [simpl in Hk; lia|]. cbn [varInt_loop rdata rpos].
  rewrite (drop_lookup _ _ _ _ Hd), land_128_spec. cbn [decodeVarInt_loop].
  assert (drop (p + 1) d = t ++ tail) as Hd'.
  { rewrite <- drop_drop, Hd. done. }
  destruct t as [|c t].
  - rewrite (proj2 (Z.ltb_lt _ _)) by apply Ht. done.
  - destruct Ht as [Hb Ht]. rewrite (proj2 (Z.ltb_ge _ _)) by lia.
    rewrite advance_mk, (IH k); [|done|simpl in *; lia|done].
    f_equal. f_equal. cbn [length]. lia.
Qed.

Lemma varInt_loop_unterminated k i acc d p :
  Forall (fun b => 128 <= b2z b) (take k (drop p d)) ->
  exists p', varInt_loop k i acc (mkReader d p) = (None, mkReader d p').
Proof.
  revert i acc p. induction k as [|k IH]; intros i acc p Hf; cbn [varInt_loop]; [eauto|].
  cbn [rdata rpos]. destruct (d !! p) as [b|] eqn:E; [|eauto].
  rewrite (drop_S _ _ _ E) in Hf. cbn [take] in Hf. inversion Hf; subst.
  rewrite land_128_spec, (proj2 (Z.ltb_ge _ _)) by lia.
  rewrite advance_mk. apply IH. by rewrite Nat.add_1_r.
Qed.

(** The two var-int decoders of the code base agree: the streaming one of the
    readers and the buffer one of the framing layer. *)
Lemma varInt_ReadVarInt d p :
  match ReadVarInt (drop p d) with
  | Some (n, v) => varInt (mkReader d p) = (Some v, mkReader d (p + n))
  | None => exists p', varInt (mkReader d p) = (None, mkReader d p')
  end.
Proof.
  destruct (ReadVarInt (drop p d)) as [[n v]|] eqn:E.
  - apply ReadVarInt_inv in E as (t & tail & E & Ht & -> & Hn & ->).
    unfold varInt. rewrite (varInt_loop_terminated t 5 0 0 d p tail) by done.
    pose proof (decodeVarInt_spec t Hn) as Hd. unfold decodeVarInt in Hd. congruence.
  - by apply varInt_loop_unterminated, ReadVarInt_fails_iff.
Qed.

Lemma varInt_read d p n v :
  ReadVarInt (drop p d) = Some (n, v) -> varInt (mkReader d p) = (Some v, mkReader d (p + n)).
Proof. intros E. pose proof (varInt_ReadVarInt d p) as H. by rewrite E in H. Qed.

(** ** Instances of the contract *)

#[export] Instance varInt_codec : Codec is_i32 EncodeVarInt varInt.
Proof.
  intros v Hv d p tail E. apply varInt_read. rewrite E.
  by apply ReadVarInt_EncodeVarInt_app.
Qed.

Lemma remaining_unread d p e tail :
  drop p d = e ++ tail -> e <> [] -> remaining (mkReader d p) = Zlen e + Zlen tail.
Proof.
  intros E He. unfold remaining, Zlen. cbn [rdata rpos].
  pose proof (f_equal length E) as El. rewrite length_drop, length_app in El.
  destruct e; [done|]. cbn [length] in *. lia.
Qed.

Definition bool_enc (b : bool) : bytes := [if b then x01 else x00].

#[export] Instance bool_codec : Codec (fun _ => True) bool_enc read_bool.
Proof.
  intros b _ d p tail E. unfold read_bool. rewrite (remaining_unread d p _ _ E) by done.
  destruct (Z.ltb_spec (Zlen (bool_enc b) + Zlen tail) 1) as [H|H];
    [unfold Zlen in H; simpl in H; lia|].
  cbn [rdata rpos]. rewrite (drop_lookup d p _ _ E), advance_mk. by destruct b.
Qed.

#[export] Instance u8_codec : Codec (fun _ => True) (fun b => [b]) read_u8.
Proof.
  intros b _ d p tail E. unfold read_u8. rewrite (remaining_unread d p _ _ E) by done.
  destruct (Z.ltb_spec (Zlen [b] + Zlen tail) 1) as [H|H];
    [unfold Zlen in H; simpl in H; lia|].
  cbn [rdata rpos]. by rewrite (drop_lookup d p _ _ E).
Qed.

Lemma read_be_reads n (e : bytes) : length e = n -> (0 < n)%nat -> reads (read_be n) e (be_val e).
Proof.
  intros <- Hn d p tail E. unfold read_be.
  rewrite (remaining_unread d p _ _ E) by (by intros ->; simpl in Hn; lia).
  unfold Zlen. rewrite (proj2 (Z.ltb_ge _ _)) by lia.
  unfold unread. cbn [rdata rpos]. by rewrite E, take_app_length.
Qed.

Lemma be_codec_reads n v :
  (0 < n)%nat -> 0 <= v < 256 ^ Z.of_nat n -> reads (read_be n) (be_bytes n v) v.
Proof.
  intros Hn Hv. rewrite <- (Z.mod_small v (256 ^ Z.of_nat n)) at 2 by done.
  rewrite <- be_val_bytes. apply read_be_reads; [apply be_bytes_length|done].
Qed.

#[export] Instance u16_codec : Codec is_u16 (be_bytes 2) read_u16.
Proof. intros v Hv. apply be_codec_reads; [lia|exact Hv]. Qed.

#[export] Instance u64_codec : Codec is_u64 (be_bytes 8) read_u64.
Proof. intros v Hv. apply be_codec_reads; [lia|exact Hv]. Qed.

#[export] Instance i64_codec : Codec is_i64 (fun v => be_bytes 8 (u64 v)) read_i64.
Proof.
  intros v Hv. unfold read_i64. rewrite <- (sintw_uintw 64 v) at 2 by done.
  apply (reads_bind_ret (read_be 8) i64). apply be_codec_reads; [lia|].
  by apply (uintw_range 64).
Qed.

(** What [WriteString] and [WriteByteArray] put on the wire. *)
Definition str_enc (s : bytes) : bytes := EncodeVarInt (i32 (Zlen s)) ++ s.

Lemma str_codec_reads maxLen s :
  Zlen s <= maxLen -> Zlen s < 2 ^ 31 -> reads (read_str maxLen) (str_enc s) s.
Proof.
  intros Hm Hs d p tail E. unfold str_enc in *. rewrite <- app_assoc in E.
  assert (is_i32 (Zlen s)) as Hi by (unfold is_sint, Zlen in *; zpow; lia).
  rewrite sintw_id in * by done.
  unfold read_str. rewrite (codec_reads (Zlen s) Hi d p _ E).
  pose proof (drop_add_app _ _ _ _ E) as E2.
  set (q := (p + length (EncodeVarInt (Zlen s)))%nat) in *.
  assert (Zlen s <= remaining (mkReader d q)) as Hr.
  { unfold remaining, Zlen. cbn [rdata rpos].
    pose proof (f_equal length E2) as El. rewrite length_drop, length_app in El.
    destruct (decide (q <= length d)%nat); [lia|].
    assert (length s = 0)%nat by lia.
    exfalso. apply (f_equal length) in E. rewrite length_drop, !length_app in E.
    pose proof (EncodeVarInt_length (Zlen s)). lia. }
  rewrite (proj2 (Z.ltb_ge (Zlen s) 0)) by (unfold Zlen; lia).
  rewrite (proj2 (Z.ltb_ge _ (Zlen s))) by done.
  rewrite (proj2 (Z.ltb_ge maxLen _)) by done. cbn [orb].
  unfold unread, advance. cbn [rdata rpos]. rewrite E2.
  unfold Zlen. rewrite Nat2Z.id, take_app_length. f_equal. f_equal.
  unfold q. rewrite length_app. unfold Zlen. lia.
Qed.

#[export] Instance str_codec maxLen :
  Codec (fun s => Zlen s <= maxLen /\ Zlen s < 2 ^ 31) str_enc (read_str maxLen).
Proof. intros s [H1 H2]. by apply str_codec_reads. Qed.

Lemma rest_reads d p e : drop p d = e -> rest (mkReader d p) = (Some e, mkReader d (length d)).
Proof. intros <-. done. Qed.

Lemma appends_comp f g e1 e2 : appends f e1 -> appends g e2 -> appends (fun w => g (f w)) (e1 ++ e2).
Proof. intros H1 H2 w. by rewrite H2, H1, app_assoc. Qed.

Lemma appends_WriteString s : appends (WriteString s) (str_enc s).
Proof. intros w. cbn. by rewrite <- app_assoc. Qed.

(** Rewriting with [wbuf_*] computes the bytes of a sequence of writes. *)
Lemma wbuf_Write b w : wbuf (Write b w) = wbuf w ++ b. Proof. done. Qed.
Lemma wbuf_WriteU8 b w : wbuf (WriteU8 b w) = wbuf w ++ [b]. Proof. done. Qed.
Lemma wbuf_WriteBool b w : wbuf (WriteBool b w) = wbuf w ++ bool_enc b. Proof. by destruct b. Qed.
Lemma wbuf_WriteUint16 v w : wbuf (WriteUint16 v w) = wbuf w ++ be_bytes 2 v. Proof. done. Qed.
Lemma wbuf_WriteUint64 v w : wbuf (WriteUint64 v w) = wbuf w ++ be_bytes 8 v. Proof. done. Qed.
Lemma wbuf_WriteVarInt v w : wbuf (WriteVarInt v w) = wbuf w ++ EncodeVarInt v. Proof. done. Qed.
Lemma wbuf_WriteString s w : wbuf (WriteString s w) = wbuf w ++ str_enc s.
Proof. apply appends_WriteString. Qed.
Lemma wbuf_New : wbuf NewPacketWriter = []. Proof. done. Qed.

Create Rewrite HintDb wire.

#[export] Hint Rewrite wbuf_Write wbuf_WriteU8 wbuf_WriteBool wbuf_WriteUint16
  wbuf_WriteUint64 wbuf_WriteVarInt wbuf_WriteString wbuf_New : wire.
#[export] Hint Resolve reads_ret : wire.

(** [wire_bytes] normalises the buffer of a writer to a flat append. *)
Ltac wire_bytes :=
  unfold Bytes; autorewrite with wire; rewrite ?app_nil_l, <- ?app_assoc.

(** [wire_reads] proves [reads] of a monadic reader field by field. *)
Ltac wire_reads :=
  repeat first
    [ by apply codec_reads
    | apply str_codec_reads; [lia|lia]
    | apply reads_ret
    | apply reads_bind_ret
    | eapply reads_bind ].

(** ** Properties *)

(** The streaming var-int decoder of the packet readers agrees with the
    buffer decoder [ReadVarInt] of the framing layer at every position: it
    succeeds exactly when [ReadVarInt] does on the unread bytes, with the
    same value, and advances by the number of bytes [ReadVarInt] reports. *)
Lemma varInt_agrees_ReadVarInt (d : bytes) (p : nat) :
  match ReadVarInt (drop p d) with
  | Some (n, v) => varInt (mkReader d p) = (Some v, mkReader d (p + n))
  | None => exists p', varInt (mkReader d p) = (None, mkReader d p')
  end.
Proof. apply varInt_ReadVarInt. Qed.

(** [str] never reads past its bounds: a string it returns is exactly the
    bytes that follow the length prefix, no longer than [maxLen], and lies
    completely inside the data. *)
Lemma read_str_sound (d s : bytes) (p : nat) (maxLen : Z) (r : packetReader) :
  read_str maxLen (mkReader d p) = (Some s, r) ->
  exists n, ReadVarInt (drop p d) = Some (n, Zlen s) /\ Zlen s <= maxLen
       /\ take (length s) (drop (p + n) d) = s
       /\ r = mkReader d (p + n + length s) /\ (p + n + length s <= length d)%nat.
Proof.
  unfold read_str. pose proof (varInt_ReadVarInt d p) as Hv.
  destruct (ReadVarInt (drop p d)) as [[n v]|] eqn:E; cycle 1.
  { by destruct Hv as [p' ->]. }
  rewrite Hv. destruct (_ || _) eqn:Eg; [done|]. intros [= <- <-].
  apply orb_false_iff in Eg as [[Hn Hr]%orb_false_iff Hm].
  apply Z.ltb_ge in Hn, Hr, Hm.
  unfold remaining, Zlen in Hr. cbn [rdata rpos] in Hr.
  assert (length (take (Z.to_nat v) (drop (p + n) d)) = Z.to_nat v) as El.
  { rewrite length_take, length_drop. lia. }
  unfold unread, advance, Zlen. cbn [rdata rpos]. rewrite El.
  exists n. rewrite Z2Nat.id by done.
  apply ReadVarInt_bounds in E as (? & ? & ?). rewrite length_drop in *.
  repeat split; try done; lia.
Qed.

Lemma read_str_sound_witness :
  exists n, ReadVarInt [x02; x68; x69; x21] = Some (n, 2) /\ 2 <= 16
       /\ take 2 (drop (0 + n) [x02; x68; x69; x21]) = [x68; x69]
       /\ mkReader [x02; x68; x69; x21] 3 = mkReader [x02; x68; x69; x21] (0 + n + 2)
       /\ (0 + n + 2 <= 4)%nat.
Proof.
  apply (read_str_sound [x02; x68; x69; x21] [x68; x69] 0 16
           (mkReader [x02; x68; x69; x21] 3)).
  reflexivity.
Defined.
