(* ===== verification/Packet.v ===== *)
(** * Packet: connection state, raw packets and compression

    Models [src/proto/client.go] ([ClientState], [Client]),
    [src/proto/packet.go] ([RawPacket] with its encoders and decoders),
    [src/proto/zlib.go] and [Kick] of [src/proto/action.go].

    The deflate codec of Go's [compress/zlib] is the class [Zlib]: what the
    writer produces for a payload, and what [io.ReadAll] over a limited reader
    returns for a compressed stream. [ZlibLaws] states the documented
    behaviour the framing relies on. *)

From S2P Require Import Prelude VarInt Wire.

(** ** Client *)

Inductive ClientState :=
| ClientStateHandshake
| ClientStateStatus
| ClientStateLogin
| ClientStatePlay.

#[export] Instance ClientState_eq_dec : EqDecision ClientState.
Proof. solve_decision. Defined.

(** [FromID] returns the receiver unchanged on an unknown id. *)
Definition FromID (s : ClientState) (id : Z) : ClientState * bool :=
  if id =? 0 then (ClientStateHandshake, true)
  else if id =? 1 then (ClientStateStatus, true)
  else if id =? 2 then (ClientStateLogin, true)
  else (s, false).

Definition ToID (s : ClientState) : Z :=
  match s with
  | ClientStateHandshake => 0
  | ClientStateStatus => 1
  | ClientStateLogin => 2
  | ClientStatePlay => -1
  end.

(** The compression threshold of the lobby ([src/proto/proto.go]). *)
Definition CompressionThreshold : Z := 256.

(** The peer address is the string form the code uses of it. *)
Record Client := mkClient {
  Peer : bytes;
  cstate : ClientState;
  compression : Z
}.

Definition NewClient (peer : bytes) : Client := mkClient peer ClientStateHandshake (-1).
Definition DummyClient : Client := NewClient (str "0.0.0.0:0").
Definition SetState (s : ClientState) (c : Client) : Client := mkClient (Peer c) s (compression c).
Definition SetCompression (t : Z) (c : Client) : Client := mkClient (Peer c) (cstate c) t.
Definition Compressed (c : Client) : Z := compression c.
Definition IsCompressed (c : Client) : bool := compression c >=? 0.

(** ** zlib *)

Class Zlib := {
  zlib_deflate : bytes -> option bytes;
  zlib_inflate : bytes -> Z -> option bytes
}.

Class ZlibLaws (Z0 : Zlib) := {
  zlib_deflate_total : forall d, exists c, zlib_deflate d = Some c;
  zlib_inflate_deflate : forall d c n,
    zlib_deflate d = Some c -> Zlen d < n -> zlib_inflate c n = Some d
}.

Section Zlib.

Context `{ZL : Zlib}.

Definition zlibCompress (data : bytes) : option bytes := zlib_deflate data.

Definition zlibDecompress (data : bytes) (expectedLen : Z) : option bytes :=
  match zlib_inflate data (expectedLen + 1) with
  | None => None
  | Some decompressed =>
      if negb (Zlen decompressed =? expectedLen) then None else Some decompressed
  end.

(** ** RawPacket *)

Record RawPacket := NewRawPacket { ID : byte; Data : bytes }.

Definition readPacketIDData (buf : bytes) : option RawPacket :=
  match ReadVarInt buf with
  | None => None
  | Some (read, packetID) => Some (NewRawPacket (z2b packetID) (drop read buf))
  end.

Definition DecodeWithoutLen (client : Client) (buf : bytes) : option RawPacket :=
  if negb (IsCompressed client) then readPacketIDData buf
  else
    match ReadVarInt buf with
    | None => None
    | Some (read, dataLen) =>
        let buf := drop read buf in
        if dataLen =? 0 then readPacketIDData buf
        else
          match zlibDecompress buf dataLen with
          | None => None
          | Some decompressed => readPacketIDData decompressed
          end
    end.

Definition DecodeWithLen (client : Client) (buf : bytes) : option RawPacket :=
  match ReadVarInt buf with
  | None => None
  | Some (read, pktLen) =>
      let buf := drop read buf in
      if (pktLen <? 0) || (Zlen buf <? pktLen) then None
      else DecodeWithoutLen client (take (Z.to_nat pktLen) buf)
  end.

Definition encodeUncompressed (p : RawPacket) : option bytes :=
  Some (EncodeVarInt (b2z (ID p)) ++ Data p).

Definition encodeCompressed (p : RawPacket) (threshold : Z) : option bytes :=
  let payload := EncodeVarInt (b2z (ID p)) ++ Data p in
  let dataLen := i32 (Zlen payload) in
  let compress := dataLen >? threshold in
  let dataLenHeader := if compress then dataLen else 0 in
  match (if compress then zlibCompress payload else Some payload) with
  | None => None
  | Some payload => Some (EncodeVarInt dataLenHeader ++ payload)
  end.

Definition EncodeWithoutLen (p : RawPacket) (client : Client) : option bytes :=
  let threshold := Compressed client in
  if threshold >=? 0 then encodeCompressed p threshold else encodeUncompressed p.

Definition EncodeWithLen (p : RawPacket) (client : Client) : option bytes :=
  match EncodeWithoutLen p client with
  | None => None
  | Some payload => Some (EncodeVarInt (i32 (Zlen payload)) ++ payload)
  end.

(** ** Decoding inverts encoding *)

#[local] Opaque EncodeVarInt ReadVarInt.

Lemma readPacketIDData_encode id data :
  readPacketIDData (EncodeVarInt (b2z id) ++ data) = Some (NewRawPacket id data).
Proof.
  unfold readPacketIDData. pose proof (b2z_range id).
  rewrite ReadVarInt_EncodeVarInt_app by (unfold is_sint; zpow; lia).
  by rewrite drop_app_length, z2b_b2z.
Qed.

Lemma DecodeWithoutLen_uncompressed p c e :
  IsCompressed c = false -> EncodeWithoutLen p c = Some e -> DecodeWithoutLen c e = Some p.
Proof.
  unfold IsCompressed, EncodeWithoutLen, DecodeWithoutLen, IsCompressed, Compressed.
  intros ->. intros [= <-]. cbn [negb]. rewrite readPacketIDData_encode. by destruct p.
Qed.

Lemma DecodeWithoutLen_compressed `{!ZlibLaws ZL} p c e :
  IsCompressed c = true -> Zlen (Data p) + 5 < 2 ^ 31 ->
  EncodeWithoutLen p c = Some e -> DecodeWithoutLen c e = Some p.
Proof.
  unfold EncodeWithoutLen, DecodeWithoutLen, Compressed. intros Hc Hlen. rewrite Hc.
  unfold IsCompressed in Hc. rewrite Hc. unfold encodeCompressed. cbn [negb].
  set (payload := EncodeVarInt (b2z (ID p)) ++ Data p).
  assert (is_i32 (Zlen payload) /\ 0 < Zlen payload) as [Hi Hpos].
  { unfold is_sint, payload, Zlen in *. rewrite length_app.
    pose proof (EncodeVarInt_length (b2z (ID p))). zpow. lia. }
  rewrite (sintw_id 32 (Zlen payload)) by done.
  destruct (Zlen payload >? compression c) eqn:Et.
  - unfold zlibCompress. destruct (zlib_deflate payload) as [z|] eqn:Ez; [|done].
    intros [= <-]. rewrite ReadVarInt_EncodeVarInt_app by done.
    rewrite drop_app_length. rewrite (proj2 (Z.eqb_neq _ _)) by lia.
    unfold zlibDecompress. rewrite (zlib_inflate_deflate _ _ _ Ez) by lia.
    rewrite Z.eqb_refl. cbn [negb]. unfold payload. rewrite readPacketIDData_encode.
    by destruct p.
  - intros [= <-]. rewrite ReadVarInt_EncodeVarInt_app by done.
    rewrite drop_app_length. cbn [Z.eqb]. unfold payload.
    rewrite readPacketIDData_encode. by destruct p.
Qed.

Lemma DecodeWithoutLen_encode `{!ZlibLaws ZL} p c e :
  Zlen (Data p) + 5 < 2 ^ 31 -> EncodeWithoutLen p c = Some e -> DecodeWithoutLen c e = Some p.
Proof.
  intros Hl. destruct (IsCompressed c) eqn:E.
  - by apply DecodeWithoutLen_compressed.
  - by apply DecodeWithoutLen_uncompressed.
Qed.

(** An encoded packet is its length prefix followed by its payload. *)
Lemma EncodeWithLen_inv p c e :
  EncodeWithLen p c = Some e ->
  exists payload, EncodeWithoutLen p c = Some payload
             /\ e = EncodeVarInt (i32 (Zlen payload)) ++ payload.
Proof.
  unfold EncodeWithLen. destruct (EncodeWithoutLen p c) as [payload|]; [|done].
  intros [= <-]. eauto.
Qed.

Lemma DecodeWithLen_encode `{!ZlibLaws ZL} p c e payload tail :
  Zlen (Data p) + 5 < 2 ^ 31 -> Zlen payload < 2 ^ 31 ->
  EncodeWithoutLen p c = Some payload -> EncodeWithLen p c = Some e ->
  DecodeWithLen c (e ++ tail) = Some p.
Proof.
  intros Hd Hp Ew (? & Ew' & ->)%EncodeWithLen_inv. rewrite Ew in Ew'.
  injection Ew' as <-. assert (is_i32 (Zlen payload)) as Hi.
  { unfold is_sint, Zlen in *. zpow. lia. }
  unfold DecodeWithLen. rewrite sintw_id, <- app_assoc by done.
  rewrite ReadVarInt_EncodeVarInt_app, drop_app_length by done.
  rewrite (proj2 (Z.ltb_ge (Zlen payload) 0)) by (unfold Zlen; lia).
  rewrite (proj2 (Z.ltb_ge (Zlen (payload ++ tail)) _))
    by (unfold Zlen; rewrite length_app; lia). cbn [orb].
  unfold Zlen. rewrite Nat2Z.id, take_app_length. by eapply DecodeWithoutLen_encode.
Qed.

(** ** Length-prefixed strings *)

(** [StringBytes] of [src/proto/packets.go] *)
Definition StringBytes (s : bytes) : bytes := EncodeVarInt (i32 (Zlen s)) ++ s.

End Zlib.

(** A codec that satisfies the laws: deflate as a single stored stream. *)
#[export] Instance stored_zlib : Zlib := {|
  zlib_deflate d := Some d;
  zlib_inflate c n := Some (take (Z.to_nat n) c)
|}.

#[export] Instance stored_zlib_laws : ZlibLaws stored_zlib.
Proof.
  split.
  - intros d. by exists d.
  - intros d c n [= <-] Hn. cbn. unfold Zlen in Hn. by rewrite take_ge by lia.
Qed.

(** ** Properties *)

(** C32: every raw packet survives [EncodeWithLen] followed by
    [DecodeWithLen], in uncompressed mode and in compressed mode, below and
    above the compression threshold, and whatever bytes follow the frame.
    Encoding itself never fails. *)
Theorem packet_roundtrip `{ZlibLaws} (p : RawPacket) (c : Client) (tail : bytes) :
  Zlen (Data p) + 5 < 2 ^ 31 ->
  exists e, EncodeWithLen p c = Some e
    /\ (Zlen e < 2 ^ 31 -> DecodeWithLen c (e ++ tail) = Some p).
Proof.
  intros Hd. assert (exists payload, EncodeWithoutLen p c = Some payload) as [payload Ew].
  { unfold EncodeWithoutLen, encodeCompressed, encodeUncompressed, zlibCompress.
    destruct (Compressed c >=? 0); [|by eexists].
    destruct (_ >? _); [|by eexists].
    destruct (zlib_deflate_total (EncodeVarInt (b2z (ID p)) ++ Data p)) as [z ->].
    by eexists. }
  exists (EncodeVarInt (i32 (Zlen payload)) ++ payload).
  assert (EncodeWithLen p c = Some (EncodeVarInt (i32 (Zlen payload)) ++ payload)) as E
    by (unfold EncodeWithLen; by rewrite Ew).
  split; [done|]. intros He. apply (DecodeWithLen_encode p c _ payload tail); try done.
  unfold Zlen in *. rewrite length_app in He. lia.
Qed.

Lemma packet_roundtrip_witness :
  exists e,
    EncodeWithLen (NewRawPacket x05 (replicate 300 x41)) (SetCompression 256 DummyClient) = Some e
    /\ (Zlen e < 2 ^ 31 ->
        DecodeWithLen (SetCompression 256 DummyClient) (e ++ [x00])
        = Some (NewRawPacket x05 (replicate 300 x41))).
Proof. apply packet_roundtrip. vm_compute. reflexivity. Defined.

(** A frame [DecodeWithLen] accepts has a non-negative declared length,
    lies completely inside the buffer, and determines the packet alone: the
    bytes after the frame are irrelevant. *)
Lemma DecodeWithLen_sound `{Zlib} (c : Client) (buf tail : bytes) (p : RawPacket) :
  DecodeWithLen c buf = Some p ->
  exists n len, ReadVarInt buf = Some (n, len) /\ 0 <= len
    /\ (n + Z.to_nat len <= length buf)%nat
    /\ DecodeWithLen c (take (n + Z.to_nat len) buf ++ tail) = Some p.
Proof.
  unfold DecodeWithLen. destruct (ReadVarInt buf) as [[n len]|] eqn:E; [|done].
  destruct (_ || _) eqn:Eg; [done|]. apply orb_false_iff in Eg as [H0 H1].
  apply Z.ltb_ge in H0, H1. unfold Zlen in H1. rewrite length_drop in H1. intros Hp.
  exists n, len. pose proof (ReadVarInt_bounds _ _ _ E) as (Hn & Hb & _).
  split; [done|]. split; [done|]. split; [lia|].
  assert (take (n + Z.to_nat len) buf ++ tail
          = take n buf ++ take (Z.to_nat len) (drop n buf) ++ tail) as Et.
  { rewrite app_assoc, take_take_drop. done. }
  rewrite Et, (ReadVarInt_prefix _ _ _ _ E).
  assert (length (take n buf) = n) as El by (rewrite length_take; lia).
  rewrite drop_app_length' by done.
  assert (length (take (Z.to_nat len) (drop n buf)) = Z.to_nat len) as El2
    by (rewrite length_take, length_drop; lia).
  rewrite (proj2 (Z.ltb_ge len 0)) by done.
  rewrite (proj2 (Z.ltb_ge (Zlen _) len)) by (unfold Zlen; rewrite length_app; lia).
  cbn [orb]. by rewrite take_app_length' by done.
Qed.

Lemma DecodeWithLen_sound_witness :
  exists n len, ReadVarInt [x02; x07; xff; x99] = Some (n, len) /\ 0 <= len
    /\ (n + Z.to_nat len <= 4)%nat
    /\ DecodeWithLen DummyClient (take (n + Z.to_nat len) [x02; x07; xff; x99] ++ [x11])
       = Some (NewRawPacket x07 [xff]).
Proof.
  apply (DecodeWithLen_sound DummyClient [x02; x07; xff; x99] [x11] (NewRawPacket x07 [xff])).
  vm_compute. reflexivity.
Defined.
