(* ===== verification/Stream.v ===== *)
(** * Stream: reading framed packets from a connection

    Models [ReadPacketWithTimeout], [ReadPacket] and [readMore] of
    [src/proto/stream.go]. A connection is the sequence of results its [Read]
    calls will return: how the bytes are cut into segments, and which error a
    call reports, is chosen by the network. A deadline armed by
    [armReadTimeout] shows up as a [Read] that returns [ErrTimeout]. *)

From S2P Require Import Prelude VarInt Wire Packet.

(** ** Connections *)

Inductive ReadErr := EOF | ECONNRESET | ErrTimeout | ErrOther.

#[export] Instance ReadErr_eq_dec : EqDecision ReadErr.
Proof. solve_decision. Defined.

Record ReadEvent := mkEvent { chunk : bytes; rerr : option ReadErr }.

Abbreviation Conn := (list ReadEvent).

(** [conn.Read(tmp)] with [len(tmp) = size]: the bytes read, the error and the
    connection afterwards. A segment longer than [tmp] is delivered in parts;
    a connection with no further event is at end of file. *)
Definition conn_Read (size : nat) (conn : Conn) : bytes * option ReadErr * Conn :=
  match conn with
  | [] => ([], Some EOF, [])
  | ev :: conn' =>
      if (length (chunk ev) <=? size)%nat then (chunk ev, rerr ev, conn')
      else (take size (chunk ev), None, mkEvent (drop size (chunk ev)) (rerr ev) :: conn')
  end.

(** ** readMore *)

Definition BufSize : Z := 8 * 1024.
Definition MaxPacketLength : Z := Z.shiftl 1 20.
Definition MaxBufferedBytes : Z := MaxPacketLength + 5.

Inductive StreamErr :=
| ErrBufferLimit
| ErrMalformedPacket
| ErrPacketTooLarge
| ErrNoProgress
| ErrRead (e : ReadErr).

#[export] Instance StreamErr_eq_dec : EqDecision StreamErr.
Proof. solve_decision. Defined.

Definition readMore (buf : bytes) (conn : Conn) : option StreamErr * bytes * Conn :=
  let remaining := MaxBufferedBytes - Zlen buf in
  if remaining <=? 0 then (Some ErrBufferLimit, buf, conn)
  else
    let readSize := if remaining <? BufSize then remaining else BufSize in
    let '(tmp, err, conn) := conn_Read (Z.to_nat readSize) conn in
    let buf := buf ++ tmp in
    match tmp, err with
    | [], None => (Some ErrNoProgress, buf, conn)
    | _, Some e => (Some (ErrRead e), buf, conn)
    | _, None => (None, buf, conn)
    end.

(** ** ReadPacket *)

(** What [ReadPacket] returns: a packet with its raw bytes ([more = true]), a
    closed connection ([more = false], no error), or an error. [Diverges] is
    the model's out-of-fuel value; no run produces it ([ReadPacket_returns]). *)
Inductive ReadResult :=
| GotPacket (packet : RawPacket) (raw : bytes)
| Closed
| Failed (e : StreamErr)
| Diverges.

(** The [for len(buf) < n { readMore }] loops. A step without error adds at
    least one byte, so [n] units of fuel are enough. *)
Fixpoint fill (fuel : nat) (n : Z) (buf : bytes) (conn : Conn)
  : option ReadResult * bytes * Conn :=
  if Zlen buf <? n then
    match fuel with
    | O => (Some Diverges, buf, conn)
    | S fuel' =>
        match readMore buf conn with
        | (None, buf, conn) => fill fuel' n buf conn
        | (Some (ErrRead EOF), buf, conn) => (Some Closed, buf, conn)
        | (Some (ErrRead ECONNRESET), buf, conn) => (Some Closed, buf, conn)
        | (Some e, buf, conn) => (Some (Failed e), buf, conn)
        end
    end
  else (None, buf, conn).

Section Read.

Context `{ZL : Zlib}.

(** The check of the declared uncompressed length of a compressed frame. *)
Definition oversize_inner (client : Client) (frame : bytes) : bool :=
  IsCompressed client &&
  match ReadVarInt frame with
  | None => true
  | Some (_, dataLen) => (dataLen <? 0) || (MaxPacketLength <? dataLen)
  end.

(** The part after the length prefix is known. *)
Definition readFrame (client : Client) (consumed : nat) (pktLen : Z)
    (buf : bytes) (conn : Conn) : ReadResult * bytes * Conn :=
  if pktLen <? 0 then (Failed ErrMalformedPacket, buf, conn)
  else if MaxPacketLength <? pktLen then (Failed ErrPacketTooLarge, buf, conn)
  else
    let total := Z.of_nat consumed + pktLen in
    if MaxBufferedBytes <? total then (Failed ErrPacketTooLarge, buf, conn)
    else
      match fill (Z.to_nat total) total buf conn with
      | (Some r, buf, conn) => (r, buf, conn)
      | (None, buf, conn) =>
          let raw := take (Z.to_nat total) buf in
          if oversize_inner client (drop consumed raw) then (Failed ErrPacketTooLarge, buf, conn)
          else
            match DecodeWithLen client raw with
            | None => (Failed ErrMalformedPacket, buf, conn)
            | Some packet => (GotPacket packet raw, drop (Z.to_nat total) buf, conn)
            end
      end.

(** [ReadPacketWithTimeout]; [ReadPacket] differs only in the timeout. *)
Definition ReadPacket (client : Client) (buf : bytes) (conn : Conn) : ReadResult * bytes * Conn :=
  if MaxBufferedBytes <? Zlen buf then (Failed ErrBufferLimit, buf, conn)
  else
    match fill 2 2 buf conn with
    | (Some r, buf, conn) => (r, buf, conn)
    | (None, buf, conn) =>
        match ReadVarInt buf with
        | None => (Failed ErrMalformedPacket, buf, conn)
        | Some (consumed, pktLen) => readFrame client consumed pktLen buf conn
        end
    end.

End Read.

(** ** The byte stream behind a connection *)

(** All bytes the connection still delivers, and the events without error or
    empty segment: a peer that keeps the connection open. *)
Definition conn_bytes (conn : Conn) : bytes := concat (map chunk conn).

Definition clean (conn : Conn) : Prop :=
  Forall (fun ev => chunk ev <> [] /\ rerr ev = None) conn.

Lemma MaxBufferedBytes_eq : MaxBufferedBytes = 1048581.
Proof. reflexivity. Qed.

Lemma MaxPacketLength_eq : MaxPacketLength = 1048576.
Proof. reflexivity. Qed.

(** [readMore] moves bytes from the connection to the buffer, and on success
    at least one. *)
Lemma readMore_stream buf conn e buf' conn' :
  readMore buf conn = (e, buf', conn') ->
  buf' ++ conn_bytes conn' = buf ++ conn_bytes conn /\ (length buf <= length buf')%nat
  /\ (e = None -> (length buf < length buf')%nat).
Proof.
  unfold readMore. destruct (_ <=? 0) eqn:E; [by intros [= <- <- <-]|].
  apply Z.leb_gt in E. set (sz := Z.to_nat _).
  assert (0 < sz)%nat as Hsz.
  { unfold sz. destruct (Z.ltb_spec (MaxBufferedBytes - Zlen buf) BufSize); [lia|].
    unfold BufSize. lia. }
  assert (forall tmp err c, conn_Read sz conn = (tmp, err, c) ->
          tmp ++ conn_bytes c = conn_bytes conn) as Hr.
  { intros tmp err c. unfold conn_Read. destruct conn as [|[ch er] conn]; [by intros [= <- <- <-]|].
    cbn [chunk rerr]. destruct (_ <=? _)%nat; intros [= <- <- <-]; [done|].
    unfold conn_bytes. cbn. by rewrite app_assoc, take_drop. }
  destruct (conn_Read sz conn) as [[tmp err] c]. specialize (Hr _ _ _ eq_refl).
  assert (forall x, x = buf ++ tmp -> x ++ conn_bytes c = buf ++ conn_bytes conn) as Hs
    by (intros x ->; by rewrite <- app_assoc, Hr).
  destruct tmp, err; intros [= <- <- <-]; (split; [by apply Hs|]);
    rewrite ?length_app; cbn [length]; split; (done || lia).
Qed.

Lemma readMore_bound buf conn e buf' conn' :
  readMore buf conn = (e, buf', conn') ->
  Zlen buf <= MaxBufferedBytes -> Zlen buf' <= MaxBufferedBytes.
Proof.
  unfold readMore. destruct (_ <=? 0) eqn:E; [by intros [= <- <- <-]|]. apply Z.leb_gt in E.
  set (sz := Z.to_nat _).
  assert (Z.of_nat sz <= MaxBufferedBytes - Zlen buf) as Hsz.
  { unfold sz. destruct (Z.ltb_spec (MaxBufferedBytes - Zlen buf) BufSize); lia. }
  assert (forall tmp err c, conn_Read sz conn = (tmp, err, c) -> (length tmp <= sz)%nat) as Hr.
  { intros tmp err c. unfold conn_Read. destruct conn as [|[ch er] conn]; [intros [= <- <- <-]; simpl; lia|].
    cbn [chunk rerr]. destruct (Nat.leb_spec (length ch) sz); intros [= <- <- <-]; [done|].
    rewrite length_take. lia. }
  destruct (conn_Read sz conn) as [[tmp err] c]. specialize (Hr _ _ _ eq_refl).
  intros Ht Hb. assert (buf' = buf ++ tmp) as -> by (destruct tmp, err; by injection Ht).
  unfold Zlen in *. rewrite length_app. lia.
Qed.

(** [fill_ind]-style facts: what holds of every [readMore] step holds of the
    loop. *)
Lemma fill_stream fuel n buf conn r buf' conn' :
  fill fuel n buf conn = (r, buf', conn') ->
  buf' ++ conn_bytes conn' = buf ++ conn_bytes conn /\ (length buf <= length buf')%nat.
Proof.
  revert buf conn. induction fuel as [|fuel IH]; intros buf conn; cbn [fill];
    destruct (Zlen buf <? n); try (by intros [= <- <- <-]).
  destruct (readMore buf conn) as [[e b] c] eqn:E.
  apply readMore_stream in E as (Es & El & _).
  destruct e as [[| | | |[]]|]; intros H; try (injection H as <- <- <-; done).
  apply IH in H as [-> ?]. split; [done|lia].
Qed.

Lemma fill_bound fuel n buf conn r buf' conn' :
  fill fuel n buf conn = (r, buf', conn') ->
  Zlen buf <= MaxBufferedBytes -> Zlen buf' <= MaxBufferedBytes.
Proof.
  revert buf conn. induction fuel as [|fuel IH]; intros buf conn; cbn [fill];
    destruct (Zlen buf <? n); try (by intros [= <- <- <-]).
  destruct (readMore buf conn) as [[e b] c] eqn:E. intros H Hb.
  pose proof (readMore_bound _ _ _ _ _ E Hb).
  destruct e as [[| | | |[]]|]; try (injection H as <- <- <-; done).
  by eapply IH.
Qed.

Lemma fill_done fuel n buf conn buf' conn' :
  fill fuel n buf conn = (None, buf', conn') -> n <= Zlen buf'.
Proof.
  revert buf conn. induction fuel as [|fuel IH]; intros buf conn; cbn [fill];
    destruct (Z.ltb_spec (Zlen buf) n); try (by intros [= <- <-]); try done.
  destruct (readMore buf conn) as [[e b] c] eqn:E.
  destruct e as [[| | | |[]]|]; try done. apply IH.
Qed.

Lemma fill_returns fuel n buf conn r buf' conn' :
  n - Zlen buf <= Z.of_nat fuel ->
  fill fuel n buf conn = (r, buf', conn') -> r <> Some Diverges.
Proof.
  revert buf conn. induction fuel as [|fuel IH]; intros buf conn Hf; cbn [fill];
    destruct (Z.ltb_spec (Zlen buf) n); try (by intros [= <- <- <-]); try lia.
  destruct (readMore buf conn) as [[e b] c] eqn:E.
  apply readMore_stream in E as (_ & _ & Hg).
  destruct e as [[| | | |[]]|]; intros H'; try (injection H' as <- <- <-; done).
  eapply IH; [|done]. specialize (Hg eq_refl). unfold Zlen in *. lia.
Qed.

(** On a clean connection a read with room in the buffer succeeds. *)
Lemma readMore_clean buf conn :
  clean conn -> conn <> [] -> Zlen buf < MaxBufferedBytes ->
  exists buf' conn', readMore buf conn = (None, buf', conn') /\ clean conn'.
Proof.
  intros Hc Hne Hb. destruct conn as [|[ch er] conn]; [done|].
  apply Forall_cons in Hc as [[Hch Her] Hc]. cbn in Hch, Her. subst er.
  unfold readMore. rewrite (proj2 (Z.leb_gt _ 0)) by lia.
  set (sz := Z.to_nat _).
  assert (0 < sz)%nat.
  { unfold sz. destruct (Z.ltb_spec (MaxBufferedBytes - Zlen buf) BufSize); [lia|].
    unfold BufSize. lia. }
  unfold conn_Read. cbn [chunk rerr]. destruct (Nat.leb_spec (length ch) sz).
  - destruct ch; [done|]. by eexists _, _.
  - assert (take sz ch <> []) by (destruct ch, sz; simpl in *; (done || lia)).
    destruct (take sz ch) eqn:E; [done|]. eexists _, _. split; [done|].
    constructor; [|done]. cbn. split; [|done]. intros Hd%(f_equal length).
    rewrite length_drop in Hd. simpl in Hd. lia.
Qed.

Lemma fill_clean fuel n buf conn :
  clean conn -> n <= MaxBufferedBytes -> n - Zlen buf <= Z.of_nat fuel ->
  n <= Zlen (buf ++ conn_bytes conn) ->
  exists buf' conn', fill fuel n buf conn = (None, buf', conn') /\ clean conn'.
Proof.
  revert buf conn. induction fuel as [|fuel IH]; intros buf conn Hc Hn Hf Hl; cbn [fill];
    destruct (Z.ltb_spec (Zlen buf) n); try (by eexists _, _); [lia|].
  destruct (readMore_clean buf conn) as (b & c & E & Hc'); [done| |lia|].
  { intros ->. cbn in Hl. rewrite app_nil_r in Hl. lia. }
  rewrite E. apply readMore_stream in E as (Es & _ & Hg). specialize (Hg eq_refl).
  apply IH; [done|done|unfold Zlen in *; lia|by rewrite Es].
Qed.

Lemma prefix_of_app {A} (a b c d : list A) :
  a ++ b = c ++ d -> (length c <= length a)%nat -> a = c ++ drop (length c) a.
Proof.
  intros E Hl. rewrite <- (take_drop (length c) a) at 1. f_equal.
  apply (f_equal (take (length c))) in E. rewrite take_app_le in E by done.
  by rewrite take_app_length in E.
Qed.

Section ReadSpec.

Context `{ZL : Zlib}.

#[local] Opaque EncodeVarInt ReadVarInt.

Lemma oversize_inner_encoded p c payload :
  EncodeWithoutLen p c = Some payload ->
  Zlen (EncodeVarInt (b2z (ID p)) ++ Data p) <= MaxPacketLength ->
  oversize_inner c payload = false.
Proof.
  unfold oversize_inner, EncodeWithoutLen, Compressed, IsCompressed.
  destruct (compression c >=? 0); [|done]. cbn [andb]. unfold encodeCompressed.
  set (body := EncodeVarInt (b2z (ID p)) ++ Data p). intros H Hb.
  rewrite MaxPacketLength_eq in *.
  assert (is_i32 (Zlen body)) as Hi by (unfold is_sint, Zlen in *; zpow; lia).
  rewrite (sintw_id 32 (Zlen body)) in H by done.
  destruct (Zlen body >? compression c).
  - destruct (zlibCompress body); [|done]. injection H as <-.
    rewrite ReadVarInt_EncodeVarInt_app by done. unfold Zlen in *. lia.
  - injection H as <-. by rewrite ReadVarInt_EncodeVarInt_app by done.
Qed.

(** A complete frame at the head of the stream is returned, whatever the
    segmentation of the rest. *)
Lemma readFrame_frames `{!ZlibLaws ZL} p c payload tail buf conn :
  EncodeWithoutLen p c = Some payload ->
  Zlen (EncodeVarInt (b2z (ID p)) ++ Data p) <= MaxPacketLength ->
  Zlen payload <= MaxPacketLength -> clean conn ->
  buf ++ conn_bytes conn = (EncodeVarInt (Zlen payload) ++ payload) ++ tail ->
  exists buf' conn',
    readFrame c (length (EncodeVarInt (Zlen payload))) (Zlen payload) buf conn
    = (GotPacket p (EncodeVarInt (Zlen payload) ++ payload), buf', conn')
    /\ buf' ++ conn_bytes conn' = tail /\ clean conn'.
Proof.
  intros Ew Hu Hp Hc Hs. set (e := EncodeVarInt (Zlen payload) ++ payload) in *.
  pose proof (oversize_inner_encoded _ _ _ Ew Hu) as Ho.
  pose proof (EncodeVarInt_length (Zlen payload)) as Hv.
  rewrite MaxPacketLength_eq in *. unfold readFrame. rewrite MaxPacketLength_eq, MaxBufferedBytes_eq.
  rewrite (proj2 (Z.ltb_ge (Zlen payload) 0)) by (unfold Zlen; lia).
  rewrite (proj2 (Z.ltb_ge _ (Zlen payload))) by done.
  set (total := Z.of_nat (length (EncodeVarInt (Zlen payload))) + Zlen payload).
  assert (total = Zlen e) as Et by (unfold total, e, Zlen; rewrite length_app; lia).
  rewrite (proj2 (Z.ltb_ge _ total)) by lia. rewrite Et.
  destruct (fill_clean (Z.to_nat (Zlen e)) (Zlen e) buf conn) as (b & k & Ef & Hk);
    [done|rewrite MaxBufferedBytes_eq; lia|unfold Zlen; lia
    |rewrite Hs; unfold Zlen; rewrite length_app; lia|].
  rewrite Ef. pose proof (fill_done _ _ _ _ _ _ Ef) as Hd.
  apply fill_stream in Ef as [Es _]. rewrite Hs in Es.
  assert (b = e ++ drop (length e) b) as Eb
    by (eapply prefix_of_app; [done|unfold Zlen in Hd; lia]).
  assert (take (Z.to_nat (Zlen e)) b = e) as Etk.
  { unfold Zlen. rewrite Nat2Z.id, Eb. by rewrite take_app_length. }
  rewrite Etk. unfold e at 1. rewrite drop_app_length, Ho.
  assert (Zlen (Data p) + 5 < 2 ^ 31) as Hdata.
  { unfold Zlen in *. rewrite length_app in Hu. zpow. lia. }
  assert (is_i32 (Zlen payload)) as Hi by (unfold is_sint, Zlen in *; zpow; lia).
  assert (DecodeWithLen c e = Some p) as ->.
  { rewrite <- (app_nil_r e). apply (DecodeWithLen_encode p c e payload);
      [done|unfold Zlen in *; zpow; lia|done|].
    unfold EncodeWithLen. rewrite Ew. by rewrite sintw_id. }
  eexists _, _. split; [done|]. split; [|done].
  unfold Zlen. rewrite Nat2Z.id. rewrite Eb in Es. rewrite <- app_assoc in Es.
  by apply app_inv_head in Es.
Qed.

End ReadSpec.

Section ReadInvariants.

Context `{ZL : Zlib}.

(** The bytes a result hands to the caller. *)
Definition result_raw (r : ReadResult) : bytes :=
  match r with GotPacket _ raw => raw | _ => [] end.

(** [ReadPacket] is either over after the first two bytes, or continues with
    [readFrame] on a buffer whose length prefix is complete. *)
Lemma ReadPacket_cases c buf conn r buf' conn' :
  ReadPacket c buf conn = (r, buf', conn') ->
  (r = Failed ErrBufferLimit /\ buf' = buf /\ conn' = conn /\ MaxBufferedBytes < Zlen buf)
  \/ exists res b k, fill 2 2 buf conn = (res, b, k) /\ Zlen buf <= MaxBufferedBytes /\
     match res with
     | Some r0 => r = r0 /\ buf' = b /\ conn' = k
     | None => match ReadVarInt b with
               | None => r = Failed ErrMalformedPacket /\ buf' = b /\ conn' = k
               | Some (n, len) => readFrame c n len b k = (r, buf', conn')
               end
     end.
Proof.
  unfold ReadPacket. destruct (Z.ltb_spec MaxBufferedBytes (Zlen buf)).
  { intros [= <- <- <-]. by left. }
  right. destruct (fill 2 2 buf conn) as [[res b] k]. exists res, b, k.
  split; [done|]. split; [done|]. destruct res; [by injection H0|].
  destruct (ReadVarInt b) as [[n len]|]; [done|by injection H0].
Qed.

(** The results of [readFrame], with the buffer of the completing [fill]. *)
Lemma readFrame_cases c n len buf conn r buf' conn' :
  readFrame c n len buf conn = (r, buf', conn') ->
  (buf' = buf /\ conn' = conn /\
     ((len < 0 /\ r = Failed ErrMalformedPacket) \/ (0 <= len /\ r = Failed ErrPacketTooLarge)))
  \/ exists res b, let total := Z.of_nat n + len in
     0 <= len <= MaxPacketLength /\ total <= MaxBufferedBytes
     /\ fill (Z.to_nat total) total buf conn = (res, b, conn')
     /\ match res with
        | Some r0 => r = r0 /\ buf' = b
        | None => (r = Failed ErrPacketTooLarge /\ buf' = b)
            \/ (r = Failed ErrMalformedPacket /\ buf' = b
                /\ oversize_inner c (drop n (take (Z.to_nat total) b)) = false
                /\ DecodeWithLen c (take (Z.to_nat total) b) = None)
            \/ exists p, r = GotPacket p (take (Z.to_nat total) b)
                 /\ DecodeWithLen c (take (Z.to_nat total) b) = Some p
                 /\ buf' = drop (Z.to_nat total) b
        end.
Proof.
  unfold readFrame. destruct (Z.ltb_spec len 0); [intros [= <- <- <-]; left; auto|].
  destruct (Z.ltb_spec MaxPacketLength len); [intros [= <- <- <-]; left; auto|].
  cbv zeta. destruct (Z.ltb_spec MaxBufferedBytes (Z.of_nat n + len)); [intros [= <- <- <-]; left; auto|].
  destruct (fill _ _ buf conn) as [[res b] k] eqn:Ef. intros Hr. right. exists res, b.
  split; [done|]. split; [done|].
  destruct res as [r0|]; [by injection Hr as <- <- <-|].
  destruct (oversize_inner _ _) eqn:Eo; [injection Hr as <- <- <-; auto|].
  destruct (DecodeWithLen _ _) eqn:Ed; injection Hr as <- <- <-; split; eauto 10.
Qed.

Lemma ReadPacket_conserves c buf conn r buf' conn' :
  ReadPacket c buf conn = (r, buf', conn') ->
  result_raw r ++ buf' ++ conn_bytes conn' = buf ++ conn_bytes conn.
Proof.
  assert (forall fuel n b k r0 b' k', fill fuel n b k = (Some r0, b', k') -> result_raw r0 = []) as Hf.
  { induction fuel as [|fuel IH]; intros n b k r0 b' k'; cbn [fill];
      destruct (Zlen b <? n); try (by intros [= <- _ _]); try done.
    destruct (readMore b k) as [[[[| | | |[]]|] b2] k2]; try (by intros [= <- _ _]). apply IH. }
  intros [(-> & -> & -> & _)|(res & b & k & Ef & _ & H)]%ReadPacket_cases; [done|].
  pose proof (fill_stream _ _ _ _ _ _ _ Ef) as [<- _].
  destruct res as [r0|].
  { destruct H as (-> & -> & ->). by rewrite (Hf _ _ _ _ _ _ _ Ef). }
  destruct (ReadVarInt b) as [[n len]|]; [|by destruct H as (-> & -> & ->)].
  apply readFrame_cases in H as [(-> & -> & [[_ ->]|[_ ->]])|(res & b2 & _ & _ & Ef2 & H)]; [done..|].
  pose proof (fill_stream _ _ _ _ _ _ _ Ef2) as [<- _].
  destruct res as [r0|].
  { destruct H as (-> & ->). by rewrite (Hf _ _ _ _ _ _ _ Ef2). }
  destruct H as [[-> ->]|[(-> & -> & _)|(p & -> & _ & ->)]]; [done..|].
  cbn [result_raw]. by rewrite app_assoc, take_drop.
Qed.

Lemma ReadPacket_bound c buf conn r buf' conn' :
  ReadPacket c buf conn = (r, buf', conn') ->
  Zlen buf <= MaxBufferedBytes -> Zlen buf' <= MaxBufferedBytes.
Proof.
  intros [(-> & -> & -> & ?)|(res & b & k & Ef & Hb & H)]%ReadPacket_cases; [done|]. intros _.
  pose proof (fill_bound _ _ _ _ _ _ _ Ef Hb) as Hb1.
  destruct res as [r0|]; [by destruct H as (_ & -> & _)|].
  destruct (ReadVarInt b) as [[n len]|]; [|by destruct H as (_ & -> & _)].
  apply readFrame_cases in H as [(-> & _)|(res & b2 & _ & _ & Ef2 & H)]; [done|].
  pose proof (fill_bound _ _ _ _ _ _ _ Ef2 Hb1) as Hb2.
  destruct res as [r0|]; [by destruct H as (_ & ->)|].
  destruct H as [[_ ->]|[(_ & -> & _)|(p & _ & _ & ->)]]; [done..|].
  unfold Zlen in *. rewrite length_drop. lia.
Qed.

Lemma ReadPacket_returns c buf conn r buf' conn' :
  ReadPacket c buf conn = (r, buf', conn') -> r <> Diverges.
Proof.
  intros [(-> & _)|(res & b & k & Ef & Hb & H)]%ReadPacket_cases; [done|].
  assert (res <> Some Diverges) as Hf by (eapply fill_returns; [|exact Ef]; unfold Zlen; lia).
  destruct res as [r0|]; [destruct H as (-> & _); congruence|].
  destruct (ReadVarInt b) as [[n len]|]; [|by destruct H as (-> & _)].
  apply readFrame_cases in H as [(_ & _ & [[_ ->]|[_ ->]])|(res & b2 & Hl & _ & Ef2 & H)]; [done..|].
  assert (res <> Some Diverges) as Hf2 by (eapply fill_returns; [|exact Ef2]; unfold Zlen; lia).
  destruct res as [r0|]; [destruct H as (-> & _); congruence|].
  by destruct H as [[-> _]|[(-> & _)|(p & -> & _)]].
Qed.

Lemma fill_full fuel n buf conn : n <= Zlen buf -> fill fuel n buf conn = (None, buf, conn).
Proof. intros H. destruct fuel; cbn [fill]; by rewrite (proj2 (Z.ltb_ge _ _)) by done. Qed.

Lemma fill_not_malformed fuel n buf conn r buf' conn' :
  fill fuel n buf conn = (Some r, buf', conn') -> r <> Failed ErrMalformedPacket.
Proof.
  revert buf conn. induction fuel as [|fuel IH]; intros buf conn; cbn [fill];
    destruct (Zlen buf <? n); try (by intros [= <- _ _]); try done.
  destruct (readMore buf conn) as [[[[| | | |[]]|] b2] k2] eqn:E;
    try (by intros [= <- _ _]); try apply IH.
  exfalso. unfold readMore in E. destruct (_ <=? 0); [done|].
  destruct (conn_Read _ conn) as [[tmp err] c]. by destruct tmp, err.
Qed.

(** After a malformed packet the buffer still holds it. *)
Lemma ReadPacket_malformed_sticky c buf conn buf' conn' :
  ReadPacket c buf conn = (Failed ErrMalformedPacket, buf', conn') ->
  forall conn2, ReadPacket c buf' conn2 = (Failed ErrMalformedPacket, buf', conn2).
Proof.
  intros Hr conn2. pose proof (ReadPacket_bound _ _ _ _ _ _ Hr) as Hbound.
  apply ReadPacket_cases in Hr as [(? & _)|(res & b & k & Ef & Hb & H)]; [done|].
  specialize (Hbound Hb). unfold ReadPacket. rewrite (proj2 (Z.ltb_ge _ _)) by done.
  destruct res as [r0|].
  { destruct H as (<- & _). by apply fill_not_malformed in Ef. }
  apply fill_done in Ef as H2.
  destruct (ReadVarInt b) as [[n len]|] eqn:Ev; cycle 1.
  { destruct H as (_ & -> & _). by rewrite fill_full, Ev. }
  apply readFrame_cases in H as [(-> & _ & [[Hn _]|[_ ?]])|(res & b2 & Hl & Ht & Ef2 & H)]; [|done|].
  { rewrite fill_full, Ev by done. unfold readFrame. by rewrite (proj2 (Z.ltb_lt _ _)) by done. }
  destruct res as [r0|].
  { destruct H as (<- & _). by apply fill_not_malformed in Ef2. }
  destruct H as [[? _]|[(_ & -> & Ho & Hd)|(p & ? & _)]]; [done| |done].
  pose proof (fill_done _ _ _ _ _ _ Ef2) as H3.
  apply fill_stream in Ef2 as [Es El].
  pose proof (prefix_of_app _ _ _ _ Es El) as Ep.
  rewrite fill_full by (unfold Zlen in *; lia).
  rewrite Ep, (ReadVarInt_app _ _ _ _ Ev), <- Ep. unfold readFrame.
  rewrite (proj2 (Z.ltb_ge len 0)) by lia. rewrite (proj2 (Z.ltb_ge _ len)) by lia.
  rewrite (proj2 (Z.ltb_ge _ _)) by done. by rewrite fill_full, Ho, Hd.
Qed.

(** A fill never reports a packet. *)
Lemma fill_no_packet fuel n buf conn p raw buf' conn' :
  fill fuel n buf conn <> (Some (GotPacket p raw), buf', conn').
Proof.
  revert buf conn. induction fuel as [|fuel IH]; intros buf conn; cbn [fill];
    destruct (Zlen buf <? n); try done.
  by destruct (readMore buf conn) as [[[[| | | |[]]|] b2] k2].
Qed.

(** A packet takes at least one byte from the stream. *)
Lemma ReadPacket_progress c buf conn p raw buf' conn' :
  ReadPacket c buf conn = (GotPacket p raw, buf', conn') -> raw <> [].
Proof.
  intros [(? & _)|(res & b & k & Ef & Hb & H)]%ReadPacket_cases; [done|].
  destruct res as [r0|]; [destruct H as (<- & _); by apply fill_no_packet in Ef|].
  destruct (ReadVarInt b) as [[n len]|]; [|by destruct H as (? & _)].
  apply readFrame_cases in H as [(_ & _ & [[_ ?]|[_ ?]])|(res & b2 & _ & _ & Ef2 & H)]; [done..|].
  destruct res as [r0|]; [destruct H as (<- & _); by apply fill_no_packet in Ef2|].
  destruct H as [[? _]|[(? & _)|(p' & [= _ ->] & Hd & _)]]; [done..|].
  intros E. by rewrite E in Hd.
Qed.

(** The packet is what its raw bytes decode to. *)
Lemma ReadPacket_decoded c buf conn p raw buf' conn' :
  ReadPacket c buf conn = (GotPacket p raw, buf', conn') -> DecodeWithLen c raw = Some p.
Proof.
  intros [(? & _)|(res & b & k & Ef & Hb & H)]%ReadPacket_cases; [done|].
  destruct res as [r0|]; [destruct H as (<- & _); by apply fill_no_packet in Ef|].
  destruct (ReadVarInt b) as [[n len]|]; [|by destruct H as (? & _)].
  apply readFrame_cases in H as [(_ & _ & [[_ ?]|[_ ?]])|(res & b2 & _ & _ & Ef2 & H)]; [done..|].
  destruct res as [r0|]; [destruct H as (<- & _); by apply fill_no_packet in Ef2|].
  by destruct H as [[? _]|[(? & _)|(p' & [= -> ->] & Hd & _)]].
Qed.

(** [raw] is exactly one frame, which a client in this state decodes to [p]:
    a length prefix and as many bytes as it says. *)
Definition whole_frame (c : Client) (p : RawPacket) (raw : bytes) : Prop :=
  exists n len, ReadVarInt raw = Some (n, len) /\ 0 <= len /\ Zlen raw = Z.of_nat n + len /\ DecodeWithLen c raw = Some p.

Lemma ReadPacket_whole c buf conn p raw buf' conn' :
  ReadPacket c buf conn = (GotPacket p raw, buf', conn') -> whole_frame c p raw.
Proof.
  intros H. pose proof (ReadPacket_decoded _ _ _ _ _ _ _ H) as Hd. revert H.
  intros [(? & _)|(res & b & k & Ef & Hb & H)]%ReadPacket_cases; [done|].
  destruct res as [r0|]; [destruct H as (<- & _); by apply fill_no_packet in Ef|].
  destruct (ReadVarInt b) as [[n len]|] eqn:Ev; [|by destruct H as (? & _)].
  apply readFrame_cases in H as [(_ & _ & [[_ ?]|[_ ?]])|(res & b2 & Hl & _ & Ef2 & H)]; [done..|].
  destruct res as [r0|]; [destruct H as (<- & _); by apply fill_no_packet in Ef2|].
  destruct H as [[? _]|[(? & _)|(p' & [= _ Er] & _ & _)]]; [done..|].
  pose proof (fill_done _ _ _ _ _ _ Ef2) as Hlen. apply fill_stream in Ef2 as [Es _].
  destruct (DecodeWithLen_sound c raw [] p Hd) as (n' & len' & Ev' & _).
  assert (Zlen raw = Z.of_nat n + len) as Hz by (rewrite Er; unfold Zlen in *; rewrite length_take; lia).
  exists n', len'. split; [done|].
  assert (Some (n', len') = Some (n, len)) as [= -> ->]; [|split_and!; [lia|done|done]].
  apply (ReadVarInt_app _ _ _ (conn_bytes k)) in Ev. rewrite <- Es in Ev.
  apply (ReadVarInt_app _ _ _ (drop (Z.to_nat (Z.of_nat n + len)) b2 ++ conn_bytes conn')) in Ev'.
  rewrite Er, app_assoc, take_drop in Ev'. congruence.
Qed.

End ReadInvariants.

(** The frame at the head of the stream, whatever the segmentation. *)
Lemma ReadPacket_delivers `{ZlibLaws} (p : RawPacket) (c : Client) (payload tail buf : bytes)
    (conn : Conn) :
  EncodeWithoutLen p c = Some payload ->
  Zlen (EncodeVarInt (b2z (ID p)) ++ Data p) <= MaxPacketLength ->
  Zlen payload <= MaxPacketLength ->
  Zlen buf <= MaxBufferedBytes -> clean conn ->
  buf ++ conn_bytes conn = (EncodeVarInt (Zlen payload) ++ payload) ++ tail ->
  (2 <= length (EncodeVarInt (Zlen payload) ++ payload))%nat ->
  (length (EncodeVarInt (Zlen payload)) <= Nat.max 2 (length buf))%nat ->
  exists buf' conn',
    ReadPacket c buf conn = (GotPacket p (EncodeVarInt (Zlen payload) ++ payload), buf', conn')
    /\ buf' ++ conn_bytes conn' = tail /\ clean conn'.
Proof.
  intros Ew Hu Hp Hb Hc Hs He Hv. unfold ReadPacket.
  rewrite (proj2 (Z.ltb_ge _ _)) by done.
  destruct (fill_clean 2 2 buf conn) as (b & k & Ef & Hk);
    [done|rewrite MaxBufferedBytes_eq; lia|unfold Zlen; lia
    |rewrite Hs; unfold Zlen in *; rewrite length_app; lia|].
  rewrite Ef. pose proof (fill_done _ _ _ _ _ _ Ef) as Hd.
  apply fill_stream in Ef as [Es Hlen]. rewrite Hs in Es.
  assert (is_i32 (Zlen payload)) as Hi.
  { rewrite MaxPacketLength_eq in *. unfold is_sint, Zlen in *. zpow. lia. }
  assert (b = EncodeVarInt (Zlen payload) ++ drop (length (EncodeVarInt (Zlen payload))) b) as Eb.
  { eapply prefix_of_app; [by rewrite <- app_assoc in Es|]. unfold Zlen in *. lia. }
  assert (ReadVarInt b = Some (length (EncodeVarInt (Zlen payload)), Zlen payload)) as ->
    by (rewrite Eb; by apply ReadVarInt_EncodeVarInt_app).
  by apply readFrame_frames.
Qed.

(** ** Short frames *)

Section ShortFrames.

Context `{ZL : Zlib}.

(** The frame of a packet on an uncompressed connection. *)
Definition payload_of (p : RawPacket) : bytes := EncodeVarInt (b2z (ID p)) ++ Data p.
Definition frame_of (p : RawPacket) : bytes := EncodeVarInt (Zlen (payload_of p)) ++ payload_of p.

Lemma EncodeVarInt_two v : 0 <= v < 2 ^ 14 -> (length (EncodeVarInt v) <= 2)%nat.
Proof.
  intros Hv. destruct (EncodeVarInt_spec v) as (_ & _ & _ & [E|H]).
  - rewrite uintw_id in E by (unfold is_uint; zpow; lia). by rewrite E; vm_compute; lia.
  - rewrite uintw_id in H by (unfold is_uint; zpow; lia).
    destruct (decide (length (EncodeVarInt v) <= 2)%nat); [done|].
    assert (128 ^ 2 <= 128 ^ (Zlen (EncodeVarInt v) - 1)) by (apply Z.pow_le_mono_r; unfold Zlen; lia).
    lia.
Qed.

Lemma frame_of_length p : (2 <= length (frame_of p))%nat.
Proof.
  unfold frame_of, payload_of. rewrite !length_app.
  pose proof (EncodeVarInt_length (Zlen (EncodeVarInt (b2z (ID p)) ++ Data p))).
  pose proof (EncodeVarInt_length (b2z (ID p))). lia.
Qed.

(** A short frame is read whole, whatever the segmentation. *)
Lemma ReadPacket_frame `{!ZlibLaws ZL} p c tail buf conn :
  IsCompressed c = false -> Zlen (payload_of p) < 2 ^ 14 ->
  Zlen buf <= MaxBufferedBytes -> clean conn -> buf ++ conn_bytes conn = frame_of p ++ tail ->
  exists buf' conn', ReadPacket c buf conn = (GotPacket p (frame_of p), buf', conn')
    /\ buf' ++ conn_bytes conn' = tail /\ clean conn'.
Proof.
  intros Hc Hp Hb Hcl Hs. apply ReadPacket_delivers; try done.
  - unfold EncodeWithoutLen, Compressed, IsCompressed in *. by rewrite Hc.
  - fold (payload_of p). rewrite MaxPacketLength_eq. lia.
  - rewrite MaxPacketLength_eq. lia.
  - apply frame_of_length.
  - pose proof (EncodeVarInt_two (Zlen (payload_of p))). unfold Zlen in *. lia.
Qed.

End ShortFrames.

(** ** Properties *)

(** A packet written by [EncodeWithLen] is read back by [ReadPacket]
    however the network cuts the byte stream into segments, and exactly the
    bytes after it stay in the buffer and the connection. The frame must
    respect the 1 MiB bounds, and its length prefix must either be at most
    two bytes long (payloads below 16 KiB) or already be buffered. *)
Theorem ReadPacket_frames `{ZlibLaws} (p : RawPacket) (c : Client) (payload tail buf : bytes)
    (conn : Conn) :
  EncodeWithoutLen p c = Some payload ->
  Zlen (EncodeVarInt (b2z (ID p)) ++ Data p) <= MaxPacketLength ->
  Zlen payload <= MaxPacketLength ->
  Zlen buf <= MaxBufferedBytes -> clean conn ->
  buf ++ conn_bytes conn = (EncodeVarInt (Zlen payload) ++ payload) ++ tail ->
  (2 <= length (EncodeVarInt (Zlen payload) ++ payload))%nat ->
  (length (EncodeVarInt (Zlen payload)) <= Nat.max 2 (length buf))%nat ->
  exists buf' conn',
    ReadPacket c buf conn = (GotPacket p (EncodeVarInt (Zlen payload) ++ payload), buf', conn')
    /\ buf' ++ conn_bytes conn' = tail /\ clean conn'.
Proof. apply ReadPacket_delivers. Qed.

Lemma ReadPacket_frames_witness :
  exists buf' conn',
    ReadPacket DummyClient [x03] [mkEvent [x07] None; mkEvent [xaa; xbb; x01] None]
    = (GotPacket (NewRawPacket x07 [xaa; xbb]) [x03; x07; xaa; xbb], buf', conn')
    /\ buf' ++ conn_bytes conn' = [x01] /\ clean conn'.
Proof.
  apply (ReadPacket_frames (NewRawPacket x07 [xaa; xbb]) DummyClient [x07; xaa; xbb] [x01] [x03]
           [mkEvent [x07] None; mkEvent [xaa; xbb; x01] None]);
    try (vm_compute; (reflexivity || congruence || lia)).
  repeat constructor; discriminate.
Defined.

(** C33: no byte of the stream is lost or duplicated by [ReadPacket]: the raw
    packet it returns, the buffer and the connection it leaves behind are
    together the bytes that were there; the loop always returns, and the
    buffer never exceeds [MaxBufferedBytes], whatever the peer sends. *)
Theorem ReadPacket_safe `{Zlib} (c : Client) (buf buf' : bytes) (conn conn' : Conn) (r : ReadResult) :
  ReadPacket c buf conn = (r, buf', conn') ->
  result_raw r ++ buf' ++ conn_bytes conn' = buf ++ conn_bytes conn
  /\ r <> Diverges
  /\ (Zlen buf <= MaxBufferedBytes -> Zlen buf' <= MaxBufferedBytes).
Proof.
  intros H0. split; [by eapply ReadPacket_conserves|].
  split; [by eapply ReadPacket_returns|]. by eapply ReadPacket_bound.
Qed.

Lemma ReadPacket_safe_witness :
  result_raw (Failed ErrPacketTooLarge) ++ [xff; xff; x7f] ++ conn_bytes [] = [] ++ conn_bytes [mkEvent [xff; xff; x7f] None]
  /\ Failed ErrPacketTooLarge <> Diverges
  /\ (Zlen (@nil byte) <= MaxBufferedBytes -> Zlen [xff; xff; x7f] <= MaxBufferedBytes).
Proof.
  apply (ReadPacket_safe DummyClient [] [xff; xff; x7f] [mkEvent [xff; xff; x7f] None] []
           (Failed ErrPacketTooLarge)). vm_compute. reflexivity.
Defined.

(** A packet of 16 KiB or more has a three-byte length prefix; when the
    network delivers only the first two bytes of it, [ReadPacket] reports a
    malformed packet instead of reading on, although the same bytes cut
    elsewhere are accepted. *)
Lemma ReadPacket_split_prefix :
  let p := NewRawPacket x07 (replicate (Z.to_nat 16383) x41) in
  exists e, EncodeWithLen p DummyClient = Some e
    /\ fst (fst (ReadPacket DummyClient [] [mkEvent (take 2 e) None; mkEvent (drop 2 e) None]))
       = Failed ErrMalformedPacket
    /\ fst (fst (ReadPacket DummyClient [] [mkEvent (take 3 e) None; mkEvent (drop 3 e) None]))
       = GotPacket p e.
Proof. eexists. split; [vm_compute; reflexivity|]. split; vm_compute; reflexivity. Qed.
