(* ===== verification/Timeout.v ===== *)
(** The read timeout of a packet: [readTimeout] and [armReadTimeout] of
    [src/proto/stream.go].

    [ReadPacketWithTimeout] arms a timer and stops it when it returns. The timer
    runs its callback in a goroutine of its own, which expires the deadline of
    the connection; the function that stops it has to clear that deadline again
    without losing one that the caller had set. Here the two goroutines are a
    step relation, one step per call that the other can see. *)
From stdpp Require Import relations.
From S2P Require Import Prelude Packet.

(** ** The timeouts *)

Definition defaultHandshakeReadTimeout : Z := 10 * 10 ^ 9.
Definition defaultStatusReadTimeout : Z := 5 * 10 ^ 9.
Definition defaultLoginReadTimeout : Z := 15 * 10 ^ 9.

Definition readTimeout (state : ClientState) : Z :=
  match state with
  | ClientStateHandshake => defaultHandshakeReadTimeout
  | ClientStateStatus => defaultStatusReadTimeout
  | ClientStateLogin => defaultLoginReadTimeout
  | ClientStatePlay => defaultLoginReadTimeout
  end.

(** ** The goroutines *)

(** The timer with its callback: waiting, about to set the deadline, to store
    [expired], to close [done], finished; or stopped before it fired. *)
Inductive TimerPc := Armed | Expiring | Storing | Closing | Fired | Stopped.

(** The reader: in [conn.Read], about to call [timer.Stop], waiting for [done],
    about to look at [expired], or back at its caller. *)
Inductive ReaderPc := Reading | Stopping | Waiting | Checking | Returned.

#[export] Instance ReaderPc_eq_dec : EqDecision ReaderPc.
Proof. solve_decision. Defined.

Record Arm := mkArm {
  timer : TimerPc;
  reader : ReaderPc;
  deadline : option Z;
  expired : bool;
  closed : bool;
  clock : Z }.

Section Timeout.

(** When the timer was armed, its timeout, and the caller's own deadline. *)
Context (start timeout : Z) (owned : option Z).

Definition armReadTimeout : Arm := mkArm Armed Reading owned false false start.

(** The callback and the function that stops the timer. A blocked read returns
    once the deadline of the connection has passed. *)
Inductive own_step : Arm -> Arm -> Prop :=
| step_fire r dl e d t : start + timeout <= t -> own_step (mkArm Armed r dl e d t) (mkArm Expiring r dl e d t)
| step_expire r dl e d t : own_step (mkArm Expiring r dl e d t) (mkArm Storing r (Some t) e d t)
| step_store r dl e d t : own_step (mkArm Storing r dl e d t) (mkArm Closing r dl true d t)
| step_close r dl e d t : own_step (mkArm Closing r dl e d t) (mkArm Fired r dl e true t)
| step_deadline tm x e d t : x <= t -> own_step (mkArm tm Reading (Some x) e d t) (mkArm tm Stopping (Some x) e d t)
| step_stopped dl e d t : own_step (mkArm Armed Stopping dl e d t) (mkArm Stopped Returned dl e d t)
| step_too_late tm dl e d t : tm <> Armed -> tm <> Stopped -> own_step (mkArm tm Stopping dl e d t) (mkArm tm Waiting dl e d t)
| step_wake tm dl e t : own_step (mkArm tm Waiting dl e true t) (mkArm tm Checking dl e true t)
| step_clear tm dl (e : bool) d t : own_step (mkArm tm Checking dl e d t) (mkArm tm Returned (if e then None else dl) e d t).

(** Time, and a read that ends with what the peer sent. *)
Inductive step : Arm -> Arm -> Prop :=
| step_own s s' : own_step s s' -> step s s'
| step_tick tm r dl e d t t' : t <= t' -> step (mkArm tm r dl e d t) (mkArm tm r dl e d t')
| step_data tm dl e d t : step (mkArm tm Reading dl e d t) (mkArm tm Stopping dl e d t).

(** ** The invariant *)

Definition passed (s : Arm) : Prop := exists x, deadline s = Some x /\ x <= clock s.

Definition Inv (s : Arm) : Prop :=
  (timer s <> Armed -> timer s <> Stopped -> start + timeout <= clock s)
  /\ match timer s with
     | Armed => deadline s = owned /\ closed s = false /\ (reader s = Reading \/ reader s = Stopping)
     | Expiring => deadline s = owned /\ closed s = false /\ reader s <> Checking /\ reader s <> Returned
     | Storing => passed s /\ closed s = false /\ reader s <> Checking /\ reader s <> Returned
     | Closing => passed s /\ expired s = true /\ closed s = false /\ reader s <> Checking /\ reader s <> Returned
     | Fired => expired s = true /\ closed s = true /\ (if decide (reader s = Returned) then deadline s = None else passed s)
     | Stopped => deadline s = owned /\ reader s = Returned
     end.

Lemma Inv_init : Inv armReadTimeout.
Proof. split; [done|]. cbn. auto. Qed.

Lemma Inv_own s s' : Inv s -> own_step s s' -> Inv s'.
Proof.
  intros [Ht H] E. destruct E; unfold Inv, passed in *; cbn [timer reader deadline expired closed clock] in *.
  all: try (destruct tm); try (destruct r); naive_solver eauto with lia.
Qed.

Lemma Inv_step s s' : Inv s -> step s s' -> Inv s'.
Proof.
  intros H E. destruct E as [s s' E| |]; [by eapply Inv_own| |].
  all: destruct H as [Ht H]; unfold Inv, passed in *; cbn [timer reader deadline expired closed clock] in *.
  all: try (destruct tm); try (destruct r); naive_solver eauto with lia.
Qed.

Lemma Inv_reachable s : rtc step armReadTimeout s -> Inv s.
Proof. apply (rtc_ind_r Inv); [apply Inv_init|]. intros s1 s2 _ E H. by eapply Inv_step. Qed.

(** ** Bounded work *)

(** What the two goroutines have left to do. *)
Definition work (s : Arm) : nat :=
  (match timer s with Armed => 4 | Expiring => 3 | Storing => 2 | Closing => 1 | Fired | Stopped => 0 end
   + match reader s with Reading => 4 | Stopping => 3 | Waiting => 2 | Checking => 1 | Returned => 0 end)%nat.

Lemma own_step_work s s' : own_step s s' -> (work s' < work s)%nat.
Proof. destruct 1; unfold work; cbn [timer reader]; try destruct tm; lia || (destruct r; lia) || done. Qed.

Lemma own_run_bound n s s' : nsteps own_step n s s' -> (n + work s' <= work s)%nat.
Proof. induction 1 as [|n s s1 s' E _ IH]; [lia|]. apply own_step_work in E. lia. Qed.

(** Once the timeout has passed, one of them can go on until the reader is
    back. *)
Lemma own_step_enabled s : Inv s -> start + timeout <= clock s -> reader s <> Returned -> exists s', own_step s s'.
Proof.
  intros [_ H] Ht Hr. destruct s as [tm r dl e d t]. unfold passed in H. cbn in *.
  destruct tm; [by eexists; apply step_fire|by eexists; constructor..| |by destruct H].
  destruct H as (-> & -> & Hd). destruct r; [|by eexists; apply step_too_late|by eexists; constructor..|done].
  rewrite decide_False in Hd by done. destruct Hd as (x & -> & Hx). eexists. by apply step_deadline.
Qed.

Lemma own_run_returns n : forall s, (work s < n)%nat -> Inv s -> start + timeout <= clock s ->
  exists s', rtc own_step s s' /\ reader s' = Returned.
Proof.
  induction n as [|n IH]; intros s Hn HI Ht; [lia|]. destruct (decide (reader s = Returned)) as [Hr|Hr]; [by exists s|].
  destruct (own_step_enabled s HI Ht Hr) as [s1 E]. pose proof (own_step_work s s1 E).
  assert (clock s1 = clock s) as Hc by (by destruct E).
  destruct (IH s1) as (s' & Hs & Hr'); [lia|by eapply Inv_own|lia|]. exists s'. split; [by eapply rtc_l|done].
Qed.

(** Back at the caller nothing moves but time. *)
Lemma returned_still s s' : Inv s -> reader s = Returned -> step s s' -> deadline s' = deadline s /\ reader s' = Returned.
Proof.
  intros [_ H] Hr E. destruct E as [s s' E| |]; [|done..].
  destruct E; cbn in *; subst; try done; destruct H; naive_solver.
Qed.

Lemma returned_stays s s' : Inv s -> reader s = Returned -> rtc step s s' -> deadline s' = deadline s /\ reader s' = Returned.
Proof.
  intros HI Hr Hs. induction Hs as [|s s1 s' E Hs IH]; [done|].
  destruct (returned_still s s1 HI Hr E) as [H1 H2]. rewrite <- H1. apply IH; [by eapply Inv_step|done].
Qed.

(** ** Property *)

(** C34: the read timeout leaves no deadline behind and loses none. In every
    interleaving of the reader, the timer's callback and time: when the reader
    is back at its caller, the connection has the caller's own deadline, or
    none, and never the expired one of the timer; this is final, since no late
    callback can change it; the caller's deadline is lost only when the timeout
    had passed; and once it has passed, the reader gets back in at most eight
    steps of the two goroutines, whether or not the peer ever sends anything,
    and no run of theirs stops short of that. *)
Theorem read_timeout_clean (s : Arm) : rtc step armReadTimeout s ->
  (reader s = Returned ->
     (deadline s = owned \/ deadline s = None /\ start + timeout <= clock s)
     /\ forall s', rtc step s s' -> deadline s' = deadline s /\ reader s' = Returned)
  /\ (start + timeout <= clock s ->
     (exists s', rtc own_step s s' /\ reader s' = Returned)
     /\ forall n s', nsteps own_step n s s' -> (n <= 8)%nat /\ ((forall s'', ~ own_step s' s'') -> reader s' = Returned)).
Proof.
  intros Hs. apply Inv_reachable in Hs as HI. split.
  - intros Hr. split; [|intros s' Hs'; by apply returned_stays].
    destruct HI as [Ht H]. rewrite Hr in H. destruct (timer s); naive_solver.
  - intros Ht. split; [by apply (own_run_returns (S (work s))); [lia|..]|]. intros n s' Hn. split.
    + apply own_run_bound in Hn. assert (work s <= 8)%nat by (unfold work; destruct (timer s), (reader s); cbn; lia). lia.
    + assert (Inv s' /\ clock s' = clock s) as [HI' Hc].
      { clear Ht. induction Hn as [|n s s1 s' E _ IH]; [done|]. destruct IH as [? ->]; [|by eapply Inv_own|by destruct E].
        eapply rtc_r; [exact Hs|by apply step_own]. }
      intros Hstuck. destruct (decide (reader s' = Returned)) as [|Hne]; [done|].
      destruct (own_step_enabled s' HI') as [s'' E]; [lia|done|]. by destruct (Hstuck s'').
Qed.

End Timeout.

(** A timer that fires just after a packet was read under a longer deadline of
    the caller: the caller's deadline is gone. *)
Lemma read_timeout_clean_witness :
  let s := mkArm Fired Returned None true true 10 in
  rtc (step 0 10) (armReadTimeout 0 (Some 60)) s
  /\ (forall s', rtc (step 0 10) s s' -> deadline s' = None /\ reader s' = Returned).
Proof.
  intros s. assert (rtc (step 0 10) (armReadTimeout 0 (Some 60)) s) as Hs.
  { eapply rtc_l; [apply (step_tick 0 10 Armed Reading (Some 60) false false 0 10); lia|].
    eapply rtc_l; [apply step_data|]. eapply rtc_l; [apply step_own, step_fire; lia|].
    eapply rtc_l; [apply step_own, step_too_late; discriminate|]. eapply rtc_l; [apply step_own, step_expire|].
    eapply rtc_l; [apply step_own, step_store|]. eapply rtc_l; [apply step_own, step_close|].
    eapply rtc_l; [apply step_own, step_wake|]. apply rtc_once. apply step_own. apply (step_clear 0 10 Fired (Some 10) true true 10). }
  split; [exact Hs|]. apply (proj1 (read_timeout_clean 0 10 (Some 60) s Hs)). reflexivity.
Defined.
