(* ===== verification/GoFloat.v ===== *)
(** * GoFloat: IEEE 754 conversions of the Go language

    A [float32] or [float64] value is its bit pattern. [widen] is the
    conversion [float64(x)] of a [float32] and [narrow] the conversion
    [float32(x)] of a [float64], rounding to nearest even; both set the quiet
    bit of a NaN, as the hardware conversions Go compiles to do. The NBT code
    stores every float as a [float64] and writes it back as a [float32]. *)

From S2P Require Import Prelude.

Definition mk32 (s e m : Z) : Z := s * 2 ^ 31 + e * 2 ^ 23 + m.
Definition mk64 (s e m : Z) : Z := s * 2 ^ 63 + e * 2 ^ 52 + m.

Definition sign32 (b : Z) : Z := b / 2 ^ 31.
Definition exp32 (b : Z) : Z := (b / 2 ^ 23) mod 256.
Definition man32 (b : Z) : Z := b mod 2 ^ 23.
Definition sign64 (b : Z) : Z := b / 2 ^ 63.
Definition exp64 (b : Z) : Z := (b / 2 ^ 52) mod 2048.
Definition man64 (b : Z) : Z := b mod 2 ^ 52.

(** Setting the quiet bit of a NaN payload. *)
Definition quiet (bit m : Z) : Z := if m / bit mod 2 =? 0 then m + bit else m.

Definition widen (b : Z) : Z :=
  let s := sign32 b in let e := exp32 b in let m := man32 b in
  if e =? 255 then
    if m =? 0 then mk64 s 2047 0 else mk64 s 2047 (quiet (2 ^ 51) (m * 2 ^ 29))
  else if e =? 0 then
    if m =? 0 then mk64 s 0 0
    else let k := Z.log2 m in mk64 s (k + 874) ((m - 2 ^ k) * 2 ^ (52 - k))
  else mk64 s (e + 896) (m * 2 ^ 29).

(** [x] shifted right by [sh], rounded to nearest with ties to even. *)
Definition round_even (x sh : Z) : Z :=
  let q := x / 2 ^ sh in let r := x mod 2 ^ sh in let half := 2 ^ (sh - 1) in
  if (half <? r) || ((half =? r) && (q mod 2 =? 1)) then q + 1 else q.

Definition narrow (d : Z) : Z :=
  let s := sign64 d in let e := exp64 d in let m := man64 d in
  if e =? 2047 then
    if m =? 0 then mk32 s 255 0 else mk32 s 255 (quiet (2 ^ 22) (m / 2 ^ 29))
  else if e =? 0 then mk32 s 0 0
  else
    let full := 2 ^ 52 + m in
    if 897 <=? e then
      let bits := (e - 897) * 2 ^ 23 + round_even full 29 in
      if 255 * 2 ^ 23 <=? bits then mk32 s 255 0 else mk32 s 0 bits
    else if 54 <? 29 + (897 - e) then mk32 s 0 0
    else mk32 s 0 (round_even full (29 + (897 - e))).

(** ** Narrowing a widened float *)

Lemma round_even_exact q sh : 0 < sh -> 0 <= q -> round_even (q * 2 ^ sh) sh = q.
Proof.
  intros Hs Hq. unfold round_even. rewrite Z.div_mul by (apply Z.pow_nonzero; lia).
  rewrite Z.mod_mul by (apply Z.pow_nonzero; lia).
  assert (0 < 2 ^ (sh - 1)) by (apply Z.pow_pos_nonneg; lia).
  rewrite (proj2 (Z.ltb_ge _ _)), (proj2 (Z.eqb_neq _ _)) by lia. done.
Qed.

Lemma split64 s e m :
  0 <= e < 2048 -> 0 <= m < 2 ^ 52 ->
  sign64 (mk64 s e m) = s /\ exp64 (mk64 s e m) = e /\ man64 (mk64 s e m) = m.
Proof.
  intros He Hm. unfold sign64, exp64, man64, mk64.
  change (2 ^ 63) with (2048 * 2 ^ 52). split; [|split].
  - symmetry. apply Z.div_unique with (r := e * 2 ^ 52 + m); [left; nia|ring].
  - replace ((s * (2048 * 2 ^ 52) + e * 2 ^ 52 + m) / 2 ^ 52) with (s * 2048 + e).
    + rewrite Z.add_comm, Z.mod_add by lia. apply Z.mod_small. lia.
    + apply Z.div_unique with (r := m); [left; lia|ring].
  - replace (s * (2048 * 2 ^ 52) + e * 2 ^ 52 + m) with (m + (s * 2048 + e) * 2 ^ 52) by ring.
    rewrite Z.mod_add by lia. apply Z.mod_small. lia.
Qed.

Lemma split32 b : is_u32 b ->
  b = mk32 (sign32 b) (exp32 b) (man32 b) /\ 0 <= sign32 b <= 1 /\ 0 <= exp32 b < 256
  /\ 0 <= man32 b < 2 ^ 23.
Proof.
  unfold is_uint, sign32, exp32, man32, mk32. intros Hb.
  change (2 ^ 31) with 2147483648. change (2 ^ 23) with 8388608. zpow.
  Z.to_euclidean_division_equations. lia.
Qed.

Definition is_nan32 (b : Z) : bool := (exp32 b =? 255) && negb (man32 b =? 0).

Lemma quiet_range bit m n : 0 < bit -> bit * 2 = n -> 0 <= m < n -> 0 <= quiet bit m < n.
Proof.
  intros Hb Hn Hm. unfold quiet. destruct (Z.eqb_spec (m / bit mod 2) 0); [|lia].
  assert (m / bit < 2) by (apply Z.div_lt_upper_bound; lia).
  assert (0 <= m / bit) by (apply Z.div_pos; lia).
  assert (m / bit = 0) by (Z.to_euclidean_division_equations; lia).
  assert (m < bit) by (apply Z.div_small_iff in H1; lia). lia.
Qed.

Lemma quiet_scale m : 0 <= m < 2 ^ 23 -> quiet (2 ^ 51) (m * 2 ^ 29) = quiet (2 ^ 22) m * 2 ^ 29.
Proof.
  intros Hm. unfold quiet. change (2 ^ 51) with (2 ^ 22 * 2 ^ 29).
  rewrite Z.div_mul_cancel_r by lia. destruct (_ =? 0); lia.
Qed.

Lemma quiet_idem m : 0 <= m < 2 ^ 23 -> quiet (2 ^ 22) (quiet (2 ^ 22) m) = quiet (2 ^ 22) m.
Proof.
  intros Hm. unfold quiet. change (2 ^ 22) with 4194304. change (2 ^ 23) with 8388608 in Hm.
  destruct (Z.eqb_spec (m / 4194304 mod 2) 0) as [E|E].
  - destruct (Z.eqb_spec ((m + 4194304) / 4194304 mod 2) 0); [|done].
    Z.to_euclidean_division_equations. lia.
  - by destruct (Z.eqb_spec (m / 4194304 mod 2) 0).
Qed.

(** Every [float32] survives the detour through [float64]; a signalling NaN
    comes back quiet. *)
Lemma narrow_widen b : is_u32 b ->
  narrow (widen b)
  = if is_nan32 b then mk32 (sign32 b) 255 (quiet (2 ^ 22) (man32 b)) else b.
Proof.
  intros Hb. destruct (split32 b Hb) as (E & Hs & He & Hm).
  unfold widen, is_nan32. set (s := sign32 b) in *. set (e := exp32 b) in *. set (m := man32 b) in *.
  destruct (Z.eqb_spec e 255) as [E255|E255]; cbn [andb].
  - destruct (Z.eqb_spec m 0) as [Em|Em]; cbn [negb]; unfold narrow.
    + destruct (split64 s 2047 0) as (-> & -> & ->); [lia..|]. cbn. congruence.
    + rewrite quiet_scale by done.
      pose proof (quiet_range (2 ^ 22) m (2 ^ 23) ltac:(lia) ltac:(lia) Hm) as Hq.
      destruct (split64 s 2047 (quiet (2 ^ 22) m * 2 ^ 29)) as (-> & -> & ->);
        [lia|split; [lia|change (2 ^ 52) with (2 ^ 23 * 2 ^ 29); nia]|].
      rewrite Z.eqb_refl, Z.div_mul by lia. rewrite quiet_idem by done.
      assert (0 < quiet (2 ^ 22) m) by (unfold quiet in *; destruct (_ =? 0); lia).
      rewrite (proj2 (Z.eqb_neq _ _)) by lia. done.
  - destruct (Z.eqb_spec e 0) as [E0|E0].
    + destruct (Z.eqb_spec m 0) as [Em|Em]; unfold narrow.
      * destruct (split64 s 0 0) as (-> & -> & ->); [lia..|]. cbn. congruence.
      * set (k := Z.log2 m). destruct (Z.log2_spec m) as [Hk1 Hk2]; [lia|]. fold k in Hk1, Hk2.
        assert (0 <= k < 23) as Hk.
        { split; [apply Z.log2_nonneg|]. apply (Z.pow_lt_mono_r_iff 2); lia. }
        rewrite Z.pow_succ_r in Hk2 by lia.
        assert (2 ^ 52 = 2 ^ k * 2 ^ (52 - k)) as E52 by (rewrite <- Z.pow_add_r by lia; f_equal; lia).
        assert (0 < 2 ^ (52 - k)) by (apply Z.pow_pos_nonneg; lia).
        destruct (split64 s (k + 874) ((m - 2 ^ k) * 2 ^ (52 - k))) as (-> & -> & ->);
          [lia|rewrite E52; nia|].
        rewrite (proj2 (Z.eqb_neq _ 2047)), (proj2 (Z.eqb_neq _ 0)) by lia.
        rewrite (proj2 (Z.leb_gt 897 _)) by lia.
        replace (29 + (897 - (k + 874))) with (52 - k) by lia.
        rewrite (proj2 (Z.ltb_ge 54 _)) by lia.
        replace (2 ^ 52 + (m - 2 ^ k) * 2 ^ (52 - k)) with (m * 2 ^ (52 - k)) by (rewrite E52; ring).
        rewrite round_even_exact by lia. rewrite E, E0. done.
    + unfold narrow.
      destruct (split64 s (e + 896) (m * 2 ^ 29)) as (-> & -> & ->);
        [lia|split; [lia|change (2 ^ 52) with (2 ^ 23 * 2 ^ 29); nia]|].
      rewrite (proj2 (Z.eqb_neq _ 2047)), (proj2 (Z.eqb_neq _ 0)) by lia.
      rewrite (proj2 (Z.leb_le 897 _)) by lia.
      replace (2 ^ 52 + m * 2 ^ 29) with ((2 ^ 23 + m) * 2 ^ 29) by (change (2 ^ 52) with (2 ^ 23 * 2 ^ 29); ring).
      rewrite round_even_exact by lia. change (2 ^ 23) with 8388608 in *.
      rewrite (proj2 (Z.leb_gt _ _)) by lia. transitivity (mk32 s e m); [|done].
      unfold mk32. change (2 ^ 23) with 8388608. lia.
Qed.

Lemma narrow_range b : is_u32 b -> is_u32 (narrow (widen b)).
Proof.
  intros Hb. rewrite narrow_widen by done. destruct (is_nan32 b); [|done].
  destruct (split32 b Hb) as (_ & Hs & _ & Hm).
  pose proof (quiet_range (2 ^ 22) (man32 b) (2 ^ 23) ltac:(lia) ltac:(lia) Hm).
  unfold is_uint, mk32. change (2 ^ 23) with 8388608 in *. zpow. lia.
Qed.

(** Reading back a written float gives the stored [float64] again. *)
Lemma widen_narrow_widen b : is_u32 b -> widen (narrow (widen b)) = widen b.
Proof.
  intros Hb. rewrite narrow_widen by done. destruct (is_nan32 b) eqn:En; [|done].
  destruct (split32 b Hb) as (_ & Hs & _ & Hm).
  unfold is_nan32 in En. apply andb_true_iff in En as [E255 Em].
  apply Z.eqb_eq in E255. apply negb_true_iff, Z.eqb_neq in Em.
  set (q := quiet (2 ^ 22) (man32 b)).
  assert (0 <= q < 2 ^ 23) as Hq by (apply quiet_range; lia).
  assert (q <> 0) as Hq0 by (unfold q, quiet; destruct (_ =? 0); lia).
  assert (sign32 (mk32 (sign32 b) 255 q) = sign32 b /\ exp32 (mk32 (sign32 b) 255 q) = 255
          /\ man32 (mk32 (sign32 b) 255 q) = q) as (Es & Ee & Eq).
  { generalize (sign32 b) as s, Hs. clear -Hq. intros s Hs.
    unfold sign32, exp32, man32, mk32. change (2 ^ 23) with 8388608 in *. zpow.
    Z.to_euclidean_division_equations. lia. }
  unfold widen. rewrite Es, Ee, Eq, E255.
  rewrite (proj2 (Z.eqb_neq q 0)), (proj2 (Z.eqb_neq (man32 b) 0)) by done. cbn [Z.eqb Pos.eqb].
  rewrite !quiet_scale by done. unfold q. by rewrite quiet_idem.
Qed.
