(* ===== verification/Nbt.v ===== *)
(** * Nbt: named binary tags

    Models the data types and the binary encoder of [src/nbt/nbt.go] and the
    binary reader of [src/nbt/read.go]. The encoder is written against the
    interface [ByteWriter] of the source, with its two implementations
    [proto.PacketWriter] and [nbt.Writer] as instances. Go panics (a slice
    expression with a negative length) are a result of their own. *)

From S2P Require Import Prelude VarInt Wire GoFloat.

(** ** Tags and compounds *)

Definition TagEnd : byte := x00.
Definition TagByte : byte := x01.
Definition TagShort : byte := x02.
Definition TagInt : byte := x03.
Definition TagLong : byte := x04.
Definition TagFloat : byte := x05.
Definition TagDouble : byte := x06.
Definition TagByteArray : byte := x07.
Definition TagString : byte := x08.
Definition TagList : byte := x09.
Definition TagCompound : byte := x0a.
Definition TagIntArray : byte := x0b.
Definition TagLongArray : byte := x0c.

(** The struct [Tag] carries one payload field per [Type]; floats are stored
    as the bit pattern of the [float64] in [F64]. A [Compound], the
    insertion-ordered map of names to tags, is its list of entries. *)
#[warnings="-register-all"]
Inductive Tag :=
| TEnd
| TByte (Num : Z)
| TShort (Num : Z)
| TInt (Num : Z)
| TLong (Num : Z)
| TFloat (F64 : Z)
| TDouble (F64 : Z)
| TByteArray (Bs : bytes)
| TString (Str : bytes)
| TList (ListType : byte) (Lst : list Tag)
| TCompound (Cmp : list (bytes * Tag))
| TIntArray (Ints : list Z)
| TLongArray (Longs : list Z).

Abbreviation Compound := (list (bytes * Tag)).

Definition TypeOf (t : Tag) : byte :=
  match t with
  | TEnd => TagEnd | TByte _ => TagByte | TShort _ => TagShort | TInt _ => TagInt
  | TLong _ => TagLong | TFloat _ => TagFloat | TDouble _ => TagDouble
  | TByteArray _ => TagByteArray | TString _ => TagString | TList _ _ => TagList
  | TCompound _ => TagCompound | TIntArray _ => TagIntArray | TLongArray _ => TagLongArray
  end.

(** Induction over the nesting of lists and compounds. *)
Section TagInd.

Variable P : Tag -> Prop.
Hypothesis HEnd : P TEnd.
Hypothesis HByte : forall n, P (TByte n).
Hypothesis HShort : forall n, P (TShort n).
Hypothesis HInt : forall n, P (TInt n).
Hypothesis HLong : forall n, P (TLong n).
Hypothesis HFloat : forall n, P (TFloat n).
Hypothesis HDouble : forall n, P (TDouble n).
Hypothesis HByteArray : forall n, P (TByteArray n).
Hypothesis HString : forall n, P (TString n).
Hypothesis HList : forall ty l, Forall P l -> P (TList ty l).
Hypothesis HCompound : forall c, Forall (fun e => P (snd e)) c -> P (TCompound c).
Hypothesis HIntArray : forall n, P (TIntArray n).
Hypothesis HLongArray : forall n, P (TLongArray n).

Fixpoint Tag_nested_ind (t : Tag) : P t :=
  match t with
  | TEnd => HEnd
  | TByte n => HByte n
  | TShort n => HShort n
  | TInt n => HInt n
  | TLong n => HLong n
  | TFloat n => HFloat n
  | TDouble n => HDouble n
  | TByteArray n => HByteArray n
  | TString n => HString n
  | TList ty l => HList ty l
      ((fix go l : Forall P l :=
          match l with
          | [] => Forall_nil_2 _
          | x :: l' => Forall_cons_2 _ _ _ (Tag_nested_ind x) (go l')
          end) l)
  | TCompound c => HCompound c
      ((fix go c : Forall (fun e => P (snd e)) c :=
          match c with
          | [] => Forall_nil_2 _
          | e :: c' => Forall_cons_2 _ _ _ (Tag_nested_ind (snd e)) (go c')
          end) c)
  | TIntArray n => HIntArray n
  | TLongArray n => HLongArray n
  end.

End TagInd.

(** *** Compound operations *)

Definition NewCompound : Compound := [].
Definition Len (c : Compound) : Z := Zlen c.
Definition Names (c : Compound) : list bytes := fst <$> c.

Fixpoint Get (name : bytes) (c : Compound) : option Tag :=
  match c with
  | [] => None
  | (n, t) :: c' => if decide (n = name) then Some t else Get name c'
  end.

(** An existing key keeps its position, a new one is appended. *)
Fixpoint Insert (name : bytes) (tag : Tag) (c : Compound) : Compound :=
  match c with
  | [] => [(name, tag)]
  | (n, t) :: c' => if decide (n = name) then (n, tag) :: c' else (n, t) :: Insert name tag c'
  end.

Definition GetCompound (name : bytes) (c : Compound) : option Compound :=
  match Get name c with
  | Some (TCompound c') => Some c'
  | _ => None
  end.

Definition GetStr (name : bytes) (c : Compound) : option bytes :=
  match Get name c with
  | Some (TString s) => Some s
  | _ => None
  end.

(** The items of a list child; an item that is no compound has a nil
    [Compound] field, here the value [None]. *)
Definition GetCompoundVec (name : bytes) (c : Compound) : option (list (option Compound)) :=
  match Get name c with
  | Some (TList _ l) => Some ((fun t => match t with TCompound c' => Some c' | _ => None end) <$> l)
  | _ => None
  end.

Definition InsertByte (name : bytes) (v : Z) : Compound -> Compound := Insert name (TByte v).
Definition InsertShort (name : bytes) (v : Z) : Compound -> Compound := Insert name (TShort v).
Definition InsertInt (name : bytes) (v : Z) : Compound -> Compound := Insert name (TInt v).
Definition InsertLong (name : bytes) (v : Z) : Compound -> Compound := Insert name (TLong v).
Definition InsertFloat (name : bytes) (v : Z) : Compound -> Compound := Insert name (TFloat (widen v)).
Definition InsertDouble (name : bytes) (v : Z) : Compound -> Compound := Insert name (TDouble v).
Definition InsertString (name : bytes) (v : bytes) : Compound -> Compound := Insert name (TString v).

(** [Clone] rebuilds the compound by re-inserting every cloned entry. *)
Fixpoint cloneTag (t : Tag) : Tag :=
  match t with
  | TCompound c =>
      TCompound ((fix go c out :=
        match c with
        | [] => out
        | (n, t) :: c' => go c' (Insert n (cloneTag t) out)
        end) c NewCompound)
  | TList ty l => TList ty (map cloneTag l)
  | _ => t
  end.

Definition Clone (c : Compound) : Compound :=
  fold_left (fun out e => Insert (fst e) (cloneTag (snd e)) out) c NewCompound.

(** ** Writing *)

(** The interface [ByteWriter]; [bw_contents] is the accumulated output. *)
Class ByteWriter (W : Type) := {
  bw_contents : W -> bytes;
  bw_Write : bytes -> W -> W;
  bw_WriteU8 : byte -> W -> W;
  bw_WriteInt16 : Z -> W -> W;
  bw_WriteInt32 : Z -> W -> W;
  bw_WriteInt64 : Z -> W -> W;
  bw_WriteFloat32 : Z -> W -> W;
  bw_WriteFloat64 : Z -> W -> W
}.

(** What an implementation promises: every method appends the big-endian
    encoding of its argument. *)
Class ByteWriterLaws (W : Type) {BW : ByteWriter W} := {
  bw_law_Write b (w : W) : bw_contents (bw_Write b w) = bw_contents w ++ b;
  bw_law_U8 b (w : W) : bw_contents (bw_WriteU8 b w) = bw_contents w ++ [b];
  bw_law_Int16 v (w : W) : bw_contents (bw_WriteInt16 v w) = bw_contents w ++ be_bytes 2 (u16 v);
  bw_law_Int32 v (w : W) : bw_contents (bw_WriteInt32 v w) = bw_contents w ++ be_bytes 4 (u32 v);
  bw_law_Int64 v (w : W) : bw_contents (bw_WriteInt64 v w) = bw_contents w ++ be_bytes 8 (u64 v);
  bw_law_Float32 v (w : W) : is_u32 v -> bw_contents (bw_WriteFloat32 v w) = bw_contents w ++ be_bytes 4 v;
  bw_law_Float64 v (w : W) : is_u64 v -> bw_contents (bw_WriteFloat64 v w) = bw_contents w ++ be_bytes 8 v
}.

#[export] Instance PacketWriter_ByteWriter : ByteWriter PacketWriter := {|
  bw_contents := wbuf;
  bw_Write := Write;
  bw_WriteU8 := WriteU8;
  bw_WriteInt16 := WriteInt16;
  bw_WriteInt32 := WriteInt32;
  bw_WriteInt64 := WriteInt64;
  bw_WriteFloat32 := WriteFloat32;
  bw_WriteFloat64 := WriteFloat64
|}.

#[export] Instance PacketWriter_laws : ByteWriterLaws PacketWriter.
Proof. by split. Qed.

(** [nbt.Writer] shifts its integers by hand. *)
Record Writer := { nbuf : bytes }.

Definition nw_append (l : bytes) (w : Writer) : Writer := {| nbuf := nbuf w ++ l |}.
Definition nw_Int16 (v : Z) : Writer -> Writer := nw_append [z2b (Z.shiftr v 8); z2b v].
Definition nw_Int32 (v : Z) : Writer -> Writer :=
  nw_append [z2b (Z.shiftr v 24); z2b (Z.shiftr v 16); z2b (Z.shiftr v 8); z2b v].
Definition nw_Int64 (v : Z) : Writer -> Writer :=
  nw_append [z2b (Z.shiftr v 56); z2b (Z.shiftr v 48); z2b (Z.shiftr v 40); z2b (Z.shiftr v 32);
             z2b (Z.shiftr v 24); z2b (Z.shiftr v 16); z2b (Z.shiftr v 8); z2b v].
Definition int32Bits (f : Z) : Z := i32 f.
Definition int64Bits (f : Z) : Z := i64 f.

#[export] Instance Writer_ByteWriter : ByteWriter Writer := {|
  bw_contents := nbuf;
  bw_Write := nw_append;
  bw_WriteU8 b := nw_append [b];
  bw_WriteInt16 := nw_Int16;
  bw_WriteInt32 := nw_Int32;
  bw_WriteInt64 := nw_Int64;
  bw_WriteFloat32 v := nw_Int32 (int32Bits v);
  bw_WriteFloat64 v := nw_Int64 (int64Bits v)
|}.

Lemma z2b_mod v k n : (0 <= k)%Z -> k + 8 <= n -> z2b (Z.shiftr v k) = z2b (Z.shiftr (uintw n v) k).
Proof.
  intros Hk Hn. apply b2z_inj. rewrite !b2z_z2b. unfold uintw. change 256 with (2 ^ 8).
  apply Z.bits_inj'. intros i Hi. destruct (Z.lt_ge_cases i 8).
  - rewrite !Z.mod_pow2_bits_low, !Z.shiftr_spec, Z.mod_pow2_bits_low by lia. done.
  - by rewrite !Z.mod_pow2_bits_high by lia.
Qed.

Lemma nw_be (n : nat) v :
  be_bytes n (uintw (8 * Z.of_nat n) v) = be_bytes n v.
Proof.
  assert (forall k, (k <= n)%nat -> be_bytes k (uintw (8 * Z.of_nat n) v) = be_bytes k v) as H;
    [|by apply H].
  induction k as [|k IH]; intros Hk; [done|]. cbn [be_bytes]. f_equal; [|apply IH; lia].
  symmetry. apply z2b_mod; lia.
Qed.

Lemma z2b_shiftr_0 v : z2b (Z.shiftr v 0) = z2b v.
Proof. by rewrite Z.shiftr_0_r. Qed.

#[export] Instance Writer_laws : ByteWriterLaws Writer.
Proof.
  split; try done; intros; cbn [bw_contents Writer_ByteWriter bw_WriteInt16 bw_WriteInt32
    bw_WriteInt64 bw_WriteFloat32 bw_WriteFloat64]; unfold nw_Int16, nw_Int32, nw_Int64, nw_append;
    cbn [nbuf]; f_equal.
  - rewrite (nw_be 2). cbn [be_bytes]. by rewrite z2b_shiftr_0.
  - rewrite (nw_be 4). cbn [be_bytes]. by rewrite z2b_shiftr_0.
  - rewrite (nw_be 8). cbn [be_bytes]. by rewrite z2b_shiftr_0.
  - rewrite <- (uintw_sintw 32 v) by done. rewrite (nw_be 4). cbn [be_bytes].
    rewrite z2b_shiftr_0. unfold int32Bits. by rewrite (uintw_sintw 32 v).
  - rewrite <- (uintw_sintw 64 v) by done. rewrite (nw_be 8). cbn [be_bytes].
    rewrite z2b_shiftr_0. unfold int64Bits. by rewrite (uintw_sintw 64 v).
Qed.

Section Writing.

Context {W : Type} `{BW : ByteWriter W}.

Definition writeString (s : bytes) (w : W) : W :=
  w |> bw_WriteInt16 (i16 (Zlen s)) |> bw_Write s.

Fixpoint writeTag (t : Tag) (w : W) {struct t} : W :=
  match t with
  | TEnd => w
  | TByte n => w |> bw_WriteU8 (z2b n)
  | TShort n => w |> bw_WriteInt16 (i16 n)
  | TInt n => w |> bw_WriteInt32 (i32 n)
  | TLong n => w |> bw_WriteInt64 n
  | TFloat f => w |> bw_WriteFloat32 (narrow f)
  | TDouble f => w |> bw_WriteFloat64 f
  | TByteArray b => w |> bw_WriteInt32 (i32 (Zlen b)) |> bw_Write b
  | TString s => w |> writeString s
  | TList ty l =>
      (fix go l w := match l with [] => w | x :: l' => go l' (writeTag x w) end) l
        (w |> bw_WriteU8 ty |> bw_WriteInt32 (i32 (Zlen l)))
  | TCompound c =>
      (fix go c w :=
         match c with
         | [] => w |> bw_WriteU8 TagEnd
         | (name, x) :: c' =>
             go c' (w |> bw_WriteU8 (TypeOf x) |> writeString name |> writeTag x)
         end) c w
  | TIntArray l =>
      fold_left (fun w v => w |> bw_WriteInt32 v) l (w |> bw_WriteInt32 (i32 (Zlen l)))
  | TLongArray l =>
      fold_left (fun w v => w |> bw_WriteInt64 v) l (w |> bw_WriteInt32 (i32 (Zlen l)))
  end.

Fixpoint writeInnerCompound (c : Compound) (w : W) : W :=
  match c with
  | [] => w |> bw_WriteU8 TagEnd
  | (name, x) :: c' =>
      writeInnerCompound c' (w |> bw_WriteU8 (TypeOf x) |> writeString name |> writeTag x)
  end.

Definition WriteCompoundTag (c : Compound) (w : W) : W :=
  w |> bw_WriteU8 TagCompound |> writeString [] |> writeInnerCompound c.

End Writing.

(** The bytes of a tag payload, and what makes a tag writable without loss. *)
Definition nstr_enc (s : bytes) : bytes := be_bytes 2 (u16 (i16 (Zlen s))) ++ s.

Fixpoint tag_enc (t : Tag) : bytes :=
  match t with
  | TEnd => []
  | TByte n => [z2b n]
  | TShort n => be_bytes 2 (u16 (i16 n))
  | TInt n => be_bytes 4 (u32 (i32 n))
  | TLong n => be_bytes 8 (u64 n)
  | TFloat f => be_bytes 4 (narrow f)
  | TDouble f => be_bytes 8 f
  | TByteArray b => be_bytes 4 (u32 (i32 (Zlen b))) ++ b
  | TString s => nstr_enc s
  | TList ty l => [ty] ++ be_bytes 4 (u32 (i32 (Zlen l))) ++ flat_map tag_enc l
  | TCompound c =>
      flat_map (fun e => [TypeOf (snd e)] ++ nstr_enc (fst e) ++ tag_enc (snd e)) c ++ [TagEnd]
  | TIntArray l => be_bytes 4 (u32 (i32 (Zlen l))) ++ flat_map (fun v => be_bytes 4 (u32 v)) l
  | TLongArray l => be_bytes 4 (u32 (i32 (Zlen l))) ++ flat_map (fun v => be_bytes 8 (u64 v)) l
  end.

Fixpoint tag_ok (t : Tag) : Prop :=
  match t with
  | TEnd => True
  | TByte n => is_sint 8 n
  | TShort n => is_i16 n
  | TInt n => is_i32 n
  | TLong n => is_i64 n
  | TFloat f => exists b, is_u32 b /\ f = widen b
  | TDouble f => is_u64 f
  | TByteArray b => Zlen b < 2 ^ 31
  | TString s => Zlen s < 2 ^ 15
  | TList ty l =>
      Zlen l < 2 ^ 31
      /\ (fix go l := match l with [] => True | x :: l' => (tag_ok x /\ TypeOf x = ty) /\ go l' end) l
  | TCompound c =>
      NoDup (Names c)
      /\ (fix go c := match c with
                      | [] => True
                      | e :: c' =>
                          (Zlen (fst e) < 2 ^ 15 /\ TypeOf (snd e) <> TagEnd /\ tag_ok (snd e)) /\ go c'
                      end) c
  | TIntArray l => Zlen l < 2 ^ 31 /\ Forall is_i32 l
  | TLongArray l => Zlen l < 2 ^ 31 /\ Forall is_i64 l
  end.

Definition compound_ok (c : Compound) : Prop := tag_ok (TCompound c).

Lemma tag_ok_list ty l :
  tag_ok (TList ty l) <-> Zlen l < 2 ^ 31 /\ Forall (fun x => tag_ok x /\ TypeOf x = ty) l.
Proof.
  cbn [tag_ok]. assert (forall l0,
    (fix go l := match l with [] => True | x :: l' => (tag_ok x /\ TypeOf x = ty) /\ go l' end) l0
    <-> Forall (fun x => tag_ok x /\ TypeOf x = ty) l0) as H; [|by rewrite H].
  induction l0 as [|x l0 IH]; [split; [constructor|done]|]. rewrite Forall_cons, IH. done.
Qed.

Lemma tag_ok_compound c :
  tag_ok (TCompound c) <->
  NoDup (Names c)
  /\ Forall (fun e => Zlen (fst e) < 2 ^ 15 /\ TypeOf (snd e) <> TagEnd /\ tag_ok (snd e)) c.
Proof.
  cbn [tag_ok]. set (go := fix go c := match c with [] => True | e :: c' => _ /\ go c' end).
  assert (forall c0, go c0 <->
    Forall (fun e => Zlen (fst e) < 2 ^ 15 /\ TypeOf (snd e) <> TagEnd /\ tag_ok (snd e)) c0) as H;
    [|by rewrite H].
  induction c0 as [|x c0 IH]; [split; [constructor|done]|]. rewrite Forall_cons, <- IH. done.
Qed.

(** ** Reading *)

Record Reader := mkNReader { ndata : bytes; npos : nat }.

(** Results of the reader: a value, the result [nil, false], a run-time panic,
    and the model's out-of-fuel value, which no run produces. *)
Inductive Out (A : Type) :=
| Ret (a : A)
| Bad
| Panic
| NoFuel.
Arguments Ret {A} a.
Arguments Bad {A}.
Arguments Panic {A}.
Arguments NoFuel {A}.

Definition NR (A : Type) : Type := Reader -> Out (A * Reader).

#[export] Instance NR_ret : MRet NR := fun A a r => Ret (a, r).
#[export] Instance NR_bind : MBind NR := fun A B k m r =>
  match m r with
  | Ret (a, r') => k a r'
  | Bad => Bad
  | Panic => Panic
  | NoFuel => NoFuel
  end.

Definition Remaining (r : Reader) : Z := Zlen (ndata r) - Z.of_nat (npos r).
Definition nunread (r : Reader) : bytes := drop (npos r) (ndata r).
Definition nadvance (n : nat) (r : Reader) : Reader := mkNReader (ndata r) (npos r + n).

Definition n_u8 : NR byte := fun r =>
  match ndata r !! npos r with
  | None => Bad
  | Some b => Ret (b, nadvance 1 r)
  end.

Definition n_be (k : nat) : NR Z := fun r =>
  if Remaining r <? Z.of_nat k then Bad
  else Ret (be_val (take k (nunread r)), nadvance k r).

Definition n_i16 : NR Z := v ← n_be 2; mret (i16 v).
Definition n_i32 : NR Z := v ← n_be 4; mret (i32 v).
Definition n_i64 : NR Z := v ← n_be 8; mret (i64 v).
Definition n_f32 : NR Z := n_be 4.
Definition n_f64 : NR Z := n_be 8.

(** [r.data[r.pos : r.pos+n]] after the check [n > r.Remaining()]: a negative
    [n] passes the check and makes the slice expression panic. *)
Definition n_slice (n : Z) : NR bytes := fun r =>
  if Remaining r <? n then Bad
  else if n <? 0 then Panic
  else Ret (take (Z.to_nat n) (nunread r), nadvance (Z.to_nat n) r).

Definition ReadString : NR bytes := n ← n_i16; n_slice n.

(** [for i := int32(0); i < n; i++] collecting the results of [m]. *)
Fixpoint n_repeat {A} (n : nat) (m : NR A) : NR (list A) :=
  match n with
  | O => mret []
  | S n' => x ← m; l ← n_repeat n' m; mret (x :: l)
  end.

(** [int(n)*k > r.Remaining()]. *)
Definition n_check (n k : Z) : NR unit := fun r =>
  if Remaining r <? n * k then Bad else Ret (tt, r).

(** The [for] loop over the entries of a compound; [rt] reads a child tag. *)
Fixpoint readEntries (rt : byte -> NR Tag) (k : nat) (c : Compound) : NR Compound :=
  match k with
  | O => fun _ => NoFuel
  | S k' =>
      childType ← n_u8;
      if decide (childType = TagEnd) then mret c
      else
        name ← ReadString;
        child ← rt childType;
        readEntries rt k' (Insert name child c)
  end.

Fixpoint readTag (fuel : nat) (tagID : byte) {struct fuel} : NR Tag :=
  match fuel with
  | O => fun _ => NoFuel
  | S fuel' =>
      match tagID with
      | x00 => mret TEnd
      | x01 => v ← n_u8; mret (TByte (i8 (b2z v)))
      | x02 => v ← n_i16; mret (TShort v)
      | x03 => v ← n_i32; mret (TInt v)
      | x04 => v ← n_i64; mret (TLong v)
      | x05 => v ← n_f32; mret (TFloat (widen v))
      | x06 => v ← n_f64; mret (TDouble v)
      | x07 => n ← n_i32; b ← n_slice n; mret (TByteArray b)
      | x08 => s ← ReadString; mret (TString s)
      | x09 =>
          elemType ← n_u8;
          n ← n_i32;
          l ← n_repeat (Z.to_nat n) (readTag fuel' elemType);
          mret (TList elemType l)
      | x0a => c ← readEntries (readTag fuel') fuel' NewCompound; mret (TCompound c)
      | x0b => n ← n_i32; _ ← n_check n 4; l ← n_repeat (Z.to_nat n) n_i32; mret (TIntArray l)
      | x0c => n ← n_i32; _ ← n_check n 8; l ← n_repeat (Z.to_nat n) n_i64; mret (TLongArray l)
      | _ => fun _ => Bad
      end
  end.

(** Fuel: two more than the unread bytes (see [readTag_fuel]). *)
Definition nbt_fuel (r : Reader) : nat := length (nunread r) + 2.

Definition readTag_fueled (tagID : byte) : NR Tag := fun r => readTag (nbt_fuel r) tagID r.

Definition compound_of (tag : Tag) : NR Compound := fun r =>
  match tag with
  | TCompound c => Ret (c, r)
  | _ => Bad
  end.

Definition ReadCompoundTag : NR Compound :=
  tagID ← n_u8;
  _ ← ReadString;
  tag ← readTag_fueled tagID;
  compound_of tag.

(** ** The writer produces [tag_enc] *)

Section WritingSpec.

Context {W : Type} `{BWL : ByteWriterLaws W}.

Lemma writeString_contents s w : bw_contents (writeString s w) = bw_contents w ++ nstr_enc s.
Proof. unfold writeString, nstr_enc. by rewrite bw_law_Write, bw_law_Int16, <- app_assoc. Qed.

Lemma write_ints_contents (f : Z -> W -> W) (enc : Z -> bytes) l w :
  (forall v w, bw_contents (f v w) = bw_contents w ++ enc v) ->
  bw_contents (fold_left (fun w v => f v w) l w) = bw_contents w ++ flat_map enc l.
Proof.
  intros Hf. revert w. induction l as [|v l IH]; intros w; cbn; [by rewrite app_nil_r|].
  by rewrite IH, Hf, <- app_assoc.
Qed.

Lemma writeTag_contents t : tag_ok t ->
  forall w, bw_contents (writeTag t w) = bw_contents w ++ tag_enc t.
Proof.
  induction t as [|n|n|n|n|f|f|b|s|ty l IH|c IH|l|l] using Tag_nested_ind; intros Hok w;
    cbn [writeTag tag_enc].
  - by rewrite app_nil_r.
  - apply bw_law_U8.
  - apply bw_law_Int16.
  - apply bw_law_Int32.
  - apply bw_law_Int64.
  - destruct Hok as (b & Hb & ->). by apply bw_law_Float32, narrow_range.
  - by apply bw_law_Float64.
  - by rewrite bw_law_Write, bw_law_Int32, <- app_assoc.
  - apply writeString_contents.
  - apply tag_ok_list in Hok as [_ Hok].
    rewrite !app_assoc, <- bw_law_U8, <- bw_law_Int32.
    generalize (bw_WriteInt32 (i32 (Zlen l)) (bw_WriteU8 ty w)). clear w.
    induction l as [|x l IHl]; intros w; [by rewrite app_nil_r|].
    apply Forall_cons in IH as [Hx IH], Hok as [[Hx1 _] Hok].
    cbn [flat_map]. rewrite IHl, Hx, <- app_assoc by done. done.
  - apply tag_ok_compound in Hok as [_ Hok]. revert w.
    induction c as [|[name x] c IHc]; intros w; [by rewrite bw_law_U8|].
    apply Forall_cons in IH as [Hx IH], Hok as [(_ & _ & Hx1) Hok]. cbn [flat_map fst snd].
    cbn [snd] in *. rewrite IHc, Hx, writeString_contents, bw_law_U8, <- !app_assoc by done. done.
  - rewrite (write_ints_contents _ _ _ _ bw_law_Int32), bw_law_Int32, <- app_assoc. done.
  - rewrite (write_ints_contents _ _ _ _ bw_law_Int64), bw_law_Int32, <- app_assoc. done.
Qed.

Lemma writeInnerCompound_tag c w : writeInnerCompound c w = writeTag (TCompound c) w.
Proof.
  cbn [writeTag]. revert w. induction c as [|[name x] c IH]; intros w; [done|]. cbn. by rewrite IH.
Qed.

Lemma WriteCompoundTag_contents c w : compound_ok c ->
  bw_contents (WriteCompoundTag c w)
  = bw_contents w ++ [TagCompound] ++ nstr_enc [] ++ tag_enc (TCompound c).
Proof.
  intros Hok. unfold WriteCompoundTag.
  rewrite writeInnerCompound_tag, writeTag_contents by done.
  by rewrite writeString_contents, bw_law_U8, <- !app_assoc.
Qed.

End WritingSpec.

(** ** The reader inverts [tag_enc] *)

(** [nreads B m e a]: on at most [B] unread bytes that start with [e], [m]
    returns [a] and stops after [e]. *)
Definition nreads {A} (B : nat) (m : NR A) (e : bytes) (a : A) : Prop :=
  forall d p tail, (p <= length d)%nat -> drop p d = e ++ tail -> (length (e ++ tail) <= B)%nat ->
  m (mkNReader d p) = Ret (a, mkNReader d (p + length e)).

Lemma nreads_ret {A} B (a : A) : nreads B (mret a) [] a.
Proof. intros d p tail _ _ _. cbn. by rewrite Nat.add_0_r. Qed.

Lemma nreads_bind {A C} B (m : NR A) (k : A -> NR C) e1 e2 a b :
  nreads B m e1 a -> nreads (B - length e1) (k a) e2 b -> nreads B (m ≫= k) (e1 ++ e2) b.
Proof.
  intros H1 H2 d p tail Hp E Hl. rewrite <- app_assoc in E, Hl.
  unfold mbind, NR_bind. rewrite (H1 _ _ _ Hp E Hl).
  pose proof (f_equal length E) as El. rewrite length_drop, length_app in El.
  rewrite (H2 d (p + length e1)%nat tail);
    [by rewrite length_app, Nat.add_assoc|lia|by eapply drop_add_app|].
  rewrite length_app in Hl. lia.
Qed.

Lemma nreads_map {A C} B (m : NR A) (f : A -> C) e a :
  nreads B m e a -> nreads B (x ← m; mret (f x)) e (f a).
Proof. intros H. rewrite <- (app_nil_r e). eapply nreads_bind; [done|]. apply nreads_ret. Qed.

Lemma nreads_mono {A} B B' (m : NR A) e a : (B' <= B)%nat -> nreads B m e a -> nreads B' m e a.
Proof. intros HB H d p tail Hp E Hl. eapply H; [done|done|lia]. Qed.

Lemma nreads_short {A} B (m : NR A) e a : (B < length e)%nat -> nreads B m e a.
Proof. intros H d p tail _ _ Hl. rewrite length_app in Hl. lia. Qed.

Lemma nreads_u8 B b : nreads B n_u8 [b] b.
Proof. intros d p tail _ E _. unfold n_u8. cbn [ndata npos]. by rewrite (drop_lookup d p _ _ E). Qed.

Lemma nRemaining d p e tail :
  drop p d = e ++ tail -> (p <= length d)%nat -> Remaining (mkNReader d p) = Zlen e + Zlen tail.
Proof.
  intros E Hp. unfold Remaining, Zlen. cbn [ndata npos].
  pose proof (f_equal length E) as El. rewrite length_drop, length_app in El. lia.
Qed.

Lemma nreads_be B k v : (0 < k)%nat -> 0 <= v < 256 ^ Z.of_nat k -> nreads B (n_be k) (be_bytes k v) v.
Proof.
  intros Hk Hv d p tail Hp E _. unfold n_be.
  rewrite (nRemaining d p _ _ E) by done.
  unfold Zlen. rewrite be_bytes_length, (proj2 (Z.ltb_ge _ _)) by lia.
  unfold nunread, nadvance. cbn [ndata npos]. rewrite E.
  rewrite take_app_length' by (by rewrite be_bytes_length).
  by rewrite be_val_bytes, Z.mod_small.
Qed.

Lemma nreads_i16 B v : is_i16 v -> nreads B n_i16 (be_bytes 2 (u16 v)) v.
Proof.
  intros Hv. unfold n_i16. rewrite <- (sintw_uintw 16 v) at 2 by done.
  apply (nreads_map B (n_be 2) i16), nreads_be; [lia|]. by apply (uintw_range 16).
Qed.

Lemma nreads_i32 B v : is_i32 v -> nreads B n_i32 (be_bytes 4 (u32 v)) v.
Proof.
  intros Hv. unfold n_i32. rewrite <- (sintw_uintw 32 v) at 2 by done.
  apply (nreads_map B (n_be 4) i32), nreads_be; [lia|]. by apply (uintw_range 32).
Qed.

Lemma nreads_i64 B v : is_i64 v -> nreads B n_i64 (be_bytes 8 (u64 v)) v.
Proof.
  intros Hv. unfold n_i64. rewrite <- (sintw_uintw 64 v) at 2 by done.
  apply (nreads_map B (n_be 8) i64), nreads_be; [lia|]. by apply (uintw_range 64).
Qed.

Lemma nreads_slice B s : nreads B (n_slice (Zlen s)) s s.
Proof.
  intros d p tail Hp E _. unfold n_slice. rewrite (nRemaining d p _ _ E) by done.
  rewrite (proj2 (Z.ltb_ge _ (Zlen s))) by (unfold Zlen; lia).
  rewrite (proj2 (Z.ltb_ge (Zlen s) 0)) by (unfold Zlen; lia).
  unfold nunread, nadvance, Zlen. cbn [ndata npos]. rewrite E, Nat2Z.id.
  by rewrite take_app_length.
Qed.

Lemma nreads_string B s : Zlen s < 2 ^ 15 -> nreads B ReadString (nstr_enc s) s.
Proof.
  intros Hs. assert (is_i16 (Zlen s)) as Hi by (unfold is_sint, Zlen in *; zpow; lia).
  unfold ReadString, nstr_enc. rewrite sintw_id by done.
  eapply nreads_bind; [by apply nreads_i16|apply nreads_slice].
Qed.

Lemma nreads_check B n k e tl {A} (m : NR A) a :
  e = tl -> 0 <= k -> Z.of_nat (length e) = n * k ->
  nreads B m e a -> nreads B (_ ← n_check n k; m) tl a.
Proof.
  intros <- Hk Hn Hm d p tail Hp E Hl. unfold mbind, NR_bind, n_check.
  rewrite (nRemaining d p _ _ E) by done.
  rewrite (proj2 (Z.ltb_ge _ _)) by (unfold Zlen; lia). by eapply Hm.
Qed.

Lemma nreads_repeat {A} B (m : NR A) (enc : A -> bytes) l :
  (forall x, x ∈ l -> nreads B m (enc x) x) ->
  nreads B (n_repeat (length l) m) (flat_map enc l) l.
Proof.
  revert B. induction l as [|x l IH]; intros B Hm; cbn [n_repeat length flat_map]; [apply nreads_ret|].
  eapply nreads_bind; [apply Hm; constructor|].
  apply nreads_map. apply IH. intros y Hy. eapply nreads_mono; [|apply Hm; by constructor]. lia.
Qed.

Lemma Zlen_i32 {A} (l : list A) : Zlen l < 2 ^ 31 -> is_i32 (Zlen l) /\ Z.to_nat (Zlen l) = length l.
Proof. intros H. unfold is_sint, Zlen in *. zpow. lia. Qed.

Lemma Insert_new name t c : name ∉ Names c -> Insert name t c = c ++ [(name, t)].
Proof.
  induction c as [|[n x] c IH]; intros Hn; [done|]. cbn.
  unfold Names in *. cbn in Hn. apply not_elem_of_cons in Hn as [H1 H2].
  rewrite decide_False by congruence. by rewrite IH.
Qed.

Definition entry_enc (e : bytes * Tag) : bytes :=
  [TypeOf (snd e)] ++ nstr_enc (fst e) ++ tag_enc (snd e).

(** The entry loop, given that [rt] reads every child. *)
Lemma nreads_entries B (rt : byte -> NR Tag) k c0 c :
  NoDup (Names (c0 ++ c)) -> (B < k)%nat ->
  (forall B' e, e ∈ c -> (B' + 3 <= B)%nat ->
     Zlen (fst e) < 2 ^ 15 /\ TypeOf (snd e) <> TagEnd
     /\ nreads B' (rt (TypeOf (snd e))) (tag_enc (snd e)) (snd e)) ->
  nreads B (readEntries rt k c0) (flat_map entry_enc c ++ [TagEnd]) (c0 ++ c).
Proof.
  revert B k c0. induction c as [|[name t] c IH]; intros B k c0 Hnd Hk Hrt;
    (destruct k as [|k]; [lia|]); cbn [readEntries flat_map].
  - rewrite app_nil_r, app_nil_l. rewrite <- (app_nil_r [TagEnd]).
    eapply nreads_bind; [apply nreads_u8|]. rewrite decide_True by done. apply nreads_ret.
  - intros d p tail Hp E Hl. revert d p tail Hp E Hl. change (nreads B
      (childType ← n_u8; if decide (childType = TagEnd) then mret c0
       else name ← ReadString; child ← rt childType; readEntries rt k (Insert name child c0))
      ((entry_enc (name, t) ++ flat_map entry_enc c) ++ [TagEnd]) (c0 ++ (name, t) :: c)).
    unfold entry_enc at 1. cbn [fst snd]. rewrite <- !app_assoc.
    destruct (decide (B < 3)%nat) as [HB|HB].
    { apply nreads_short. unfold nstr_enc. rewrite !length_app, be_bytes_length. cbn [length]. lia. }
    destruct (Hrt (B - 3)%nat (name, t)) as (Hs & Hty & _); [constructor|lia|]. cbn [fst snd] in *.
    eapply nreads_bind; [apply nreads_u8|]. rewrite decide_False by done.
    eapply nreads_bind; [by apply nreads_string|].
    assert (2 <= length (nstr_enc name))%nat.
    { unfold nstr_enc. rewrite length_app, be_bytes_length. lia. }
    eapply nreads_bind.
    { apply (Hrt (B - length [TypeOf t] - length (nstr_enc name))%nat (name, t)); [constructor|].
      cbn [length]. lia. }
    rewrite Insert_new.
    + replace (c0 ++ (name, t) :: c) with ((c0 ++ [(name, t)]) ++ c) by (by rewrite <- app_assoc).
      apply IH; [by rewrite <- app_assoc|cbn [length]; lia|].
      intros B' e He HB'. apply Hrt; [by constructor|]. lia.
    + unfold Names in *. rewrite fmap_app in Hnd. apply NoDup_app in Hnd as (_ & Hd & _).
      intros Hin. apply (Hd name Hin). constructor.
Qed.

Lemma readTag_enc t : tag_ok t ->
  forall B f, (B + 2 <= f)%nat -> nreads B (readTag f (TypeOf t)) (tag_enc t) t.
Proof.
  induction t as [|n|n|n|n|x|x|b|s|ty l IH|c IH|l|l] using Tag_nested_ind; intros Hok B f Hf;
    (destruct f as [|f]; [lia|]); cbn [TypeOf TagEnd TagByte TagShort TagInt TagLong TagFloat
      TagDouble TagByteArray TagString TagList TagCompound TagIntArray TagLongArray readTag tag_enc].
  - apply nreads_ret.
  - replace n with (i8 (b2z (z2b n))) at 2.
    + apply (nreads_map B n_u8 (fun v => TByte (i8 (b2z v)))), nreads_u8.
    + rewrite b2z_z2b. change 256 with (2 ^ 8). by apply (sintw_uintw 8).
  - rewrite sintw_id by done. by apply nreads_map, nreads_i16.
  - rewrite sintw_id by done. by apply nreads_map, nreads_i32.
  - by apply nreads_map, nreads_i64.
  - destruct Hok as (b & Hb & ->). rewrite <- (widen_narrow_widen b) at 2 by done.
    apply (nreads_map B n_f32 (fun v => TFloat (widen v))), nreads_be; [lia|]. by apply narrow_range.
  - apply nreads_map, nreads_be; [lia|]. exact Hok.
  - destruct (Zlen_i32 b Hok) as [Hi _]. rewrite sintw_id by done.
    eapply nreads_bind; [by apply nreads_i32|]. apply nreads_map, nreads_slice.
  - by apply nreads_map, nreads_string.
  - apply tag_ok_list in Hok as [Hl Hok]. destruct (Zlen_i32 l Hl) as [Hi Hn].
    rewrite sintw_id by done. destruct (decide (B < 5)%nat).
    { apply nreads_short. rewrite !length_app, be_bytes_length. cbn [length]. lia. }
    eapply nreads_bind; [apply nreads_u8|].
    eapply nreads_bind; [by apply nreads_i32|]. apply nreads_map. rewrite Hn, be_bytes_length.
    apply nreads_repeat. intros x Hx. rewrite Forall_forall in IH, Hok.
    destruct (Hok x Hx) as [Hx1 <-]. apply IH; [done|done|]. cbn [length]. lia.
  - apply tag_ok_compound in Hok as [Hnd Hok].
    apply (nreads_map B (readEntries (readTag f) f NewCompound) TCompound).
    apply (nreads_entries B (readTag f) f [] c); [done|lia|].
    intros B' e He HB'. rewrite Forall_forall in IH, Hok.
    destruct (Hok e He) as (H1 & H2 & H3). split; [done|]. split; [done|].
    apply IH; [done|done|lia].
  - destruct Hok as [Hl Hok]. destruct (Zlen_i32 l Hl) as [Hi Hn]. rewrite sintw_id by done.
    eapply nreads_bind; [by apply nreads_i32|]. eapply nreads_check; [done|lia| |].
    + clear. induction l as [|v l IH]; [done|]. cbn [flat_map]. unfold Zlen in *.
      rewrite length_app, be_bytes_length. cbn [length]. lia.
    + rewrite Hn. apply nreads_map, nreads_repeat. intros v Hv.
      apply nreads_i32. by eapply Forall_forall in Hok.
  - destruct Hok as [Hl Hok]. destruct (Zlen_i32 l Hl) as [Hi Hn]. rewrite sintw_id by done.
    eapply nreads_bind; [by apply nreads_i32|]. eapply nreads_check; [done|lia| |].
    + clear. induction l as [|v l IH]; [done|]. cbn [flat_map]. unfold Zlen in *.
      rewrite length_app, be_bytes_length. cbn [length]. lia.
    + rewrite Hn. apply nreads_map, nreads_repeat. intros v Hv.
      apply nreads_i64. by eapply Forall_forall in Hok.
Qed.

(** ** The fuel is enough *)

(** [nf n k m]: on at most [n] unread bytes [m] does not run out of fuel, and
    when it returns it has consumed at least [k] bytes. *)
Definition nf {A} (n k : nat) (m : NR A) : Prop :=
  forall r, (length (nunread r) <= n)%nat ->
  match m r with
  | NoFuel => False
  | Ret (_, r') => (length (nunread r') + k <= length (nunread r))%nat
  | _ => True
  end.

Lemma nf_ret {A} n (a : A) : nf n 0 (mret a).
Proof. intros r _. cbn. lia. Qed.

Lemma nf_bind {A C} n k j (m : NR A) (f : A -> NR C) :
  nf n k m -> ((k <= n)%nat -> forall a, nf (n - k) j (f a)) -> nf n (k + j) (m ≫= f).
Proof.
  intros Hm Hf r Hr. unfold mbind, NR_bind. specialize (Hm r Hr).
  destruct (m r) as [[a r']| | |]; try done.
  specialize (Hf ltac:(lia) a r' ltac:(lia)). destruct (f a r') as [[b r'']| | |]; try done. lia.
Qed.

Lemma nf_weaken {A} n n' k k' (m : NR A) : (n' <= n)%nat -> (k' <= k)%nat -> nf n k m -> nf n' k' m.
Proof.
  intros Hn Hk Hm r Hr. specialize (Hm r ltac:(lia)).
  destruct (m r) as [[a r']| | |]; try done. lia.
Qed.

Lemma nf_u8 n : nf n 1 n_u8.
Proof.
  intros r _. unfold n_u8. destruct (ndata r !! npos r) eqn:E; [|done].
  apply lookup_lt_Some in E. unfold nunread, nadvance. cbn [ndata npos]. rewrite !length_drop. lia.
Qed.

Lemma nf_be n k : nf n k (n_be k).
Proof.
  intros r _. unfold n_be. destruct (Z.ltb_spec (Remaining r) (Z.of_nat k)) as [|H]; [done|].
  unfold Remaining, Zlen in H. unfold nunread, nadvance. cbn [ndata npos]. rewrite !length_drop. lia.
Qed.

Lemma nf_map {A C} n k (m : NR A) (f : A -> C) : nf n k m -> nf n k (x ← m; mret (f x)).
Proof. intros H. rewrite <- (Nat.add_0_r k). eapply nf_bind; [done|]. intros. apply nf_ret. Qed.

Lemma nf_slice n z : nf n 0 (n_slice z).
Proof.
  intros r _. unfold n_slice. destruct (_ <? z); [done|]. destruct (_ <? 0); [done|].
  unfold nunread, nadvance. cbn [ndata npos]. rewrite !length_drop. lia.
Qed.

Lemma nf_string n : nf n 2 ReadString.
Proof.
  rewrite <- (Nat.add_0_r 2). eapply nf_bind; [apply nf_map, nf_be|]. intros. apply nf_slice.
Qed.

Lemma nf_check n a b : nf n 0 (n_check a b).
Proof. intros r _. unfold n_check. destruct (_ <? _); [done|]. lia. Qed.

Lemma nf_repeat {A} n (m : NR A) count : nf n 0 m -> nf n 0 (n_repeat count m).
Proof.
  intros Hm. induction count as [|count IH]; cbn [n_repeat]; [apply nf_ret|].
  apply (nf_bind n 0 0); [done|]. intros _ a. rewrite Nat.sub_0_r. by apply nf_map.
Qed.

Lemma nf_entries n (rt : byte -> NR Tag) k c :
  (n < k)%nat -> ((3 <= n)%nat -> forall ty, nf (n - 3) 0 (rt ty)) -> nf n 0 (readEntries rt k c).
Proof.
  revert n c. induction k as [|k IH]; intros n c Hk Hrt; [lia|]. cbn [readEntries].
  apply (nf_weaken n n 1 0); [lia..|]. apply (nf_bind n 1 0); [apply nf_u8|]. intros Hn ty.
  destruct (decide (ty = TagEnd)); [apply nf_ret|].
  apply (nf_weaken (n - 1) (n - 1) (2 + 0) 0); [lia..|]. apply nf_bind; [apply nf_string|].
  intros Hn2 name. replace (n - 1 - 2)%nat with (n - 3)%nat by lia.
  apply (nf_bind _ 0 0); [apply Hrt; lia|]. intros _ child. apply IH; [lia|].
  intros Hn3 ty'. eapply nf_weaken; [| |apply Hrt]; lia.
Qed.

Lemma nf_array {A} n k (m : NR A) (f : list A -> Tag) :
  nf (n - 4) 0 m ->
  nf n 0 (c ← n_i32; _ ← n_check c k; l ← n_repeat (Z.to_nat c) m; mret (f l)).
Proof.
  intros Hm. apply (nf_weaken n n (4 + 0) 0); [lia..|]. apply nf_bind; [apply nf_map, nf_be|].
  intros _ c. apply (nf_bind _ 0 0); [apply nf_check|]. intros _ _. rewrite Nat.sub_0_r.
  by apply nf_map, nf_repeat.
Qed.

Lemma readTag_fuel f n tagID : (n + 2 <= f)%nat -> nf n 0 (readTag f tagID).
Proof.
  revert n tagID. induction f as [|f IH]; intros n tagID Hf; [lia|]. cbn [readTag].
  assert (forall k (m : NR Tag), nf n k m -> nf n 0 m) as Hw.
  { intros k m. apply nf_weaken; lia. }
  destruct tagID; try (intros r _; exact I).
  - apply nf_ret.
  - eapply Hw, nf_map, nf_u8.
  - eapply Hw, nf_map, nf_map, nf_be.
  - eapply Hw, nf_map, nf_map, nf_be.
  - eapply Hw, nf_map, nf_map, nf_be.
  - eapply Hw, nf_map, nf_be.
  - eapply Hw, nf_map, nf_be.
  - eapply Hw, (nf_bind n 4 0); [apply nf_map, nf_be|]. intros. apply nf_map, nf_slice.
  - eapply Hw, nf_map, nf_string.
  - eapply Hw, (nf_bind n 1 4); [apply nf_u8|]. intros H1 ty.
    apply (nf_bind _ 4 0); [apply nf_map, nf_be|]. intros H4 c. apply nf_map, nf_repeat, IH. lia.
  - apply nf_map, nf_entries; [lia|]. intros H3 ty. apply IH. lia.
  - apply nf_array, (nf_weaken (n - 4) (n - 4) 4 0); [done|lia|]. apply nf_map, nf_be.
  - apply nf_array, (nf_weaken (n - 4) (n - 4) 8 0); [done|lia|]. apply nf_map, nf_be.
Qed.

Lemma ReadCompoundTag_fuel r : ReadCompoundTag r <> NoFuel.
Proof.
  enough (nf (length (nunread r)) 3 ReadCompoundTag) as H.
  { specialize (H r ltac:(done)). by intros E; rewrite E in H. }
  unfold ReadCompoundTag. apply (nf_bind _ 1 2); [apply nf_u8|]. intros _ ty.
  apply (nf_bind _ 2 0); [apply nf_string|]. intros _ _. apply (nf_bind _ 0 0).
  - intros r' Hr'. unfold readTag_fueled. by apply (readTag_fuel _ (length (nunread r'))).
  - intros _ t r' Hr'. unfold compound_of. destruct t; try done. lia.
Qed.

(** ** Compounds as ordered maps *)

Lemma Insert_Names name t c :
  Names (Insert name t c) = if decide (name ∈ Names c) then Names c else Names c ++ [name].
Proof.
  unfold Names. induction c as [|[n x] c IH]; cbn; [by rewrite decide_False by (by intros ?%not_elem_of_nil)|].
  destruct (decide (n = name)) as [->|Hne]; cbn.
  { rewrite decide_True by constructor. done. }
  rewrite IH. destruct (decide (name ∈ fst <$> c)) as [Hin|Hin].
  - rewrite decide_True by (by constructor). done.
  - rewrite decide_False; [done|]. rewrite elem_of_cons. intros [->|]; done.
Qed.

Lemma Insert_Get name t c : Get name (Insert name t c) = Some t.
Proof.
  induction c as [|[n x] c IH]; cbn; [by rewrite decide_True|].
  destruct (decide (n = name)) as [->|]; cbn; [by rewrite decide_True|].
  by rewrite decide_False.
Qed.

Lemma Insert_Get_ne name name' t c : name <> name' -> Get name' (Insert name t c) = Get name' c.
Proof.
  intros Hne. induction c as [|[n x] c IH]; cbn; [by rewrite decide_False|].
  destruct (decide (n = name)) as [->|]; cbn; [by rewrite !decide_False|]. by rewrite IH.
Qed.

Lemma clone_entries (c out : Compound) :
  (forall e, e ∈ c -> cloneTag (snd e) = snd e) -> NoDup (Names (out ++ c)) ->
  fold_left (fun out e => Insert (fst e) (cloneTag (snd e)) out) c out = out ++ c.
Proof.
  revert out. induction c as [|[n t] c IH]; intros out Hc Hnd; cbn [fold_left fst snd]; [by rewrite app_nil_r|].
  pose proof (Hc (n, t) ltac:(constructor)) as Ht. cbn [snd] in Ht. rewrite Ht, Insert_new.
  - rewrite IH; [by rewrite <- app_assoc|intros e He; apply Hc; by constructor|by rewrite <- app_assoc].
  - unfold Names in *. rewrite fmap_app in Hnd. apply NoDup_app in Hnd as (_ & Hd & _).
    intros Hin. apply (Hd n Hin). constructor.
Qed.

Lemma cloneTag_compound c : cloneTag (TCompound c) = TCompound (Clone c).
Proof.
  cbn [cloneTag]. unfold Clone. generalize NewCompound.
  induction c as [|[n t] c IH]; intros out; [done|]. apply IH.
Qed.

Lemma cloneTag_id t : tag_ok t -> cloneTag t = t.
Proof.
  induction t as [|n|n|n|n|x|x|b|s|ty l IH|c IH|l|l] using Tag_nested_ind; intros Hok; try done.
  - apply tag_ok_list in Hok as [_ Hok]. cbn [cloneTag]. f_equal.
    induction l as [|x l IHl]; [done|]. apply Forall_cons in IH as [Hx IH], Hok as [[Hx1 _] Hok].
    cbn [map]. by rewrite Hx, IHl.
  - apply tag_ok_compound in Hok as [Hnd Hok]. rewrite cloneTag_compound. f_equal. unfold Clone.
    apply (clone_entries c []); [|done]. intros e He. rewrite Forall_forall in IH, Hok.
    apply IH; [done|]. by apply Hok.
Qed.

(** ** Properties *)

Lemma ReadCompoundTag_enc c pre tail : compound_ok c ->
  let e := [TagCompound] ++ nstr_enc [] ++ tag_enc (TCompound c) in
  ReadCompoundTag (mkNReader (pre ++ e ++ tail) (length pre)) = Ret (c, mkNReader (pre ++ e ++ tail) (length pre + length e)).
Proof.
  intros Hok.
  set (e := [TagCompound] ++ nstr_enc [] ++ tag_enc (TCompound c)). cbn zeta.
  enough (nreads (length (e ++ tail)) ReadCompoundTag e c) as Hr.
  { apply (Hr _ _ tail); [rewrite !length_app; lia|by rewrite drop_app_length|done]. }
  unfold ReadCompoundTag, e at 2. eapply nreads_bind; [apply nreads_u8|].
  eapply nreads_bind; [by apply nreads_string|].
  rewrite <- (app_nil_r (tag_enc (TCompound c))).
  apply (nreads_bind _ _ _ _ _ (TCompound c)); [|apply nreads_ret].
  intros d p tl Hp E Hl. unfold readTag_fueled, nbt_fuel, nunread. cbn [ndata npos].
  rewrite E. by apply (readTag_enc (TCompound c) Hok _ _ (Nat.le_refl _) d p tl).
Qed.

(** C35: writing a well-formed compound with [WriteCompoundTag] through any
    [ByteWriter] (the packet writer or the NBT writer) and reading it back
    with [ReadCompoundTag], at any position of any buffer, returns the same
    compound and stops exactly behind it. *)
Theorem nbt_roundtrip {W} `{ByteWriterLaws W} (c : Compound) (w : W) :
  compound_ok c ->
  exists e, bw_contents (WriteCompoundTag c w) = bw_contents w ++ e
    /\ forall pre tail,
       ReadCompoundTag (mkNReader (pre ++ e ++ tail) (length pre))
       = Ret (c, mkNReader (pre ++ e ++ tail) (length pre + length e)).
Proof.
  intros Hok. exists ([TagCompound] ++ nstr_enc [] ++ tag_enc (TCompound c)).
  split; [by apply WriteCompoundTag_contents|]. intros pre tail.
  by apply ReadCompoundTag_enc.
Qed.

Definition sample_compound : Compound :=
  [ (str "name", TString (str "minecraft:the_end"));
    (str "height", TInt 16);
    (str "ambient_light", TFloat (widen 1036831949));
    (str "value", TList TagCompound [TCompound [(str "id", TByte (-1))]]);
    (str "longs", TLongArray [-1; 7]) ].

Lemma nbt_roundtrip_witness :
  exists e, bw_contents (WriteCompoundTag sample_compound NewPacketWriter) = bw_contents NewPacketWriter ++ e
    /\ forall pre tail,
       ReadCompoundTag (mkNReader (pre ++ e ++ tail) (length pre))
       = Ret (sample_compound, mkNReader (pre ++ e ++ tail) (length pre + length e)).
Proof.
  apply nbt_roundtrip. apply tag_ok_compound. split.
  { apply (bool_decide_unpack _). vm_compute. exact I. }
  repeat (apply Forall_cons; split);
    try (split; [vm_compute; reflexivity|split; [discriminate|]]); try apply Forall_nil.
  - vm_compute. reflexivity.
  - split; vm_compute; congruence.
  - exists 1036831949. split; [split; vm_compute; congruence|reflexivity].
  - apply tag_ok_list. split; [vm_compute; reflexivity|].
    repeat constructor; try (vm_compute; congruence).
    apply not_elem_of_nil.
  - split; [vm_compute; reflexivity|]. repeat constructor; vm_compute; congruence.
  - exact I.
Defined.

(** The binary reader terminates on every input: with the fuel of
    [ReadCompoundTag] it returns a compound, reports failure, or panics. *)
Lemma ReadCompoundTag_terminates (r : Reader) :
  (exists c r', ReadCompoundTag r = Ret (c, r')) \/ ReadCompoundTag r = Bad \/ ReadCompoundTag r = Panic.
Proof.
  pose proof (ReadCompoundTag_fuel r). destruct (ReadCompoundTag r) as [[c r']| | |]; eauto. done.
Qed.

(** An NBT string of 32768 to 65535 bytes, which the writer accepts and
    the format allows, is written with a length prefix that the reader takes
    for negative: reading it back is a run-time panic. *)
Lemma nbt_long_string_panics (s tail : bytes) (fuel : nat) :
  2 ^ 15 <= Zlen s < 2 ^ 16 ->
  readTag (S fuel) TagString (mkNReader (wbuf (writeTag (TString s) NewPacketWriter) ++ tail) 0) = Panic.
Proof.
  intros Hs. cbn [readTag TagString writeTag]. change wbuf with (bw_contents (W := PacketWriter)).
  rewrite writeString_contents. cbn [bw_contents PacketWriter_ByteWriter wbuf NewPacketWriter app].
  unfold nstr_enc. set (v := u16 (i16 (Zlen s))).
  assert (0 <= v < 256 ^ Z.of_nat 2) as Hv by (apply (uintw_range 16); lia).
  unfold ReadString, n_i16, mbind, NR_bind.
  rewrite (nreads_be (length (be_bytes 2 v ++ s ++ tail)) 2 v ltac:(lia) Hv _ 0%nat (s ++ tail));
    [|lia|by rewrite <- app_assoc|done].
  cbn [mret NR_ret]. unfold n_slice.
  assert (i16 v < 0) as Hneg.
  { subst v. rewrite sintw_uintw by (try apply sintw_range; lia). int_lia. }
  rewrite (proj2 (Z.ltb_lt _ 0)) by done.
  rewrite (proj2 (Z.ltb_ge _ (i16 v))); [done|].
  unfold Remaining, Zlen. cbn [ndata npos]. rewrite !length_app. lia.
Qed.

Lemma nbt_long_string_panics_witness :
  readTag 1 TagString
    (mkNReader (wbuf (writeTag (TString (replicate (Z.to_nat 40000) x41)) NewPacketWriter) ++ []) 0) = Panic.
Proof. apply (nbt_long_string_panics (replicate (Z.to_nat 40000) x41) [] 0). split; vm_compute; congruence. Defined.

(** Five bytes of input make the reader build a list of as many empty
    tags as the (unchecked) length field says, up to 2^31-1 of them. *)
Lemma nbt_end_list_amplification (n : Z) (fuel : nat) :
  0 <= n < 2 ^ 31 ->
  readTag (S (S fuel)) TagList (mkNReader ([TagEnd] ++ be_bytes 4 n) 0)
  = Ret (TList TagEnd (replicate (Z.to_nat n) TEnd), mkNReader ([TagEnd] ++ be_bytes 4 n) 5).
Proof.
  intros Hn.
  assert (forall k r, n_repeat k (readTag (S fuel) TagEnd) r = Ret (replicate k TEnd, r)) as Hrep.
  { assert (forall r, readTag (S fuel) TagEnd r = Ret (TEnd, r)) as Hend by done.
    induction k as [|k IH]; intros r; [done|]. cbn [n_repeat]. unfold mbind, NR_bind.
    by rewrite Hend, IH. }
  assert (n_i32 (mkNReader ([TagEnd] ++ be_bytes 4 n) 1%nat)
          = Ret (n, mkNReader ([TagEnd] ++ be_bytes 4 n) 5%nat)) as Hi.
  { assert (u32 n = n) as En by (apply uintw_id; unfold is_uint; zpow; lia).
    pose proof (nreads_i32 4 n ltac:(unfold is_sint; zpow; lia)
                  ([TagEnd] ++ be_bytes 4 n) 1%nat []) as H.
    rewrite En, be_bytes_length, app_nil_r in H. apply H; [simpl; lia|done|done]. }
  cbn [readTag TagList]. unfold mbind, NR_bind.
  rewrite (nreads_u8 5 TagEnd ([TagEnd] ++ be_bytes 4 n) 0%nat (be_bytes 4 n)); [|simpl; lia|done|simpl; lia].
  cbn [length Nat.add]. rewrite Hi, Hrep. done.
Qed.

Lemma nbt_end_list_amplification_witness :
  readTag 2 TagList (mkNReader ([TagEnd] ++ be_bytes 4 1000) 0)
  = Ret (TList TagEnd (replicate (Z.to_nat 1000) TEnd), mkNReader ([TagEnd] ++ be_bytes 4 1000) 5).
Proof. apply (nbt_end_list_amplification 1000 0). split; vm_compute; congruence. Defined.

(** A compound is an insertion-ordered map: [Insert] makes the new value
    visible under its key and leaves every other key alone; an existing key
    keeps its position, a new key goes to the end; keys stay unique. And
    [Clone] of a well-formed compound is an equal compound. *)
Lemma compound_ordered_map (name : bytes) (t : Tag) (c : Compound) :
  Get name (Insert name t c) = Some t
  /\ (forall name', name <> name' -> Get name' (Insert name t c) = Get name' c)
  /\ Names (Insert name t c) = (if decide (name ∈ Names c) then Names c else Names c ++ [name])
  /\ (NoDup (Names c) -> NoDup (Names (Insert name t c)))
  /\ (compound_ok c -> Clone c = c).
Proof.
  split; [apply Insert_Get|]. split; [intros; by apply Insert_Get_ne|].
  split; [apply Insert_Names|]. split.
  - intros Hnd. rewrite Insert_Names. case_decide; [done|].
    apply NoDup_app. split; [done|]. split; [set_solver|]. apply NoDup_singleton.
  - intros Hok. apply cloneTag_id in Hok. rewrite cloneTag_compound in Hok. by injection Hok.
Qed.
