(* ===== verification/Config.v ===== *)
(** The configuration of the gateway: [src/config.go], and the two start-up
    validations of [src/service_server.go].

    This file starts from the decoded record; [ConfigLoad] has the loading.
    A [net.IP] is its byte slice (4 or 16 bytes); strings are byte lists. *)
From S2P Require Import Prelude Packet.

(** ** Addresses *)

Abbreviation IP := bytes (only parsing).

(** [net.IPv4]: the 16-byte form. *)
Definition v4InV6Prefix : bytes := replicate 10 x00 ++ [xff; xff].
Definition IPv4 (a b c d : byte) : IP := v4InV6Prefix ++ [a; b; c; d].
Definition IPv4zero : IP := IPv4 x00 x00 x00 x00.
Definition IPv6loopback : IP := replicate 15 x00 ++ [x01].

(** [IP.To4] and [IP.IsLoopback] of the standard library. *)
Definition To4 (ip : IP) : option IP :=
  if decide (length ip = 4%nat) then Some ip
  else if decide (length ip = 16%nat /\ take 12 ip = v4InV6Prefix) then Some (drop 12 ip)
  else None.

Definition IsLoopback (ip : IP) : bool :=
  match To4 ip with
  | Some (b :: _) => bool_decide (b = x7f)
  | Some [] => false
  | None => bool_decide (ip = IPv6loopback)
  end.

Record SocketAddr := mkSocketAddr { SocketAddr_IP : IP; SocketAddr_Port : Z }.

(** ** The configuration tables *)

Record Auth := mkAuth {
  OnlineMode : bool;
  SessionServer : bytes;
  ForwardingSecretFile : bytes }.

Record Public := mkPublic {
  Public_Address : SocketAddr;
  Public_Version : bytes;
  Public_Protocol : Z (* uint32 *) }.

Record Server := mkServer {
  Directory : bytes;
  Command : bytes;
  ControllerManaged : bool;
  Server_Address : SocketAddr;
  FreezeProcess : bool;
  WakeOnStart : bool;
  WakeOnCrash : bool;
  ProbeOnStart : bool;
  Forge : bool;
  ForgeStatusFile : bytes;
  StartTimeout : Z; (* uint32 seconds *)
  StopTimeout : Z;  (* uint32 seconds *)
  WakeWhitelist : bool;
  BlockBannedIps : bool;
  DropBannedIps : bool;
  Server_SendProxyV2 : bool }.

Record Time := mkTime { SleepAfter : Z; MinOnlineTime : Z }.

Record Motd := mkMotd {
  Motd_Sleeping : bytes;
  Motd_Starting : bytes;
  Motd_Stopping : bytes;
  FromServer : bool }.

Inductive Method := MethodKick | MethodHold | MethodForward | MethodLobby.

#[export] Instance Method_eq_dec : EqDecision Method.
Proof. solve_decision. Defined.

Record JoinKick := mkJoinKick { Kick_Starting : bytes; Kick_Stopping : bytes }.
Record JoinHold := mkJoinHold { Hold_Timeout : Z }.
Record JoinForward := mkJoinForward { Forward_Address : SocketAddr; Forward_SendProxyV2 : bool }.
Record JoinLobby := mkJoinLobby {
  Lobby_Timeout : Z;
  Lobby_Message : bytes;
  ReadySound : option bytes }.

Record Join := mkJoin {
  Methods : list Method;
  Join_Kick : JoinKick;
  Join_Hold : JoinHold;
  Join_Forward : JoinForward;
  Join_Lobby : JoinLobby }.

Record Lockout := mkLockout { Lockout_Enabled : bool; Lockout_Message : bytes }.

Record Rcon := mkRcon {
  Rcon_Enabled : bool;
  Rcon_Port : Z;
  Password : bytes;
  RandomizePassword : bool;
  Rcon_SendProxyV2 : bool }.

Record Advanced := mkAdvanced { RewriteServerProperties : bool }.
Record ConfigConfig := mkConfigConfig { ConfigConfig_Version : option bytes }.

(** The [admission] pointer of the Go record is the service's state and is
    modelled with the service. *)
Record Config := mkConfig {
  Config_Path : bytes;
  Config_Public : Public;
  Config_Server : Server;
  Config_Auth : Auth;
  Config_Time : Time;
  Config_Motd : Motd;
  Config_Join : Join;
  Config_Lockout : Lockout;
  Config_Rcon : Rcon;
  Config_Advanced : Advanced;
  Config_Config : ConfigConfig }.

(** [Method.UnmarshalTOML] on a string value: names are matched after
    lower-casing. *)
Definition to_lower (b : byte) : byte :=
  if (0x41 <=? b2z b) && (b2z b <=? 0x5a) then z2b (b2z b + 0x20) else b.

(** [strings.ToLower], as far as a comparison with ASCII text can tell: the
    only other code points with an ASCII lower case are U+0130 and U+212A (the
    Kelvin sign), and every other non-ASCII byte is left as it is, where Go
    leaves a non-ASCII code point. *)
Fixpoint ToLower (s : bytes) : bytes :=
  match s with
  | [] => []
  | b :: s1 =>
      match s1 with
      | c :: s2 =>
          if decide (b = xc4 /\ c = xb0) then x69 :: ToLower s2
          else
            match s2 with
            | d :: s3 => if decide (b = xe2 /\ c = x84 /\ d = xaa) then x6b :: ToLower s3 else to_lower b :: ToLower s1
            | [] => to_lower b :: ToLower s1
            end
      | [] => [to_lower b]
      end
  end.

Definition Method_UnmarshalTOML (raw : bytes) : option Method :=
  let s := ToLower raw in
  if decide (s = str "kick") then Some MethodKick
  else if decide (s = str "hold") then Some MethodHold
  else if decide (s = str "forward") then Some MethodForward
  else if decide (s = str "lobby") then Some MethodLobby
  else None.

(** ** The defaults *)

Definition ProtoDefaultVersion : bytes := str "1.20.3".
Definition ProtoDefaultProtocol : Z := 765.

Definition defaultConfig : Config := {|
  Config_Path := [];
  Config_Public := mkPublic (mkSocketAddr IPv4zero 25565) ProtoDefaultVersion ProtoDefaultProtocol;
  Config_Server := {|
    Directory := str ".";
    Command := [];
    ControllerManaged := false;
    Server_Address := mkSocketAddr (IPv4 x7f x00 x00 x01) 25566;
    FreezeProcess := true;
    WakeOnStart := false;
    WakeOnCrash := false;
    ProbeOnStart := false;
    Forge := false;
    ForgeStatusFile := [];
    StartTimeout := 300;
    StopTimeout := 150;
    WakeWhitelist := true;
    BlockBannedIps := true;
    DropBannedIps := false;
    Server_SendProxyV2 := false |};
  Config_Auth := mkAuth false (str "https://sessionserver.mojang.com") [];
  Config_Time := mkTime 60 60;
  Config_Motd := {|
    Motd_Sleeping := str "☠ Server is sleeping" ++ [x0a] ++ str "§2☻ Join to start it up";
    Motd_Starting := str "§2☻ Server is starting..." ++ [x0a] ++ str "§7⌛ Please wait...";
    Motd_Stopping := str "☠ Server going to sleep..." ++ [x0a] ++ str "⌛ Please wait...";
    FromServer := false |};
  Config_Join := {|
    Methods := [MethodHold; MethodKick];
    Join_Kick := {|
      Kick_Starting := str "Server is starting... §c♥§r" ++ [x0a; x0a] ++ str "This may take some time."
        ++ [x0a; x0a] ++ str "Please try to reconnect in a minute.";
      Kick_Stopping := str "Server is going to sleep... §7☠§r" ++ [x0a; x0a]
        ++ str "Please try to reconnect in a minute to wake it again." |};
    Join_Hold := mkJoinHold 25;
    Join_Forward := mkJoinForward (mkSocketAddr (IPv4 x7f x00 x00 x01) 25565) false;
    Join_Lobby := mkJoinLobby (10 * 60)
      (str "§2Server is starting" ++ [x0a] ++ str "§7⌛ Please wait...")
      (Some (str "block.note_block.chime")) |};
  Config_Lockout := mkLockout false
    (str "Server is closed §7☠§r" ++ [x0a; x0a] ++ str "Please come back another time.");
  Config_Rcon := mkRcon false 25575 [] true false;
  Config_Advanced := mkAdvanced true;
  Config_Config := mkConfigConfig None |}.

(** ** Version comparison *)

(** [strings.Split(s, ".")] *)
Fixpoint split_dot (s : bytes) : list bytes :=
  match s with
  | [] => [[]]
  | b :: s' =>
      match split_dot s' with
      | [] => [[]] (* never: [split_dot] is not empty *)
      | w :: ws => if decide (b = x2e) then [] :: w :: ws else (b :: w) :: ws
      end
  end.

Definition is_digit (b : byte) : bool := (0x30 <=? b2z b) && (b2z b <=? 0x39).

(** [strconv.ParseUint(s, 10, 64)]: [None] is a syntax error; the scan stops
    with the largest value at the first digit that overflows. *)
Fixpoint parse_digits (acc : Z) (s : bytes) : option Z :=
  match s with
  | [] => Some acc
  | b :: s' =>
      if is_digit b then
        let n := acc * 10 + (b2z b - 0x30) in
        if n <? 2 ^ 64 then parse_digits n s' else Some (2 ^ 64 - 1)
      else None
  end.

(** The value [strconv.ParseInt(s, 10, 64)] returns next to its error, which
    the code ignores: 0 on a syntax error, the nearest bound on overflow. *)
Definition ParseInt_value (s : bytes) : Z :=
  let (neg, body) :=
    match s with
    | b :: s' => if decide (b = x2b) then (false, s') else if decide (b = x2d) then (true, s') else (false, s)
    | [] => (false, [])
    end in
  match body with
  | [] => 0
  | _ =>
      match parse_digits 0 body with
      | None => 0
      | Some v => if neg : bool then Z.max (- v) (- 2 ^ 63) else Z.min v (2 ^ 63 - 1)
      end
  end.

(** The component at the current index, 0 past the end of the version. *)
Definition version_part (p : list bytes) : Z := default 0 (ParseInt_value <$> head p).

Fixpoint compareVersions_loop (n : nat) (pa pb : list bytes) : Z :=
  match n with
  | O => 0
  | S n' =>
      let va := version_part pa in
      let vb := version_part pb in
      if va <? vb then -1
      else if vb <? va then 1
      else compareVersions_loop n' (tail pa) (tail pb)
  end.

(** The error branch of the code is dead: [strings.Split] never returns an
    empty slice ([split_dot_nonempty]). *)
Definition compareVersions (a b : bytes) : option Z :=
  let pa := split_dot a in
  let pb := split_dot b in
  if (length pa =? 0)%nat || (length pb =? 0)%nat then None
  else Some (compareVersions_loop (Nat.max (length pa) (length pb)) pa pb).

(** ** Start-up validation *)

Inductive ConfigErr :=
| ErrFreeze | ErrWakeOnCrash | ErrRcon | ErrRewrite
| ErrBackendNotLoopback | ErrLobbyNotFirst | ErrForwardingSecret.

#[export] Instance ConfigErr_eq_dec : EqDecision ConfigErr.
Proof. solve_decision. Defined.

Definition validateControllerManagedConfig (config : Config) : option ConfigErr :=
  if negb (ControllerManaged (Config_Server config)) then None
  else if FreezeProcess (Config_Server config) then Some ErrFreeze
  else if WakeOnCrash (Config_Server config) then Some ErrWakeOnCrash
  else if Rcon_Enabled (Config_Rcon config) then Some ErrRcon
  else if RewriteServerProperties (Config_Advanced config) then Some ErrRewrite
  else None.

(** [secret_ok] is whether [forwardingSecret] could load the secret. *)
Definition validateOnlineModeConfig (config : Config) (secret_ok : bool) : option ConfigErr :=
  if negb (OnlineMode (Config_Auth config)) then None
  else if negb (IsLoopback (SocketAddr_IP (Server_Address (Config_Server config)))) then Some ErrBackendNotLoopback
  else if bool_decide (head (Methods (Config_Join config)) <> Some MethodLobby) then Some ErrLobbyNotFirst
  else if negb secret_ok then Some ErrForwardingSecret
  else None.

(** A configuration [Service] accepts. *)
Definition config_accepted (config : Config) (secret_ok : bool) : Prop :=
  validateControllerManagedConfig config = None /\ validateOnlineModeConfig config secret_ok = None.

(** ** Properties *)

Lemma split_dot_nonempty s : split_dot s <> [].
Proof. induction s as [|b s IH]; [done|]. simpl. destruct (split_dot s); [done|]. by case_decide. Qed.

Lemma compareVersions_loop_antisym n pa pb :
  compareVersions_loop n pb pa = - compareVersions_loop n pa pb.
Proof.
  revert pa pb. induction n as [|n IH]; intros pa pb; [done|]. cbn [compareVersions_loop].
  destruct (version_part pb <? version_part pa) eqn:E1, (version_part pa <? version_part pb) eqn:E2;
    first [apply IH | done | exfalso; lia].
Qed.

Lemma compareVersions_loop_range n pa pb :
  compareVersions_loop n pa pb = -1 \/ compareVersions_loop n pa pb = 0 \/ compareVersions_loop n pa pb = 1.
Proof.
  revert pa pb. induction n as [|n IH]; intros pa pb; [auto|]. cbn [compareVersions_loop].
  repeat case_match; auto.
Qed.

Lemma compareVersions_loop_trans n pa pb pc :
  compareVersions_loop n pa pb <= 0 -> compareVersions_loop n pb pc <= 0 ->
  compareVersions_loop n pa pc <= 0.
Proof.
  revert pa pb pc. induction n as [|n IH]; intros pa pb pc; [done|]. cbn [compareVersions_loop].
  intros H1 H2. repeat case_match; try lia; eapply IH; eauto.
Qed.

(** Past the longer of two versions every component is 0 on both sides, so
    the loop may run longer without changing its result. *)
Lemma compareVersions_loop_nil n : compareVersions_loop n [] [] = 0.
Proof. induction n as [|n IH]; [done|]. by cbn. Qed.

Lemma compareVersions_loop_more n m pa pb :
  (length pa <= n)%nat -> (length pb <= n)%nat -> (n <= m)%nat ->
  compareVersions_loop m pa pb = compareVersions_loop n pa pb.
Proof.
  revert m pa pb. induction n as [|n IH]; intros m pa pb Ha Hb Hm.
  { destruct pa, pb; simpl in *; try lia. apply compareVersions_loop_nil. }
  destruct m as [|m]; [lia|]. cbn [compareVersions_loop].
  rewrite IH; [done| | |lia]; destruct pa, pb; simpl in *; lia.
Qed.

(** The loop bound of [compareVersions] can be replaced by any larger one. *)
Lemma compareVersions_bound n a b :
  (length (split_dot a) <= n)%nat -> (length (split_dot b) <= n)%nat ->
  compareVersions a b = Some (compareVersions_loop n (split_dot a) (split_dot b)).
Proof.
  intros Ha Hb. unfold compareVersions.
  pose proof (split_dot_nonempty a) as Na. pose proof (split_dot_nonempty b) as Nb.
  rewrite <- (compareVersions_loop_more (Nat.max (length (split_dot a)) (length (split_dot b))) n) by lia.
  destruct (split_dot a); [done|]. by destruct (split_dot b).
Qed.

(** [compareVersions] never reports an error and is a total preorder on
    version strings: its result is -1, 0 or 1, swapping the arguments negates
    it, a version equals itself, and "not newer than" is transitive. *)
Lemma compareVersions_preorder (a b c : bytes) :
  (compareVersions a b = Some (-1) \/ compareVersions a b = Some 0 \/ compareVersions a b = Some 1)
  /\ compareVersions b a = Z.opp <$> compareVersions a b
  /\ compareVersions a a = Some 0
  /\ (forall x y, compareVersions a b = Some x -> compareVersions b c = Some y -> x <= 0 -> y <= 0 ->
       exists z, compareVersions a c = Some z /\ z <= 0).
Proof.
  set (n := (length (split_dot a) + length (split_dot b) + length (split_dot c))%nat).
  rewrite (compareVersions_bound n a b), (compareVersions_bound n b a), (compareVersions_bound n a a),
    (compareVersions_bound n b c), (compareVersions_bound n a c) by lia.
  repeat split.
  - destruct (compareVersions_loop_range n (split_dot a) (split_dot b)) as [->|[->| ->]]; auto.
  - cbn. by rewrite <- compareVersions_loop_antisym.
  - f_equal. pose proof (compareVersions_loop_antisym n (split_dot a) (split_dot a)). lia.
  - intros x y [= <-] [= <-] Hx Hy. eexists. split; [done|]. by eapply compareVersions_loop_trans.
Qed.

(** [Service] starts a controller-managed gateway exactly when nothing in
    its configuration would let it act on the backend itself: no process
    freezing, no restart after a crash, no RCON and no rewrite of
    server.properties; other configurations are not restricted by this check. *)
Lemma controller_managed_validation (config : Config) :
  validateControllerManagedConfig config = None
  <-> (ControllerManaged (Config_Server config) = true ->
       FreezeProcess (Config_Server config) = false /\ WakeOnCrash (Config_Server config) = false
       /\ Rcon_Enabled (Config_Rcon config) = false
       /\ RewriteServerProperties (Config_Advanced config) = false).
Proof.
  unfold validateControllerManagedConfig.
  destruct (ControllerManaged (Config_Server config)), (FreezeProcess (Config_Server config)),
    (WakeOnCrash (Config_Server config)), (Rcon_Enabled (Config_Rcon config)),
    (RewriteServerProperties (Config_Advanced config)); simpl; intuition congruence.
Qed.

(** ** Sample configurations *)

(** The defaults with a command, for a server the gateway owns ([managed] is
    false) or one a controller owns, with or without process freezing. *)
Definition sample_config (managed freeze crash : bool) : Config :=
  let s := Config_Server defaultConfig in
  let server := mkServer (Directory s) (str "java -jar server.jar") managed (Server_Address s) freeze (WakeOnStart s)
    crash (ProbeOnStart s) (Forge s) (ForgeStatusFile s) (StartTimeout s) (StopTimeout s) (WakeWhitelist s)
    (BlockBannedIps s) (DropBannedIps s) (Server_SendProxyV2 s) in
  mkConfig (Config_Path defaultConfig) (Config_Public defaultConfig) server (Config_Auth defaultConfig)
    (Config_Time defaultConfig) (Config_Motd defaultConfig) (Config_Join defaultConfig) (Config_Lockout defaultConfig)
    (Config_Rcon defaultConfig) (mkAdvanced (negb managed)) (Config_Config defaultConfig).
