(* ===== verification/Net.v ===== *)
(** IP addresses as text: what the gateway uses of Go's [net] package to
    identify a peer ([peerIP] of [src/status.go], [parseIP] of
    [src/process.go]): [SplitHostPort], [ParseIP] and [IP.String], and [itoa]
    of [src/proto/packets.go]. *)
From S2P Require Import Prelude Packet Config.

(** ** Decimal rendering *)

(** The loop of [itoa]: at most ten digits of a [uint32], last digit first. *)
Fixpoint itoa_loop (fuel : nat) (v : Z) (buf : bytes) : bytes :=
  match fuel with
  | O => buf
  | S fuel' => if 0 <? v then itoa_loop fuel' (v / 10) (z2b (0x30 + v mod 10) :: buf) else buf
  end.

Definition itoa (v : Z) : bytes := if v =? 0 then [x30] else itoa_loop 10 v [].

(** ** Searching a byte *)

(** [strings.IndexByte]: the position of the first occurrence. *)
Fixpoint IndexByte (s : bytes) (c : byte) : option nat :=
  match s with
  | [] => None
  | b :: s' => if decide (b = c) then Some O else S <$> IndexByte s' c
  end.

(** [strings.LastIndexByte] *)
Fixpoint LastIndexByte (s : bytes) (c : byte) : option nat :=
  match s with
  | [] => None
  | b :: s' =>
      match LastIndexByte s' c with
      | Some i => Some (S i)
      | None => if decide (b = c) then Some O else None
      end
  end.

Definition has_byte (s : bytes) (c : byte) : bool := bool_decide (is_Some (IndexByte s c)).

Lemma LastIndexByte_free c s : c ∉ s -> LastIndexByte s c = None.
Proof.
  induction s as [|b s IH]; [done|]. rewrite not_elem_of_cons. intros [Hb Hs]. cbn. rewrite IH by done.
  by rewrite decide_False by congruence.
Qed.

Lemma LastIndexByte_at c s t : LastIndexByte t c = None -> LastIndexByte (s ++ c :: t) c = Some (length s).
Proof.
  intros Ht. induction s as [|b s IH]; cbn [app LastIndexByte length]; [by rewrite Ht, decide_True|]. by rewrite IH.
Qed.

Lemma has_byte_false s c : c ∉ s -> has_byte s c = false.
Proof.
  intros Hs. unfold has_byte. apply bool_decide_false. intros [i Hi].
  revert i Hi. induction s as [|b s IH]; intros i Hi; [done|]. rewrite not_elem_of_cons in Hs. destruct Hs as [Hb Hs].
  cbn in Hi. rewrite decide_False in Hi by congruence. destruct (IndexByte s c) as [j|] eqn:E; [|done].
  by apply (IH Hs j).
Qed.

(** [net.SplitHostPort]; every error is [None]. *)
Definition SplitHostPort (hostport : bytes) : option (bytes * bytes) :=
  match LastIndexByte hostport x3a with
  | None => None
  | Some i =>
      let port := drop (S i) hostport in
      if decide (head hostport = Some x5b) then
        match IndexByte hostport x5d with
        | None => None
        | Some e =>
            if (S e =? i)%nat then
              if has_byte (drop 1 hostport) x5b || has_byte (drop (S e) hostport) x5d then None
              else Some (take (e - 1) (drop 1 hostport), port)
            else None
        end
      else
        let host := take i hostport in
        if has_byte host x3a || has_byte hostport x5b || has_byte hostport x5d then None
        else Some (host, port)
  end.

(** A host and a port without colons and brackets. *)
Lemma SplitHostPort_plain host port :
  Forall (fun b => b <> x3a /\ b <> x5b /\ b <> x5d) (host ++ port) -> SplitHostPort (host ++ x3a :: port) = Some (host, port).
Proof.
  intros H. assert (forall c, c = x3a \/ c = x5b \/ c = x5d -> (c ∉ host) /\ c ∉ port) as Hf.
  { intros c Hc. rewrite Forall_forall in H. split; intros Hin; (destruct (H c) as (H1 & H2 & H3); [rewrite elem_of_app; tauto|]); naive_solver. }
  assert (forall c, c = x5b \/ c = x5d -> has_byte (host ++ x3a :: port) c = false) as Hb.
  { intros c Hc. apply has_byte_false. rewrite elem_of_app, elem_of_cons. destruct (Hf c) as [? ?]; [tauto|]. naive_solver. }
  unfold SplitHostPort. rewrite LastIndexByte_at by (apply LastIndexByte_free, Hf; tauto). rewrite decide_False.
  - rewrite take_app_length, has_byte_false by (apply Hf; tauto). rewrite !Hb by tauto.
    by rewrite drop_app_ge, Nat.sub_succ_l, Nat.sub_diag by lia.
  - destruct host as [|b host]; [done|]. intros [= ->]. destruct (Hf x5b) as [Hx _]; [tauto|]. apply Hx. by left.
Qed.

(** [peerIP] of a peer address given by its text. *)
Definition peerIP (addr : bytes) : bytes :=
  match SplitHostPort addr with
  | None => addr
  | Some (host, _) => host
  end.

(** ** Parsing *)

(** [parseIPv4Fields] of [net/netip]: [prev] is the previous byte, [first]
    whether the current byte is the first one. The fields read so far are in
    reverse order. *)
Fixpoint parseIPv4Fields (s : bytes) (prev : option byte) (val digLen : Z) (fields : list Z)
  : option (list Z) :=
  match s with
  | [] => if (length fields =? 3)%nat then Some (rev (val :: fields)) else None
  | c :: s' =>
      if is_digit c then
        if (digLen =? 1) && (val =? 0) then None
        else
          let v := val * 10 + (b2z c - 0x30) in
          if 255 <? v then None else parseIPv4Fields s' (Some c) v (digLen + 1) fields
      else if decide (c = x2e) then
        if bool_decide (prev = None) || bool_decide (s' = []) || bool_decide (prev = Some x2e) then None
        else if (length fields =? 3)%nat then None
        else parseIPv4Fields s' (Some c) 0 0 (val :: fields)
      else None
  end.

Definition ipv4_fields (s : bytes) : option bytes :=
  (map z2b) <$> parseIPv4Fields s None 0 0 [].

Definition hex_digit (c : byte) : option Z :=
  let v := b2z c in
  if (0x30 <=? v) && (v <=? 0x39) then Some (v - 0x30)
  else if (0x61 <=? v) && (v <=? 0x66) then Some (v - 0x61 + 10)
  else if (0x41 <=? v) && (v <=? 0x46) then Some (v - 0x41 + 10)
  else None.

(** The hex number at the front of [s]: its digits' count, its value and the
    rest; [None] when it has more than four digits. *)
Fixpoint hex_group (off : nat) (acc : Z) (s : bytes) : option (nat * Z * bytes) :=
  match s with
  | [] => Some (off, acc, [])
  | c :: s' =>
      match hex_digit c with
      | None => Some (off, acc, s)
      | Some d => if (3 <? off)%nat then None else hex_group (S off) (acc * 16 + d) s'
      end
  end.

(** The loop of [parseIPv6]: [ip] holds the bytes written so far (so [i] is
    its length) and [ellipsis] the position of "::". It returns the bytes, the
    ellipsis and the unread text. *)
Fixpoint parseIPv6_loop (fuel : nat) (ip : bytes) (ellipsis : option nat) (s : bytes)
  : option (bytes * option nat * bytes) :=
  match fuel with
  | O => Some (ip, ellipsis, s)
  | S fuel' =>
      match hex_group 0 0 s with
      | None => None
      | Some (O, _, _) => None
      | Some (_, acc, s1) =>
          if decide (head s1 = Some x2e) then
            if bool_decide (ellipsis = None) && negb (length ip =? 12)%nat then None
            else if (16 <? length ip + 4)%nat then None
            else match ipv4_fields s with
                 | None => None
                 | Some f => Some (ip ++ f, ellipsis, [])
                 end
          else
            let ip := ip ++ be_bytes 2 acc in
            match s1 with
            | [] => Some (ip, ellipsis, [])
            | c :: s2 =>
                if decide (c = x3a) then
                  match s2 with
                  | [] => None
                  | c2 :: s3 =>
                      if decide (c2 = x3a) then
                        match ellipsis with
                        | Some _ => None
                        | None =>
                            match s3 with
                            | [] => Some (ip, Some (length ip), [])
                            | _ => parseIPv6_loop fuel' ip (Some (length ip)) s3
                            end
                        end
                      else parseIPv6_loop fuel' ip ellipsis s2
                  end
                else None
            end
      end
  end.

(** [parseIPv6] without a zone ([ParseIP] rejects zones). The loop adds two
    bytes per round and stops at sixteen. *)
Definition parseIPv6 (s : bytes) : option IP :=
  let (ellipsis, s) :=
    match s with
    | a :: b :: s' => if decide (a = x3a /\ b = x3a) then (Some O, s') else (None, s)
    | _ => (None, s)
    end in
  if bool_decide (ellipsis = Some O) && bool_decide (s = []) then Some (replicate 16 x00)
  else
    match parseIPv6_loop 8 [] ellipsis s with
    | Some (ip, ellipsis, []) =>
        if (length ip <? 16)%nat then
          match ellipsis with
          | None => None
          | Some e => Some (take e ip ++ replicate (16 - length ip) x00 ++ drop e ip)
          end
        else
          match ellipsis with
          | Some _ => None
          | None => Some ip
          end
    | _ => None
    end.

(** [net.ParseIP]: the first of '.', ':' and '%' decides. [nil] is [[]]. *)
Fixpoint address_kind (s : bytes) : option byte :=
  match s with
  | [] => None
  | c :: s' => if decide (c = x2e \/ c = x3a \/ c = x25) then Some c else address_kind s'
  end.

Definition ParseIP (s : bytes) : IP :=
  match address_kind s with
  | Some c =>
      if decide (c = x2e) then default [] ((fun f => v4InV6Prefix ++ f) <$> ipv4_fields s)
      else if decide (c = x3a) then (if has_byte s x25 then [] else default [] (parseIPv6 s))
      else []
  | None => []
  end.

(** [parseIP] of the gateway *)
Definition parseIP (s : bytes) : IP := ParseIP s.

(** ** Printing *)

Definition hex_char (d : Z) : byte := if d <? 10 then z2b (0x30 + d) else z2b (0x61 + d - 10).

(** [appendHex]: no leading zeros. *)
Definition append_hex (x : Z) : bytes :=
  (if 0x1000 <=? x then [hex_char (x / 0x1000)] else [])
  ++ (if 0x100 <=? x then [hex_char (x / 0x100 mod 16)] else [])
  ++ (if 0x10 <=? x then [hex_char (x / 0x10 mod 16)] else [])
  ++ [hex_char (x mod 16)].

Fixpoint v6_groups (ip : bytes) : list Z :=
  match ip with
  | a :: b :: ip' => (b2z a * 256 + b2z b) :: v6_groups ip'
  | _ => []
  end.

Fixpoint zero_run (l : list Z) : nat :=
  match l with
  | z :: l' => if z =? 0 then S (zero_run l') else O
  | [] => O
  end.

(** The first longest run of at least two zero groups, as (start, end). *)
Fixpoint longest_zeros (i : nat) (l : list Z) (best : nat * nat) : nat * nat :=
  match l with
  | [] => best
  | _ :: l' =>
      let n := zero_run l in
      longest_zeros (S i) l'
        (if (2 <=? n)%nat && (snd best - fst best <? n)%nat then (i, (i + n)%nat) else best)
  end.

Fixpoint join_hex (l : list Z) : bytes :=
  match l with
  | [] => []
  | [x] => append_hex x
  | x :: l' => append_hex x ++ [x3a] ++ join_hex l'
  end.

Definition v6_String (ip : bytes) : bytes :=
  let gs := v6_groups ip in
  let '(zs, ze) := longest_zeros 0 gs (255%nat, 255%nat) in
  if (8 <=? zs)%nat then join_hex gs
  else join_hex (take zs gs) ++ [x3a; x3a] ++ join_hex (drop ze gs).

Definition v4_String (ip : bytes) : bytes :=
  match ip with
  | [a; b; c; d] =>
      itoa (b2z a) ++ [x2e] ++ itoa (b2z b) ++ [x2e] ++ itoa (b2z c) ++ [x2e] ++ itoa (b2z d)
  | _ => []
  end.

Definition hex_all (ip : bytes) : bytes :=
  flat_map (fun b => [hex_char (b2z b / 16); hex_char (b2z b mod 16)]) ip.

(** [IP.String] *)
Definition IP_String (ip : IP) : bytes :=
  match ip with
  | [] => str "<nil>"
  | _ =>
      match To4 ip with
      | Some p4 => v4_String p4
      | None => if (length ip =? 16)%nat then v6_String ip else x3f :: hex_all ip
      end
  end.

(** ** Sanity checks *)

Example ip_v6_a : IP_String (ParseIP (str "2001:DB8:0:0:0:0:0:1")) = str "2001:db8::1".
Proof. vm_compute. reflexivity. Qed.

Example ip_v6_b : IP_String (ParseIP (str "::ffff:1.2.3.4")) = str "1.2.3.4".
Proof. vm_compute. reflexivity. Qed.

Example ip_v6_c : IP_String (ParseIP (str "1:0:0:2::")) = str "1:0:0:2::".
Proof. vm_compute. reflexivity. Qed.

Example ip_v6_d : ParseIP (str "1:2:3:4:5:6:7::8") = [] /\ ParseIP (str "01.2.3.4") = []
  /\ ParseIP (str "::") = replicate 16 x00.
Proof. vm_compute. auto. Qed.

Example peerIP_a : peerIP (str "[fe80::1]:25565") = str "fe80::1" /\ peerIP (str "10.0.0.7:4000") = str "10.0.0.7".
Proof. vm_compute. auto. Qed.

(** ** Round trip of IPv4 addresses *)

(** An octet's text is read back whatever follows it. *)
Lemma parse_octet (a : byte) (s : bytes) (prev : option byte) (fields : list Z) :
  exists c n, c <> x2e
    /\ parseIPv4Fields (itoa (b2z a) ++ s) prev 0 0 fields = parseIPv4Fields s (Some c) (b2z a) n fields.
Proof. destruct a; eexists _, _; (split; [|reflexivity]); discriminate. Qed.

Lemma parse_octet_dot (a : byte) (s : bytes) (prev : option byte) (fields : list Z) :
  s <> [] -> (length fields < 3)%nat ->
  parseIPv4Fields (itoa (b2z a) ++ [x2e] ++ s) prev 0 0 fields
  = parseIPv4Fields s (Some x2e) 0 0 (b2z a :: fields).
Proof.
  intros Hs Hf. destruct (parse_octet a ([x2e] ++ s) prev fields) as (c & n & Hc & ->).
  cbn [app parseIPv4Fields]. change (is_digit x2e) with false. cbn iota.
  rewrite decide_True by done. rewrite !bool_decide_false; [|congruence|done|done]. cbn [orb].
  by rewrite (proj2 (Nat.eqb_neq _ 3)) by lia.
Qed.

Lemma itoa_octet_nonempty (a : byte) : itoa (b2z a) <> [].
Proof. destruct a; discriminate. Qed.

Lemma address_kind_v4 (a : byte) (s : bytes) : address_kind (itoa (b2z a) ++ [x2e] ++ s) = Some x2e.
Proof. destruct a; reflexivity. Qed.

Lemma ParseIP_v4_String (a b c d : byte) : ParseIP (v4_String [a; b; c; d]) = IPv4 a b c d.
Proof.
  unfold ParseIP, v4_String. rewrite address_kind_v4, decide_True by done.
  unfold ipv4_fields. rewrite !parse_octet_dot; try (simpl; lia);
    [|apply itoa_octet_nonempty|by destruct (itoa (b2z c)) eqn:E; [destruct c|]
     |by destruct (itoa (b2z b)) eqn:E; [destruct b|]].
  rewrite <- (app_nil_r (itoa (b2z d))).
  destruct (parse_octet d [] (Some x2e) [b2z c; b2z b; b2z a]) as (e & n & _ & ->).
  cbn. by rewrite !z2b_b2z.
Qed.

Lemma IP_String_IPv4 (a b c d : byte) : IP_String (IPv4 a b c d) = v4_String [a; b; c; d].
Proof. reflexivity. Qed.

(** An IPv4 peer is identified correctly: the text of its address parses
    back to the same address, so a ban is looked up under the address's
    canonical text, with the port of the peer address stripped. *)
Lemma peer_ipv4_roundtrip (a b c d : byte) :
  ParseIP (IP_String (IPv4 a b c d)) = IPv4 a b c d
  /\ IP_String (ParseIP (IP_String (IPv4 a b c d))) = v4_String [a; b; c; d].
Proof. by rewrite IP_String_IPv4, ParseIP_v4_String, IP_String_IPv4. Qed.

(** The bytes of a dotted text are digits and dots. *)
Lemma v4_String_digits a b c d x : x ∈ v4_String [a; b; c; d] -> is_digit x = true \/ x = x2e.
Proof.
  assert (forall o y, y ∈ itoa (b2z o) -> is_digit y = true) as Ho.
  { intros o y. assert (Forall (fun y => is_digit y = true) (itoa (b2z o))) as H
      by (destruct o; repeat constructor).
    rewrite Forall_forall in H. apply H. }
  unfold v4_String. rewrite !elem_of_app, !list_elem_of_singleton. naive_solver.
Qed.
