(* ===== verification/Json.v ===== *)
(** The JSON of Go's [encoding/json], as far as the gateway uses it:
    [json.Valid], and [json.Unmarshal] into strings, numbers, raw messages,
    slices and structs. The status protocol ([src/proto/packets.go],
    [src/monitor.go]), the ban list and the whitelist are read through it.

    A value is recognised together with its extent in the text. An array or an
    object keeps its elements as the raw text of each (already recognised)
    element: this is what a [json.RawMessage] holds, and decoding a field
    recognises its text again, as [json.Unmarshal] does. *)
From S2P Require Import Prelude Packet Config Net.

(** ** Tokens *)

Definition is_ws (b : byte) : bool :=
  bool_decide (b = x20) || bool_decide (b = x09) || bool_decide (b = x0d) || bool_decide (b = x0a).

Fixpoint skip_ws (s : bytes) : bytes :=
  match s with
  | b :: s' => if is_ws b then skip_ws s' else s
  | [] => []
  end.

(** The rest of a string literal after its opening quote: the raw content and
    what follows the closing quote. *)
Fixpoint scan_string (s : bytes) : option (bytes * bytes) :=
  match s with
  | [] => None
  | b :: s1 =>
      if decide (b = x22) then Some ([], s1)
      else if decide (b = x5c) then
        match s1 with
        | e :: s2 =>
            if decide (e ∈ [x62; x66; x6e; x72; x74; x5c; x2f; x22]) then
              '(raw, r) ← scan_string s2; Some (b :: e :: raw, r)
            else if decide (e = x75) then
              match s2 with
              | h1 :: h2 :: h3 :: h4 :: s3 =>
                  match hex_digit h1, hex_digit h2, hex_digit h3, hex_digit h4 with
                  | Some _, Some _, Some _, Some _ =>
                      '(raw, r) ← scan_string s3; Some (b :: e :: h1 :: h2 :: h3 :: h4 :: raw, r)
                  | _, _, _, _ => None
                  end
              | _ => None
              end
            else None
        | [] => None
        end
      else if b2z b <? 0x20 then None
      else '(raw, r) ← scan_string s1; Some (b :: raw, r)
  end.

(** Digits at the front, and the rest. *)
Fixpoint span_digits (s : bytes) : bytes * bytes :=
  match s with
  | b :: s' => if is_digit b then let '(d, r) := span_digits s' in (b :: d, r) else ([], s)
  | [] => ([], [])
  end.

Definition scan_frac (s : bytes) : option (bytes * bytes) :=
  match s with
  | b :: s' =>
      if decide (b = x2e) then
        match span_digits s' with
        | ([], _) => None
        | (d, r) => Some (b :: d, r)
        end
      else Some ([], s)
  | [] => Some ([], [])
  end.

Definition scan_exp (s : bytes) : option (bytes * bytes) :=
  match s with
  | b :: s' =>
      if decide (b = x65 \/ b = x45) then
        let '(sign, s'') :=
          match s' with
          | c :: s2 => if decide (c = x2b \/ c = x2d) then ([c], s2) else ([], s')
          | [] => ([], [])
          end in
        match span_digits s'' with
        | ([], _) => None
        | (d, r) => Some (b :: sign ++ d, r)
        end
      else Some ([], s)
  | [] => Some ([], [])
  end.

(** The integer part of a number literal: no leading zeros. *)
Definition scan_int (s : bytes) : option (bytes * bytes) :=
  match s with
  | b :: s' =>
      if decide (b = x30) then Some ([b], s')
      else if is_digit b then let '(d, r) := span_digits s' in Some (b :: d, r) else None
  | [] => None
  end.

Definition scan_minus (s : bytes) : bytes * bytes :=
  match s with
  | b :: s' => if decide (b = x2d) then ([b], s') else ([], s)
  | [] => ([], [])
  end.

Definition scan_number (s : bytes) : option (bytes * bytes) :=
  let '(sign, s1) := scan_minus s in
  '(int, r) ← scan_int s1;
  '(frac, r) ← scan_frac r;
  '(exp, r) ← scan_exp r;
  Some (sign ++ int ++ frac ++ exp, r).

(** ** Values *)

Inductive JNode :=
| JNull
| JBool (b : bool)
| JNum (lit : bytes)
| JStr (raw : bytes)
| JArr (elems : list bytes)
| JObj (members : list (bytes * bytes)).

Definition maxNestingDepth : nat := Z.to_nat 10000.

(** The raw text in front of [rest]. *)
Definition before (s rest : bytes) : bytes := take (length s - length rest) s.

Definition scan_lit (lit s : bytes) : option bytes :=
  if decide (take (length lit) s = lit) then Some (drop (length lit) s) else None.

(** [budget] is how many more levels may be opened. At most two calls are made
    per byte, which bounds the fuel ([json_fuel], [jvalue_enough]). *)
Fixpoint jvalue (fuel budget : nat) (s : bytes) {struct fuel} : option (JNode * bytes) :=
  match fuel with
  | O => None
  | S fuel' =>
      match s with
      | [] => None
      | b :: s' =>
          if decide (b = x22) then '(raw, r) ← scan_string s'; Some (JStr raw, r)
          else if decide (b = x7b) then
            match budget with
            | O => None
            | S budget' =>
                let s1 := skip_ws s' in
                if decide (head s1 = Some x7d) then Some (JObj [], drop 1 s1)
                else '(ms, r) ← jmembers fuel' budget' s1; Some (JObj ms, r)
            end
          else if decide (b = x5b) then
            match budget with
            | O => None
            | S budget' =>
                let s1 := skip_ws s' in
                if decide (head s1 = Some x5d) then Some (JArr [], drop 1 s1)
                else '(es, r) ← jelements fuel' budget' s1; Some (JArr es, r)
            end
          else if decide (b = x74) then r ← scan_lit (str "true") s; Some (JBool true, r)
          else if decide (b = x66) then r ← scan_lit (str "false") s; Some (JBool false, r)
          else if decide (b = x6e) then r ← scan_lit (str "null") s; Some (JNull, r)
          else '(lit, r) ← scan_number s; Some (JNum lit, r)
      end
  end
with jmembers (fuel budget : nat) (s : bytes) {struct fuel} : option (list (bytes * bytes) * bytes) :=
  match fuel with
  | O => None
  | S fuel' =>
      match s with
      | b :: s' =>
          if decide (b = x22) then
            '(key, r) ← scan_string s';
            match skip_ws r with
            | c :: r1 =>
                if decide (c = x3a) then
                  let v := skip_ws r1 in
                  '(_, r2) ← jvalue fuel' budget v;
                  match skip_ws r2 with
                  | d :: r3 =>
                      if decide (d = x2c) then
                        '(ms, r) ← jmembers fuel' budget (skip_ws r3);
                        Some ((key, before v r2) :: ms, r)
                      else if decide (d = x7d) then Some ([(key, before v r2)], r3)
                      else None
                  | [] => None
                  end
                else None
            | [] => None
            end
          else None
      | [] => None
      end
  end
with jelements (fuel budget : nat) (s : bytes) {struct fuel} : option (list bytes * bytes) :=
  match fuel with
  | O => None
  | S fuel' =>
      '(_, r) ← jvalue fuel' budget s;
      match skip_ws r with
      | d :: r1 =>
          if decide (d = x2c) then
            '(es, r2) ← jelements fuel' budget (skip_ws r1);
            Some (before s r :: es, r2)
          else if decide (d = x5d) then Some ([before s r], r1)
          else None
      | [] => None
      end
  end.

Definition json_fuel (s : bytes) : nat := S (2 * length s).

(** A whole document: one value between white space. *)
Definition jparse (data : bytes) : option JNode :=
  match jvalue (json_fuel data) maxNestingDepth (skip_ws data) with
  | Some (v, r) => if decide (skip_ws r = []) then Some v else None
  | None => None
  end.

(** [json.Valid] *)
Definition Valid (data : bytes) : bool := match jparse data with Some _ => true | None => false end.

(** ** Strings *)

Definition in_range (lo hi : Z) (b : byte) : bool := (lo <=? b2z b) && (b2z b <=? hi).
Definition is_cont (b : byte) : bool := in_range 0x80 0xbf b.

(** The length of the UTF-8 sequence at the front, [None] when there is no
    valid one ([utf8.DecodeRune]). *)
Definition utf8_len (s : bytes) : option nat :=
  match s with
  | [] => None
  | b0 :: s1 =>
      if b2z b0 <? 0x80 then Some 1%nat
      else if in_range 0xc2 0xdf b0 then
        match s1 with b1 :: _ => if is_cont b1 then Some 2%nat else None | [] => None end
      else if in_range 0xe0 0xef b0 then
        match s1 with
        | b1 :: b2 :: _ =>
            let lo := if decide (b0 = xe0) then 0xa0 else 0x80 in
            let hi := if decide (b0 = xed) then 0x9f else 0xbf in
            if in_range lo hi b1 && is_cont b2 then Some 3%nat else None
        | _ => None
        end
      else if in_range 0xf0 0xf4 b0 then
        match s1 with
        | b1 :: b2 :: b3 :: _ =>
            let lo := if decide (b0 = xf0) then 0x90 else 0x80 in
            let hi := if decide (b0 = xf4) then 0x8f else 0xbf in
            if in_range lo hi b1 && is_cont b2 && is_cont b3 then Some 4%nat else None
        | _ => None
        end
      else None
  end.

Fixpoint valid_utf8_fuel (fuel : nat) (s : bytes) : bool :=
  match fuel, s with
  | _, [] => true
  | O, _ => false
  | S fuel', _ => match utf8_len s with Some n => valid_utf8_fuel fuel' (drop n s) | None => false end
  end.

(** [utf8.Valid] *)
Definition valid_utf8 (s : bytes) : bool := valid_utf8_fuel (length s) s.

(** [utf8.EncodeRune] for a code point that is not a surrogate. *)
Definition utf8_encode (r : Z) : bytes :=
  if r <? 0x80 then [z2b r]
  else if r <? 0x800 then [z2b (0xc0 + r / 0x40); z2b (0x80 + r mod 0x40)]
  else if r <? 0x10000 then [z2b (0xe0 + r / 0x1000); z2b (0x80 + r / 0x40 mod 0x40); z2b (0x80 + r mod 0x40)]
  else [z2b (0xf0 + r / 0x40000); z2b (0x80 + r / 0x1000 mod 0x40); z2b (0x80 + r / 0x40 mod 0x40);
        z2b (0x80 + r mod 0x40)].

Definition replacement : bytes := [xef; xbf; xbd].

(** [getu4]: the code unit of a \uXXXX escape at the front. *)
Definition getu4 (s : bytes) : option Z :=
  match s with
  | b :: e :: h1 :: h2 :: h3 :: h4 :: _ =>
      if decide (b = x5c /\ e = x75) then
        match hex_digit h1, hex_digit h2, hex_digit h3, hex_digit h4 with
        | Some d1, Some d2, Some d3, Some d4 => Some (((d1 * 16 + d2) * 16 + d3) * 16 + d4)
        | _, _, _, _ => None
        end
      else None
  | _ => None
  end.

Definition simple_escape (e : byte) : option byte :=
  if decide (e ∈ [x22; x5c; x2f; x27]) then Some e
  else if decide (e = x62) then Some x08
  else if decide (e = x66) then Some x0c
  else if decide (e = x6e) then Some x0a
  else if decide (e = x72) then Some x0d
  else if decide (e = x74) then Some x09
  else None.

(** [unquoteBytes] on the raw content of a string literal: escapes are
    resolved, surrogate pairs joined, invalid UTF-8 replaced by U+FFFD. *)
Fixpoint unquote_fuel (fuel : nat) (s : bytes) : option bytes :=
  match fuel, s with
  | _, [] => Some []
  | O, _ => None
  | S fuel', b :: s1 =>
      if decide (b = x5c) then
        match s1 with
        | [] => None
        | e :: s2 =>
            if decide (e = x75) then
              match getu4 s with
              | None => None
              | Some rr =>
                  let s3 := drop 6 s in
                  if (0xd800 <=? rr) && (rr <? 0xe000) then
                    match getu4 s3 with
                    | Some rr1 =>
                        if (rr <? 0xdc00) && (0xdc00 <=? rr1) && (rr1 <? 0xe000) then
                          app (utf8_encode ((rr - 0xd800) * 0x400 + (rr1 - 0xdc00) + 0x10000))
                            <$> unquote_fuel fuel' (drop 6 s3)
                        else app replacement <$> unquote_fuel fuel' s3
                    | None => app replacement <$> unquote_fuel fuel' s3
                    end
                  else app (utf8_encode rr) <$> unquote_fuel fuel' s3
              end
            else match simple_escape e with
                 | Some c => cons c <$> unquote_fuel fuel' s2
                 | None => None
                 end
        end
      else if decide (b = x22) then None
      else if b2z b <? 0x20 then None
      else match utf8_len s with
           | Some n => app (take n s) <$> unquote_fuel fuel' (drop n s)
           | None => app replacement <$> unquote_fuel fuel' s1
           end
  end.

Definition unquote (raw : bytes) : option bytes := unquote_fuel (length raw) raw.

(** ** Decoding into Go values

    A decoder takes the current value of the target and the raw text; [None]
    is an error. A [null] leaves a string, a number or a struct alone. *)

Definition Decoder (A : Type) : Type := A -> bytes -> option A.

Definition dec_string : Decoder bytes := fun cur raw =>
  match jparse raw with
  | Some (JStr s) => unquote s
  | Some JNull => Some cur
  | _ => None
  end.

(** [*string]: [null] is [nil]. *)
Definition dec_string_ptr : Decoder (option bytes) := fun _ raw =>
  match jparse raw with
  | Some (JStr s) => Some <$> unquote s
  | Some JNull => Some None
  | _ => None
  end.

Definition dec_bool_ptr : Decoder (option bool) := fun _ raw =>
  match jparse raw with
  | Some (JBool b) => Some (Some b)
  | Some JNull => Some None
  | _ => None
  end.

(** [strconv.ParseUint(lit, 10, 64)] followed by the overflow check of a
    [uint32] target. *)
Definition uint32_of_literal (lit : bytes) : option Z :=
  match lit with
  | [] => None
  | _ => v ← parse_digits 0 lit; if v <? 2 ^ 32 then Some v else None
  end.

Definition dec_uint32 : Decoder Z := fun cur raw =>
  match jparse raw with
  | Some (JNum lit) => uint32_of_literal lit
  | Some JNull => Some cur
  | _ => None
  end.

Definition dec_uint32_ptr : Decoder (option Z) := fun _ raw =>
  match jparse raw with
  | Some (JNum lit) => Some <$> uint32_of_literal lit
  | Some JNull => Some None
  | _ => None
  end.

(** [json.RawMessage]: the text itself, [null] included. *)
Definition dec_raw : Decoder bytes := fun _ raw => Some raw.

(** A slice target: its backing array and its length. Elements are decoded
    into what the backing array holds at their index. *)
Record Slice (A : Type) := mkSlice { backing : list A; slen : nat; snil : bool }.
Arguments mkSlice {A}. Arguments backing {A}. Arguments slen {A}. Arguments snil {A}.

Definition nil_slice {A} : Slice A := mkSlice [] 0 true.
Definition slice_list {A} (s : Slice A) : list A := take (slen s) (backing s).

Fixpoint dec_elems {A} (zero : A) (dec : Decoder A) (old : list A) (elems : list bytes) : option (list A) :=
  match elems with
  | [] => Some []
  | e :: elems' =>
      v ← dec (default zero (head old)) e;
      vs ← dec_elems zero dec (tail old) elems';
      Some (v :: vs)
  end.

Definition dec_slice {A} (zero : A) (dec : Decoder A) : Decoder (Slice A) := fun cur raw =>
  match jparse raw with
  | Some JNull => Some nil_slice
  | Some (JArr []) => Some (mkSlice [] 0 false)
  | Some (JArr elems) =>
      vs ← dec_elems zero dec (backing cur) elems;
      Some (mkSlice (vs ++ drop (length vs) (backing cur)) (length vs) false)
  | _ => None
  end.

(** Field names: an exact match is preferred, otherwise names are compared
    after [foldName], which upper-cases ASCII letters and maps the long s and
    the Kelvin sign to S and K. *)
Definition to_upper (b : byte) : byte :=
  if (0x61 <=? b2z b) && (b2z b <=? 0x7a) then z2b (b2z b - 0x20) else b.

Fixpoint foldName (s : bytes) : bytes :=
  match s with
  | xc5 :: xbf :: s' => x53 :: foldName s'
  | xe2 :: x84 :: xaa :: s' => x4b :: foldName s'
  | b :: s' => to_upper b :: foldName s'
  | [] => []
  end.

(** A struct is decoded member by member in the order of the text; [fields]
    gives the decoder of each field by its name. *)
Definition Fields (S : Type) : Type := list (bytes * Decoder S).

Fixpoint find_field {S} (p : bytes -> bool) (fs : Fields S) : option (Decoder S) :=
  match fs with
  | [] => None
  | (n, d) :: fs' => if p n then Some d else find_field p fs'
  end.

Definition field_for {S} (fs : Fields S) (key : bytes) : option (Decoder S) :=
  match find_field (fun n => bool_decide (n = key)) fs with
  | Some d => Some d
  | None => find_field (fun n => bool_decide (foldName n = foldName key)) fs
  end.

Fixpoint dec_members {S} (fs : Fields S) (cur : S) (ms : list (bytes * bytes)) : option S :=
  match ms with
  | [] => Some cur
  | (rawkey, raw) :: ms' =>
      key ← unquote rawkey;
      cur ← match field_for fs key with Some d => d cur raw | None => Some cur end;
      dec_members fs cur ms'
  end.

Definition dec_struct {S} (fs : Fields S) : Decoder S := fun cur raw =>
  match jparse raw with
  | Some (JObj ms) => dec_members fs cur ms
  | Some JNull => Some cur
  | _ => None
  end.

(** Decoding into one field of a struct. *)
Definition into {S A} (get : S -> A) (set : A -> S -> S) (dec : Decoder A) : Decoder S :=
  fun cur raw => v ← dec (get cur) raw; Some (set v cur).

(** [json.Unmarshal(data, &v)] with [v] at its zero value. The white space
    around the document is not part of the value's text. *)
Definition trim_ws (data : bytes) : bytes :=
  let s := skip_ws data in
  match jvalue (json_fuel data) maxNestingDepth s with
  | Some (_, r) => before s r
  | None => s
  end.

Definition Unmarshal {A} (zero : A) (dec : Decoder A) (data : bytes) : option A :=
  if Valid data then dec zero (trim_ws data) else None.

(** ** Lemmas on the recogniser *)

Lemma skip_ws_length s : (length (skip_ws s) <= length s)%nat.
Proof. induction s as [|b s IH]; simpl; [done|]. destruct (is_ws b); simpl; lia. Qed.

Lemma skip_ws_app s r : skip_ws s <> [] -> skip_ws (s ++ r) = skip_ws s ++ r.
Proof. induction s as [|b s IH]; [done|]. simpl. destruct (is_ws b); [apply IH|done]. Qed.

Lemma skip_ws_id b s : is_ws b = false -> skip_ws (b :: s) = b :: s.
Proof. intros H. simpl. by rewrite H. Qed.

Lemma scan_string_ext s raw t r :
  scan_string s = Some (raw, t) -> scan_string (s ++ r) = Some (raw, t ++ r) /\ (length t < length s)%nat.
Proof.
  remember (length s) as n eqn:Hn. revert s Hn raw t.
  induction (lt_wf n) as [n _ IH]. intros s -> raw t H.
  destruct s as [|b s]; [done|]. cbn [scan_string app] in *.
  case_decide. { injection H as <- <-. cbn [length]. split; [done|lia]. }
  case_decide.
  { destruct s as [|e s]; [done|]. cbn [app]. case_decide.
    { destruct (scan_string s) as [[raw' t']|] eqn:E; [|done]. cbn in H. injection H as <- <-.
      edestruct (IH (length s)) as [-> ?]; [cbn [length]; lia|done|exact E|]. cbn [length]. split; [done|lia]. }
    case_decide; [|done].
    destruct s as [|h1 [|h2 [|h3 [|h4 s]]]]; try done. cbn [app].
    destruct (hex_digit h1), (hex_digit h2), (hex_digit h3), (hex_digit h4); try done.
    destruct (scan_string s) as [[raw' t']|] eqn:E; [|done]. cbn in H. injection H as <- <-.
    edestruct (IH (length s)) as [-> ?]; [cbn [length]; lia|done|exact E|]. cbn [length]. split; [done|lia]. }
  destruct (b2z b <? 32); [done|].
  destruct (scan_string s) as [[raw' t']|] eqn:E; [|done]. cbn in H. injection H as <- <-.
  edestruct (IH (length s)) as [-> ?]; [cbn [length]; lia|done|exact E|]. cbn [length]. split; [done|lia].
Qed.

(** A number literal ends where one of these bytes, or the text, begins. *)
Definition stops (r : bytes) : Prop :=
  match r with
  | b :: _ => is_digit b = false /\ b <> x2e /\ b <> x65 /\ b <> x45
  | [] => True
  end.

Lemma span_digits_ext s d t r :
  span_digits s = (d, t) -> stops r -> span_digits (s ++ r) = (d, t ++ r) /\ (length t + length d = length s)%nat.
Proof.
  revert d t. induction s as [|b s IH]; intros d t H Hr; cbn [span_digits app] in *.
  - injection H as <- <-. split; [|done]. destruct r as [|c r]; [done|]. destruct Hr as (Hc & _). simpl. by rewrite Hc.
  - destruct (is_digit b).
    + destruct (span_digits s) as [d' t'] eqn:E. injection H as <- <-.
      destruct (IH d' t' eq_refl Hr) as [-> ?]. cbn [length]. split; [done|lia].
    + injection H as <- <-. cbn [length app]. split; [done|lia].
Qed.

Lemma scan_frac_ext s d t r :
  scan_frac s = Some (d, t) -> stops r -> scan_frac (s ++ r) = Some (d, t ++ r) /\ (length t <= length s)%nat.
Proof.
  intros H Hr. destruct s as [|b s]; cbn [scan_frac app] in *.
  - injection H as <- <-. split; [|done]. destruct r as [|c r]; [done|]. destruct Hr as (_ & Hc & _). simpl.
    by rewrite decide_False.
  - case_decide; [|injection H as <- <-; done].
    destruct (span_digits s) as [d' t'] eqn:E. destruct (span_digits_ext _ _ _ r E Hr) as [-> ?].
    destruct d' as [|x d']; [done|]. injection H as <- <-. cbn [length] in *. split; [done|lia].
Qed.

Lemma scan_exp_ext s d t r :
  scan_exp s = Some (d, t) -> stops r -> scan_exp (s ++ r) = Some (d, t ++ r) /\ (length t <= length s)%nat.
Proof.
  intros H Hr. destruct s as [|b s]; cbn [scan_exp app] in *.
  - injection H as <- <-. split; [|done]. destruct r as [|c r]; [done|]. destruct Hr as (_ & _ & Hc & Hc'). simpl.
    rewrite decide_False; [done|]. by intros [->| ->].
  - case_decide; [|injection H as <- <-; done].
    destruct s as [|c s]; [done|]. cbn [app].
    case_decide.
    + destruct (span_digits s) as [d' t'] eqn:E. destruct (span_digits_ext _ _ _ r E Hr) as [-> ?].
      destruct d' as [|x d']; [done|]. injection H as <- <-. cbn [length] in *. split; [done|lia].
    + change (c :: s ++ r) with ((c :: s) ++ r).
      destruct (span_digits (c :: s)) as [d' t'] eqn:E. destruct (span_digits_ext _ _ _ r E Hr) as [-> ?].
      destruct d' as [|x d']; [done|]. injection H as <- <-. cbn [length] in *. split; [done|lia].
Qed.

Lemma scan_int_ext s d t r :
  scan_int s = Some (d, t) -> stops r -> scan_int (s ++ r) = Some (d, t ++ r) /\ (length t < length s)%nat.
Proof.
  intros H Hr. destruct s as [|b s]; [done|]. cbn [scan_int app] in *. case_decide.
  { injection H as <- <-. cbn [length]. split; [done|lia]. }
  destruct (is_digit b); [|done]. destruct (span_digits s) as [d' t'] eqn:E.
  destruct (span_digits_ext _ _ _ r E Hr) as [-> ?]. injection H as <- <-. cbn [length]. split; [done|lia].
Qed.

Lemma scan_number_ext s d t r :
  scan_number s = Some (d, t) -> stops r -> scan_number (s ++ r) = Some (d, t ++ r) /\ (length t < length s)%nat.
Proof.
  unfold scan_number. intros H Hr. destruct (scan_minus s) as [sign s1] eqn:Em.
  destruct (scan_int s1) as [[i t1]|] eqn:E1; [|done]. cbn [mbind option_bind] in H.
  destruct (scan_frac t1) as [[f t2]|] eqn:E2; [|done]. cbn [mbind option_bind] in H.
  destruct (scan_exp t2) as [[e t3]|] eqn:E3; [|done]. cbn [mbind option_bind] in H. injection H as <- <-.
  destruct (scan_int_ext _ _ _ r E1 Hr) as [E1' ?], (scan_frac_ext _ _ _ r E2 Hr) as [E2' ?],
    (scan_exp_ext _ _ _ r E3 Hr) as [E3' ?].
  assert (scan_minus (s ++ r) = (sign, s1 ++ r) /\ (length s1 <= length s)%nat) as [-> ?].
  { destruct s as [|b s]; cbn [scan_minus app] in *; [injection Em as <- <-; done|].
    case_decide; injection Em as <- <-; (split; [done|simpl; lia]). }
  rewrite E1'. cbn [mbind option_bind]. rewrite E2'. cbn [mbind option_bind]. rewrite E3'.
  split; [done|lia].
Qed.

Lemma before_app s t r : (length t <= length s)%nat -> before (s ++ r) (t ++ r) = before s t.
Proof. intros H. unfold before. rewrite !length_app, take_app_le by lia. f_equal. lia. Qed.

Lemma scan_lit_ext lit s t r :
  scan_lit lit s = Some t -> (0 < length lit)%nat -> scan_lit lit (s ++ r) = Some (t ++ r) /\ (length t < length s)%nat.
Proof.
  unfold scan_lit. case_decide as E; [|done]. intros [= <-] Hl.
  assert (length lit <= length s)%nat by (rewrite <- E at 1; rewrite length_take; lia).
  rewrite take_app_le, decide_True, drop_app_le, length_drop by (done || lia). split; [done|lia].
Qed.

Lemma head_app (s r : bytes) : s <> [] -> head (s ++ r) = head s.
Proof. by destruct s. Qed.

Lemma drop1_app (s r : bytes) : s <> [] -> drop 1 (s ++ r) = drop 1 s ++ r.
Proof. by destruct s. Qed.

Definition ext_value (f b f' b' : nat) : Prop := forall s v t r, stops r ->
  jvalue f b s = Some (v, t) -> jvalue f' b' (s ++ r) = Some (v, t ++ r) /\ (length t < length s)%nat.
Definition ext_members (f b f' b' : nat) : Prop := forall s ms t r, stops r ->
  jmembers f b s = Some (ms, t) -> jmembers f' b' (s ++ r) = Some (ms, t ++ r) /\ (length t < length s)%nat.
Definition ext_elements (f b f' b' : nat) : Prop := forall s es t r, stops r ->
  jelements f b s = Some (es, t) -> jelements f' b' (s ++ r) = Some (es, t ++ r) /\ (length t < length s)%nat.

Lemma ext_elements_step f b f' b' :
  ext_value f b f' b' -> ext_elements f b f' b' -> ext_elements (S f) b (S f') b'.
Proof.
  intros IHv IHe s es t r Hr H. cbn [jelements] in *.
  destruct (jvalue f b s) as [[v t1]|] eqn:E1; [|done]. cbn [mbind option_bind] in H.
  destruct (IHv _ _ _ r Hr E1) as [-> ?]. cbn [mbind option_bind].
  destruct (skip_ws t1) as [|d t2] eqn:E2; [done|].
  pose proof (skip_ws_length t1) as Hl. rewrite E2 in Hl. cbn [length] in Hl.
  rewrite skip_ws_app, E2 by (by rewrite E2). cbn [app].
  case_decide.
  - destruct (jelements f b (skip_ws t2)) as [[es' t3]|] eqn:E3; [|done]. cbn [mbind option_bind] in H.
    injection H as <- <-. destruct (IHe _ _ _ r Hr E3) as [E3' ?].
    pose proof (skip_ws_length t2).
    rewrite skip_ws_app by (intros E; by rewrite E in E3; destruct f as [|[|?]]).
    rewrite E3'. cbn [mbind option_bind]. rewrite before_app by lia. split; [done|lia].
  - case_decide; [|done]. injection H as <- <-. rewrite before_app by lia. split; [done|lia].
Qed.

Lemma ext_members_step f b f' b' :
  ext_value f b f' b' -> ext_members f b f' b' -> ext_members (S f) b (S f') b'.
Proof.
  intros IHv IHm s ms t r Hr H. destruct s as [|c s]; [done|]. cbn [jmembers app] in *.
  case_decide; [|done].
  destruct (scan_string s) as [[key t0]|] eqn:E0; [|done]. cbn [mbind option_bind] in H.
  destruct (scan_string_ext _ _ _ r E0) as [-> ?]. cbn [mbind option_bind].
  destruct (skip_ws t0) as [|c1 t1] eqn:E1; [done|].
  pose proof (skip_ws_length t0) as Hl. rewrite E1 in Hl. cbn [length] in Hl.
  rewrite skip_ws_app, E1 by (by rewrite E1). cbn [app]. case_decide; [|done].
  destruct (jvalue f b (skip_ws t1)) as [[v t2]|] eqn:E2; [|done]. cbn [mbind option_bind] in H.
  destruct (IHv _ _ _ r Hr E2) as [E2' ?]. pose proof (skip_ws_length t1).
  rewrite skip_ws_app by (intros E; by rewrite E in E2; destruct f). rewrite E2'. cbn [mbind option_bind].
  destruct (skip_ws t2) as [|d t3] eqn:E3; [done|].
  pose proof (skip_ws_length t2) as Hl3. rewrite E3 in Hl3. cbn [length] in Hl3.
  rewrite skip_ws_app, E3 by (by rewrite E3). cbn [app length]. case_decide.
  - destruct (jmembers f b (skip_ws t3)) as [[ms' t4]|] eqn:E4; [|done]. cbn [mbind option_bind] in H.
    injection H as <- <-. destruct (IHm _ _ _ r Hr E4) as [E4' ?].
    pose proof (skip_ws_length t3).
    rewrite skip_ws_app by (intros E; by rewrite E in E4; destruct f).
    rewrite E4'. cbn [mbind option_bind]. rewrite before_app by lia. split; [done|lia].
  - case_decide; [|done]. injection H as <- <-. rewrite before_app by lia. split; [done|lia].
Qed.

Lemma ext_value_step f b f' b' :
  (b <= b')%nat ->
  (forall c c', (c <= c')%nat -> ext_members f c f' c') ->
  (forall c c', (c <= c')%nat -> ext_elements f c f' c') ->
  ext_value (S f) b (S f') b'.
Proof.
  intros Hb IHm IHe s v t r Hr H. destruct s as [|c s]; [done|]. cbn [jvalue app] in *.
  case_decide.
  { destruct (scan_string s) as [[raw t0]|] eqn:E0; [|done]. cbn [mbind option_bind] in H.
    destruct (scan_string_ext _ _ _ r E0) as [-> ?]. cbn [mbind option_bind].
    injection H as <- <-. cbn [length]. split; [done|lia]. }
  pose proof (skip_ws_length s) as Hl.
  case_decide.
  { destruct b as [|b], b' as [|b']; try done; [lia|].
    assert (skip_ws s <> []) as Hne by (intros E; rewrite E in H; by destruct f).
    rewrite skip_ws_app, head_app, drop1_app by done. case_decide.
    { injection H as <- <-. rewrite length_drop. cbn [length]. split; [done|lia]. }
    destruct (jmembers f b (skip_ws s)) as [[ms t0]|] eqn:E0; [|done]. cbn [mbind option_bind] in H.
    destruct (IHm b b' ltac:(lia) _ _ _ r Hr E0) as [-> ?]. cbn [mbind option_bind].
    injection H as <- <-. cbn [length]. split; [done|lia]. }
  case_decide.
  { destruct b as [|b], b' as [|b']; try done; [lia|].
    assert (skip_ws s <> []) as Hne by (intros E; rewrite E in H; by destruct f as [|[|?]]).
    rewrite skip_ws_app, head_app, drop1_app by done. case_decide.
    { injection H as <- <-. rewrite length_drop. cbn [length]. split; [done|lia]. }
    destruct (jelements f b (skip_ws s)) as [[ms t0]|] eqn:E0; [|done]. cbn [mbind option_bind] in H.
    destruct (IHe b b' ltac:(lia) _ _ _ r Hr E0) as [-> ?]. cbn [mbind option_bind].
    injection H as <- <-. cbn [length]. split; [done|lia]. }
  change (c :: s ++ r) with ((c :: s) ++ r).
  assert (forall lit n, (0 < length lit)%nat -> (t0 ← scan_lit lit (c :: s); Some (n, t0)) = Some (v, t) ->
    (t0 ← scan_lit lit ((c :: s) ++ r); Some (n, t0)) = Some (v, t ++ r) /\ (length t < length (c :: s))%nat) as Hlit.
  { intros lit n Hp H'. destruct (scan_lit lit (c :: s)) as [t0|] eqn:E0; [|done]. cbn [mbind option_bind] in H'.
    injection H' as <- <-. destruct (scan_lit_ext _ _ _ r E0 Hp) as [-> ?]. done. }
  case_decide; [apply Hlit; [simpl; lia|done]|].
  case_decide; [apply Hlit; [simpl; lia|done]|].
  case_decide; [apply Hlit; [simpl; lia|done]|].
  destruct (scan_number (c :: s)) as [[lit t0]|] eqn:E0; [|done]. cbn [mbind option_bind] in H.
  destruct (scan_number_ext _ _ _ r E0 Hr) as [-> ?]. injection H as <- <-. done.
Qed.

(** More fuel, a larger budget and more text behind the value do not change
    what is recognised. *)
Lemma jvalue_ext f : forall f' b b', (f <= f')%nat -> (b <= b')%nat ->
  ext_value f b f' b' /\ ext_members f b f' b' /\ ext_elements f b f' b'.
Proof.
  induction f as [|f IH]; intros f' b b' Hf Hb; [done|].
  destruct f' as [|f']; [lia|].
  split_and!.
  - apply ext_value_step; [done|intros; apply IH; lia..].
  - apply ext_members_step; apply IH; lia.
  - apply ext_elements_step; apply IH; lia.
Qed.

Definition same_value (f f' b : nat) : Prop := forall s, (2 * length s < f)%nat -> jvalue f b s = jvalue f' b s.
Definition same_members (f f' b : nat) : Prop := forall s, (2 * length s + 1 < f)%nat -> jmembers f b s = jmembers f' b s.
Definition same_elements (f f' b : nat) : Prop := forall s, (2 * length s + 1 < f)%nat -> jelements f b s = jelements f' b s.

Lemma jvalue_length f b s v t : jvalue f b s = Some (v, t) -> (length t < length s)%nat.
Proof. intros H. by apply (proj1 (jvalue_ext f f b b (le_n f) (le_n b)) s v t []). Qed.

Lemma same_members_step f f' b :
  same_value f f' b -> same_members f f' b -> same_members (S f) (S f') b.
Proof.
  intros IHv IHm s Hs. destruct s as [|c s]; [done|]. cbn [jmembers length] in *. case_decide; [|done].
  destruct (scan_string s) as [[key t0]|] eqn:E0; [|done]. cbn [mbind option_bind].
  apply (scan_string_ext _ _ _ []) in E0 as [_ ?]. pose proof (skip_ws_length t0).
  destruct (skip_ws t0) as [|c1 t1] eqn:E1; [done|]. cbn [length] in *. case_decide; [|done].
  pose proof (skip_ws_length t1). rewrite (IHv (skip_ws t1)) by lia.
  destruct (jvalue f' b (skip_ws t1)) as [[v t2]|] eqn:E2; [|done]. cbn [mbind option_bind].
  apply jvalue_length in E2. pose proof (skip_ws_length t2).
  destruct (skip_ws t2) as [|d t3] eqn:E3; [done|]. cbn [length] in *. pose proof (skip_ws_length t3).
  case_decide; [|done]. by rewrite IHm by lia.
Qed.

Lemma same_elements_step f f' b :
  same_value f f' b -> same_elements f f' b -> same_elements (S f) (S f') b.
Proof.
  intros IHv IHe s Hs. cbn [jelements]. rewrite (IHv s) by lia.
  destruct (jvalue f' b s) as [[v t2]|] eqn:E2; [|done]. cbn [mbind option_bind].
  apply jvalue_length in E2. pose proof (skip_ws_length t2).
  destruct (skip_ws t2) as [|d t3] eqn:E3; [done|]. cbn [length] in *. pose proof (skip_ws_length t3).
  case_decide; [|done]. by rewrite IHe by lia.
Qed.

Lemma same_value_step f f' b :
  (forall c, same_members f f' c) -> (forall c, same_elements f f' c) -> same_value (S f) (S f') b.
Proof.
  intros IHm IHe s Hs. destruct s as [|c s]; [done|]. cbn [jvalue length] in *.
  pose proof (skip_ws_length s).
  repeat (case_decide; [first [done | destruct b; [done|case_decide; [done|]];
    first [rewrite IHm by lia | rewrite IHe by lia]; done]|]).
  done.
Qed.

(** Fuel above the bound changes nothing: the recogniser never fails for lack
    of fuel. *)
Lemma jvalue_enough f : forall f' b, (f <= f')%nat ->
  same_value f f' b /\ same_members f f' b /\ same_elements f f' b.
Proof.
  induction f as [|f IH]; intros f' b Hf; [split_and!; intros s Hs; lia|].
  destruct f' as [|f']; [lia|]. split_and!.
  - apply same_value_step; intros; apply IH; lia.
  - apply same_members_step; apply IH; lia.
  - apply same_elements_step; apply IH; lia.
Qed.
