(* ===== verification/Packets.v ===== *)
(** The typed packets of [src/proto/packets.go], the client information of
    [src/proto/client.go], the JSON texts of [src/proto/packets.go]
    ([ChatMessageJSON], [StatusResponseJSON]) and [Kick] of
    [src/proto/action.go]. *)
From S2P Require Import Prelude VarInt Wire Packet Config Net Json.

(** ** Packet ids *)

Definition PacketHandshake : byte := x00.
Definition PacketServerStatusRequest : byte := x00.
Definition PacketServerPing : byte := x01.
Definition PacketClientStatusResponse : byte := x00.
Definition PacketClientPing : byte := x01.
Definition PacketServerLoginStart : byte := x00.
Definition PacketServerEncryptionResponse : byte := x01.
Definition PacketServerLoginPluginResponse : byte := x02.
Definition PacketClientLoginDisconnect : byte := x00.
Definition PacketClientEncryptionRequest : byte := x01.
Definition PacketClientLoginSuccess : byte := x02.
Definition PacketClientSetCompression : byte := x03.
Definition PacketClientLoginPluginRequest : byte := x04.
Definition PacketGameDisconnect : byte := x1a.

(** ** Handshake and login packets *)

Record Handshake := mkHandshake {
  ProtocolVersion : Z;
  ServerAddr : bytes;
  ServerPort : Z;
  NextState : Z }.

Definition Handshake_Encode (h : Handshake) (w : PacketWriter) : PacketWriter :=
  w |> WriteVarInt (ProtocolVersion h)
    |> WriteString (ServerAddr h)
    |> WriteUint16 (ServerPort h)
    |> WriteVarInt (NextState h).

Definition DecodeHandshake : bytes -> option Handshake := decode_with (
  v ← varInt;
  addr ← read_str 255;
  port ← read_u16;
  next ← varInt;
  mret (mkHandshake v addr port next)).

Record LoginStart := mkLoginStart { LoginStart_Name : bytes }.

Definition LoginStart_Encode (l : LoginStart) (w : PacketWriter) : PacketWriter :=
  w |> WriteString (LoginStart_Name l).

Definition DecodeLoginStart : bytes -> option LoginStart := decode_with (
  name ← read_str 16; mret (mkLoginStart name)).

Record LoginPluginResponse := mkLoginPluginResponse {
  Resp_MessageID : Z;
  Resp_Successful : bool;
  Resp_Data : bytes }.

Definition LoginPluginResponse_Encode (l : LoginPluginResponse) (w : PacketWriter) : PacketWriter :=
  w |> WriteVarInt (Resp_MessageID l) |> WriteBool (Resp_Successful l) |> Write (Resp_Data l).

Definition DecodeLoginPluginResponse : bytes -> option LoginPluginResponse := decode_with (
  id ← varInt; ok ← read_bool; data ← rest; mret (mkLoginPluginResponse id ok data)).

Record LoginPluginRequest := mkLoginPluginRequest {
  Req_MessageID : Z;
  Req_Channel : bytes;
  Req_Data : bytes }.

Definition DecodeLoginPluginRequest : bytes -> option LoginPluginRequest := decode_with (
  id ← varInt; channel ← read_str 32767; data ← rest; mret (mkLoginPluginRequest id channel data)).

(** [encodeLoginPluginRequest] of [src/forge.go] *)
Definition encodeLoginPluginRequest (r : LoginPluginRequest) : bytes :=
  Bytes (NewPacketWriter |> WriteVarInt (Req_MessageID r) |> WriteString (Req_Channel r) |> Write (Req_Data r)).

Definition DecodeSetCompression : bytes -> option Z := decode_with varInt.
Definition DecodePingRequest : bytes -> option Z := decode_with read_u64.
Definition DecodePingResponse : bytes -> option Z := decode_with read_u64.

(** ** Client information *)

Record ProfileProperty := mkProfileProperty {
  Prop_Name : bytes;
  Prop_Value : bytes;
  Prop_Signature : option bytes }.

Record GameProfile := mkGameProfile {
  Profile_UUID : bytes; (* 16 bytes *)
  Profile_Name : bytes;
  Profile_Properties : list ProfileProperty }.

Record ClientInfo := mkClientInfo {
  Info_Protocol : option Z;
  Info_Handshake : option Handshake;
  Info_Username : option bytes;
  Info_Profile : option GameProfile }.

Definition EmptyClientInfo : ClientInfo := mkClientInfo None None None None.

Definition GetProtocol (i : ClientInfo) : option Z :=
  match Info_Protocol i with
  | Some p => Some p
  | None => (fun h => u32 (ProtocolVersion h)) <$> Info_Handshake i
  end.

(** ** JSON rendering *)

(** One byte of [serdeJSONString]. *)
Definition serde_byte (c : byte) : bytes :=
  if decide (c = x22) then [x5c; x22]
  else if decide (c = x5c) then [x5c; x5c]
  else if decide (c = x08) then [x5c; x62]
  else if decide (c = x0c) then [x5c; x66]
  else if decide (c = x0a) then [x5c; x6e]
  else if decide (c = x0d) then [x5c; x72]
  else if decide (c = x09) then [x5c; x74]
  else if b2z c <? 0x20 then
    [x5c; x75; x30; x30; hex_char (b2z c / 16); hex_char (b2z c mod 16)]
  else [c].

Definition serde_body (s : bytes) : bytes := flat_map serde_byte s.
Definition serdeJSONString (s : bytes) : bytes := [x22] ++ serde_body s ++ [x22].

(** A double quote cannot appear inside a Rocq string here, so the literal
    JSON of the source is written with the quotes as bytes: [q "max"] is the
    key ["max"] with its quotes. *)
Definition q (s : string) : bytes := [x22] ++ str s ++ [x22].

Definition ChatMessageJSON (text : bytes) : bytes :=
  str "{" ++ q "text" ++ str ":" ++ serdeJSONString text ++ str "}".

Record ServerVersion := mkServerVersion { Version_Name : bytes; Version_Protocol : Z }.
Record OnlinePlayer := mkOnlinePlayer { Player_Name : bytes; Player_ID : bytes }.
Record OnlinePlayers := mkOnlinePlayers { Max : Z; Online : Z; Sample : list OnlinePlayer }.

Record ServerStatus := mkServerStatus {
  Version : ServerVersion;
  Players : OnlinePlayers;
  Description : bytes;
  Favicon : option bytes;
  ForgeData : bytes }.

Definition player_json (p : OnlinePlayer) : bytes :=
  str "{" ++ q "name" ++ str ":" ++ serdeJSONString (Player_Name p)
  ++ str "," ++ q "id" ++ str ":" ++ serdeJSONString (Player_ID p) ++ str "}".

Fixpoint sample_json (ps : list OnlinePlayer) : bytes :=
  match ps with
  | [] => []
  | [p] => player_json p
  | p :: ps' => player_json p ++ str "," ++ sample_json ps'
  end.

Definition favicon_json (f : option bytes) : bytes :=
  match f with None => str "null" | Some s => serdeJSONString s end.

Definition forge_json (d : bytes) : bytes :=
  if bool_decide (d <> []) && Valid d then str "," ++ q "forgeData" ++ str ":" ++ d else [].

Definition version_json (v : ServerVersion) : bytes :=
  str "{" ++ q "name" ++ str ":" ++ serdeJSONString (Version_Name v)
  ++ str "," ++ q "protocol" ++ str ":" ++ itoa (Version_Protocol v) ++ str "}".

Definition players_json (p : OnlinePlayers) : bytes :=
  str "{" ++ q "max" ++ str ":" ++ itoa (Max p)
  ++ str "," ++ q "online" ++ str ":" ++ itoa (Online p)
  ++ str "," ++ q "sample" ++ str ":[" ++ sample_json (Sample p) ++ str "]}".

Definition StatusResponseJSON (s : ServerStatus) : bytes :=
  str "{" ++ q "version" ++ str ":" ++ version_json (Version s)
  ++ str "," ++ q "players" ++ str ":" ++ players_json (Players s)
  ++ str "," ++ q "description" ++ str ":" ++ serdeJSONString (Description s)
  ++ str "," ++ q "favicon" ++ str ":" ++ favicon_json (Favicon s)
  ++ forge_json (ForgeData s) ++ str "}".

(** ** Kick *)

Section Kick.

Context `{Zlib}.

(** The bytes [Kick] writes to the connection; [None] is the
    [io.ErrClosedPipe] path, where nothing is written. *)
Definition Kick (client : Client) (msg : bytes) : option bytes :=
  let id := if decide (cstate client = ClientStatePlay)
            then PacketGameDisconnect else PacketClientLoginDisconnect in
  let data := StringBytes (ChatMessageJSON msg) in
  EncodeWithLen (NewRawPacket id data) client.

End Kick.

(** ** Round trips of the packets *)

(** Two fields, then the rest of the packet. *)
Lemma decode_two_rest {A B C} (m1 : Rd A) (m2 : Rd B) (f : A -> B -> bytes -> C) e1 e2 a b data :
  reads m1 e1 a -> reads m2 e2 b ->
  decode_with (x ← m1; y ← m2; d ← rest; mret (f x y d)) (e1 ++ e2 ++ data) = Some (f a b data).
Proof.
  intros H1 H2. unfold decode_with, mbind, Rd_bind.
  rewrite (H1 _ 0%nat (e2 ++ data)), Nat.add_0_l by done.
  rewrite (H2 _ (length e1) data) by apply drop_app_length.
  rewrite (rest_reads _ _ data); [done|].
  rewrite app_assoc, <- length_app. apply drop_app_length.
Qed.

Lemma LoginPluginRequest_roundtrip id channel data :
  is_i32 id -> Zlen channel <= 32767 ->
  DecodeLoginPluginRequest (encodeLoginPluginRequest (mkLoginPluginRequest id channel data))
  = Some (mkLoginPluginRequest id channel data).
Proof.
  intros Hid Hc. unfold DecodeLoginPluginRequest, encodeLoginPluginRequest. wire_bytes.
  cbn [Req_MessageID Req_Channel Req_Data]. apply decode_two_rest; [by apply codec_reads|]. apply str_codec_reads; lia.
Qed.

Lemma LoginPluginResponse_roundtrip id ok data :
  is_i32 id ->
  DecodeLoginPluginResponse
    (Bytes (NewPacketWriter |> LoginPluginResponse_Encode (mkLoginPluginResponse id ok data)))
  = Some (mkLoginPluginResponse id ok data).
Proof.
  intros Hid. unfold DecodeLoginPluginResponse, LoginPluginResponse_Encode. wire_bytes.
  cbn [Resp_MessageID Resp_Successful Resp_Data]. apply decode_two_rest; by apply codec_reads.
Qed.

Definition handshake_ok (h : Handshake) : Prop :=
  is_i32 (ProtocolVersion h) /\ Zlen (ServerAddr h) <= 255 /\ is_u16 (ServerPort h) /\ is_i32 (NextState h).

(** The handshake and login packets survive the wire. Decoding what was
    encoded gives the fields back, for every field value within the limits the
    decoders enforce (a 255-byte address, a 16-byte name, a 32767-byte
    channel), and the free-form data of the login plugin packets is the rest
    of the packet. *)
Lemma login_packets_roundtrip (h : Handshake) (l : LoginStart) (id : Z) (ok : bool) (channel data : bytes) :
  handshake_ok h -> Zlen (LoginStart_Name l) <= 16 -> is_i32 id -> Zlen channel <= 32767 ->
  DecodeHandshake (Bytes (NewPacketWriter |> Handshake_Encode h)) = Some h
  /\ DecodeLoginStart (Bytes (NewPacketWriter |> LoginStart_Encode l)) = Some l
  /\ DecodeLoginPluginResponse
       (Bytes (NewPacketWriter |> LoginPluginResponse_Encode (mkLoginPluginResponse id ok data)))
     = Some (mkLoginPluginResponse id ok data)
  /\ DecodeLoginPluginRequest (encodeLoginPluginRequest (mkLoginPluginRequest id channel data))
     = Some (mkLoginPluginRequest id channel data).
Proof.
  intros (Hv & Ha & Hp & Hn) Hl Hid Hc. split_and!.
  - unfold DecodeHandshake, Handshake_Encode. wire_bytes. apply reads_decode. destruct h.
    cbn [ProtocolVersion ServerAddr ServerPort NextState] in *. wire_reads.
  - unfold DecodeLoginStart, LoginStart_Encode. wire_bytes. apply reads_decode. destruct l.
    cbn [LoginStart_Name] in *. wire_reads.
  - by apply LoginPluginResponse_roundtrip.
  - by apply LoginPluginRequest_roundtrip.
Qed.

Lemma login_packets_roundtrip_witness :
  DecodeHandshake (Bytes (NewPacketWriter |> Handshake_Encode (mkHandshake 763 (str "localhost") 25565 2)))
  = Some (mkHandshake 763 (str "localhost") 25565 2).
Proof.
  apply (login_packets_roundtrip (mkHandshake 763 (str "localhost") 25565 2) (mkLoginStart (str "Steve")) 7 true
           (str "fml:loginwrapper") [x01; x02]).
  - repeat split; vm_compute; congruence.
  - vm_compute. congruence.
  - split; vm_compute; congruence.
  - vm_compute. congruence.
Defined.
