(* ===== verification/JsonText.v ===== *)
(** Printed JSON is recognised: the texts the gateway renders (strings,
    numbers, objects, arrays) and what [json.Unmarshal] reads from them. *)
From S2P Require Import Prelude VarInt Wire Packet Config Net Json Packets.

(** ** Recognised texts *)

(** [jtext b s n]: [s] is exactly one value, [n], opening at most [b] levels. *)
Definition jtext (b : nat) (s : bytes) (n : JNode) : Prop := jvalue (json_fuel s) b s = Some (n, []).

Lemma jtext_any f b s n : jvalue f b s = Some (n, []) -> jtext b s n.
Proof.
  intros H. unfold jtext. destruct (decide (f <= json_fuel s)%nat) as [Hf|Hf].
  - destruct (proj1 (jvalue_ext f (json_fuel s) b b Hf (le_n b)) s n [] [] I H) as [H' _].
    by rewrite app_nil_r in H'.
  - rewrite <- H. apply (proj1 (jvalue_enough (json_fuel s) f b ltac:(lia))). unfold json_fuel. lia.
Qed.

Lemma jtext_use f b b' s n r :
  jtext b s n -> (json_fuel s <= f)%nat -> (b <= b')%nat -> stops r -> jvalue f b' (s ++ r) = Some (n, r).
Proof.
  intros H Hf Hb Hr. by destruct (proj1 (jvalue_ext _ f b b' Hf Hb) s n [] r Hr H) as [? _].
Qed.

Lemma jvalue_head f b s n t : jvalue f b s = Some (n, t) -> skip_ws s = s.
Proof.
  destruct f as [|f]; [done|]. destruct s as [|c s]; [done|]. intros H.
  destruct (is_ws c) eqn:E; [|simpl; by rewrite E]. exfalso.
  unfold is_ws in E. apply orb_true_iff in E as [E|E%bool_decide_eq_true]; [|by subst].
  apply orb_true_iff in E as [E|E%bool_decide_eq_true]; [|by subst].
  apply orb_true_iff in E as [E%bool_decide_eq_true|E%bool_decide_eq_true]; by subst.
Qed.

Lemma jtext_jparse b s n : jtext b s n -> (b <= maxNestingDepth)%nat -> jparse s = Some n.
Proof.
  intros H Hb. unfold jparse. rewrite (jvalue_head _ _ _ _ _ H).
  pose proof (jtext_use (json_fuel s) b maxNestingDepth s n [] H (le_n _) Hb I) as E.
  rewrite app_nil_r in E. by rewrite E.
Qed.

Lemma jtext_Unmarshal {A} (zero : A) (dec : Decoder A) b s n :
  jtext b s n -> (b <= maxNestingDepth)%nat -> Unmarshal zero dec s = dec zero s.
Proof.
  intros H Hb. unfold Unmarshal, Valid. rewrite (jtext_jparse b s n) by done.
  f_equal. unfold trim_ws. rewrite (jvalue_head _ _ _ _ _ H).
  pose proof (jtext_use (json_fuel s) b maxNestingDepth s n [] H (le_n _) Hb I) as E.
  rewrite app_nil_r in E. rewrite E. unfold before. cbn [length]. by rewrite Nat.sub_0_r, firstn_all.
Qed.

(** ** Strings *)

Lemma scan_serde_byte c t :
  scan_string (serde_byte c ++ t) = ('(raw, r) ← scan_string t; Some (serde_byte c ++ raw, r)).
Proof. destruct c; reflexivity. Qed.

Lemma scan_serde s r : scan_string (serde_body s ++ [x22] ++ r) = Some (serde_body s, r).
Proof.
  induction s as [|c s IH]; [done|]. change (serde_body (c :: s)) with (serde_byte c ++ serde_body s).
  rewrite <- app_assoc, scan_serde_byte, IH. done.
Qed.

Lemma jtext_string s : jtext 0 (serdeJSONString s) (JStr (serde_body s)).
Proof.
  unfold jtext, serdeJSONString. cbn [json_fuel app jvalue]. rewrite decide_True by done.
  pose proof (scan_serde s []) as H. cbn [app] in H. by rewrite H.
Qed.

(** A byte that [serdeJSONString] leaves alone, alone or within a multi-byte
    character. *)
Lemma serde_byte_high c : 0x80 <= b2z c -> serde_byte c = [c].
Proof. destruct c; cbn; intros; first [done | exfalso; lia]. Qed.

Lemma serde_body_high l : Forall (fun c => 0x80 <= b2z c) l -> serde_body l = l.
Proof.
  unfold serde_body. induction 1 as [|c l Hc _ IH]; [done|]. cbn [flat_map]. by rewrite serde_byte_high, IH.
Qed.

Lemma serde_body_app a b : serde_body (a ++ b) = serde_body a ++ serde_body b.
Proof. apply flat_map_app. Qed.

Lemma utf8_len_split s n :
  utf8_len s = Some n ->
  (0 < n)%nat /\ (n <= length s)%nat
  /\ ((exists c s', s = c :: s' /\ n = 1%nat /\ b2z c < 0x80) \/ Forall (fun c => 0x80 <= b2z c) (take n s)).
Proof.
  destruct s as [|b0 s]; [done|]. cbn [utf8_len]. intros H.
  destruct (b2z b0 <? 128) eqn:E0.
  { injection H as <-. split_and!; [lia|simpl; lia|]. left. exists b0, s. split_and!; [done..|lia]. }
  assert (forall lo hi c, 128 <= lo -> in_range lo hi c = true -> 128 <= b2z c) as Hr
    by (unfold in_range; intros; lia).
  assert (forall c, is_cont c = true -> 128 <= b2z c) as Hc by (intros c; by apply Hr).
  destruct (in_range 0xc2 0xdf b0).
  { destruct s as [|b1 s]; [done|]. destruct (is_cont b1) eqn:E1; [|done]. injection H as <-.
    split_and!; [lia|simpl; lia|]. right. repeat constructor; [lia|by apply Hc]. }
  destruct (in_range 0xe0 0xef b0).
  { destruct s as [|b1 [|b2 s]]; try done. destruct (_ && _) eqn:E1; [|done]. injection H as <-.
    apply andb_true_iff in E1 as [E1 E2]. split_and!; [lia|simpl; lia|]. right.
    repeat constructor; [lia| |by apply Hc]. eapply Hr; [|exact E1]. case_decide; lia. }
  destruct (in_range 0xf0 0xf4 b0); [|done].
  destruct s as [|b1 [|b2 [|b3 s]]]; try done. destruct (_ && _) eqn:E1; [|done]. injection H as <-.
  apply andb_true_iff in E1 as [E1 E3]. apply andb_true_iff in E1 as [E1 E2].
  split_and!; [lia|simpl; lia|]. right.
  repeat constructor; [lia| |by apply Hc..]. eapply Hr; [|exact E1]. case_decide; lia.
Qed.

(** The sequence at the front does not depend on what follows it. *)
Lemma utf8_len_take s n r : utf8_len s = Some n -> utf8_len (take n s ++ r) = Some n.
Proof.
  destruct s as [|b0 s]; [done|]. cbn [utf8_len]. intros H.
  destruct (b2z b0 <? 128) eqn:E0; [injection H as <-; simpl; by rewrite E0|].
  destruct (in_range 0xc2 0xdf b0) eqn:E1.
  { destruct s as [|b1 s]; [done|]. destruct (is_cont b1) eqn:E2; [|done]. injection H as <-.
    cbn [take app utf8_len]. by rewrite E0, E1, E2. }
  destruct (in_range 0xe0 0xef b0) eqn:E2.
  { destruct s as [|b1 [|b2 s]]; try done. destruct (_ && _) eqn:E3; [|done]. injection H as <-.
    cbn [take app utf8_len]. by rewrite E0, E1, E2, E3. }
  destruct (in_range 0xf0 0xf4 b0) eqn:E3; [|done].
  destruct s as [|b1 [|b2 [|b3 s]]]; try done. destruct (_ && _) eqn:E4; [|done]. injection H as <-.
  cbn [take app utf8_len]. by rewrite E0, E1, E2, E3, E4.
Qed.

(** Unquoting the escape of one ASCII byte. *)
Lemma unquote_ascii fuel c s :
  b2z c < 0x80 -> unquote_fuel (S fuel) (serde_byte c ++ s) = cons c <$> unquote_fuel fuel s.
Proof. destruct c; intros H; cbn in H |- *; first [done | exfalso; lia]. Qed.

Lemma unquote_serde_fuel n s fuel :
  valid_utf8_fuel n s = true -> (length s <= fuel)%nat -> unquote_fuel fuel (serde_body s) = Some s.
Proof.
  revert s fuel. induction n as [|n IH]; intros s fuel H Hf.
  { destruct s; [by destruct fuel|done]. }
  destruct s as [|c s]; [by destruct fuel|]. remember (c :: s) as cs eqn:Ecs.
  assert (valid_utf8_fuel (S n) cs = match utf8_len cs with Some k => valid_utf8_fuel n (drop k cs) | None => false end) as Hv
    by (by subst cs). rewrite Hv in H. clear Hv.
  destruct (utf8_len cs) as [k|] eqn:Ek; [|done].
  destruct (utf8_len_split _ _ Ek) as (Hk & Hkl & Hcase).
  destruct fuel as [|fuel]; [subst cs; simpl in Hf; lia|].
  destruct Hcase as [(c' & s' & E & -> & Hc)|Hhigh].
  - rewrite E in *. cbn [drop] in H. change (serde_body (c' :: s')) with (serde_byte c' ++ serde_body s').
    rewrite unquote_ascii by done. rewrite IH; [done|done|]. simpl in Hf. lia.
  - rewrite <- (take_drop k cs) at 1. rewrite serde_body_app, (serde_body_high (take k cs)) by done.
    pose proof (utf8_len_take cs k (serde_body (drop k cs)) Ek) as Ek'.
    assert (length (take k cs) = k) as Elen by (rewrite length_take; lia).
    assert (exists x xs, take k cs = x :: xs /\ 128 <= b2z x) as (x & xs & Ex & Hx).
    { destruct (take k cs) as [|x xs]; [simpl in Elen; lia|]. inversion Hhigh. eauto. }
    assert (unquote_fuel (S fuel) (take k cs ++ serde_body (drop k cs))
            = app (take k cs) <$> unquote_fuel fuel (serde_body (drop k cs))) as ->.
    { remember (take k cs ++ serde_body (drop k cs)) as t eqn:Et.
      assert (take k t = take k cs /\ drop k t = serde_body (drop k cs)) as [<- <-].
      { rewrite Et. by rewrite take_app_length', drop_app_length'. }
      rewrite Ex in Et. destruct t as [|y t]; [done|]. injection Et as -> _.
      cbn [unquote_fuel].
      rewrite decide_False by (intros ->; done). rewrite decide_False by (intros ->; done).
      rewrite (proj2 (Z.ltb_ge _ 32)) by lia. by rewrite Ek'. }
    rewrite IH; [|done|rewrite length_drop; lia]. cbn. by rewrite take_drop.
Qed.

Lemma serde_byte_length c : (1 <= length (serde_byte c))%nat.
Proof. by destruct c; vm_compute; lia. Qed.

Lemma serde_body_length s : (length s <= length (serde_body s))%nat.
Proof.
  induction s as [|c s IH]; [done|]. change (serde_body (c :: s)) with (serde_byte c ++ serde_body s).
  rewrite length_app. pose proof (serde_byte_length c). simpl. lia.
Qed.

Lemma unquote_serde s : valid_utf8 s = true -> unquote (serde_body s) = Some s.
Proof. intros H. eapply unquote_serde_fuel; [exact H|apply serde_body_length]. Qed.

(** ** Numbers *)

Definition digits (l : bytes) : Prop := Forall (fun c => is_digit c = true) l.

Lemma digit_byte d : 0 <= d < 10 -> is_digit (z2b (0x30 + d)) = true /\ b2z (z2b (0x30 + d)) = 0x30 + d.
Proof.
  intros Hd. assert (b2z (z2b (0x30 + d)) = 0x30 + d) as E by (apply b2z_z2b_small; lia).
  split; [|done]. unfold is_digit. rewrite E. lia.
Qed.

Lemma itoa_loop_parse n v buf :
  0 <= v < 10 ^ Z.of_nat n -> v < 2 ^ 64 -> parse_digits 0 (itoa_loop n v buf) = parse_digits v buf.
Proof.
  revert v buf. induction n as [|n IH]; intros v buf Hv Hm; cbn [itoa_loop].
  { simpl in Hv. by replace v with 0 by lia. }
  destruct (0 <? v) eqn:E; [|by replace v with 0 by lia].
  pose proof (Z.div_mod v 10 ltac:(lia)). pose proof (Z.mod_pos_bound v 10 ltac:(lia)).
  rewrite Nat2Z.inj_succ, Z.pow_succ_r in Hv by lia.
  rewrite IH; [|split; [apply Z.div_pos; lia|apply Z.div_lt_upper_bound; lia]|lia].
  cbn [parse_digits]. destruct (digit_byte (v mod 10)) as [-> ->]; [lia|].
  replace (v / 10 * 10 + (0x30 + v mod 10 - 0x30)) with v by lia.
  by rewrite (proj2 (Z.ltb_lt _ _)) by lia.
Qed.

(** The digits [itoa] puts in front: the first is not zero. *)
Lemma itoa_loop_shape n v buf :
  0 < v < 10 ^ Z.of_nat n ->
  exists c ds, itoa_loop n v buf = c :: ds ++ buf /\ c <> x30 /\ is_digit c = true /\ digits ds.
Proof.
  revert v buf. induction n as [|n IH]; intros v buf Hv; cbn [itoa_loop].
  { simpl in Hv. lia. }
  rewrite (proj2 (Z.ltb_lt 0 v)) by lia.
  pose proof (Z.div_mod v 10 ltac:(lia)). pose proof (Z.mod_pos_bound v 10 ltac:(lia)).
  rewrite Nat2Z.inj_succ, Z.pow_succ_r in Hv by lia.
  destruct (digit_byte (v mod 10)) as [Hd Hb]; [lia|].
  destruct (decide (v / 10 = 0)) as [E|E].
  - exists (z2b (0x30 + v mod 10)), []. rewrite E.
    assert (itoa_loop n 0 (z2b (0x30 + v mod 10) :: buf) = z2b (0x30 + v mod 10) :: buf) as -> by (by destruct n).
    split_and!; [done| |done|constructor].
    intros E0. rewrite E0 in Hb. change (b2z x30) with 0x30 in Hb. lia.
  - assert (0 < v / 10 < 10 ^ Z.of_nat n) as Hv'.
    { split; [|apply Z.div_lt_upper_bound; lia]. pose proof (Z.div_pos v 10). lia. }
    destruct (IH (v / 10) (z2b (0x30 + v mod 10) :: buf) Hv') as (c & ds & -> & Hc & Hc' & Hds).
    exists c, (ds ++ [z2b (0x30 + v mod 10)]). rewrite <- app_assoc. split_and!; [done..|].
    apply Forall_app. split; [done|]. by repeat constructor.
Qed.

Lemma itoa_shape v :
  0 <= v < 2 ^ 32 ->
  (v = 0 /\ itoa v = [x30])
  \/ exists c ds, itoa v = c :: ds /\ c <> x30 /\ is_digit c = true /\ digits ds.
Proof.
  intros Hv. unfold itoa. destruct (v =? 0) eqn:E; [left; split; [lia|done]|right].
  destruct (itoa_loop_shape 10 v []) as (c & ds & -> & H); [simpl; lia|].
  exists c, ds. rewrite app_nil_r. done.
Qed.

Lemma uint32_itoa v : 0 <= v < 2 ^ 32 -> uint32_of_literal (itoa v) = Some v.
Proof.
  intros Hv. assert (parse_digits 0 (itoa v) = Some v) as E.
  { unfold itoa. destruct (v =? 0) eqn:E0; [by replace v with 0 by lia|].
    rewrite itoa_loop_parse; [done|simpl; lia|zpow; lia]. }
  unfold uint32_of_literal. rewrite E.
  destruct (itoa_shape v Hv) as [[_ ->]|(c & ds & -> & _)]; cbn [mbind option_bind];
    by rewrite (proj2 (Z.ltb_lt _ _)) by lia.
Qed.

Lemma span_digits_all ds : digits ds -> span_digits ds = (ds, []).
Proof. induction 1 as [|c ds Hc _ IH]; [done|]. cbn [span_digits]. by rewrite Hc, IH. Qed.

Lemma scan_itoa v : 0 <= v < 2 ^ 32 -> scan_number (itoa v) = Some (itoa v, []).
Proof.
  intros Hv. destruct (itoa_shape v Hv) as [[-> ->]|(c & ds & -> & Hc & Hd & Hds)]; [done|].
  unfold scan_number, scan_minus, scan_int. rewrite decide_False by (by intros ->).
  rewrite decide_False, Hd, span_digits_all by done. cbn. by rewrite app_nil_r.
Qed.

Lemma jtext_number v : 0 <= v < 2 ^ 32 -> jtext 0 (itoa v) (JNum (itoa v)).
Proof.
  intros Hv. unfold jtext. pose proof (scan_itoa v Hv) as Es.
  assert (exists c s, itoa v = c :: s /\ is_digit c = true) as (c & s & E & Hd).
  { destruct (itoa_shape v Hv) as [[_ ->]|(c & ds & -> & _ & Hd & _)]; eauto. }
  rewrite E in *. cbn [json_fuel jvalue].
  rewrite !decide_False by (by intros ->). by rewrite Es.
Qed.

Lemma jtext_null : jtext 0 (str "null") JNull.
Proof. reflexivity. Qed.

(** ** Objects and arrays *)

Fixpoint members_text (ms : list (bytes * bytes)) : bytes :=
  match ms with
  | [] => []
  | [(k, v)] => [x22] ++ k ++ [x22; x3a] ++ v
  | (k, v) :: ms' => [x22] ++ k ++ [x22; x3a] ++ v ++ [x2c] ++ members_text ms'
  end.

Fixpoint elements_text (es : list bytes) : bytes :=
  match es with
  | [] => []
  | [e] => e
  | e :: es' => e ++ [x2c] ++ elements_text es'
  end.

Definition obj_text (ms : list (bytes * bytes)) : bytes := [x7b] ++ members_text ms ++ [x7d].
Definition arr_text (es : list bytes) : bytes := [x5b] ++ elements_text es ++ [x5d].

(** The raw content of a string literal. *)
Definition raw_key (k : bytes) : Prop := forall r, scan_string (k ++ x22 :: r) = Some (k, r).

Definition member_ok (b : nat) (m : bytes * bytes) : Prop := raw_key (fst m) /\ exists n, jtext b (snd m) n.

Lemma before_self (s r : bytes) : before (s ++ r) r = s.
Proof. unfold before. rewrite length_app, Nat.add_sub. apply take_app_length. Qed.

Lemma jtext_skip_ws b s n r : jtext b s n -> skip_ws (s ++ r) = s ++ r.
Proof.
  intros H. pose proof (jvalue_head _ _ _ _ _ H) as E. rewrite skip_ws_app, E; [done|].
  rewrite E. by intros ->.
Qed.

Lemma members_text_cons k v ms :
  members_text ((k, v) :: ms)
  = [x22] ++ k ++ [x22; x3a] ++ v ++ match ms with [] => [] | _ => [x2c] ++ members_text ms end.
Proof. destruct ms as [|m ms]; [|done]. cbn [members_text]. by rewrite app_nil_r. Qed.

Lemma jmembers_text b ms r :
  ms <> [] -> Forall (member_ok b) ms ->
  exists f, jmembers f b (members_text ms ++ [x7d] ++ r) = Some (ms, r).
Proof.
  intros Hne Hms. induction Hms as [|[k v] ms [Hk [n Hv]] Hms IH]; [done|]. clear Hne. cbn [fst snd] in *.
  assert (exists f, ms <> [] -> jmembers f b (members_text ms ++ [x7d] ++ r) = Some (ms, r)) as [f Hf].
  { destruct ms as [|m ms]; [by exists O|]. destruct IH as [f Hf]; [done|]. by exists f. }
  clear IH. exists (S (f + json_fuel v))%nat.
  rewrite members_text_cons, <- !app_assoc. cbn [app jmembers]. rewrite decide_True by done.
  rewrite Hk. cbn [mbind option_bind]. rewrite skip_ws_id by done. rewrite decide_True by done.
  rewrite (jtext_skip_ws b v n) by done.
  rewrite (jtext_use _ b b v n) by (done || lia || destruct ms; done). cbn [mbind option_bind].
  rewrite before_self. destruct ms as [|m ms].
  - cbn [app]. rewrite skip_ws_id by done. by rewrite decide_False, decide_True by done.
  - cbn [app]. rewrite skip_ws_id, decide_True by done.
    specialize (Hf ltac:(done)).
    assert (skip_ws (members_text (m :: ms) ++ x7d :: r) = members_text (m :: ms) ++ x7d :: r) as ->.
    { destruct m as [k' v']. rewrite members_text_cons. cbn [app]. by rewrite skip_ws_id. }
    destruct (proj1 (proj2 (jvalue_ext f (f + json_fuel v) b b ltac:(lia) (le_n b))) _ _ _ [] I Hf) as [Hf' _].
    rewrite !app_nil_r in Hf'. cbn [app] in Hf'. by rewrite Hf'.
Qed.

Lemma jtext_object b ms : Forall (member_ok b) ms -> jtext (S b) (obj_text ms) (JObj ms).
Proof.
  intros Hms. destruct (decide (ms = [])) as [->|Hne]; [reflexivity|].
  destruct (jmembers_text b ms [] Hne Hms) as [f Hf]. apply (jtext_any (S f)).
  unfold obj_text. cbn [app jvalue]. rewrite decide_False, decide_True by done.
  destruct ms as [|[k v] ms]; [done|]. rewrite members_text_cons in *. cbn [app] in *.
  rewrite skip_ws_id by done. cbn [head]. rewrite decide_False by done. by rewrite Hf.
Qed.

Lemma elements_text_cons e es :
  elements_text (e :: es) = e ++ match es with [] => [] | _ => [x2c] ++ elements_text es end.
Proof. destruct es as [|e' es]; [|done]. cbn [elements_text]. by rewrite app_nil_r. Qed.

Lemma jelements_text b es r :
  es <> [] -> Forall (fun e => exists n, jtext b e n) es ->
  exists f, jelements f b (elements_text es ++ [x5d] ++ r) = Some (es, r).
Proof.
  intros Hne Hes. induction Hes as [|e es [n Hv] Hes IH]; [done|]. clear Hne.
  assert (exists f, es <> [] -> jelements f b (elements_text es ++ [x5d] ++ r) = Some (es, r)) as [f Hf].
  { destruct es as [|m es]; [by exists O|]. destruct IH as [f Hf]; [done|]. by exists f. }
  clear IH. exists (S (f + json_fuel e))%nat.
  rewrite elements_text_cons, <- !app_assoc. cbn [jelements].
  rewrite (jtext_use _ b b e n) by (done || lia || destruct es; done). cbn [mbind option_bind].
  rewrite before_self. destruct es as [|e' es].
  - cbn [app]. rewrite skip_ws_id by done. by rewrite decide_False, decide_True by done.
  - cbn [app]. rewrite skip_ws_id, decide_True by done.
    specialize (Hf ltac:(done)).
    assert (skip_ws (elements_text (e' :: es) ++ x5d :: r) = elements_text (e' :: es) ++ x5d :: r) as ->.
    { inversion Hes as [|? ? [n' Hn'] _]. rewrite elements_text_cons, <- app_assoc. by eapply jtext_skip_ws. }
    destruct (proj2 (proj2 (jvalue_ext f (f + json_fuel e) b b ltac:(lia) (le_n b))) _ _ _ [] I Hf) as [Hf' _].
    rewrite !app_nil_r in Hf'. cbn [app] in Hf'. by rewrite Hf'.
Qed.

Lemma jtext_array b es : Forall (fun e => exists n, jtext b e n) es -> jtext (S b) (arr_text es) (JArr es).
Proof.
  intros Hes. destruct (decide (es = [])) as [->|Hne]; [reflexivity|].
  destruct (jelements_text b es [] Hne Hes) as [f Hf]. apply (jtext_any (S f)).
  unfold arr_text. cbn [app jvalue]. rewrite !decide_False, decide_True by done.
  assert (skip_ws (elements_text es ++ [x5d]) = elements_text es ++ [x5d] /\ head (elements_text es ++ [x5d]) <> Some x5d) as [-> Hh].
  { destruct es as [|e es]; [done|]. inversion Hes as [|? ? [n Hn] _]. rewrite elements_text_cons, <- app_assoc.
    split; [by eapply jtext_skip_ws|]. unfold jtext in Hn. destruct e as [|c e]; [done|]. cbn. by intros [= ->]. }
  rewrite decide_False by done. cbn [app] in Hf. by rewrite Hf.
Qed.

(** A text stays recognised when more levels may be opened. *)
Lemma jtext_weaken b b' s n : (b <= b')%nat -> jtext b s n -> jtext b' s n.
Proof.
  intros Hb H. unfold jtext. pose proof (jtext_use (json_fuel s) b b' s n [] H (le_n _) Hb I) as E.
  by rewrite app_nil_r in E.
Qed.
