(* ===== verification/StatusJson.v ===== *)
(** The status response on the wire: [decodeStatusResponse] and
    [decodeStatusDescription] of [src/monitor.go] against
    [StatusResponseJSON] of [src/proto/packets.go]. *)
From S2P Require Import Prelude VarInt Wire Packet Config Net Json Packets JsonText.

(** ** The JSON structs of [decodeStatusResponse] *)

Definition set_vname (v : bytes) (s : ServerVersion) := mkServerVersion v (Version_Protocol s).
Definition set_vprotocol (v : Z) (s : ServerVersion) := mkServerVersion (Version_Name s) v.

Definition version_fields : Fields ServerVersion :=
  [(str "name", into Version_Name set_vname dec_string);
   (str "protocol", into Version_Protocol set_vprotocol dec_uint32)].

Definition set_pname (v : bytes) (s : OnlinePlayer) := mkOnlinePlayer v (Player_ID s).
Definition set_pid (v : bytes) (s : OnlinePlayer) := mkOnlinePlayer (Player_Name s) v.

Definition player_fields : Fields OnlinePlayer :=
  [(str "name", into Player_Name set_pname dec_string); (str "id", into Player_ID set_pid dec_string)].

Record rawPlayers := mkRawPlayers { raw_max : Z; raw_online : Z; raw_sample : Slice OnlinePlayer }.

Definition players_fields : Fields rawPlayers :=
  [(str "max", into raw_max (fun v s => mkRawPlayers v (raw_online s) (raw_sample s)) dec_uint32);
   (str "online", into raw_online (fun v s => mkRawPlayers (raw_max s) v (raw_sample s)) dec_uint32);
   (str "sample", into raw_sample (fun v s => mkRawPlayers (raw_max s) (raw_online s) v)
      (dec_slice (mkOnlinePlayer [] []) (dec_struct player_fields)))].

Record rawStatus := mkRawStatus {
  raw_version : ServerVersion;
  raw_players : rawPlayers;
  raw_description : bytes;
  raw_favicon : option bytes;
  raw_forgeData : bytes }.

Definition zero_status : rawStatus :=
  mkRawStatus (mkServerVersion [] 0) (mkRawPlayers 0 0 nil_slice) [] None [].

Definition status_fields : Fields rawStatus :=
  [(str "version", into raw_version
      (fun v s => mkRawStatus v (raw_players s) (raw_description s) (raw_favicon s) (raw_forgeData s))
      (dec_struct version_fields));
   (str "players", into raw_players
      (fun v s => mkRawStatus (raw_version s) v (raw_description s) (raw_favicon s) (raw_forgeData s))
      (dec_struct players_fields));
   (str "description", into raw_description
      (fun v s => mkRawStatus (raw_version s) (raw_players s) v (raw_favicon s) (raw_forgeData s)) dec_raw);
   (str "favicon", into raw_favicon
      (fun v s => mkRawStatus (raw_version s) (raw_players s) (raw_description s) v (raw_forgeData s)) dec_string_ptr);
   (str "forgeData", into raw_forgeData
      (fun v s => mkRawStatus (raw_version s) (raw_players s) (raw_description s) (raw_favicon s) v) dec_raw)].

(** ** Chat components *)

Record component := mkComponent { comp_text : bytes; comp_extra : Slice bytes }.

Definition component_fields : Fields component :=
  [(str "text", into comp_text (fun v c => mkComponent v (comp_extra c)) dec_string);
   (str "extra", into comp_extra (fun v c => mkComponent (comp_text c) v) (dec_slice [] dec_raw))].

(** The text of the children, in order; one that fails fails the whole. *)
Fixpoint cat_children (f : bytes -> option bytes) (l : list bytes) : option bytes :=
  match l with
  | [] => Some []
  | c :: l' => value ← f c; rest ← cat_children f l'; Some (value ++ rest)
  end.

(** [decodeStatusDescription raw depth], with [levels = 17 - depth]: depth 16
    is the last one accepted. *)
Fixpoint decodeStatusDescription (levels : nat) (raw : bytes) : option bytes :=
  match levels with
  | O => None
  | S levels' =>
      if decide (raw = []) then None
      else
        match Unmarshal [] dec_string raw with
        | Some text => Some text
        | None =>
            let parts :=
              match Unmarshal nil_slice (dec_slice [] dec_raw) raw with
              | Some parts => cat_children (decodeStatusDescription levels') (slice_list parts)
              | None => None
              end in
            match Unmarshal (mkComponent [] nil_slice) (dec_struct component_fields) raw with
            | Some c =>
                if bool_decide (comp_text c <> []) || negb (snil (comp_extra c)) || bool_decide (raw = str "{}") then
                  app (comp_text c) <$> cat_children (decodeStatusDescription levels') (slice_list (comp_extra c))
                else parts
            | None => parts
            end
        end
  end.

Definition max_levels : nat := 17.

(** The JSON part of [decodeStatusResponse]. *)
Definition decodeStatusJSON (jsonData : bytes) : option ServerStatus :=
  match Unmarshal zero_status (dec_struct status_fields) jsonData with
  | None => None
  | Some raw =>
      match decodeStatusDescription max_levels (raw_description raw) with
      | None => None
      | Some description =>
          Some {| Version := raw_version raw;
                  Players := mkOnlinePlayers (raw_max (raw_players raw)) (raw_online (raw_players raw))
                               (slice_list (raw_sample (raw_players raw)));
                  Description := description;
                  Favicon := raw_favicon raw;
                  ForgeData := raw_forgeData raw |}
      end
  end.

Definition decodeStatusResponse (data : bytes) : option ServerStatus :=
  match ReadVarInt data with
  | None => None
  | Some (consumed, strLen) =>
      if (strLen <? 0) || (Zlen data <? Z.of_nat consumed + strLen) then None
      else decodeStatusJSON (take (Z.to_nat strLen) (drop consumed data))
  end.

(** ** What the rendered texts are *)

Definition player_members (p : OnlinePlayer) : list (bytes * bytes) :=
  [(str "name", serdeJSONString (Player_Name p)); (str "id", serdeJSONString (Player_ID p))].

Definition version_members (v : ServerVersion) : list (bytes * bytes) :=
  [(str "name", serdeJSONString (Version_Name v)); (str "protocol", itoa (Version_Protocol v))].

Definition players_members (p : OnlinePlayers) : list (bytes * bytes) :=
  [(str "max", itoa (Max p)); (str "online", itoa (Online p));
   (str "sample", arr_text (map player_json (Sample p)))].

Definition forge_members (d : bytes) : list (bytes * bytes) :=
  if bool_decide (d <> []) && Valid d then [(str "forgeData", d)] else [].

Definition status_members (s : ServerStatus) : list (bytes * bytes) :=
  [(str "version", version_json (Version s)); (str "players", players_json (Players s));
   (str "description", serdeJSONString (Description s)); (str "favicon", favicon_json (Favicon s))]
  ++ forge_members (ForgeData s).

(** Both sides as one flat list of literal bytes and opaque texts. *)
Ltac flat_text :=
  unfold q;
  repeat (progress (cbn -[serdeJSONString itoa sample_json arr_text player_json version_json players_json favicon_json];
                    rewrite <- ?app_assoc)).

Lemma player_json_obj p : player_json p = obj_text (player_members p).
Proof. unfold player_json, obj_text, player_members. flat_text. done. Qed.

Lemma version_json_obj v : version_json v = obj_text (version_members v).
Proof. unfold version_json, obj_text, version_members. flat_text. done. Qed.

Lemma sample_json_elements ps : sample_json ps = elements_text (map player_json ps).
Proof.
  induction ps as [|p ps IH]; [done|]. destruct ps as [|p' ps]; [done|].
  change (sample_json (p :: p' :: ps)) with (player_json p ++ str "," ++ sample_json (p' :: ps)). by rewrite IH.
Qed.

Lemma players_json_obj p : players_json p = obj_text (players_members p).
Proof.
  unfold players_json, obj_text, players_members, arr_text. rewrite sample_json_elements.
  generalize (elements_text (map player_json (Sample p))); intros e. flat_text. done.
Qed.

Lemma status_json_obj s : StatusResponseJSON s = obj_text (status_members s).
Proof.
  unfold StatusResponseJSON, obj_text, status_members, forge_members, forge_json.
  destruct (bool_decide _ && _); flat_text; done.
Qed.

(** ** Reading the rendered texts *)

Lemma dec_string_serde cur s : valid_utf8 s = true -> dec_string cur (serdeJSONString s) = Some s.
Proof.
  intros H. unfold dec_string. rewrite (jtext_jparse 0 _ _ (jtext_string s)) by lia. by apply unquote_serde.
Qed.

Lemma dec_string_ptr_serde cur s : valid_utf8 s = true -> dec_string_ptr cur (serdeJSONString s) = Some (Some s).
Proof.
  intros H. unfold dec_string_ptr. rewrite (jtext_jparse 0 _ _ (jtext_string s)) by lia.
  by rewrite unquote_serde.
Qed.

Lemma dec_uint32_itoa cur v : 0 <= v < 2 ^ 32 -> dec_uint32 cur (itoa v) = Some v.
Proof.
  intros H. unfold dec_uint32. rewrite (jtext_jparse 0 _ _ (jtext_number v H)) by lia. by apply uint32_itoa.
Qed.

Lemma dec_members_cons {T} (fs : Fields T) cur k raw ms key d :
  unquote k = Some key -> field_for fs key = Some d ->
  dec_members fs cur ((k, raw) :: ms) = (cur' ← d cur raw; dec_members fs cur' ms).
Proof. intros Hk Hd. cbn [dec_members]. rewrite Hk. cbn [mbind option_bind]. by rewrite Hd. Qed.

Lemma into_Some {T A} (get : T -> A) set (dec : Decoder A) cur raw v :
  dec (get cur) raw = Some v -> into get set dec cur raw = Some (set v cur).
Proof. intros H. unfold into. by rewrite H. Qed.

Lemma dec_struct_obj {T} (fs : Fields T) cur b ms :
  Forall (member_ok b) ms -> (S b <= maxNestingDepth)%nat -> dec_struct fs cur (obj_text ms) = dec_members fs cur ms.
Proof. intros H Hb. unfold dec_struct. by rewrite (jtext_jparse (S b) _ _ (jtext_object b ms H)). Qed.

(** One member of a struct: find the field, decode its text with [tac]. *)
Ltac member tac :=
  erewrite dec_members_cons by reflexivity;
  erewrite into_Some by tac; cbn [mbind option_bind].

Ltac literal_key := intros ?; reflexivity.

Lemma some_depth b : (b <= 3)%nat -> (b <= maxNestingDepth)%nat.
Proof. intros H. transitivity 3%nat; [done|]. apply Nat.leb_le. vm_compute. reflexivity. Qed.

Definition player_ok (p : OnlinePlayer) : Prop :=
  valid_utf8 (Player_Name p) = true /\ valid_utf8 (Player_ID p) = true.

Definition version_ok (v : ServerVersion) : Prop :=
  valid_utf8 (Version_Name v) = true /\ is_uint 32 (Version_Protocol v).

Lemma player_members_ok p : Forall (member_ok 0) (player_members p).
Proof. repeat constructor; try literal_key; eexists; apply jtext_string. Qed.

Lemma version_members_ok v : version_ok v -> Forall (member_ok 0) (version_members v).
Proof.
  intros [_ H]. repeat constructor; try literal_key; eexists; [apply jtext_string|by apply jtext_number].
Qed.

Lemma dec_player cur p : player_ok p -> dec_struct player_fields cur (player_json p) = Some p.
Proof.
  intros [H1 H2]. rewrite player_json_obj, (dec_struct_obj _ _ 0) by (apply player_members_ok || by apply some_depth; lia).
  unfold player_members.
  member ltac:(by apply dec_string_serde). member ltac:(by apply dec_string_serde). by destruct p.
Qed.

Lemma dec_version cur v : version_ok v -> dec_struct version_fields cur (version_json v) = Some v.
Proof.
  intros [H1 H2]. rewrite version_json_obj, (dec_struct_obj _ _ 0) by (by apply version_members_ok || by apply some_depth; lia).
  unfold version_members.
  member ltac:(by apply dec_string_serde). member ltac:(by apply dec_uint32_itoa). by destruct v.
Qed.

Lemma dec_elems_players old ps :
  Forall player_ok ps ->
  dec_elems (mkOnlinePlayer [] []) (dec_struct player_fields) old (map player_json ps) = Some ps.
Proof.
  intros H. revert old. induction H as [|p ps Hp _ IH]; intros old; [done|]. cbn [map dec_elems].
  rewrite dec_player by done. cbn [mbind option_bind]. by rewrite IH.
Qed.

Lemma players_array_ok ps : Forall (fun e => exists n, jtext 1 e n) (map player_json ps).
Proof.
  apply Forall_map, Forall_forall. intros p _. rewrite player_json_obj. eexists.
  apply jtext_object, player_members_ok.
Qed.

Definition players_ok (p : OnlinePlayers) : Prop :=
  is_uint 32 (Max p) /\ is_uint 32 (Online p) /\ Forall player_ok (Sample p).

Lemma players_members_ok p : players_ok p -> Forall (member_ok 2) (players_members p).
Proof.
  intros (H1 & H2 & _). repeat constructor; try literal_key; eexists.
  - apply (jtext_weaken 0); [lia|]. by apply jtext_number.
  - apply (jtext_weaken 0); [lia|]. by apply jtext_number.
  - apply jtext_array, players_array_ok.
Qed.

Lemma dec_sample cur ps :
  Forall player_ok ps -> backing cur = [] ->
  exists s, dec_slice (mkOnlinePlayer [] []) (dec_struct player_fields) cur (arr_text (map player_json ps)) = Some s
    /\ slice_list s = ps.
Proof.
  intros H Hcur. unfold dec_slice.
  rewrite (jtext_jparse 2 _ _ (jtext_array 1 _ (players_array_ok ps))) by (by apply some_depth; lia).
  destruct (map player_json ps) as [|e es] eqn:E.
  { destruct ps; [|done]. by eexists. }
  rewrite <- E, dec_elems_players, Hcur by done. cbn [mbind option_bind]. eexists. split; [done|].
  unfold slice_list. cbn [slen backing]. rewrite drop_nil, app_nil_r. apply firstn_all.
Qed.

(** ** The whole response *)

Definition forge_ok (d : bytes) : Prop := d = [] \/ exists n, jtext (pred maxNestingDepth) d n.

Definition status_ok (s : ServerStatus) : Prop :=
  version_ok (Version s) /\ players_ok (Players s) /\ valid_utf8 (Description s) = true
  /\ (forall f, Favicon s = Some f -> valid_utf8 f = true) /\ forge_ok (ForgeData s).

Lemma forge_members_ok d :
  forge_ok d -> Forall (member_ok (pred maxNestingDepth)) (forge_members d)
    /\ ((d = [] /\ forge_members d = []) \/ forge_members d = [(str "forgeData", d)]).
Proof.
  unfold forge_members. intros [->|[n Hn]]; [split; [constructor|by left]|].
  rewrite bool_decide_true by (by intros ->). unfold Valid.
  rewrite (jtext_jparse _ d n Hn) by lia. cbn [andb]. split; [|by right].
  apply Forall_singleton. split; [literal_key|by exists n].
Qed.

Lemma deep_enough b : (b <= 3)%nat -> (b <= pred maxNestingDepth)%nat.
Proof. intros H. transitivity 3%nat; [done|]. apply Nat.leb_le. vm_compute. reflexivity. Qed.

Lemma status_members_ok s : status_ok s -> Forall (member_ok (pred maxNestingDepth)) (status_members s).
Proof.
  intros (Hv & Hp & _ & _ & Hg). unfold status_members. apply Forall_app.
  split; [|by apply forge_members_ok].
  repeat constructor; try literal_key.
  - eexists. cbn [snd]. rewrite version_json_obj. eapply jtext_weaken; [|by apply jtext_object, version_members_ok].
    by apply deep_enough; lia.
  - eexists. cbn [snd]. rewrite players_json_obj. eapply jtext_weaken; [|by apply jtext_object, players_members_ok].
    by apply deep_enough; lia.
  - eexists. cbn [snd]. eapply jtext_weaken; [|apply jtext_string]. lia.
  - cbn [snd]. destruct (Favicon s); eexists; (eapply jtext_weaken; [|first [apply jtext_string | apply jtext_null]]); lia.
Qed.

Lemma dec_players cur p :
  players_ok p -> backing (raw_sample cur) = [] ->
  exists r, dec_struct players_fields cur (players_json p) = Some r
    /\ raw_max r = Max p /\ raw_online r = Online p /\ slice_list (raw_sample r) = Sample p.
Proof.
  intros Hp Hb. rewrite players_json_obj, (dec_struct_obj _ _ 2) by (by apply players_members_ok || by apply some_depth; lia).
  destruct Hp as (H1 & H2 & H3). unfold players_members.
  member ltac:(by apply dec_uint32_itoa). member ltac:(by apply dec_uint32_itoa).
  destruct (dec_sample (raw_sample cur) (Sample p) H3 Hb) as (sl & Hsl & Hl).
  member ltac:(exact Hsl). eexists. split; [done|]. done.
Qed.

Lemma dec_favicon cur f :
  (forall s, f = Some s -> valid_utf8 s = true) -> dec_string_ptr cur (favicon_json f) = Some f.
Proof. destruct f as [s|]; intros H; [by apply dec_string_ptr_serde, H|reflexivity]. Qed.

Lemma description_text k d : valid_utf8 d = true -> decodeStatusDescription (S k) (serdeJSONString d) = Some d.
Proof.
  intros H. cbn [decodeStatusDescription]. rewrite decide_False by done.
  rewrite (jtext_Unmarshal _ _ 0 _ _ (jtext_string d)) by lia. by rewrite dec_string_serde.
Qed.

Lemma description_max d : valid_utf8 d = true -> decodeStatusDescription max_levels (serdeJSONString d) = Some d.
Proof. exact (description_text 16 d). Qed.

#[local] Opaque max_levels maxNestingDepth.

Lemma depth_pos : S (pred maxNestingDepth) = maxNestingDepth.
Proof. apply Nat.succ_pred. pose proof (some_depth 1 ltac:(lia)). lia. Qed.

Lemma jtext_status s :
  status_ok s -> jtext maxNestingDepth (StatusResponseJSON s) (JObj (status_members s)).
Proof.
  intros Hs. rewrite status_json_obj, <- depth_pos. by apply jtext_object, status_members_ok.
Qed.

Lemma dec_status s :
  status_ok s ->
  exists r, dec_struct status_fields zero_status (StatusResponseJSON s) = Some r
    /\ raw_version r = Version s /\ raw_description r = serdeJSONString (Description s)
    /\ raw_favicon r = Favicon s /\ raw_forgeData r = ForgeData s
    /\ raw_max (raw_players r) = Max (Players s) /\ raw_online (raw_players r) = Online (Players s)
    /\ slice_list (raw_sample (raw_players r)) = Sample (Players s).
Proof.
  intros Hs. rewrite status_json_obj, (dec_struct_obj _ _ (pred maxNestingDepth));
    [|by apply status_members_ok|by rewrite depth_pos].
  destruct Hs as (Hv & Hp & Hd & Hf & Hg). unfold status_members. cbn [app].
  member ltac:(by apply dec_version).
  destruct (dec_players (raw_players zero_status) (Players s) Hp eq_refl) as (rp & Hrp & Hm & Ho & Hsl).
  member ltac:(exact Hrp). member ltac:(reflexivity). member ltac:(by apply dec_favicon).
  destruct (proj2 (forge_members_ok _ Hg)) as [[E ->]| ->].
  - eexists. split; [done|]. cbn. by rewrite E.
  - member ltac:(reflexivity). eexists. split; [done|]. done.
Qed.

#[local] Opaque EncodeVarInt ReadVarInt.

Lemma decodeStatusResponse_StringBytes j :
  Zlen j < 2 ^ 31 -> decodeStatusResponse (StringBytes j) = decodeStatusJSON j.
Proof.
  intros Hl. unfold decodeStatusResponse, StringBytes.
  assert (is_i32 (Zlen j)) as Hi by (unfold is_sint, Zlen in *; zpow; lia).
  rewrite sintw_id, ReadVarInt_EncodeVarInt_app, drop_app_length by done.
  rewrite (proj2 (Z.ltb_ge (Zlen j) 0)) by (unfold Zlen; lia).
  rewrite (proj2 (Z.ltb_ge _ _)) by (unfold Zlen; rewrite length_app; lia). cbn [orb].
  unfold Zlen. by rewrite Nat2Z.id, firstn_all.
Qed.

Lemma decodeStatusJSON_render s : status_ok s -> decodeStatusJSON (StatusResponseJSON s) = Some s.
Proof.
  intros Hs. unfold decodeStatusJSON.
  rewrite (jtext_Unmarshal _ _ _ _ _ (jtext_status s Hs)) by lia.
  destruct (dec_status s Hs) as (r & Er & E1 & E2 & E3 & E4 & E5 & E6 & E7). rewrite Er.
  destruct Hs as (_ & _ & Hd & _). rewrite E2, description_max by done.
  rewrite E1, E3, E4, E5, E6, E7. by destruct s as [? [] ? ? ?].
Qed.

(** The status the gateway announces is the status a peer reads. For every
    status whose texts are UTF-8, whose numbers are 32-bit and whose Forge
    metadata is absent or a JSON value, the rendered response, sent as a
    length-prefixed string, decodes to the same status: version, player
    counts, player sample, description, favicon, and the Forge metadata byte
    for byte. *)
Lemma status_response_roundtrip (s : ServerStatus) :
  status_ok s -> Zlen (StatusResponseJSON s) < 2 ^ 31 ->
  decodeStatusResponse (StringBytes (StatusResponseJSON s)) = Some s.
Proof.
  intros Hs Hl. rewrite decodeStatusResponse_StringBytes by done. by apply decodeStatusJSON_render.
Qed.

Definition sample_status : ServerStatus := {|
  Version := mkServerVersion (str "1.20.1") 763;
  Players := mkOnlinePlayers 20 1 [mkOnlinePlayer (str "Steve") (str "8667ba71-b85a-4004-af54-457a9734eed7")];
  Description := str "§2Hello" ++ [x0a; x22; x5c] ++ str "world";
  Favicon := None;
  ForgeData := str "{}" |}.

Lemma status_response_roundtrip_witness :
  decodeStatusResponse (StringBytes (StatusResponseJSON sample_status)) = Some sample_status.
Proof.
  apply (status_response_roundtrip sample_status); [|vm_compute; reflexivity].
  repeat split; try (vm_compute; congruence); [repeat constructor|].
  right. exists (JObj []). apply (jtext_weaken 1); [|reflexivity]. by apply deep_enough; lia.
Defined.
