(* ===== verification/Access.v ===== *)
(** Who may connect: banned IPs ([src/mc/ban.go]) and the whitelist
    ([src/mc/whitelist.go]). Times are nanoseconds since the Unix epoch.

    [time.ParseInLocation] is modelled for the one layout the code uses,
    "2006-01-02 15:04:05 -0700". *)
From stdpp Require Import gmap.
From S2P Require Import Prelude Packet Config Net Json.

#[export] Instance byte_countable : Countable byte.
Proof.
  apply (inj_countable Byte.to_N Byte.of_N). intros b. apply Byte.of_to_N.
Defined.

(** ** Parsing an expiry time *)

Definition take_digit (s : bytes) : option (Z * bytes) :=
  match s with
  | b :: s' => if is_digit b then Some (b2z b - 0x30, s') else None
  | [] => None
  end.

(** [getnum]: two digits, or one when [fixed] is false. *)
Definition getnum (fixed : bool) (s : bytes) : option (Z * bytes) :=
  '(d1, s1) ← take_digit s;
  match take_digit s1 with
  | Some (d2, s2) => Some (d1 * 10 + d2, s2)
  | None => if fixed then None else Some (d1, s1)
  end.

Fixpoint cutspace (s : bytes) : bytes :=
  match s with
  | b :: s' => if decide (b = x20) then cutspace s' else s
  | [] => []
  end.

(** [skip] of one literal byte, and of a space (any number of spaces). *)
Definition skip_byte (c : byte) (s : bytes) : option bytes :=
  match s with
  | b :: s' => if decide (b = c) then Some s' else None
  | [] => None
  end.

Definition skip_space (s : bytes) : option bytes :=
  match s with
  | b :: _ => if decide (b = x20) then Some (cutspace s) else None
  | [] => Some []
  end.

(** A fraction of a second after the seconds, accepted though the layout has
    none; at most nine digits count. *)
Fixpoint digits_prefix (s : bytes) : bytes :=
  match s with
  | b :: s' => if is_digit b then b :: digits_prefix s' else []
  | [] => []
  end.

Definition fraction (s : bytes) : Z * bytes :=
  match s with
  | b :: s' =>
      if decide (b = x2e \/ b = x2c) then
        match digits_prefix s' with
        | [] => (0, s)
        | ds =>
            let ds9 := take 9 ds in
            (default 0 (parse_digits 0 ds9) * 10 ^ (9 - Zlen ds9), drop (length ds) s')
        end
      else (0, s)
  | [] => (0, s)
  end.

Definition is_leap (y : Z) : bool :=
  (y mod 4 =? 0) && (negb (y mod 100 =? 0) || (y mod 400 =? 0)).

Definition daysIn (m y : Z) : Z :=
  if m =? 2 then (if is_leap y then 29 else 28)
  else if (m =? 4) || (m =? 6) || (m =? 9) || (m =? 11) then 30 else 31.

(** Days since 1970-01-01 of a date of the proleptic Gregorian calendar. *)
Definition days_from_civil (y m d : Z) : Z :=
  let y' := if m <=? 2 then y - 1 else y in
  let era := y' / 400 in
  let yoe := y' - era * 400 in
  let doy := (153 * (if 2 <? m then m - 3 else m + 9) + 2) / 5 + d - 1 in
  let doe := yoe * 365 + yoe / 4 - yoe / 100 + doy in
  era * 146097 + doe - 719468.

Definition guard (b : bool) : option unit := if b then Some tt else None.

(** [time.ParseInLocation("2006-01-02 15:04:05 -0700", value, time.Local)] *)
Definition ParseExpiry (value : bytes) : option Z :=
  '(y1, s) ← getnum true value;
  '(y2, s) ← getnum true s;
  let year := y1 * 100 + y2 in
  s ← skip_byte x2d s;
  '(month, s) ← getnum true s;
  _ ← guard ((1 <=? month) && (month <=? 12));
  s ← skip_byte x2d s;
  '(day, s) ← getnum true s;
  s ← skip_space s;
  '(hour, s) ← getnum false s;
  _ ← guard (hour <? 24);
  s ← skip_byte x3a s;
  '(minute, s) ← getnum true s;
  _ ← guard (minute <? 60);
  s ← skip_byte x3a s;
  '(sec, s) ← getnum true s;
  _ ← guard (sec <? 60);
  let (nsec, s) := fraction s in
  s ← skip_space s;
  '(sign, s) ← match s with
               | b :: s' => if decide (b = x2b) then Some (1, s') else if decide (b = x2d) then Some (-1, s') else None
               | [] => None
               end;
  '(hr, s) ← getnum true s;
  '(mm, s) ← getnum true s;
  _ ← guard ((hr <=? 24) && (mm <=? 60));
  _ ← guard (bool_decide (s = []));
  _ ← guard ((1 <=? day) && (day <=? daysIn month year));
  Some ((days_from_civil year month day * 86400 + hour * 3600 + minute * 60 + sec
         - sign * ((hr * 60 + mm) * 60)) * 10 ^ 9 + nsec).

(** ** Trimming *)

(** The UTF-8 encodings of the Unicode white space that [strings.TrimSpace]
    removes. *)
Definition white_space : list bytes :=
  [[x09]; [x0a]; [x0b]; [x0c]; [x0d]; [x20]; [xc2; x85]; [xc2; xa0]; [xe1; x9a; x80]]
  ++ (map (fun b => [xe2; x80; b]) [x80; x81; x82; x83; x84; x85; x86; x87; x88; x89; x8a; xa8; xa9; xaf])
  ++ [[xe2; x81; x9f]; [xe3; x80; x80]].

Fixpoint strip_one (pats : list bytes) (s : bytes) : option bytes :=
  match pats with
  | [] => None
  | p :: pats' => if decide (take (length p) s = p) then Some (drop (length p) s) else strip_one pats' s
  end.

Fixpoint strip (fuel : nat) (pats : list bytes) (s : bytes) : bytes :=
  match fuel with
  | O => s
  | S fuel' => match strip_one pats s with Some s' => strip fuel' pats s' | None => s end
  end.

Definition TrimSpace (s : bytes) : bytes :=
  let s := strip (length s) white_space s in
  rev (strip (length s) (map (@rev byte) white_space) (rev s)).

(** ** Banned IPs *)

Definition expiryForever : bytes := str "forever".
Definition DefaultBanReason : bytes := str "Banned by an operator.".

Record BannedIp := mkBannedIp {
  Ban_IP : bytes;
  Ban_Created : option bytes;
  Ban_Source : option bytes;
  Ban_Expires : option bytes;
  Ban_Reason : option bytes }.

(** [expiry]: [Some None] is forever, [None] a value that does not parse. *)
Definition expiry (b : BannedIp) : option (option Z) :=
  match Ban_Expires b with
  | None => Some None
  | Some e =>
      if decide (ToLower (TrimSpace e) = expiryForever) then Some None
      else match ParseExpiry e with
           | None => None
           | Some t => Some (Some t)
           end
  end.

(** [BannedIp.IsBanned] at time [now] *)
Definition entry_IsBanned (now : Z) (b : BannedIp) : bool :=
  match expiry b with
  | None => true
  | Some (Some t) => now <? t
  | Some None => true
  end.

Definition BannedIps := gmap bytes BannedIp.

Definition NewBannedIps : BannedIps := ∅.

(** [BannedIps.Get] and [BannedIps.IsBanned] *)
Definition Ban_Get (b : BannedIps) (ip : IP) : option BannedIp := b !! IP_String ip.

Definition Ban_IsBanned (now : Z) (b : BannedIps) (ip : IP) : bool :=
  match b !! IP_String ip with
  | None => false
  | Some e => entry_IsBanned now e
  end.

(** The map [LoadBannedIps] builds from the decoded entries: later entries
    replace earlier ones with the same text. *)
Definition ban_map (ips : list BannedIp) : BannedIps :=
  foldl (fun out ip => <[Ban_IP ip := ip]> out) NewBannedIps ips.

(** ** Whitelist *)

Record Whitelist := mkWhitelist { whitelist : list bytes; ops : list bytes }.

Fixpoint mem_string (u : bytes) (l : list bytes) : bool :=
  match l with
  | [] => false
  | x :: l' => if decide (x = u) then true else mem_string u l'
  end.

Definition wl_IsWhitelisted (w : Whitelist) (username : bytes) : bool :=
  if mem_string username (whitelist w) then true else mem_string username (ops w).

(** ** Loading the files

    The arguments are the files' contents: [None] is a file that does not
    exist or is not a regular file (for the whitelist and the operators), and
    the results are [None] when the JSON does not decode. *)

Definition ban_fields : Fields BannedIp :=
  [(str "ip", into Ban_IP (fun v b => mkBannedIp v (Ban_Created b) (Ban_Source b) (Ban_Expires b) (Ban_Reason b)) dec_string);
   (str "created", into Ban_Created (fun v b => mkBannedIp (Ban_IP b) v (Ban_Source b) (Ban_Expires b) (Ban_Reason b)) dec_string_ptr);
   (str "source", into Ban_Source (fun v b => mkBannedIp (Ban_IP b) (Ban_Created b) v (Ban_Expires b) (Ban_Reason b)) dec_string_ptr);
   (str "expires", into Ban_Expires (fun v b => mkBannedIp (Ban_IP b) (Ban_Created b) (Ban_Source b) v (Ban_Reason b)) dec_string_ptr);
   (str "reason", into Ban_Reason (fun v b => mkBannedIp (Ban_IP b) (Ban_Created b) (Ban_Source b) (Ban_Expires b) v) dec_string_ptr)].

Definition zero_ban : BannedIp := mkBannedIp [] None None None None.

Definition LoadBannedIps (contents : bytes) : option BannedIps :=
  ips ← Unmarshal nil_slice (dec_slice zero_ban (dec_struct ban_fields)) contents;
  Some (ban_map (slice_list ips)).

Record whitelistUser := mkWhitelistUser { wu_Username : bytes; wu_UUID : option bytes }.

Definition whitelist_fields : Fields whitelistUser :=
  [(str "name", into wu_Username (fun v u => mkWhitelistUser v (wu_UUID u)) dec_string);
   (str "uuid", into wu_UUID (fun v u => mkWhitelistUser (wu_Username u) v) dec_string_ptr)].

Definition loadWhitelist (contents : bytes) : option (list bytes) :=
  users ← Unmarshal nil_slice (dec_slice (mkWhitelistUser [] None) (dec_struct whitelist_fields)) contents;
  Some (map wu_Username (slice_list users)).

Record opUser := mkOpUser {
  op_Username : bytes;
  op_UUID : option bytes;
  op_Level : option Z;
  op_Bypasses : option bool }.

Definition op_fields : Fields opUser :=
  [(str "name", into op_Username (fun v u => mkOpUser v (op_UUID u) (op_Level u) (op_Bypasses u)) dec_string);
   (str "uuid", into op_UUID (fun v u => mkOpUser (op_Username u) v (op_Level u) (op_Bypasses u)) dec_string_ptr);
   (str "level", into op_Level (fun v u => mkOpUser (op_Username u) (op_UUID u) v (op_Bypasses u)) dec_uint32_ptr);
   (str "bypassesPlayerLimit",
     into op_Bypasses (fun v u => mkOpUser (op_Username u) (op_UUID u) (op_Level u) v) dec_bool_ptr)].

Definition loadOps (contents : bytes) : option (list bytes) :=
  users ← Unmarshal nil_slice (dec_slice (mkOpUser [] None None None) (dec_struct op_fields)) contents;
  Some (map op_Username (slice_list users)).

Definition LoadWhitelistDir (whitelistFile opsFile : option bytes) : option Whitelist :=
  wl ← match whitelistFile with Some c => loadWhitelist c | None => Some [] end;
  ops ← match opsFile with Some c => loadOps c | None => Some [] end;
  Some (mkWhitelist wl ops).

(** ** Lemmas *)

Lemma mem_string_spec u l : mem_string u l = true <-> u ∈ l.
Proof.
  induction l as [|x l IH]; simpl; [by rewrite elem_of_nil|].
  rewrite elem_of_cons. case_decide as E; [by split; [auto|]|]. rewrite IH. split; [auto|by intros [->|]].
Qed.

Lemma ban_map_foldl (ips : list BannedIp) (m : BannedIps) (k : bytes) :
  foldl (fun out ip => <[Ban_IP ip := ip]> out) m ips !! k
  = match last (filter (fun ip => Ban_IP ip = k) ips) with Some e => Some e | None => m !! k end.
Proof.
  revert m. induction ips as [|ip ips IH] using rev_ind; intros m; [done|].
  rewrite foldl_app, filter_app, filter_cons, filter_nil. cbn [foldl].
  case_decide as E.
  - rewrite last_snoc, E. apply lookup_insert_eq.
  - rewrite app_nil_r, <- IH. by apply lookup_insert_ne.
Qed.

Lemma ban_map_lookup ips k : ban_map ips !! k = last (filter (fun ip => Ban_IP ip = k) ips).
Proof. unfold ban_map. rewrite ban_map_foldl. case_match; [done|]. apply lookup_empty. Qed.

(** ** Properties *)

Example expiry_a : ParseExpiry (str "2024-05-06 07:08:09 +0200") = Some (1714972089 * 10 ^ 9).
Proof. vm_compute. reflexivity. Qed.

Example expiry_b : ParseExpiry (str "2023-02-29 00:00:00 +0000") = None.
Proof. vm_compute. reflexivity. Qed.

(** Who is banned. An IPv4 peer is banned exactly when the last entry of
    the ban list for its dotted text is still in force: it has no expiry, the
    expiry "forever", one that cannot be read, or one in the future. *)
Lemma ipv4_ban_spec (ips : list BannedIp) (a b c d : byte) (now : Z) :
  Ban_IsBanned now (ban_map ips) (ParseIP (v4_String [a; b; c; d])) = true
  <-> exists e, last (filter (fun ip => Ban_IP ip = v4_String [a; b; c; d]) ips) = Some e
        /\ (forall t, expiry e = Some (Some t) -> now < t).
Proof.
  rewrite ParseIP_v4_String. unfold Ban_IsBanned. rewrite IP_String_IPv4, ban_map_lookup.
  destruct (last _) as [e|]; [|split; [done|by intros (? & ? & _)]].
  unfold entry_IsBanned. destruct (expiry e) as [[t|]|] eqn:E.
  - rewrite Z.ltb_lt. split; [intros Ht; exists e; split; [done|congruence]|].
    intros (e' & [= <-] & H). by apply H.
  - split; [intros _; exists e; split; [done|congruence]|done].
  - split; [intros _; exists e; split; [done|congruence]|done].
Qed.

(** An IPv6 ban is not found when the ban file spells the address in
    another way than Go's canonical text. The Minecraft server writes the
    uncompressed form, so such a ban never applies. *)
Lemma ipv6_ban_not_matched (now : Z) (created source expires reason : option bytes) :
  Ban_IsBanned now
    (ban_map [mkBannedIp (str "2001:db8:0:0:0:0:0:1") created source expires reason])
    (ParseIP (str "2001:db8:0:0:0:0:0:1")) = false.
Proof.
  unfold Ban_IsBanned. rewrite ban_map_lookup, filter_cons, decide_False; [done|].
  vm_compute. discriminate.
Qed.

(** A user is whitelisted exactly when listed in whitelist.json or among
    the operators. *)
Lemma whitelist_spec (w : Whitelist) (u : bytes) :
  wl_IsWhitelisted w u = true <-> u ∈ whitelist w \/ u ∈ ops w.
Proof.
  unfold wl_IsWhitelisted. rewrite <- !mem_string_spec.
  destruct (mem_string u (whitelist w)); naive_solver.
Qed.
