(* ===== verification/Snbt.v ===== *)
(** The text form of NBT: the SNBT parser of [src/nbt/nbt.go] and the lobby
    dimensions of [src/mc/dimension.go] that are built with it.

    The parser's position is the unread text; [SnbtParser] has the parser with
    the position as it is in the code, and shows that the two agree.
    [parseValue] and the loops it calls are mutually recursive; the fuel of
    [ParseSNBT] is always enough ([ParseSNBT_settled]). [strconv.ParseFloat] is
    written out with correct rounding. *)
From S2P Require Import Prelude Config Access GoFloat Nbt.

(** ** strconv *)

(** [strconv.ParseInt(s, 10, bits)] *)
Definition ParseInt (bits : Z) (s : bytes) : option Z :=
  let (neg, body) :=
    match s with
    | b :: s' => if decide (b = x2b) then (false, s') else if decide (b = x2d) then (true, s') else (false, s)
    | [] => (false, [])
    end in
  match body with
  | [] => None
  | _ =>
      v ← parse_digits 0 body;
      if neg : bool then if v <=? 2 ^ (bits - 1) then Some (- v) else None
      else if v <? 2 ^ (bits - 1) then Some v else None
  end.

Definition lower (b : byte) : Z := Z.lor (b2z b) 0x20.

Definition digit_val (hex : bool) (b : byte) : option Z :=
  if is_digit b then Some (b2z b - 0x30)
  else if hex && (0x61 <=? lower b) && (lower b <=? 0x66) then Some (lower b - 0x61 + 10)
  else None.

(** The digits of the mantissa: its value, how many digits followed the point,
    whether a digit and whether an underscore was seen, and the rest. *)
Fixpoint mantissa (hex sawdot sawdigits us : bool) (m frac : Z) (s : bytes) : Z * Z * bool * bool * bytes :=
  match s with
  | [] => (m, frac, sawdigits, us, [])
  | b :: s' =>
      if decide (b = x5f) then mantissa hex sawdot sawdigits true m frac s'
      else if decide (b = x2e) then
        if sawdot then (m, frac, sawdigits, us, s) else mantissa hex true sawdigits us m frac s'
      else
        match digit_val hex b with
        | Some d => mantissa hex sawdot true us (m * (if hex then 16 else 10) + d) (if sawdot then frac + 1 else frac) s'
        | None => (m, frac, sawdigits, us, s)
        end
  end.

Fixpoint exp_digits (e : Z) (us : bool) (s : bytes) : Z * bool * bytes :=
  match s with
  | [] => (e, us, [])
  | b :: s' =>
      if decide (b = x5f) then exp_digits e true s'
      else if is_digit b then exp_digits (if e <? 10000 then e * 10 + (b2z b - 0x30) else e) us s'
      else (e, us, s)
  end.

(** [underscoreOK]: an underscore stands between digits, or after the base
    prefix. [saw] is the kind of the previous character: a digit ([x30]), an
    underscore ([x5f]), or something else. *)
Fixpoint underscores_ok (hex : bool) (saw : byte) (s : bytes) : bool :=
  match s with
  | [] => negb (bool_decide (saw = x5f))
  | b :: s' =>
      if bool_decide (is_Some (digit_val hex b)) then underscores_ok hex x30 s'
      else if decide (b = x5f) then if decide (saw = x30) then underscores_ok hex x5f s' else false
      else if decide (saw = x5f) then false
      else underscores_ok hex x21 s'
  end.

(** The [float64] nearest to [n / d], ties to even; [None] on overflow. *)
Definition round64 (n d : Z) : option Z :=
  if n =? 0 then Some 0
  else
    let quot e := if 0 <=? e then n / (d * 2 ^ e) else n * 2 ^ (- e) / d in
    let e := Z.log2 n - Z.log2 d - 52 in
    let e := if quot e <? 2 ^ 52 then e - 1 else e in
    let e := Z.max e (-1074) in
    let num := if 0 <=? e then n else n * 2 ^ (- e) in
    let den := if 0 <=? e then d * 2 ^ e else d in
    let q := num / den in
    let r := num mod den in
    let q := if (den <? 2 * r) || ((den =? 2 * r) && (q mod 2 =? 1)) then q + 1 else q in
    let bits := (e + 1074) * 2 ^ 52 + q in
    if bits <? 2047 * 2 ^ 52 then Some bits else None.

(** [strconv.ParseFloat(s, 64)] on a text with a point or an exponent (so not
    an infinity or a NaN); the bits of the result. *)
Definition ParseFloat (s : bytes) : option Z :=
  let (neg, body) :=
    match s with
    | b :: s' => if decide (b = x2b) then (false, s') else if decide (b = x2d) then (true, s') else (false, s)
    | [] => (false, [])
    end in
  let (hex, digits) :=
    match body with
    | z :: x :: (_ :: _) as t => if bool_decide (z = x30) && (lower x =? 0x78) then (true, drop 2 body) else (false, body)
    | _ => (false, body)
    end in
  let '(m, frac, sawdigits, us, tl) := mantissa hex false false false 0 0 digits in
  if negb sawdigits then None
  else
    '(e, us, tl) ←
      match tl with
      | b :: tl' =>
          if lower b =? (if hex : bool then 0x70 else 0x65) then
            let (esign, tl') :=
              match tl' with
              | c :: tl'' => if decide (c = x2b) then (1, tl'') else if decide (c = x2d) then (-1, tl'') else (1, tl')
              | [] => (1, [])
              end in
            match tl' with
            | c :: _ => if is_digit c then let '(e, us, tl'') := exp_digits 0 us tl' in Some (esign * e, us, tl'') else None
            | [] => None
            end
          else if hex : bool then None else Some (0, us, tl)
      | [] => if hex : bool then None else Some (0, us, tl)
      end;
    if us && negb (underscores_ok hex (if hex : bool then x30 else x2e) digits) then None
    else
      match tl with
      | _ :: _ => None
      | [] =>
          let p := if hex : bool then e - 4 * frac else e - frac in
          let b := if hex : bool then 2 else 10 in
          bits ← round64 (if 0 <=? p then m * b ^ p else m) (if 0 <=? p then 1 else b ^ (- p));
          Some (if neg : bool then 2 ^ 63 + bits else bits)
      end.

(** ** The parser *)

Definition is_blank (b : byte) : bool := bool_decide (b = x20 \/ b = x09 \/ b = x0a \/ b = x0d).

Fixpoint skipWs (s : bytes) : bytes :=
  match s with
  | b :: s' => if is_blank b then skipWs s' else s
  | [] => []
  end.

Definition peek (s : bytes) : byte := default x00 (head s).

(** [p.pos++] *)
Definition bump (s : bytes) : bytes := drop 1 s.

(** The text up to the first character in [stop], and the rest. *)
Fixpoint span_until (stop : byte -> bool) (s : bytes) : bytes * bytes :=
  match s with
  | [] => ([], [])
  | b :: s' => if stop b then ([], s) else let (w, r) := span_until stop s' in (b :: w, r)
  end.

Definition escape (e : byte) : byte :=
  match e with
  | x6e => x0a | x74 => x09 | x72 => x0d | x62 => x08 | x66 => x0c
  | _ => e
  end.

(** After the opening quote. *)
Fixpoint quoted (quote : byte) (s : bytes) : option (bytes * bytes) :=
  match s with
  | [] => None
  | ch :: s' =>
      if decide (ch = x5c) then
        match s' with
        | [] => None
        | esc :: s'' => '(w, r) ← quoted quote s''; Some (escape esc :: w, r)
        end
      else if decide (ch = quote) then Some ([], s')
      else '(w, r) ← quoted quote s'; Some (ch :: w, r)
  end.

Definition parseQuotedString (s : bytes) : option (bytes * bytes) := quoted (peek s) (bump s).

Definition is_quote (b : byte) : bool := bool_decide (b = x22 \/ b = x27).

Definition isFloatBody (body : bytes) : bool := existsb (fun b => bool_decide (b = x2e \/ b = x65 \/ b = x45)) body.

Definition suffixes : bytes := str "bBsSlLfFdD".

(** The tag of a number with a suffix. *)
Definition number_tag (suffix : byte) (body : bytes) : option Tag :=
  if isFloatBody body then
    f ← ParseFloat body;
    match suffix with
    | x66 | x46 => Some (TFloat f)
    | x64 | x44 | x00 => Some (TDouble f)
    | _ => None
    end
  else
    iv ← ParseInt 64 body;
    match suffix with
    | x62 | x42 => Some (TByte iv)
    | x73 | x53 => Some (TShort iv)
    | x6c | x4c => Some (TLong iv)
    | x00 => if (-2147483648 <=? iv) && (iv <=? 2147483647) then Some (TInt iv) else Some (TLong iv)
    | _ => None
    end.

(** The tag of a scalar's text. *)
Definition scalar_tag (raw : bytes) : option Tag :=
  if decide (raw = str "true") then Some (TByte 1)
  else if decide (raw = str "false") then Some (TByte 0)
  else
    let l := default x00 (last raw) in
    let (suffix, body) := if bool_decide (l ∈ suffixes) then (l, take (length raw - 1) raw) else (x00, raw) in
    number_tag suffix body.

Definition parseScalar (s : bytes) : option (Tag * bytes) :=
  let (raw, r) := span_until (fun b => bool_decide (b = x2c \/ b = x7d \/ b = x5d) || is_blank b) s in
  match raw with
  | [] => None
  | _ => t ← scalar_tag raw; Some (t, r)
  end.

(** The key of a compound entry. *)
Definition parseKey (s : bytes) : option (bytes * bytes) :=
  if is_quote (peek s) then parseQuotedString s
  else
    let (raw, r) := span_until (fun b => bool_decide (b = x3a \/ b = x2c \/ b = x7d)) s in
    match raw with
    | [] => None
    | _ => Some (TrimSpace raw, r)
    end.

Definition TrimSuffix1 (c : byte) (s : bytes) : bytes := if bool_decide (last s = Some c) then take (length s - 1) s else s.

(** The elements of a typed array; [elem] is the conversion of one element. *)
Fixpoint array_elems {A} (fuel : nat) (elem : bytes -> option A) (s : bytes) : Out (list A * bytes) :=
  match fuel with
  | O => NoFuel
  | S fuel' =>
      let (raw, r) := span_until (fun b => bool_decide (b = x2c \/ b = x5d)) (skipWs s) in
      match elem (TrimSpace raw) with
      | None => Bad
      | Some v =>
          let r := skipWs r in
          if decide (peek r = x2c) then
            match array_elems fuel' elem (bump r) with
            | Ret (l, r) => Ret (v :: l, r)
            | Bad => Bad | Panic => Panic | NoFuel => NoFuel
            end
          else if decide (peek r = x5d) then Ret ([v], bump r)
          else Bad
      end
  end.

Definition array_of {A} (elem : bytes -> option A) (mk : list A -> Tag) (s : bytes) : Out (Tag * bytes) :=
  let s := skipWs s in
  if decide (peek s = x5d) then Ret (mk [], bump s)
  else
    match array_elems (S (length s)) elem s with
    | Ret (l, r) => Ret (mk l, r)
    | Bad => Bad | Panic => Panic | NoFuel => NoFuel
    end.

(** The typed array at the front, if there is one. *)
Definition parseArray (s : bytes) : option (Out (Tag * bytes)) :=
  match s with
  | ty :: x3b :: s' =>
      match ty with
      | x42 => Some (array_of (fun raw => z2b <$> ParseInt 8 (TrimSuffix1 x62 raw)) TByteArray s')
      | x49 => Some (array_of (ParseInt 32) TIntArray s')
      | x4c => Some (array_of (fun raw => ParseInt 64 (TrimSuffix1 x4c raw)) TLongArray s')
      | _ => None
      end
  | _ => None
  end.

Definition out_of {A} (o : option A) : Out A := match o with Some a => Ret a | None => Bad end.

Fixpoint parseValue (fuel : nat) (s : bytes) : Out (Tag * bytes) :=
  match fuel with
  | O => NoFuel
  | S fuel' =>
      match skipWs s with
      | [] => Bad
      | b :: s' =>
          if decide (b = x7b) then
            let s := skipWs s' in
            if decide (peek s = x7d) then Ret (TCompound [], bump s) else compound_entries fuel' NewCompound s
          else if decide (b = x5b) then
            let s := skipWs s' in
            match parseArray s with
            | Some r => r
            | None => if decide (peek s = x5d) then Ret (TList TagEnd [], bump s) else list_items fuel' None s
            end
          else if is_quote b then
            match parseQuotedString (b :: s') with Some (w, r) => Ret (TString w, r) | None => Bad end
          else out_of (parseScalar (b :: s'))
      end
  end
with compound_entries (fuel : nat) (c : Compound) (s : bytes) : Out (Tag * bytes) :=
  match fuel with
  | O => NoFuel
  | S fuel' =>
      match parseKey (skipWs s) with
      | None => Bad
      | Some (key, r) =>
          let r := skipWs r in
          if decide (peek r = x3a) then
            match parseValue fuel' (bump r) with
            | Ret (v, r) =>
                let c := Insert key v c in
                let r := skipWs r in
                if decide (peek r = x2c) then compound_entries fuel' c (bump r)
                else if decide (peek r = x7d) then Ret (TCompound c, bump r)
                else Bad
            | Bad => Bad | Panic => Panic | NoFuel => NoFuel
            end
          else Bad
      end
  end
with list_items (fuel : nat) (ty : option byte) (s : bytes) : Out (Tag * bytes) :=
  match fuel with
  | O => NoFuel
  | S fuel' =>
      match parseValue fuel' (skipWs s) with
      | Ret (v, r) =>
          if bool_decide (default (TypeOf v) ty = TypeOf v) then
            let r := skipWs r in
            if decide (peek r = x2c) then
              match list_items fuel' (Some (TypeOf v)) (bump r) with
              | Ret (TList t l, r) => Ret (TList t (v :: l), r)
              | Ret _ => Bad (* never *)
              | Bad => Bad | Panic => Panic | NoFuel => NoFuel
              end
            else if decide (peek r = x5d) then Ret (TList (TypeOf v) [v], bump r)
            else Bad
          else Bad
      | Bad => Bad | Panic => Panic | NoFuel => NoFuel
      end
  end.

Definition snbt_fuel (s : bytes) : nat := 2 * length s + 2.

Definition ParseSNBT (data : bytes) : Out Compound :=
  match parseValue (snbt_fuel data) (skipWs data) with
  | Ret (TCompound c, r) => match skipWs r with [] => Ret c | _ => Bad end
  | Ret _ => Bad
  | Bad => Bad | Panic => Panic | NoFuel => NoFuel
  end.

(** ** The parser makes progress *)

Lemma skipWs_length s : (length (skipWs s) <= length s)%nat.
Proof. induction s as [|b s IH]; cbn [skipWs]; [done|]. destruct (is_blank b); cbn [length]; lia. Qed.

Lemma bump_length b s : peek s = b -> b <> x00 -> (length (bump s) < length s)%nat.
Proof. destruct s; [by intros <-|]. intros _ _. unfold bump. cbn [drop length]. rewrite drop_0. lia. Qed.

Lemma span_until_length stop s w r : span_until stop s = (w, r) -> length s = (length w + length r)%nat.
Proof.
  revert w r. induction s as [|b s IH]; intros w r; cbn [span_until]; [by intros [= <- <-]|].
  destruct (stop b); [by intros [= <- <-]|]. destruct (span_until stop s) as [w' r'].
  intros [= <- <-]. cbn [length]. by rewrite (IH w' r' eq_refl).
Qed.

Lemma quoted_length quote s w r : quoted quote s = Some (w, r) -> (length r < length s)%nat.
Proof.
  revert w r. induction s as [s IH] using (induction_ltof1 _ (@length byte)). unfold ltof in IH.
  intros w r E. destruct s as [|ch s]; [done|]. cbn [quoted] in E. destruct (decide (ch = x5c)).
  - destruct s as [|esc s]; [done|]. apply bind_Some in E as ([w' r'] & E & [= <- <-]).
    apply IH in E; cbn [length] in *; lia.
  - destruct (decide (ch = quote)); [injection E as <- <-; cbn; lia|].
    apply bind_Some in E as ([w' r'] & E & [= <- <-]). apply IH in E; cbn [length] in *; lia.
Qed.

Lemma parseQuotedString_length s w r : is_quote (peek s) = true -> parseQuotedString s = Some (w, r) -> (length r < length s)%nat.
Proof.
  intros Hq E. apply quoted_length in E.
  pose proof (bump_length (peek s) s eq_refl) as H. specialize (H ltac:(by intros E0; rewrite E0 in Hq)). lia.
Qed.

Lemma parseScalar_length s t r : parseScalar s = Some (t, r) -> (length r < length s)%nat.
Proof.
  unfold parseScalar. destruct (span_until _ s) as [raw r'] eqn:E. apply span_until_length in E.
  destruct raw; [done|]. intros (t' & _ & [= <- <-])%bind_Some. cbn [length] in E. lia.
Qed.

Lemma parseKey_length s w r : parseKey s = Some (w, r) -> (length r < length s)%nat.
Proof.
  unfold parseKey. destruct (is_quote (peek s)) eqn:Hq; [by apply parseQuotedString_length|].
  destruct (span_until _ s) as [raw r'] eqn:E. apply span_until_length in E.
  destruct raw; [done|]. intros [= <- <-]. cbn [length] in E. lia.
Qed.

Lemma array_elems_length {A} fuel (elem : bytes -> option A) s l r :
  array_elems fuel elem s = Ret (l, r) -> (length r < length s)%nat.
Proof.
  revert s l r. induction fuel as [|fuel IH]; intros s l r; cbn [array_elems]; [done|].
  destruct (span_until _ _) as [raw r1] eqn:E. apply span_until_length in E.
  pose proof (skipWs_length s). pose proof (skipWs_length r1). destruct (elem _); [|done].
  destruct (decide (peek (skipWs r1) = x2c)) as [Hp|].
  - apply bump_length in Hp; [|done]. destruct (array_elems fuel elem _) as [[l' r']| | |] eqn:Ea; try done.
    intros [= <- <-]. apply IH in Ea. lia.
  - destruct (decide _) as [Hp|]; [|done]. apply bump_length in Hp; [|done]. intros [= <- <-]. lia.
Qed.

Lemma array_of_length {A} (elem : bytes -> option A) mk s t r : array_of elem mk s = Ret (t, r) -> (length r < length s)%nat.
Proof.
  unfold array_of. pose proof (skipWs_length s). destruct (decide _) as [Hp|].
  - apply bump_length in Hp; [|done]. intros [= <- <-]. lia.
  - destruct (array_elems _ _ _) as [[l r']| | |] eqn:E; try done. intros [= <- <-]. apply array_elems_length in E. lia.
Qed.

Lemma parseArray_length s o t r : parseArray s = Some o -> o = Ret (t, r) -> (length r < length s)%nat.
Proof.
  unfold parseArray. intros E ->. destruct s as [|ty [|c s]]; [done|by destruct ty|]. destruct c; try done.
  cbn [length]. destruct ty; try done; injection E as E; apply array_of_length in E; lia.
Qed.

Lemma parse_progress fuel :
  (forall s v r, parseValue fuel s = Ret (v, r) -> (length r < length s)%nat)
  /\ (forall c s v r, compound_entries fuel c s = Ret (v, r) -> (length r < length s)%nat)
  /\ (forall ty s v r, list_items fuel ty s = Ret (v, r) -> (length r < length s)%nat).
Proof.
  induction fuel as [|fuel (IHv & IHc & IHl)]; [by split_and!|]. split_and!.
  - intros s v r. cbn [parseValue]. pose proof (skipWs_length s) as Hs. destruct (skipWs s) as [|b s']; [done|].
    cbn [length] in Hs. pose proof (skipWs_length s').
    destruct (decide (b = x7b)).
    { destruct (decide _) as [Hp|]; [apply bump_length in Hp; [|done]; intros [= <- <-]; lia|].
      intros E%IHc. lia. }
    destruct (decide (b = x5b)).
    { destruct (parseArray _) as [o|] eqn:Ea; [intros E; pose proof (parseArray_length _ _ _ _ Ea E); lia|].
      destruct (decide _) as [Hp|]; [apply bump_length in Hp; [|done]; intros [= <- <-]; lia|].
      intros E%IHl. lia. }
    destruct (is_quote b) eqn:Eq.
    { destruct (parseQuotedString _) as [[w r']|] eqn:E; [|done]. intros [= <- <-].
      apply parseQuotedString_length in E; [cbn [length] in E; lia|done]. }
    unfold out_of. destruct (parseScalar _) as [[t r']|] eqn:E; [|done]. intros [= <- <-].
    apply parseScalar_length in E. cbn [length] in E. lia.
  - intros c s v r. cbn [compound_entries]. pose proof (skipWs_length s).
    destruct (parseKey _) as [[key r1]|] eqn:Ek; [|done]. apply parseKey_length in Ek. pose proof (skipWs_length r1).
    destruct (decide _) as [Hp|]; [|done]. apply bump_length in Hp; [|done].
    destruct (parseValue fuel _) as [[v1 r2]| | |] eqn:Ev; try done. apply IHv in Ev. pose proof (skipWs_length r2).
    destruct (decide _) as [Hp2|]; [apply bump_length in Hp2; [|done]; intros E%IHc; lia|].
    destruct (decide _) as [Hp3|]; [|done]. apply bump_length in Hp3; [|done]. intros [= <- <-]. lia.
  - intros ty s v r. cbn [list_items]. pose proof (skipWs_length s).
    destruct (parseValue fuel _) as [[v1 r2]| | |] eqn:Ev; try done. apply IHv in Ev. pose proof (skipWs_length r2).
    destruct (bool_decide _); [|done]. destruct (decide _) as [Hp|].
    + apply bump_length in Hp; [|done]. destruct (list_items fuel _ _) as [[v2 r3]| | |] eqn:El; try done.
      apply IHl in El. destruct v2; try done. intros [= <- <-]. lia.
    + destruct (decide _) as [Hp3|]; [|done]. apply bump_length in Hp3; [|done]. intros [= <- <-]. lia.
Qed.

(** ** The parser has enough fuel and never panics *)

Definition settled {A} (o : Out A) : Prop := o <> NoFuel /\ o <> Panic.

Lemma array_elems_settled {A} fuel (elem : bytes -> option A) s : (length s < fuel)%nat -> settled (array_elems fuel elem s).
Proof.
  revert s. induction fuel as [|fuel IH]; intros s Hf; [lia|]. cbn [array_elems].
  destruct (span_until _ _) as [raw r1] eqn:E. apply span_until_length in E.
  pose proof (skipWs_length s). pose proof (skipWs_length r1). destruct (elem _); [|done].
  destruct (decide (peek (skipWs r1) = x2c)) as [Hp|]; [|by destruct (decide _)].
  apply bump_length in Hp; [|done]. specialize (IH (bump (skipWs r1)) ltac:(lia)).
  destruct (array_elems fuel elem _) as [[l' r']| | |]; [done|done|by destruct IH|by destruct IH].
Qed.

Lemma array_of_settled {A} (elem : bytes -> option A) mk s : settled (array_of elem mk s).
Proof.
  unfold array_of. destruct (decide _); [done|].
  pose proof (array_elems_settled (S (length (skipWs s))) elem (skipWs s) ltac:(lia)) as H.
  destruct (array_elems _ _ _) as [[l r]| | |]; [done|done|by destruct H|by destruct H].
Qed.

Lemma parseArray_settled s o : parseArray s = Some o -> settled o.
Proof.
  unfold parseArray. destruct s as [|ty [|c s]]; [done|by destruct ty|]. destruct c; try done.
  destruct ty; try done; intros [= <-]; apply array_of_settled.
Qed.

Lemma parse_settled fuel :
  (forall s, (2 * length s + 1 <= fuel)%nat -> settled (parseValue fuel s))
  /\ (forall c s, (2 * length s + 2 <= fuel)%nat -> settled (compound_entries fuel c s))
  /\ (forall ty s, (2 * length s + 2 <= fuel)%nat -> settled (list_items fuel ty s)).
Proof.
  induction fuel as [|fuel (IHv & IHc & IHl)]; [split_and!; intros; lia|].
  destruct (parse_progress fuel) as (Pv & _ & _). split_and!.
  - intros s Hf. cbn [parseValue]. pose proof (skipWs_length s) as Hs. destruct (skipWs s) as [|b s']; [done|].
    cbn [length] in Hs. pose proof (skipWs_length s').
    destruct (decide (b = x7b)); [destruct (decide _); [done|]; apply IHc; lia|].
    destruct (decide (b = x5b)).
    { destruct (parseArray _) as [o|] eqn:Ea; [by eapply parseArray_settled|]. destruct (decide _); [done|]. apply IHl. lia. }
    destruct (is_quote b); [by destruct (parseQuotedString _) as [[]|]|]. by destruct (parseScalar _) as [[]|].
  - intros c s Hf. cbn [compound_entries]. pose proof (skipWs_length s).
    destruct (parseKey _) as [[key r1]|] eqn:Ek; [|done]. apply parseKey_length in Ek. pose proof (skipWs_length r1).
    destruct (decide _) as [Hp|]; [|done]. apply bump_length in Hp; [|done].
    pose proof (IHv (bump (skipWs r1)) ltac:(lia)) as Hv.
    destruct (parseValue fuel _) as [[v1 r2]| | |] eqn:Ev; [|done|by destruct Hv|by destruct Hv].
    apply Pv in Ev. pose proof (skipWs_length r2).
    destruct (decide _) as [Hp2|]; [apply bump_length in Hp2; [|done]; apply IHc; lia|by destruct (decide _)].
  - intros ty s Hf. cbn [list_items]. pose proof (skipWs_length s). pose proof (IHv (skipWs s) ltac:(lia)) as Hv.
    destruct (parseValue fuel _) as [[v1 r2]| | |] eqn:Ev; [|done|by destruct Hv|by destruct Hv].
    apply Pv in Ev. pose proof (skipWs_length r2). destruct (bool_decide _); [|done].
    destruct (decide _) as [Hp|]; [|by destruct (decide _)]. apply bump_length in Hp; [|done].
    pose proof (IHl (Some (TypeOf v1)) (bump (skipWs r2)) ltac:(lia)) as Hl.
    destruct (list_items fuel _ _) as [[v2 r3]| | |]; [by destruct v2|done|by destruct Hl|by destruct Hl].
Qed.

Lemma ParseSNBT_settled data : settled (ParseSNBT data).
Proof.
  unfold ParseSNBT, snbt_fuel. pose proof (skipWs_length data).
  destruct (parse_settled (2 * length data + 2)) as (Hv & _ & _). specialize (Hv (skipWs data) ltac:(lia)).
  destruct (parseValue _ _) as [[v r]| | |]; [|done|by destruct Hv|by destruct Hv].
  destruct v; try done. by destruct (skipWs r).
Qed.

(** ** What it returns is well typed *)

(** The bits of a finite [float64]. *)
Definition finite64 (f : Z) : Prop := is_u64 f /\ f mod 2 ^ 63 < 2047 * 2 ^ 52.

#[warnings="-register-all"]
Inductive typed : Tag -> Prop :=
| typed_byte n : is_i64 n -> typed (TByte n)
| typed_short n : is_i64 n -> typed (TShort n)
| typed_int n : is_i32 n -> typed (TInt n)
| typed_long n : is_i64 n -> typed (TLong n)
| typed_float f : finite64 f -> typed (TFloat f)
| typed_double f : finite64 f -> typed (TDouble f)
| typed_bytes b : typed (TByteArray b)
| typed_string s : typed (TString s)
| typed_ints l : Forall is_i32 l -> typed (TIntArray l)
| typed_longs l : Forall is_i64 l -> typed (TLongArray l)
| typed_list ty l : Forall typed l -> Forall (fun t => TypeOf t = ty) l -> typed (TList ty l)
| typed_compound c : NoDup (Names c) -> Forall (fun e => typed (snd e)) c -> typed (TCompound c).

Lemma parse_digits_nonneg acc s v : 0 <= acc -> parse_digits acc s = Some v -> 0 <= v.
Proof.
  revert acc. induction s as [|b s IH]; intros acc Ha; cbn [parse_digits]; [by intros [= <-]|].
  destruct (is_digit b) eqn:Ed; [|done]. unfold is_digit in Ed. apply andb_true_iff in Ed as [Ed%Z.leb_le _].
  destruct (_ <? 2 ^ 64); [apply IH; lia|intros [= <-]; lia].
Qed.

Lemma ParseInt_range bits s v : 0 < bits -> ParseInt bits s = Some v -> is_sint bits v.
Proof.
  intros Hb. unfold ParseInt. destruct (match s with [] => _ | _ => _ end) as [neg body]. destruct body as [|b body]; [done|].
  intros (u & Hu & E)%bind_Some. assert (0 < 2 ^ (bits - 1)) by (apply Z.pow_pos_nonneg; lia).
  apply parse_digits_nonneg in Hu; [|lia]. unfold is_sint.
  destruct neg; [destruct (Z.leb_spec u (2 ^ (bits - 1)))|destruct (Z.ltb_spec u (2 ^ (bits - 1)))]; try done; injection E as <-; lia.
Qed.

Lemma round64_range n d b : 0 <= n -> 0 < d -> round64 n d = Some b -> 0 <= b < 2047 * 2 ^ 52.
Proof.
  intros Hn Hd. unfold round64. destruct (n =? 0); [intros [= <-]; lia|].
  set (e := Z.max _ _). assert (-1074 <= e) by (unfold e; lia). clearbody e. cbn zeta.
  set (num := if 0 <=? e then n else _). set (den := if 0 <=? e then _ else d).
  assert (0 <= num) as Hnum.
  { unfold num. destruct (0 <=? e); [done|]. apply Z.mul_nonneg_nonneg; [done|]. apply Z.pow_nonneg. lia. }
  assert (0 < den) as Hden.
  { unfold den. destruct (Z.leb_spec 0 e); [|done]. apply Z.mul_pos_pos; [done|]. apply Z.pow_pos_nonneg; lia. }
  assert (0 <= num / den) by (apply Z.div_pos; done).
  set (q := if _ || _ then _ else _). assert (0 <= q) by (unfold q; destruct (_ || _); lia).
  destruct (Z.ltb_spec ((e + 1074) * 2 ^ 52 + q) (2047 * 2 ^ 52)); [|done]. intros [= <-]. split; [|done]. nia.
Qed.

Lemma mantissa_nonneg hex sd sg us m frac s m' f' sg' us' r :
  0 <= m -> mantissa hex sd sg us m frac s = (m', f', sg', us', r) -> 0 <= m'.
Proof.
  revert sd sg us m frac. induction s as [|b s IH]; intros sd sg us m frac Hm; cbn [mantissa]; [by intros [= <- _ _ _ _]|].
  destruct (decide (b = x5f)); [by apply IH|]. destruct (decide (b = x2e)); [destruct sd; [by intros [= <- _ _ _ _]|by apply IH]|].
  destruct (digit_val hex b) as [d|] eqn:Ed; [|by intros [= <- _ _ _ _]]. apply IH.
  assert (0 <= d).
  { unfold digit_val, is_digit in Ed. destruct (_ && _) eqn:E1 in Ed.
    - apply andb_true_iff in E1 as [E1%Z.leb_le _]. injection Ed as <-. lia.
    - destruct (hex && _ && _) eqn:E2 in Ed; [|done]. apply andb_true_iff in E2 as [[_ E2%Z.leb_le]%andb_true_iff _].
      injection Ed as <-. lia. }
  destruct hex; lia.
Qed.

Lemma ParseFloat_finite s f : ParseFloat s = Some f -> finite64 f.
Proof.
  unfold ParseFloat. destruct (match s with [] => _ | _ => _ end) as [neg body].
  destruct (match body with [] => _ | _ => _ end) as [hex digits].
  destruct (mantissa _ _ _ _ _ _ _) as [[[[m frac] sg] us] tl] eqn:Em. apply mantissa_nonneg in Em; [|lia].
  destruct (negb sg); [done|]. intros ([[e us'] tl'] & _ & E)%bind_Some.
  destruct (us' && _); [done|]. destruct tl' as [|]; [|done]. set (p := if hex then _ else _) in E.
  apply bind_Some in E as (bits & Hr & [= <-]).
  apply round64_range in Hr.
  - unfold finite64, is_uint. change (2 ^ 64) with (2 * 2 ^ 63). change (2047 * 2 ^ 52) with (2 ^ 63 - 2 ^ 52) in *.
    destruct neg; [split; [lia|]|split; [lia|rewrite Z.mod_small; lia]].
    replace (2 ^ 63 + bits) with (bits + 1 * 2 ^ 63) by lia. rewrite Z_mod_plus_full, Z.mod_small; lia.
  - destruct (0 <=? p); [|done]. apply Z.mul_nonneg_nonneg; [done|]. apply Z.pow_nonneg. by destruct hex.
  - destruct (Z.leb_spec 0 p); [lia|]. apply Z.pow_pos_nonneg; [by destruct hex|lia].
Qed.

Lemma scalar_typed raw t : scalar_tag raw = Some t -> typed t.
Proof.
  unfold scalar_tag. destruct (decide _); [intros [= <-]; constructor; split; vm_compute; congruence|].
  destruct (decide _); [intros [= <-]; constructor; split; vm_compute; congruence|].
  destruct (if bool_decide _ then _ else _) as [suffix body]. unfold number_tag. destruct (isFloatBody body).
  - intros (f & Hf & E)%bind_Some. apply ParseFloat_finite in Hf. destruct suffix; try done; injection E as <-; by constructor.
  - intros (v & Hv & E)%bind_Some. apply ParseInt_range in Hv; [|lia].
    destruct suffix; try done; try (injection E as <-; by constructor).
    destruct (_ && _) eqn:Er; injection E as <-; constructor; [|done].
    apply andb_true_iff in Er as [H1%Z.leb_le H2%Z.leb_le]. unfold is_sint. zpow. lia.
Qed.

Lemma array_elems_typed {A} (P : A -> Prop) fuel (elem : bytes -> option A) s l r :
  (forall raw v, elem raw = Some v -> P v) -> array_elems fuel elem s = Ret (l, r) -> Forall P l.
Proof.
  intros He. revert s l r. induction fuel as [|fuel IH]; intros s l r; cbn [array_elems]; [done|].
  destruct (span_until _ _) as [raw r1]. destruct (elem _) as [v|] eqn:Ev; [|done]. apply He in Ev.
  destruct (decide _).
  - destruct (array_elems fuel elem _) as [[l' r']| | |] eqn:Ea; try done. intros [= <- <-]. constructor; eauto.
  - destruct (decide _); [|done]. intros [= <- <-]. by repeat constructor.
Qed.

Lemma parseArray_typed s o t r : parseArray s = Some o -> o = Ret (t, r) -> typed t.
Proof.
  assert (forall A (P : A -> Prop) (elem : bytes -> option A) mk s t r, (forall raw v, elem raw = Some v -> P v) ->
    (forall l, Forall P l -> typed (mk l)) -> array_of elem mk s = Ret (t, r) -> typed t) as H.
  { intros A P elem mk s0 t0 r0 He Hmk. unfold array_of. destruct (decide _); [intros [= <- _]; by apply Hmk|].
    destruct (array_elems _ _ _) as [[l r']| | |] eqn:E; try done. intros [= <- _]. eapply Hmk, array_elems_typed; eauto. }
  unfold parseArray. intros E ->. destruct s as [|ty [|c s]]; [done|by destruct ty|]. destruct c; try done.
  destruct ty; try done; injection E as E; (eapply H; [| |exact E]).
  - intros raw v _. exact I.
  - intros l _. constructor.
  - intros raw v Hv. by apply ParseInt_range in Hv.
  - intros l Hl. by constructor.
  - intros raw v Hv. by apply ParseInt_range in Hv.
  - intros l Hl. by constructor.
Qed.

Lemma Insert_typed key v c :
  NoDup (Names c) -> Forall (fun e => typed (snd e)) c -> typed v ->
  NoDup (Names (Insert key v c)) /\ Forall (fun e => typed (snd e)) (Insert key v c).
Proof.
  intros Hn Hf Hv. split.
  - rewrite Insert_Names. destruct (decide _); [done|]. apply NoDup_app. split_and!; [done| |apply NoDup_singleton].
    intros x Hx Hk. apply list_elem_of_singleton in Hk. by subst x.
  - clear Hn. induction Hf as [|[n t] c Ht Hf IH]; cbn [Insert]; [by repeat constructor|].
    destruct (decide (n = key)); by constructor.
Qed.

Lemma parse_typed fuel :
  (forall s v r, parseValue fuel s = Ret (v, r) -> typed v)
  /\ (forall c s v r, NoDup (Names c) -> Forall (fun e => typed (snd e)) c ->
        compound_entries fuel c s = Ret (v, r) -> typed v)
  /\ (forall ty s v r, list_items fuel ty s = Ret (v, r) ->
        exists t l, v = TList t l /\ typed v /\ (forall t0, ty = Some t0 -> t0 = t)).
Proof.
  induction fuel as [|fuel (IHv & IHc & IHl)]; [by split_and!|]. split_and!.
  - intros s v r. cbn [parseValue]. destruct (skipWs s) as [|b s']; [done|].
    destruct (decide (b = x7b)).
    { destruct (decide _); [intros [= <- _]; constructor; [apply NoDup_nil_2|apply Forall_nil_2]|].
      apply IHc; [apply NoDup_nil_2|apply Forall_nil_2]. }
    destruct (decide (b = x5b)).
    { destruct (parseArray _) as [o|] eqn:Ea; [by eapply parseArray_typed|].
      destruct (decide _); [intros [= <- _]; constructor; apply Forall_nil_2|].
      intros (t & l & -> & Ht & _)%IHl. exact Ht. }
    destruct (is_quote b); [destruct (parseQuotedString _) as [[w r']|]; [|done]; intros [= <- _]; constructor|].
    unfold out_of, parseScalar. destruct (span_until _ _) as [raw r']. destruct raw as [|c raw]; [done|].
    destruct (scalar_tag (c :: raw)) as [t|] eqn:Es; [|done]. intros [= <- _]. by eapply scalar_typed.
  - intros c s v r Hn Hf. cbn [compound_entries].
    destruct (parseKey _) as [[key r1]|]; [|done]. destruct (decide _); [|done].
    destruct (parseValue fuel _) as [[v1 r2]| | |] eqn:Ev; try done. apply IHv in Ev.
    destruct (Insert_typed key v1 c Hn Hf Ev) as [Hn' Hf'].
    destruct (decide _); [by apply IHc|]. destruct (decide _); [|done]. intros [= <- _]. by constructor.
  - intros ty s v r. cbn [list_items]. destruct (parseValue fuel _) as [[v1 r2]| | |] eqn:Ev; try done. apply IHv in Ev.
    case_bool_decide as Ht; [|done].
    assert (forall t0, ty = Some t0 -> t0 = TypeOf v1) as Hty by (by intros t0 ->).
    destruct (decide _).
    + destruct (list_items fuel _ _) as [[v2 r3]| | |] eqn:El; try done. apply IHl in El as (t & l & -> & Hl & Hsame).
      specialize (Hsame _ eq_refl). subst t. intros [= <- _]. do 2 eexists. split; [done|]. split; [|done].
      inversion_clear Hl as [| | | | | | | | | |ty' l' H1 H2|]. by repeat constructor.
    + destruct (decide _); [|done]. intros [= <- _]. do 2 eexists. split; [done|]. split; [|done]. by repeat constructor.
Qed.

(** The SNBT parser is total and typed. *)
Lemma ParseSNBT_typed (data : bytes) :
  (exists c, ParseSNBT data = Ret c /\ typed (TCompound c)) \/ ParseSNBT data = Bad.
Proof.
  pose proof (ParseSNBT_settled data) as [Hf Hp]. unfold ParseSNBT in *.
  destruct (parseValue _ _) as [[v r]| | |] eqn:E; [|by right|done|done].
  apply (proj1 (parse_typed _)) in E. destruct v; try (by right). destruct (skipWs r); [left|by right]. eauto.
Qed.
