(* ===== verification/SnbtParser.v ===== *)
(** The SNBT parser of [src/nbt/nbt.go] as it is written: a position in the
    text, with every index and slice expression checked as Go checks it.

    [Snbt] has the same parser on the text that is still unread, where an index
    out of range cannot be written. Here [p.s[i]] and [p.s[a:b]] are [Panic]
    outside the text, and the guards in front of them are the code's; the two
    parsers agree on every text ([parse_sim]), so that none of these
    expressions ever panics and the fuel of every loop is enough. *)
From S2P Require Import Prelude Config Access GoFloat Nbt Snbt.

#[local] Instance Out_ret : MRet Out := fun _ a => Ret a.
#[local] Instance Out_bind : MBind Out := fun _ _ k o =>
  match o with Ret a => k a | Bad => Bad | Panic => Panic | NoFuel => NoFuel end.

(** [s[i]] *)
Definition index (s : bytes) (i : nat) : Out byte := match s !! i with Some b => Ret b | None => Panic end.

(** [s[a:b]] *)
Definition slice (s : bytes) (a b : nat) : Out bytes :=
  if ((a <=? b) && (b <=? length s))%nat then Ret (take (b - a) (drop a s)) else Panic.

(** ** Scalars *)

(** The suffix of a number and the text before it. *)
Definition split_suffix (raw : bytes) : Out (byte * bytes) :=
  if (0 <? length raw)%nat then
    last ← index raw (length raw - 1);
    if bool_decide (last ∈ suffixes) then body ← slice raw 0 (length raw - 1); Ret (last, body) else Ret (x00, raw)
  else Ret (x00, raw).

Definition scalar (raw : bytes) : Out Tag :=
  if decide (raw = str "true") then Ret (TByte 1)
  else if decide (raw = str "false") then Ret (TByte 0)
  else '(suffix, body) ← split_suffix raw; out_of (number_tag suffix body).

(** ** The parser *)

Section Parser.

(** [p.s]; the position [p.pos] is threaded through. *)
Context (text : bytes).

Abbreviation len := (length text).

Fixpoint skipWs_loop (fuel pos : nat) : Out nat :=
  match fuel with
  | O => NoFuel
  | S fuel' =>
      if (pos <? len)%nat then
        b ← index text pos;
        if is_blank b then skipWs_loop fuel' (S pos) else Ret pos
      else Ret pos
  end.

Definition skipWs (pos : nat) : Out nat := skipWs_loop (S len) pos.

Definition peek (pos : nat) : Out byte := if (pos <? len)%nat then index text pos else Ret x00.

(** [for p.pos < len(p.s) && !stop(p.s[p.pos]) { p.pos++ }] *)
Fixpoint scan (stop : byte -> bool) (fuel pos : nat) : Out nat :=
  match fuel with
  | O => NoFuel
  | S fuel' =>
      if (pos <? len)%nat then
        b ← index text pos;
        if stop b then Ret pos else scan stop fuel' (S pos)
      else Ret pos
  end.

Fixpoint quoted_loop (fuel : nat) (quote : byte) (sb : bytes) (pos : nat) : Out (bytes * nat) :=
  match fuel with
  | O => NoFuel
  | S fuel' =>
      if (pos <? len)%nat then
        ch ← index text pos;
        let pos := S pos in
        if decide (ch = x5c) then
          if (len <=? pos)%nat then Bad
          else
            esc ← index text pos;
            quoted_loop fuel' quote (sb ++ [escape esc]) (S pos)
        else if decide (ch = quote) then Ret (sb, pos)
        else quoted_loop fuel' quote (sb ++ [ch]) pos
      else Bad
  end.

Definition parseQuotedString (pos : nat) : Out (bytes * nat) :=
  quote ← peek pos;
  quoted_loop (S len) quote [] (S pos).

Definition parseScalar (pos : nat) : Out (Tag * nat) :=
  stop ← scan (fun b => bool_decide (b = x2c \/ b = x7d \/ b = x5d) || is_blank b) (S len) pos;
  if decide (pos = stop) then Bad
  else
    raw ← slice text pos stop;
    t ← scalar raw;
    Ret (t, stop).

Definition parseKey (pos : nat) : Out (bytes * nat) :=
  b ← peek pos;
  if is_quote b then parseQuotedString pos
  else
    stop ← scan (fun b => bool_decide (b = x3a \/ b = x2c \/ b = x7d)) (S len) pos;
    if decide (pos = stop) then Bad
    else
      raw ← slice text pos stop;
      Ret (TrimSpace raw, stop).

(** The loop over the elements of a typed array. *)
Fixpoint array_loop {A} (fuel : nat) (elem : bytes -> option A) (acc : list A) (pos : nat) : Out (list A * nat) :=
  match fuel with
  | O => NoFuel
  | S fuel' =>
      pos ← skipWs pos;
      stop ← scan (fun b => bool_decide (b = x2c \/ b = x5d)) (S len) pos;
      raw ← slice text pos stop;
      v ← out_of (elem (TrimSpace raw));
      pos ← skipWs stop;
      b ← peek pos;
      if decide (b = x2c) then array_loop fuel' elem (acc ++ [v]) (S pos)
      else if decide (b = x5d) then Ret (acc ++ [v], S pos)
      else Bad
  end.

Definition array_from {A} (elem : bytes -> option A) (mk : list A -> Tag) (pos : nat) : Out (Tag * nat) :=
  pos ← skipWs pos;
  b ← peek pos;
  if decide (b = x5d) then Ret (mk [], S pos)
  else '(l, pos) ← array_loop (S len) elem [] pos; Ret (mk l, pos).

(** Whether a typed array starts here, and its type. *)
Definition arrType (pos : nat) : Out (option byte) :=
  if (S pos <? len)%nat then
    b ← index text pos;
    if bool_decide (b = x42 \/ b = x49 \/ b = x4c) then
      c ← index text (S pos);
      Ret (if decide (c = x3b) then Some b else None)
    else Ret None
  else Ret None.

Definition typed_array (ty : byte) (pos : nat) : Out (Tag * nat) :=
  match ty with
  | x42 => array_from (fun raw => z2b <$> ParseInt 8 (TrimSuffix1 x62 raw)) TByteArray pos
  | x49 => array_from (ParseInt 32) TIntArray pos
  | _ => array_from (fun raw => ParseInt 64 (TrimSuffix1 x4c raw)) TLongArray pos
  end.

Fixpoint parseValue (fuel pos : nat) : Out (Tag * nat) :=
  match fuel with
  | O => NoFuel
  | S fuel' =>
      pos ← skipWs pos;
      if (len <=? pos)%nat then Bad
      else
        b ← peek pos;
        if decide (b = x7b) then
          pos ← skipWs (S pos);
          b ← peek pos;
          if decide (b = x7d) then Ret (TCompound [], S pos) else compound_loop fuel' NewCompound pos
        else if decide (b = x5b) then
          pos ← skipWs (S pos);
          ty ← arrType pos;
          match ty with
          | Some ty => typed_array ty (pos + 2)
          | None =>
              b ← peek pos;
              if decide (b = x5d) then Ret (TList TagEnd [], S pos) else list_loop fuel' None [] pos
          end
        else if is_quote b then '(w, pos) ← parseQuotedString pos; Ret (TString w, pos)
        else parseScalar pos
  end
with compound_loop (fuel : nat) (c : Compound) (pos : nat) : Out (Tag * nat) :=
  match fuel with
  | O => NoFuel
  | S fuel' =>
      pos ← skipWs pos;
      '(key, pos) ← parseKey pos;
      pos ← skipWs pos;
      b ← peek pos;
      if decide (b = x3a) then
        '(v, pos) ← parseValue fuel' (S pos);
        let c := Insert key v c in
        pos ← skipWs pos;
        b ← peek pos;
        if decide (b = x2c) then compound_loop fuel' c (S pos)
        else if decide (b = x7d) then Ret (TCompound c, S pos)
        else Bad
      else Bad
  end
with list_loop (fuel : nat) (ty : option byte) (acc : list Tag) (pos : nat) : Out (Tag * nat) :=
  match fuel with
  | O => NoFuel
  | S fuel' =>
      pos ← skipWs pos;
      '(v, pos) ← parseValue fuel' pos;
      if bool_decide (default (TypeOf v) ty = TypeOf v) then
        pos ← skipWs pos;
        b ← peek pos;
        if decide (b = x2c) then list_loop fuel' (Some (TypeOf v)) (acc ++ [v]) (S pos)
        else if decide (b = x5d) then Ret (TList (TypeOf v) (acc ++ [v]), S pos)
        else Bad
      else Bad
  end.

Definition ParseSNBT : Out Compound :=
  pos ← skipWs 0;
  '(tag, pos) ← parseValue (snbt_fuel text) pos;
  match tag with
  | TCompound c =>
      pos ← skipWs pos;
      if (pos <? len)%nat then Bad else Ret c
  | _ => Bad
  end.

End Parser.

(** ** The two parsers agree *)

Section Agreement.

Context (text : bytes).

Abbreviation len := (length text).

(** The position [pos] is in front of the unread text [u]. *)
Definition here (pos : nat) (u : bytes) : Prop := (pos <= len)%nat /\ drop pos text = u.

(** The same outcome, and the same place in the text. *)
Definition sim {A} (o : Out (A * nat)) (o' : Out (A * bytes)) : Prop :=
  match o' with
  | Ret (a, r) => exists pos, o = Ret (a, pos) /\ here pos r
  | Bad => o = Bad
  | Panic => o = Panic
  | NoFuel => True
  end.

Lemma here_length pos u : here pos u -> length u = (len - pos)%nat.
Proof. intros [_ <-]. apply length_drop. Qed.

Lemma here_cons pos b u : here pos (b :: u) -> (pos <? len)%nat = true /\ index text pos = Ret b /\ here (S pos) u.
Proof.
  intros [Hl E]. assert (text !! pos = Some b) as Hb.
  { rewrite <- (Nat.add_0_r pos), <- lookup_drop, E. done. }
  pose proof (lookup_lt_Some _ _ _ Hb). split; [by apply Nat.ltb_lt|]. split; [unfold index; by rewrite Hb|].
  split; [lia|]. erewrite drop_S in E by exact Hb. by injection E.
Qed.

Lemma here_nil pos : here pos [] -> (pos <? len)%nat = false.
Proof. intros H%here_length. apply Nat.ltb_ge. cbn in H. lia. Qed.

Lemma here_end pos u : here pos u -> (pos <? len)%nat = negb (bool_decide (u = [])).
Proof. intros H. destruct u as [|b u]; [by apply here_nil|by apply here_cons in H as [-> _]]. Qed.

Lemma peek_sim pos u : here pos u -> peek text pos = Ret (Snbt.peek u).
Proof.
  intros H. unfold peek. destruct u as [|b u]; [by rewrite here_nil|]. by apply here_cons in H as (-> & -> & _).
Qed.

Lemma bump_here pos u b : here pos u -> Snbt.peek u = b -> b <> x00 -> here (S pos) (bump u).
Proof. intros H. destruct u as [|c u]; [by intros <-|]. intros _ _. by apply here_cons in H as (_ & _ & ?). Qed.

Lemma skipWs_loop_sim fuel pos u : here pos u -> (length u < fuel)%nat ->
  exists pos', skipWs_loop text fuel pos = Ret pos' /\ here pos' (Snbt.skipWs u).
Proof.
  revert pos u. induction fuel as [|fuel IH]; intros pos u Hp Hf; [lia|]. cbn [skipWs_loop].
  destruct u as [|b u]; [rewrite here_nil by done; by exists pos|].
  destruct (here_cons _ _ _ Hp) as (-> & -> & Hp'). cbn. destruct (is_blank b); [|by exists pos].
  apply IH; [done|]. cbn in Hf. lia.
Qed.

Lemma skipWs_sim pos u : here pos u -> exists pos', skipWs text pos = Ret pos' /\ here pos' (Snbt.skipWs u).
Proof. intros H. apply skipWs_loop_sim; [done|]. rewrite (here_length _ _ H). lia. Qed.

Lemma scan_loop_sim stop fuel pos u w r : here pos u -> (length u < fuel)%nat -> span_until stop u = (w, r) ->
  scan text stop fuel pos = Ret (pos + length w)%nat /\ here (pos + length w) r.
Proof.
  revert pos u w r. induction fuel as [|fuel IH]; intros pos u w r Hp Hf; [lia|]. cbn [scan].
  destruct u as [|b u]; cbn [span_until].
  - intros [= <- <-]. rewrite here_nil by done. by rewrite Nat.add_0_r.
  - destruct (here_cons _ _ _ Hp) as (-> & -> & Hp'). cbn.
    destruct (stop b); [intros [= <- <-]; by rewrite Nat.add_0_r|].
    destruct (span_until stop u) as [w' r'] eqn:E. intros [= <- <-]. cbn [length]. rewrite Nat.add_succ_r.
    apply (IH (S pos) u w' r'); [done| |done]. cbn in Hf. lia.
Qed.

Lemma span_until_app stop u w r : span_until stop u = (w, r) -> u = w ++ r.
Proof.
  revert w r. induction u as [|b u IH]; intros w r; cbn [span_until]; [by intros [= <- <-]|].
  destruct (stop b); [by intros [= <- <-]|]. destruct (span_until stop u) as [w' r']. intros [= <- <-].
  cbn. f_equal. by apply IH.
Qed.

(** A scan stops behind the text it passed, which is then sliced. *)
Lemma scan_sim stop pos u w r : here pos u -> span_until stop u = (w, r) ->
  exists pos', scan text stop (S len) pos = Ret pos' /\ here pos' r /\ slice text pos pos' = Ret w /\ (pos = pos' <-> w = []).
Proof.
  intros Hp E. destruct (scan_loop_sim stop (S len) pos u w r) as [H1 H2]; [done| |done|].
  { rewrite (here_length _ _ Hp). lia. }
  exists (pos + length w)%nat. split_and!; [done|done| |].
  - unfold slice. pose proof (proj1 H2). rewrite (proj2 (Nat.leb_le pos _)), (proj2 (Nat.leb_le _ len)) by lia. cbn.
    rewrite (proj2 Hp). apply span_until_app in E as ->. f_equal. rewrite Nat.add_comm, Nat.add_sub. apply take_app_length.
  - split; [destruct w; [done|cbn; lia]|intros ->; cbn; lia].
Qed.

Lemma quoted_sim fuel quote sb pos u : here pos u -> (length u < fuel)%nat ->
  sim (quoted_loop text fuel quote sb pos) (match quoted quote u with Some (w, r) => Ret (sb ++ w, r) | None => Bad end).
Proof.
  revert sb pos u. induction fuel as [|fuel IH]; intros sb pos u Hp Hf; [lia|]. cbn [quoted_loop].
  destruct u as [|ch u]; [by rewrite here_nil|]. destruct (here_cons _ _ _ Hp) as (-> & -> & Hp'). cbn [quoted mbind Out_bind].
  cbn in Hf. destruct (decide (ch = x5c)).
  - destruct u as [|esc u].
    + apply here_nil, Nat.ltb_ge, Nat.leb_le in Hp'. by rewrite Hp'.
    + destruct (here_cons _ _ _ Hp') as (Hlt & -> & Hp2). apply Nat.ltb_lt in Hlt. rewrite (proj2 (Nat.leb_gt _ _)) by done. cbn.
      cbn in Hf. specialize (IH (sb ++ [escape esc]) (S (S pos)) u Hp2 ltac:(lia)).
      destruct (quoted quote u) as [[w r]|]; cbn in *; [|done]. by rewrite <- app_assoc in IH.
  - destruct (decide (ch = quote)); [cbn; exists (S pos); by rewrite app_nil_r|].
    specialize (IH (sb ++ [ch]) (S pos) u Hp' ltac:(lia)).
    destruct (quoted quote u) as [[w r]|]; cbn in *; [|done]. by rewrite <- app_assoc in IH.
Qed.

Lemma parseQuotedString_sim pos u : here pos u -> is_quote (Snbt.peek u) = true ->
  sim (parseQuotedString text pos) (out_of (Snbt.parseQuotedString u)).
Proof.
  intros Hp Hq. unfold parseQuotedString, Snbt.parseQuotedString. rewrite (peek_sim _ _ Hp). cbn.
  assert (here (S pos) (bump u)) as Hb.
  { eapply bump_here; [done|reflexivity|]. intros E. by rewrite E in Hq. }
  pose proof (quoted_sim (S len) (Snbt.peek u) [] (S pos) (bump u) Hb) as H. rewrite (here_length _ _ Hb) in H.
  specialize (H ltac:(lia)). by destruct (quoted _ (bump u)) as [[w r]|].
Qed.

Lemma split_suffix_eq raw :
  split_suffix raw = Ret (let l := default x00 (last raw) in
    if bool_decide (l ∈ suffixes) then (l, take (length raw - 1) raw) else (x00, raw)).
Proof.
  unfold split_suffix. destruct raw as [|b raw _] using rev_ind; [done|]. rewrite last_snoc, length_app, Nat.add_sub. cbn [length].
  rewrite (proj2 (Nat.ltb_lt 0 _)) by lia. unfold index, slice.
  rewrite lookup_app_r, Nat.sub_diag by lia. cbn. case_bool_decide; [|done].
  rewrite (proj2 (Nat.leb_le (length raw) _)) by (rewrite length_app; lia). cbn. by rewrite Nat.sub_0_r, drop_0.
Qed.

Lemma scalar_eq raw : scalar raw = out_of (scalar_tag raw).
Proof.
  unfold scalar, scalar_tag. destruct (decide _); [done|]. destruct (decide _); [done|].
  rewrite split_suffix_eq. cbn. by destruct (if bool_decide _ then _ else _).
Qed.

Lemma parseScalar_sim pos u : here pos u -> sim (parseScalar text pos) (out_of (Snbt.parseScalar u)).
Proof.
  intros Hp. unfold parseScalar, Snbt.parseScalar. destruct (span_until _ u) as [w r] eqn:E.
  destruct (scan_sim _ _ _ _ _ Hp E) as (pos' & -> & Hp' & Hs & Hw). cbn. destruct w as [|b w].
  - rewrite decide_True by (by apply Hw). done.
  - rewrite decide_False by (intros H; by apply Hw in H). rewrite Hs. cbn. rewrite scalar_eq.
    destruct (scalar_tag (b :: w)) as [t|]; cbn; [by exists pos'|done].
Qed.

Lemma parseKey_sim pos u : here pos u -> sim (parseKey text pos) (out_of (Snbt.parseKey u)).
Proof.
  intros Hp. unfold parseKey, Snbt.parseKey. rewrite (peek_sim _ _ Hp). cbn [mbind Out_bind].
  destruct (is_quote (Snbt.peek u)) eqn:Hq; [by apply parseQuotedString_sim|].
  destruct (span_until _ u) as [w r] eqn:E.
  destruct (scan_sim _ _ _ _ _ Hp E) as (pos' & -> & Hp' & Hs & Hw). cbn. destruct w as [|b w].
  - rewrite decide_True by (by apply Hw). done.
  - rewrite decide_False by (intros H; by apply Hw in H). rewrite Hs. cbn. by exists pos'.
Qed.

(** *** Arrays *)

Lemma array_loop_sim {A} fuel (elem : bytes -> option A) : forall acc pos u, here pos u ->
  sim (array_loop text fuel elem acc pos)
    (match array_elems fuel elem u with Ret (l, r) => Ret (acc ++ l, r) | Bad => Bad | Panic => Panic | NoFuel => NoFuel end).
Proof.
  induction fuel as [|fuel IH]; intros acc pos u Hp; [done|]. cbn [array_loop array_elems].
  destruct (skipWs_sim _ _ Hp) as (p1 & -> & Hp1). cbn [mbind Out_bind].
  destruct (span_until _ (Snbt.skipWs u)) as [w r] eqn:E. destruct (scan_sim _ _ _ _ _ Hp1 E) as (p2 & -> & Hp2 & Hs & _).
  cbn [mbind Out_bind]. rewrite Hs. cbn [mbind Out_bind]. destruct (elem (TrimSpace w)) as [v|]; [|done]. cbn [out_of].
  destruct (skipWs_sim _ _ Hp2) as (p3 & -> & Hp3). cbn [mbind Out_bind]. rewrite (peek_sim _ _ Hp3). cbn [mbind Out_bind].
  destruct (decide (Snbt.peek (Snbt.skipWs r) = x2c)) as [Hc|].
  - specialize (IH (acc ++ [v]) (S p3) (bump (Snbt.skipWs r)) (bump_here _ _ _ Hp3 Hc ltac:(done))).
    destruct (array_elems fuel elem _) as [[l r']| | |]; try done. by rewrite <- app_assoc in IH.
  - destruct (decide (Snbt.peek (Snbt.skipWs r) = x5d)) as [Hc|]; [|done]. cbn. exists (S p3). split; [done|].
    by apply (bump_here _ _ _ Hp3 Hc).
Qed.

Lemma array_elems_fuel {A} (elem : bytes -> option A) f1 f2 u : (length u < f1)%nat -> (length u < f2)%nat ->
  array_elems f1 elem u = array_elems f2 elem u.
Proof.
  revert f2 u. induction f1 as [|f1 IH]; intros [|f2] u H1 H2; try lia. cbn [array_elems].
  destruct (span_until _ _) as [w r] eqn:E. apply span_until_length in E. pose proof (skipWs_length u). pose proof (skipWs_length r).
  destruct (elem _); [|done]. destruct (decide _) as [Hc|]; [|done]. apply bump_length in Hc; [|done]. rewrite (IH f2); [done|lia|lia].
Qed.

Lemma array_from_sim {A} (elem : bytes -> option A) mk pos u : here pos u ->
  sim (array_from text elem mk pos) (array_of elem mk u).
Proof.
  intros Hp. unfold array_from, array_of. destruct (skipWs_sim _ _ Hp) as (p1 & -> & Hp1). cbn [mbind Out_bind].
  rewrite (peek_sim _ _ Hp1). cbn [mbind Out_bind]. destruct (decide _) as [Hc|].
  - exists (S p1). split; [done|]. by apply (bump_here _ _ _ Hp1 Hc).
  - pose proof (array_loop_sim (S len) elem [] p1 _ Hp1) as H. pose proof (here_length _ _ Hp1).
    rewrite (array_elems_fuel elem (S len) (S (length (Snbt.skipWs u)))) in H by lia.
    destruct (array_elems _ _ _) as [[l r]| | |]; [|by cbn in *; rewrite H..|done]. destruct H as (p2 & -> & Hp2). by exists p2.
Qed.

(** The typed array at the front, if there is one. *)
Lemma array_sim pos u : here pos u ->
  exists ty, arrType text pos = Ret ty
  /\ match ty with
     | Some ty => exists o, parseArray u = Some o /\ sim (typed_array text ty (pos + 2)) o
     | None => parseArray u = None
     end.
Proof.
  intros Hp. pose proof (here_length _ _ Hp) as Hl. unfold arrType. destruct u as [|b [|c u]]; cbn [length] in Hl.
  - rewrite (proj2 (Nat.ltb_ge _ _)) by lia. by exists None.
  - rewrite (proj2 (Nat.ltb_ge _ _)) by lia. exists None. by destruct b.
  - rewrite (proj2 (Nat.ltb_lt _ _)) by lia. destruct (here_cons _ _ _ Hp) as (_ & -> & Hp1). cbn [mbind Out_bind].
    destruct (here_cons _ _ _ Hp1) as (_ & -> & Hp2). rewrite Nat.add_comm. cbn [Nat.add].
    case_bool_decide as Hb; cbn [mbind Out_bind].
    + destruct (decide (c = x3b)) as [->|Hc].
      * exists (Some b). split; [done|]. destruct Hb as [->|[->| ->]]; (eexists; split; [reflexivity|]); by apply array_from_sim.
      * exists None. split; [done|]. destruct Hb as [->|[->| ->]]; by destruct c.
    + exists None. split; [done|]. destruct c; try done. destruct b; try done; exfalso; apply Hb; auto.
Qed.

(** *** The whole parser *)

Lemma parse_sim fuel :
  (forall pos u, here pos u -> sim (parseValue text fuel pos) (Snbt.parseValue fuel u))
  /\ (forall c pos u, here pos u -> sim (compound_loop text fuel c pos) (compound_entries fuel c u))
  /\ (forall ty acc pos u, here pos u -> sim (list_loop text fuel ty acc pos)
        (match list_items fuel ty u with
         | Ret (TList t l, r) => Ret (TList t (acc ++ l), r) | Ret _ => Bad | Bad => Bad | Panic => Panic | NoFuel => NoFuel end)).
Proof.
  induction fuel as [|fuel (IHv & IHc & IHl)]; [done|]. split_and!.
  - intros pos u Hp. cbn [parseValue Snbt.parseValue]. cbv zeta. destruct (skipWs_sim _ _ Hp) as (p1 & -> & Hp1). cbn [mbind Out_bind].
    pose proof (here_end _ _ Hp1) as He. rewrite Nat.leb_antisym, He, negb_involutive. pose proof (peek_sim _ _ Hp1) as Hk.
    destruct (Snbt.skipWs u) as [|b s'] eqn:Es; [done|]. rewrite bool_decide_false by done. rewrite Hk. cbn [mbind Out_bind].
    change (Snbt.peek (b :: s')) with b. destruct (here_cons _ _ _ Hp1) as (_ & _ & Hp2).
    destruct (decide (b = x7b)).
    { destruct (skipWs_sim _ _ Hp2) as (p3 & -> & Hp3). cbn [mbind Out_bind]. rewrite (peek_sim _ _ Hp3). cbn [mbind Out_bind].
      destruct (decide _) as [Hc|]; [exists (S p3); split; [done|]; by apply (bump_here _ _ _ Hp3 Hc)|by apply IHc]. }
    destruct (decide (b = x5b)).
    { destruct (skipWs_sim _ _ Hp2) as (p3 & -> & Hp3). cbn [mbind Out_bind]. destruct (array_sim _ _ Hp3) as (ty & -> & Ha).
      cbn [mbind Out_bind]. destruct ty as [ty|]; [by destruct Ha as (o & -> & Ho)|]. rewrite Ha.
      rewrite (peek_sim _ _ Hp3). cbn [mbind Out_bind].
      destruct (decide _) as [Hc|]; [exists (S p3); split; [done|]; by apply (bump_here _ _ _ Hp3 Hc)|].
      pose proof (IHl None [] p3 _ Hp3) as H. destruct (parse_typed fuel) as (_ & _ & Ht).
      destruct (list_items fuel None _) as [[v r]| | |] eqn:El; try done. by apply Ht in El as (t & l & -> & _). }
    destruct (is_quote b) eqn:Hq; [|by apply parseScalar_sim].
    pose proof (parseQuotedString_sim _ _ Hp1 Hq) as H.
    destruct (Snbt.parseQuotedString _) as [[w r]|]; cbn [out_of sim] in H; [|by rewrite H].
    destruct H as (p4 & -> & Hp4). by exists p4.
  - intros c pos u Hp. cbn [compound_loop compound_entries]. cbv zeta. destruct (skipWs_sim _ _ Hp) as (p1 & -> & Hp1). cbn [mbind Out_bind].
    pose proof (parseKey_sim _ _ Hp1) as Hk. destruct (Snbt.parseKey _) as [[key r]|]; cbn [out_of sim] in Hk; [|by rewrite Hk].
    destruct Hk as (p2 & -> & Hp2). cbn [mbind Out_bind]. destruct (skipWs_sim _ _ Hp2) as (p3 & -> & Hp3). cbn [mbind Out_bind].
    rewrite (peek_sim _ _ Hp3). cbn [mbind Out_bind]. destruct (decide _) as [Hc|]; [|done].
    pose proof (IHv (S p3) _ (bump_here _ _ _ Hp3 Hc ltac:(done))) as Hv.
    destruct (Snbt.parseValue fuel _) as [[v r2]| | |]; cbn [sim] in Hv; [|by rewrite Hv..|done].
    destruct Hv as (p4 & -> & Hp4). cbn [mbind Out_bind]. destruct (skipWs_sim _ _ Hp4) as (p5 & -> & Hp5). cbn [mbind Out_bind].
    rewrite (peek_sim _ _ Hp5). cbn [mbind Out_bind]. destruct (decide _) as [Hc2|]; [by apply IHc, (bump_here _ _ _ Hp5 Hc2)|].
    destruct (decide _) as [Hc3|]; [|done]. exists (S p5). split; [done|]. by apply (bump_here _ _ _ Hp5 Hc3).
  - intros ty acc pos u Hp. cbn [list_loop list_items]. cbv zeta. destruct (skipWs_sim _ _ Hp) as (p1 & -> & Hp1). cbn [mbind Out_bind].
    pose proof (IHv p1 _ Hp1) as Hv.
    destruct (Snbt.parseValue fuel _) as [[v r2]| | |]; cbn [sim] in Hv; [|by rewrite Hv..|done].
    destruct Hv as (p4 & -> & Hp4). cbn [mbind Out_bind]. destruct (bool_decide _); [|done].
    destruct (skipWs_sim _ _ Hp4) as (p5 & -> & Hp5). cbn [mbind Out_bind].
    rewrite (peek_sim _ _ Hp5). cbn [mbind Out_bind]. destruct (decide _) as [Hc2|].
    + pose proof (IHl (Some (TypeOf v)) (acc ++ [v]) (S p5) _ (bump_here _ _ _ Hp5 Hc2 ltac:(done))) as H.
      destruct (list_items fuel _ _) as [[[] r3]| | |]; cbn [sim] in *; try done. by rewrite <- app_assoc in H.
    + destruct (decide _) as [Hc3|]; [|done]. exists (S p5). split; [done|]. by apply (bump_here _ _ _ Hp5 Hc3).
Qed.

Lemma ParseSNBT_eq : ParseSNBT text = Snbt.ParseSNBT text.
Proof.
  pose proof (ParseSNBT_settled text) as [Hf _]. unfold ParseSNBT, Snbt.ParseSNBT in *.
  destruct (skipWs_sim 0 text) as (p1 & -> & Hp1); [split; [lia|apply drop_0]|]. cbn [mbind Out_bind].
  pose proof (proj1 (parse_sim (snbt_fuel text)) _ _ Hp1) as H.
  destruct (Snbt.parseValue _ _) as [[v r]| | |]; cbn [sim] in H; [|by rewrite H..|done].
  destruct H as (p2 & -> & Hp2). cbn [mbind Out_bind]. destruct v; try done.
  destruct (skipWs_sim _ _ Hp2) as (p3 & -> & Hp3). cbn [mbind Out_bind]. rewrite (here_end _ _ Hp3).
  by destruct (Snbt.skipWs r).
Qed.

End Agreement.

(** C36: the SNBT parser is total. On every text it returns a compound or an
    error: no index and no slice of the text is ever out of range, and no loop
    runs for ever. A compound it returns is well formed: its keys are distinct
    on every level, the elements of a list all have the list's type, the
    numbers in arrays and in int and long tags are within their widths, and no
    float is infinite or not a number. Byte and short tags are only known to
    hold a 64-bit number, which is all the code checks. *)
Theorem ParseSNBT_total_typed (data : bytes) :
  (exists c, ParseSNBT data = Ret c /\ typed (TCompound c)) \/ ParseSNBT data = Bad.
Proof. rewrite ParseSNBT_eq. apply ParseSNBT_typed. Qed.

(** A number that is no byte makes a byte tag. *)
Example byte_suffix_unchecked : ParseSNBT (str "{a:1000b}") = Ret [(str "a", TByte 1000)].
Proof. vm_compute. reflexivity. Qed.
