(* ===== verification/Dimension.v ===== *)
(** The lobby dimension: [src/mc/dimension.go], over the embedded resources. *)
From S2P Require Import Prelude Wire GoFloat Nbt Snbt Resources.

(** [snbtToCompoundTag]: a parse error is a panic. *)
Definition snbtToCompoundTag (data : bytes) : Out Compound :=
  match ParseSNBT data with
  | Ret c => Ret c
  | Bad => Panic
  | Panic => Panic
  | NoFuel => NoFuel
  end.

Definition DefaultDimensionCodec : Out Compound := snbtToCompoundTag dimensionCodecSNBT.
Definition lobbyDefaultDimension : Out Compound := snbtToCompoundTag dimensionSNBT.

Definition preferred : list bytes := [str "minecraft:the_end"; str "minecraft:the_nether"; str "minecraft:the_overworld"].

(** The inner loop: the element of the first dimension of that name that has
    one. A list item that is no compound is a nil pointer, in which nothing is
    found. *)
Fixpoint find_dimension (name : bytes) (ds : list (option Compound)) : option Compound :=
  match ds with
  | [] => None
  | None :: ds' => find_dimension name ds'
  | Some d :: ds' =>
      match GetStr (str "name") d with
      | Some n =>
          if decide (n = name) then
            match GetCompound (str "element") d with
            | Some element => Some (Clone element)
            | None => find_dimension name ds'
            end
          else find_dimension name ds'
      | None => find_dimension name ds'
      end
  end.

Fixpoint find_preferred (names : list bytes) (ds : list (option Compound)) : option Compound :=
  match names with
  | [] => None
  | name :: names' =>
      match find_dimension name ds with
      | None => find_preferred names' ds
      | r => r
      end
  end.

Definition lobbyBaseDimension (dimensionTypes : Compound) : Out Compound :=
  match GetCompoundVec (str "value") dimensionTypes with
  | None => lobbyDefaultDimension
  | Some dimensions =>
      match find_preferred preferred dimensions with
      | Some c => Ret c
      | None =>
          match dimensions with
          | Some d :: _ =>
              match GetCompound (str "element") d with
              | Some element => Ret (Clone element)
              | None => lobbyDefaultDimension
              end
          | _ => lobbyDefaultDimension
          end
      end
  end.

(** The bits of 0.0 ([float32]) and 1.0 ([float64]). *)
Definition lobby_properties (base : Compound) : Compound :=
  base |> InsertByte (str "piglin_safe") 1 |> InsertFloat (str "ambient_light") 0
    |> InsertByte (str "respawn_anchor_works") 0 |> InsertByte (str "has_skylight") 0 |> InsertByte (str "bed_works") 0
    |> InsertString (str "effects") (str "minecraft:the_end") |> InsertLong (str "fixed_time") 0
    |> InsertByte (str "has_raids") 0 |> InsertInt (str "min_y") 0 |> InsertInt (str "height") 16
    |> InsertInt (str "logical_height") 16 |> InsertDouble (str "coordinate_scale") 0x3ff0000000000000
    |> InsertByte (str "ultrawarm") 0 |> InsertByte (str "has_ceiling") 0.

Definition LobbyDimension (codec : Compound) : Out Compound :=
  match GetCompound (str "minecraft:dimension_type") codec with
  | None => lobbyDefaultDimension
  | Some dimensionTypes =>
      match lobbyBaseDimension dimensionTypes with
      | Ret base => Ret (lobby_properties base)
      | Bad => Bad | Panic => Panic | NoFuel => NoFuel
      end
  end.

(** ** The resources *)

Definition default_dimension : Compound :=
  [ (str "piglin_safe", TByte 1); (str "natural", TByte 0); (str "ambient_light", TFloat 0); (str "fixed_time", TInt 0);
    (str "infiniburn", TString (str "minecraft:infiniburn_overworld")); (str "respawn_anchor_works", TByte 0);
    (str "has_skylight", TByte 1); (str "bed_works", TByte 0); (str "effects", TString (str "minecraft:the_end"));
    (str "has_raids", TByte 0); (str "min_y", TInt 0); (str "height", TInt 256); (str "logical_height", TInt 256);
    (str "coordinate_scale", TDouble 0x3ff0000000000000); (str "ultrawarm", TByte 0); (str "has_ceiling", TByte 0) ].

Lemma lobbyDefaultDimension_eq : lobbyDefaultDimension = Ret default_dimension.
Proof. vm_compute. reflexivity. Qed.

Lemma DefaultDimensionCodec_parses : exists c, DefaultDimensionCodec = Ret c.
Proof.
  assert (match DefaultDimensionCodec with Ret _ => true | _ => false end = true) as H by (vm_compute; reflexivity).
  destruct DefaultDimensionCodec as [c| | |]; try discriminate H. by exists c.
Qed.

(** ** Well-formed codecs give well-formed dimensions *)

Lemma Get_ok name c t : compound_ok c -> Get name c = Some t -> tag_ok t.
Proof.
  intros [_ Hf]%tag_ok_compound. induction Hf as [|[n x] c (_ & _ & Hx) _ IH]; cbn [Get]; [done|].
  destruct (decide (n = name)); [by intros [= <-]|exact IH].
Qed.

Lemma GetCompound_ok name c c' : compound_ok c -> GetCompound name c = Some c' -> compound_ok c'.
Proof.
  intros Hc. unfold GetCompound. destruct (Get name c) as [t|] eqn:E; [|done]. apply Get_ok in E; [|done].
  destruct t; try done. by intros [= <-].
Qed.

Lemma Clone_ok c : compound_ok c -> Clone c = c.
Proof. intros Hc. pose proof (cloneTag_id (TCompound c) Hc) as H. rewrite cloneTag_compound in H. by injection H. Qed.

Lemma Insert_ok name t c : compound_ok c -> Zlen name < 2 ^ 15 -> TypeOf t <> TagEnd -> tag_ok t -> compound_ok (Insert name t c).
Proof.
  intros [Hn Hf]%tag_ok_compound Hl Ht Hok. apply tag_ok_compound. split.
  - rewrite Insert_Names. destruct (decide _); [done|]. apply NoDup_app. split_and!; [done| |apply NoDup_singleton].
    intros x Hx Hk. apply list_elem_of_singleton in Hk. by subst x.
  - clear Hn. induction Hf as [|[n x] c Hx Hf IH]; cbn [Insert]; [by repeat constructor|].
    destruct (decide (n = name)) as [->|]; by constructor.
Qed.

Lemma lobby_properties_ok base : compound_ok base -> compound_ok (lobby_properties base).
Proof.
  intros Hb. unfold lobby_properties.
  repeat (apply Insert_ok; [|reflexivity|discriminate|]); try exact Hb;
    try (split; vm_compute; congruence); try reflexivity.
  exists 0. split; [split; vm_compute; congruence|reflexivity].
Qed.

Lemma default_dimension_ok : compound_ok default_dimension.
Proof.
  apply tag_ok_compound. split; [apply (bool_decide_unpack _); vm_compute; exact I|].
  repeat (apply Forall_cons; split; [split; [reflexivity|split; [discriminate|]]|]);
    try apply Forall_nil_2; try (split; vm_compute; congruence); try reflexivity.
  exists 0. split; [split; vm_compute; congruence|reflexivity].
Qed.

Definition dims_ok (ds : list (option Compound)) : Prop := Forall (from_option compound_ok True) ds.

Lemma GetCompoundVec_ok name c ds : compound_ok c -> GetCompoundVec name c = Some ds -> dims_ok ds.
Proof.
  intros Hc. unfold GetCompoundVec. destruct (Get name c) as [t|] eqn:E; [|done].
  pose proof (Get_ok _ _ _ Hc E) as Ht. destruct t as [| | | | | | | | |ty l| | |]; try done. intros [= <-].
  apply tag_ok_list in Ht as [_ Hf]. unfold dims_ok. apply Forall_fmap.
  eapply Forall_impl; [exact Hf|]. intros t [Ht _]. by destruct t.
Qed.

Lemma find_dimension_ok name ds : dims_ok ds -> from_option compound_ok True (find_dimension name ds).
Proof.
  induction 1 as [|[c|] ds Hc _ IH]; cbn [find_dimension]; [done| |exact IH]. cbn in Hc.
  destruct (GetStr _ c) as [n|]; [|exact IH]. destruct (decide _); [|exact IH].
  destruct (GetCompound _ c) as [el|] eqn:E; [|exact IH]. apply GetCompound_ok in E; [|done].
  cbn. by rewrite Clone_ok.
Qed.

Lemma find_preferred_ok names ds : dims_ok ds -> from_option compound_ok True (find_preferred names ds).
Proof.
  intros Hd. induction names as [|name names IH]; cbn [find_preferred]; [done|].
  pose proof (find_dimension_ok name ds Hd). by destruct (find_dimension name ds).
Qed.

Lemma lobbyBaseDimension_ok dt : compound_ok dt -> exists base, lobbyBaseDimension dt = Ret base /\ compound_ok base.
Proof.
  intros Hdt. unfold lobbyBaseDimension. rewrite lobbyDefaultDimension_eq. pose proof default_dimension_ok as Hdef.
  destruct (GetCompoundVec _ dt) as [ds|] eqn:E; [|eauto]. pose proof (GetCompoundVec_ok _ dt ds Hdt E) as Hds.
  pose proof (find_preferred_ok preferred ds Hds) as Hr. destruct (find_preferred preferred ds) as [c|]; [eauto|].
  destruct Hds as [|[c|] ds Hc _]; [eauto| |eauto]. cbn in Hc. destruct (GetCompound _ c) as [e|] eqn:Ee; [|eauto].
  apply GetCompound_ok in Ee; [|done]. rewrite Clone_ok by done. eauto.
Qed.

(** What the lobby fixes in a dimension. *)
Definition lobby_settings : list (bytes * Tag) :=
  [ (str "piglin_safe", TByte 1); (str "ambient_light", TFloat 0); (str "respawn_anchor_works", TByte 0);
    (str "has_skylight", TByte 0); (str "bed_works", TByte 0); (str "effects", TString (str "minecraft:the_end"));
    (str "fixed_time", TLong 0); (str "has_raids", TByte 0); (str "min_y", TInt 0); (str "height", TInt 16);
    (str "logical_height", TInt 16); (str "coordinate_scale", TDouble 0x3ff0000000000000); (str "ultrawarm", TByte 0);
    (str "has_ceiling", TByte 0) ].

Lemma lobby_properties_fold base : lobby_properties base = fold_left (fun c e => Insert (fst e) (snd e) c) lobby_settings base.
Proof. reflexivity. Qed.

Lemma Get_fold_Insert settings base name :
  Get name (fold_left (fun c e => Insert (fst e) (snd e) c) settings base)
  = match list_find (fun e => fst e = name) (rev settings) with Some (_, e) => Some (snd e) | None => Get name base end.
Proof.
  revert base. induction settings as [|[n t] settings IH] using rev_ind; intros base; [done|].
  rewrite fold_left_app, rev_app_distr. cbn [fold_left rev app list_find fst snd].
  destruct (decide (n = name)) as [->|Hne]; [by rewrite Insert_Get|]. rewrite Insert_Get_ne by done. rewrite IH.
  destruct (list_find _ (rev settings)) as [[i e]|]; done.
Qed.

(** The lobby world is built without failing. For every well-formed codec
    [LobbyDimension] returns a well-formed dimension; when the codec has dimension types, the dimension
    has exactly the lobby's fourteen settings (16 blocks high, no skylight,
    and so on) and keeps every other property of its base. The embedded
    resources parse, so the defaults cannot panic. *)
Lemma lobby_dimension_wellformed (codec : Compound) :
  compound_ok codec ->
  exists d, LobbyDimension codec = Ret d /\ compound_ok d
  /\ (exists c, DefaultDimensionCodec = Ret c)
  /\ match GetCompound (str "minecraft:dimension_type") codec with
     | None => d = default_dimension
     | Some dt => exists base, lobbyBaseDimension dt = Ret base
         /\ forall name, Get name d = match list_find (fun e => fst e = name) (rev lobby_settings) with
                                      | Some (_, e) => Some (snd e)
                                      | None => Get name base
                                      end
     end.
Proof.
  intros Hc. pose proof DefaultDimensionCodec_parses. unfold LobbyDimension.
  destruct (GetCompound _ codec) as [dt|] eqn:E.
  - destruct (lobbyBaseDimension_ok dt) as (base & -> & Hb); [by eapply GetCompound_ok|].
    exists (lobby_properties base). split_and!; [done|by apply lobby_properties_ok|done|]. exists base. split; [done|].
    intros name. rewrite lobby_properties_fold. apply Get_fold_Insert.
  - rewrite lobbyDefaultDimension_eq. exists default_dimension. split_and!; [done|apply default_dimension_ok|done|done].
Qed.

Definition bare_codec : Compound := [(str "minecraft:dimension_type", TCompound [])].

Lemma lobby_dimension_wellformed_witness :
  compound_ok bare_codec
  /\ exists d, LobbyDimension bare_codec = Ret d /\ compound_ok d.
Proof.
  assert (compound_ok bare_codec) as Hok.
  { apply tag_ok_compound. split; [apply (bool_decide_unpack _); vm_compute; exact I|].
    apply Forall_cons. split; [|apply Forall_nil_2]. split; [reflexivity|]. split; [discriminate|].
    apply tag_ok_compound. split; [apply NoDup_nil_2|apply Forall_nil_2]. }
  split; [exact Hok|]. destruct (lobby_dimension_wellformed bare_codec Hok) as (d & H1 & H2 & _). exists d. exact (conj H1 H2).
Defined.
