(* ===== verification/ServerProperties.v ===== *)
(** The server.properties file: [src/mc/server_properties.go].

    A file is what the file system answers for its path. A change set (a Go
    map) is the list of its entries in the order in which the map is iterated;
    the theorem holds for every order. *)
From stdpp Require Import gmap.
From S2P Require Import Prelude Config Net Access.

(** A file that is missing or not a regular file, one that cannot be read, or
    its contents. *)
Inductive File := NoFile | Unreadable | Contents (c : bytes).

(** ** Reading *)

Fixpoint find_property (property : bytes) (lines : list bytes) : option bytes :=
  match lines with
  | [] => None
  | line :: lines' =>
      match IndexByte line x3d with
      | None => find_property property lines'
      | Some idx =>
          if decide (ToLower (TrimSpace (take idx line)) = ToLower property)
          then Some (TrimSpace (drop (S idx) line))
          else find_property property lines'
      end
  end.

Definition ReadServerProperties (file : File) (property : bytes) : option bytes :=
  match file with
  | NoFile | Unreadable => None
  | Contents c => find_property property (split_lines c)
  end.

(** ** Rewriting *)

Definition serverPropertiesEOL : bytes := [x0d; x0a].

Abbreviation Changes := (list (bytes * bytes)).

Definition change_for (key : bytes) (changes : Changes) : option bytes :=
  match list_find (fun e => fst e = key) changes with Some (_, e) => Some (snd e) | None => None end.

Definition delete_change (key : bytes) (changes : Changes) : Changes := filter (fun e => fst e <> key) changes.

(** Lines without their ends, empty lines dropped. *)
Definition content_lines (contents : bytes) : list bytes :=
  filter (fun l => l <> []) (map TrimSuffix_cr (split_lines contents)).

Definition setting (key value : bytes) : bytes := key ++ [x3d] ++ value.

(** One line with the changes that remain: the new line, the changes that
    still remain, and whether something changed. *)
Definition rewrite_line (remaining : Changes) (line : bytes) : bytes * Changes * bool :=
  let trim := TrimSpace line in
  if bool_decide (head trim = Some x23) || bool_decide (trim = []) then (line, remaining, false)
  else
    match IndexByte line x3d with
    | None => (line, remaining, false)
    | Some idx =>
        let key := TrimSpace (take idx line) in
        let value := drop (S idx) line in
        match change_for (ToLower key) remaining with
        | None => (line, remaining, false)
        | Some new =>
            let remaining := delete_change (ToLower key) remaining in
            if decide (value = new) then (line, remaining, false) else (setting key new, remaining, true)
        end
    end.

Fixpoint rewrite_lines (remaining : Changes) (lines : list bytes) : list bytes * Changes * bool :=
  match lines with
  | [] => ([], remaining, false)
  | line :: lines' =>
      let '(line, remaining, changed) := rewrite_line remaining line in
      let '(newLines, remaining, changed') := rewrite_lines remaining lines' in
      (line :: newLines, remaining, changed || changed')
  end.

(** [strings.Join(ls, serverPropertiesEOL)] *)
Fixpoint join_eol (ls : list bytes) : bytes :=
  match ls with
  | [] => []
  | [l] => l
  | l :: ls' => l ++ serverPropertiesEOL ++ join_eol ls'
  end.

Definition rewriteContents (contents : bytes) (changes : Changes) : bytes * bool :=
  match changes with
  | [] => (contents, false)
  | _ =>
      let '(newLines, remaining, changed) := rewrite_lines changes (content_lines contents) in
      (join_eol newLines ++ flat_map (fun e => serverPropertiesEOL ++ setting (fst e) (snd e)) remaining,
       changed || negb (bool_decide (remaining = [])))
  end.

(** The file afterwards, when writing succeeds. *)
Definition RewriteServerPropertiesFile (file : File) (changes : Changes) : File :=
  match changes with
  | [] => file
  | _ =>
      match file with
      | Contents c => let '(c', changed) := rewriteContents c changes in if changed : bool then Contents c' else file
      | _ => file
      end
  end.

(** [dir_ok] is whether the directory exists. *)
Definition RewriteServerPropertiesDir (dir_ok : bool) (file : File) (changes : Changes) : File :=
  match changes with
  | [] => file
  | _ => if dir_ok then RewriteServerPropertiesFile file changes else file
  end.

(** ** Trimming *)

Section Strip.

Context (pats : list bytes) (Hpats : Forall (fun p => p <> []) pats).

Lemma strip_one_Some s s' : strip_one pats s = Some s' -> exists p, p ∈ pats /\ s = p ++ s'.
Proof.
  clear Hpats. induction pats as [|p ps IH]; cbn [strip_one]; [done|]. destruct (decide _) as [E|].
  - intros [= <-]. exists p. split; [constructor|]. rewrite <- (take_drop (length p) s) at 1. by rewrite E.
  - intros (q & Hq & ->)%IH. exists q. split; [by constructor|done].
Qed.

Lemma strip_one_None s : strip_one pats s = None <-> forall p t, p ∈ pats -> s <> p ++ t.
Proof.
  clear Hpats. induction pats as [|p ps IH]; cbn [strip_one]; [split; [intros _ p t Hp; by apply not_elem_of_nil in Hp|done]|].
  destruct (decide _) as [E|E].
  - split; [done|]. intros H. exfalso. apply (H p (drop (length p) s)); [constructor|]. rewrite <- (take_drop (length p) s) at 1. by rewrite E.
  - rewrite IH. split; intros H q t.
    + intros [->|Hq]%elem_of_cons; [|by apply H]. intros ->. by rewrite take_app_length in E.
    + intros Hq. apply H. by constructor.
Qed.

Lemma strip_one_shorter s s' : strip_one pats s = Some s' -> (length s' < length s)%nat.
Proof.
  intros (p & Hp & ->)%strip_one_Some. rewrite Forall_forall in Hpats. specialize (Hpats p Hp).
  rewrite length_app. destruct p; [done|]. cbn. lia.
Qed.

Lemma strip_done n s : (length s <= n)%nat -> strip_one pats (strip n pats s) = None.
Proof.
  revert s. induction n as [|n IH]; intros s Hn; cbn [strip].
  - destruct s; [|cbn in Hn; lia]. apply strip_one_None. intros p t Hp E. symmetry in E. apply app_eq_nil in E as [-> _].
    rewrite Forall_forall in Hpats. by apply (Hpats [] Hp).
  - destruct (strip_one pats s) as [s'|] eqn:E; [|done]. apply IH. apply strip_one_shorter in E. lia.
Qed.

Lemma strip_enough n m s : (length s <= n)%nat -> (length s <= m)%nat -> strip n pats s = strip m pats s.
Proof.
  revert m s. induction n as [|n IH]; intros m s Hn Hm.
  - destruct s; [|cbn in Hn; lia]. destruct m as [|m]; [done|]. cbn [strip].
    pose proof (strip_done 0 [] ltac:(done)) as E. cbn [strip] in E. by rewrite E.
  - destruct m as [|m].
    + destruct s; [|cbn in Hm; lia]. cbn [strip]. pose proof (strip_done 0 [] ltac:(done)) as E. cbn [strip] in E. by rewrite E.
    + cbn [strip]. destruct (strip_one pats s) as [s'|] eqn:E; [|done]. apply strip_one_shorter in E. apply IH; lia.
Qed.

Lemma strip_fixed n s : strip_one pats s = None -> strip n pats s = s.
Proof. intros E. destruct n; [done|]. cbn [strip]. by rewrite E. Qed.

(** What is stripped is a sequence of patterns. *)
Lemma strip_split n s : exists w, s = w ++ strip n pats s /\ Forall (fun b => b ∈ concat pats) w.
Proof.
  clear Hpats. revert s. induction n as [|n IH]; intros s; cbn [strip]; [by exists []|].
  destruct (strip_one pats s) as [s'|] eqn:E; [|by exists []]. apply strip_one_Some in E as (p & Hp & ->).
  destruct (IH s') as (w & Ew & Hw). exists (p ++ w). split; [by rewrite <- app_assoc, <- Ew|].
  apply Forall_app. split; [|done]. apply Forall_forall. intros b Hb. apply list_elem_of_In, in_concat.
  exists p. split; by apply list_elem_of_In.
Qed.

(** Stripping does not depend on what follows a byte that is in no pattern. *)
Lemma strip_upto n w b :
  b ∉ concat pats -> exists w', (forall t, strip n pats (w ++ b :: t) = w' ++ b :: t) /\ w' `suffix_of` w.
Proof.
  clear Hpats. intros Hb. assert (forall p t w, p ∈ pats -> forall u, w ++ b :: t = p ++ u -> exists v, w = p ++ v /\ u = v ++ b :: t) as Hpre.
  { intros p t w0 Hp u E. destruct (app_eq_inv _ _ _ _ E) as [(v & -> & Ev)|(v & -> & Ev)]; [by exists v|].
    destruct v as [|x v]; [exists []; by rewrite !app_nil_r|]. injection Ev as <- _. exfalso. apply Hb.
    apply list_elem_of_In, in_concat. exists (w0 ++ b :: v). split; [by apply list_elem_of_In|].
    apply in_or_app. right. by left. }
  revert w. induction n as [|n IH]; intros w; cbn [strip]; [by exists w|].
  destruct (strip_one pats (w ++ [b])) as [s0|] eqn:E0.
  - pose proof E0 as E0'. apply strip_one_Some in E0' as (p & Hp & Ep). destruct (Hpre p [] w Hp s0 Ep) as (v & -> & ->).
    destruct (IH v) as (w' & Hw' & Hs). exists w'. split.
    + intros t. assert (strip_one pats ((p ++ v) ++ b :: t) = Some (v ++ b :: t)) as ->; [|apply Hw'].
      clear -E0 Hpre. revert E0. induction pats as [|q ps IHp]; cbn [strip_one]; [done|].
      assert (forall p t w, p ∈ ps -> forall u, w ++ b :: t = p ++ u -> exists v, w = p ++ v /\ u = v ++ b :: t) as Hpre'
        by (intros; apply Hpre; [by constructor|done]).
      destruct (decide (take (length q) ((p ++ v) ++ [b]) = q)) as [Eq|Eq].
      * intros [= Ed]. destruct (Hpre q [] (p ++ v) ltac:(constructor) (drop (length q) ((p ++ v) ++ [b]))) as (v' & Ev & Eu).
        { rewrite <- (take_drop (length q) ((p ++ v) ++ [b])) at 1. by rewrite Eq. }
        rewrite Ed in Eu. apply (app_inj_2 _ _ [b] [b]) in Eu as [-> _]; [|done].
        rewrite Ev, <- app_assoc, take_app_length, decide_True, drop_app_length by done. done.
      * intros E0. rewrite decide_False; [by apply IHp|]. intros Eq2. apply Eq.
        destruct (Hpre q t (p ++ v) ltac:(constructor) (drop (length q) ((p ++ v) ++ b :: t))) as (v' & Ev & _).
        { rewrite <- (take_drop (length q) ((p ++ v) ++ b :: t)) at 1. by rewrite Eq2. }
        by rewrite Ev, <- app_assoc, take_app_length.
    + by apply suffix_app_r.
  - exists w. split; [|done]. intros t. assert (strip_one pats (w ++ b :: t) = None) as ->; [|done].
    apply strip_one_None. intros p u Hp E. rewrite strip_one_None in E0. destruct (Hpre p t w Hp u E) as (v & -> & _).
    apply (E0 p (v ++ [b]) Hp). by rewrite <- app_assoc.
Qed.

End Strip.

Abbreviation rev_space := (map (@rev byte) white_space).

Lemma white_space_nonempty : Forall (fun p => p <> []) white_space.
Proof. apply (bool_decide_unpack _). vm_compute. exact I. Qed.
Lemma rev_space_nonempty : Forall (fun p => p <> []) rev_space.
Proof. apply (bool_decide_unpack _). vm_compute. exact I. Qed.

(** [TrimSpace] in two steps. *)
Definition TrimLeft (s : bytes) : bytes := strip (length s) white_space s.
Definition TrimRight (s : bytes) : bytes := rev (strip (length s) rev_space (rev s)).

Lemma TrimSpace_eq s : TrimSpace s = TrimRight (TrimLeft s).
Proof. reflexivity. Qed.

Lemma TrimLeft_split s : exists w, s = w ++ TrimLeft s /\ Forall (fun b => b ∈ concat white_space) w.
Proof. apply strip_split. Qed.

Lemma TrimRight_split s : exists w, s = TrimRight s ++ w /\ Forall (fun b => b ∈ concat rev_space) w.
Proof.
  destruct (strip_split rev_space (length s) (rev s)) as (w & E & Hw). exists (rev w). split.
  - unfold TrimRight. rewrite <- rev_app_distr, <- E. by rewrite rev_involutive.
  - apply Forall_forall. intros b Hb. rewrite Forall_forall in Hw. apply Hw. by apply list_elem_of_In, in_rev, list_elem_of_In.
Qed.

Lemma TrimSpace_sub b s : b ∈ TrimSpace s -> b ∈ s.
Proof.
  intros Hb. destruct (TrimLeft_split s) as (w & E & _), (TrimRight_split (TrimLeft s)) as (w' & E' & _).
  rewrite E, E'. rewrite TrimSpace_eq in Hb. rewrite !elem_of_app. auto.
Qed.

(** A byte that is not part of white space survives. *)
Lemma TrimSpace_keeps b s : b ∉ concat white_space -> b ∉ concat rev_space -> b ∈ s -> b ∈ TrimSpace s.
Proof.
  intros H1 H2 Hb. destruct (TrimLeft_split s) as (w & E & Hw), (TrimRight_split (TrimLeft s)) as (w' & E' & Hw').
  rewrite Forall_forall in Hw, Hw'. rewrite TrimSpace_eq. rewrite E in Hb. apply elem_of_app in Hb as [Hb|Hb]; [by apply Hw in Hb|].
  rewrite E' in Hb. apply elem_of_app in Hb as [Hb|Hb]; [done|by apply Hw' in Hb].
Qed.

Lemma TrimSpace_fixed s : strip_one white_space s = None -> strip_one rev_space (rev s) = None -> TrimSpace s = s.
Proof.
  intros H1 H2. rewrite TrimSpace_eq. unfold TrimRight, TrimLeft. rewrite (strip_fixed _ _ s H1), (strip_fixed _ _ _ H2).
  apply rev_involutive.
Qed.

Lemma TrimSpace_idem s : TrimSpace (TrimSpace s) = TrimSpace s.
Proof.
  rewrite (TrimSpace_eq s). apply TrimSpace_fixed.
  - destruct (TrimRight_split (TrimLeft s)) as (w & E & _).
    pose proof (strip_done white_space white_space_nonempty (length s) s ltac:(done)) as H. fold (TrimLeft s) in H.
    rewrite strip_one_None in *. intros p t Hp Et. apply (H p (t ++ w) Hp). by rewrite E, Et, <- app_assoc at 1.
  - unfold TrimRight. rewrite rev_involutive. apply strip_done; [apply rev_space_nonempty|]. by rewrite length_rev.
Qed.

(** A carriage return at the end is trimmed. *)
Lemma strip_one_cr pats s :
  Forall (fun p => last p = Some x0d -> p = [x0d]) pats -> s <> [] ->
  strip_one pats (s ++ [x0d]) = (fun t => t ++ [x0d]) <$> strip_one pats s.
Proof.
  intros Hp Hs. induction Hp as [|p pats Hp _ IH]; cbn [strip_one]; [done|].
  destruct (decide (take (length p) s = p)) as [E|E].
  - assert (length p <= length s)%nat as Hl by (rewrite <- E, length_take; lia).
    rewrite take_app_le, decide_True by done. cbn. by rewrite drop_app_le.
  - rewrite decide_False; [exact IH|]. intros E2. destruct (Nat.le_gt_cases (length p) (length s)) as [Hl|Hl].
    + by rewrite take_app_le in E2.
    + rewrite take_ge in E2 by (rewrite length_app; cbn; lia). subst p.
      specialize (Hp ltac:(by rewrite last_snoc)). by destruct s as [|? [|]].
Qed.

Lemma strip_cr n s : (length s <= n)%nat ->
  strip (S n) white_space (s ++ [x0d]) = match strip n white_space s with [] => [] | y => y ++ [x0d] end.
Proof.
  assert (forall k, strip k white_space [] = []) as Hnil by (by intros []).
  revert s. induction n as [|n IH]; intros s Hn.
  - destruct s; [|cbn in Hn; lia]. reflexivity.
  - destruct s as [|b s]; [rewrite Hnil; change (strip (S (S n)) white_space ([] ++ [x0d])) with (strip (S n) white_space []); apply Hnil|].
    remember (b :: s) as w eqn:Ew. cbn [strip]. rewrite strip_one_cr; [| |by subst w].
    2:{ apply (bool_decide_unpack _). vm_compute. exact I. }
    destruct (strip_one white_space w) as [w'|] eqn:E; cbn [fmap option_fmap option_map].
    + apply strip_one_shorter in E; [|apply white_space_nonempty]. apply IH. lia.
    + by subst w.
Qed.

Lemma TrimSpace_cr s : TrimSpace (s ++ [x0d]) = TrimSpace s.
Proof.
  rewrite !TrimSpace_eq. unfold TrimLeft. rewrite length_app, Nat.add_1_r, strip_cr by done.
  destruct (strip (length s) white_space s) as [|b y]; [reflexivity|]. unfold TrimRight.
  rewrite rev_app_distr, length_app, Nat.add_1_r. cbn [rev app]. remember (rev y ++ [b]) as t.
  change (strip (S (length (b :: y))) rev_space (x0d :: t)) with (strip (length (b :: y)) rev_space t). done.
Qed.

(** ** Splitting at the equals sign *)

Lemma IndexByte_None s c : IndexByte s c = None <-> c ∉ s.
Proof.
  induction s as [|b s IH]; cbn [IndexByte]; [split; [intros _; apply not_elem_of_nil|done]|].
  rewrite not_elem_of_cons. destruct (decide (b = c)) as [->|]; [by split; [|intros []]|].
  rewrite fmap_None, IH. split; [intros; split; [congruence|done]|by intros [_ ?]].
Qed.

Lemma IndexByte_Some s c i : IndexByte s c = Some i -> s = take i s ++ c :: drop (S i) s /\ c ∉ take i s.
Proof.
  revert i. induction s as [|b s IH]; intros i; cbn [IndexByte]; [done|]. destruct (decide (b = c)) as [->|].
  - intros [= <-]. cbn [take drop app]. rewrite drop_0. split; [done|apply not_elem_of_nil].
  - intros (j & E & ->)%fmap_Some. destruct (IH j E) as [E1 E2]. cbn [take drop app]. split; [by f_equal|].
    by apply not_elem_of_cons.
Qed.

Lemma IndexByte_app u c v : c ∉ u -> IndexByte (u ++ c :: v) c = Some (length u).
Proof.
  induction u as [|b u IH]; cbn [app IndexByte length]; [by rewrite decide_True|].
  intros [H1 H2]%not_elem_of_cons. rewrite decide_False by done. by rewrite IH.
Qed.

Lemma drop_past {A} (k : list A) x v : drop (S (length k)) (k ++ x :: v) = v.
Proof. induction k as [|y k IH]; [cbn; apply drop_0|exact IH]. Qed.

(** The key and the value of a line, as the reader sees them. *)
Definition line_setting (line : bytes) : option (bytes * bytes) :=
  idx ← IndexByte line x3d; Some (ToLower (TrimSpace (take idx line)), TrimSpace (drop (S idx) line)).

Lemma find_property_cons p line ls :
  find_property p (line :: ls)
  = match line_setting line with
    | Some (k, v) => if decide (k = ToLower p) then Some v else find_property p ls
    | None => find_property p ls
    end.
Proof. unfold line_setting. cbn [find_property]. by destruct (IndexByte line x3d). Qed.

(** All values the lines give a property, in their order. A reader may take the
    first, as the gateway's own does, or the last. *)
Fixpoint line_values (p : bytes) (lines : list bytes) : list bytes :=
  match lines with
  | [] => []
  | line :: lines' =>
      match line_setting line with
      | Some (k, v) => if decide (k = ToLower p) then v :: line_values p lines' else line_values p lines'
      | None => line_values p lines'
      end
  end.

Definition assigned (file : File) (p : bytes) : list bytes :=
  match file with Contents c => line_values p (split_lines c) | _ => [] end.

Lemma ReadServerProperties_first file p : ReadServerProperties file p = head (assigned file p).
Proof.
  destruct file as [| |c]; try done. cbn. induction (split_lines c) as [|l ls IH]; [done|].
  rewrite find_property_cons. cbn [line_values]. destruct (line_setting l) as [[k v]|]; [|done]. by destruct (decide _).
Qed.

(** The first value changes, or there is a new one. *)
Definition with_first (change : option bytes) (values : list bytes) : list bytes :=
  match change with Some v => v :: tail values | None => values end.

Lemma line_values_same p ls ls' :
  Forall2 (fun l l' => line_setting l = line_setting l') ls ls' -> line_values p ls = line_values p ls'.
Proof. induction 1 as [|l l' ls ls' E _ IH]; [done|]. cbn [line_values]. by rewrite E, IH. Qed.

Lemma line_setting_cr line : line_setting (line ++ [x0d]) = line_setting line.
Proof.
  unfold line_setting. destruct (IndexByte line x3d) as [i|] eqn:E.
  - apply IndexByte_Some in E as [E Hn]. cbn [mbind option_bind].
    set (k := take i line) in *. set (v := drop (S i) line) in *. clearbody k v. rewrite E, <- app_assoc. cbn [app]. rewrite IndexByte_app by done. cbn [mbind option_bind].
    by rewrite take_app_length, drop_past, TrimSpace_cr.
  - assert (IndexByte (line ++ [x0d]) x3d = None) as ->; [|done]. apply IndexByte_None. apply IndexByte_None in E.
    rewrite elem_of_app, list_elem_of_singleton. intros [?|?]; done.
Qed.

Lemma line_setting_setting key value :
  x3d ∉ key -> line_setting (setting key value) = Some (ToLower (TrimSpace key), TrimSpace value).
Proof.
  intros Hk. unfold line_setting, setting. cbn [app]. rewrite IndexByte_app by done. cbn [mbind option_bind].
  by rewrite take_app_length, drop_past.
Qed.

(** ** Lines that are not settings *)

Lemma equals_sign_kept : (x3d ∉ concat white_space) /\ x3d ∉ concat rev_space.
Proof. split; apply (bool_decide_unpack _); vm_compute; exact I. Qed.

Lemma hash_kept : (x23 ∉ concat white_space) /\ x23 ∉ concat rev_space.
Proof. split; apply (bool_decide_unpack _); vm_compute; exact I. Qed.

Lemma blank_line line : TrimSpace line = [] -> line_setting line = None.
Proof.
  intros E. unfold line_setting. assert (IndexByte line x3d = None) as ->; [|done]. apply IndexByte_None. intros Hin.
  destruct equals_sign_kept as [H1 H2]. apply (TrimSpace_keeps x3d line H1 H2) in Hin. rewrite E in Hin. by apply not_elem_of_nil in Hin.
Qed.

Lemma ToLower_hash s : head (ToLower (x23 :: s)) = Some x23.
Proof. destruct s as [|b [|c s]]; reflexivity. Qed.

(** Trimming keeps a leading hash sign, whatever follows it. *)
Lemma TrimSpace_hash w :
  (exists t, head (TrimSpace (w ++ x23 :: t)) = Some x23) -> x23 ∉ w ->
  Forall (fun b => b ∈ concat white_space) w /\ forall t, head (TrimSpace (w ++ x23 :: t)) = Some x23.
Proof.
  intros (t0 & E) Hw. destruct hash_kept as [H1 H2].
  assert (forall n, exists w', (forall t, (length (w ++ x23 :: t) <= n)%nat -> TrimLeft (w ++ x23 :: t) = w' ++ x23 :: t) /\ w' `suffix_of` w) as Hl.
  { intros n. destruct (strip_upto white_space n w x23 H1) as (w' & Hw' & Hs). exists w'. split; [|done].
    intros t Ht. rewrite <- Hw'. apply strip_enough; [apply white_space_nonempty|done|done]. }
  assert (forall t w', TrimLeft (w ++ x23 :: t) = w' ++ x23 :: t -> head (TrimSpace (w ++ x23 :: t)) = head (w' ++ [x23])) as Hr.
  { intros t w' El. rewrite TrimSpace_eq, El. unfold TrimRight. rewrite rev_app_distr. cbn [rev]. rewrite <- !app_assoc.
    destruct (strip_upto rev_space (length (w' ++ x23 :: t)) (rev t) x23 H2) as (u & Hu & _). cbn [app]. rewrite Hu.
    rewrite rev_app_distr. cbn [rev]. rewrite rev_involutive, <- app_assoc. by destruct w'. }
  assert (forall t, TrimLeft (w ++ x23 :: t) = x23 :: t) as Hall.
  { intros t. destruct (Hl (length (w ++ x23 :: t0) + length (w ++ x23 :: t))%nat) as (w' & Hw' & Hs).
    rewrite (Hw' t) by lia. rewrite (Hr t0 w' (Hw' t0 ltac:(lia))) in E. destruct w' as [|b w']; [done|].
    injection E as ->. exfalso. apply Hw. destruct Hs as [v ->]. apply elem_of_app. right. constructor. }
  split; [|intros t; rewrite (Hr t [] (Hall t)); done].
  destruct (TrimLeft_split (w ++ x23 :: t0)) as (v & Ev & Hv). rewrite Hall in Ev. by apply app_inv_tail in Ev as <-.
Qed.

Lemma comment_line line k v : head (TrimSpace line) = Some x23 -> line_setting line = Some (k, v) -> head k = Some x23.
Proof.
  intros Hh. unfold line_setting. destruct (IndexByte line x3d) as [i|] eqn:Ei; [|done]. intros [= <- _].
  apply IndexByte_Some in Ei as [Ei Hn].
  assert (exists j, IndexByte line x23 = Some j) as [j Ej].
  { destruct (IndexByte line x23) as [j|] eqn:Ej; [by exists j|]. apply IndexByte_None in Ej. exfalso. apply Ej, TrimSpace_sub.
    destruct (TrimSpace line); [done|]. injection Hh as ->. constructor. }
  apply IndexByte_Some in Ej as [Ej Hj]. set (w := take j line) in *. set (r := drop (S j) line) in *. clearbody w r.
  destruct (TrimSpace_hash w) as [Hws Hall]; [exists r; by rewrite <- Ej|done|].
  destruct (app_eq_inv (take i line) (x3d :: drop (S i) line) w (x23 :: r)) as [(u & E1 & E2)|(u & E1 & E2)]; [congruence| |].
  - destruct u as [|b u]; [by injection E2|]. injection E2 as <- _. rewrite E1.
    specialize (Hall u). destruct (TrimSpace (w ++ x23 :: u)) as [|b s]; [done|]. injection Hall as ->. apply ToLower_hash.
  - destruct u as [|b u]; [by injection E2|]. injection E2 as <- _. exfalso.
    rewrite E1 in Hws. apply Forall_app in Hws as [_ Hws]. apply Forall_cons in Hws as [Hws _]. by apply equals_sign_kept in Hws.
Qed.

(** ** The rewritten lines *)

Definition change_ok (e : bytes * bytes) : Prop :=
  (x3d ∉ fst e) /\ (x0a ∉ fst e) /\ TrimSpace (fst e) = fst e /\ ToLower (fst e) = fst e
  /\ (x0a ∉ snd e) /\ TrimSpace (snd e) = snd e.

Definition setting_of (e : bytes * bytes) : bytes := setting (fst e) (snd e).

Lemma change_for_cons k e changes :
  change_for k (e :: changes) = if decide (fst e = k) then Some (snd e) else change_for k changes.
Proof. unfold change_for. cbn [list_find]. destruct (decide (fst e = k)); [done|]. by destruct (list_find _ changes) as [[]|]. Qed.

Lemma change_for_elem k v changes : change_for k changes = Some v -> (k, v) ∈ changes.
Proof.
  induction changes as [|e changes IH]; [done|]. rewrite change_for_cons.
  destruct (decide (fst e = k)) as [<-|]; [intros [= <-]; destruct e; constructor|]. intros H. constructor. by apply IH.
Qed.

Lemma change_for_delete k k' changes : k <> k' -> change_for k (delete_change k' changes) = change_for k changes.
Proof.
  intros Hne. induction changes as [|e changes IH]; [done|]. unfold delete_change. rewrite filter_cons, change_for_cons.
  destruct (decide (fst e <> k')) as [H|H]; [rewrite change_for_cons; by destruct (decide (fst e = k))|].
  rewrite decide_False; [exact IH|]. intros E. apply H. congruence.
Qed.

Lemma change_for_deleted k changes : change_for k (delete_change k changes) = None.
Proof.
  induction changes as [|e changes IH]; [done|]. unfold delete_change. rewrite filter_cons.
  case_decide as H; [|exact IH]. rewrite change_for_cons, decide_False by done. exact IH.
Qed.

Lemma change_for_absent k changes : k ∉ map fst changes -> change_for k changes = None.
Proof.
  induction changes as [|e changes IH]; [done|]. cbn [map]. intros [H1 H2]%not_elem_of_cons.
  rewrite change_for_cons, decide_False by done. by apply IH.
Qed.

(** Changes that a map can hold and a file can carry. *)
Definition changes_ok (changes : Changes) : Prop := Forall change_ok changes /\ NoDup (map fst changes).

Lemma delete_ok k changes : changes_ok changes -> changes_ok (delete_change k changes).
Proof.
  intros [H1 H2]. unfold changes_ok, delete_change. induction changes as [|e changes IH]; [done|].
  apply Forall_cons in H1 as [He H1]. cbn [map] in H2. apply NoDup_cons in H2 as [Hn H2]. destruct (IH H1 H2) as [I1 I2].
  rewrite filter_cons. case_decide; [|done]. split; [by constructor|]. cbn [map]. constructor; [|done].
  intros (e' & E & He'%list_elem_of_filter)%list_elem_of_fmap. apply Hn. rewrite E. apply list_elem_of_fmap. exists e'. split; [done|]. apply He'.
Qed.

Lemma values_appended p changes : changes_ok changes ->
  line_values p (map setting_of changes) = with_first (change_for (ToLower p) changes) [].
Proof.
  intros [Hok Hn]. induction Hok as [|[k v] changes (H1 & _ & H3 & H4 & _ & H6) _ IH]; [done|]. cbn [map fst snd] in *.
  apply NoDup_cons in Hn as [Hk Hn]. specialize (IH Hn).
  cbn [line_values]. rewrite change_for_cons. cbn [fst snd]. change (setting_of (k, v)) with (setting k v).
  rewrite line_setting_setting, H3, H4, H6 by done. case_decide as E; [|done]. rewrite IH, <- E, change_for_absent by done. done.
Qed.

(** What one line becomes: its setting, and the changes left. *)
Lemma rewrite_line_setting remaining line p : changes_ok remaining -> head (ToLower p) <> Some x23 ->
  let '(line', remaining', _) := rewrite_line remaining line in
  changes_ok remaining'
  /\ forall ls ls',
     line_values p ls' = with_first (change_for (ToLower p) remaining') (line_values p ls) ->
     line_values p (line' :: ls') = with_first (change_for (ToLower p) remaining) (line_values p (line :: ls)).
Proof.
  intros Hok Hp. unfold rewrite_line.
  assert (forall ls ls', (line_setting line = None \/ exists k v, line_setting line = Some (k, v) /\ k <> ToLower p) ->
    line_values p ls' = with_first (change_for (ToLower p) remaining) (line_values p ls) ->
    line_values p (line :: ls') = with_first (change_for (ToLower p) remaining) (line_values p (line :: ls))) as Hskip.
  { intros ls ls' Hs E. cbn [line_values]. destruct Hs as [-> |(k & v & -> & Hk)]; [done|].
    rewrite !decide_False by done. exact E. }
  case_bool_decide as Hc; cbn [orb].
  { split; [done|]. intros ls ls'. apply Hskip. destruct (line_setting line) as [[k v]|] eqn:E; [right|by left].
    exists k, v. split; [done|]. apply comment_line in E; [|done]. intros ->. done. }
  case_bool_decide as Hb; [split; [done|]; intros ls ls'; apply Hskip; left; by apply blank_line|].
  destruct (IndexByte line x3d) as [i|] eqn:Ei.
  2:{ split; [done|]. intros ls ls'. apply Hskip. left. unfold line_setting. by rewrite Ei. }
  cbn zeta. set (key := TrimSpace (take i line)).
  assert (line_setting line = Some (ToLower key, TrimSpace (drop (S i) line))) as Hl by (unfold line_setting; by rewrite Ei).
  destruct (change_for (ToLower key) remaining) as [new|] eqn:Ec.
  2:{ split; [done|]. intros ls ls' E. destruct (decide (ToLower key = ToLower p)) as [Ek|Ek]; [|apply Hskip; eauto 6].
      cbn [line_values]. rewrite Hl. rewrite <- Ek, Ec in *. rewrite E. by rewrite !decide_True. }
  assert (TrimSpace new = new) as Hnew.
  { apply change_for_elem in Ec. destruct Hok as [Hok _]. rewrite Forall_forall in Hok. by apply Hok in Ec as (_ & _ & _ & _ & _ & ?). }
  assert (exists line', (if decide (drop (S i) line = new) then (line, delete_change (ToLower key) remaining, false)
    else (setting key new, delete_change (ToLower key) remaining, true))
    = (line', delete_change (ToLower key) remaining, negb (bool_decide (drop (S i) line = new)))
    /\ line_setting line' = Some (ToLower key, new)) as (line' & -> & Hl').
  { destruct (decide (drop (S i) line = new)) as [E|E].
    - exists line. rewrite bool_decide_eq_true_2 by done. split; [done|]. by rewrite Hl, E, Hnew.
    - exists (setting key new). rewrite bool_decide_eq_false_2 by done. split; [done|]. rewrite line_setting_setting.
      + unfold key. by rewrite TrimSpace_idem, Hnew.
      + intros Hin%TrimSpace_sub. by apply IndexByte_Some in Ei as [_ ?]. }
  split; [by apply delete_ok|]. intros ls ls' E. cbn [line_values]. rewrite Hl, Hl'.
  destruct (decide (ToLower key = ToLower p)) as [Ek|Ek].
  - rewrite <- Ek in *. rewrite change_for_deleted in E. cbn in E. by rewrite E, Ec.
  - rewrite E, change_for_delete by congruence. done.
Qed.

Lemma rewrite_lines_values remaining lines p : changes_ok remaining -> head (ToLower p) <> Some x23 ->
  let '(newLines, remaining', _) := rewrite_lines remaining lines in
  line_values p (newLines ++ map setting_of remaining') = with_first (change_for (ToLower p) remaining) (line_values p lines).
Proof.
  intros Hok Hp. revert remaining Hok. induction lines as [|line lines IH]; intros remaining Hok; cbn [rewrite_lines].
  - by rewrite app_nil_l, values_appended.
  - pose proof (rewrite_line_setting remaining line p Hok Hp) as H.
    destruct (rewrite_line remaining line) as [[line' rem1] ch1]. destruct H as [Hok1 H].
    specialize (IH rem1 Hok1). destruct (rewrite_lines rem1 lines) as [[new rem2] ch2]. apply H, IH.
Qed.

Lemma rewrite_line_unchanged remaining line line' rem' : rewrite_line remaining line = (line', rem', false) -> line' = line.
Proof.
  unfold rewrite_line. destruct (_ || _); [by intros [= <- _]|]. destruct (IndexByte line x3d); [|by intros [= <- _]].
  destruct (change_for _ _); [|by intros [= <- _]]. destruct (decide _); [by intros [= <- _]|done].
Qed.

Lemma rewrite_lines_unchanged remaining lines new rem' : rewrite_lines remaining lines = (new, rem', false) -> new = lines.
Proof.
  revert remaining new rem'. induction lines as [|line lines IH]; intros remaining new rem'; cbn [rewrite_lines]; [by intros [= <- _]|].
  destruct (rewrite_line remaining line) as [[line' rem1] ch1] eqn:E1.
  destruct (rewrite_lines rem1 lines) as [[new2 rem2] ch2] eqn:E2. intros [= <- _ Hc].
  apply orb_false_iff in Hc as [-> ->]. apply rewrite_line_unchanged in E1 as ->. by apply IH in E2 as ->.
Qed.

(** ** Lines and text *)

Definition one_line (l : bytes) : Prop := x0a ∉ l.

Lemma split_lines_app l t : one_line l -> split_lines (l ++ x0a :: t) = l :: split_lines t.
Proof.
  unfold one_line. induction l as [|b l IH]; intros Hl.
  - cbn [app split_lines]. destruct (split_lines t) as [|w ws] eqn:E; [|by rewrite decide_True].
    destruct t as [|c t]; [done|]. cbn [split_lines] in E. destruct (split_lines t); [done|by destruct (decide _)].
  - apply not_elem_of_cons in Hl as [Hb Hl]. cbn [app split_lines]. rewrite (IH Hl). by rewrite decide_False.
Qed.

Lemma split_lines_single l : one_line l -> split_lines l = [l].
Proof.
  unfold one_line. induction l as [|b l IH]; intros Hl; [done|]. apply not_elem_of_cons in Hl as [Hb Hl].
  cbn [split_lines]. rewrite (IH Hl). by rewrite decide_False.
Qed.

Lemma split_lines_one_line s : Forall one_line (split_lines s).
Proof.
  unfold one_line. induction s as [|b s IH]; cbn [split_lines]; [repeat constructor; apply not_elem_of_nil|].
  destruct IH as [|w ws Hw Hws]; [repeat constructor; apply not_elem_of_nil|].
  destruct (decide (b = x0a)); constructor; [apply not_elem_of_nil|by constructor|by apply not_elem_of_cons|done].
Qed.

Definition same_setting (l l' : bytes) : Prop := line_setting l = line_setting l'.

Lemma split_join_eol ls : ls <> [] -> Forall one_line ls -> Forall2 same_setting (split_lines (join_eol ls)) ls.
Proof.
  intros Hne Hl. induction Hl as [|l ls Hl Hls IH]; [done|]. destruct ls as [|l2 ls].
  - cbn [join_eol]. rewrite split_lines_single by done. by repeat constructor.
  - change (join_eol (l :: l2 :: ls)) with (l ++ [x0d; x0a] ++ join_eol (l2 :: ls)).
    change ([x0d; x0a] ++ join_eol (l2 :: ls)) with ([x0d] ++ x0a :: join_eol (l2 :: ls)). rewrite app_assoc.
    rewrite split_lines_app.
    + constructor; [apply line_setting_cr|by apply IH].
    + unfold one_line in *. rewrite elem_of_app, list_elem_of_singleton. by intros [?|?].
Qed.

Lemma join_eol_app ls es : ls <> [] ->
  join_eol ls ++ flat_map (fun e => serverPropertiesEOL ++ setting (fst e) (snd e)) es = join_eol (ls ++ map setting_of es).
Proof.
  intros Hne. revert ls Hne. induction es as [|e es IH]; intros ls Hne; [by rewrite !app_nil_r|].
  cbn [flat_map map]. change (ls ++ setting_of e :: map setting_of es) with (ls ++ [setting_of e] ++ map setting_of es).
  rewrite (app_assoc ls). rewrite <- IH by (by destruct ls). rewrite app_assoc. f_equal.
  clear IH. induction ls as [|l ls IH]; [done|]. destruct ls as [|l2 ls].
  - done.
  - change (join_eol (l :: l2 :: ls)) with (l ++ serverPropertiesEOL ++ join_eol (l2 :: ls)).
    change (join_eol ((l :: l2 :: ls) ++ [setting_of e])) with (l ++ serverPropertiesEOL ++ join_eol ((l2 :: ls) ++ [setting_of e])).
    rewrite <- IH by done. by rewrite <- !(app_assoc).
Qed.

Lemma TrimSuffix_cr_setting l : line_setting (TrimSuffix_cr l) = line_setting l.
Proof.
  unfold TrimSuffix_cr. case_bool_decide as E; [|done]. apply last_Some in E as [l' ->].
  rewrite length_app, Nat.add_sub, take_app_length. by rewrite line_setting_cr.
Qed.

Lemma content_lines_values p c : line_values p (content_lines c) = line_values p (split_lines c).
Proof.
  unfold content_lines. induction (split_lines c) as [|l ls IH]; [done|]. cbn [map line_values]. rewrite filter_cons.
  rewrite <- TrimSuffix_cr_setting. destruct (decide (TrimSuffix_cr l <> [])) as [H|H].
  - cbn [line_values]. by rewrite IH.
  - apply dec_stable in H. rewrite H. exact IH.
Qed.

Lemma content_lines_one_line c : Forall one_line (content_lines c).
Proof.
  unfold content_lines. apply Forall_forall. intros l [_ Hl]%list_elem_of_filter.
  apply list_elem_of_fmap in Hl as (l0 & -> & Hl0). pose proof (split_lines_one_line c) as H. rewrite Forall_forall in H.
  specialize (H l0 Hl0). unfold one_line, TrimSuffix_cr in *. case_bool_decide; [|done].
  intros Hin. apply H. by eapply elem_of_subseteq; [apply subseteq_take|].
Qed.

Lemma rewrite_line_ok remaining line line' rem' ch : Forall change_ok remaining -> one_line line ->
  rewrite_line remaining line = (line', rem', ch) -> one_line line' /\ Forall change_ok rem'.
Proof.
  intros Hok Hl. unfold rewrite_line. destruct (_ || _); [by intros [= <- <- _]|].
  destruct (IndexByte line x3d) as [i|]; [|by intros [= <- <- _]]. cbn zeta. set (key := TrimSpace (take i line)).
  destruct (change_for (ToLower key) remaining) as [new|] eqn:Ec; [|by intros [= <- <- _]].
  assert (Forall change_ok (delete_change (ToLower key) remaining)) as Hd
    by (apply Forall_forall; intros e [_ He]%list_elem_of_filter; rewrite Forall_forall in Hok; by apply Hok).
  destruct (decide _); intros [= <- <- _]; split; try done.
  apply change_for_elem in Ec. rewrite Forall_forall in Hok. apply Hok in Ec as (_ & _ & _ & _ & Hv & _). cbn in Hv.
  unfold one_line, setting in *. rewrite !elem_of_app, list_elem_of_singleton. intros [H|[?|?]]; [|done|done].
  apply Hl. apply TrimSpace_sub in H. by eapply elem_of_subseteq; [apply subseteq_take|].
Qed.

Lemma rewrite_lines_ok remaining lines new rem' ch : Forall change_ok remaining -> Forall one_line lines ->
  rewrite_lines remaining lines = (new, rem', ch) -> Forall one_line new /\ Forall change_ok rem'.
Proof.
  intros Hok Hl. revert remaining new rem' ch Hok. induction Hl as [|line lines Hl _ IH]; intros remaining new rem' ch Hok;
    cbn [rewrite_lines]; [by intros [= <- <- _]|].
  destruct (rewrite_line remaining line) as [[line' rem1] ch1] eqn:E1.
  destruct (rewrite_line_ok _ _ _ _ _ Hok Hl E1) as [Hl1 Hok1].
  destruct (rewrite_lines rem1 lines) as [[new2 rem2] ch2] eqn:E2. intros [= <- <- _].
  destruct (IH _ _ _ _ Hok1 E2). split; [by constructor|done].
Qed.

(** Rewriting server.properties does what it says. Of the values the file gives
    a property (that is not written like a comment), the first is the new one
    when the property is among the changes, or there is one if there was none,
    and the others are as they were; whether the file had the property with
    spaces, in another case or with other line ends, and in whatever order the
    changes are applied. *)
Lemma properties_rewritten (contents : bytes) (changes : Changes) (p : bytes) :
  changes_ok changes -> head (ToLower p) <> Some x23 ->
  assigned (RewriteServerPropertiesFile (Contents contents) changes) p
  = with_first (change_for (ToLower p) changes) (assigned (Contents contents) p).
Proof.
  intros Hok Hp. destruct changes as [|e0 es] eqn:Ech; [done|]. rewrite <- Ech in *.
  assert (RewriteServerPropertiesFile (Contents contents) changes
    = let '(c', changed) := rewriteContents contents changes in if changed : bool then Contents c' else Contents contents) as ->
    by (by rewrite Ech).
  pose proof (rewrite_lines_values changes (content_lines contents) p Hok Hp) as Hf.
  assert (rewriteContents contents changes = let '(newLines, remaining, changed) := rewrite_lines changes (content_lines contents) in
    (join_eol newLines ++ flat_map (fun e => serverPropertiesEOL ++ setting (fst e) (snd e)) remaining,
     changed || negb (bool_decide (remaining = [])))) as -> by (by rewrite Ech).
  destruct (rewrite_lines changes (content_lines contents)) as [[new rem'] ch] eqn:Er.
  destruct (rewrite_lines_ok _ _ _ _ _ (proj1 Hok) (content_lines_one_line contents) Er) as [Hnew Hrem].
  rewrite content_lines_values in Hf. cbn [assigned].
  destruct (ch || _) eqn:Ec; [|apply orb_false_iff in Ec as [-> Er0]].
  - cbn [assigned]. rewrite <- Hf.
    set (L := match new with [] => [[]] | _ => new end).
    assert (join_eol new = join_eol L /\ L <> [] /\ Forall one_line L
      /\ line_values p (new ++ map setting_of rem') = line_values p (L ++ map setting_of rem')) as (-> & HL & HL1 & ->).
    { unfold L. destruct new; [|done]. split_and!; try done. repeat constructor. apply not_elem_of_nil. }
    rewrite join_eol_app by done. apply line_values_same, split_join_eol; [by destruct L|].
    apply Forall_app. split; [done|]. apply Forall_fmap. eapply Forall_impl; [exact Hrem|].
    intros e (H1 & H2 & _ & _ & H5 & _). unfold one_line. cbn. unfold setting_of, setting.
    rewrite !elem_of_app, list_elem_of_singleton. by intros [?|[?|?]].
  - apply negb_false_iff, bool_decide_eq_true in Er0 as ->. apply rewrite_lines_unchanged in Er as ->.
    cbn [map] in Hf. rewrite app_nil_r, content_lines_values in Hf. exact Hf.
Qed.

Definition sample_properties : bytes := str "Server-Port = 1" ++ [x0d; x0a] ++ str "#server-port=9" ++ [x0a] ++ str "motd=a".

Lemma properties_rewritten_witness :
  assigned (RewriteServerPropertiesFile (Contents sample_properties)
      [(str "enable-rcon", str "true"); (str "server-port", str "25566")]) (str "server-port") = [str "25566"].
Proof.
  apply (properties_rewritten sample_properties [(str "enable-rcon", str "true"); (str "server-port", str "25566")] (str "server-port"));
    [|vm_compute; discriminate].
  split; [|apply (bool_decide_unpack _); vm_compute; exact I].
  repeat (apply Forall_cons_2; [unfold change_ok; apply (bool_decide_unpack _); vm_compute; exact I|]). apply Forall_nil_2.
Defined.

(** A property that is set twice keeps its second value: a reader that lets the
    last line win, as Java's [Properties.load] does, does not see the change. *)
Example duplicate_kept :
  assigned (RewriteServerPropertiesFile (Contents (str "server-port=1" ++ [x0a] ++ str "server-port=2"))
      [(str "server-port", str "25566")]) (str "server-port") = [str "25566"; str "2"].
Proof. vm_compute. reflexivity. Qed.
