(* ===== verification/Files.v ===== *)
(** Paths and files: the used part of [path/filepath] on Unix, a file system,
    and the paths the gateway builds ([ServerDirectory] and [isRegularFile] of
    [src/config.go], [isDir], [fileState] and [currentFileState] of
    [src/service_tasks.go], [forgeStatusPath] of [src/forge_status.go]).

    A file system maps each path to what is there: directories are nodes of
    their own, and a symbolic link holds its target. *)
From stdpp Require Import gmap.
From S2P Require Import Prelude Config Net Access ServerProperties.

(** ** Splitting and joining *)

(** [strings.Split] at one byte *)
Fixpoint split_at (c : byte) (s : bytes) : list bytes :=
  match s with
  | [] => [[]]
  | b :: s' =>
      match split_at c s' with
      | [] => [[]] (* never: the result is not empty *)
      | w :: ws => if decide (b = c) then [] :: w :: ws else (b :: w) :: ws
      end
  end.

(** [strings.Join] with one byte between the elements *)
Fixpoint join_with (c : byte) (ws : list bytes) : bytes :=
  match ws with
  | [] => []
  | [w] => w
  | w :: ws' => w ++ c :: join_with c ws'
  end.

(** ** path/filepath *)

Definition slash : byte := x2f.
Definition dot : bytes := str ".".
Definition dotdot : bytes := str "..".

Definition IsAbs (path : bytes) : bool := bool_decide (head path = Some slash).

(** One element of a path, on the reversed list of the elements kept so far:
    nothing and "." are dropped, ".." takes back the last element unless there
    is none or it is itself a ".." that could not be resolved. *)
Definition clean_step (rooted : bool) (kept : list bytes) (e : bytes) : list bytes :=
  if decide (e = [] \/ e = dot) then kept
  else if decide (e = dotdot) then
    match kept with
    | [] => if rooted then [] else [dotdot]
    | k :: kept' => if decide (k = dotdot) then dotdot :: kept else kept'
    end
  else e :: kept.

Definition clean_elements (path : bytes) : list bytes :=
  rev (foldl (clean_step (IsAbs path)) [] (split_at slash path)).

Definition Clean (path : bytes) : bytes :=
  if IsAbs path then slash :: join_with slash (clean_elements path)
  else match clean_elements path with [] => dot | els => join_with slash els end.

(** [filepath.Join] *)
Fixpoint JoinPath (elem : list bytes) : bytes :=
  match elem with
  | [] => []
  | e :: elem' => if decide (e = []) then JoinPath elem' else Clean (join_with slash elem)
  end.

Definition Dir (path : bytes) : bytes :=
  Clean (match LastIndexByte path slash with Some i => take (S i) path | None => [] end).

(** Trailing slashes are removed by dropping leading ones of the reversal. *)
Fixpoint drop_slashes (s : bytes) : bytes :=
  match s with
  | b :: s' => if decide (b = slash) then drop_slashes s' else s
  | [] => []
  end.

Definition Base (path : bytes) : bytes :=
  if decide (path = []) then dot
  else
    let path := rev (drop_slashes (rev path)) in
    let path := match LastIndexByte path slash with Some i => drop (S i) path | None => path end in
    if decide (path = []) then [slash] else path.

(** [filepath.Abs]; [cwd] is the answer of [os.Getwd]. *)
Definition Abs (cwd : option bytes) (path : bytes) : option bytes :=
  if IsAbs path then Some (Clean path) else wd ← cwd; Some (JoinPath [wd; path]).

(** The idiom [if p, err := filepath.Abs(path); err == nil { path = p }]. *)
Definition canonical (cwd : option bytes) (path : bytes) : bytes := default path (Abs cwd path).

(** ** The file system *)

Record FileNode := mkFileNode {
  fn_data : bytes;
  fn_mtime : Z;
  fn_readable : bool;
  fn_synced : bool (* the data is on the disk *) }.

Inductive Node := NFile (f : FileNode) | NDir | NLink (target : bytes) | NSpecial.

Abbreviation FS := (gmap bytes Node).

(** [os.Stat] follows symbolic links, up to the limit of the kernel. *)
Fixpoint stat_fuel (n : nat) (fs : FS) (path : bytes) : option Node :=
  match fs !! path with
  | Some (NLink target) =>
      match n with
      | O => None
      | S n' => stat_fuel n' fs (if IsAbs target then Clean target else JoinPath [Dir path; target])
      end
  | r => r
  end.

Definition Stat (fs : FS) (path : bytes) : option Node := stat_fuel 40 fs path.

Definition isRegularFile (fs : FS) (path : bytes) : bool :=
  match Stat fs path with Some (NFile _) => true | _ => false end.

Definition isDir (fs : FS) (path : bytes) : bool :=
  match Stat fs path with Some NDir => true | _ => false end.

Definition ReadFile (fs : FS) (path : bytes) : option bytes :=
  match Stat fs path with
  | Some (NFile f) => if fn_readable f then Some (fn_data f) else None
  | _ => None
  end.

(** What code that checks for a regular file and then reads it is given. *)
Definition file_at (fs : FS) (path : bytes) : File :=
  match Stat fs path with
  | Some (NFile f) => if fn_readable f then Contents (fn_data f) else Unreadable
  | _ => NoFile
  end.

Record fileState := mkFileState { fs_exists : bool; fs_mtime : Z; fs_size : Z }.

#[export] Instance fileState_eq_dec : EqDecision fileState.
Proof. solve_decision. Defined.

Definition currentFileState (fs : FS) (path : bytes) : fileState :=
  match Stat fs path with
  | Some (NFile f) => mkFileState true (fn_mtime f) (Zlen (fn_data f))
  | _ => mkFileState false 0 0
  end.

Lemma Stat_direct fs path : (forall t, fs !! path <> Some (NLink t)) -> Stat fs path = fs !! path.
Proof. intros H. unfold Stat, stat_fuel. destruct (fs !! path) as [[| |t|]|] eqn:E; [done..| |done|done]. by destruct (H t). Qed.

(** ** Paths of the gateway *)

Definition ServerDirectory (config : Config) : bytes :=
  let dir := Directory (Config_Server config) in
  if bool_decide (Config_Path config <> []) && negb (IsAbs dir) then JoinPath [Dir (Config_Path config); dir] else dir.

Definition forgeStatusPath (config : Config) : option bytes :=
  let path := ForgeStatusFile (Config_Server config) in
  if decide (path = []) then None
  else Some (Clean (if IsAbs path then path else JoinPath [Dir (Config_Path config); path])).

Example clean_samples :
  Clean (str "/a//b/./../c/") = str "/a/c" /\ Clean (str "../../x/..") = str "../.." /\ Clean (str "/..") = str "/"
  /\ Clean [] = str "." /\ JoinPath [str "a/b"; str "../../../c"] = str "../c" /\ Dir (str "/etc/lazymc.toml") = str "/etc"
  /\ Dir (str "lazymc.toml") = str "." /\ Base (str "/usr/bin//") = str "bin" /\ Base (str "//") = str "/".
Proof. vm_compute. done. Qed.

(** ** Properties of paths *)

Lemma split_at_app c s t : split_at c (s ++ c :: t) = split_at c s ++ split_at c t.
Proof.
  assert (forall u, split_at c u <> []) as Hne.
  { intros u. induction u as [|b u IH]; [done|]. cbn. destruct (split_at c u); [done|]. by case_decide. }
  induction s as [|b s IH]; cbn [app split_at].
  - destruct (split_at c t) eqn:E; [by apply Hne in E|]. by rewrite decide_True.
  - rewrite IH. destruct (split_at c s) eqn:E; [by apply Hne in E|]. cbn [app]. by case_decide.
Qed.

Lemma split_at_single c s : c ∉ s -> split_at c s = [s].
Proof.
  induction s as [|b s IH]; [done|]. rewrite not_elem_of_cons. intros [Hb Hs]. cbn. rewrite IH by done.
  by rewrite decide_False by congruence.
Qed.

Lemma split_at_free c s : Forall (fun w => c ∉ w) (split_at c s).
Proof.
  induction s as [|b s IH]; cbn; [repeat constructor; apply not_elem_of_nil|].
  destruct (split_at c s) as [|w ws]; [repeat constructor; apply not_elem_of_nil|].
  apply Forall_cons in IH as [Hw Hws]. case_decide.
  - apply Forall_cons_2; [apply not_elem_of_nil|by apply Forall_cons_2].
  - apply Forall_cons_2; [|done]. rewrite not_elem_of_cons. split; congruence.
Qed.

Lemma split_join c ws : ws <> [] -> Forall (fun w => c ∉ w) ws -> split_at c (join_with c ws) = ws.
Proof.
  induction ws as [|w ws IH]; [done|]. intros _ [Hw Hws]%Forall_cons. destruct ws as [|w' ws].
  - by apply split_at_single.
  - change (join_with c (w :: w' :: ws)) with (w ++ c :: join_with c (w' :: ws)).
    rewrite split_at_app, split_at_single, IH by done. done.
Qed.

Lemma join_with_snoc c ws w : ws <> [] -> join_with c (ws ++ [w]) = join_with c ws ++ c :: w.
Proof.
  induction ws as [|v ws IH]; [done|]. intros _. destruct ws as [|v' ws]; [done|].
  change (join_with c ((v :: v' :: ws) ++ [w])) with (v ++ c :: join_with c ((v' :: ws) ++ [w])).
  rewrite IH by done. change (join_with c (v :: v' :: ws)) with (v ++ c :: join_with c (v' :: ws)).
  by rewrite <- app_assoc.
Qed.

(** An element that cleaning keeps as it is. *)
Definition plain_element (e : bytes) : Prop := (slash ∉ e) /\ e <> [] /\ e <> dot /\ e <> dotdot.

(** The elements of a cleaned path: unresolved ".." first, and only in a
    relative path, then plain elements. *)
Inductive cleaned (rooted : bool) : list bytes -> Prop :=
| cleaned_nil : cleaned rooted []
| cleaned_up kept : rooted = false -> Forall (fun k => k = dotdot) kept -> cleaned rooted (dotdot :: kept)
| cleaned_plain e kept : plain_element e -> cleaned rooted kept -> cleaned rooted (e :: kept).

Lemma clean_step_cleaned rooted kept e : slash ∉ e -> cleaned rooted kept -> cleaned rooted (clean_step rooted kept e).
Proof.
  intros He Hk. unfold clean_step. case_decide as H1; [done|]. apply Decidable.not_or in H1 as [H1 H2].
  case_decide as H3.
  - destruct Hk as [|kept Hr Hd|k kept Hp Hk].
    + destruct rooted; [constructor|]. by apply cleaned_up.
    + rewrite decide_True by done. by apply cleaned_up; [|apply Forall_cons_2].
    + by rewrite decide_False by apply Hp.
  - by apply cleaned_plain.
Qed.

Lemma clean_steps_cleaned rooted els : Forall (fun e => slash ∉ e) els -> cleaned rooted (foldl (clean_step rooted) [] els).
Proof.
  induction els as [|e els IH] using rev_ind; intros H; [constructor|].
  apply Forall_app in H as [H1 [H2 _]%Forall_cons]. rewrite foldl_app. by apply clean_step_cleaned; [|apply IH].
Qed.

(** Cleaning the elements of a cleaned path changes nothing. *)
Lemma clean_steps_fixed rooted kept : cleaned rooted kept -> foldl (clean_step rooted) [] (rev kept) = kept.
Proof.
  induction 1 as [|kept Hr Hd|e kept (H1 & H2 & H3 & H4) Hk IH]; [done| |].
  - subst rooted. assert (forall l, Forall (fun k => k = dotdot) l -> foldl (clean_step false) [] (rev l) = l) as Hall.
    { intros l. induction l as [|k l IH]; [done|]. intros [-> Hl]%Forall_cons. cbn [rev]. rewrite foldl_app, IH by done.
      cbn [foldl]. destruct Hl; subst; done. }
    apply Hall. by apply Forall_cons_2.
  - cbn [rev]. rewrite foldl_app, IH. cbn [foldl]. unfold clean_step. rewrite decide_False by tauto. by rewrite decide_False.
Qed.

Lemma cleaned_elements_ok rooted kept : cleaned rooted kept -> Forall (fun e => (slash ∉ e) /\ e <> []) kept.
Proof.
  induction 1 as [|kept Hr Hd|e kept (H1 & H2 & _) Hk IH]; [done| |by apply Forall_cons_2].
  apply Forall_cons_2; [vm_compute; repeat split; intros H; [|done]|].
  - repeat (apply elem_of_cons in H as [H|H]; [done|]). by apply not_elem_of_nil in H.
  - eapply Forall_impl; [exact Hd|]. intros k ->. vm_compute. split; [|done]. intros H.
    repeat (apply elem_of_cons in H as [H|H]; [done|]). by apply not_elem_of_nil in H.
Qed.

Lemma clean_elements_cleaned path : cleaned (IsAbs path) (rev (clean_elements path)).
Proof. unfold clean_elements. rewrite rev_involutive. apply clean_steps_cleaned, split_at_free. Qed.

Lemma join_with_head c e els : e <> [] -> head (join_with c (e :: els)) = head e.
Proof. destruct e; [done|]. by destruct els. Qed.

Lemma IsAbs_Clean path : IsAbs (Clean path) = IsAbs path.
Proof.
  unfold Clean. destruct (IsAbs path) eqn:E; [done|]. pose proof (clean_elements_cleaned path) as H.
  apply cleaned_elements_ok, Forall_rev in H. rewrite rev_involutive in H.
  destruct (clean_elements path) as [|e els]; [done|]. apply Forall_cons in H as [[H1 H2] _].
  unfold IsAbs. rewrite join_with_head by done. apply bool_decide_false. intros H. apply H1.
  destruct e; [done|]. injection H as ->. by left.
Qed.

Lemma clean_elements_Clean path : clean_elements (Clean path) = clean_elements path.
Proof.
  pose proof (clean_elements_cleaned path) as H. pose proof (clean_steps_fixed _ _ H) as Hf. rewrite rev_involutive in Hf.
  apply cleaned_elements_ok, Forall_rev in H. rewrite rev_involutive in H.
  assert (Forall (fun e => slash ∉ e) (clean_elements path)) as Hs by (eapply Forall_impl; [exact H|by intros ? []]).
  unfold clean_elements at 1. rewrite IsAbs_Clean. unfold Clean. destruct (IsAbs path) eqn:E.
  - change (slash :: join_with slash (clean_elements path)) with ([] ++ slash :: join_with slash (clean_elements path)).
    rewrite split_at_app. destruct (decide (clean_elements path = [])) as [Hn|Hn]; [by rewrite Hn|].
    rewrite split_join by done. cbn [split_at app foldl]. change (clean_step true [] []) with (@nil bytes).
    by rewrite Hf, rev_involutive.
  - destruct (clean_elements path) as [|e els] eqn:Ee; [done|]. rewrite split_join by done. by rewrite Hf, rev_involutive.
Qed.

Lemma Clean_idem path : Clean (Clean path) = Clean path.
Proof.
  unfold Clean at 1. rewrite IsAbs_Clean, clean_elements_Clean. unfold Clean. by destruct (IsAbs path).
Qed.

Lemma drop_slashes_snoc s b : b <> slash -> drop_slashes (rev (s ++ [b])) = rev (s ++ [b]).
Proof. intros H. rewrite rev_app_distr. cbn. by rewrite decide_False. Qed.

Lemma Base_last s e : slash ∉ e -> e <> [] -> Base (s ++ slash :: e) = e /\ Base e = e.
Proof.
  intros Hs He. destruct (exists_last He) as (e' & b & ->).
  assert (b <> slash) as Hb by (intros ->; apply Hs; rewrite elem_of_app; right; by left).
  unfold Base. rewrite !decide_False by (intros H; apply (f_equal length) in H; rewrite ?length_app in H; cbn in H; lia).
  split.
  - replace (s ++ slash :: e' ++ [b]) with ((s ++ slash :: e') ++ [b]) by (by rewrite <- app_assoc).
    rewrite drop_slashes_snoc, rev_involutive by done. rewrite <- app_assoc. cbn [app].
    rewrite LastIndexByte_at by (by apply LastIndexByte_free). rewrite drop_past. by rewrite decide_False by (by destruct e').
  - rewrite drop_slashes_snoc, rev_involutive, LastIndexByte_free by done. by rewrite !decide_False by done.
Qed.

(** The base name of a file in a directory is its name. *)
Lemma Base_JoinPath dir name : plain_element name -> Base (JoinPath [dir; name]) = name.
Proof.
  intros (H1 & H2 & H3 & H4).
  assert (forall p pre, split_at slash p = pre ++ [name] -> Base (Clean p) = name) as Hgen.
  { intros p pre Hpre. unfold Clean, clean_elements. rewrite Hpre, foldl_app. cbn [foldl].
    unfold clean_step at 1 3. rewrite !decide_False by tauto. cbn [rev].
    set (els := rev (foldl (clean_step (IsAbs p)) [] pre)).
    destruct (decide (els = [])) as [->|Hne]; cbn [app].
    - destruct (IsAbs p); [apply (Base_last [])|apply (Base_last [])]; done.
    - destruct (IsAbs p).
      + rewrite join_with_snoc, app_comm_cons by done. by apply Base_last.
      + destruct (els ++ [name]) eqn:E; [by destruct els|]. rewrite <- E, join_with_snoc by done. by apply Base_last. }
  cbn [JoinPath]. destruct (decide (dir = [])).
  - rewrite decide_False by done. apply (Hgen name []). cbn. by apply split_at_single.
  - apply (Hgen _ (split_at slash dir)). cbn [join_with]. rewrite split_at_app. by rewrite (split_at_single _ name).
Qed.
