(* ===== verification/ForgeStatus.v ===== *)
(** The Forge status snapshot: [src/forge_status.go].

    A computation on files is a function from a file system to a result (none
    is an error), the new file system, and the file systems it went through:
    what another process, or a crash, could find on the way. *)
From stdpp Require Import gmap.
From S2P Require Import Prelude Config Net Json Packets Access ServerProperties Files.

(** ** Validation and loading *)

Definition maxForgeStatusFileSize : Z := 2 ^ 20.

(** Whether the decoded map has the key. *)
Definition has_key (ms : list (bytes * bytes)) (key : bytes) : bool :=
  existsb (fun m => bool_decide (unquote (fst m) = Some key)) ms.

Definition validateForgeStatusData (raw : bytes) : option bytes :=
  if (Zlen raw =? 0) || (maxForgeStatusFileSize <? Zlen raw) then None
  else
    let raw := TrimSpace raw in
    match jparse raw with
    | Some (JObj ms) =>
        if forallb (fun m => bool_decide (is_Some (unquote (fst m)))) ms
           && has_key ms (str "fmlNetworkVersion") && has_key ms (str "channels")
        then Some raw else None
    | _ => None
    end.

(** The answer of [os.Lstat] for a path, with the file's contents if they can
    be read. *)
Inductive Lstat :=
| LstatNotExist
| LstatError
| LstatOk (regular : bool) (size : Z) (contents : option bytes).

(** [os.Lstat] does not follow symbolic links. *)
Definition lstat_at (fs : FS) (path : bytes) : Lstat :=
  match fs !! path with
  | None => LstatNotExist
  | Some (NFile f) => LstatOk true (Zlen (fn_data f)) (if fn_readable f then Some (fn_data f) else None)
  | Some _ => LstatOk false 0 None
  end.

Definition snapshot_status (config : Config) (raw : bytes) : ServerStatus :=
  mkServerStatus
    (mkServerVersion (Public_Version (Config_Public config)) (Public_Protocol (Config_Public config)))
    (mkOnlinePlayers 0 0 []) [] None raw.

(** [None] is an error, [Some None] no snapshot. *)
Definition loadForgeStatusSnapshot (config : Config) (lstat : bytes -> Lstat) : option (option ServerStatus) :=
  path ← forgeStatusPath config;
  match lstat path with
  | LstatNotExist => Some None
  | LstatError => None
  | LstatOk regular size contents =>
      if negb regular || (size <=? 0) || (maxForgeStatusFileSize <? size) then None
      else
        raw ← contents;
        raw ← validateForgeStatusData raw;
        Some (Some (snapshot_status config raw))
  end.

(** ** Computations on files *)

Definition Disk (A : Type) : Type := FS -> option A * FS * list FS.

#[export] Instance Disk_ret : MRet Disk := fun _ a fs => (Some a, fs, []).

#[export] Instance Disk_bind : MBind Disk := fun _ _ k m fs =>
  match m fs with
  | (Some a, fs1, tr1) => let '(r, fs2, tr2) := k a fs1 in (r, fs2, tr1 ++ tr2)
  | (None, fs1, tr1) => (None, fs1, tr1)
  end.

Definition fails {A} : Disk A := fun fs => (None, fs, []).
Definition of_option {A} (o : option A) : Disk A := match o with Some a => mret a | None => fails end.
Definition reads {A} (f : FS -> A) : Disk A := fun fs => (Some (f fs), fs, []).

(** A single change of the file system. *)
Definition puts (f : FS -> FS) : Disk unit := fun fs => (Some tt, f fs, [f fs]).

(** [defer]: the clean-up runs whatever the outcome, and its own is ignored. *)
Definition deferred {A} (cleanup : Disk unit) (m : Disk A) : Disk A := fun fs =>
  let '(r, fs1, tr1) := m fs in
  let '(_, fs2, tr2) := cleanup fs1 in
  (r, fs2, tr1 ++ tr2).

(** What the kernel answers to the calls of one run: the random part of the
    temporary name, the clock, whether each call succeeds, and after how many
    bytes a write fails. *)
Record DiskEnv := mkDiskEnv {
  io_random : option bytes;
  io_now : Z;
  io_chmod : bool;
  io_write : option nat;
  io_sync : bool;
  io_close : bool;
  io_rename : bool;
  io_remove : bool }.

Section Calls.

Context (io : DiskEnv).

Definition new_file (data : bytes) (synced : bool) : Node := NFile (mkFileNode data (io_now io) true synced).

(** The path [os.CreateTemp] puts together from a directory and a pattern. *)
Definition temp_path (dir prefix : bytes) : option bytes :=
  random ← io_random io; Some ((if decide (dir = [slash]) then dir else dir ++ [slash]) ++ prefix ++ random).

(** The file is created with [O_EXCL]. *)
Definition CreateTemp (dir prefix : bytes) : Disk bytes :=
  tmp ← of_option (temp_path dir prefix);
  free ← reads (fun fs => isDir fs dir && bool_decide (fs !! tmp = None));
  if free : bool then _ ← puts (<[tmp := new_file [] false]>); mret tmp else fails.

Definition call (ok : bool) : Disk unit := if ok then mret tt else fails.

(** A write of [data] to an open file passes through every prefix. *)
Fixpoint write_prefixes (tmp data : bytes) (n : nat) : Disk unit :=
  match n with
  | O => mret tt
  | S n' => _ ← write_prefixes tmp data n'; puts (<[tmp := new_file (take n data) false]>)
  end.

Definition WriteFd (tmp data : bytes) : Disk unit :=
  match io_write io with
  | None => write_prefixes tmp data (length data)
  | Some k => _ ← write_prefixes tmp data (Nat.min k (length data)); fails
  end.

(** [fsync] on the open file [tmp] with contents [data] *)
Definition SyncFd (tmp data : bytes) : Disk unit :=
  _ ← call (io_sync io); puts (<[tmp := new_file data true]>).

Definition Rename (old new : bytes) : Disk unit :=
  _ ← call (io_rename io);
  nodes ← reads (fun fs => (fs !! old, fs !! new));
  match nodes with
  | (Some _, Some NDir) | (None, _) => fails
  | (Some node, _) => puts (fun fs => <[new := node]> (delete old fs))
  end.

Definition Remove (path : bytes) : Disk unit :=
  _ ← call (io_remove io);
  there ← reads (fun fs => bool_decide (is_Some (fs !! path)));
  if there : bool then puts (delete path) else fails.

Definition persistForgeStatusSnapshot (config : Config) (raw : bytes) : Disk unit :=
  validated ← of_option (validateForgeStatusData raw);
  path ← of_option (forgeStatusPath config);
  current ← reads (fun fs => ReadFile fs path);
  if bool_decide (TrimSpace <$> current = Some validated) then mret tt
  else
    tmpPath ← CreateTemp (Dir path) (str ".forge-status-");
    deferred (Remove tmpPath) (
      _ ← call (io_chmod io);
      _ ← WriteFd tmpPath validated;
      _ ← SyncFd tmpPath validated;
      _ ← call (io_close io);
      Rename tmpPath path).

End Calls.

(** ** Crashes *)

(** What a crash may leave: files that were not synced have any contents. *)
Definition crash_node (n n' : option Node) : Prop :=
  match n with
  | Some (NFile f) => if fn_synced f then n' = n else exists d, n' = Some (NFile (mkFileNode d (fn_mtime f) (fn_readable f) false))
  | _ => n' = n
  end.

Definition crash (fs fs' : FS) : Prop := forall p, crash_node (fs !! p) (fs' !! p).

(** A node whose contents survive a crash. *)
Definition durable (n : option Node) : Prop := match n with Some (NFile f) => fn_synced f = true | _ => True end.

(** ** Properties *)

Lemma validateForgeStatusData_spec raw v : validateForgeStatusData raw = Some v ->
  v = TrimSpace raw /\ (0 < Zlen v <= maxForgeStatusFileSize) /\ Zlen raw <= maxForgeStatusFileSize
  /\ forall raw', TrimSpace raw' = v -> 0 < Zlen raw' <= maxForgeStatusFileSize -> validateForgeStatusData raw' = Some v.
Proof.
  unfold validateForgeStatusData. destruct (_ || _) eqn:Eb; [done|]. apply orb_false_iff in Eb as [E1 E2].
  apply Z.eqb_neq in E1. apply Z.ltb_ge in E2. intros H.
  assert (v = TrimSpace raw) as -> by (destruct (jparse _) as [[]|]; [done..| |done]; destruct (_ && _); congruence).
  split; [done|]. split_and!; [| |done|].
  - destruct (TrimSpace raw); [by vm_compute in H|]. unfold Zlen. cbn. lia.
  - destruct (TrimLeft_split raw) as (w & Hw & _). destruct (TrimRight_split (TrimLeft raw)) as (u & Hu & _).
    rewrite TrimSpace_eq. apply (f_equal length) in Hw, Hu. rewrite length_app in Hw, Hu. unfold Zlen in *. lia.
  - intros raw' Et Hl. rewrite Et. destruct (_ || _) eqn:Eb; [|done].
    apply orb_true_iff in Eb as [Eb%Z.eqb_eq|Eb%Z.ltb_lt]; lia.
Qed.

(** What a run keeps: it leaves every path but [tmp] as it was in all the file
    systems it goes through. *)
Definition only_touches {A} (tmp : bytes) (m : Disk A) : Prop := forall fs r fs' tr,
  m fs = (r, fs', tr) -> Forall (fun g => forall p, p <> tmp -> g !! p = fs !! p) (fs' :: tr).

Lemma touches_bind {A B} (tmp : bytes) (m : Disk A) (k : A -> Disk B) :
  only_touches tmp m -> (forall a, only_touches tmp (k a)) -> only_touches tmp (mbind k m).
Proof.
  intros Hm Hk fs r fs' tr. unfold mbind, Disk_bind. destruct (m fs) as [[[a|] fs1] tr1] eqn:E.
  - destruct (k a fs1) as [[r2 fs2] tr2] eqn:E2. intros [= <- <- <-].
    apply Hm, Forall_cons in E as [H1 Ht1]. apply Hk, Forall_cons in E2 as [H2 Ht2].
    assert (forall g : FS, (forall p, p <> tmp -> g !! p = fs1 !! p) -> forall p, p <> tmp -> g !! p = fs !! p) as Htr
      by (intros g Hg p Hp; rewrite Hg, H1; done).
    apply Forall_cons_2; [by apply Htr|]. apply Forall_app. split; [done|]. eapply Forall_impl; [exact Ht2|exact Htr].
  - intros [= <- <- <-]. by apply Hm in E.
Qed.

Lemma touches_ret {A} (tmp : bytes) (a : A) : only_touches tmp (mret a).
Proof. intros fs r fs' tr [= <- <- <-]. by repeat constructor. Qed.

Lemma touches_fails {A} (tmp : bytes) : only_touches tmp (@fails A).
Proof. intros fs r fs' tr [= <- <- <-]. by repeat constructor. Qed.

Lemma touches_call (tmp : bytes) ok : only_touches tmp (call ok).
Proof. destruct ok; [apply touches_ret|apply touches_fails]. Qed.

Lemma touches_reads {A} (tmp : bytes) (f : FS -> A) : only_touches tmp (reads f).
Proof. intros fs r fs' tr [= <- <- <-]. by repeat constructor. Qed.

Lemma touches_insert (tmp : bytes) node : only_touches tmp (puts (<[tmp := node]>)).
Proof. intros fs r fs' tr [= <- <- <-]. repeat constructor; intros p Hp; by rewrite lookup_insert_ne. Qed.

Lemma touches_delete (tmp : bytes) : only_touches tmp (puts (delete tmp)).
Proof. intros fs r fs' tr [= <- <- <-]. repeat constructor; intros p Hp; by rewrite lookup_delete_ne. Qed.

Lemma touches_write_prefixes io tmp data n : only_touches tmp (write_prefixes io tmp data n).
Proof.
  induction n as [|n IH]; [apply touches_ret|]. cbn [write_prefixes]. apply touches_bind; [done|intros _; apply touches_insert].
Qed.

Lemma touches_Remove io tmp : only_touches tmp (Remove io tmp).
Proof.
  apply touches_bind; [apply touches_call|intros _]. apply touches_bind; [apply touches_reads|intros []].
  - apply touches_delete.
  - apply touches_fails.
Qed.

Create HintDb touches.
#[export] Hint Resolve touches_ret touches_fails touches_call touches_reads touches_insert touches_delete
  touches_write_prefixes touches_Remove : touches.

Ltac solve_touches := repeat (apply touches_bind; [auto with touches|intros ?]); auto with touches.

(** The preparation of the temporary file: everything before the rename. *)
Definition prepare (io : DiskEnv) (tmp data : bytes) : Disk unit :=
  _ ← call (io_chmod io); _ ← WriteFd io tmp data; _ ← SyncFd io tmp data; call (io_close io).

Lemma touches_prepare io tmp data : only_touches tmp (prepare io tmp data).
Proof.
  unfold prepare. apply touches_bind; [auto with touches|intros _]. apply touches_bind.
  - unfold WriteFd. destruct (io_write io); solve_touches.
  - intros _. unfold SyncFd. solve_touches.
Qed.
#[export] Hint Resolve touches_prepare : touches.

(** A prepared file holds all the data, on the disk. *)
Lemma prepare_done io tmp data fs fs' tr : prepare io tmp data fs = (Some tt, fs', tr) ->
  fs' !! tmp = Some (new_file io data true).
Proof.
  unfold prepare, SyncFd, mbind, Disk_bind. destruct (call (io_chmod io) fs) as [[[[]|] fs1] tr1]; [|done].
  destruct (WriteFd io tmp data fs1) as [[[[]|] fs2] tr2]; [|done]. unfold call.
  destruct (io_sync io); [|done]. cbn. destruct (io_close io); [|done]. intros [= <- _]. apply lookup_insert_eq.
Qed.

(** A file system in which at most [path] has changed, and then to [node]. *)
Definition swapped (path : bytes) (node : Node) (others : bytes -> Prop) (fs g : FS) : Prop :=
  (forall p, p <> path -> others p -> g !! p = fs !! p) /\ (g !! path = fs !! path \/ g !! path = Some node).

Lemma swapped_refl path node others fs : swapped path node others fs fs.
Proof. split; auto. Qed.

(** The outcome of a run that writes, from the temporary file on. *)
Definition replaced (io : DiskEnv) (path tmp data : bytes) (fs : FS) (r : option unit) (fs' : FS) (tr : list FS) : Prop :=
  Forall (swapped path (new_file io data true) (fun p => p <> tmp) fs) (fs' :: tr)
  /\ (r = None -> fs' !! path = fs !! path)
  /\ (r = Some tt -> fs' !! path = Some (new_file io data true) /\ fs' !! tmp = None).

Lemma Rename_replaces io path tmp data fs r fs' tr : tmp <> path -> fs !! tmp = Some (new_file io data true) ->
  Rename io tmp path fs = (r, fs', tr) -> replaced io path tmp data fs r fs' tr.
Proof.
  intros Hne Ht. unfold Rename, mbind, Disk_bind, call, reads, replaced. destruct (io_rename io); cbn.
  - rewrite Ht. intros H.
    assert ((r, fs', tr) = (None, fs, []) \/ (r, fs', tr) = (Some tt, <[path := new_file io data true]> (delete tmp fs), [<[path := new_file io data true]> (delete tmp fs)])) as [[= -> -> ->]|[= -> -> ->]]
      by (destruct (fs !! path) as [[]|]; naive_solver).
    + split; [|done]. repeat constructor; auto.
    + rewrite lookup_insert_eq, lookup_insert_ne, lookup_delete_eq by done. split; [|done].
      assert (swapped path (new_file io data true) (fun p => p <> tmp) fs (<[path := new_file io data true]> (delete tmp fs))) as Hs.
      { split; [intros p Hp Hq; by rewrite lookup_insert_ne, lookup_delete_ne by done|right; apply lookup_insert_eq]. }
      by apply Forall_cons_2; [|apply Forall_cons_2; [|apply Forall_nil_2]].
  - intros [= <- <- <-]. split; [|done]. repeat constructor; auto.
Qed.

Lemma prepare_rename io path tmp data fs r fs' tr : tmp <> path ->
  (_ ← prepare io tmp data; Rename io tmp path) fs = (r, fs', tr) -> replaced io path tmp data fs r fs' tr.
Proof.
  intros Hne. unfold mbind, Disk_bind. destruct (prepare io tmp data fs) as [[r1 fs1] tr1] eqn:E.
  pose proof (touches_prepare _ _ _ _ _ _ _ E) as [H1 Ht]%Forall_cons.
  assert (forall g : FS, (forall p, p <> tmp -> g !! p = fs !! p) -> swapped path (new_file io data true) (fun p => p <> tmp) fs g) as Hsw.
  { intros g Hg. split; [auto|left; by apply Hg]. }
  destruct r1 as [[]|].
  - destruct (Rename io tmp path fs1) as [[r2 fs2] tr2] eqn:E2. intros [= <- <- <-]. apply prepare_done in E.
    apply (Rename_replaces _ _ _ data) in E2 as (Hall & Hn & Hs); [|done..].
    assert (forall g : FS, swapped path (new_file io data true) (fun p => p <> tmp) fs1 g -> swapped path (new_file io data true) (fun p => p <> tmp) fs g) as Htr.
    { intros g [Hg1 Hg2]. split; [intros p Hp Hq; by rewrite Hg1, H1|]. by rewrite H1 in Hg2. }
    split; [|split; [intros Hr; rewrite <- (H1 path) by done; by apply Hn|done]].
    apply Forall_cons in Hall as [Hf Hall]. apply Forall_cons_2; [by apply Htr|]. apply Forall_app. split.
    + eapply Forall_impl; [exact Ht|exact Hsw].
    + eapply Forall_impl; [exact Hall|exact Htr].
  - intros [= <- <- <-]. split; [|split; [intros _; by apply H1|done]].
    apply Forall_cons_2; [by apply Hsw|]. eapply Forall_impl; [exact Ht|exact Hsw].
Qed.

Lemma Remove_done io tmp fs r fs' tr : Remove io tmp fs = (r, fs', tr) -> io_remove io = true \/ fs !! tmp = None -> fs' !! tmp = None.
Proof.
  unfold Remove, mbind, Disk_bind, call, reads, puts, fails. destruct (io_remove io); cbn.
  - destruct (fs !! tmp) as [n|] eqn:E.
    + intros [= _ <- _] _. apply lookup_delete_eq.
    + by intros [= _ <- _] _.
  - intros [= _ <- _]. by intros [|?].
Qed.

(** The body of the write, with the deferred removal of the temporary file. *)
Lemma write_replaces io path tmp data fs r fs' tr : tmp <> path ->
  deferred (Remove io tmp) (_ ← call (io_chmod io); _ ← WriteFd io tmp data; _ ← SyncFd io tmp data;
                            _ ← call (io_close io); Rename io tmp path) fs = (r, fs', tr) ->
  replaced io path tmp data fs r fs' tr /\ (io_remove io = true -> fs' !! tmp = None).
Proof.
  intros Hne. assert (forall k, (_ ← call (io_chmod io); _ ← WriteFd io tmp data; _ ← SyncFd io tmp data;
    _ ← call (io_close io); Rename io tmp path) k = (_ ← prepare io tmp data; Rename io tmp path) k) as Eq.
  { intros k. unfold prepare, mbind, Disk_bind. destruct (call (io_chmod io) k) as [[[[]|] k1] t1]; [|done].
    destruct (WriteFd io tmp data k1) as [[[[]|] k2] t2]; [|done]. destruct (SyncFd io tmp data k2) as [[[[]|] k3] t3]; [|done].
    destruct (call (io_close io) k3) as [[[[]|] k4] t4]; [|done]. destruct (Rename io tmp path k4) as [[? ?] t5].
    by rewrite <- !app_assoc. }
  unfold deferred. rewrite Eq. destruct ((_ ← prepare io tmp data; Rename io tmp path) fs) as [[r1 fs1] tr1] eqn:E.
  destruct (Remove io tmp fs1) as [[r2 fs2] tr2] eqn:E2. intros [= <- <- <-].
  apply prepare_rename in E as (Hall & Hn & Hs); [|done]. pose proof (touches_Remove _ _ _ _ _ _ E2) as [H2 Ht2]%Forall_cons.
  pose proof (Remove_done _ _ _ _ _ _ E2) as Hr. apply Forall_cons in Hall as [H1 Hall].
  assert (forall g : FS, (forall p, p <> tmp -> g !! p = fs1 !! p) -> swapped path (new_file io data true) (fun p => p <> tmp) fs g) as Htr.
  { intros g Hg. destruct H1 as [Ha Hb]. split; [intros p Hp Hq; by rewrite Hg, Ha|]. by rewrite Hg. }
  split; [|auto]. split; [|split].
  - apply Forall_cons_2; [by apply Htr|]. apply Forall_app. split; [done|]. eapply Forall_impl; [exact Ht2|exact Htr].
  - intros H. rewrite H2 by done. by apply Hn.
  - intros H. destruct (Hs H) as [Hs1 Hs2]. rewrite H2 by done. auto.
Qed.

Definition temp_of (io : DiskEnv) (path : bytes) : option bytes := temp_path io (Dir path) (str ".forge-status-").

(** The outcome of a whole run: either the stored snapshot already was the new
    one, or nothing was written, or the file was replaced. *)
Lemma persist_cases io config fs raw v path r fs' tr :
  validateForgeStatusData raw = Some v -> forgeStatusPath config = Some path -> temp_of io path <> Some path ->
  persistForgeStatusSnapshot io config raw fs = (r, fs', tr) ->
  Forall (swapped path (new_file io v true) (fun p => temp_of io path <> Some p) fs) (fs' :: tr)
  /\ (r = None -> fs' !! path = fs !! path)
  /\ (r = Some tt -> (fs' = fs /\ exists c, ReadFile fs path = Some c /\ TrimSpace c = v) \/ fs' !! path = Some (new_file io v true))
  /\ (io_remove io = true -> forall p, temp_of io path = Some p -> fs' !! p = fs !! p).
Proof.
  intros Hv Hp Ht. unfold persistForgeStatusSnapshot. rewrite Hv, Hp. unfold mbind at 1 2 3, Disk_bind at 1 2 3. cbn.
  assert (Forall (swapped path (new_file io v true) (fun p => temp_of io path <> Some p) fs) [fs]) as H0
    by (apply Forall_cons_2; [apply swapped_refl|done]).
  destruct (bool_decide (TrimSpace <$> ReadFile fs path = Some v)) eqn:Es.
  { apply bool_decide_eq_true in Es. intros [= <- <- <-]. split; [done|]. split; [done|]. split; [|done]. intros _. left.
    split; [done|]. destruct (ReadFile fs path) as [c|]; [|done]. injection Es as Es. eauto. }
  unfold mbind at 1, Disk_bind at 1, CreateTemp. unfold temp_of in *. destruct (temp_path io (Dir path) _) as [tmp|] eqn:Et.
  - unfold mbind, Disk_bind at 1 2 3. cbn. destruct (isDir fs (Dir path) && _) eqn:Ef.
    + apply andb_prop in Ef as [_ Ef%bool_decide_eq_true]. cbn.
      destruct (deferred _ _ _) as [[r2 fs2] tr2] eqn:Ed. intros [= <- <- <-].
      apply write_replaces in Ed as [(Hall & Hn & Hs) Hrm]; [|congruence].
      assert (forall g, swapped path (new_file io v true) (fun p => p <> tmp) (<[tmp:=new_file io [] false]> fs) g ->
                swapped path (new_file io v true) (fun p => Some tmp <> Some p) fs g) as Htr.
      { intros g [Ha Hb]. rewrite lookup_insert_ne in Hb by congruence. split; [|done]. intros p Hp1 Hp2.
        rewrite Ha by congruence. by rewrite lookup_insert_ne by congruence. }
      split_and!.
      * apply Forall_cons in Hall as [Hf Hall]. apply Forall_cons_2; [by apply Htr|]. apply Forall_cons_2.
        -- apply Htr, swapped_refl.
        -- eapply Forall_impl; [exact Hall|exact Htr].
      * intros Hr. rewrite (Hn Hr). by rewrite lookup_insert_ne by congruence.
      * intros Hr. right. by apply Hs.
      * intros Hr p [= <-]. rewrite Ef. by apply Hrm.
    + cbn. intros [= <- <- <-]. split; [done|]. split; [done|]. split; [done|]. done.
  - cbn. intros [= <- <- <-]. split; [done|]. split; [done|]. split; [done|]. done.
Qed.

(** A path that is free or holds a regular file within the size limit. *)
Definition snapshot_slot (n : option Node) : Prop :=
  match n with
  | None => True
  | Some (NFile f) => Zlen (fn_data f) <= maxForgeStatusFileSize
  | Some _ => False
  end.

Lemma load_snapshot (config : Config) (path : bytes) (h : FS) (f : FileNode) (v : bytes) : forgeStatusPath config = Some path -> h !! path = Some (NFile f) ->
  fn_readable f = true -> Zlen (fn_data f) <= maxForgeStatusFileSize -> validateForgeStatusData (fn_data f) = Some v ->
  loadForgeStatusSnapshot config (lstat_at h) = Some (Some (snapshot_status config v)).
Proof.
  intros Hp Hf Hr Hl Hv. unfold loadForgeStatusSnapshot. rewrite Hp. cbn. unfold lstat_at. rewrite Hf, Hr.
  assert (0 < Zlen (fn_data f)) as H0.
  { destruct (fn_data f); [done|]. unfold Zlen. cbn. lia. }
  cbn [negb orb]. rewrite (proj2 (Z.leb_gt _ _)), (proj2 (Z.ltb_ge _ _)) by lia. cbn. by rewrite Hv.
Qed.

(** The snapshot file is replaced atomically and durably. In every file
    system that storing a valid snapshot goes through, and whatever a crash
    makes of it, the file is the old one or holds exactly the new snapshot; no
    other path but the temporary one is touched, and that one is gone at the
    end; a run that fails leaves the old file; and after one that succeeds, a
    gateway that starts from the disk loads the new snapshot. *)
Theorem snapshot_replaced_atomically (io : DiskEnv) (config : Config) (fs : FS) (raw v path : bytes) r fs' tr :
  validateForgeStatusData raw = Some v ->
  forgeStatusPath config = Some path ->
  temp_of io path <> Some path ->
  durable (fs !! path) ->
  persistForgeStatusSnapshot io config raw fs = (r, fs', tr) ->
  (forall g h, g ∈ fs' :: tr -> crash g h ->
     h !! path = fs !! path \/ exists f, h !! path = Some (NFile f) /\ fn_data f = v)
  /\ (forall g p, g ∈ fs' :: tr -> p <> path -> temp_of io path <> Some p -> g !! p = fs !! p)
  /\ (io_remove io = true -> forall p, temp_of io path = Some p -> fs' !! p = fs !! p)
  /\ (r = None -> fs' !! path = fs !! path)
  /\ (r = Some tt -> snapshot_slot (fs !! path) -> forall h, crash fs' h ->
        loadForgeStatusSnapshot config (lstat_at h) = Some (Some (snapshot_status config v))).
Proof.
  intros Hv Hp Ht Hd E. apply (persist_cases _ _ _ _ v path) in E as (Hall & Hn & Hs & Hr); [|done..].
  rewrite Forall_forall in Hall. split_and!; [| |done|done|].
  - intros g h Hg Hc. specialize (Hc path). destruct (Hall g Hg) as [_ [Hg2|Hg2]]; rewrite Hg2 in Hc.
    + left. unfold crash_node, durable in *. destruct (fs !! path) as [[f| | |]|]; try done. by rewrite Hd in Hc.
    + right. cbn in Hc. rewrite Hc. eauto.
  - intros g p Hg Hp1 Hp2. by apply (proj1 (Hall g Hg)).
  - intros Hok Hslot h Hc. specialize (Hc path). destruct (Hs Hok) as [[-> (c & Hrd & Hc2)]|Hnew].
    + assert (forall t, fs !! path <> Some (NLink t)) as Hnl by (intros t Et; by rewrite Et in Hslot).
      unfold ReadFile in Hrd. rewrite Stat_direct in Hrd by done.
      unfold crash_node in Hc. destruct (fs !! path) as [[f| | |]|] eqn:Ef; try done.
      destruct (fn_readable f) eqn:Er; [|done]. injection Hrd as <-.
      cbn in Hd. rewrite Hd in Hc. eapply load_snapshot; [done|exact Hc|done|done|].
        apply validateForgeStatusData_spec in Hv as (_ & Hl & _ & Hv). apply Hv; [done|].
        split; [|done]. destruct (fn_data f); [|unfold Zlen; cbn; lia]. subst v. vm_compute in Hl. by destruct Hl.
    + rewrite Hnew in Hc. cbn in Hc. pose proof (validateForgeStatusData_spec _ _ Hv) as (Hvt & Hl & _ & Hv').
      eapply load_snapshot; [done|exact Hc|done|apply Hl|]. cbn. apply Hv'; [|done]. rewrite Hvt. apply TrimSpace_idem.
Qed.

(** What a monitor round does with the answer of its poll: [MonitorServer]
    stores the Forge part of a status, and only logs a failure. *)
Definition store_polled (io : DiskEnv) (config : Config) (poll : option ServerStatus * bool * bool) : Disk unit :=
  match poll with
  | (Some st, true, _) =>
      if bool_decide (ForgeStatusFile (Config_Server config) <> []) && bool_decide (ForgeData st <> [])
      then fun fs => let '(_, fs', tr) := persistForgeStatusSnapshot io config (ForgeData st) fs in (Some tt, fs', tr)
      else mret tt
  | _ => mret tt
  end.

(** ** An example *)

Definition forge_config : Config :=
  let s := Config_Server defaultConfig in
  {| Config_Path := str "/srv/mc/lazymc.toml";
     Config_Public := Config_Public defaultConfig;
     Config_Server := mkServer (Directory s) (Command s) (ControllerManaged s) (Server_Address s) (FreezeProcess s)
       (WakeOnStart s) (WakeOnCrash s) (ProbeOnStart s) true (str "state/../forge.json") (StartTimeout s) (StopTimeout s)
       (WakeWhitelist s) (BlockBannedIps s) (DropBannedIps s) (Server_SendProxyV2 s);
     Config_Auth := Config_Auth defaultConfig;
     Config_Time := Config_Time defaultConfig;
     Config_Motd := Config_Motd defaultConfig;
     Config_Join := Config_Join defaultConfig;
     Config_Lockout := Config_Lockout defaultConfig;
     Config_Rcon := Config_Rcon defaultConfig;
     Config_Advanced := Config_Advanced defaultConfig;
     Config_Config := Config_Config defaultConfig |}.

Definition quoted (s : string) : bytes := [x22] ++ str s ++ [x22].

Definition forge_snapshot : bytes :=
  [x7b] ++ quoted "fmlNetworkVersion" ++ str ":3," ++ quoted "channels" ++ str ":[]}".

Definition sample_disk : FS :=
  <[str "/srv/mc" := NDir]> (<[str "/srv/mc/forge.json" := NFile (mkFileNode (str "{}") 5 true true)]> ∅).

Definition good_io : DiskEnv := mkDiskEnv (Some (str "77")) 9 true None true true true true.
Definition full_disk_io : DiskEnv := mkDiskEnv (Some (str "77")) 9 true (Some 3%nat) true true true true.

Lemma snapshot_replaced_atomically_witness :
  (let '(r, fs', tr) := persistForgeStatusSnapshot good_io forge_config (forge_snapshot ++ [x0a]) sample_disk in
   forall h, crash fs' h ->
   loadForgeStatusSnapshot forge_config (lstat_at h) = Some (Some (snapshot_status forge_config forge_snapshot)))
  /\ (let '(r, fs', tr) := persistForgeStatusSnapshot full_disk_io forge_config (forge_snapshot ++ [x0a]) sample_disk in
      fs' !! str "/srv/mc/forge.json" = sample_disk !! str "/srv/mc/forge.json").
Proof.
  split.
  - destruct (persistForgeStatusSnapshot good_io forge_config (forge_snapshot ++ [x0a]) sample_disk) as [[r fs'] tr] eqn:E.
    apply (snapshot_replaced_atomically good_io forge_config sample_disk (forge_snapshot ++ [x0a]) forge_snapshot (str "/srv/mc/forge.json") r fs' tr);
      [vm_compute; reflexivity|vm_compute; reflexivity|vm_compute; discriminate|vm_compute; reflexivity|exact E| |vm_compute; discriminate].
    apply (f_equal (fun x => fst (fst x))) in E. vm_compute in E. by rewrite <- E.
  - destruct (persistForgeStatusSnapshot full_disk_io forge_config (forge_snapshot ++ [x0a]) sample_disk) as [[r fs'] tr] eqn:E.
    apply (snapshot_replaced_atomically full_disk_io forge_config sample_disk (forge_snapshot ++ [x0a]) forge_snapshot (str "/srv/mc/forge.json") r fs' tr);
      [vm_compute; reflexivity|vm_compute; reflexivity|vm_compute; discriminate|vm_compute; reflexivity|exact E|].
    apply (f_equal (fun x => fst (fst x))) in E. vm_compute in E. by rewrite <- E.
Defined.
