(* ===== verification/Start.v ===== *)
(** The start action: [src/action_start.go].

    Before the service runs, the RCON settings are prepared and the server's
    own configuration is rewritten to agree with the gateway's. The random
    numbers of the password are an argument. The directory of the server is
    known when [server.directory] is set or there is a configuration file
    (whose directory is used); [dir_ok] says whether it exists. *)
From stdpp Require Import gmap.
From S2P Require Import Prelude Packet Config Net Access ServerProperties.

Definition rconPasswordLength : nat := 32.

Definition alphabet : bytes := str "ABCDEFGHIJKLMNOPQRSTUVWXYZabcdefghijklmnopqrstuvwxyz0123456789".

(** [draws i] is the [i]-th number [rand.Int] gives, below 62. *)
Definition generateRandomPassword (draws : nat -> Z) : bytes :=
  map (fun i => default x00 (alphabet !! Z.to_nat (draws i))) (seq 0 rconPasswordLength).

Definition set_password (p : bytes) (config : Config) : Config :=
  let r := Config_Rcon config in
  mkConfig (Config_Path config) (Config_Public config) (Config_Server config) (Config_Auth config) (Config_Time config)
    (Config_Motd config) (Config_Join config) (Config_Lockout config)
    (mkRcon (Rcon_Enabled r) (Rcon_Port r) p (RandomizePassword r) (Rcon_SendProxyV2 r))
    (Config_Advanced config) (Config_Config config).

(** [None]: the program quits with an error message. *)
Definition prepareRcon (draws : nat -> Z) (config : Config) : option Config :=
  let rcon := Config_Rcon config in
  if negb (Rcon_Enabled rcon) then Some config
  else if SocketAddr_Port (Server_Address (Config_Server config)) =? Rcon_Port rcon then None
  else if bool_decide (Password rcon = []) && negb (RandomizePassword rcon) then None
  else if RandomizePassword rcon then
    if negb (RewriteServerProperties (Config_Advanced config)) then None
    else Some (set_password (generateRandomPassword draws) config)
  else Some config.

(** [changes[k] = v] *)
Fixpoint put (k v : bytes) (changes : Changes) : Changes :=
  match changes with
  | [] => [(k, v)]
  | e :: changes' => if decide (fst e = k) then (k, v) :: changes' else e :: put k v changes'
  end.

Definition server_changes (config : Config) : Changes :=
  let address := Server_Address (Config_Server config) in
  let changes := [ (str "server-ip", IP_String (SocketAddr_IP address));
                   (str "server-port", itoa (SocketAddr_Port address));
                   (str "enable-status", str "true");
                   (str "query.port", itoa (SocketAddr_Port address)) ] in
  let changes := if negb (IsLoopback (SocketAddr_IP address))
                 then put (str "prevent-proxy-connections") (str "false") changes else changes in
  let changes := fold_left (fun changes m =>
      if decide (m = MethodLobby) then put (str "network-compression-threshold") (itoa CompressionThreshold) changes else changes)
    (Methods (Config_Join config)) changes in
  if Rcon_Enabled (Config_Rcon config)
  then
    let changes := put (str "rcon.port") (itoa (Rcon_Port (Config_Rcon config))) changes in
    let changes := put (str "rcon.password") (Password (Config_Rcon config)) changes in
    put (str "enable-rcon") (str "true") changes
  else changes.

(** [order]: the order in which the map of changes is iterated. *)
Definition rewriteServerProperties (config : Config) (order : Changes -> Changes) (dir_ok : bool) (file : File) : File :=
  if negb (RewriteServerProperties (Config_Advanced config)) then file
  else if bool_decide (Config_Path config = []) && bool_decide (Directory (Config_Server config) = []) then file
  else RewriteServerPropertiesDir dir_ok file (order (server_changes config)).

(** ** Values that survive the file *)

(** Printable ASCII without the space. *)
Definition plain (l : bytes) : Prop := Forall (fun b => 0x21 <= b2z b < 0x7f) l.

(** A value that reads back as it was written. *)
Definition value_ok (v : bytes) : Prop := (x0a ∉ v) /\ TrimSpace v = v.

Lemma plain_byte b l : plain l -> b2z b <= 0x20 \/ 0x7f <= b2z b -> b ∉ l.
Proof. intros Hl Hb Hin. unfold plain in Hl. rewrite Forall_forall in Hl. specialize (Hl b Hin). cbn in Hl. lia. Qed.

Lemma no_pattern pats l :
  forallb (fun p => match p with b :: _ => (b2z b <=? 0x20) || (0x7f <=? b2z b) | [] => false end) pats = true ->
  plain l -> strip_one pats l = None.
Proof.
  intros Hp Hl. apply strip_one_None. intros p t Hin ->. rewrite forallb_forall in Hp.
  apply list_elem_of_In, Hp in Hin. destruct p as [|b p]; [done|].
  apply orb_true_iff in Hin. apply (plain_byte b _ Hl); [lia|left].
Qed.

Lemma plain_rev l : plain l -> plain (rev l).
Proof. apply Forall_rev. Qed.

Lemma plain_value v : plain v -> value_ok v.
Proof.
  intros Hv. split; [apply plain_byte; [done|vm_compute; by left]|].
  apply TrimSpace_fixed; (apply no_pattern; [reflexivity|try apply plain_rev; done]).
Qed.

Lemma plain_app l1 l2 : plain l1 -> plain l2 -> plain (l1 ++ l2).
Proof. intros. by apply Forall_app. Qed.

Lemma plain_itoa v : 0 <= v -> plain (itoa v).
Proof.
  intros Hv. unfold itoa. destruct (v =? 0); [repeat constructor; vm_compute; congruence|].
  assert (plain (@nil byte)) as Hb by constructor. revert v Hv Hb. generalize (@nil byte) as buf. generalize 10%nat.
  induction n as [|n IH]; intros buf v Hv Hb; cbn [itoa_loop]; [done|]. destruct (0 <? v); [|done].
  apply IH; [apply Z.div_pos; lia|]. constructor; [|done]. pose proof (Z.mod_pos_bound v 10 ltac:(lia)).
  rewrite b2z_z2b, Z.mod_small by lia. lia.
Qed.

Lemma plain_hex_char d : 0 <= d < 16 -> plain [hex_char d].
Proof. intros Hd. unfold hex_char. destruct (Z.ltb_spec d 10); repeat constructor; rewrite b2z_z2b, Z.mod_small; lia. Qed.

Lemma plain_append_hex x : 0 <= x < 65536 -> plain (append_hex x).
Proof.
  intros Hx. unfold append_hex.
  repeat (apply plain_app); [destruct (Z.leb_spec 0x1000 x)|destruct (Z.leb_spec 0x100 x)|destruct (Z.leb_spec 0x10 x)|];
    try apply Forall_nil_2; apply plain_hex_char; Z.to_euclidean_division_equations; lia.
Qed.

Lemma plain_join_hex l : Forall (fun x => 0 <= x < 65536) l -> plain (join_hex l).
Proof.
  induction 1 as [|x l Hx Hl IH]; [constructor|]. destruct l as [|y l]; [by apply plain_append_hex|].
  change (join_hex (x :: y :: l)) with (append_hex x ++ [x3a] ++ join_hex (y :: l)).
  apply plain_app; [by apply plain_append_hex|]. apply plain_app; [repeat constructor; vm_compute; congruence|done].
Qed.

Lemma v6_groups_range ip : Forall (fun x => 0 <= x < 65536) (v6_groups ip).
Proof.
  assert (forall n, (length ip <= n)%nat -> Forall (fun x => 0 <= x < 65536) (v6_groups ip)) as H; [|by eapply H].
  intros n. revert ip. induction n as [|n IH]; intros [|a [|b ip]] Hn; cbn in *; try constructor; try lia.
  - pose proof (b2z_range a). pose proof (b2z_range b). lia.
  - apply IH. lia.
Qed.

Lemma plain_IP_String ip : plain (IP_String ip).
Proof.
  unfold IP_String. destruct ip as [|a ip]; [repeat constructor; vm_compute; congruence|].
  destruct (To4 (a :: ip)) as [p4|].
  - unfold v4_String. destruct p4 as [|x [|y [|z [|w [|? ?]]]]]; try apply Forall_nil_2.
    repeat (apply plain_app); try (apply plain_itoa, b2z_range); repeat constructor; vm_compute; congruence.
  - destruct (_ =? 16)%nat.
    + unfold v6_String. destruct (longest_zeros _ _ _) as [zs ze]. pose proof (v6_groups_range (a :: ip)) as Hg.
      destruct (8 <=? zs)%nat; [by apply plain_join_hex|].
      repeat (apply plain_app); [by apply plain_join_hex, Forall_take|repeat constructor; vm_compute; congruence|
        by apply plain_join_hex, Forall_drop].
    + constructor; [vm_compute; split; congruence|]. unfold hex_all. generalize (a :: ip). intros l.
      induction l as [|b l IH]; [constructor|]. cbn [flat_map]. apply plain_app; [|done]. pose proof (b2z_range b).
      apply (plain_app [_] [_]); apply plain_hex_char; Z.to_euclidean_division_equations; lia.
Qed.

Lemma plain_password draws : (forall i, 0 <= draws i < 62) -> plain (generateRandomPassword draws).
Proof.
  intros Hd. unfold generateRandomPassword. apply Forall_map, Forall_forall. intros i _.
  assert (plain alphabet) as Ha by (repeat constructor; vm_compute; congruence).
  destruct (lookup_lt_is_Some_2 alphabet (Z.to_nat (draws i))) as [b Hb].
  { specialize (Hd i). change (length alphabet) with 62%nat. lia. }
  rewrite Hb. cbn. unfold plain in Ha. rewrite Forall_forall in Ha. apply Ha. by eapply list_elem_of_lookup_2.
Qed.

(** ** The changes *)

Lemma change_for_put k k' v changes : change_for k (put k' v changes) = if decide (k' = k) then Some v else change_for k changes.
Proof.
  induction changes as [|e changes IH]; cbn [put].
  - rewrite change_for_cons. cbn [fst snd]. by destruct (decide (k' = k)).
  - destruct (decide (fst e = k')) as [<-|Hn]; rewrite !change_for_cons; cbn [fst snd]; [by destruct (decide (fst e = k))|].
    rewrite IH. destruct (decide (fst e = k)), (decide (k' = k)); try done. congruence.
Qed.

Lemma put_ok k v changes : change_ok (k, v) -> Forall change_ok changes -> Forall change_ok (put k v changes).
Proof.
  intros Hv. induction 1 as [|e changes He Hc IH]; cbn [put]; [by apply Forall_singleton|].
  destruct (decide _); by apply Forall_cons_2.
Qed.

Lemma put_keys k v changes : NoDup (map fst changes) -> NoDup (map fst (put k v changes)) /\ (forall x, x ∈ map fst (put k v changes) -> x = k \/ x ∈ map fst changes).
Proof.
  induction changes as [|e changes IH]; cbn [put map]; intros Hn.
  - split; [apply NoDup_singleton|]. intros x [->|?]%elem_of_cons; auto.
  - apply NoDup_cons in Hn as [He Hn]. destruct (decide (fst e = k)) as [<-|Hk]; cbn [map fst].
    + split; [by constructor|]. auto.
    + destruct (IH Hn) as [H1 H2]. split.
      * constructor; [|done]. intros [?|?]%H2; [done|by apply He].
      * intros x [->|Hx]%elem_of_cons; [right; by left|]. destruct (H2 x Hx); [auto|right; by right].
Qed.

(** What a map gives for a key does not depend on the order of its entries. *)
Lemma change_for_perm k changes changes' : NoDup (map fst changes) -> changes ≡ₚ changes' -> change_for k changes = change_for k changes'.
Proof.
  intros Hn Hp. induction Hp as [|e l l' Hp IH|e e' l|l1 l2 l3 Hp1 IH1 Hp2 IH2]; [done| | |].
  - cbn [map] in Hn. apply NoDup_cons in Hn as [_ Hn]. by rewrite !change_for_cons, IH.
  - cbn [map] in Hn. apply NoDup_cons in Hn as [Hn _]. apply not_elem_of_cons in Hn as [Hn _].
    rewrite !change_for_cons. destruct (decide (fst e = k)), (decide (fst e' = k)); try done. congruence.
  - rewrite IH1 by done. apply IH2. by rewrite <- Hp1.
Qed.

(** The key and value conditions of every change. *)
Lemma key_ok k v : bool_decide ((x3d ∉ k) /\ (x0a ∉ k) /\ TrimSpace k = k /\ ToLower k = k) = true -> value_ok v -> change_ok (k, v).
Proof. intros (H1 & H2 & H3 & H4)%bool_decide_eq_true [H5 H6]. done. Qed.

Definition threshold_put (methods : list Method) (changes : Changes) : Changes :=
  if decide (MethodLobby ∈ methods) then put (str "network-compression-threshold") (itoa CompressionThreshold) changes else changes.

Lemma put_put k v changes : put k v (put k v changes) = put k v changes.
Proof.
  induction changes as [|e changes IH]; cbn [put]; [by rewrite decide_True|].
  destruct (decide (fst e = k)) eqn:E; cbn [put]; [by rewrite decide_True|]. by rewrite E, IH.
Qed.

Lemma threshold_fold methods changes :
  fold_left (fun changes m => if decide (m = MethodLobby)
    then put (str "network-compression-threshold") (itoa CompressionThreshold) changes else changes) methods changes
  = threshold_put methods changes.
Proof.
  unfold threshold_put. revert changes. induction methods as [|m ms IH]; intros changes; cbn [fold_left].
  - rewrite decide_False; [done|apply not_elem_of_nil].
  - rewrite IH. destruct (decide (m = MethodLobby)) as [->|Hm].
    + rewrite (decide_True (P := MethodLobby ∈ MethodLobby :: ms)) by left.
      destruct (decide (MethodLobby ∈ ms)); [apply put_put|done].
    + destruct (decide (MethodLobby ∈ ms)); [by rewrite decide_True by (by right)|].
      rewrite decide_False; [done|]. by intros [?|?]%elem_of_cons.
Qed.

Lemma put_wf k v changes : change_ok (k, v) -> Forall change_ok changes /\ NoDup (map fst changes) ->
  Forall change_ok (put k v changes) /\ NoDup (map fst (put k v changes)).
Proof. intros Hv [H1 H2]. split; [by apply put_ok|by apply put_keys]. Qed.

Lemma server_changes_wf config :
  0 <= SocketAddr_Port (Server_Address (Config_Server config)) -> 0 <= Rcon_Port (Config_Rcon config) ->
  (Rcon_Enabled (Config_Rcon config) = true -> value_ok (Password (Config_Rcon config))) ->
  Forall change_ok (server_changes config) /\ NoDup (map fst (server_changes config)).
Proof.
  intros Hp Hr Hpw. unfold server_changes. cbn zeta. rewrite threshold_fold.
  assert (value_ok (str "true") /\ value_ok (str "false")) as [Ht Hf] by (split; apply plain_value; repeat constructor; vm_compute; congruence).
  set (base := [_; _; _; _]).
  assert (Forall change_ok base /\ NoDup (map fst base)) as H0.
  { split; [|apply (bool_decide_unpack _); reflexivity].
    repeat (apply Forall_cons_2; [apply key_ok; [reflexivity|];
      first [exact Ht|apply plain_value; first [apply plain_IP_String|by apply plain_itoa]]|]). apply Forall_nil_2. }
  clearbody base.
  set (c1 := if negb _ then _ else _).
  assert (Forall change_ok c1 /\ NoDup (map fst c1)) as H1 by (unfold c1; destruct (negb _); [apply put_wf; [by apply key_ok|]|]; done).
  clearbody c1.
  assert (Forall change_ok (threshold_put (Methods (Config_Join config)) c1) /\ NoDup (map fst (threshold_put (Methods (Config_Join config)) c1))) as H2.
  { unfold threshold_put. destruct (decide _); [|done]. apply put_wf; [|done]. apply key_ok; [done|]. by apply plain_value, plain_itoa. }
  destruct (Rcon_Enabled _); [|done].
  apply put_wf; [by apply key_ok|]. apply put_wf; [by apply key_ok, Hpw|]. apply put_wf; [|done].
  apply key_ok; [done|]. by apply plain_value, plain_itoa.
Qed.

(** The keys the gateway may write. *)
Definition managed_keys : list bytes :=
  map str ["server-ip"; "server-port"; "enable-status"; "query.port"; "prevent-proxy-connections";
           "network-compression-threshold"; "rcon.port"; "rcon.password"; "enable-rcon"]%string.

Ltac server_cases config :=
  unfold server_changes; cbn zeta; rewrite threshold_fold; unfold threshold_put;
  destruct (decide (MethodLobby ∈ Methods (Config_Join config))), (negb (IsLoopback _)),
    (Rcon_Enabled (Config_Rcon config)) eqn:?.

Lemma server_changes_address config :
  let address := Server_Address (Config_Server config) in
  change_for (str "server-ip") (server_changes config) = Some (IP_String (SocketAddr_IP address))
  /\ change_for (str "server-port") (server_changes config) = Some (itoa (SocketAddr_Port address)).
Proof. cbn zeta. server_cases config; split; reflexivity. Qed.

Lemma server_changes_lobby config : MethodLobby ∈ Methods (Config_Join config) ->
  change_for (str "network-compression-threshold") (server_changes config) = Some (str "256").
Proof. intros H. server_cases config; first [reflexivity|done]. Qed.

Lemma server_changes_rcon config : Rcon_Enabled (Config_Rcon config) = true ->
  change_for (str "rcon.port") (server_changes config) = Some (itoa (Rcon_Port (Config_Rcon config)))
  /\ change_for (str "rcon.password") (server_changes config) = Some (Password (Config_Rcon config))
  /\ change_for (str "enable-rcon") (server_changes config) = Some (str "true").
Proof. intros H. server_cases config; first [split_and!; reflexivity|congruence]. Qed.

Lemma server_changes_other config k : k ∉ managed_keys -> change_for k (server_changes config) = None.
Proof.
  unfold managed_keys. cbn [map]. rewrite !not_elem_of_cons. intros (? & ? & ? & ? & ? & ? & ? & ? & ? & _).
  server_cases config; rewrite ?change_for_put, !change_for_cons; cbn [fst]; rewrite !decide_False by done; reflexivity.
Qed.

Lemma changes_ok_perm changes changes' : changes ≡ₚ changes' -> changes_ok changes -> changes_ok changes'.
Proof. intros Hp [H1 H2]. split; [by rewrite <- Hp|]. by rewrite <- (fmap_Permutation fst _ _ Hp). Qed.

(** Rewriting applies: it is enabled, the server's directory is known and
    exists, and the file can be read. *)
Definition rewrites (config : Config) (dir_ok : bool) (file : File) : Prop :=
  RewriteServerProperties (Config_Advanced config) = true
  /\ (Config_Path config <> [] \/ Directory (Config_Server config) <> [])
  /\ dir_ok = true /\ exists contents, file = Contents contents.

Lemma rewrite_skipped config order dir_ok file : (forall l, order l ≡ₚ l) -> ~ rewrites config dir_ok file ->
  rewriteServerProperties config order dir_ok file = file.
Proof.
  intros Ho Hn. unfold rewriteServerProperties. destruct (RewriteServerProperties _) eqn:Er; [|done]. cbn [negb].
  destruct (_ && _) eqn:Ed; [done|]. unfold RewriteServerPropertiesDir, RewriteServerPropertiesFile.
  destruct (order _); [done|]. destruct dir_ok; [|done]. destruct file as [| |c]; try done.
  exfalso. apply Hn. split_and!; eauto. apply andb_false_iff in Ed as [Ed%bool_decide_eq_false|Ed%bool_decide_eq_false]; auto.
Qed.

Lemma rewrite_applied config order contents p : (forall l, order l ≡ₚ l) -> changes_ok (server_changes config) ->
  rewrites config true (Contents contents) -> head (ToLower p) <> Some x23 ->
  assigned (rewriteServerProperties config order true (Contents contents)) p
  = with_first (change_for (ToLower p) (server_changes config)) (assigned (Contents contents) p).
Proof.
  intros Ho Hok (Hrw & Hdir & _) Hh. unfold rewriteServerProperties. rewrite Hrw. cbn [negb].
  assert (bool_decide (Config_Path config = []) && bool_decide (Directory (Config_Server config) = []) = false) as ->.
  { apply andb_false_iff. rewrite !bool_decide_eq_false. tauto. }
  assert (RewriteServerPropertiesDir true (Contents contents) (order (server_changes config))
    = RewriteServerPropertiesFile (Contents contents) (order (server_changes config))) as -> by (by destruct (order _)).
  rewrite properties_rewritten; [|by apply (changes_ok_perm (server_changes config))|done].
  by rewrite <- (change_for_perm _ _ _ (proj2 Hok) (symmetry (Ho _))).
Qed.

(** What an accepted RCON preparation gives. *)
Lemma prepareRcon_cases draws config config' : (forall i, 0 <= draws i < 62) -> value_ok (Password (Config_Rcon config)) ->
  prepareRcon draws config = Some config' ->
  exists pw, config' = set_password pw config /\ value_ok pw
  /\ (Rcon_Enabled (Config_Rcon config) = true -> Rcon_Port (Config_Rcon config) <> SocketAddr_Port (Server_Address (Config_Server config)) /\ pw <> []).
Proof.
  intros Hd Hpw. assert (config = set_password (Password (Config_Rcon config)) config) as Hid by (by destruct config as [? ? ? ? ? ? ? ? [] ?]).
  unfold prepareRcon. destruct (Rcon_Enabled (Config_Rcon config)) eqn:Een; cbn [negb]; [|intros [= <-]; eauto].
  destruct (Z.eqb_spec (SocketAddr_Port (Server_Address (Config_Server config))) (Rcon_Port (Config_Rcon config))) as [|Hne]; [done|].
  destruct (bool_decide_reflect (Password (Config_Rcon config) = [])), (RandomizePassword (Config_Rcon config)); cbn [negb andb]; try done.
  all: try (destruct (RewriteServerProperties _); [cbn [negb]|done]; intros [= <-];
    eexists; split_and!; [reflexivity|by apply plain_value, plain_password|]; intros _; split; [by apply not_eq_sym|done]).
  intros [= <-]. exists (Password (Config_Rcon config)). split_and!; [done|done|]. intros _. split; [by apply not_eq_sym|done].
Qed.


(** A gateway with the lobby and RCON with a random password. *)
Definition start_config : Config :=
  let c := sample_config false false false in
  let s := Config_Server c in
  mkConfig [] (Config_Public c)
    (mkServer (str "server") (Command s) false (mkSocketAddr (IPv4 x7f x00 x00 x01) 25566) false false false false false [] 300 150 true true false false)
    (Config_Auth c) (Config_Time c) (Config_Motd c)
    (mkJoin [MethodLobby; MethodKick] (Join_Kick (Config_Join c)) (Join_Hold (Config_Join c)) (Join_Forward (Config_Join c)) (Join_Lobby (Config_Join c)))
    (Config_Lockout c) (mkRcon true 25575 [] true false) (mkAdvanced true) (Config_Config c).

Definition sample_draws (i : nat) : Z := Z.of_nat (i `mod` 62).

