(* ===== verification/Terminal.v ===== *)
(** The process around the gateway: [src/util/style.go], [src/util/mod.go],
    [src/util/terminal.go], [src/util/error.go] and [src/util/cli.go].

    A program is a function from a world (what was printed, what is still to be
    read, the files, the environment variables) to a result and a world; it
    may exit, and then nothing after it runs. *)
From stdpp Require Import gmap.
From S2P Require Import Prelude Config Net Access ServerProperties Files.

(** ** Programs *)

(** What does not change while the process runs, and how the kernel answers a
    write to a file: [Some k] fails after [k] bytes. *)
Record Proc := mkProc {
  isTerminal : bool;
  Args : list bytes;
  Executable : option bytes;
  Getwd : option bytes;
  clock : Z; (* seconds since 1970 *)
  write_fails : option nat }.

Record World := mkWorld {
  stdout : bytes;
  stderr : bytes;
  stdin : bytes;
  disk : FS;
  environ : gmap bytes bytes }.

Inductive Outcome (A : Type) := Done (a : A) | Exited (code : Z) | Hung.
Arguments Done {A}.
Arguments Exited {A}.
Arguments Hung {A}.

Definition Prog (A : Type) : Type := World -> Outcome A * World.

#[export] Instance Prog_ret : MRet Prog := fun _ a w => (Done a, w).

#[export] Instance Prog_bind : MBind Prog := fun _ _ k m w =>
  match m w with
  | (Done a, w') => k a w'
  | (Exited c, w') => (Exited c, w')
  | (Hung, w') => (Hung, w')
  end.

Definition printed (out err : bytes) : Prog unit := fun w =>
  (Done tt, mkWorld (stdout w ++ out) (stderr w ++ err) (stdin w) (disk w) (environ w)).

Definition say (text : bytes) : Prog unit := printed text [].
Definition complain (text : bytes) : Prog unit := printed [] text.
Definition exit {A} (code : Z) : Prog A := fun w => (Exited code, w).
Definition files {A} (f : FS -> A) : Prog A := fun w => (Done (f (disk w)), w).
Definition set_disk (fs : FS) (w : World) : World := mkWorld (stdout w) (stderr w) (stdin w) fs (environ w).
Definition set_stdin (i : bytes) (w : World) : World := mkWorld (stdout w) (stderr w) i (disk w) (environ w).
Definition set_environ (e : gmap bytes bytes) (w : World) : World := mkWorld (stdout w) (stderr w) (stdin w) (disk w) e.

Definition nl : bytes := [x0a].

(** [strings.HasPrefix], and [strings.TrimPrefix] where the prefix is there *)
Definition HasPrefix (s p : bytes) : bool := bool_decide (take (length p) s = p).
Definition TrimPrefix (s p : bytes) : bytes := if HasPrefix s p then drop (length p) s else s.

(** An error as [errors.Unwrap] sees it: its message, then the messages of its
    causes. *)
Definition Err : Type := list bytes.

Definition Errorf (msg : bytes) : Err := [msg].

(** [fmt.Errorf("...: %w", err)] *)
Definition wrap (prefix : bytes) (err : Err) : Err := (prefix ++ default [] (head err)) :: err.

Section Terminal.

Context (proc : Proc).

(** ** Style *)

Definition ansiReset : bytes := x1b :: str "[0m".
Definition ansiRed : bytes := x1b :: str "[31m".
Definition ansiYellow : bytes := x1b :: str "[33m".
Definition ansiCyan : bytes := x1b :: str "[36m".
Definition ansiBold : bytes := x1b :: str "[1m".

Definition colorize (msg code : bytes) : bytes := if negb (isTerminal proc) then msg else code ++ msg ++ ansiReset.

Definition Highlight (msg : bytes) : bytes := colorize msg ansiYellow.
Definition HighlightError (msg : bytes) : bytes := colorize msg (ansiRed ++ ansiBold).
Definition HighlightWarning (msg : bytes) : bytes := colorize msg (ansiYellow ++ ansiBold).
Definition HighlightInfo (msg : bytes) : bytes := colorize msg ansiCyan.

Definition BinName : bytes :=
  let named :=
    match Args proc with
    | arg :: _ =>
        let name := Base arg in
        if decide (arg <> [] /\ name <> [] /\ name <> dot /\ name <> [slash]) then Some name else None
    | [] => None
    end in
  match named with
  | Some name => name
  | None =>
      match Executable proc with
      | Some exe => if decide (Base exe <> []) then Base exe else str "lazymc"
      | None => str "lazymc"
      end
  end.

(** ** Errors *)

Record ErrorHints := mkErrorHints {
  h_info : list bytes;
  h_config : bool;
  h_configGenerate : bool;
  h_configTest : bool;
  h_verbose : bool;
  h_help : bool }.

Definition NewErrorHintsBuilder : ErrorHints := mkErrorHints [] false false false true true.
Definition DefaultErrorHints : ErrorHints := mkErrorHints [] false false false true true.

Definition AddInfo (info : bytes) (h : ErrorHints) : ErrorHints :=
  mkErrorHints (h_info h ++ [info]) (h_config h) (h_configGenerate h) (h_configTest h) (h_verbose h) (h_help h).
Definition HintConfig (h : ErrorHints) : ErrorHints :=
  mkErrorHints (h_info h) true (h_configGenerate h) (h_configTest h) (h_verbose h) (h_help h).
Definition HintConfigGenerate (h : ErrorHints) : ErrorHints :=
  mkErrorHints (h_info h) (h_config h) true (h_configTest h) (h_verbose h) (h_help h).
Definition HintConfigTest (h : ErrorHints) : ErrorHints :=
  mkErrorHints (h_info h) (h_config h) (h_configGenerate h) true (h_verbose h) (h_help h).

Definition HintVerbose (h : ErrorHints) : ErrorHints :=
  mkErrorHints (h_info h) (h_config h) (h_configGenerate h) (h_configTest h) true (h_help h).
Definition HintHelp (h : ErrorHints) : ErrorHints :=
  mkErrorHints (h_info h) (h_config h) (h_configGenerate h) (h_configTest h) (h_verbose h) true.

Definition hints_any (h : ErrorHints) : bool :=
  h_config h || h_configGenerate h || h_configTest h || h_verbose h || h_help h.

Fixpoint print_infos (infos : list bytes) : Prog unit :=
  match infos with
  | [] => mret tt
  | msg :: infos' => _ ← complain (HighlightInfo (str "info:") ++ str " " ++ msg ++ nl); print_infos infos'
  end.

Definition when (b : bool) (m : Prog unit) : Prog unit := if b then m else mret tt.

Definition hints_Print (h : ErrorHints) (endNewline : bool) : Prog unit :=
  _ ← print_infos (h_info h);
  if negb (hints_any h) then mret tt
  else
    _ ← complain nl;
    let bin := BinName in
    _ ← when (h_configGenerate h)
          (complain (str "Use '" ++ Highlight (bin ++ str " config generate") ++ str "' to generate a new config file" ++ nl));
    _ ← when (h_config h) (complain (str "Use '" ++ Highlight (str "--config FILE") ++ str "' to select a config file" ++ nl));
    _ ← when (h_configTest h)
          (complain (str "Use '" ++ Highlight (bin ++ str " config test -c FILE") ++ str "' to test a config file" ++ nl));
    _ ← when (h_verbose h) (complain (str "For a detailed log add '" ++ Highlight (str "--verbose") ++ str "'" ++ nl));
    _ ← when (h_help h) (complain (str "For more information add '" ++ Highlight (str "--help") ++ str "'" ++ nl));
    when endNewline (complain nl).

(** The loop of [PrintError]: the lines that were reported. *)
Fixpoint report (count : nat) (err : Err) : Prog nat :=
  match err with
  | [] => mret count
  | msg :: causes =>
      if decide (msg = []) then report count causes
      else
        _ ← complain (HighlightError (if (count =? 0)%nat then str "error:" else str "caused by:") ++ str " " ++ msg ++ nl);
        if (32 <=? S count)%nat then mret (S count) else report (S count) causes
  end.

Definition PrintError (err : Err) : Prog unit :=
  count ← report 0 err;
  when (count =? 0)%nat (complain (HighlightError (str "error:") ++ str " an undefined error occurred" ++ nl)).

Definition PrintErrorMsg (msg : bytes) : Prog unit := PrintError (Errorf msg).
Definition PrintWarning (msg : bytes) : Prog unit := complain (HighlightWarning (str "warning:") ++ str " " ++ msg ++ nl).

Definition Quit {A} : Prog A := exit 0.

Definition QuitError {A} (err : Err) (hints : ErrorHints) : Prog A :=
  _ ← PrintError err;
  _ ← hints_Print hints false;
  exit 1.

Definition QuitErrorMsg {A} (msg : bytes) (hints : ErrorHints) : Prog A := QuitError (Errorf msg) hints.

(** ** Prompts *)

(** [bufio.Reader.ReadString] with a line feed: the text up to and with it, and
    whether the input ended before. *)
Fixpoint ReadString (s : bytes) : bytes * bool * bytes :=
  match s with
  | [] => ([], true, [])
  | b :: s' => if decide (b = x0a) then ([b], false, s') else let '(l, eof, rest) := ReadString s' in (b :: l, eof, rest)
  end.

Definition read_line : Prog (bytes * bool) := fun w =>
  let '(l, eof, rest) := ReadString (stdin w) in (Done (l, eof), set_stdin rest w).

Definition Prompt (msg : bytes) : Prog bytes :=
  _ ← complain (msg ++ str ": ");
  '(input, eof) ← read_line;
  if eof && bool_decide (input = [])
  then QuitError (Errorf (str "failed to read input from prompt: EOF")) DefaultErrorHints
  else mret (TrimSpace input).

Definition yesLabel (def : option bool) (yes : bool) : bytes :=
  if bool_decide (def = Some yes) then (if yes then str "Y" else str "N") else (if yes then str "y" else str "n").

Definition deriveBool (input : bytes) : option bool :=
  let input := ToLower (TrimSpace input) in
  if decide (input ∈ [str "y"; str "ye"; str "t"; str "1"]) then Some true
  else if decide (input ∈ [str "n"; str "f"; str "0"]) then Some false
  else if HasPrefix input (str "yes") || HasPrefix input (str "true") then Some true
  else if HasPrefix input (str "no") || HasPrefix input (str "false") then Some false
  else None.

Fixpoint PromptYes_fuel (fuel : nat) (msg : bytes) (def : option bool) : Prog bool :=
  match fuel with
  | O => fun w => (Hung, w)
  | S fuel' =>
      answer ← Prompt (msg ++ str " [" ++ yesLabel def true ++ str "/" ++ yesLabel def false ++ str "]");
      match answer, def with
      | [], Some d => mret d
      | _, _ =>
          match deriveBool answer with
          | Some b => mret b
          | None => PromptYes_fuel fuel' msg def
          end
      end
  end.

(** One prompt per byte of input and one for its end are enough
    ([PromptYes_answers]). *)
Definition PromptYes (msg : bytes) (def : option bool) : Prog bool := fun w =>
  PromptYes_fuel (S (length (stdin w))) msg def w.

End Terminal.

(** ** Programs that only print *)

Create HintDb prog.

(** A program that leaves the files and the environment alone and does not get
    stuck. *)
Definition harmless {A} (m : Prog A) : Prop := forall w,
  disk (snd (m w)) = disk w /\ environ (snd (m w)) = environ w /\ fst (m w) <> Hung.

Lemma harmless_ret {A} (a : A) : harmless (mret a).
Proof. by intros w. Qed.

Lemma harmless_bind {A B} (m : Prog A) (k : A -> Prog B) : harmless m -> (forall a, harmless (k a)) -> harmless (mbind k m).
Proof.
  intros Hm Hk w. destruct (Hm w) as (H1 & H2 & H3). unfold mbind, Prog_bind. destruct (m w) as [[a|c|] w']; cbn in *; [|done|done].
  destruct (Hk a w') as (K1 & K2 & K3). by rewrite K1, K2.
Qed.

Lemma harmless_printed out err : harmless (printed out err).
Proof. by intros w. Qed.

Lemma harmless_exit {A} c : harmless (@exit A c).
Proof. by intros w. Qed.

Lemma harmless_files {A} (f : FS -> A) : harmless (files f).
Proof. by intros w. Qed.

Lemma harmless_read_line : harmless read_line.
Proof. intros w. unfold read_line. by destruct (ReadString (stdin w)) as [[l eof] rest]. Qed.

#[export] Hint Resolve harmless_ret harmless_printed harmless_exit harmless_files harmless_read_line : prog.
#[export] Hint Unfold say complain Quit when : prog.

Ltac solve_harmless :=
  repeat first
    [ progress auto with prog
    | apply harmless_bind; [|intros ?]
    | progress autounfold with prog
    | case_match
    | case_decide ].

Section Harmless.

Context (proc : Proc).

Lemma harmless_print_infos infos : harmless (print_infos proc infos).
Proof. induction infos; cbn [print_infos]; solve_harmless. Qed.

Lemma harmless_hints h b : harmless (hints_Print proc h b).
Proof. pose proof (harmless_print_infos (h_info h)). unfold hints_Print. solve_harmless. Qed.

Lemma harmless_report err : forall count, harmless (report proc count err).
Proof. induction err as [|msg err IH]; intros count; cbn [report]; solve_harmless. Qed.

Lemma harmless_QuitError {A} err hints : harmless (@QuitError proc A err hints).
Proof. pose proof (harmless_report err 0). pose proof (harmless_hints hints false). unfold QuitError, PrintError. solve_harmless. Qed.

#[local] Hint Resolve harmless_QuitError : prog.

Lemma harmless_Prompt msg : harmless (Prompt proc msg).
Proof. unfold Prompt. solve_harmless. Qed.

(** A prompt returns only after it has taken something from the input. *)
Lemma ReadString_rest s l eof rest : ReadString s = (l, eof, rest) -> s = l ++ rest /\ (l = [] -> s = [] /\ eof = true).
Proof.
  revert l eof rest. induction s as [|b s IH]; intros l eof rest; cbn; [by intros [= <- <- <-]|].
  case_decide; [intros [= <- <- <-]; by subst|]. destruct (ReadString s) as [[l1 eof1] rest1] eqn:E. intros [= <- <- <-].
  destruct (IH _ _ _ eq_refl) as [-> _]. done.
Qed.

Lemma QuitError_exits {A} err hints w : exists w', @QuitError proc A err hints w = (Exited 1, w').
Proof.
  destruct (harmless_report err 0 w) as (_ & _ & Hr). unfold QuitError, PrintError, mbind, Prog_bind, when.
  assert (forall h b k, exists k', hints_Print proc h b k = (Done tt, k')) as Hh.
  { intros h b k. unfold hints_Print, mbind, Prog_bind.
    assert (forall infos k0, exists k', print_infos proc infos k0 = (Done tt, k')) as Hi
      by (intros infos; induction infos as [|i infos IH]; intros k0; [by eexists|]; cbn; unfold mbind, Prog_bind; cbn; apply IH).
    destruct (Hi (h_info h) k) as [k1 ->]. destruct (hints_any h); cbn; [|by eexists]. unfold when.
    by destruct (h_configGenerate h), (h_config h), (h_configTest h), (h_verbose h), (h_help h), b; eexists. }
  assert (forall e n k, exists m k', report proc n e k = (Done m, k')) as He.
  { intros e. induction e as [|msg e IH]; intros n k; cbn [report]; [by do 2 eexists|]. case_decide; [apply IH|].
    unfold mbind, Prog_bind. cbn. case_match; [by do 2 eexists|apply IH]. }
  destruct (He err 0%nat w) as (m & k1 & ->). destruct (Hh hints false (snd (when (m =? 0)%nat
    (complain (HighlightError proc (str "error:") ++ str " an undefined error occurred" ++ nl)) k1))) as [k2 Hk2].
  exists k2. unfold when in Hk2. by destruct (m =? 0)%nat; cbn in *; rewrite Hk2.
Qed.

Lemma Prompt_takes msg w : exists w', Prompt proc msg w = (Exited 1, w') \/
  (exists a, Prompt proc msg w = (Done a, w')) /\ (length (stdin w') < length (stdin w))%nat.
Proof.
  unfold Prompt, mbind, Prog_bind, complain, printed. cbn. unfold read_line. cbn [stdin].
  destruct (ReadString (stdin w)) as [[l eof] rest] eqn:E. apply ReadString_rest in E as [Es Hl].
  destruct (eof && _) eqn:Eb.
  - destruct (@QuitError_exits bytes (Errorf (str "failed to read input from prompt: EOF")) DefaultErrorHints
      (set_stdin rest (mkWorld (stdout w ++ []) (stderr w ++ msg ++ str ": ") (stdin w) (disk w) (environ w)))) as [w' Hw].
    exists w'. left. exact Hw.
  - eexists. right. split; [by eexists|]. cbn [stdin set_stdin]. rewrite Es, length_app. destruct l as [|b l]; [|cbn; lia].
    destruct Hl as [_ ->]; [done|]. done.
Qed.

(** Asking ends, with an answer or with the end of the input. *)
Lemma PromptYes_answers msg def w : harmless (PromptYes proc msg def)
  /\ exists w', PromptYes proc msg def w = (Exited 1, w') \/ exists b, PromptYes proc msg def w = (Done b, w').
Proof.
  assert (forall fuel w, (length (stdin w) < fuel)%nat -> exists w',
    (disk w' = disk w /\ environ w' = environ w) /\
    (PromptYes_fuel proc fuel msg def w = (Exited 1, w') \/ exists b, PromptYes_fuel proc fuel msg def w = (Done b, w'))) as Hgen.
  { intros fuel. induction fuel as [|fuel IH]; intros k Hk; [lia|]. cbn [PromptYes_fuel]. unfold mbind, Prog_bind.
    pose proof (harmless_Prompt (msg ++ str " [" ++ yesLabel def true ++ str "/" ++ yesLabel def false ++ str "]") k) as (D1 & D2 & _).
    destruct (Prompt_takes (msg ++ str " [" ++ yesLabel def true ++ str "/" ++ yesLabel def false ++ str "]") k) as [k1 [E|[[a E] Hlt]]];
      rewrite E in *; cbn [snd] in *; [exists k1; auto|].
    assert (forall b, exists w', (disk w' = disk k /\ environ w' = environ k)
      /\ ((mret b : Prog bool) k1 = (Exited 1, w') \/ exists b', (mret b : Prog bool) k1 = (Done b', w'))) as Hret
      by (intros b; exists k1; eauto).
    destruct (IH k1) as (k2 & [I1 I2] & IHk); [lia|]. rewrite D1, D2 in *.
    destruct a as [|x a]; [destruct def as [d|]; [apply Hret|]|]; (destruct (deriveBool _); [apply Hret|exists k2; rewrite I1, I2; auto]). }
  split.
  - intros k. destruct (Hgen (S (length (stdin k))) k) as (k' & [H1 H2] & [E|[b E]]); [lia|..]; unfold PromptYes; by rewrite E.
  - destruct (Hgen (S (length (stdin w))) w) as (k' & _ & H); [lia|]. by exists k'.
Qed.

End Harmless.

#[export] Hint Resolve harmless_hints harmless_report harmless_QuitError harmless_Prompt : prog.
