(* ===== verification/Logger.v ===== *)
(** Logging: [src/util/logger.go] with the adapters of [src/log.go].

    The filter that the Go code keeps in a variable is a value; a log message
    is its text after formatting. *)
From stdpp Require Import gmap.
From S2P Require Import Prelude Config Net Access ServerProperties Files Start Terminal.

(** ** Levels *)

Inductive Level := LevelTrace | LevelDebug | LevelInfo | LevelWarn | LevelError | LevelOff.

#[export] Instance Level_eq_dec : EqDecision Level.
Proof. solve_decision. Defined.

Definition level_num (l : Level) : nat :=
  match l with LevelTrace => 0 | LevelDebug => 1 | LevelInfo => 2 | LevelWarn => 3 | LevelError => 4 | LevelOff => 5 end.

Definition Level_String (l : Level) : bytes :=
  match l with
  | LevelTrace => str "TRACE"
  | LevelDebug => str "DEBUG"
  | LevelInfo => str "INFO"
  | LevelWarn => str "WARN"
  | LevelError => str "ERROR"
  | LevelOff => str "OFF"
  end.

Definition Level_color (proc : Proc) (l : Level) : bytes :=
  if negb (isTerminal proc) then []
  else match l with
       | LevelTrace => x1b :: str "[35m"
       | LevelDebug => x1b :: str "[34m"
       | LevelInfo => x1b :: str "[32m"
       | LevelWarn => x1b :: str "[33m"
       | LevelError => x1b :: str "[31m"
       | LevelOff => []
       end.

Definition parseLevel (s : bytes) : option Level :=
  let s := ToLower (TrimSpace s) in
  if decide (s = str "trace") then Some LevelTrace
  else if decide (s = str "debug") then Some LevelDebug
  else if decide (s = str "info") then Some LevelInfo
  else if decide (s = str "warn" \/ s = str "warning") then Some LevelWarn
  else if decide (s = str "error") then Some LevelError
  else if decide (s = str "off") then Some LevelOff
  else None.

(** ** The filter *)

Record logDirective := mkDirective { d_target : bytes; d_level : Level }.

Record LogFilter := mkLogFilter { f_global : Level; f_directives : list logDirective }.

(** One part of a specification: the loop body of [parseLogFilter]. *)
Definition add_part (f : LogFilter) (part : bytes) : LogFilter :=
  let part := TrimSpace part in
  if decide (part = []) then f
  else
    let (target, levelStr) :=
      match IndexByte part x3d with
      | Some idx => (take idx part, drop (S idx) part)
      | None => ([], part)
      end in
    match parseLevel levelStr with
    | None => f
    | Some level =>
        if decide (target = []) then mkLogFilter level (f_directives f)
        else mkLogFilter (f_global f) (f_directives f ++ [mkDirective target level])
    end.

Definition parseLogFilter (spec : bytes) : LogFilter :=
  foldl add_part (mkLogFilter LevelInfo []) (split_at x2c spec).

Definition matches (target : bytes) (d : logDirective) : bool :=
  bool_decide (d_target d = target) || HasPrefix target (d_target d ++ str "::").

Fixpoint first_match (target : bytes) (ds : list logDirective) : option logDirective :=
  match ds with
  | [] => None
  | d :: ds' => if matches target d then Some d else first_match target ds'
  end.

Definition enabled (f : LogFilter) (level : Level) (target : bytes) : bool :=
  match first_match target (f_directives f) with
  | Some d => (level_num (d_level d) <=? level_num level)%nat
  | None => (level_num (f_global f) <=? level_num level)%nat
  end.

(** ** Messages *)

(** The date of a day number since 1970-01-01. *)
Definition civil_from_days (days : Z) : Z * Z * Z :=
  let z := days + 719468 in
  let era := z / 146097 in
  let doe := z - era * 146097 in
  let yoe := (doe - doe / 1460 + doe / 36524 - doe / 146096) / 365 in
  let doy := doe - (365 * yoe + yoe / 4 - yoe / 100) in
  let mp := (5 * doy + 2) / 153 in
  let m := if mp <? 10 then mp + 3 else mp - 9 in
  (yoe + era * 400 + (if m <=? 2 then 1 else 0), m, doy - (153 * mp + 2) / 5 + 1).

(** [n] digits of a number, with leading zeros *)
Fixpoint digits (n : nat) (v : Z) : bytes :=
  match n with O => [] | S n' => digits n' (v / 10) ++ [z2b (0x30 + v mod 10)] end.

(** [Format("2006-01-02T15:04:05Z")] of a UTC time in the years 0 to 9999 *)
Definition timestamp (secs : Z) : bytes :=
  let '(y, m, d) := civil_from_days (secs / 86400) in
  let s := secs mod 86400 in
  digits 4 y ++ str "-" ++ digits 2 m ++ str "-" ++ digits 2 d ++ str "T"
  ++ digits 2 (s / 3600) ++ str ":" ++ digits 2 (s / 60 mod 60) ++ str ":" ++ digits 2 (s mod 60) ++ str "Z".

(** The padded level name that the code computes is not printed. *)
Definition log_line (proc : Proc) (level : Level) (target msg : bytes) : bytes :=
  let levelStr := Level_String level in
  let color := Level_color proc level in
  let levelColored := if decide (color <> []) then color ++ levelStr ++ ansiReset else levelStr in
  str "[" ++ timestamp (clock proc) ++ str " " ++ levelColored ++ str " " ++ target ++ str "] " ++ msg ++ nl.

Definition Log (proc : Proc) (f : LogFilter) (level : Level) (target msg : bytes) : Prog unit :=
  if negb (enabled f level target) then mret tt else complain (log_line proc level target msg).

Definition Trace (proc : Proc) (f : LogFilter) : bytes -> bytes -> Prog unit := Log proc f LevelTrace.
Definition Debug (proc : Proc) (f : LogFilter) : bytes -> bytes -> Prog unit := Log proc f LevelDebug.
Definition Info (proc : Proc) (f : LogFilter) : bytes -> bytes -> Prog unit := Log proc f LevelInfo.
Definition Warn (proc : Proc) (f : LogFilter) : bytes -> bytes -> Prog unit := Log proc f LevelWarn.
Definition Error (proc : Proc) (f : LogFilter) : bytes -> bytes -> Prog unit := Log proc f LevelError.

(** The targets and wrappers of [src/log.go] *)
Definition TraceLog (proc : Proc) (f : LogFilter) (target msg : bytes) : Prog unit := Trace proc f target msg.
Definition DebugLog (proc : Proc) (f : LogFilter) (target msg : bytes) : Prog unit := Debug proc f target msg.
Definition InfoLog (proc : Proc) (f : LogFilter) (target msg : bytes) : Prog unit := Info proc f target msg.
Definition WarnLog (proc : Proc) (f : LogFilter) (target msg : bytes) : Prog unit := Warn proc f target msg.
Definition ErrorLog (proc : Proc) (f : LogFilter) (target msg : bytes) : Prog unit := Error proc f target msg.
Definition Target : bytes := str "lazymc".
Definition TargetConfig : bytes := str "lazymc::config".
Definition TargetMonitor : bytes := str "lazymc::monitor".
Definition TargetProbe : bytes := str "lazymc::probe".
Definition TargetForge : bytes := str "lazymc::forge".
Definition TargetRcon : bytes := str "lazymc::rcon".
Definition TargetLobby : bytes := str "lazymc::lobby".
Definition TargetStatus : bytes := str "lazymc::status".

(** The wrappers of [src/proto/log.go], for the packages below *)
Definition proto_TraceLog (proc : Proc) (f : LogFilter) (target msg : bytes) : Prog unit := Trace proc f target msg.
Definition proto_DebugLog (proc : Proc) (f : LogFilter) (target msg : bytes) : Prog unit := Debug proc f target msg.
Definition proto_InfoLog (proc : Proc) (f : LogFilter) (target msg : bytes) : Prog unit := Info proc f target msg.
Definition proto_WarnLog (proc : Proc) (f : LogFilter) (target msg : bytes) : Prog unit := Warn proc f target msg.
Definition proto_ErrorLog (proc : Proc) (f : LogFilter) (target msg : bytes) : Prog unit := Error proc f target msg.

(** ** The environment file *)

(** [os.Setenv] refuses an empty name, a name with "=" or a NUL byte, and a
    value with a NUL byte; the code ignores the error. *)
Definition Setenv (key val : bytes) (e : gmap bytes bytes) : gmap bytes bytes :=
  if bool_decide (key = []) || has_byte key x3d || has_byte key x00 || has_byte val x00 then e else <[key := val]> e.

Definition strip_quotes (val : bytes) : bytes :=
  if (2 <=? length val)%nat
     && (bool_decide (head val = Some x22 /\ last val = Some x22) || bool_decide (head val = Some x27 /\ last val = Some x27))
  then take (length val - 2) (drop 1 val) else val.

(** The assignment on a line, if there is one. *)
Definition dotenv_line (line : bytes) : option (bytes * bytes) :=
  let line := TrimSpace line in
  if decide (line = [] \/ head line = Some x23) then None
  else
    let line := if HasPrefix line (str "export ") then TrimSpace (drop (length (str "export ")) line) else line in
    match IndexByte line x3d with
    | None | Some O => None
    | Some idx => Some (TrimSpace (take idx line), strip_quotes (TrimSpace (drop (S idx) line)))
    end.

Definition dotenv_step (e : gmap bytes bytes) (line : bytes) : gmap bytes bytes :=
  match dotenv_line line with
  | None => e
  | Some (key, val) => if decide (is_Some (e !! key)) then e else Setenv key val e
  end.

Definition loadDotenv (path : bytes) : Prog unit := fun w =>
  match ReadFile (disk w) path with
  | None => (Done tt, w)
  | Some data => (Done tt, set_environ (foldl dotenv_step (environ w) (split_lines data)) w)
  end.

Definition Getenv (key : bytes) : Prog bytes := fun w => (Done (default [] (environ w !! key)), w).

Definition InitLog : Prog LogFilter :=
  _ ← loadDotenv (str ".env");
  level ← Getenv (str "RUST_LOG");
  mret (parseLogFilter (if decide (level = []) then str "info" else level)).

Example timestamp_sample : timestamp 1649964443 = str "2022-04-14T19:27:23Z" /\ timestamp 951782399 = str "2000-02-28T23:59:59Z".
Proof. vm_compute. done. Qed.

(** ** Properties *)

Definition settable (a : bytes * bytes) : Prop :=
  fst a <> [] /\ has_byte (fst a) x3d = false /\ has_byte (fst a) x00 = false /\ has_byte (snd a) x00 = false.

#[export] Instance settable_dec a : Decision (settable a).
Proof. unfold settable. apply _. Defined.

(** The first assignment to [key] that can be made. *)
Fixpoint assigned (key : bytes) (as_ : list (bytes * bytes)) : option bytes :=
  match as_ with
  | [] => None
  | a :: as' => if decide (fst a = key /\ settable a) then Some (snd a) else assigned key as'
  end.

Lemma Setenv_settable key val e : Setenv key val e = if decide (settable (key, val)) then <[key := val]> e else e.
Proof.
  unfold Setenv. destruct (_ || _) eqn:Eb; case_decide as Hs; try done; exfalso.
  - destruct Hs as (H1 & H2 & H3 & H4). cbn [fst snd] in *. by rewrite bool_decide_false, H2, H3, H4 in Eb.
  - apply Hs. apply orb_false_iff in Eb as [[[H1%bool_decide_eq_false H2]%orb_false_iff H3]%orb_false_iff H4]. by split_and!.
Qed.

Lemma Setenv_lookup key val e k : e !! key = None ->
  Setenv key val e !! k = if decide (key = k /\ settable (key, val)) then Some val else e !! k.
Proof.
  intros He. rewrite Setenv_settable. destruct (decide (settable (key, val))) as [Hs|Hs].
  - destruct (decide (key = k)) as [->|Hne]; [by rewrite lookup_insert_eq, decide_True|].
    by rewrite lookup_insert_ne, decide_False by tauto.
  - by rewrite decide_False by tauto.
Qed.

Lemma dotenv_lines_lookup lines : forall e k,
  foldl dotenv_step e lines !! k = match e !! k with Some v => Some v | None => assigned k (omap dotenv_line lines) end.
Proof.
  induction lines as [|line lines IH]; intros e k; [cbn; by destruct (e !! k)|]. cbn [foldl omap list_omap]. rewrite IH. unfold dotenv_step.
  destruct (dotenv_line line) as [[key val]|]; [|done]. cbn [assigned]. case_decide as Hs.
  - destruct (e !! k) as [v|] eqn:E; [done|]. rewrite decide_False; [done|]. intros [Hk _]. cbn in Hk. subst. rewrite E in Hs. by destruct Hs.
  - apply eq_None_not_Some in Hs. rewrite Setenv_lookup by done. cbn [fst snd]. case_decide as Hk; [|done].
    destruct Hk as [-> _]. by rewrite Hs.
Qed.

(** The environment file never overrides the environment. After loading
    it a variable that was set before has its value, and any other the value of
    the first assignment in the file that can be made, or none. *)
Theorem dotenv_respects_environment (path data key : bytes) (w : World) :
  ReadFile (disk w) path = Some data ->
  exists w', loadDotenv path w = (Done tt, w')
    /\ environ w' !! key = match environ w !! key with
                           | Some v => Some v
                           | None => assigned key (omap dotenv_line (split_lines data))
                           end
    /\ disk w' = disk w /\ stderr w' = stderr w /\ stdout w' = stdout w.
Proof. intros Hr. unfold loadDotenv. rewrite Hr. eexists. split; [done|]. split; [apply dotenv_lines_lookup|done]. Qed.

(** A specification as it is meant: bare levels and levels of targets. *)
Inductive Part := Everything (l : Level) | Only (target : bytes) (l : Level).

Definition level_name (l : Level) : bytes :=
  match l with
  | LevelTrace => str "trace" | LevelDebug => str "debug" | LevelInfo => str "info"
  | LevelWarn => str "warn" | LevelError => str "error" | LevelOff => str "off"
  end.

Definition part_text (p : Part) : bytes :=
  match p with Everything l => level_name l | Only t l => t ++ x3d :: level_name l end.

Definition part_ok (p : Part) : Prop :=
  match p with Everything _ => True | Only t _ => plain t /\ t <> [] /\ (x2c ∉ t) /\ x3d ∉ t end.

Definition add_meant (f : LogFilter) (p : Part) : LogFilter :=
  match p with
  | Everything l => mkLogFilter l (f_directives f)
  | Only t l => mkLogFilter (f_global f) (f_directives f ++ [mkDirective t l])
  end.

Lemma level_name_ok l : parseLevel (level_name l) = Some l /\ plain (level_name l) /\ (x2c ∉ level_name l) /\ (x3d ∉ level_name l)
  /\ level_name l <> [].
Proof.
  split; [by destruct l|]. split; [destruct l; unfold plain; repeat (apply Forall_cons_2; [vm_compute; split; done|]); done|].
  split_and!; [..|by destruct l]; intros H; destruct l; repeat (apply elem_of_cons in H as [H|H]; [done|]); by apply not_elem_of_nil in H.
Qed.

Lemma part_text_ok p : part_ok p -> (x2c ∉ part_text p) /\ part_text p <> [] /\ TrimSpace (part_text p) = part_text p.
Proof.
  destruct p as [l|t l]; cbn [part_ok part_text]; destruct (level_name_ok l) as (_ & Hp & Hc & _ & Hn).
  - intros _. split_and!; [done|done|]. by apply plain_value.
  - intros (Ht & Hne & Hc2 & _). split_and!; [|by destruct t|].
    + rewrite elem_of_app, elem_of_cons. naive_solver.
    + apply plain_value, plain_app; [done|]. apply Forall_cons_2; [vm_compute; split; done|done].
Qed.

Lemma add_part_meant f p : part_ok p -> add_part f (part_text p) = add_meant f p.
Proof.
  intros Hp. destruct (part_text_ok p Hp) as (_ & Hn & Htrim). unfold add_part. rewrite Htrim, decide_False by done.
  destruct p as [l|t l]; cbn [part_text add_meant] in *; destruct (level_name_ok l) as (Hl & _ & _ & He & _).
  - rewrite (proj2 (IndexByte_None _ _)) by done. by rewrite Hl, decide_True.
  - destruct Hp as (_ & Hne & _ & Heq). rewrite IndexByte_app by done. rewrite take_app_length, drop_past, Hl, decide_False by done. done.
Qed.

(** The level a list of parts sets for a target: that of the first part for the
    target or a module above it, else the last bare level, else info. *)
Fixpoint target_level (parts : list Part) (target : bytes) : option Level :=
  match parts with
  | [] => None
  | Everything _ :: parts' => target_level parts' target
  | Only t l :: parts' => if matches target (mkDirective t l) then Some l else target_level parts' target
  end.

Fixpoint global_level (parts : list Part) (start : Level) : Level :=
  match parts with
  | [] => start
  | Everything l :: parts' => global_level parts' l
  | Only _ _ :: parts' => global_level parts' start
  end.

Definition level_for (parts : list Part) (target : bytes) : Level :=
  match target_level parts target with Some l => l | None => global_level parts LevelInfo end.

Lemma first_match_app target ds ds' : first_match target (ds ++ ds')
  = match first_match target ds with Some d => Some d | None => first_match target ds' end.
Proof. induction ds as [|d ds IH]; [done|]. cbn. by destruct (matches target d). Qed.

Lemma add_meant_level parts : forall f target,
  f_global (foldl add_meant f parts) = global_level parts (f_global f)
  /\ d_level <$> first_match target (f_directives (foldl add_meant f parts))
     = match first_match target (f_directives f) with Some d => Some (d_level d) | None => target_level parts target end.
Proof.
  induction parts as [|p parts IH]; intros f target; cbn [foldl].
  - split; [done|]. by destruct (first_match target (f_directives f)).
  - destruct (IH (add_meant f p) target) as [-> ->]. destruct p as [l|t l]; cbn; [done|]. split; [done|].
    rewrite first_match_app. destruct (first_match target (f_directives f)); [done|]. cbn. by destruct (matches target _).
Qed.

Lemma parse_parts parts : Forall part_ok parts ->
  parseLogFilter (join_with x2c (map part_text parts)) = foldl add_meant (mkLogFilter LevelInfo []) parts.
Proof.
  intros Hp. unfold parseLogFilter. destruct (decide (parts = [])) as [->|Hne]; [done|].
  rewrite split_join; [|by destruct parts|].
  - clear Hne. generalize (mkLogFilter LevelInfo []). induction Hp as [|p parts Hp Hps IH]; intros f; [done|].
    cbn [map foldl]. by rewrite add_part_meant.
  - apply Forall_map. eapply Forall_impl; [exact Hp|]. intros p H. by apply part_text_ok.
Qed.

(** A log specification means what it says. Written as bare levels and
    levels of targets, separated by commas, it prints a message exactly when
    its level reaches the level of the first part for its target or a module
    above it, or else the last bare level, or else info; a message that is not
    printed changes nothing. *)
Theorem log_filter_as_meant (proc : Proc) (parts : list Part) (level : Level) (target msg : bytes) (w : World) :
  Forall part_ok parts ->
  Log proc (parseLogFilter (join_with x2c (map part_text parts))) level target msg w
  = (Done tt, if (level_num (level_for parts target) <=? level_num level)%nat
              then mkWorld (stdout w ++ []) (stderr w ++ log_line proc level target msg) (stdin w) (disk w) (environ w) else w).
Proof.
  intros Hp. rewrite parse_parts by done. unfold Log, enabled, level_for.
  destruct (add_meant_level parts (mkLogFilter LevelInfo []) target) as [Hg Hd]. cbn in Hd. rewrite Hg. rewrite <- Hd.
  destruct (first_match target _) as [d|]; cbn; by destruct (_ <=? _)%nat.
Qed.

Definition silent_proc : Proc := mkProc false [str "lazymc"] None None 1649964443 None.
Definition empty_world : World := mkWorld [] [] [] ∅ ∅.

Lemma log_filter_as_meant_witness :
  stderr (snd (Log silent_proc (parseLogFilter (str "warn,lazymc=debug")) LevelDebug TargetProbe (str "hi") empty_world))
    = str "[2022-04-14T19:27:23Z DEBUG lazymc::probe] hi" ++ nl
  /\ stderr (snd (Log silent_proc (parseLogFilter (str "warn,lazymc=debug")) LevelInfo (str "proto") (str "hi") empty_world)) = [].
Proof.
  pose proof (fun l t => log_filter_as_meant silent_proc [Everything LevelWarn; Only (str "lazymc") LevelDebug] l t (str "hi") empty_world) as H.
  assert (Forall part_ok [Everything LevelWarn; Only (str "lazymc") LevelDebug]) as Hok.
  { apply Forall_cons_2; [exact I|]. apply Forall_cons_2; [|done].
    split; [unfold plain; repeat (apply Forall_cons_2; [vm_compute; split; done|]); done|]. split; [done|].
    split; apply (bool_decide_unpack _); vm_compute; exact I. }
  change (str "warn,lazymc=debug") with (join_with x2c (map part_text [Everything LevelWarn; Only (str "lazymc") LevelDebug])).
  rewrite !H by exact Hok. split; vm_compute; reflexivity.
Defined.

Definition dotenv_disk : FS :=
  <[str ".env" := NFile (mkFileNode (str "# log" ++ nl ++ str "export RUST_LOG='debug'" ++ nl ++ str "HOME=/x" ++ nl ++ str "RUST_LOG=trace") 0 true true)]> ∅.

Lemma dotenv_respects_environment_witness :
  let w := mkWorld [] [] [] dotenv_disk {[ str "HOME" := str "/root" ]} in
  (exists w', loadDotenv (str ".env") w = (Done tt, w') /\ environ w' !! str "RUST_LOG" = Some (str "debug"))
  /\ exists w', loadDotenv (str ".env") w = (Done tt, w') /\ environ w' !! str "HOME" = Some (str "/root").
Proof.
  cbn zeta. set (w := mkWorld [] [] [] dotenv_disk _).
  assert (ReadFile (disk w) (str ".env") = Some (str "# log" ++ nl ++ str "export RUST_LOG='debug'" ++ nl ++ str "HOME=/x" ++ nl ++ str "RUST_LOG=trace")) as Hr
    by (vm_compute; reflexivity).
  split.
  - destruct (dotenv_respects_environment (str ".env") _ (str "RUST_LOG") w Hr) as (w' & E & He & _). exists w'. split; [done|].
    rewrite He. vm_compute. reflexivity.
  - destruct (dotenv_respects_environment (str ".env") _ (str "HOME") w Hr) as (w' & E & He & _). exists w'. split; [done|].
    rewrite He. vm_compute. reflexivity.
Defined.
