(* ===== verification/Cli.v ===== *)
(** The command line: [src/cli.go]. *)
From stdpp Require Import gmap.
From S2P Require Import Prelude Config Net Access Files Terminal.

Definition ConfigFile : bytes := str "lazymc.toml".

Definition appName : bytes := str "lazymc".
Definition appVersion : bytes := str "0.2.11".
Definition appDescription : bytes := str "Put your Minecraft server to rest when idle.".

Record parsedArgs := mkParsedArgs { subcommand : bytes; subSubcommand : bytes; pa_config : bytes }.

Definition usageLine (cmd : bytes) : bytes :=
  if decide (cmd = str "start") then str "Usage: " ++ appName ++ str " start [OPTIONS]"
  else if decide (cmd = str "config") then str "Usage: " ++ appName ++ str " config [OPTIONS] <COMMAND>"
  else if decide (cmd = str "config generate") then str "Usage: " ++ appName ++ str " config generate [OPTIONS]"
  else if decide (cmd = str "config test") then str "Usage: " ++ appName ++ str " config test [OPTIONS]"
  else str "Usage: " ++ appName ++ str " [OPTIONS] [COMMAND]".

Definition cliError {A} (msg usage : bytes) : Prog A :=
  _ ← complain (str "error: " ++ msg ++ nl);
  _ ← when (bool_decide (usage <> [])) (complain (nl ++ usage ++ nl));
  _ ← complain (nl ++ str "For more information, try '--help'." ++ nl);
  exit 2.

(** Lines of text, each ended by a line feed *)
Definition lines (ls : list bytes) : bytes := concat (map (fun l => l ++ nl) ls).

Definition options_help : list bytes :=
  [str "Options:"; str "  -c, --config <FILE>  Use config file [default: lazymc.toml]"; str "  -h, --help           Print help"].

Definition printHelp (cmd : bytes) : Prog unit :=
  say (lines (
    if decide (cmd = str "start") then [str "Start lazymc and server (default)"; []; usageLine cmd; []] ++ options_help
    else if decide (cmd = str "config") then
      [str "Config actions"; []; usageLine cmd; []; str "Commands:"; str "  generate  Generate config"; str "  test      Test config";
       str "  help      Print this message or the help of the given subcommand(s)"; []] ++ options_help
    else if decide (cmd = str "config generate") then [str "Generate config"; []; usageLine cmd; []] ++ options_help
    else if decide (cmd = str "config test") then [str "Test config"; []; usageLine cmd; []] ++ options_help
    else
      [appDescription; []; usageLine cmd; []; str "Commands:"; str "  start   Start lazymc and server (default)";
       str "  config  Config actions"; str "  help    Print this message or the help of the given subcommand(s)"; []]
      ++ options_help ++ [str "  -V, --version        Print version"])).

(** The context of a help flag: the subcommand seen so far. *)
Definition help_context (positional : list bytes) : bytes :=
  match positional with
  | [] => str "root"
  | cmd :: rest =>
      match rest with
      | sub :: _ => if decide (cmd = str "config") then str "config " ++ sub else cmd
      | [] => cmd
      end
  end.

(** The loop of [parseArgs]: the positional arguments and the config path. *)
Fixpoint scan_args (args positional : list bytes) (config : bytes) : Prog (list bytes * bytes) :=
  match args with
  | [] => mret (positional, config)
  | arg :: rest =>
      if decide (arg = str "-h" \/ arg = str "--help") then _ ← printHelp (help_context positional); exit 0
      else if decide (arg = str "-V" \/ arg = str "--version") then
        _ ← say (appName ++ str " " ++ appVersion ++ nl); exit 0
      else if decide (arg = str "-c" \/ arg = str "--config" \/ arg = str "--cfg") then
        match rest with
        | [] => cliError (str "a value is required for '--config <FILE>' but none was supplied") []
        | value :: rest' => scan_args rest' positional value
        end
      else if HasPrefix arg (str "--config=") then scan_args rest positional (TrimPrefix arg (str "--config="))
      else if HasPrefix arg (str "-c=") then scan_args rest positional (TrimPrefix arg (str "-c="))
      else if HasPrefix arg (str "-") && bool_decide (arg <> str "-") then
        cliError (str "unexpected argument '" ++ arg ++ str "' found") (usageLine (str "root"))
      else scan_args rest (positional ++ [arg]) config
  end.

(** The rest of [parseArgs]. *)
Definition select_command (positional : list bytes) (config : bytes) : Prog parsedArgs :=
  match positional with
  | [] => mret (mkParsedArgs (str "start") [] config)
  | cmd :: rest =>
      if decide (cmd = str "start" \/ cmd = str "run") then
        match rest with
        | extra :: _ => cliError (str "unexpected argument '" ++ extra ++ str "' found") (usageLine (str "start"))
        | [] => mret (mkParsedArgs (str "start") [] config)
        end
      else if decide (cmd = str "config" \/ cmd = str "cfg") then
        match rest with
        | [] => _ ← printHelp (str "config"); exit 2
        | sub :: rest' =>
            subSub ← (if decide (sub = str "generate" \/ sub = str "gen") then mret (str "generate")
                      else if decide (sub = str "test") then mret (str "test")
                      else cliError (str "unrecognized subcommand '" ++ sub ++ str "'") (usageLine (str "config")));
            match rest' with
            | extra :: _ => cliError (str "unexpected argument '" ++ extra ++ str "' found") (usageLine (str "config " ++ sub))
            | [] => mret (mkParsedArgs (str "config") subSub config)
            end
        end
      else cliError (str "unrecognized subcommand '" ++ cmd ++ str "'") (usageLine (str "root"))
  end.

Definition parseArgs (args : list bytes) : Prog parsedArgs :=
  '(positional, config) ← scan_args args [] ConfigFile;
  select_command positional config.

Definition empty_args_world : World := mkWorld [] [] [] ∅ ∅.

(** ** Properties *)

(** The invocations there are. *)
Definition invocation (words : list bytes) : option (bytes * bytes) :=
  match words with
  | [] => Some (str "start", [])
  | [cmd] => if decide (cmd = str "start" \/ cmd = str "run") then Some (str "start", []) else None
  | [cmd; sub] =>
      if decide (cmd = str "config" \/ cmd = str "cfg") then
        if decide (sub = str "generate" \/ sub = str "gen") then Some (str "config", str "generate")
        else if decide (sub = str "test") then Some (str "config", str "test") else None
      else None
  | _ => None
  end.

(** An outcome that exits with code [c] and only printed. *)
Definition exits_with {A} (c : Z) (r : Outcome A * World) (w : World) : Prop :=
  fst r = Exited c /\ disk (snd r) = disk w /\ environ (snd r) = environ w /\ stdin (snd r) = stdin w.

Lemma cliError_exits {A} msg usage w : exits_with 2 (@cliError A msg usage w) w.
Proof. unfold cliError, when, mbind, Prog_bind. by destruct (bool_decide _). Qed.

Lemma exits_bind {A B} c (m : Prog A) (k : A -> Prog B) w : exits_with c (m w) w -> exits_with c ((m ≫= k) w) w.
Proof. unfold exits_with, mbind, Prog_bind. destruct (m w) as [[a|c'|] w']; cbn; intros (H & ?); [done|by injection H as ->|done]. Qed.

Lemma select_command_spec words config w :
  match invocation words with
  | Some (sub, subSub) => select_command words config w = (Done (mkParsedArgs sub subSub config), w)
  | None => exits_with 2 (select_command words config w) w
  end.
Proof.
  destruct words as [|cmd [|sub [|extra words]]]; cbn [invocation select_command]; [done|..].
  - case_decide; [done|]. case_decide; [done|apply cliError_exits].
  - destruct (decide (cmd = str "start" \/ cmd = str "run")) as [[-> | ->]|Hs]; [apply cliError_exits..|].
    destruct (decide (cmd = str "config" \/ cmd = str "cfg")); [|apply cliError_exits].
    destruct (decide (sub = str "generate" \/ sub = str "gen")); [done|]. case_decide; [done|apply exits_bind, cliError_exits].
  - destruct (decide (cmd = str "start" \/ cmd = str "run")); [apply cliError_exits|].
    destruct (decide (cmd = str "config" \/ cmd = str "cfg")); [|apply cliError_exits].
    destruct (decide (sub = str "generate" \/ sub = str "gen")); [apply cliError_exits|].
    case_decide; [apply cliError_exits|apply exits_bind, cliError_exits].
Qed.

(** Command lines as they are meant: words and settings of the config path in
    any of their spellings. *)
Inductive Arg := Word (w : bytes) | Short (v : bytes) | Long (v : bytes) | Alias (v : bytes) | LongEq (v : bytes) | ShortEq (v : bytes).

Definition arg_text (a : Arg) : list bytes :=
  match a with
  | Word w => [w]
  | Short v => [str "-c"; v]
  | Long v => [str "--config"; v]
  | Alias v => [str "--cfg"; v]
  | LongEq v => [str "--config=" ++ v]
  | ShortEq v => [str "-c=" ++ v]
  end.

Definition arg_ok (a : Arg) : Prop := match a with Word w => HasPrefix w (str "-") = false \/ w = str "-" | _ => True end.

Definition arg_words (as_ : list Arg) : list bytes := omap (fun a => match a with Word w => Some w | _ => None end) as_.

Definition arg_value (a : Arg) : option bytes :=
  match a with Word _ => None | Short v | Long v | Alias v | LongEq v | ShortEq v => Some v end.

(** The last setting of the config path, or the default. *)
Definition arg_config (as_ : list Arg) (start : bytes) : bytes := foldl (fun c a => default c (arg_value a)) start as_.

Lemma HasPrefix_app p v : HasPrefix (p ++ v) p = true.
Proof. unfold HasPrefix. apply bool_decide_true. by rewrite take_app_length. Qed.

Lemma TrimPrefix_app p v : TrimPrefix (p ++ v) p = v.
Proof. unfold TrimPrefix. rewrite HasPrefix_app. by rewrite drop_app_length. Qed.

Lemma HasPrefix_trans s p q : HasPrefix s (p ++ q) = true -> HasPrefix s p = true.
Proof.
  unfold HasPrefix. rewrite !bool_decide_eq_true. intros H. rewrite length_app in H.
  apply (f_equal (take (length p))) in H. rewrite take_take, take_app_length in H. by replace (length p `min` (length p + length q))%nat with (length p) in H by lia.
Qed.

(** A word is none of the flags. *)
Lemma word_scanned w rest positional config : arg_ok (Word w) ->
  scan_args (w :: rest) positional config = scan_args rest (positional ++ [w]) config.
Proof.
  intros Hw. assert (forall f, HasPrefix f (str "-") = true -> f <> str "-" -> w <> f) as Hne.
  { intros f H1 H2 ->. destruct Hw as [Hw|Hw]; congruence. }
  cbn [scan_args].
  rewrite !decide_False by (intros H; repeat (destruct H as [H|H]; [by eapply Hne in H|]); by eapply Hne in H).
  destruct Hw as [Hw| ->]; [|done].
  assert (forall q, HasPrefix w (str "-" ++ q) = false) as Hq.
  { intros q. apply not_true_iff_false. intros H. apply HasPrefix_trans in H. congruence. }
  assert (HasPrefix w (str "--config=") = false) as -> by exact (Hq (str "-config=")).
  assert (HasPrefix w (str "-c=") = false) as -> by exact (Hq (str "c=")). by rewrite Hw.
Qed.

Lemma args_scanned as_ : forall positional config, Forall arg_ok as_ ->
  scan_args (concat (map arg_text as_)) positional config = mret (positional ++ arg_words as_, arg_config as_ config).
Proof.
  induction as_ as [|a as_ IH]; intros positional config; [by rewrite app_nil_r|].
  intros [Ha Has]%Forall_cons. cbn [map concat]. destruct a as [w|v|v|v|v|v]; cbn [arg_text app].
  - rewrite word_scanned by done. rewrite IH by done. cbn. by rewrite <- app_assoc.
  - exact (IH positional v Has).
  - exact (IH positional v Has).
  - exact (IH positional v Has).
  - change (scan_args ((str "--config=" ++ v) :: concat (map arg_text as_)) positional config)
      with (scan_args (concat (map arg_text as_)) positional (TrimPrefix (str "--config=" ++ v) (str "--config="))).
    rewrite TrimPrefix_app. exact (IH positional v Has).
  - change (scan_args ((str "-c=" ++ v) :: concat (map arg_text as_)) positional config)
      with (scan_args (concat (map arg_text as_)) positional (TrimPrefix (str "-c=" ++ v) (str "-c="))).
    rewrite TrimPrefix_app. exact (IH positional v Has).
Qed.

(** Options may appear anywhere. For a command line of words and settings
    of the config path in any order and spelling, the words alone decide the
    command and the last setting the path; when the words are no command the
    program exits with code 2 and has only printed. *)
Theorem cli_options_anywhere (as_ : list Arg) (w : World) :
  Forall arg_ok as_ ->
  match invocation (arg_words as_) with
  | Some (sub, subSub) => parseArgs (concat (map arg_text as_)) w = (Done (mkParsedArgs sub subSub (arg_config as_ ConfigFile)), w)
  | None => exits_with 2 (parseArgs (concat (map arg_text as_)) w) w
  end.
Proof.
  intros Has. unfold parseArgs. rewrite args_scanned by done. exact (select_command_spec _ _ _).
Qed.

Lemma cli_options_anywhere_witness :
  parseArgs [str "config"; str "-c=/etc/a"; str "gen"; str "--config"; str "-V"] empty_args_world
  = (Done (mkParsedArgs (str "config") (str "generate") (str "-V")), empty_args_world).
Proof.
  apply (cli_options_anywhere [Word (str "config"); ShortEq (str "/etc/a"); Word (str "gen"); Long (str "-V")]).
  repeat (apply Forall_cons_2; [first [left; reflexivity|exact I]|]). apply Forall_nil_2.
Defined.

(** Whatever the arguments, a command that is returned is one of the three. *)
Lemma parseArgs_known args w r w' : parseArgs args w = (Done r, w') ->
  (subcommand r = str "start" /\ subSubcommand r = [])
  \/ (subcommand r = str "config" /\ (subSubcommand r = str "generate" \/ subSubcommand r = str "test")).
Proof.
  unfold parseArgs, mbind, Prog_bind. destruct (scan_args args [] ConfigFile w) as [[[words config]|c|] w1]; [|done|done].
  pose proof (select_command_spec words config w1) as H. destruct (invocation words) as [[sub subSub]|] eqn:E.
  - rewrite H. intros [= <- _]. cbn. destruct words as [|cmd [|x [|]]]; cbn in E; repeat case_decide; simplify_eq; auto.
  - intros E2. rewrite E2 in H. by destruct H.
Qed.

Lemma harmless_cliError {A} msg usage : harmless (@cliError A msg usage).
Proof. unfold cliError. solve_harmless. Qed.

Lemma harmless_printHelp cmd : harmless (printHelp cmd).
Proof. unfold printHelp. solve_harmless. Qed.

#[export] Hint Resolve harmless_cliError harmless_printHelp : prog.

Lemma harmless_parseArgs args : harmless (parseArgs args).
Proof.
  unfold parseArgs. apply harmless_bind.
  - generalize (@nil bytes) as positional. generalize ConfigFile as config.
    assert (forall n args, (length args < n)%nat -> forall config positional, harmless (scan_args args positional config)) as Hgen.
    { intros n. induction n as [|n IH]; intros l Hl config positional; [lia|]. destruct l as [|a l]; cbn [scan_args]; [apply harmless_ret|].
      cbn in Hl. assert (forall c p, harmless (scan_args l p c)) as Hr by (intros; apply IH; lia).
      case_decide; [solve_harmless|]. case_decide; [solve_harmless|]. case_decide.
      - destruct l as [|v l]; [apply harmless_cliError|]. apply IH. cbn in Hl. lia.
      - repeat (case_match; [first [done|apply harmless_cliError]|]). done. }
    intros config positional. by apply (Hgen (S (length args))), Nat.lt_succ_diag_r.
  - intros [words config]. unfold select_command. solve_harmless.
Qed.

(** The hint printed with every error names a flag that is refused. *)
Lemma verbose_refused rest w : exits_with 2 (parseArgs (str "--verbose" :: rest) w) w.
Proof. apply exits_bind. cbn [scan_args]. apply cliError_exits. Qed.

Lemma parseArgs_codes args w c w' : parseArgs args w = (Exited c, w') -> c = 0 \/ c = 2.
Proof.
  assert (forall A msg usage k k', @cliError A msg usage k = (Exited c, k') -> c = 2) as Hcli.
  { intros A msg usage k k' E. destruct (@cliError_exits A msg usage k) as [H _]. rewrite E in H. by injection H. }
  assert (forall n args, (length args < n)%nat -> forall positional config k k',
    scan_args args positional config k = (Exited c, k') -> c = 0 \/ c = 2) as Hscan.
  { intros n. induction n as [|n IH]; intros l Hl positional config k k'; [lia|]. destruct l as [|a l]; cbn [scan_args]; [done|].
    cbn in Hl. do 2 (case_decide; [intros [= <- _]; by left|]). case_decide.
    - destruct l as [|v l]; [intros E; right; by eapply Hcli|]. apply IH. cbn in Hl. lia.
    - repeat (case_match; [first [apply IH; lia|intros E; right; by eapply Hcli]|]). apply IH. lia. }
  unfold parseArgs, mbind, Prog_bind. destruct (scan_args args [] ConfigFile w) as [[[words config]|c'|] w1] eqn:E; [| |done].
  - intros E2. pose proof (select_command_spec words config w1) as H. destruct (invocation words) as [[]|]; rewrite E2 in H; [done|].
    destruct H as [H _]. injection H as ->. by right.
  - intros [= <- _]. by eapply (Hscan (S (length args))), E; apply Nat.lt_succ_diag_r.
Qed.
