(* ===== verification/ConfigLoad.v ===== *)
(** Loading the configuration: addresses, the [UnmarshalTOML] methods and
    [ConfigLoad] of [src/config.go].

    The TOML package is a parameter: [Decode] is [toml.Decode] into the
    defaults, with the test [MetaData.IsDefined]. A TOML value is what that
    package hands to an [UnmarshalTOML] method. *)
From stdpp Require Import gmap.
From S2P Require Import Prelude Config Net Json Packets JsonText Access ServerProperties Files Start Terminal Logger.

(** ** Numbers *)

Definition Itoa (v : Z) : bytes :=
  if v =? 0 then [x30] else if v <? 0 then x2d :: itoa_loop 20 (- v) [] else itoa_loop 20 v [].

(** [strconv.Atoi]: a sign is allowed, and the value must fit 64 bits. *)
Definition Atoi (s : bytes) : option Z :=
  let (neg, body) :=
    match s with
    | b :: s' => if decide (b = x2b) then (false, s') else if decide (b = x2d) then (true, s') else (false, s)
    | [] => (false, [])
    end in
  if decide (body = []) then None
  else
    v ← parse_digits 0 body;
    let v := if neg : bool then - v else v in
    if (- 2 ^ 63 <=? v) && (v <? 2 ^ 63) then Some v else None.

(** ** Addresses *)

(** [net.JoinHostPort] *)
Definition JoinHostPort (host port : bytes) : bytes :=
  if has_byte host x3a || has_byte host x25 then [x5b] ++ host ++ [x5d; x3a] ++ port else host ++ [x3a] ++ port.

Definition SocketAddr_String (s : SocketAddr) : bytes := JoinHostPort (IP_String (SocketAddr_IP s)) (Itoa (SocketAddr_Port s)).

Section Resolve.

(** The answer of [net.LookupIP]. *)
Context (LookupIP : bytes -> option (list IP)).

Definition resolveSocketAddr (addr : bytes) : option SocketAddr :=
  '(host, portStr) ← SplitHostPort addr;
  port ← Atoi portStr;
  let ip := ParseIP host in
  if decide (ip = []) then
    ips ← LookupIP host;
    ip ← head ips;
    Some (mkSocketAddr ip port)
  else Some (mkSocketAddr ip port).

(** ** TOML values *)

Inductive TomlValue :=
| TString (s : bytes)
| TInt (v : Z) (* int64 *)
| TBool (b : bool)
| TOther (* a float or a date *)
| TArray (vs : list TomlValue)
| TTable (entries : list (bytes * TomlValue)).

Fixpoint table_get (key : bytes) (entries : list (bytes * TomlValue)) : option TomlValue :=
  match entries with
  | [] => None
  | (k, v) :: entries' => if decide (k = key) then Some v else table_get key entries'
  end.

(** The assertion [m[key].(int64)] *)
Definition table_int (key : bytes) (entries : list (bytes * TomlValue)) : option Z :=
  match table_get key entries with Some (TInt v) => Some v | _ => None end.

Definition SocketAddr_UnmarshalTOML (v : TomlValue) : option SocketAddr :=
  match v with TString raw => resolveSocketAddr raw | _ => None end.

Definition Method_UnmarshalValue (v : TomlValue) : option Method :=
  match v with TString raw => Method_UnmarshalTOML raw | _ => None end.

(** The receiver holds the defaults. *)
Definition Time_UnmarshalTOML (v : TomlValue) (t : Time) : option Time :=
  match v with
  | TTable m =>
      let t := match table_int (str "sleep_after") m with Some v => mkTime (u32 v) (MinOnlineTime t) | None => t end in
      let t := match table_int (str "min_online_time") m with Some v => mkTime (SleepAfter t) (u32 v) | None => t end in
      let t := match table_int (str "minimum_online_time") m with Some v => mkTime (SleepAfter t) (u32 v) | None => t end in
      Some t
  | _ => None
  end.

End Resolve.

(** ** The file *)

Definition configVersion : bytes := str "0.2.11".

Definition set_path (path : bytes) (c : Config) : Config :=
  mkConfig path (Config_Public c) (Config_Server c) (Config_Auth c) (Config_Time c) (Config_Motd c) (Config_Join c)
    (Config_Lockout c) (Config_Rcon c) (Config_Advanced c) (Config_Config c).

(** The warning about the version of a configuration file, if any. *)
Definition version_warning (c : Config) : option bytes :=
  match ConfigConfig_Version (Config_Config c) with
  | None => Some (str "Config version unknown, it may be outdated")
  | Some v =>
      match compareVersions v configVersion with
      | None => Some (str "Config version is invalid, you may need to update it")
      | Some cmp => if cmp <? 0 then Some (str "Config is for older lazymc version, you may need to update it") else None
      end
  end.

Section Load.

Context (proc : Proc) (filter : LogFilter).
Context (Decode : bytes -> Config -> (Config * (list bytes -> bool)) + Err).
(** The message of a failed read. *)
Context (read_error : bytes -> bytes).

(** [inr] is an error. *)
Definition ConfigLoad (path : bytes) : Prog (Config + Err) :=
  data ← files (fun fs => ReadFile fs path);
  match data with
  | None => mret (inr (Errorf (read_error path)))
  | Some data =>
      match Decode data defaultConfig with
      | inr err => mret (inr err)
      | inl (config, IsDefined) =>
          if negb (IsDefined [str "server"]) then mret (inr (Errorf (str "missing field `server`")))
          else if negb (IsDefined [str "server"; str "command"]) then mret (inr (Errorf (str "missing field `command`")))
          else
            _ ← match version_warning config with Some msg => WarnLog proc filter TargetConfig msg | None => mret tt end;
            mret (inl (set_path path config))
      end
  end.

Definition LoadConfig (path : bytes) : Prog Config :=
  let path := canonical (Getwd proc) path in
  exists_ ← files (fun fs => isRegularFile fs path);
  if negb exists_ then
    QuitErrorMsg proc (str "Config file does not exist: " ++ path) (HintConfigGenerate (HintConfig NewErrorHintsBuilder))
  else
    loaded ← ConfigLoad path;
    match loaded with
    | inr err => QuitError proc (wrap (str "Failed to load config: ") err) (HintConfigTest (HintConfig NewErrorHintsBuilder))
    | inl config => mret config
    end.

End Load.

(** ** Properties *)

Lemma itoa_loop_digits n v buf : 0 <= v -> Forall (fun x => is_digit x = true) buf -> Forall (fun x => is_digit x = true) (itoa_loop n v buf).
Proof.
  revert v buf. induction n as [|n IH]; intros v buf Hv Hb; cbn [itoa_loop]; [done|]. destruct (0 <? v); [|done].
  apply IH; [apply Z.div_pos; lia|]. apply Forall_cons_2; [|done]. apply digit_byte. apply Z.mod_pos_bound. lia.
Qed.

Lemma Itoa_shape v : is_i64 v -> exists sign ds, Itoa v = sign ++ ds /\ ds <> [] /\ Forall (fun x => is_digit x = true) ds
  /\ parse_digits 0 ds = Some (Z.abs v) /\ sign = if v <? 0 then [x2d] else [].
Proof.
  intros Hv. unfold is_sint in Hv. zpow. unfold Itoa. destruct (v =? 0) eqn:E0.
  { apply Z.eqb_eq in E0. subst v. exists [], [x30]. split_and!; [done|done|by apply Forall_cons_2|done|done]. }
  apply Z.eqb_neq in E0. exists (if v <? 0 then [x2d] else []), (itoa_loop 20 (Z.abs v) []).
  assert (0 < Z.abs v < 10 ^ Z.of_nat 20) as Hr by (change (10 ^ Z.of_nat 20) with 100000000000000000000; lia). split_and!.
  - destruct (v <? 0) eqn:E; cbn [app]; do 2 f_equal; lia.
  - destruct (itoa_loop_shape 20 (Z.abs v) [] Hr) as (c & ds & -> & _). done.
  - apply itoa_loop_digits; [lia|done].
  - rewrite itoa_loop_parse; [done|lia|zpow; lia].
  - done.
Qed.

Lemma digit_not_sign ds : ds <> [] -> Forall (fun x => is_digit x = true) ds -> head ds <> Some x2b /\ head ds <> Some x2d.
Proof. destruct ds as [|c ds]; [done|]. intros _ [Hc _]%Forall_cons. split; intros [= ->]; done. Qed.

Lemma Atoi_Itoa v : is_i64 v -> Atoi (Itoa v) = Some v.
Proof.
  intros Hv. destruct (Itoa_shape v Hv) as (sign & ds & -> & Hne & Hd & Hp & ->). destruct (digit_not_sign ds Hne Hd) as [H1 H2].
  assert ((- 2 ^ 63 <=? v) && (v <? 2 ^ 63) = true) as Hr by (unfold is_sint in Hv; zpow; lia).
  unfold Atoi. destruct (v <? 0) eqn:E; cbn [app].
  - rewrite decide_False, decide_True, decide_False by done. rewrite Hp. cbn.
    replace (- Z.abs v) with v by lia. by rewrite Hr.
  - destruct ds as [|c ds]; [done|]. rewrite decide_False by (intros ->; done). rewrite decide_False by (intros ->; done).
    rewrite decide_False by done. rewrite Hp. cbn. replace (Z.abs v) with v by lia. by rewrite Hr.
Qed.

(** An address that is printed resolves to itself. For every IPv4 address
    and every port number, the text of the address is resolved, without a name
    lookup, to the address; a port is any 64-bit number, also outside the range
    of ports. *)
Theorem address_roundtrip (LookupIP : bytes -> option (list IP)) (a b c d : byte) (port : Z) :
  is_i64 port ->
  resolveSocketAddr LookupIP (SocketAddr_String (mkSocketAddr (IPv4 a b c d) port)) = Some (mkSocketAddr (IPv4 a b c d) port).
Proof.
  intros Hp. unfold SocketAddr_String, JoinHostPort. cbn [SocketAddr_IP SocketAddr_Port]. rewrite IP_String_IPv4.
  assert (forall x, x ∈ v4_String [a; b; c; d] -> x <> x3a /\ x <> x5b /\ x <> x5d /\ x <> x25) as Hh.
  { intros x Hx. destruct (v4_String_digits _ _ _ _ _ Hx) as [Hd| ->]; [|done]. split_and!; intros ->; done. }
  rewrite !has_byte_false by (intros Hx; by apply Hh in Hx as (? & ? & ? & ?)). cbn [orb].
  unfold resolveSocketAddr. change ([x3a] ++ Itoa port) with (x3a :: Itoa port). rewrite SplitHostPort_plain.
  - unfold mbind, option_bind. rewrite Atoi_Itoa, ParseIP_v4_String by done. by rewrite decide_False.
  - apply Forall_app. split; apply Forall_forall; intros x Hx; [by apply Hh in Hx as (? & ? & ? & ?)|].
    destruct (Itoa_shape port Hp) as (sign & ds & E & _ & Hd & _ & Hs). rewrite E, elem_of_app in Hx. destruct Hx as [Hx|Hx].
    + rewrite Hs in Hx. destruct (port <? 0); [apply list_elem_of_singleton in Hx; by subst|by apply not_elem_of_nil in Hx].
    + rewrite Forall_forall in Hd. apply Hd in Hx. split_and!; intros ->; done.
Qed.

Lemma address_roundtrip_witness :
  resolveSocketAddr (fun _ => None) (str "127.0.0.1:99999") = Some (mkSocketAddr (IPv4 x7f x00 x00 x01) 99999).
Proof. apply (address_roundtrip (fun _ => None) x7f x00 x00 x01 99999). split; vm_compute; congruence. Defined.

(** A negative number of seconds is taken as a very large one, and a value of
    another type is ignored. *)
Example sleep_after_negative :
  Time_UnmarshalTOML (TTable [(str "sleep_after", TInt (-1)); (str "min_online_time", TString (str "60"))]) (mkTime 60 60)
  = Some (mkTime 4294967295 60).
Proof. vm_compute. reflexivity. Qed.

(** The alias wins over the name. *)
Lemma time_alias_wins m v t : table_int (str "minimum_online_time") m = Some v ->
  MinOnlineTime <$> Time_UnmarshalTOML (TTable m) t = Some (u32 v).
Proof. intros H. unfold Time_UnmarshalTOML. by rewrite H. Qed.
