(* ===== verification/Main.v ===== *)
(** The program: [src/main.go] with the actions [src/action_config_generate.go],
    [src/action_configtest.go] and [src/action_start.go].

    The embedded configuration template, the TOML package, the texts of system
    errors, the random numbers and the iteration order of a map are
    parameters. [main] returns the configuration with which [Service] is
    called, if it is. *)
From stdpp Require Import gmap.
From S2P Require Import Prelude Config Net Access ServerProperties Files Start Terminal Logger Cli ConfigLoad.

(** ** Writing a file *)

(** The path a chain of symbolic links ends at. *)
Fixpoint resolve_fuel (n : nat) (fs : FS) (path : bytes) : option bytes :=
  match fs !! path with
  | Some (NLink target) =>
      match n with
      | O => None
      | S n' => resolve_fuel n' fs (if IsAbs target then Clean target else JoinPath [Dir path; target])
      end
  | _ => Some path
  end.

Section Main.

Context (proc : Proc).

(** [os.WriteFile] creates the file or cuts it off, then writes. *)
Definition WriteFile (path data : bytes) : Prog bool := fun w =>
  let fs := disk w in
  match resolve_fuel 40 fs path with
  | None => (Done false, w)
  | Some p =>
      let written := match write_fails proc with None => data | Some k => take k data end in
      let node := NFile (mkFileNode written (clock proc) true false) in
      let ok := bool_decide (write_fails proc = None) in
      match fs !! p with
      | Some (NFile _) => (Done ok, set_disk (<[p := node]> fs) w)
      | None => if isDir fs (Dir p) then (Done ok, set_disk (<[p := node]> fs) w) else (Done false, w)
      | Some _ => (Done false, w)
      end
  end.

(** ** The actions *)

Context (filter : LogFilter).
Context (configTemplate : bytes).
Context (Decode : bytes -> Config -> (Config * (list bytes -> bool)) + Err).
Context (read_error write_error : bytes -> bytes).
Context (draws : nat -> Z) (order : Changes -> Changes).

Definition invokeConfigGenerate (args : parsedArgs) : Prog unit :=
  let path := canonical (Getwd proc) (pa_config args) in
  exists_ ← files (fun fs => isRegularFile fs path);
  overwrite ← (if exists_ : bool
               then PromptYes proc (str "Config file already exists, overwrite?" ++ nl ++ str "Path: " ++ path) (Some true)
               else mret true);
  if negb overwrite then Quit
  else
    ok ← WriteFile path configTemplate;
    if negb ok then
      QuitError proc (wrap (str "Failed to generate config file: ") (Errorf (write_error path))) NewErrorHintsBuilder
    else complain (str "Config saved at: " ++ path ++ nl).

Definition invokeConfigTest (args : parsedArgs) : Prog unit :=
  let path := canonical (Getwd proc) (pa_config args) in
  exists_ ← files (fun fs => isRegularFile fs path);
  if negb exists_ then QuitErrorMsg proc (str "Config file does not exist at: " ++ path) NewErrorHintsBuilder
  else
    loaded ← ConfigLoad proc filter Decode read_error path;
    match loaded with
    | inr err => QuitError proc (wrap (str "Failed to load and parse config: ") err) NewErrorHintsBuilder
    | inl _ => complain (str "Config loaded successfully!" ++ nl)
    end.

(** Why [prepareRcon] quits: its message and hints. *)
Definition rcon_complaint (config : Config) : bytes * ErrorHints :=
  let rcon := Config_Rcon config in
  if SocketAddr_Port (Server_Address (Config_Server config)) =? Rcon_Port rcon then
    (str "RCON port cannot be the same as the server", AddInfo (str "change 'rcon.port' in the config file") NewErrorHintsBuilder)
  else if bool_decide (Password rcon = []) && negb (RandomizePassword rcon) then
    (str "RCON password can't be empty, or enable randomization",
     AddInfo (str "or change 'rcon.password' in the config file")
       (AddInfo (str "change 'rcon.randomize_password' to 'true' in the config file") NewErrorHintsBuilder))
  else
    (str "You must enable server.properties rewrite to use RCON password randomization",
     AddInfo (str "change 'advanced.rewrite_server_properties' to 'true' in the config file") NewErrorHintsBuilder).

Definition prepare_rcon (config : Config) : Prog Config :=
  match prepareRcon draws config with
  | Some config => mret config
  | None => let (msg, hints) := rcon_complaint config in QuitErrorMsg proc msg hints
  end.

(** [rewriteServerProperties] on the disk; a failed write is only logged. *)
Definition rewrite_properties (config : Config) : Prog unit :=
  let dir := ServerDirectory config in
  let path := JoinPath [dir; str "server.properties"] in
  file ← files (fun fs => file_at fs path);
  dir_ok ← files (fun fs => isDir fs dir);
  match file, rewriteServerProperties config order dir_ok file with
  | Contents old, Contents new => if decide (old = new) then mret tt else _ ← WriteFile path new; mret tt
  | _, _ => mret tt
  end.

Definition invokeStart (args : parsedArgs) : Prog Config :=
  config ← LoadConfig proc filter Decode read_error (pa_config args);
  config ← prepare_rcon config;
  _ ← rewrite_properties config;
  mret config.

Definition dispatch (args : parsedArgs) : Prog (option Config) :=
  if decide (subcommand args = str "config" /\ subSubcommand args = str "generate") then
    _ ← invokeConfigGenerate args; mret None
  else if decide (subcommand args = str "config" /\ subSubcommand args = str "test") then
    _ ← invokeConfigTest args; mret None
  else if decide (subcommand args = str "start") then
    config ← invokeStart args; mret (Some config)
  else
    _ ← complain (str "No action specified" ++ nl); exit 1.

End Main.

Definition main (proc : Proc) (configTemplate : bytes) (Decode : bytes -> Config -> (Config * (list bytes -> bool)) + Err)
    (read_error write_error : bytes -> bytes) (draws : nat -> Z) (order : Changes -> Changes) : Prog (option Config) :=
  filter ← InitLog;
  args ← parseArgs (tail (Args proc));
  dispatch proc filter configTemplate Decode read_error write_error draws order args.

(** ** Writing and reading back *)

Lemma resolve_not_link n fs path p : resolve_fuel n fs path = Some p -> forall t, fs !! p <> Some (NLink t).
Proof.
  revert path. induction n as [|n IH]; intros path; cbn [resolve_fuel]; destruct (fs !! path) as [[f| |l|]|] eqn:E; intros H t;
    try (injection H as <-; rewrite E; done); [done|]. by eapply IH.
Qed.

Lemma stat_written n fs path p f : resolve_fuel n fs path = Some p -> stat_fuel n (<[p := NFile f]> fs) path = Some (NFile f).
Proof.
  intros H. pose proof (resolve_not_link _ _ _ _ H) as Hp. revert path H.
  induction n as [|n IH]; intros path; cbn [resolve_fuel stat_fuel]; destruct (fs !! path) as [[g| |l|]|] eqn:E; intros H;
    try (injection H as <-; by rewrite lookup_insert_eq).
  - done.
  - assert (p <> path) as Hne by (intros ->; by eapply Hp). rewrite lookup_insert_ne, E by done. by apply IH.
Qed.

(** What a write does to the disk. *)
Lemma WriteFile_spec proc path data w : exists ok w', WriteFile proc path data w = (Done ok, w')
  /\ environ w' = environ w /\ stdin w' = stdin w
  /\ (disk w' = disk w /\ ok = false
      \/ exists p k, resolve_fuel 40 (disk w) path = Some p
         /\ disk w' = <[p := NFile (mkFileNode (take k data) (clock proc) true false)]> (disk w)
         /\ (ok = true -> ReadFile (disk w') path = Some data)).
Proof.
  unfold WriteFile. destruct (resolve_fuel 40 (disk w) path) as [p|] eqn:E; [|by do 2 eexists; split; [done|]; auto 10].
  assert (forall k d, (write_fails proc = None -> d = data) -> d = take k data ->
    exists ok w', (Done (bool_decide (write_fails proc = None)), set_disk (<[p := NFile (mkFileNode d (clock proc) true false)]> (disk w)) w)
      = (Done ok, w') /\ environ w' = environ w /\ stdin w' = stdin w
    /\ (disk w' = disk w /\ ok = false \/ exists q k, Some p = Some q
         /\ disk w' = <[q := NFile (mkFileNode (take k data) (clock proc) true false)]> (disk w)
         /\ (ok = true -> ReadFile (disk w') path = Some data))) as Hput.
  { intros k d Hd ->. do 2 eexists. split; [done|]. split; [done|]. split; [done|]. right. exists p, k. split; [done|]. split; [done|].
    intros Hok%bool_decide_eq_true. unfold ReadFile, Stat. cbn [disk set_disk]. rewrite stat_written by done. cbn. by rewrite Hd. }
  specialize (Hput (match write_fails proc with None => length data | Some k => k end)
    (match write_fails proc with None => data | Some k => take k data end)).
  assert (disk w = disk w /\ false = false) as Hno by done.
  destruct (disk w !! p) as [[f| |l|]|]; [|by do 2 eexists; split; [done|]; auto 10..|destruct (isDir _ _); [|by do 2 eexists; split; [done|]; auto 10]];
    (apply Hput; destruct (write_fails proc); [done|done|done|by rewrite firstn_all]).
Qed.

Lemma QuitError_quits {A} proc err hints w : exists w', @QuitError proc A err hints w = (Exited 1, w')
  /\ disk w' = disk w /\ environ w' = environ w.
Proof.
  destruct (@QuitError_exits proc A err hints w) as [w' E]. exists w'. destruct (@harmless_QuitError proc A err hints w) as (H1 & H2 & _).
  rewrite E in H1, H2. done.
Qed.

Lemma harmless_ConfigLoad proc filter Decode read_error path : harmless (ConfigLoad proc filter Decode read_error path).
Proof. unfold ConfigLoad, WarnLog, Warn, Log. solve_harmless. Qed.

Lemma harmless_LoadConfig proc filter Decode read_error path : harmless (LoadConfig proc filter Decode read_error path).
Proof.
  pose proof (harmless_ConfigLoad proc filter Decode read_error). unfold LoadConfig, QuitErrorMsg. solve_harmless.
Qed.

Section Actions.

Context (proc : Proc) (filter : LogFilter) (template : bytes).
Context (Decode : bytes -> Config -> (Config * (list bytes -> bool)) + Err) (read_error write_error : bytes -> bytes).
Context (draws : nat -> Z) (order : Changes -> Changes).

Definition consent (path : bytes) (w : World) : Prop :=
  exists w1, PromptYes proc (str "Config file already exists, overwrite?" ++ nl ++ str "Path: " ++ path) (Some true) w = (Done true, w1).

(** At most one path has changed, to a file with a beginning of [data]. *)
Definition wrote (path data : bytes) (fs fs' : FS) : Prop :=
  exists p f k, resolve_fuel 40 fs path = Some p /\ fs' = <[p := NFile f]> fs /\ fn_data f = take k data.

(** What is written after the question has been settled. *)
Lemma generate_write path w : exists r w',
  (ok ← WriteFile proc path template;
   if negb ok then QuitError proc (wrap (str "Failed to generate config file: ") (Errorf (write_error path))) NewErrorHintsBuilder
   else complain (str "Config saved at: " ++ path ++ nl)) w = (r, w')
  /\ r <> Hung /\ (forall c, r = Exited c -> c = 1) /\ environ w' = environ w
  /\ (disk w' = disk w \/ wrote path template (disk w) (disk w'))
  /\ (r = Done tt -> ReadFile (disk w') path = Some template).
Proof.
  unfold mbind, Prog_bind. destruct (WriteFile_spec proc path template w) as (ok & w1 & -> & He & _ & Hd).
  assert (disk w1 = disk w \/ wrote path template (disk w) (disk w1)) as Hw.
  { destruct Hd as [[Hd _]|(p & k & Hp & Hd & _)]; [by left|right]. by eexists p, _, k. }
  destruct ok; cbn [negb].
  - do 2 eexists. split; [done|]. split; [done|]. split; [done|]. split; [done|]. split; [done|].
    intros _. destruct Hd as [[_ Hd]|(p & k & _ & _ & Hd)]; [done|by apply Hd].
  - destruct (@QuitError_quits unit proc (wrap (str "Failed to generate config file: ") (Errorf (write_error path))) NewErrorHintsBuilder w1)
      as (w2 & -> & H1 & H2). do 2 eexists. split; [done|]. split; [done|]. split; [by intros c [= <-]|]. by rewrite H1, H2.
Qed.

Lemma generate_spec args w : let path := canonical (Getwd proc) (pa_config args) in exists r w',
  invokeConfigGenerate proc template write_error args w = (r, w')
  /\ r <> Hung /\ (forall c, r = Exited c -> c = 0 \/ c = 1) /\ environ w' = environ w
  /\ (disk w' = disk w \/ wrote path template (disk w) (disk w') /\ (isRegularFile (disk w) path = true -> consent path w))
  /\ (r = Done tt -> ReadFile (disk w') path = Some template).
Proof.
  cbn zeta. unfold invokeConfigGenerate. set (path := canonical (Getwd proc) (pa_config args)).
  unfold mbind at 1, Prog_bind at 1, files. destruct (isRegularFile (disk w) path) eqn:Er.
  - unfold mbind at 1, Prog_bind at 1.
    destruct (PromptYes_answers proc (str "Config file already exists, overwrite?" ++ nl ++ str "Path: " ++ path) (Some true) w)
      as [Hh [w1 Hans]].
    destruct (Hh w) as (Hd & He & _). destruct Hans as [E|[b E]]; rewrite E in *; cbn [snd] in *.
    + exists (Exited 1), w1. rewrite Hd. by split_and!; [| |intros c [= <-]; right| |left|].
    + destruct b; cbn [negb].
      * destruct (generate_write path w1) as (r & w' & -> & H1 & H2 & H3 & H4 & H5). exists r, w'. rewrite He in H3. rewrite Hd in H4.
        split_and!; [done|done|intros c Hc; right; by apply H2|done| |done].
        destruct H4 as [H4|H4]; [by left|right]. split; [done|]. intros _. by exists w1.
      * exists (Exited 0), w1. rewrite Hd. by split_and!; [| |intros c [= <-]; left| |left|].
  - unfold mbind at 1, Prog_bind at 1, mret at 1, Prog_ret. cbn [negb].
    destruct (generate_write path w) as (r & w' & -> & H1 & H2 & H3 & H4 & H5). exists r, w'.
    split_and!; [done|done|intros c Hc; right; by apply H2|done| |done]. destruct H4; [by left|right]. by split.
Qed.

(** Generating a configuration file is safe and complete. Nothing is
    written unless there was no such file or the question was answered with
    yes; at most that one file changes, and what it holds is a beginning of
    the template; the action ends; and when it succeeds the file holds the
    whole template, which the test action then accepts if the TOML package
    decodes it with a server table and a command. *)
Theorem config_generate_safe (args : parsedArgs) (w : World) :
  let path := canonical (Getwd proc) (pa_config args) in
  exists r w', invokeConfigGenerate proc template write_error args w = (r, w')
  /\ r <> Hung /\ (forall c, r = Exited c -> c = 0 \/ c = 1) /\ environ w' = environ w
  /\ (disk w' = disk w
      \/ wrote path template (disk w) (disk w') /\ (isRegularFile (disk w) path = true -> consent path w))
  /\ (r = Done tt -> forall config defined,
        Decode template defaultConfig = inl (config, defined) ->
        defined [str "server"] = true -> defined [str "server"; str "command"] = true ->
        exists w2, invokeConfigTest proc filter Decode read_error args w' = (Done tt, w2) /\ disk w2 = disk w').
Proof.
  cbn zeta. destruct (generate_spec args w) as (r & w' & E & H1 & H2 & H3 & H4 & H5). exists r, w'. split_and!; [done..|].
  intros Hr config defined Hdec Hs Hc. specialize (H5 Hr). unfold invokeConfigTest. set (path := canonical _ _) in *.
  assert (isRegularFile (disk w') path = true) as Hreg.
  { unfold ReadFile in H5. unfold isRegularFile. by destruct (Stat (disk w') path) as [[]|]. }
  pose proof (harmless_ConfigLoad proc filter Decode read_error path w') as (D1 & _).
  unfold mbind, Prog_bind, files. rewrite Hreg. cbn [negb]. unfold ConfigLoad, mbind, Prog_bind, files in *. rewrite H5, Hdec, Hs, Hc in *.
  cbn [negb] in *. unfold WarnLog, Warn, Log in *.
  destruct (version_warning config) as [msg|]; [destruct (enabled _ _ _)|]; cbn [negb] in *; by eexists.
Qed.

(** A configuration that was read from [path] and passed every check. *)
Definition started_from (path : bytes) (fs : FS) (config : Config) : Prop :=
  isRegularFile fs path = true
  /\ exists data decoded defined, ReadFile fs path = Some data /\ Decode data defaultConfig = inl (decoded, defined)
     /\ defined [str "server"] = true /\ defined [str "server"; str "command"] = true
     /\ prepareRcon draws (set_path path decoded) = Some config.

Lemma LoadConfig_spec path w r w' : LoadConfig proc filter Decode read_error path w = (r, w') ->
  match r with
  | Done config => let p := canonical (Getwd proc) path in isRegularFile (disk w) p = true
      /\ exists data decoded defined, ReadFile (disk w) p = Some data /\ Decode data defaultConfig = inl (decoded, defined)
         /\ defined [str "server"] = true /\ defined [str "server"; str "command"] = true /\ config = set_path p decoded
  | Exited c => c = 1
  | Hung => False
  end.
Proof.
  unfold LoadConfig. set (p := canonical (Getwd proc) path). unfold mbind at 1, Prog_bind at 1, files.
  assert (forall err hints k r k', @QuitError proc Config err hints k = (r, k') -> r = Exited 1) as Hq.
  { intros err hints k r0 k' E. destruct (@QuitError_quits Config proc err hints k) as (k1 & E1 & _). rewrite E1 in E. by injection E. }
  destruct (isRegularFile (disk w) p); cbn [negb]; [|unfold QuitErrorMsg; intros E; by rewrite (Hq _ _ _ _ _ E)].
  unfold ConfigLoad, mbind, Prog_bind, files.
  destruct (ReadFile (disk w) p) as [data|]; [|intros E; by rewrite (Hq _ _ _ _ _ E)].
  destruct (Decode data defaultConfig) as [[decoded defined]|err] eqn:Ed; [|intros E; by rewrite (Hq _ _ _ _ _ E)].
  destruct (defined [str "server"]) eqn:E1; cbn [negb]; [|intros E; by rewrite (Hq _ _ _ _ _ E)].
  destruct (defined [str "server"; str "command"]) eqn:E2; cbn [negb]; [|intros E; by rewrite (Hq _ _ _ _ _ E)].
  assert (forall k, exists k', (match version_warning decoded with Some msg => WarnLog proc filter TargetConfig msg | None => mret tt end : Prog unit) k = (Done tt, k')) as Hw.
  { intros k. unfold WarnLog, Warn, Log. destruct (version_warning decoded) as [msg|]; [destruct (enabled _ _ _)|]; by eexists. }
  destruct (Hw w) as [k' ->]. intros [= <- _]. split; [done|]. by do 3 eexists.
Qed.

Lemma rewrite_properties_spec config w : exists w', rewrite_properties proc order config w = (Done tt, w')
  /\ environ w' = environ w
  /\ (disk w' = disk w \/ exists new, wrote (JoinPath [ServerDirectory config; str "server.properties"]) new (disk w) (disk w')).
Proof.
  unfold rewrite_properties, mbind, Prog_bind, files. set (path := JoinPath _).
  destruct (file_at (disk w) path) as [| |old]; [by eexists; split; [done|]; auto..|].
  destruct (rewriteServerProperties _ _ _ _) as [| |new]; [by eexists; split; [done|]; auto..|].
  case_decide; [by eexists; split; [done|]; auto|].
  destruct (WriteFile_spec proc path new w) as (ok & w1 & -> & He & _ & Hd). eexists. split; [done|]. split; [done|].
  destruct Hd as [[Hd _]|(p & k & Hp & Hd & _)]; [by left|right]. by exists new; eexists p, _, k.
Qed.

End Actions.

(** What the program may do to the files: nothing, write the template where
    asked, or update the properties of the server it starts. *)
Definition disk_effect (proc : Proc) (template : bytes) (r : Outcome (option Config)) (args : parsedArgs) (fs fs' : FS) : Prop :=
  fs' = fs
  \/ (subSubcommand args = str "generate" /\ wrote (canonical (Getwd proc) (pa_config args)) template fs fs')
  \/ exists config new, r = Done (Some config) /\ wrote (JoinPath [ServerDirectory config; str "server.properties"]) new fs fs'.

Definition outcome_ok (proc : Proc) (Decode : bytes -> Config -> (Config * (list bytes -> bool)) + Err) (draws : nat -> Z)
    (r : Outcome (option Config)) (args : parsedArgs) (fs : FS) : Prop :=
  match r with
  | Hung => False
  | Exited c => c = 0 \/ c = 1
  | Done None => subcommand args = str "config"
  | Done (Some config) => subcommand args = str "start"
      /\ started_from Decode draws (canonical (Getwd proc) (pa_config args)) fs config
  end.

Lemma dispatch_spec proc filter template Decode read_error write_error draws order args w r w' :
  (subcommand args = str "start" /\ subSubcommand args = [])
  \/ (subcommand args = str "config" /\ (subSubcommand args = str "generate" \/ subSubcommand args = str "test")) ->
  dispatch proc filter template Decode read_error write_error draws order args w = (r, w') ->
  outcome_ok proc Decode draws r args (disk w) /\ disk_effect proc template r args (disk w) (disk w').
Proof.
  intros Hk. unfold dispatch. destruct Hk as [[Hs Hss]|[Hs [Hss|Hss]]].
  - rewrite !decide_False by (rewrite Hs; intros [H _]; vm_compute in H; discriminate H). rewrite decide_True by done.
    unfold invokeStart, mbind, Prog_bind.
    pose proof (harmless_LoadConfig proc filter Decode read_error (pa_config args) w) as (Hd & _ & _).
    destruct (LoadConfig proc filter Decode read_error (pa_config args) w) as [rl wl] eqn:El. apply LoadConfig_spec in El. cbn in Hd.
    destruct rl as [cfg|c|]; [|intros [= <- <-]; subst; split; [by right|by left; rewrite Hd]|done].
    destruct El as (Hreg & data & decoded & defined & Hr & Hdec & D1 & D2 & ->). unfold prepare_rcon.
    destruct (prepareRcon draws _) as [cfg|] eqn:Ep.
    + cbn. destruct (rewrite_properties_spec proc order cfg wl) as (wr & -> & _ & Hw). intros [= <- <-]. split.
      * split; [done|]. split; [done|]. by exists data, decoded, defined.
      * rewrite Hd in Hw. destruct Hw as [Hw|[new Hw]]; [by left|right; right]. eauto.
    + destruct (rcon_complaint _) as [msg hints]. unfold QuitErrorMsg.
      destruct (@QuitError_quits Config proc (Errorf msg) hints wl) as (wq & -> & Hq & _). intros [= <- <-]. split; [by right|left]. by rewrite Hq.
  - rewrite decide_True by done. unfold mbind, Prog_bind.
    destruct (generate_spec proc template write_error args w) as (rg & wg & -> & H1 & H2 & _ & H4 & _).
    assert (disk_effect proc template r args (disk w) (disk wg)) as Heff by (destruct H4 as [H4|[H4 _]]; [by left|right; left; done]).
    destruct rg as [[]|c|]; [| |done]; intros [= <- <-]; split; try done. by apply H2.
  - rewrite decide_False by (rewrite Hss; intros [_ H]; vm_compute in H; discriminate H). rewrite decide_True by done.
    assert (harmless (invokeConfigTest proc filter Decode read_error args)) as Hh.
    { pose proof (harmless_ConfigLoad proc filter Decode read_error). unfold invokeConfigTest, QuitErrorMsg. solve_harmless. }
    destruct (Hh w) as (Hd & _ & Hn). unfold mbind, Prog_bind.
    assert (forall c k, invokeConfigTest proc filter Decode read_error args w = (Exited c, k) -> c = 1) as Hc.
    { intros c k. unfold invokeConfigTest, ConfigLoad, mbind, Prog_bind, files, QuitErrorMsg.
      assert (forall err hints k0 k1, @QuitError proc unit err hints k0 = (Exited c, k1) -> c = 1) as Hq.
      { intros err hints k0 k1 E. destruct (@QuitError_quits unit proc err hints k0) as (k2 & E1 & _). rewrite E1 in E. by injection E. }
      destruct (isRegularFile _ _); cbn [negb]; [|apply Hq]. destruct (ReadFile _ _) as [data|]; [|apply Hq].
      destruct (Decode data defaultConfig) as [[decoded defined]|]; [|apply Hq]. destruct (defined [_]); cbn [negb]; [|apply Hq].
      destruct (defined [_; _]); cbn [negb]; [|apply Hq]. unfold WarnLog, Warn, Log.
      destruct (version_warning decoded); [destruct (enabled _ _ _)|]; done. }
    destruct (invokeConfigTest proc filter Decode read_error args w) as [[[]|c|] wt]; cbn in Hd, Hn; [| |done]; intros [= <- <-];
      (split; [|by left]). { done. } right. by eapply Hc.
Qed.

Lemma InitLog_spec w : exists f w1, InitLog w = (Done f, w1) /\ disk w1 = disk w.
Proof. unfold InitLog, loadDotenv, mbind, Prog_bind, Getenv. destruct (ReadFile (disk w) _); by do 2 eexists. Qed.

(** C27: what running the program can lead to. It always ends or calls the
    service; the exit code is 0, 1 or 2, and the branch without an action is
    never reached. The service is called only for the start command, with a
    configuration that was read from the file that was asked for, decoded,
    names a server and its command, and passed the checks of RCON. No file
    changes but the one to generate, which then holds a beginning of the
    template, and the properties of the server that is started. *)
Theorem main_outcomes (proc : Proc) (template : bytes) (Decode : bytes -> Config -> (Config * (list bytes -> bool)) + Err)
    (read_error write_error : bytes -> bytes) (draws : nat -> Z) (order : Changes -> Changes) (w : World) :
  let '(r, w') := main proc template Decode read_error write_error draws order w in
  (exists c, r = Exited c /\ (c = 0 \/ c = 2) /\ disk w' = disk w)
  \/ exists args w1 w2, parseArgs (tail (Args proc)) w1 = (Done args, w2)
     /\ outcome_ok proc Decode draws r args (disk w) /\ disk_effect proc template r args (disk w) (disk w').
Proof.
  unfold main, mbind, Prog_bind. destruct (InitLog_spec w) as (f & w1 & -> & Hd1).
  destruct (harmless_parseArgs (tail (Args proc)) w1) as (Hd2 & _ & Hn).
  destruct (parseArgs (tail (Args proc)) w1) as [[args|c|] w2] eqn:Ep; cbn in Hd2, Hn; [| |done].
  - destruct (dispatch proc f template Decode read_error write_error draws order args w2) as [r w'] eqn:Ed. right.
    exists args, w1, w2. apply dispatch_spec in Ed; [|by eapply parseArgs_known]. rewrite Hd2, Hd1 in Ed. done.
  - left. exists c. split; [done|]. split; [by eapply parseArgs_codes|]. congruence.
Qed.
