(* ===== verification/Process.v ===== *)
(** The server command line: [shlexSplit] of [src/process.go], the process
    signals of [src/os.go] and the exit codes of [src/server.go]. *)
From S2P Require Import Prelude.

(** ** Splitting a command into words *)

(** The loop's state: finished words (in reverse), the current word (in
    reverse), the open quote if any, and whether a word has begun. *)
Record Shlex := mkShlex {
  words : list bytes;
  cur : bytes;
  quote : option byte;
  inWord : bool }.

Definition sh_append (c : byte) (s : Shlex) : Shlex := mkShlex (words s) (c :: cur s) (quote s) (inWord s).
Definition sh_in_word (s : Shlex) : Shlex := mkShlex (words s) (cur s) (quote s) true.

Definition sh_end_word (s : Shlex) : Shlex :=
  if inWord s then mkShlex (rev (cur s) :: words s) [] (quote s) false else s.

Definition is_blank (c : byte) : bool :=
  bool_decide (c = x20) || bool_decide (c = x09) || bool_decide (c = x0a).

Definition is_quote (c : byte) : bool := bool_decide (c = x27) || bool_decide (c = x22).

(** The characters a backslash escapes inside double quotes. *)
Definition dq_escapes (c : byte) : bool :=
  bool_decide (c = x22) || bool_decide (c = x5c) || bool_decide (c = x24) || bool_decide (c = x60).

Fixpoint shlex_loop (l : bytes) (s : Shlex) : Shlex :=
  match l with
  | [] => s
  | c :: l' =>
      match quote s with
      | None =>
          if is_quote c then shlex_loop l' (mkShlex (words s) (cur s) (Some c) true)
          else if is_blank c then shlex_loop l' (sh_end_word s)
          else if decide (c = x5c) then
            match l' with
            | n :: l'' => shlex_loop l'' (sh_in_word (sh_append n s))
            | [] => shlex_loop l' (sh_append x5c s)
            end
          else shlex_loop l' (sh_in_word (sh_append c s))
      | Some qt =>
          if decide (c = qt) then shlex_loop l' (mkShlex (words s) (cur s) None true)
          else if bool_decide (qt = x22) && bool_decide (c = x5c) then
            match l' with
            | n :: l'' =>
                if dq_escapes n then shlex_loop l'' (sh_append n s) else shlex_loop l' (sh_append x5c s)
            | [] => shlex_loop l' (sh_append x5c s)
            end
          else shlex_loop l' (sh_in_word (sh_append c s))
      end
  end.

Definition shlexSplit (s : bytes) : list bytes :=
  rev (words (sh_end_word (shlex_loop s (mkShlex [] [] None false)))).

(** ** Signals *)

Inductive Signal := SIGKILL | SIGTERM | SIGSTOP | SIGCONT.

#[export] Instance Signal_eq_dec : EqDecision Signal.
Proof. solve_decision. Defined.

(** [exitCodeAllowed] with [allowedExitCodes] *)
Definition exitCodeAllowed (status : option Z) : bool :=
  match status with
  | None => false
  | Some code => (code =? 130) || (code =? 143)
  end.

(** ** Properties *)

(** An argument between single quotes, and a command line of such arguments. *)
Definition single_quoted (a : bytes) : bytes := [x27] ++ a ++ [x27].

Fixpoint command_line (args : list bytes) : bytes :=
  match args with
  | [] => []
  | a :: args' => single_quoted a ++ [x20] ++ command_line args'
  end.

Lemma shlex_in_quotes a l w c b :
  x27 ∉ a ->
  shlex_loop (a ++ x27 :: l) (mkShlex w c (Some x27) b) = shlex_loop l (mkShlex w (rev a ++ c) None true).
Proof.
  revert c b. induction a as [|x a IH]; intros c b Ha.
  - cbn [app shlex_loop quote]. by rewrite decide_True.
  - apply not_elem_of_cons in Ha as [Hx Ha]. cbn [app shlex_loop quote].
    rewrite decide_False by congruence. cbn [bool_decide andb]. rewrite (bool_decide_false (x27 = x22)) by done.
    cbn [andb]. unfold sh_in_word, sh_append. cbn [words cur quote]. rewrite IH by done.
    cbn [rev]. by rewrite <- app_assoc.
Qed.

Lemma shlex_command_line args w :
  Forall (fun a => x27 ∉ a) args ->
  shlex_loop (command_line args) (mkShlex w [] None false) = mkShlex (rev args ++ w) [] None false.
Proof.
  intros H. revert w. induction H as [|a args Ha _ IH]; intros w; [done|].
  cbn [command_line]. unfold single_quoted. rewrite <- !app_assoc. cbn [app shlex_loop quote].
  change (is_quote x27) with true. cbn iota.
  rewrite shlex_in_quotes by done. cbn [shlex_loop quote]. change (is_quote x20) with false.
  change (is_blank x20) with true. cbn iota. unfold sh_end_word. cbn [inWord words cur quote].
  rewrite app_nil_r, rev_involutive, IH. cbn [rev]. by rewrite <- app_assoc.
Qed.

(** Quoting protects an argument. A command line of single-quoted
    arguments separated by spaces splits into exactly these arguments, blanks,
    double quotes and backslashes inside them included, and empty arguments
    are kept. *)
Lemma shlex_quoted_roundtrip (args : list bytes) :
  Forall (fun a => x27 ∉ a) args -> shlexSplit (command_line args) = args.
Proof.
  intros H. unfold shlexSplit. rewrite shlex_command_line by done. unfold sh_end_word. cbn [inWord words].
  by rewrite app_nil_r, rev_involutive.
Qed.

Lemma shlex_quoted_roundtrip_witness :
  shlexSplit (command_line [str "java"; str "-jar"; str "my server.jar"; []])
  = [str "java"; str "-jar"; str "my server.jar"; []].
Proof.
  apply (shlex_quoted_roundtrip [str "java"; str "-jar"; str "my server.jar"; []]).
  repeat constructor; apply (bool_decide_unpack _); vm_compute; exact I.
Defined.

Example shlex_plain :
  shlexSplit (str "java -Xmx1G  -jar server.jar --nogui") = map str ["java"; "-Xmx1G"; "-jar"; "server.jar"; "--nogui"]%string.
Proof. vm_compute. reflexivity. Qed.
