(* ===== verification/JoinGame.v ===== *)
(** The join-game data a probe records: [src/proto/packets/play/join_game.go]. *)
From S2P Require Import Prelude Nbt.

Record JoinGameData := mkJoinGameData {
  Hardcore : option bool;
  GameMode : option byte;
  PreviousGameMode : option byte;
  WorldNames : option (list bytes);
  Dimension : option Compound;
  DimensionCodec : option Compound;
  DimensionType : option bytes;
  WorldName : option bytes;
  HashedSeed : option Z;
  MaxPlayers : option Z;
  ViewDistance : option Z;
  SimulationDistance : option Z;
  ReducedDebugInfo : option bool;
  EnableRespawnScreen : option bool;
  IsDebug : option bool;
  IsFlat : option bool }.
