(* ===== verification/ServerState.v ===== *)
(** The shared server state and its operations: [src/server.go].

    An operation is a state-and-output function: it returns a result, the new
    state and the events it causes outside the state (signals, RCON commands,
    started goroutines), in order. The mutexes of the Go record guard single
    fields; here every operation runs alone. The file [Sections] takes the
    operations apart into their critical sections, and shows that these
    sections, run without interference, are the operations of this file. The standard library's
    clock, the kernel's answer to a signal and the RCON peer are the
    environment [Env] of an operation. Times are nanoseconds. *)
From S2P Require Import Prelude Packet Packets Config Net Access Process Nbt JoinGame.

(** ** Data *)

Inductive State := StateStopped | StateStarting | StateStarted | StateStopping.

#[export] Instance State_eq_dec : EqDecision State.
Proof. solve_decision. Defined.

Definition second : Z := 10 ^ 9.
Definition serverQuitCooldown : Z := 2500 * 10 ^ 6.
Definition rconCooldown : Z := 15 * second.

Record ForgeLoginExchange := mkExchange {
  Ex_Request : bytes;
  Ex_Success : bool;
  Ex_Data : bytes;
  Ex_NoResponse : bool }.

(** A subscriber is a channel of capacity one: the value it holds, if any. *)
Record ServerState := mkServerState {
  state : State;
  subs : list (option State);
  pid : Z;
  pidGeneration : Z;
  helperGeneration : Z;
  helperActive : bool;
  status : option ServerStatus;
  lastActive : option Z;
  keepOnline : option Z;
  killAt : option Z;
  banned : BannedIps;
  st_whitelist : option Whitelist;
  rconLastStop : option Z;
  probed : option JoinGameData;
  forge : list bytes;
  forgeLoginCache : list ForgeLoginExchange }.

Definition NewServerState : ServerState := {|
  state := StateStopped; subs := []; pid := 0; pidGeneration := 0;
  helperGeneration := 0; helperActive := false; status := None; lastActive := None;
  keepOnline := None; killAt := None; banned := NewBannedIps; st_whitelist := None;
  rconLastStop := None; probed := None; forge := []; forgeLoginCache := [] |}.

(** Field updates. *)
Definition set_state v s := mkServerState v (subs s) (pid s) (pidGeneration s) (helperGeneration s) (helperActive s)
  (status s) (lastActive s) (keepOnline s) (killAt s) (banned s) (st_whitelist s) (rconLastStop s) (probed s) (forge s) (forgeLoginCache s).
Definition set_subs v s := mkServerState (state s) v (pid s) (pidGeneration s) (helperGeneration s) (helperActive s)
  (status s) (lastActive s) (keepOnline s) (killAt s) (banned s) (st_whitelist s) (rconLastStop s) (probed s) (forge s) (forgeLoginCache s).
Definition set_pid v s := mkServerState (state s) (subs s) v (pidGeneration s) (helperGeneration s) (helperActive s)
  (status s) (lastActive s) (keepOnline s) (killAt s) (banned s) (st_whitelist s) (rconLastStop s) (probed s) (forge s) (forgeLoginCache s).
Definition set_pidGeneration v s := mkServerState (state s) (subs s) (pid s) v (helperGeneration s) (helperActive s)
  (status s) (lastActive s) (keepOnline s) (killAt s) (banned s) (st_whitelist s) (rconLastStop s) (probed s) (forge s) (forgeLoginCache s).
Definition set_helper g a s := mkServerState (state s) (subs s) (pid s) (pidGeneration s) g a
  (status s) (lastActive s) (keepOnline s) (killAt s) (banned s) (st_whitelist s) (rconLastStop s) (probed s) (forge s) (forgeLoginCache s).
Definition set_status v s := mkServerState (state s) (subs s) (pid s) (pidGeneration s) (helperGeneration s) (helperActive s)
  v (lastActive s) (keepOnline s) (killAt s) (banned s) (st_whitelist s) (rconLastStop s) (probed s) (forge s) (forgeLoginCache s).
Definition set_lastActive v s := mkServerState (state s) (subs s) (pid s) (pidGeneration s) (helperGeneration s) (helperActive s)
  (status s) v (keepOnline s) (killAt s) (banned s) (st_whitelist s) (rconLastStop s) (probed s) (forge s) (forgeLoginCache s).
Definition set_keepOnline v s := mkServerState (state s) (subs s) (pid s) (pidGeneration s) (helperGeneration s) (helperActive s)
  (status s) (lastActive s) v (killAt s) (banned s) (st_whitelist s) (rconLastStop s) (probed s) (forge s) (forgeLoginCache s).
Definition set_killAt v s := mkServerState (state s) (subs s) (pid s) (pidGeneration s) (helperGeneration s) (helperActive s)
  (status s) (lastActive s) (keepOnline s) v (banned s) (st_whitelist s) (rconLastStop s) (probed s) (forge s) (forgeLoginCache s).
Definition set_banned v s := mkServerState (state s) (subs s) (pid s) (pidGeneration s) (helperGeneration s) (helperActive s)
  (status s) (lastActive s) (keepOnline s) (killAt s) v (st_whitelist s) (rconLastStop s) (probed s) (forge s) (forgeLoginCache s).
Definition set_whitelist v s := mkServerState (state s) (subs s) (pid s) (pidGeneration s) (helperGeneration s) (helperActive s)
  (status s) (lastActive s) (keepOnline s) (killAt s) (banned s) v (rconLastStop s) (probed s) (forge s) (forgeLoginCache s).
Definition set_rconLastStop v s := mkServerState (state s) (subs s) (pid s) (pidGeneration s) (helperGeneration s) (helperActive s)
  (status s) (lastActive s) (keepOnline s) (killAt s) (banned s) (st_whitelist s) v (probed s) (forge s) (forgeLoginCache s).
Definition set_probed v s := mkServerState (state s) (subs s) (pid s) (pidGeneration s) (helperGeneration s) (helperActive s)
  (status s) (lastActive s) (keepOnline s) (killAt s) (banned s) (st_whitelist s) (rconLastStop s) v (forge s) (forgeLoginCache s).
Definition set_forge v s := mkServerState (state s) (subs s) (pid s) (pidGeneration s) (helperGeneration s) (helperActive s)
  (status s) (lastActive s) (keepOnline s) (killAt s) (banned s) (st_whitelist s) (rconLastStop s) (probed s) v (forgeLoginCache s).
Definition set_forgeLoginCache v s := mkServerState (state s) (subs s) (pid s) (pidGeneration s) (helperGeneration s) (helperActive s)
  (status s) (lastActive s) (keepOnline s) (killAt s) (banned s) (st_whitelist s) (rconLastStop s) (probed s) (forge s) v.

(** ** Effects *)

Inductive Event :=
| EvSignal (pid : Z) (sig : Signal)  (* syscall.Kill *)
| EvRconStop                         (* the RCON command "stop" *)
| EvSpawn (generation : Z).          (* go s.invokeServerCmd(config, generation) *)

(** What the environment answers during an operation. *)
Record Env := mkEnv {
  now : Z;
  kill_ok : Z -> Signal -> bool;
  rcon_connect : bool;
  rcon_cmd : bool }.

Definition Op (A : Type) : Type := ServerState -> A * ServerState * list Event.

#[export] Instance Op_ret : MRet Op := fun A a s => (a, s, []).
#[export] Instance Op_bind : MBind Op := fun A B k m s =>
  let '(a, s1, e1) := m s in
  let '(b, s2, e2) := k a s1 in
  (b, s2, e1 ++ e2).

Definition gets {A} (f : ServerState -> A) : Op A := fun s => (f s, s, []).
Definition modify (f : ServerState -> ServerState) : Op unit := fun s => (tt, f s, []).
Definition emit (e : Event) : Op unit := fun s => (tt, s, [e]).

Definition result {A} (r : A * ServerState * list Event) : A := fst (fst r).
Definition final {A} (r : A * ServerState * list Event) : ServerState := snd (fst r).
Definition events {A} (r : A * ServerState * list Event) : list Event := snd r.

(** ** The controller helper slot *)

Definition beginControllerHelper : Op (Z * bool) :=
  active ← gets helperActive;
  if active : bool then gets (fun s => (helperGeneration s, false))
  else
    _ ← modify (fun s => set_helper (u64 (helperGeneration s + 1)) true s);
    gets (fun s => (helperGeneration s, true)).

(** [finishControllerHelper] has two critical sections. Under [helperMu] the
    slot is given back, unless the generation is not the current one. *)
Definition helper_release (generation : Z) : Op bool :=
  hg ← gets helperGeneration;
  if (generation =? 0) || negb (generation =? hg) then mret false
  else _ ← modify (fun s => set_helper (helperGeneration s) false s); mret true.

(** Under [pidMu] the pid is forgotten, if it is still this helper's. *)
Definition pid_release (generation : Z) : Op unit :=
  modify (fun s => if pidGeneration s =? generation then set_pidGeneration 0 (set_pid 0 s) else s).

Definition finishControllerHelper (generation : Z) : Op unit :=
  released ← helper_release generation;
  if released : bool then pid_release generation else mret tt.

(** ** State changes *)

Definition GetState : Op State := gets state.

(** [Subscribe]: the new channel is the last one and holds the current state. *)
Definition Subscribe : Op nat := fun s =>
  (length (subs s), set_subs (subs s ++ [Some (state s)]) s, []).

(** Non-blocking operations on a channel of capacity one. *)
Definition try_send (v : State) (ch : option State) : bool * option State :=
  match ch with None => (true, Some v) | Some old => (false, Some old) end.
Definition try_recv (ch : option State) : option State := None.

(** The body of the loop in [broadcastState]: send; if the channel is full,
    drop its stale value and send again. *)
Definition send_latest (new : State) (ch : option State) : option State :=
  match try_send new ch with
  | (true, ch1) => ch1
  | (false, ch1) => snd (try_send new (try_recv ch1))
  end.

Definition broadcastState (new : State) : Op unit :=
  modify (fun s => set_subs (map (send_latest new) (subs s)) s).

Section Operations.

Context (env : Env).

Definition updateLastActive : Op unit := modify (set_lastActive (Some (now env))).

Definition keepOnlineFor (duration : Z) : Op unit :=
  if 0 <? duration then modify (set_keepOnline (Some (now env + duration * second)))
  else modify (set_keepOnline None).

(** The critical section of [stateMu] in [updateStateFrom]. *)
Definition us_swap (from : option State) (new : State) : Op bool :=
  old ← gets state;
  if match from with Some f => negb (bool_decide (old = f)) | None => false end then mret false
  else if decide (old = new) then mret false
  else _ ← modify (set_state new); mret true.

(** The part of [updateStateFrom] that sets the kill time. *)
Definition us_killAt (new : State) (config : Config) : Op unit :=
  let t :=
    match new with
    | StateStarting =>
        if 0 <? StartTimeout (Config_Server config)
        then Some (now env + StartTimeout (Config_Server config) * second) else None
    | StateStopping =>
        if 0 <? StopTimeout (Config_Server config)
        then Some (now env + StopTimeout (Config_Server config) * second) else None
    | _ => None
    end in
  modify (set_killAt t).

(** The part of [updateStateFrom] for a server that is now online. *)
Definition us_started (new : State) (config : Config) : Op unit :=
  if decide (new = StateStarted) then
    _ ← updateLastActive; keepOnlineFor (MinOnlineTime (Config_Time config))
  else mret tt.

Definition updateStateFrom (from : option State) (new : State) (config : Config) : Op bool :=
  changed ← us_swap from new;
  if changed : bool then
    _ ← broadcastState new;
    _ ← us_killAt new config;
    _ ← us_started new config;
    mret true
  else mret false.

Definition updateState (new : State) (config : Config) : Op bool := updateStateFrom None new config.

Definition UpdateStatus (config : Config) (st : option ServerStatus) : Op unit :=
  cur ← GetState;
  _ ← match cur, st with
      | (StateStopped | StateStarting), Some _ => updateState StateStarted config
      | StateStarted, None => updateState StateStopped config
      | _, _ => mret false
      end;
  match st with
  | None => mret tt
  | Some v =>
      _ ← (if 0 <? Online (Players v) then updateLastActive else mret tt);
      modify (set_status (Some v))
  end.

(** ** Signals *)

(** [unixSignal]: the signal is sent, the kernel may refuse it. *)
Definition unixSignal (p : Z) (sig : Signal) : Op bool :=
  _ ← emit (EvSignal p sig); mret (kill_ok env p sig).

Definition unfreezeServerSignal (config : Config) : Op bool :=
  if ControllerManaged (Config_Server config) then mret false
  else
    p ← gets pid;
    if p =? 0 then mret false
    else
      _ ← unixSignal p SIGCONT;
      _ ← updateStateFrom (Some StateStopping) StateStarting config;
      _ ← updateStateFrom (Some StateStopped) StateStarting config;
      mret true.

Definition freezeServerSignal (config : Config) : Op bool :=
  p ← gets pid;
  if p =? 0 then mret false
  else
    _ ← unixSignal p SIGSTOP;
    _ ← updateStateFrom (Some StateStarting) StateStopped config;
    _ ← updateStateFrom (Some StateStarted) StateStopped config;
    mret true.

Definition stopServerSignal (config : Config) : Op bool :=
  p ← gets pid;
  if p =? 0 then mret false
  else
    ok ← unixSignal p SIGTERM;
    if negb ok then mret false
    else
      _ ← updateStateFrom (Some StateStarting) StateStopping config;
      _ ← updateStateFrom (Some StateStarted) StateStopping config;
      mret true.

Definition stopServerRcon (config : Config) : Op bool :=
  if negb (Rcon_Enabled (Config_Rcon config)) then mret false
  else
    last ← gets rconLastStop;
    let cooledDown := match last with None => true | Some t => rconCooldown <=? now env - t end in
    if negb cooledDown then mret false
    else if negb (rcon_connect env) then mret false
    else
      _ ← emit EvRconStop;
      if negb (rcon_cmd env) then mret false
      else
        _ ← modify (set_rconLastStop (Some (now env)));
        _ ← updateState StateStopping config;
        mret true.

(** ** Start, stop and kill *)

Definition Start (config : Config) : Op bool :=
  if ControllerManaged (Config_Server config) && FreezeProcess (Config_Server config) then mret false
  else
    ok ← updateStateFrom (Some StateStopped) StateStarting config;
    if negb ok then mret false
    else
      unfrozen ← (if FreezeProcess (Config_Server config) then unfreezeServerSignal config else mret false);
      if unfrozen : bool then mret true
      else if ControllerManaged (Config_Server config) then
        '(generation, launch) ← beginControllerHelper;
        if launch : bool then _ ← emit (EvSpawn generation); mret true else mret true
      else _ ← emit (EvSpawn 0); mret true.

Definition Stop (config : Config) : Op bool :=
  if ControllerManaged (Config_Server config) then mret false
  else
    frozen ← (if FreezeProcess (Config_Server config) then freezeServerSignal config else mret false);
    if frozen : bool then mret true
    else
      cur ← GetState;
      viaRcon ← (if decide (cur = StateStarted) then stopServerRcon config else mret false);
      if viaRcon : bool then mret true
      else
        viaSignal ← stopServerSignal config;
        if viaSignal : bool then mret true else mret false.

(** [ForceKill]; the [nil] configuration is never passed by the program. *)
Definition ForceKill (config : Config) : Op bool :=
  if ControllerManaged (Config_Server config) then mret false
  else
    p ← gets pid;
    if negb (p =? 0) then unixSignal p SIGKILL else mret false.

(** ** Decisions *)

Definition players_online (s : ServerState) : bool :=
  match status s with Some st => 0 <? Online (Players st) | None => false end.

Definition ShouldSleep (config : Config) : Op bool := gets (fun s =>
  if ControllerManaged (Config_Server config) then false
  else if decide (state s <> StateStarted) then false
  else if players_online s then false
  else if match keepOnline s with Some t => now env <=? t | None => false end then false
  else match lastActive s with
       | Some t => SleepAfter (Config_Time config) * second <=? now env - t
       | None => false
       end).

Definition ShouldKill : Op bool := gets (fun s =>
  match killAt s with Some t => t <=? now env | None => false end).

Definition ExpireControllerManagedTransition (config : Config) : Op bool :=
  kill ← ShouldKill;
  if negb (ControllerManaged (Config_Server config)) || negb kill then mret false
  else updateStateFrom (Some StateStarting) StateStopped config.

(** ** The phases of [invokeServerCmd]

    The goroutine blocks twice, in [child.Wait] and in [time.Sleep]; the code
    between two blocking points is one operation. *)

(** Up to [child.Wait]: [spawned] is the answer of [startCommand], the pid of
    the child or an error. The result is whether there is a child to wait for. *)
Definition invoke_begin (config : Config) (generation : Z) (spawned : option Z) : Op bool :=
  let fail :=
    _ ← (if ControllerManaged (Config_Server config) then finishControllerHelper generation else mret tt);
    mret false in
  match shlexSplit (Command (Config_Server config)) with
  | [] => fail
  | _ =>
      match spawned with
      | None => fail
      | Some p =>
          _ ← modify (fun s => set_pidGeneration generation (set_pid p s));
          mret true
      end
  end.

(** How [child.Wait] returned: without error, with an exit status, or with an
    error and no status. *)
Inductive WaitResult := WaitOk | WaitStatus (code : Z) | WaitError.

(** From [child.Wait] to the sleep (or the end, for a controller helper): the
    result is whether the goroutine goes on, and if so whether the server
    crashed. *)
Definition invoke_exit (config : Config) (generation : Z) (w : WaitResult) : Op (option bool) :=
  if ControllerManaged (Config_Server config) then
    _ ← finishControllerHelper generation; mret None
  else
    cur ← GetState;
    let crashed :=
      match w with
      | WaitOk => false
      | WaitStatus code => if exitCodeAllowed (Some code) then false else bool_decide (cur = StateStarted)
      | WaitError => false
      end in
    _ ← modify (set_pid 0);
    mret (Some crashed).

(** After the sleep. *)
Definition invoke_after (config : Config) (crashed : bool) : Op unit :=
  _ ← updateState StateStopped config;
  if crashed && WakeOnCrash (Config_Server config) then _ ← Start config; mret tt else mret tt.

(** ** Status, bans, whitelist and caches *)

Definition Status : Op (option ServerStatus) := gets status.

Definition SeedStatus (st : option ServerStatus) : Op unit :=
  match st with
  | None => mret tt
  | Some v => modify (fun s => match status s with None => set_status (Some v) s | Some _ => s end)
  end.

Definition IsBannedIP (ip : bytes) : Op bool := gets (fun s => Ban_IsBanned (now env) (banned s) (parseIP ip)).
Definition BanEntry (ip : bytes) : Op (option BannedIp) := gets (fun s => Ban_Get (banned s) (parseIP ip)).

Definition IsWhitelisted (username : bytes) : Op bool := gets (fun s =>
  match st_whitelist s with None => true | Some w => wl_IsWhitelisted w username end).

Definition SetBannedIPs (ips : BannedIps) : Op unit := modify (set_banned ips).
Definition SetWhitelist (w : option Whitelist) : Op unit := modify (set_whitelist w).
Definition ProbedJoinGame : Op (option JoinGameData) := gets probed.
Definition SetProbedJoinGame (d : option JoinGameData) : Op unit := modify (set_probed d).
Definition ForgePayload : Op (list bytes) := gets forge.
Definition SetForgePayload (p : list bytes) : Op unit := modify (set_forge p).
Definition ForgeLoginCache : Op (list ForgeLoginExchange) := gets forgeLoginCache.
Definition SetForgeLoginCache (c : list ForgeLoginExchange) : Op unit := modify (set_forgeLoginCache c).

End Operations.

(** ** What the operations do

    [enter env new config s] is the effect of a state change as one function;
    [updateStateFrom] either performs it or leaves the state alone. *)

Section Enter.

Context (env : Env).

Definition deadline (new : State) (config : Config) : option Z :=
  match new with
  | StateStarting =>
      if 0 <? StartTimeout (Config_Server config)
      then Some (now env + StartTimeout (Config_Server config) * second) else None
  | StateStopping =>
      if 0 <? StopTimeout (Config_Server config)
      then Some (now env + StopTimeout (Config_Server config) * second) else None
  | _ => None
  end.

Definition enter (new : State) (config : Config) (s : ServerState) : ServerState :=
  let s1 := set_killAt (deadline new config) (set_subs (map (fun _ => Some new) (subs s)) (set_state new s)) in
  if decide (new = StateStarted) then
    set_keepOnline
      (if 0 <? MinOnlineTime (Config_Time config) then Some (now env + MinOnlineTime (Config_Time config) * second) else None)
      (set_lastActive (Some (now env)) s1)
  else s1.

(** Whether [updateStateFrom from new] changes the state [cur]. *)
Definition moves (from : option State) (new cur : State) : bool :=
  match from with Some f => bool_decide (cur = f) | None => true end && negb (bool_decide (cur = new)).

Lemma send_latest_new new ch : send_latest new ch = Some new.
Proof. by destruct ch. Qed.

Lemma us_swap_eq from new s :
  us_swap from new s = if moves from new (state s) then (true, set_state new s, []) else (false, s, []).
Proof.
  unfold us_swap, moves, gets, modify, mbind, Op_bind, mret, Op_ret.
  destruct from as [f|]; [destruct (bool_decide (state s = f)); [|reflexivity]|]; cbn [negb andb];
    (destruct (decide (state s = new)); [by rewrite bool_decide_true|by rewrite bool_decide_false]).
Qed.

(** What follows the critical section. *)
Lemma us_rest_eq new config s :
  (broadcastState new ≫= fun _ => us_killAt env new config ≫= fun _ => us_started env new config ≫= fun _ => mret true)
    (set_state new s) = (true, enter new config s, []).
Proof.
  unfold enter, broadcastState, us_killAt, us_started, keepOnlineFor, updateLastActive, deadline,
    mbind, Op_bind, mret, Op_ret, modify.
  rewrite (map_ext (send_latest new) (fun _ => Some new)) by apply send_latest_new.
  destruct new; try reflexivity; by destruct (0 <? MinOnlineTime (Config_Time config)).
Qed.

Lemma updateStateFrom_eq from new config s :
  updateStateFrom env from new config s
  = if moves from new (state s) then (true, enter new config s, []) else (false, s, []).
Proof.
  unfold updateStateFrom. unfold mbind at 1, Op_bind at 1. rewrite us_swap_eq.
  destruct (moves from new (state s)); [by rewrite us_rest_eq|reflexivity].
Qed.

(** The state change a poll result causes. *)
Definition polled (config : Config) (st : option ServerStatus) (s : ServerState) : ServerState :=
  match st, state s with
  | Some _, (StateStopped | StateStarting) => enter StateStarted config s
  | None, StateStarted => enter StateStopped config s
  | _, _ => s
  end.

(** The status and the activity a poll result records. *)
Definition record_status (st : option ServerStatus) (s : ServerState) : ServerState :=
  match st with
  | None => s
  | Some v => set_status (Some v) (if 0 <? Online (Players v) then set_lastActive (Some (now env)) s else s)
  end.

Lemma UpdateStatus_eq config st s :
  UpdateStatus env config st s = (tt, record_status st (polled config st s), []).
Proof.
  unfold UpdateStatus, GetState, updateState, gets, mbind, Op_bind, polled, record_status, updateLastActive, modify.
  destruct st as [v|], (state s) eqn:Es; cbn; rewrite ?updateStateFrom_eq, ?Es; cbn;
    by try destruct (0 <? Online (Players v)).
Qed.

End Enter.
