(* ===== verification/Command.v ===== *)
(** Starting the server's process: the command that [invokeServerCmd] of
    [src/server.go] puts together and [startCommand] of [src/process.go]. The
    operating system is a function from a command to the pid of the child. *)
From S2P Require Import Prelude Config Net Access Process Files JoinGame Packets ServerState.

(** ** Commands *)

Inductive Std := OsStdin | OsStdout | OsStderr.

(** The fields of [exec.Cmd] that are set. *)
Record Cmd := mkCmd {
  Cmd_Args : list bytes;
  Cmd_Dir : bytes;
  Cmd_Stdin : option Std;
  Cmd_Stdout : option Std;
  Cmd_Stderr : option Std }.

(** [exec.Command] *)
Definition exec_Command (args : list bytes) : Cmd := mkCmd args [] None None None.

Definition startCommand (os : Cmd -> option Z) (cmd : Cmd) : option Z :=
  os (mkCmd (Cmd_Args cmd) (Cmd_Dir cmd) (Some OsStdin) (Some OsStdout) (Some OsStderr)).

(** The command of the server; [None] when the configured text has no words. *)
Definition server_command (config : Config) : option Cmd :=
  match shlexSplit (Command (Config_Server config)) with
  | [] => None
  | parts => let cmd := exec_Command parts in
      Some (mkCmd (Cmd_Args cmd) (ServerDirectory config) (Cmd_Stdin cmd) (Cmd_Stdout cmd) (Cmd_Stderr cmd))
  end.

(** The first part of [invokeServerCmd], up to [child.Wait]. *)
Definition invoke_command (os : Cmd -> option Z) (config : Config) (generation : Z) : Op bool :=
  invoke_begin config generation (cmd ← server_command config; startCommand os cmd).

(** ** Properties *)

(** A command of quoted words starts one child with exactly these words in the
    server's directory and on the gateway's own streams, and its pid is the one
    the server state remembers for the generation; a child that cannot be
    started leaves the pid alone. *)
Theorem quoted_command_started (os : Cmd -> option Z) (config : Config) (generation : Z) (args : list bytes) (s : ServerState) :
  Command (Config_Server config) = command_line args -> args <> [] -> Forall (fun a => x27 ∉ a) args ->
  let child := mkCmd args (ServerDirectory config) (Some OsStdin) (Some OsStdout) (Some OsStderr) in
  match os child, invoke_command os config generation s with
  | Some p, (ok, s', events) => ok = true /\ s' = set_pidGeneration generation (set_pid p s) /\ events = []
  | None, (ok, s', events) => ok = false /\ (ControllerManaged (Config_Server config) = false -> s' = s /\ events = [])
  end.
Proof.
  intros Hc Hne Hq child. unfold invoke_command, server_command, invoke_begin.
  rewrite Hc, shlex_quoted_roundtrip by done. destruct args as [|a args]; [done|]. cbn.
  unfold startCommand. cbn. fold child. destruct (os child) as [p|]; [done|]. destruct (ControllerManaged (Config_Server config)) eqn:E; [|done].
  unfold mbind, Op_bind. destruct (finishControllerHelper generation s) as [[[] s'] ev]. done.
Qed.

(** A quote that is never closed is not an error: the rest is taken as quoted. *)
Example shlex_unclosed_accepted : shlexSplit (str "java 'my server.jar") = [str "java"; str "my server.jar"].
Proof. reflexivity. Qed.

(** A backslash at the end is kept after a word and lost on its own. *)
Example shlex_last_backslash : shlexSplit (str "java \") = [str "java"] /\ shlexSplit (str "java\") = [str "java\"].
Proof. split; reflexivity. Qed.
