(* ===== verification/Proxy.v ===== *)
(** Proxying a client to the server: the PROXY protocol v2 headers of
    [src/proxyv2/proxyv2.go] and the relay of [src/proxy.go].

    A finished relay is described by what each side sent until it stopped and
    by the errors of the writes and copies; the model says which bytes reach
    which side; [RelayRun] shows that the running relay does this. *)
From S2P Require Import Prelude Packet Config.

(** ** PROXY protocol headers *)

Definition signature : bytes := [x0d; x0a; x0d; x0a; x00; x0d; x0a; x51; x55; x49; x54; x0a].

Definition LocalHeader : bytes := signature ++ [x20; x01; x00; x00].

(** [IP.To16] *)
Definition To16 (ip : IP) : IP :=
  if (length ip =? 4)%nat then v4InV6Prefix ++ ip
  else if (length ip =? 16)%nat then ip else [].

(** [StreamHeader] of two TCP addresses; [None] when an address is not TCP. *)
Definition StreamHeader (peer local : option SocketAddr) : option bytes :=
  match peer, local with
  | Some peer, Some loc =>
      let src := SocketAddr_IP peer in
      let dst := SocketAddr_IP loc in
      let ports := be_bytes 2 (u16 (SocketAddr_Port peer)) ++ be_bytes 2 (u16 (SocketAddr_Port loc)) in
      match To4 src, To4 dst with
      | Some src4, Some dst4 => Some (signature ++ [x21; x11; x00; x0c] ++ src4 ++ dst4 ++ ports)
      | _, _ => Some (signature ++ [x21; x21; x00; x24] ++ To16 src ++ To16 dst ++ ports)
      end
  | _, _ => None
  end.

Inductive ProxyHeader := ProxyHeaderNone | ProxyHeaderLocal | ProxyHeaderProxy.

Definition NotNone (h : ProxyHeader) (notNone : bool) : ProxyHeader :=
  if notNone then h else ProxyHeaderNone.

(** ** The relay *)

(** An end of a relay: its addresses, the bytes it sends until it stops, whether
    writing to it works (or fails from the first byte on), and whether reading
    from it ends without error. *)
Record Endpoint := mkEndpoint {
  RemoteAddr : option SocketAddr;
  LocalAddr : option SocketAddr;
  sends : bytes;
  write_ok : bool;
  read_ok : bool }.

(** What the two ends received, and whether the relay returned an error. *)
Record Relay := mkRelay { to_client : bytes; to_server : bytes; relay_err : bool }.

Definition ProxyInboundOutboundWithQueue (inbound outbound : Endpoint) (inboundQueue outboundQueue : bytes) : Relay :=
  if bool_decide (inboundQueue <> []) && negb (write_ok inbound) then mkRelay [] [] true
  else if bool_decide (outboundQueue <> []) && negb (write_ok outbound) then mkRelay inboundQueue [] true
  else mkRelay (inboundQueue ++ (if write_ok inbound then sends outbound else []))
         (outboundQueue ++ (if write_ok outbound then sends inbound else []))
         (negb (read_ok inbound && write_ok outbound && (read_ok outbound && write_ok inbound))).

(** [ProxyWithQueue]: [outbound] is [None] when the server cannot be reached. *)
Definition ProxyWithQueue (inbound : Endpoint) (h : ProxyHeader) (outbound : option Endpoint) (queue : bytes) : Relay :=
  match outbound with
  | None => mkRelay [] [] true
  | Some outbound =>
      let relay header :=
        let r := ProxyInboundOutboundWithQueue inbound outbound [] queue in
        mkRelay (to_client r) (header ++ to_server r) (relay_err r) in
      match h with
      | ProxyHeaderNone => relay []
      | ProxyHeaderLocal => if write_ok outbound then relay LocalHeader else mkRelay [] [] true
      | ProxyHeaderProxy =>
          match StreamHeader (RemoteAddr inbound) (LocalAddr inbound) with
          | None => mkRelay [] [] true
          | Some header => if write_ok outbound then relay header else mkRelay [] [] true
          end
      end
  end.

Definition Proxy (inbound : Endpoint) (h : ProxyHeader) (outbound : option Endpoint) : Relay :=
  ProxyWithQueue inbound h outbound [].

(** ** The receiving side of the header

    What a PROXY v2 receiver reads, written from the protocol's description:
    the signature, a version and command byte, an address family byte, the
    length of the address block, and the block. *)
Inductive ProxyInfo :=
| InfoLocal
| InfoStream (src dst : IP) (sport dport : Z).

Definition read_block (n : nat) (d : bytes) : option ProxyInfo :=
  if (length d =? 2 * n + 4)%nat then
    Some (InfoStream (take n d) (take n (drop n d))
            (be_val (take 2 (drop (2 * n) d))) (be_val (drop (2 * n + 2) d)))
  else None.

Definition read_header (d : bytes) : option (ProxyInfo * bytes) :=
  if decide (take 12 d = signature) then
    match drop 12 d with
    | cmd :: fam :: l1 :: l2 :: d' =>
        let len := Z.to_nat (be_val [l1; l2]) in
        if (length d' <? len)%nat then None
        else
          let block := take len d' in
          if decide (cmd = x20) then Some (InfoLocal, drop len d')
          else if decide (cmd = x21 /\ fam = x11) then
            info ← read_block 4 block; Some (info, drop len d')
          else if decide (cmd = x21 /\ fam = x21) then
            info ← read_block 16 block; Some (info, drop len d')
          else None
    | _ => None
    end
  else None.

(** The addresses a receiver should see: both in four bytes when both are
    IPv4, otherwise both in sixteen. *)
Definition stream_info (peer loc : SocketAddr) : ProxyInfo :=
  let src := SocketAddr_IP peer in
  let dst := SocketAddr_IP loc in
  match To4 src, To4 dst with
  | Some a, Some b => InfoStream a b (SocketAddr_Port peer) (SocketAddr_Port loc)
  | _, _ => InfoStream (To16 src) (To16 dst) (SocketAddr_Port peer) (SocketAddr_Port loc)
  end.

Definition addr_ok (a : SocketAddr) : Prop :=
  (length (SocketAddr_IP a) = 4%nat \/ length (SocketAddr_IP a) = 16%nat) /\ is_u16 (SocketAddr_Port a).

Lemma To4_length ip a : To4 ip = Some a -> length a = 4%nat.
Proof.
  unfold To4. case_decide; [by intros [= <-]|]. case_decide as E; [|done].
  intros [= <-]. rewrite length_drop. lia.
Qed.

Lemma To16_length ip : length ip = 4%nat \/ length ip = 16%nat -> length (To16 ip) = 16%nat.
Proof.
  unfold To16. intros [E|E]; rewrite E; cbn [Nat.eqb]; [|done]. rewrite (length_app v4InV6Prefix), E. reflexivity.
Qed.

Lemma read_block_ok n (a b : IP) sp dp :
  length a = n -> length b = n -> is_u16 sp -> is_u16 dp ->
  read_block n (a ++ b ++ be_bytes 2 (u16 sp) ++ be_bytes 2 (u16 dp)) = Some (InfoStream a b sp dp).
Proof.
  intros Ha Hb Hs Hd. unfold read_block.
  rewrite (proj2 (Nat.eqb_eq _ _)) by (rewrite !length_app, !be_bytes_length; lia).
  rewrite take_app_length', drop_app_length', take_app_length' by done.
  replace (2 * n)%nat with (length (a ++ b)) by (rewrite length_app; lia).
  rewrite app_assoc, drop_app_length, take_app_length' by (by rewrite be_bytes_length).
  rewrite app_assoc, drop_app_length' by (rewrite !length_app, be_bytes_length; lia).
  rewrite !uintw_id, !be_val_bytes by done.
  unfold is_uint in *. rewrite !Z.mod_small; [done|zpow; lia|zpow; lia].
Qed.

Lemma read_header_block cmd fam l1 l2 block rest :
  Z.to_nat (be_val [l1; l2]) = length block ->
  read_header (signature ++ [cmd; fam; l1; l2] ++ block ++ rest)
  = if decide (cmd = x20) then Some (InfoLocal, rest)
    else if decide (cmd = x21 /\ fam = x11) then info ← read_block 4 block; Some (info, rest)
    else if decide (cmd = x21 /\ fam = x21) then info ← read_block 16 block; Some (info, rest)
    else None.
Proof.
  intros Hl. unfold read_header. rewrite take_app_length', decide_True by done.
  rewrite drop_app_length' by done. cbn [app]. rewrite Hl.
  rewrite (proj2 (Nat.ltb_ge _ _)) by (rewrite length_app; lia).
  by rewrite take_app_length, drop_app_length.
Qed.

Lemma StreamHeader_read peer loc rest h :
  addr_ok peer -> addr_ok loc -> StreamHeader (Some peer) (Some loc) = Some h ->
  read_header (h ++ rest) = Some (stream_info peer loc, rest).
Proof.
  intros [Hp Hpp] [Hl Hlp]. unfold StreamHeader, stream_info.
  assert (forall n fam l2 (a b : IP),
    ((fam = x11 /\ n = 4%nat /\ l2 = x0c) \/ (fam = x21 /\ n = 16%nat /\ l2 = x24)) -> length a = n -> length b = n ->
    read_header ((signature ++ [x21; fam; x00; l2] ++ a ++ b ++
      be_bytes 2 (u16 (SocketAddr_Port peer)) ++ be_bytes 2 (u16 (SocketAddr_Port loc))) ++ rest)
    = Some (InfoStream a b (SocketAddr_Port peer) (SocketAddr_Port loc), rest)) as Hread.
  { intros n fam l2 a b Hn Ha Hb. rewrite <- !app_assoc.
    rewrite (app_assoc b), (app_assoc a), (app_assoc (a ++ _)).
    replace ((a ++ b ++ be_bytes 2 (u16 (SocketAddr_Port peer))) ++ be_bytes 2 (u16 (SocketAddr_Port loc)))
      with (a ++ b ++ be_bytes 2 (u16 (SocketAddr_Port peer)) ++ be_bytes 2 (u16 (SocketAddr_Port loc)))
      by (by rewrite <- !app_assoc).
    rewrite read_header_block.
    - destruct Hn as [(-> & -> & ->)|(-> & -> & ->)]; rewrite (decide_False (P := x21 = x20)) by done;
        [|rewrite (decide_False (P := x21 = x21 /\ x21 = x11)) by (by intros [_ ?])];
        rewrite decide_True by done; by rewrite read_block_ok.
    - rewrite !length_app, !be_bytes_length. destruct Hn as [(-> & -> & ->)|(-> & -> & ->)]; rewrite Ha, Hb; reflexivity. }
  destruct (To4 (SocketAddr_IP peer)) as [a|] eqn:Ea, (To4 (SocketAddr_IP loc)) as [b|] eqn:Eb;
    intros [= <-]; (eapply Hread; [first [left; done | right; done]|..]);
    first [by eapply To4_length | by apply To16_length].
Qed.

(** The server sees the client through the proxy. When the relay runs with
    PROXY headers enabled, what the server receives is a header that a PROXY
    v2 receiver reads as the client's address and port and the address the
    client connected to, followed by the queued login bytes and then exactly
    the client's stream; and the client receives exactly the server's stream. *)
Theorem proxy_transparent (inbound outbound : Endpoint) (queue : bytes) (peer loc : SocketAddr) :
  RemoteAddr inbound = Some peer -> LocalAddr inbound = Some loc -> addr_ok peer -> addr_ok loc ->
  write_ok inbound = true -> write_ok outbound = true ->
  let r := ProxyWithQueue inbound ProxyHeaderProxy (Some outbound) queue in
  read_header (to_server r) = Some (stream_info peer loc, queue ++ sends inbound)
  /\ to_client r = sends outbound.
Proof.
  intros Hp Hl Hpo Hlo Hwi Hwo. unfold ProxyWithQueue. rewrite Hp, Hl.
  destruct (StreamHeader (Some peer) (Some loc)) as [h|] eqn:Eh.
  - rewrite Hwo. unfold ProxyInboundOutboundWithQueue. rewrite Hwi, Hwo. cbn [negb].
    rewrite !andb_false_r. cbn [to_client to_server]. split; [|done].
    by apply StreamHeader_read.
  - unfold StreamHeader in Eh. by repeat case_match.
Qed.

Lemma proxy_transparent_witness :
  let r := ProxyWithQueue
    (mkEndpoint (Some (mkSocketAddr (IPv4 x0a x00 x00 x07) 40000)) (Some (mkSocketAddr (IPv4 x0a x00 x00 x01) 25565))
       [x01; x02] true true)
    ProxyHeaderProxy (Some (mkEndpoint None None [x03] true true)) [xff] in
  read_header (to_server r)
  = Some (stream_info (mkSocketAddr (IPv4 x0a x00 x00 x07) 40000) (mkSocketAddr (IPv4 x0a x00 x00 x01) 25565), [xff] ++ [x01; x02])
  /\ to_client r = [x03].
Proof.
  apply (proxy_transparent
    (mkEndpoint (Some (mkSocketAddr (IPv4 x0a x00 x00 x07) 40000)) (Some (mkSocketAddr (IPv4 x0a x00 x00 x01) 25565))
       [x01; x02] true true) (mkEndpoint None None [x03] true true));
    try reflexivity; (split; [by right|split; vm_compute; congruence]).
Defined.
