(* ===== verification/RelayRun.v ===== *)
(** The relay of [src/proxy.go] while it runs: [ProxyInboundOutboundWithQueue]
    with its two copying goroutines, [closeWrite] and [CloseTCPStream].

    [Proxy] says what a finished relay has delivered. Here the client, the
    server, the two goroutines and their caller are a step relation, the peers
    send, end and break their connections when they like, and the description
    of [Proxy] is shown to be right. *)
From stdpp Require Import relations.
From S2P Require Import Prelude Config Proxy.

(** ** The peers and the goroutines *)

(** A peer with its connection: everything it has sent, the part of it that
    nobody has read yet, whether it has ended its stream, whether its
    connection is broken, what was written to it, and whether it has been told
    that no more will come. *)
Record Peer := mkPeer {
  p_sent : bytes;
  p_unread : bytes;
  p_ended : bool;
  p_broken : bool;
  p_got : bytes;
  p_eof : bool }.

Definition receive (b : bytes) (p : Peer) : Peer :=
  mkPeer (p_sent p) (p_unread p) (p_ended p) (p_broken p) (p_got p ++ b) (p_eof p).

Definition set_unread (b : bytes) (p : Peer) : Peer :=
  mkPeer (p_sent p) b (p_ended p) (p_broken p) (p_got p) (p_eof p).

Definition set_eof (b : bool) (p : Peer) : Peer :=
  mkPeer (p_sent p) (p_unread p) (p_ended p) (p_broken p) (p_got p) b.

(** [closeWrite]: only a plain TCP connection has a write side to close. *)
Definition closeWrite (tcp : bool) (p : Peer) : Peer := set_eof (p_eof p || tcp) p.

(** What the peers do. *)
Inductive peer_step : Peer -> Peer -> Prop :=
| peer_sends p b : p_ended p = false ->
    peer_step p (mkPeer (p_sent p ++ b) (p_unread p ++ b) false (p_broken p) (p_got p) (p_eof p))
| peer_ends p : peer_step p (mkPeer (p_sent p) (p_unread p) true (p_broken p) (p_got p) (p_eof p))
| peer_breaks p : peer_step p (mkPeer (p_sent p) (p_unread p) (p_ended p) true (p_got p) (p_eof p)).

(** A copying goroutine: in [Read] of [io.Copy], in [Write] with a chunk, after
    [io.Copy] returned, and after it has reported on [done]. *)
Inductive CopyPc := CReading | CWriting (b : bytes) | CClosing (err : bool) | CDone (err : bool).

(** One direction; [tcp]: whether the target is a plain TCP connection. A write
    to a broken connection delivers a part of the chunk. *)
Inductive copy_step (tcp : bool) : Peer -> CopyPc -> Peer -> Peer -> CopyPc -> Peer -> Prop :=
| copy_read src dst b rest : b <> [] -> p_unread src = b ++ rest ->
    copy_step tcp src CReading dst (set_unread rest src) (CWriting b) dst
| copy_eof src dst : p_unread src = [] -> p_ended src = true ->
    copy_step tcp src CReading dst src (CClosing false) dst
| copy_read_error src dst : p_broken src = true ->
    copy_step tcp src CReading dst src (CClosing true) dst
| copy_write src dst b : p_broken dst = false ->
    copy_step tcp src (CWriting b) dst src CReading (receive b dst)
| copy_write_error src dst b n : p_broken dst = true ->
    copy_step tcp src (CWriting b) dst src (CClosing true) (receive (take n b) dst)
| copy_close src dst err :
    copy_step tcp src (CClosing err) dst src (CDone err) (closeWrite tcp dst).

(** The caller: writing the two queues, waiting for both goroutines, closing
    the two connections, back with an error or none. *)
Inductive MainPc := MQueueIn | MQueueOut | MWait | MCloseIn (err : bool) | MCloseOut (err : bool) | MReturned (err : bool).

Record Run := mkRun {
  r_client : Peer;
  r_server : Peer;
  r_up : CopyPc; (* client to server *)
  r_down : CopyPc; (* server to client *)
  r_main : MainPc }.

Section RelayRun.

(** Whether the client's connection is plain TCP, and the two queues. The
    connection to the server is always dialed and plain. *)
Context (client_tcp : bool) (inboundQueue outboundQueue : bytes).

(** The steps of the gateway. *)
Inductive relay_step : Run -> Run -> Prop :=
| queue_in c s u d : inboundQueue <> [] -> p_broken c = false ->
    relay_step (mkRun c s u d MQueueIn) (mkRun (receive inboundQueue c) s u d MQueueOut)
| queue_in_error c s u d n : inboundQueue <> [] -> p_broken c = true ->
    relay_step (mkRun c s u d MQueueIn) (mkRun (receive (take n inboundQueue) c) s u d (MCloseIn true))
| queue_in_skip c s u d : inboundQueue = [] -> relay_step (mkRun c s u d MQueueIn) (mkRun c s u d MQueueOut)
| queue_out c s u d : outboundQueue <> [] -> p_broken s = false ->
    relay_step (mkRun c s u d MQueueOut) (mkRun c (receive outboundQueue s) u d MWait)
| queue_out_error c s u d n : outboundQueue <> [] -> p_broken s = true ->
    relay_step (mkRun c s u d MQueueOut) (mkRun c (receive (take n outboundQueue) s) u d (MCloseIn true))
| queue_out_skip c s u d : outboundQueue = [] -> relay_step (mkRun c s u d MQueueOut) (mkRun c s u d MWait)
| step_up c s u d c' u' s' : copy_step true c u s c' u' s' -> relay_step (mkRun c s u d MWait) (mkRun c' s' u' d MWait)
| step_down c s u d c' d' s' : copy_step client_tcp s d c s' d' c' -> relay_step (mkRun c s u d MWait) (mkRun c' s' u d' MWait)
| join c s e1 e2 : relay_step (mkRun c s (CDone e1) (CDone e2) MWait) (mkRun c s (CDone e1) (CDone e2) (MCloseIn (e1 || e2)))
| close_in c s u d e : relay_step (mkRun c s u d (MCloseIn e)) (mkRun (set_eof true c) s u d (MCloseOut e))
| close_out c s u d e : relay_step (mkRun c s u d (MCloseOut e)) (mkRun c (set_eof true s) u d (MReturned e)).

Inductive step : Run -> Run -> Prop :=
| step_relay r r' : relay_step r r' -> step r r'
| step_client c s u d m c' : peer_step c c' -> step (mkRun c s u d m) (mkRun c' s u d m)
| step_server c s u d m s' : peer_step s s' -> step (mkRun c s u d m) (mkRun c s' u d m).

(** The relay starts with a client of which nothing was read or written yet and
    a new connection to the server, to which [header] was written. *)
Context (header : bytes).

Definition start : Run :=
  mkRun (mkPeer [] [] false false [] false) (mkPeer [] [] false false header false) CReading CReading MQueueIn.

(** ** The invariant *)

(** One direction, into which [q] was written before the copying. *)
Definition dir_ok (q : bytes) (src : Peer) (pc : CopyPc) (dst : Peer) : Prop :=
  match pc with
  | CReading => q ++ p_sent src = p_got dst ++ p_unread src
  | CWriting b => q ++ p_sent src = p_got dst ++ b ++ p_unread src
  | CClosing false | CDone false => p_got dst = q ++ p_sent src /\ p_ended src = true
  | CClosing true | CDone true => p_got dst `prefix_of` q ++ p_sent src /\ (p_broken src = true \/ p_broken dst = true)
  end.

(** The peers have got all that was sent; or a part, because one broke. *)
Definition delivered (err : bool) (c s : Peer) : Prop :=
  if err then p_got c `prefix_of` inboundQueue ++ p_sent s /\ p_got s `prefix_of` (header ++ outboundQueue) ++ p_sent c
              /\ (p_broken c = true \/ p_broken s = true)
  else p_got c = inboundQueue ++ p_sent s /\ p_got s = (header ++ outboundQueue) ++ p_sent c
       /\ p_ended c = true /\ p_ended s = true.

(** The goroutines are not running yet. *)
Definition untouched (r : Run) : Prop :=
  r_up r = CReading /\ r_down r = CReading /\ p_got (r_server r) = header
  /\ p_unread (r_client r) = p_sent (r_client r) /\ p_unread (r_server r) = p_sent (r_server r).

Definition Inv (r : Run) : Prop :=
  let c := r_client r in
  let s := r_server r in
  match r_main r with
  | MQueueIn => untouched r /\ p_got c = []
  | MQueueOut => untouched r /\ p_got c = inboundQueue
  | MWait => dir_ok inboundQueue s (r_down r) c /\ dir_ok (header ++ outboundQueue) c (r_up r) s
  | MCloseIn err | MCloseOut err | MReturned err => delivered err c s
  end.

Lemma dir_prefix q src pc dst : dir_ok q src pc dst -> p_got dst `prefix_of` q ++ p_sent src.
Proof. destruct pc as [|b|[]|[]]; cbn; [by eexists|by eexists|by intros [? _]|by intros [-> _]|by intros [? _]|by intros [-> _]]. Qed.

(** A direction does not depend on what its source got and its target sent. *)
Lemma dir_frame q src src' pc dst dst' :
  p_sent src' = p_sent src -> p_unread src' = p_unread src -> p_ended src' = p_ended src -> p_broken src' = p_broken src ->
  p_got dst' = p_got dst -> p_broken dst' = p_broken dst -> dir_ok q src pc dst -> dir_ok q src' pc dst'.
Proof. intros H1 H2 H3 H4 H5 H6. unfold dir_ok. rewrite H1, H2, H3, H4, H5, H6. done. Qed.

Lemma dir_src q src src' pc dst : peer_step src src' -> dir_ok q src pc dst -> dir_ok q src' pc dst.
Proof.
  destruct 1 as [p b He|p|p]; destruct pc as [|x|[]|[]]; cbn; rewrite ?app_assoc; try tauto.
  - by intros ->.
  - by intros ->.
  - intros [H ?]. split; [by apply prefix_app_r|done].
  - intros [_ ?]. congruence.
  - intros [H ?]. split; [by apply prefix_app_r|done].
  - intros [_ ?]. congruence.
Qed.

Lemma dir_dst q src pc dst dst' : peer_step dst dst' -> dir_ok q src pc dst -> dir_ok q src pc dst'.
Proof. destruct 1; destruct pc as [|x|[]|[]]; cbn; tauto. Qed.

Lemma dir_copy tcp q src pc dst src' pc' dst' :
  copy_step tcp src pc dst src' pc' dst' -> dir_ok q src pc dst -> dir_ok q src' pc' dst'.
Proof.
  destruct 1 as [src dst b rest _ E|src dst Eu Ee|src dst E|src dst b E|src dst b n E|src dst err]; cbn.
  - by rewrite E.
  - rewrite Eu, app_nil_r. by intros ->.
  - intros ->. split; [by eexists|by left].
  - by rewrite app_assoc.
  - intros ->. split; [|by right]. apply prefix_app, prefix_app_r. apply prefix_take.
  - destruct err; cbn; [by intros|by intros].
Qed.

Lemma dir_other tcp q src pc dst src' pc' dst' pc2 :
  copy_step tcp src pc dst src' pc' dst' -> dir_ok q dst pc2 src -> dir_ok q dst' pc2 src'.
Proof. intros E. apply dir_frame; by destruct E. Qed.

Lemma delivered_peer err c s c' s' : peer_step c c' /\ s' = s \/ c' = c /\ peer_step s s' -> delivered err c s -> delivered err c' s'.
Proof.
  intros [[E ->]|[-> E]]; destruct E as [p b He|p|p]; destruct err; cbn; rewrite ?app_assoc; try tauto.
  all: try (intros (? & ? & ? & ?); congruence).
  - intros (? & ? & ?). split_and!; [done|by apply prefix_app_r|done].
  - intros (? & ? & ?). split_and!; [by apply prefix_app_r|done..].
Qed.

Lemma relay_inv_start : Inv start.
Proof. done. Qed.

Lemma relay_inv_own r r' : relay_step r r' -> Inv r -> Inv r'.
Proof.
  destruct 1 as [c s u d _ Hb|c s u d n _ Hb|c s u d Hq|c s u d _ Hb|c s u d n _ Hb|c s u d Hq|c s u d c' u' s' E|c s u d c' d' s' E|c s e1 e2|c s u d e|c s u d e];
    unfold Inv, untouched; cbn.
  - intros (? & ->). done.
  - intros ((-> & -> & -> & Hc & Hs) & ->). split_and!; [|apply prefix_app_r, prefix_app_r; done|by left].
    apply prefix_app_r, prefix_take.
  - by rewrite Hq.
  - intros ((-> & -> & Hg & Hc & Hs) & Hi). cbn. rewrite Hg, Hc, Hs, Hi. done.
  - intros ((-> & -> & -> & Hc & Hs) & ->). split_and!; [by apply prefix_app_r| |by right].
    apply prefix_app_r, prefix_app, prefix_take.
  - rewrite Hq, app_nil_r. intros ((-> & -> & Hg & Hc & Hs) & Hi). cbn. rewrite Hg, Hc, Hs, Hi. done.
  - intros [H1 H2]. split; [by eapply dir_other|by eapply dir_copy].
  - intros [H1 H2]. split; [by eapply dir_copy|by eapply dir_other].
  - intros [H1 H2]. pose proof (dir_prefix inboundQueue s (CDone e2) c H1). pose proof (dir_prefix (header ++ outboundQueue) c (CDone e1) s H2).
    destruct e1, e2; cbn in *; tauto.
  - by destruct e.
  - by destruct e.
Qed.

Lemma untouched_peer c s c' s' : peer_step c c' /\ s' = s \/ c' = c /\ peer_step s s' -> forall u d m,
  untouched (mkRun c s u d m) -> untouched (mkRun c' s' u d m) /\ p_got c' = p_got c.
Proof.
  intros [[E ->]|[-> E]] u d m; destruct E; unfold untouched; cbn; intros (? & ? & ? & ? & ?); split_and!; congruence.
Qed.

Lemma relay_inv_peer c s c' s' u d m : peer_step c c' /\ s' = s \/ c' = c /\ peer_step s s' ->
  Inv (mkRun c s u d m) -> Inv (mkRun c' s' u d m).
Proof.
  intros E. unfold Inv. destruct m; cbn [r_client r_server r_up r_down r_main].
  1,2: intros [H <-]; by apply (untouched_peer _ _ _ _ E).
  2-4: by apply delivered_peer.
  intros [H1 H2]. destruct E as [[E ->]|[-> E]]; split; first [by eapply dir_src | by eapply dir_dst].
Qed.

Lemma relay_inv_step r r' : step r r' -> Inv r -> Inv r'.
Proof. destruct 1; [by apply relay_inv_own|apply relay_inv_peer; auto..]. Qed.

Lemma relay_inv r : rtc step start r -> Inv r.
Proof. apply (rtc_ind_r Inv); [apply relay_inv_start|]. intros r1 r2 _ E H. by eapply relay_inv_step. Qed.

(** At any time each peer has got a prefix of what it is to get. *)
Lemma relay_inv_prefix r : Inv r -> p_got (r_client r) `prefix_of` inboundQueue ++ p_sent (r_server r)
  /\ p_got (r_server r) `prefix_of` (header ++ outboundQueue) ++ p_sent (r_client r).
Proof.
  unfold Inv, untouched. destruct (r_main r) as [| | |[]|[]|[]]; cbn.
  - intros ((_ & _ & -> & _) & ->). split; [apply prefix_nil|by apply prefix_app_r, prefix_app_r].
  - intros ((_ & _ & -> & _) & ->). split; [by apply prefix_app_r|by apply prefix_app_r, prefix_app_r].
  - intros [H1 H2]. split; by eapply dir_prefix.
  - tauto.
  - by intros (-> & -> & _).
  - tauto.
  - by intros (-> & -> & _).
  - tauto.
  - by intros (-> & -> & _).
Qed.

(** ** The relay returns *)

(** What a goroutine and the caller have left to do. *)
Definition copy_work (unread : bytes) (pc : CopyPc) : nat :=
  match pc with
  | CReading => 2 * length unread + 3
  | CWriting _ => 2 * length unread + 4
  | CClosing _ => 2
  | CDone _ => 0
  end.

Definition work (r : Run) : nat :=
  (copy_work (p_unread (r_client r)) (r_up r) + copy_work (p_unread (r_server r)) (r_down r)
   + match r_main r with MQueueIn => 5 | MQueueOut => 4 | MWait => 3 | MCloseIn _ => 2 | MCloseOut _ => 1 | MReturned _ => 0 end)%nat.

Lemma copy_step_work tcp src pc dst src' pc' dst' : copy_step tcp src pc dst src' pc' dst' -> (copy_work (p_unread src') pc' < copy_work (p_unread src) pc)%nat.
Proof.
  destruct 1 as [src dst b rest Hb E| | | | |]; cbn; try lia.
  rewrite E, length_app. destruct b; [done|]. cbn. lia.
Qed.

Lemma copy_step_other tcp src pc dst src' pc' dst' : copy_step tcp src pc dst src' pc' dst' -> p_unread dst' = p_unread dst.
Proof. by destruct 1. Qed.

Lemma relay_step_work r r' : relay_step r r' -> (work r' < work r)%nat.
Proof.
  destruct 1 as [| | | | | |c s u d c' u' s' E|c s u d c' d' s' E| | |]; unfold work; cbn [r_client r_server r_up r_down r_main]; try (cbn; lia).
  - rewrite (copy_step_other _ _ _ _ _ _ _ E). apply copy_step_work in E. lia.
  - rewrite (copy_step_other _ _ _ _ _ _ _ E). apply copy_step_work in E. lia.
Qed.

Lemma relay_run_bound n r r' : nsteps relay_step n r r' -> (n + work r' <= work r)%nat.
Proof. induction 1 as [|n r r1 r' E _ IH]; [lia|]. apply relay_step_work in E. lia. Qed.

(** A peer that has ended its stream or broken keeps nobody waiting. *)
Definition over (p : Peer) : Prop := p_ended p = true \/ p_broken p = true.

Lemma copy_enabled tcp src pc dst : over src -> (exists err, pc = CDone err) \/ exists src' pc' dst', copy_step tcp src pc dst src' pc' dst'.
Proof.
  intros Ho. destruct pc as [|b|err|err]; [| |right; by repeat eexists; constructor|left; by exists err].
  - right. destruct (p_unread src) as [|x l] eqn:E.
    + destruct Ho; repeat eexists; [by apply copy_eof|by apply copy_read_error].
    + repeat eexists. by apply (copy_read tcp src dst [x] l).
  - right. destruct (p_broken dst) eqn:E; repeat eexists; [by apply (copy_write_error tcp src dst b 0)|by apply copy_write].
Qed.

Lemma queue_enabled c s u d m : m = MQueueIn \/ m = MQueueOut -> exists r', relay_step (mkRun c s u d m) r'.
Proof.
  intros [-> | ->].
  - destruct (decide (inboundQueue = [])); [by eexists; apply queue_in_skip|].
    destruct (p_broken c) eqn:E; eexists; [by apply (queue_in_error c s u d 0)|by apply queue_in].
  - destruct (decide (outboundQueue = [])); [by eexists; apply queue_out_skip|].
    destruct (p_broken s) eqn:E; eexists; [by apply (queue_out_error c s u d 0)|by apply queue_out].
Qed.

Lemma relay_enabled r : over (r_client r) -> over (r_server r) -> (exists err, r_main r = MReturned err) \/ exists r', relay_step r r'.
Proof.
  destruct r as [c s u d m]. cbn. intros Hc Hs. destruct m as [| | |e|e|e]; [| | |right; by eexists; constructor..|left; by exists e].
  - right. apply queue_enabled. by left.
  - right. apply queue_enabled. by right.
  - right. destruct (copy_enabled true c u s Hc) as [[e1 ->]|(?&?&?&?)]; [|by eexists; eapply step_up].
    destruct (copy_enabled client_tcp s d c Hs) as [[e2 ->]|(?&?&?&?)]; [|by eexists; eapply step_down].
    eexists. apply join.
Qed.

Lemma relay_step_over r r' : relay_step r r' -> over (r_client r) -> over (r_server r) -> over (r_client r') /\ over (r_server r').
Proof.
  unfold over. destruct 1 as [| | | | | |c s u d c' u' s' E|c s u d c' d' s' E| | |]; try done; by destruct E.
Qed.

Lemma relay_runs_out n : forall r, (work r < n)%nat -> over (r_client r) -> over (r_server r) ->
  exists r' err, rtc relay_step r r' /\ r_main r' = MReturned err.
Proof.
  induction n as [|n IH]; intros r Hn Hc Hs; [lia|].
  destruct (relay_enabled r Hc Hs) as [[err Hr]|[r1 E]]; [by exists r, err|].
  pose proof (relay_step_work r r1 E). destruct (relay_step_over r r1 E Hc Hs).
  destruct (IH r1) as (r' & err & Hr & Hm); [lia|done..|]. exists r', err. split; [by eapply rtc_l|done].
Qed.

Lemma relay_run_over r r' : rtc relay_step r r' -> over (r_client r) -> over (r_server r) -> over (r_client r') /\ over (r_server r').
Proof. induction 1 as [|r r1 r' E _ IH]; [done|]. intros Hc Hs. by destruct (relay_step_over r r1 E Hc Hs); apply IH. Qed.

(** ** Ends of streams *)

Definition copy_done (pc : CopyPc) : bool := match pc with CDone _ => true | _ => false end.
Definition closed_in (m : MainPc) : bool := match m with MCloseOut _ | MReturned _ => true | _ => false end.
Definition closed_out (m : MainPc) : bool := match m with MReturned _ => true | _ => false end.

(** Who has been told the end of a stream, and when. *)
Definition told (r : Run) : Prop :=
  p_eof (r_client r) = client_tcp && copy_done (r_down r) || closed_in (r_main r)
  /\ p_eof (r_server r) = copy_done (r_up r) || closed_out (r_main r).

Lemma copy_told tcp src pc dst src' pc' dst' : copy_step tcp src pc dst src' pc' dst' ->
  p_eof src' = p_eof src /\ (p_eof dst = tcp && copy_done pc || false -> p_eof dst' = tcp && copy_done pc' || false).
Proof. destruct 1; cbn; try tauto. split; [done|]. intros ->. by destruct tcp. Qed.

Lemma peer_told p p' : peer_step p p' -> p_eof p' = p_eof p.
Proof. by destruct 1. Qed.

Lemma told_step r r' : step r r' -> told r -> told r'.
Proof.
  unfold told. destruct 1 as [r r' E|c s u d m c' E|c s u d m s' E]; cbn [r_client r_server r_up r_down r_main].
  - destruct E as [| | | | | |c s u d c' u' s' E|c s u d c' d' s' E|c s e1 e2|c s u d e|c s u d e]; cbn [r_client r_server r_up r_down r_main]; try done.
    + apply copy_told in E as [-> Hd]. intros [? ?]. by split; [|apply Hd].
    + apply copy_told in E as [-> Hd]. intros [? ?]. by split; [apply Hd|].
    + intros [_ ->]. cbn. by rewrite orb_true_r.
    + intros [-> _]. cbn. by rewrite !orb_true_r.
  - by rewrite (peer_told _ _ E).
  - by rewrite (peer_told _ _ E).
Qed.

Lemma relay_told r : rtc step start r -> told r.
Proof. apply (rtc_ind_r told); [by unfold told; cbn; rewrite andb_false_r|]. intros r1 r2 _ E H. by eapply told_step. Qed.

(** When a peer is told the end, it has got everything, or somebody broke. *)
Lemma relay_inv_done r err : Inv r -> r_down r = CDone err \/ r_main r = MCloseOut err \/ r_main r = MReturned err ->
  p_got (r_client r) = inboundQueue ++ p_sent (r_server r) /\ p_ended (r_server r) = true
  \/ p_broken (r_client r) = true \/ p_broken (r_server r) = true.
Proof.
  unfold Inv, untouched. intros HI [H|[H|H]]; [|rewrite H in HI; destruct err; cbn in HI; tauto..].
  rewrite H in HI. destruct (r_main r) as [| | |[]|[]|[]]; destruct err; cbn in HI; try tauto; naive_solver.
Qed.

Lemma told_after_all r : Inv r -> told r -> p_eof (r_client r) = true ->
  p_got (r_client r) = inboundQueue ++ p_sent (r_server r) /\ p_ended (r_server r) = true
  \/ p_broken (r_client r) = true \/ p_broken (r_server r) = true.
Proof.
  intros HI [Ht _] He. rewrite He in Ht. symmetry in Ht. apply orb_true_iff in Ht as [Ht|Ht].
  - apply andb_true_iff in Ht as [_ Ht]. destruct (r_down r) eqn:E; try done. eapply relay_inv_done; eauto.
  - destruct (r_main r) eqn:E; try done; eapply relay_inv_done; eauto.
Qed.

Lemma server_told_after_all r : Inv r -> told r -> p_eof (r_server r) = true ->
  p_got (r_server r) = (header ++ outboundQueue) ++ p_sent (r_client r) /\ p_ended (r_client r) = true
  \/ p_broken (r_client r) = true \/ p_broken (r_server r) = true.
Proof.
  intros HI [_ Ht] He. rewrite He in Ht. symmetry in Ht. unfold Inv, untouched in HI. apply orb_true_iff in Ht as [Ht|Ht].
  - destruct (r_up r) as [| | |err] eqn:E; try done.
    destruct (r_main r) as [| | |[]|[]|[]]; destruct err; cbn in HI; try tauto; naive_solver.
  - destruct (r_main r) as [| | |[]|[]|[]]; cbn in HI; try done; tauto.
Qed.

(** With a plain client, the gateway can go on until it has told the client. *)
Lemma client_told_enabled r : client_tcp = true -> over (r_server r) -> told r -> p_eof (r_client r) = false -> exists r', relay_step r r'.
Proof.
  destruct r as [c s u d m]. unfold told. cbn. intros -> Hs [Ht _] He. rewrite He in Ht. destruct m as [| | |e|e|e]; cbn in Ht.
  - apply queue_enabled. by left.
  - apply queue_enabled. by right.
  - destruct (copy_enabled client_tcp s d c Hs) as [[e ->]|(?&?&?&?)]; [done|]. by eexists; eapply step_down.
  - eexists. apply close_in.
  - by rewrite orb_true_r in Ht.
  - by rewrite orb_true_r in Ht.
Qed.

Lemma client_told n : forall r, (work r < n)%nat -> client_tcp = true -> over (r_server r) -> told r ->
  exists r', rtc relay_step r r' /\ p_eof (r_client r') = true.
Proof.
  induction n as [|n IH]; intros r Hn Hc Hs Ht; [lia|]. destruct (p_eof (r_client r)) eqn:He; [by exists r|].
  destruct (client_told_enabled r Hc Hs Ht He) as [r1 E]. pose proof (relay_step_work r r1 E).
  assert (over (r_server r1)) as Hs1.
  { unfold over in *. destruct E as [| | | | | |c s u d c' u' s' E|c s u d c' d' s' E| | |]; try done; by destruct E. }
  destruct (IH r1) as (r' & Hr & Hm); [lia|done..|by eapply told_step, Ht; constructor|].
  exists r'. split; [by eapply rtc_l|done].
Qed.

(** ** Properties *)

(** The endpoint of [Proxy] that a peer was. *)
Definition endpoint (p : Peer) : Endpoint := mkEndpoint None None (p_sent p) true true.

(** The relay behind a header, as [Proxy.ProxyWithQueue] has it. *)
Definition finished (r : Run) : Relay :=
  let f := ProxyInboundOutboundWithQueue (endpoint (r_client r)) (endpoint (r_server r)) inboundQueue outboundQueue in
  mkRelay (to_client f) (header ++ to_server f) (relay_err f).

(** C8: the running relay refines its description. In every interleaving of the
    two copying goroutines, their caller and the peers: each peer has at any
    time received a prefix of the bytes meant for it, so nothing is lost,
    duplicated or reordered; the client is told the end of the stream only
    after the server ended it and the client has received all of it, and the
    server likewise, unless a connection broke; when the relay returns without
    an error, both peers have received exactly what [Proxy] says of a finished
    relay, the server behind a PROXY header that it reads as the client's
    addresses; an error is returned only when a connection broke; and once each
    peer has ended its stream or broken, the relay returns, after at most two
    steps per unread byte and thirteen more, and gets stuck nowhere before. *)
Theorem relay_run_refines (r : Run) : rtc step start r ->
  (p_got (r_client r) `prefix_of` inboundQueue ++ p_sent (r_server r)
   /\ p_got (r_server r) `prefix_of` (header ++ outboundQueue) ++ p_sent (r_client r))
  /\ (p_eof (r_client r) = true ->
        (p_got (r_client r) = inboundQueue ++ p_sent (r_server r) /\ p_ended (r_server r) = true)
        \/ p_broken (r_client r) = true \/ p_broken (r_server r) = true)
  /\ (p_eof (r_server r) = true ->
        (p_got (r_server r) = (header ++ outboundQueue) ++ p_sent (r_client r) /\ p_ended (r_client r) = true)
        \/ p_broken (r_client r) = true \/ p_broken (r_server r) = true)
  /\ (r_main r = MReturned false -> mkRelay (p_got (r_client r)) (p_got (r_server r)) false = finished r
        /\ forall peer loc, addr_ok peer -> addr_ok loc -> StreamHeader (Some peer) (Some loc) = Some header ->
            read_header (p_got (r_server r)) = Some (stream_info peer loc, outboundQueue ++ p_sent (r_client r)))
  /\ (r_main r = MReturned true -> p_broken (r_client r) = true \/ p_broken (r_server r) = true)
  /\ (over (r_client r) -> over (r_server r) ->
        (exists r' err, rtc relay_step r r' /\ r_main r' = MReturned err)
        /\ forall n r', nsteps relay_step n r r' ->
            (n <= 2 * (length (p_unread (r_client r)) + length (p_unread (r_server r))) + 13)%nat
            /\ ((forall r'', ~ relay_step r' r'') -> exists err, r_main r' = MReturned err)).
Proof.
  intros Hr. pose proof (relay_inv r Hr) as HI. split_and!; try apply (relay_inv_prefix r HI).
  - by apply told_after_all, relay_told.
  - by apply server_told_after_all, relay_told.
  - intros Hm. unfold Inv in HI. rewrite Hm in HI. destruct HI as (-> & -> & _).
    rewrite <- app_assoc. split; [|intros peer loc Hp Hl Hh; by apply StreamHeader_read].
    unfold finished, ProxyInboundOutboundWithQueue, endpoint. cbn. by rewrite !andb_false_r.
  - intros Hm. unfold Inv in HI. rewrite Hm in HI. by destruct HI as (_ & _ & ?).
  - intros Hc Hs. split; [by apply (relay_runs_out (S (work r))); [lia|..]|]. intros n r' Hn. split.
    + apply relay_run_bound in Hn. assert (work r <= 2 * (length (p_unread (r_client r)) + length (p_unread (r_server r))) + 13)%nat; [|lia].
      unfold work. destruct (r_up r), (r_down r), (r_main r); cbn; lia.
    + intros Hstuck. pose proof (rtc_nsteps_2 _ _ _ Hn) as Hrun. destruct (relay_run_over r r' Hrun Hc Hs) as [Hc' Hs'].
      destruct (relay_enabled r' Hc' Hs') as [?|[r'' E]]; [done|]. by destruct (Hstuck r'').
Qed.

(** The end of the server's stream reaches a plain client while that client
    may still send. An encrypted client is not told: as long as it has not
    ended its own stream and no connection broke, the relay neither closes its
    connection nor returns, whatever the server does. *)
Theorem server_end_forwarded (r : Run) : rtc step start r -> p_ended (r_server r) = true ->
  (client_tcp = true -> exists r', rtc relay_step r r' /\ p_eof (r_client r') = true)
  /\ (client_tcp = false -> p_ended (r_client r) = false -> p_broken (r_client r) = false -> p_broken (r_server r) = false ->
        p_eof (r_client r) = false /\ forall err, r_main r <> MReturned err).
Proof.
  intros Hr Hs. pose proof (relay_inv r Hr) as HI. pose proof (relay_told r Hr) as Ht. split.
  - intros Hc. by apply (client_told (S (work r))); [lia|..|left|].
  - intros Hc He Hb1 Hb2. destruct Ht as [-> _]. rewrite Hc. cbn. unfold Inv in HI.
    destruct (r_main r) as [| | |[]|[]|[]]; cbn in *; try done; naive_solver congruence.
Qed.

End RelayRun.

(** A whole relay: the client ends first, and the server still answers. *)
Definition witness_peer : SocketAddr := mkSocketAddr (IPv4 x0a x00 x00 x07) 40000.
Definition witness_header : bytes := default [] (StreamHeader (Some witness_peer) (Some witness_peer)).
Definition witness_run : Run :=
  mkRun (mkPeer [x01] [] true false [x0a; x03] true) (mkPeer [x03] [] true false ((witness_header ++ [x0b]) ++ [x01]) true)
    (CDone false) (CDone false) (MReturned false).

Lemma witness_reachable : rtc (step true [x0a] [x0b]) (start witness_header) witness_run.
Proof.
  eapply rtc_l; [apply step_client, (peer_sends _ [x01]); done|].
  eapply rtc_l; [apply step_client, peer_ends|].
  eapply rtc_l; [apply step_relay, queue_in; done|].
  eapply rtc_l; [apply step_relay, queue_out; done|].
  eapply rtc_l; [apply step_relay, step_up, (copy_read _ _ _ [x01] []); done|].
  eapply rtc_l; [apply step_server, (peer_sends _ [x03]); done|].
  eapply rtc_l; [apply step_relay, step_up, copy_write; done|].
  eapply rtc_l; [apply step_relay, step_up, copy_eof; done|].
  eapply rtc_l; [apply step_relay, step_up, copy_close|].
  eapply rtc_l; [apply step_relay, step_down, (copy_read _ _ _ [x03] []); done|].
  eapply rtc_l; [apply step_server, peer_ends|].
  eapply rtc_l; [apply step_relay, step_down, copy_write; done|].
  eapply rtc_l; [apply step_relay, step_down, copy_eof; done|].
  eapply rtc_l; [apply step_relay, step_down, copy_close|].
  eapply rtc_l; [apply step_relay, join|].
  eapply rtc_l; [apply step_relay, close_in|].
  apply rtc_once. apply step_relay, close_out.
Qed.

Lemma relay_run_refines_witness :
  mkRelay [x0a; x03] ((witness_header ++ [x0b]) ++ [x01]) false = finished [x0a] [x0b] witness_header witness_run
  /\ read_header ((witness_header ++ [x0b]) ++ [x01]) = Some (stream_info witness_peer witness_peer, [x0b; x01]).
Proof.
  destruct (relay_run_refines true [x0a] [x0b] witness_header witness_run witness_reachable) as (_ & _ & _ & H & _).
  destruct (H eq_refl) as [H1 H2]. split; [exact H1|].
  apply H2; [split; [by right|split; vm_compute; congruence]..|reflexivity].
Defined.

(** ** Closing a connection twice *)

(** [net.OpError], the error of a failed [Close] of a TCP connection, with the
    texts of the addresses and of the error it wraps. *)
Record OpError := mkOpError {
  Op : bytes;
  OpNet : bytes;
  OpSource : option bytes;
  OpAddr : option bytes;
  OpErr : bytes }.

Definition OpError_Error (e : OpError) : bytes :=
  Op e
  ++ (if bool_decide (OpNet e = []) then [] else str " " ++ OpNet e)
  ++ (match OpSource e with Some a => str " " ++ a | None => [] end)
  ++ (match OpAddr e with Some a => (match OpSource e with Some _ => str "->" | None => str " " end) ++ a | None => [] end)
  ++ str ": " ++ OpErr e.

(** Errors by their texts. *)
Definition isNotConnected (err : bytes) : bool :=
  bool_decide (err = str "use of closed network connection") || bool_decide (err = str "transport endpoint is not connected").

(** [close]: the error of [conn.Close()], if any. *)
Definition CloseTCPStream (close : option bytes) : option bytes :=
  match close with
  | None => None
  | Some err => if isNotConnected err then None else Some err
  end.

(** Closing a connection that is already closed is not taken for a success,
    since the text that is compared is only the end of the error's text. *)
Theorem closed_stream_still_fails (source addr : bytes) :
  let err := OpError_Error (mkOpError (str "close") (str "tcp") (Some source) (Some addr) (str "use of closed network connection")) in
  CloseTCPStream (Some err) = Some err.
Proof. reflexivity. Qed.
