(* ===== verification/Cipher.v ===== *)
(** The encrypted connection of the online-mode lobby: the CFB8 stream cipher
    and [minecraftEncryptedConn] of [src/online_auth.go].

    AES is the parameter of the class [AES]: its block function under a key.
    The theorem holds for every block function: CFB8 decrypts with the
    encrypting direction of the cipher, so nothing is assumed of it. *)
From S2P Require Import Prelude VarInt Wire Packet Stream.

Class AES := { aes_encrypt : bytes -> bytes -> bytes }.

Definition BlockSize : nat := 16.

Definition xor_byte (a b : byte) : byte := z2b (Z.lxor (b2z a) (b2z b)).

Section Cipher.

Context `{A : AES}.

(** ** cfb8 *)

Record cfb8 := mkCfb8 { cfb_key : bytes; cfb_iv : bytes; cfb_decrypt : bool }.

Definition newCFB8 (key iv : bytes) (decrypt : bool) : cfb8 := mkCfb8 key iv decrypt.

(** One byte of [XORKeyStream]: the shift register loses its first byte and
    gains the ciphertext byte. *)
Definition cfb8_step (c : cfb8) (b : byte) : byte * cfb8 :=
  let scratch := take BlockSize (cfb_iv c) in
  let iv := aes_encrypt (cfb_key c) scratch ++ drop BlockSize (cfb_iv c) in
  let out := xor_byte b (default x00 (head iv)) in
  let iv := drop 1 scratch ++ drop (length scratch - 1) iv in
  let last := if cfb_decrypt c then b else out in
  (out, mkCfb8 (cfb_key c) (take (length iv - 1) iv ++ [last]) (cfb_decrypt c)).

Fixpoint XORKeyStream (c : cfb8) (src : bytes) : bytes * cfb8 :=
  match src with
  | [] => ([], c)
  | b :: src' =>
      let '(out, c) := cfb8_step c b in
      let '(dst, c) := XORKeyStream c src' in
      (out :: dst, c)
  end.

(** ** minecraftEncryptedConn *)

(** The two directions: a reader that decrypts and a writer that encrypts, both
    with the shared secret as key and initial register. *)
Record minecraftEncryptedConn := mkEncrypted { enc_reader : cfb8; enc_writer : cfb8 }.

(** [aes.NewCipher] refuses a key that is not of 16, 24 or 32 bytes. *)
Definition newMinecraftEncryptedConn (secret : bytes) : option minecraftEncryptedConn :=
  if decide (length secret ∈ [16; 24; 32]%nat)
  then Some (mkEncrypted (newCFB8 secret secret true) (newCFB8 secret secret false))
  else None.

(** [Read] with a buffer of [size] bytes on top of the connection below. *)
Definition enc_Read (c : minecraftEncryptedConn) (size : nat) (conn : Conn)
    : bytes * option ReadErr * minecraftEncryptedConn * Conn :=
  let '(p, err, conn) := conn_Read size conn in
  let '(q, r) := XORKeyStream (enc_reader c) p in
  (q, err, mkEncrypted r (enc_writer c), conn).

(** The write loop over the connection below: each answer is the number of
    bytes written and whether the call reported an error; with no answer left
    a call writes everything. The result is what went out and whether [Write]
    succeeded. *)
Fixpoint write_loop (answers : list (nat * bool)) (encrypted : bytes) : bytes * bool :=
  match encrypted with
  | [] => ([], true)
  | _ =>
      match answers with
      | [] => (encrypted, true)
      | (n, err) :: answers' =>
          let out := take n encrypted in
          if err : bool then (out, false)
          else if (length out =? 0)%nat then (out, false)
          else let '(more, ok) := write_loop answers' (drop n encrypted) in (out ++ more, ok)
      end
  end.

Definition enc_Write (c : minecraftEncryptedConn) (answers : list (nat * bool)) (p : bytes)
    : bytes * bool * minecraftEncryptedConn :=
  let '(encrypted, w) := XORKeyStream (enc_writer c) p in
  let '(out, ok) := write_loop answers encrypted in
  (out, ok, mkEncrypted (enc_reader c) w).

(** ** The connection as a whole *)

(** A connection whose every read is decrypted. *)
Fixpoint decrypt_conn (r : cfb8) (conn : Conn) : Conn :=
  match conn with
  | [] => []
  | ev :: conn' =>
      let '(p, r) := XORKeyStream r (chunk ev) in
      mkEvent p (rerr ev) :: decrypt_conn r conn'
  end.

(** A sequence of writes that succeed. *)
Fixpoint encrypt_writes (w : cfb8) (ps : list bytes) : list bytes :=
  match ps with
  | [] => []
  | p :: ps' => let '(c, w) := XORKeyStream w p in c :: encrypt_writes w ps'
  end.

(** ** Lemmas *)

Lemma xor_byte_involutive a e : xor_byte (xor_byte a e) e = a.
Proof.
  unfold xor_byte. pose proof (b2z_range a) as Ha. pose proof (b2z_range e) as He.
  assert (0 <= Z.lxor (b2z a) (b2z e) < 256) as Hr.
  { split; [apply Z.lxor_nonneg; lia|]. change 256 with (2 ^ 8).
    destruct (Z.eq_dec (Z.lxor (b2z a) (b2z e)) 0) as [->|Hne]; [lia|].
    apply Z.log2_lt_pow2; [pose proof (proj2 (Z.lxor_nonneg (b2z a) (b2z e)) ltac:(lia)); lia|].
    eapply Z.le_lt_trans; [apply Z.log2_lxor; lia|].
    apply Z.max_lub_lt; (destruct (Z.eq_dec (b2z a) 0), (Z.eq_dec (b2z e) 0);
      try (replace (b2z a) with 0 by lia); try (replace (b2z e) with 0 by lia); try (simpl; lia); apply Z.log2_lt_pow2; lia). }
  rewrite b2z_z2b_small by done. rewrite Z.lxor_assoc, Z.lxor_nilpotent, Z.lxor_0_r. apply z2b_b2z.
Qed.

Lemma XORKeyStream_app c a b :
  XORKeyStream c (a ++ b)
  = let '(p, c1) := XORKeyStream c a in let '(q, c2) := XORKeyStream c1 b in (p ++ q, c2).
Proof.
  revert c. induction a as [|x a IH]; intros c; cbn [app XORKeyStream].
  - by destruct (XORKeyStream c b).
  - destruct (cfb8_step c x) as [o c0]. rewrite IH. destruct (XORKeyStream c0 a) as [p c1].
    by destruct (XORKeyStream c1 b).
Qed.

Lemma XORKeyStream_length c s : length (fst (XORKeyStream c s)) = length s.
Proof.
  revert c. induction s as [|x s IH]; intros c; cbn [XORKeyStream]; [done|].
  destruct (cfb8_step c x) as [o c0]. specialize (IH c0). destruct (XORKeyStream c0 s). cbn in *. by rewrite IH.
Qed.

Lemma XORKeyStream_take_drop c n s :
  fst (XORKeyStream c (take n s)) = take n (fst (XORKeyStream c s))
  /\ fst (XORKeyStream (snd (XORKeyStream c (take n s))) (drop n s)) = drop n (fst (XORKeyStream c s))
  /\ snd (XORKeyStream (snd (XORKeyStream c (take n s))) (drop n s)) = snd (XORKeyStream c s).
Proof.
  pose proof (XORKeyStream_app c (take n s) (drop n s)) as E. rewrite take_drop in E.
  pose proof (XORKeyStream_length c (take n s)) as Hl.
  destruct (XORKeyStream c (take n s)) as [p c1]. cbn [fst snd] in *.
  destruct (XORKeyStream c1 (drop n s)) as [q c2] eqn:Eq. rewrite E. cbn [fst snd].
  rewrite length_take in Hl.
  destruct (Nat.le_gt_cases (length s) n).
  - rewrite drop_ge in Eq by done. injection Eq as <- <-.
    rewrite app_nil_r, take_ge, drop_ge by lia. done.
  - by rewrite take_app_length', drop_app_length' by lia.
Qed.

Lemma decrypt_conn_bytes r conn : conn_bytes (decrypt_conn r conn) = fst (XORKeyStream r (conn_bytes conn)).
Proof.
  unfold conn_bytes. revert r. induction conn as [|ev conn IH]; intros r; cbn [decrypt_conn map concat]; [done|].
  rewrite XORKeyStream_app. destruct (XORKeyStream r (chunk ev)) as [p r1]. cbn [map concat chunk].
  rewrite IH. by destruct (XORKeyStream r1 _).
Qed.

Lemma decrypt_conn_clean r conn : clean conn -> clean (decrypt_conn r conn).
Proof.
  unfold clean. revert r. induction conn as [|ev conn IH]; intros r H; cbn [decrypt_conn]; [done|].
  inversion_clear H as [|? ? [Hc He] Hr]. pose proof (XORKeyStream_length r (chunk ev)) as Hl.
  destruct (XORKeyStream r (chunk ev)) as [p r1]. constructor; [|by apply IH]. cbn in *. split; [|done].
  intros ->. by destruct (chunk ev).
Qed.

Lemma encrypt_writes_concat w ps : concat (encrypt_writes w ps) = fst (XORKeyStream w (concat ps)).
Proof.
  revert w. induction ps as [|p ps IH]; intros w; cbn [encrypt_writes concat]; [done|].
  rewrite XORKeyStream_app. destruct (XORKeyStream w p) as [c w1]. cbn [concat]. rewrite IH.
  by destruct (XORKeyStream w1 (concat ps)).
Qed.

(** A reader and a writer of the same key and register stay in step. *)
Definition in_step (r w : cfb8) : Prop :=
  cfb_key r = cfb_key w /\ cfb_iv r = cfb_iv w /\ cfb_decrypt r = true /\ cfb_decrypt w = false.

Lemma in_step_decrypts r w p :
  in_step r w ->
  fst (XORKeyStream r (fst (XORKeyStream w p))) = p
  /\ in_step (snd (XORKeyStream r (fst (XORKeyStream w p)))) (snd (XORKeyStream w p)).
Proof.
  revert r w. induction p as [|x p IH]; intros r w Hs; cbn [XORKeyStream]; [done|].
  destruct (cfb8_step w x) as [o w1] eqn:Ew. destruct (XORKeyStream w1 p) as [c w2] eqn:Ec. cbn [fst snd XORKeyStream].
  destruct (cfb8_step r o) as [o' r1] eqn:Er.
  destruct Hs as (Hk & Hi & Hr & Hw). unfold cfb8_step in Ew, Er. rewrite Hw in Ew. rewrite Hr, Hk, Hi in Er.
  injection Ew as Ho Hw1. subst o. injection Er as Ho' Hr1. rewrite xor_byte_involutive in Ho'. subst o'.
  destruct (IH r1 w1) as [IH1 IH2]; [subst r1 w1; by split_and!|].
  rewrite Ec in IH1, IH2. cbn [fst snd] in IH1, IH2. destruct (XORKeyStream r1 c) as [d r2].
  cbn [fst snd] in *. by rewrite IH1.
Qed.

(** The wrapper's [Read] is a read of the decrypted connection. *)
Lemma enc_Read_eq c size conn :
  let '(p, err, c', conn') := enc_Read c size conn in
  conn_Read size (decrypt_conn (enc_reader c) conn) = (p, err, decrypt_conn (enc_reader c') conn').
Proof.
  unfold enc_Read. destruct conn as [|ev conn]; cbn [conn_Read decrypt_conn XORKeyStream]; [done|].
  pose proof (XORKeyStream_length (enc_reader c) (chunk ev)) as Hl.
  pose proof (XORKeyStream_take_drop (enc_reader c) size (chunk ev)) as (E1 & E2 & E3).
  destruct (XORKeyStream (enc_reader c) (chunk ev)) as [p r] eqn:Ep. cbn [fst snd conn_Read chunk rerr] in *. rewrite Hl.
  destruct (length (chunk ev) <=? size)%nat; [by rewrite Ep|].
  destruct (XORKeyStream (enc_reader c) (take size (chunk ev))) as [q r1]. cbn [fst snd enc_reader decrypt_conn chunk rerr] in *.
  destruct (XORKeyStream r1 (drop size (chunk ev))) as [q2 r2]. cbn [fst snd] in *. by subst.
Qed.

Lemma write_loop_prefix answers e : exists k, fst (write_loop answers e) = take k e /\ (snd (write_loop answers e) = true -> (length e <= k)%nat).
Proof.
  revert e. induction answers as [|[n err] l IH]; intros [|x e]; try (exists 0%nat; split; [done|simpl; lia]).
  - exists (length (x :: e)). cbn [write_loop fst snd]. by rewrite take_ge.
  - cbn [write_loop]. destruct err; [by exists n|].
    destruct (length (take n (x :: e)) =? 0)%nat; [by exists n|].
    destruct (IH (drop n (x :: e))) as (k & E1 & E2). destruct (write_loop l (drop n (x :: e))) as [more ok].
    cbn [fst snd] in *. exists (n + k)%nat. rewrite E1, take_take_drop. split; [done|].
    intros Hok. specialize (E2 Hok). rewrite length_drop in E2. lia.
Qed.

(** C20: the encrypted connection is transparent, in both directions and for
    every segmentation. Whatever a client encrypts under the shared secret and
    however the network cuts it, the gateway's reads, of any sizes, deliver
    exactly the client's plaintext stream; and a client that decrypts what the
    gateway's writes put on the wire reads exactly the bytes written, also
    when the connection below accepts each write in several pieces. *)
Theorem encrypted_conn_transparent (secret plain : bytes) (gateway : minecraftEncryptedConn) (conn : Conn)
    (writes : list bytes) (answers : list (nat * bool)) :
  newMinecraftEncryptedConn secret = Some gateway ->
  (conn_bytes conn = fst (XORKeyStream (newCFB8 secret secret false) plain) ->
   conn_bytes (decrypt_conn (enc_reader gateway) conn) = plain
   /\ forall size, let '(p, err, c', conn') := enc_Read gateway size conn in
        conn_Read size (decrypt_conn (enc_reader gateway) conn) = (p, err, decrypt_conn (enc_reader c') conn'))
  /\ fst (XORKeyStream (newCFB8 secret secret true) (concat (encrypt_writes (enc_writer gateway) writes))) = concat writes
  /\ (forall p, let '(out, ok, c') := enc_Write gateway answers p in
        ok = true -> out = fst (XORKeyStream (enc_writer gateway) p) /\ enc_writer c' = snd (XORKeyStream (enc_writer gateway) p)).
Proof.
  unfold newMinecraftEncryptedConn. case_decide; [|done]. intros [= <-]. cbn [enc_reader enc_writer]. split_and!.
  - intros E. split; [|intros size; apply enc_Read_eq]. rewrite decrypt_conn_bytes, E.
    by apply in_step_decrypts.
  - rewrite encrypt_writes_concat. by apply in_step_decrypts.
  - intros p. unfold enc_Write. destruct (XORKeyStream (enc_writer _) p) as [e w] eqn:Ee.
    destruct (write_loop_prefix answers e) as (k & E1 & E2). destruct (write_loop answers e) as [out ok]. cbn [fst snd] in *.
    intros ->. rewrite E1, (take_ge e k) by auto. cbn [enc_writer] in Ee |- *. by rewrite Ee.
Qed.

End Cipher.

(** A toy block function in place of AES. *)
Definition toy_aes : AES := {| aes_encrypt key b := map (fun '(x, y) => xor_byte x y) (combine key b) |}.

Definition sample_secret : bytes := map z2b [1; 2; 3; 4; 5; 6; 7; 8; 9; 10; 11; 12; 13; 14; 15; 16].

Lemma encrypted_conn_transparent_witness :
  newMinecraftEncryptedConn sample_secret
  = Some (mkEncrypted (newCFB8 sample_secret sample_secret true) (newCFB8 sample_secret sample_secret false))
  /\ fst (XORKeyStream (A := toy_aes) (newCFB8 sample_secret sample_secret true)
            (concat (encrypt_writes (A := toy_aes) (newCFB8 sample_secret sample_secret false)
                       [map z2b [7; 0; 7]; map z2b [9]])))
     = map z2b [7; 0; 7; 9].
Proof.
  assert (newMinecraftEncryptedConn sample_secret
    = Some (mkEncrypted (newCFB8 sample_secret sample_secret true) (newCFB8 sample_secret sample_secret false))) as E
    by (vm_compute; reflexivity).
  split; [exact E|].
  exact (proj1 (proj2 (encrypted_conn_transparent (A := toy_aes) sample_secret [] _ []
    [map z2b [7; 0; 7]; map z2b [9]] [] E))).
Defined.
