(* ===== verification/Link.v ===== *)
(** Connections that are read and written: what the lobby, the probe and the
    Forge relay share.

    [ST] is the state and error monad of this code: a computation returns a
    value, fails ([Bad], a Go error), panics, or (in the model only) runs out
    of fuel, and the state survives the failure. [writePacketTo] is the helper
    of [src/forge.go], and [writePacket] of the play packets is the same code. *)
From S2P Require Import Prelude VarInt Wire Packet Stream GoFloat Nbt Cipher.

(** ** The monad *)

Definition ST (S A : Type) : Type := S -> Out A * S.

#[export] Instance ST_ret {S} : MRet (ST S) := fun A a s => (Ret a, s).
#[export] Instance ST_bind {S} : MBind (ST S) := fun A B k m s =>
  match m s with
  | (Ret a, s) => k a s
  | (Bad, s) => (Bad, s)
  | (Panic, s) => (Panic, s)
  | (NoFuel, s) => (NoFuel, s)
  end.

Section ST.

Context {S : Type}.

Definition bad {A} : ST S A := fun s => (Bad, s).
Definition panic {A} : ST S A := fun s => (Panic, s).
Definition nofuel {A} : ST S A := fun s => (NoFuel, s).
Definition reading {A} (f : S -> A) : ST S A := fun s => (Ret (f s), s).
Definition changing (f : S -> S) : ST S unit := fun s => (Ret tt, f s).
Definition check (b : bool) : ST S unit := if b then mret tt else bad.
Definition of_option {A} (o : option A) : ST S A := match o with Some a => mret a | None => bad end.

(** A loop whose fuel is computed from the state it starts in. *)
Definition fueled {A} (fuel : S -> nat) (m : nat -> ST S A) : ST S A := fun s => m (fuel s) s.

(** The error of [m] is ignored; a panic is not. *)
Definition attempt {A} (m : ST S A) : ST S (option A) := fun s =>
  match m s with
  | (Ret a, s) => (Ret (Some a), s)
  | (Bad, s) => (Ret None, s)
  | (Panic, s) => (Panic, s)
  | (NoFuel, s) => (NoFuel, s)
  end.

Fixpoint each {A} (f : A -> ST S unit) (l : list A) : ST S unit :=
  match l with
  | [] => mret tt
  | a :: l' => _ ← f a; each f l'
  end.

End ST.

(** A computation on a part of a larger state. *)
Definition zoom {S T A} (get : T -> S) (set : S -> T -> T) (m : ST S A) : ST T A := fun t =>
  let '(r, s) := m (get t) in (r, set s t).

(** *** Reasoning about computations

    [spec P m Q E]: from a state in [P], [m] returns a value and a state in
    [Q], or ends without a value in a state in [E]. *)
Definition spec {S A} (P : S -> Prop) (m : ST S A) (Q : A -> S -> Prop) (E : S -> Prop) : Prop :=
  forall s, P s -> match m s with (Ret a, s') => Q a s' | (_, s') => E s' end.

Section Spec.

Context {S : Type}.
Implicit Types (P E : S -> Prop).

Lemma spec_ret {A} (a : A) P E (Q : A -> S -> Prop) : (forall s, P s -> Q a s) -> spec P (mret a) Q E.
Proof. intros H s Hs. by apply H. Qed.

Lemma spec_bind {A B} (m : ST S A) (k : A -> ST S B) P E R (Q : B -> S -> Prop) :
  spec P m R E -> (forall a, spec (R a) (k a) Q E) -> spec P (mbind k m) Q E.
Proof.
  intros Hm Hk s Hs. specialize (Hm s Hs). unfold mbind, ST_bind.
  destruct (m s) as [[a| | |] s1]; try exact Hm. apply (Hk a s1 Hm).
Qed.

Lemma spec_bad {A} P E (Q : A -> S -> Prop) : (forall s, P s -> E s) -> spec P bad Q E.
Proof. intros H s Hs. by apply H. Qed.

Lemma spec_check b P E : (forall s, P s -> E s) -> spec P (check b) (fun _ s => P s /\ b = true) E.
Proof. intros H. destruct b; [by apply spec_ret|by apply spec_bad]. Qed.

Lemma spec_of_option {A} (o : option A) P E : (forall s, P s -> E s) -> spec P (of_option o) (fun a s => P s /\ o = Some a) E.
Proof. intros H. destruct o; [by apply spec_ret|by apply spec_bad]. Qed.

Lemma spec_reading {A} (f : S -> A) P E : spec P (reading f) (fun a s => P s /\ a = f s) E.
Proof. intros s Hs. done. Qed.

Lemma spec_changing f P E : spec P (changing f) (fun _ s' => exists s, P s /\ s' = f s) E.
Proof. intros s Hs. hnf. by exists s. Qed.

Lemma spec_weaken {A} (m : ST S A) P P' (Q Q' : A -> S -> Prop) E E' :
  spec P' m Q' E' -> (forall s, P s -> P' s) -> (forall a s, Q' a s -> Q a s) -> (forall s, E' s -> E s) -> spec P m Q E.
Proof. intros Hm HP HQ HE s Hs. specialize (Hm s (HP s Hs)). destruct (m s) as [[a| | |] s1]; auto. Qed.

Lemma spec_each {A} (f : A -> ST S unit) l (I : S -> Prop) :
  (forall a, spec I (f a) (fun _ => I) I) -> spec I (each f l) (fun _ => I) I.
Proof.
  intros Hf. induction l as [|a l IH]; cbn [each]; [by apply spec_ret|].
  eapply spec_bind; [apply Hf|]. intros ?. exact IH.
Qed.

End Spec.

(** A part of the state that [m] does not touch keeps every invariant. *)
Lemma spec_zoom {S T A} (get : T -> S) (set : S -> T -> T) (m : ST S A) (I : T -> Prop) :
  (forall s t, I t -> I (set s t)) -> spec I (zoom get set m) (fun _ => I) I.
Proof. intros H t Ht. unfold zoom. destruct (m (get t)) as [[a| | |] s]; by apply H. Qed.

(** ** Links *)

(** A connection with its read buffer: what it will deliver, the bytes read
    but not consumed, the cipher of its writes once encryption is on, the bytes
    that went out, and how many more bytes it takes before every write fails
    ([None]: it never fails). *)
Record Link := mkLink {
  l_conn : Conn;
  l_buf : bytes;
  l_enc : option cfb8;
  l_out : bytes;
  l_room : option nat }.

Section Link.

Context `{A0 : AES} `{ZL : Zlib}.

(** What the cipher makes of a write. *)
Definition seal (enc : option cfb8) (b : bytes) : bytes * option cfb8 :=
  match enc with
  | None => (b, None)
  | Some w => let '(c, w) := XORKeyStream w b in (c, Some w)
  end.

Definition link_Write (b : bytes) : ST Link unit := fun l =>
  let '(b, enc) := seal (l_enc l) b in
  match l_room l with
  | None => (Ret tt, mkLink (l_conn l) (l_buf l) enc (l_out l ++ b) None)
  | Some n =>
      if (length b <=? n)%nat
      then (Ret tt, mkLink (l_conn l) (l_buf l) enc (l_out l ++ b) (Some (n - length b)%nat))
      else (Bad, mkLink (l_conn l) (l_buf l) enc (l_out l ++ take n b) (Some O))
  end.

(** [inbound = authenticatedConn]: later reads are decrypted (see
    [enc_Read_eq]) and later writes encrypted. *)
Definition encrypt_link (c : minecraftEncryptedConn) (l : Link) : Link :=
  mkLink (decrypt_conn (enc_reader c) (l_conn l)) (l_buf l) (Some (enc_writer c)) (l_out l) (l_room l).

(** ** Sides: a protocol state on a link *)

Record Side := mkSide { side_client : Client; side_link : Link }.

Definition on_client (f : Client -> Client) (s : Side) : Side := mkSide (f (side_client s)) (side_link s).

Definition side_Write (b : bytes) : ST Side unit :=
  zoom side_link (fun l s => mkSide (side_client s) l) (link_Write b).

(** [ReadPacket] on the side's buffer and connection. *)
Definition side_ReadPacket (s : Side) : ReadResult * Side :=
  let l := side_link s in
  let '(r, buf, conn) := ReadPacket (side_client s) (l_buf l) (l_conn l) in
  (r, mkSide (side_client s) (mkLink conn buf (l_enc l) (l_out l) (l_room l))).

(** The packet with its raw bytes, [None] for a closed connection. *)
Definition side_read : ST Side (option (RawPacket * bytes)) := fun s =>
  let '(r, s) := side_ReadPacket s in
  match r with
  | GotPacket p raw => (Ret (Some (p, raw)), s)
  | Closed => (Ret None, s)
  | Failed _ => (Bad, s)
  | Diverges => (NoFuel, s)
  end.

(** [writePacketTo] *)
Definition writePacketTo (packet : RawPacket) : ST Side unit := fun s =>
  match EncodeWithLen packet (side_client s) with
  | None => (Bad, s)
  | Some encoded => side_Write encoded s
  end.

(** ** Lemmas *)

Lemma ST_bind_Ret {S A B} (m : ST S A) (k : A -> ST S B) s b s' :
  mbind k m s = (Ret b, s') -> exists a s1, m s = (Ret a, s1) /\ k a s1 = (Ret b, s').
Proof. unfold mbind, ST_bind. destruct (m s) as [[a| | |] s1]; try done. eauto. Qed.

(** Every byte a side still has to consume. *)
Definition side_stream (s : Side) : bytes := l_buf (side_link s) ++ conn_bytes (l_conn (side_link s)).

Definition side_out (s : Side) : bytes := l_out (side_link s).

(** Computations that only write. *)
Definition only_writes {A} (m : ST Side A) : Prop :=
  forall s, let s' := snd (m s) in
  l_conn (side_link s') = l_conn (side_link s) /\ l_buf (side_link s') = l_buf (side_link s)
  /\ side_client s' = side_client s /\ exists more, side_out s' = side_out s ++ more.

Lemma only_writes_ret {A} (a : A) : only_writes (mret a).
Proof. intros s. split_and!; try done. exists []. by rewrite app_nil_r. Qed.

Lemma only_writes_bad {A} : only_writes (@bad Side A).
Proof. intros s. split_and!; try done. exists []. by rewrite app_nil_r. Qed.

Lemma only_writes_bind {A B} (m : ST Side A) (k : A -> ST Side B) :
  only_writes m -> (forall a, only_writes (k a)) -> only_writes (mbind k m).
Proof.
  intros Hm Hk s. specialize (Hm s). unfold mbind, ST_bind.
  destruct (m s) as [[a| | |] s1]; cbn [snd] in *; try exact Hm.
  specialize (Hk a s1). destruct (k a s1) as [r s2]. cbn [snd] in *.
  destruct Hm as (A1 & A2 & A3 & m1 & E1), Hk as (B1 & B2 & B3 & m2 & E2). split_and!; [congruence..|].
  exists (m1 ++ m2). by rewrite E2, E1, app_assoc.
Qed.

Lemma only_writes_write b : only_writes (side_Write b).
Proof.
  intros s. unfold side_Write, zoom, link_Write, side_out. destruct (seal _ b) as [c enc].
  destruct (l_room (side_link s)) as [n|]; [destruct (_ <=? n)%nat|]; cbn; split_and!; eauto.
Qed.

Lemma only_writes_packet p : only_writes (writePacketTo p).
Proof.
  intros s. unfold writePacketTo. destruct (EncodeWithLen p (side_client s)); [apply only_writes_write|apply only_writes_bad].
Qed.

Lemma only_writes_each {B} (f : B -> ST Side unit) l : (forall b, only_writes (f b)) -> only_writes (each f l).
Proof.
  intros Hf. induction l as [|b l IH]; cbn [each]; [apply only_writes_ret|]. apply only_writes_bind; auto.
Qed.

Lemma side_ReadPacket_conserves s r s' :
  side_ReadPacket s = (r, s') ->
  r <> Diverges /\ side_client s' = side_client s /\ side_out s' = side_out s
  /\ l_enc (side_link s') = l_enc (side_link s) /\ l_room (side_link s') = l_room (side_link s)
  /\ result_raw r ++ side_stream s' = side_stream s
  /\ match r with GotPacket _ raw => raw <> [] | _ => True end.
Proof.
  unfold side_ReadPacket, side_stream, side_out. destruct (ReadPacket _ _ _) as [[rr buf] conn] eqn:E.
  intros [= <- <-]. cbn. split_and!; try done.
  - by eapply ReadPacket_returns.
  - by eapply ReadPacket_conserves.
  - destruct rr; try done. by apply ReadPacket_progress in E.
Qed.

Lemma side_read_conserves s r s' :
  side_read s = (r, s') ->
  side_client s' = side_client s /\ side_out s' = side_out s
  /\ l_enc (side_link s') = l_enc (side_link s) /\ l_room (side_link s') = l_room (side_link s)
  /\ match r with
     | Ret (Some (_, raw)) => raw ++ side_stream s' = side_stream s /\ raw <> []
     | _ => side_stream s' = side_stream s
     end.
Proof.
  unfold side_read. destruct (side_ReadPacket s) as [rr s1] eqn:E.
  apply side_ReadPacket_conserves in E as (_ & H1 & H2 & H3 & H4 & H5 & H6).
  destruct rr as [p raw| | |]; intros [= <- <-]; split_and!; try done.
Qed.

(** A packet that was read is one whole frame. *)
Lemma side_read_whole s p raw s' : side_read s = (Ret (Some (p, raw)), s') -> whole_frame (side_client s) p raw.
Proof.
  unfold side_read, side_ReadPacket. destruct (ReadPacket _ _ _) as [[r buf] conn] eqn:E.
  destruct r; intros [= <- <- _]. by eapply ReadPacket_whole.
Qed.

Lemma side_read_returns s : fst (side_read s) <> NoFuel /\ fst (side_read s) <> Panic.
Proof.
  unfold side_read. destruct (side_ReadPacket s) as [rr s1] eqn:E. apply side_ReadPacket_conserves in E as (H & _).
  by destruct rr.
Qed.

Lemma writePacketTo_returns p s : fst (writePacketTo p s) = Ret tt \/ fst (writePacketTo p s) = Bad.
Proof.
  unfold writePacketTo, side_Write, zoom, link_Write. destruct (EncodeWithLen p (side_client s)) as [e|]; [|by right].
  destruct (seal _ e) as [c enc]. destruct (l_room (side_link s)) as [n|]; [destruct (_ <=? n)%nat|]; auto.
Qed.

(** What a write puts on a link without encryption. *)
Lemma side_Write_plain b s r s' : l_enc (side_link s) = None -> side_Write b s = (r, s') ->
  l_enc (side_link s') = None /\ exists more, side_out s' = side_out s ++ more /\ more `prefix_of` b /\ (r = Ret tt -> more = b).
Proof.
  intros He. unfold side_Write, zoom, link_Write, seal, side_out. rewrite He.
  destruct (l_room (side_link s)) as [n|]; [destruct (_ <=? n)%nat|]; intros [= <- <-]; cbn; (split; [done|]); eexists;
    (split; [reflexivity|]); (split; [|done]); [done|apply prefix_take|done].
Qed.

Lemma writePacketTo_plain p s r s' : l_enc (side_link s) = None -> writePacketTo p s = (r, s') ->
  l_enc (side_link s') = None /\ exists more, side_out s' = side_out s ++ more
  /\ (more = [] \/ exists e, EncodeWithLen p (side_client s) = Some e /\ more `prefix_of` e)
  /\ (r = Ret tt -> EncodeWithLen p (side_client s) = Some more).
Proof.
  intros He. unfold writePacketTo. destruct (EncodeWithLen p (side_client s)) as [e|].
  - intros E. destruct (side_Write_plain e s r s' He E) as (H1 & more & H2 & H3 & H4). split; [done|]. exists more.
    split; [done|]. split; [right; eauto|]. intros Hr. by rewrite (H4 Hr).
  - intros [= <- <-]. split; [done|]. exists []. rewrite app_nil_r. split_and!; [done|by left|done].
Qed.

(** The part of [only_writes] as an equation for one run. *)
Lemma only_writes_run {A} (m : ST Side A) s r s' : only_writes m -> m s = (r, s') ->
  l_conn (side_link s') = l_conn (side_link s) /\ l_buf (side_link s') = l_buf (side_link s)
  /\ side_client s' = side_client s /\ exists more, side_out s' = side_out s ++ more.
Proof. intros Hm E. specialize (Hm s). by rewrite E in Hm. Qed.

End Link.

#[export] Hint Resolve only_writes_ret only_writes_bad only_writes_write only_writes_packet only_writes_each : link.
#[export] Hint Resolve only_writes_bind : link.

(** ** Computations that leave a side's input alone

    [grows s s']: nothing was read from the side and its output was extended,
    on a link without encryption. [tame get Q m]: [m] keeps [Q], returns or
    fails, and only lets the side [get] of its state grow. *)
Definition grows (s s' : Side) : Prop :=
  l_conn (side_link s') = l_conn (side_link s) /\ l_buf (side_link s') = l_buf (side_link s)
  /\ l_enc (side_link s') = None /\ exists more, side_out s' = side_out s ++ more.

Definition tame {S A} (get : S -> Side) (Q : S -> Prop) (m : ST S A) : Prop :=
  forall s r s', Q s -> l_enc (side_link (get s)) = None -> m s = (r, s') ->
  Q s' /\ grows (get s) (get s') /\ r <> NoFuel /\ r <> Panic.

(** Computations that return or fail. *)
Definition calm {S A} (m : ST S A) : Prop := forall s, fst (m s) <> NoFuel /\ fst (m s) <> Panic.

Lemma grows_refl s : l_enc (side_link s) = None -> grows s s.
Proof. intros H. split_and!; try done. exists []. by rewrite app_nil_r. Qed.

Lemma grows_trans s1 s2 s3 : grows s1 s2 -> grows s2 s3 -> grows s1 s3.
Proof.
  intros (A1 & A2 & _ & m1 & A4) (B1 & B2 & B3 & m2 & B4). split_and!; [congruence..|].
  exists (m1 ++ m2). by rewrite B4, A4, app_assoc.
Qed.

Lemma grows_stream s s' : grows s s' -> side_stream s' = side_stream s.
Proof. intros (A1 & A2 & _). unfold side_stream. by rewrite A1, A2. Qed.

Section Tame.

Context {S : Type} (get : S -> Side) (Q : S -> Prop).

Lemma tame_ret {A} (a : A) : tame get Q (mret a).
Proof. intros s r s' Hq He [= <- <-]. split_and!; try done. by apply grows_refl. Qed.

Lemma tame_bad {A} : tame get Q (@bad S A).
Proof. intros s r s' Hq He [= <- <-]. split_and!; try done. by apply grows_refl. Qed.

Lemma tame_check b : tame get Q (check b).
Proof. destruct b; [apply tame_ret|apply tame_bad]. Qed.

Lemma tame_of_option {A} (o : option A) : tame get Q (of_option o).
Proof. destruct o; [apply tame_ret|apply tame_bad]. Qed.

Lemma tame_reading {A} (f : S -> A) : tame get Q (reading f).
Proof. intros s r s' Hq He [= <- <-]. split_and!; try done. by apply grows_refl. Qed.

Lemma tame_changing f : (forall s, Q s -> Q (f s)) -> (forall s, side_link (get (f s)) = side_link (get s)) -> tame get Q (changing f).
Proof.
  intros Hf Hl s r s' Hq He [= <- <-]. split_and!; try done; [by apply Hf|]. unfold grows, side_out. rewrite Hl. by apply grows_refl.
Qed.

Lemma tame_bind {A B} (m : ST S A) (k : A -> ST S B) : tame get Q m -> (forall a, tame get Q (k a)) -> tame get Q (mbind k m).
Proof.
  intros Hm Hk s r s' Hq He. unfold mbind, ST_bind. destruct (m s) as [[a| | |] s1] eqn:E.
  - destruct (Hm _ _ _ Hq He E) as (Hq1 & Hg & _). intros E2. pose proof Hg as (_ & _ & He1 & _).
    destruct (Hk a _ _ _ Hq1 He1 E2) as (Hq2 & Hg2 & H). split_and!; try done; [by eapply grows_trans|apply H|apply H].
  - intros [= <- <-]. by destruct (Hm _ _ _ Hq He E) as (? & ? & _).
  - destruct (Hm _ _ _ Hq He E) as (_ & _ & _ & ?). done.
  - destruct (Hm _ _ _ Hq He E) as (_ & _ & ? & _). done.
Qed.

Lemma tame_each {A} (f : A -> ST S unit) l : (forall a, tame get Q (f a)) -> tame get Q (each f l).
Proof. intros Hf. induction l as [|a l IH]; cbn [each]; [apply tame_ret|]. by apply tame_bind. Qed.

(** A computation on the side itself. *)
Lemma tame_zoom {A} set (m : ST Side A) :
  (forall s x, get (set s x) = s) -> (forall s x, Q x -> Q (set s x)) -> tame id (fun _ => True) m -> tame get Q (zoom get set m).
Proof.
  intros Hg Hs Hm s r s' Hq He. unfold zoom. destruct (m (get s)) as [a t] eqn:E. intros [= <- <-].
  destruct (Hm _ _ _ I He E) as (_ & H2 & H3 & H4). rewrite Hg. split_and!; try done. by apply Hs.
Qed.

(** A computation on another part of the state. *)
Lemma tame_elsewhere {T A} (get' : S -> T) set (m : ST T A) :
  (forall s x, get (set s x) = get x) -> (forall s x, Q x -> Q (set s x)) -> calm m -> tame get Q (zoom get' set m).
Proof.
  intros Hg Hs Hm s r s' Hq He. unfold zoom. pose proof (Hm (get' s)) as Hr. destruct (m (get' s)) as [a t]. intros [= <- <-].
  rewrite Hg. split_and!; try apply Hr; [by apply Hs|by apply grows_refl].
Qed.

End Tame.

Lemma calm_bind {S A B} (m : ST S A) (k : A -> ST S B) : calm m -> (forall a, calm (k a)) -> calm (mbind k m).
Proof.
  intros Hm Hk s. specialize (Hm s). unfold mbind, ST_bind. destruct (m s) as [[a| | |] s1]; [apply Hk|done|by destruct Hm..].
Qed.

Lemma calm_ret {S A} (a : A) : calm (S := S) (mret a).
Proof. done. Qed.
Lemma calm_bad {S A} : calm (@bad S A).
Proof. done. Qed.
Lemma calm_check {S} b : calm (S := S) (check b).
Proof. by destruct b. Qed.
Lemma calm_of_option {S A} (o : option A) : calm (S := S) (of_option o).
Proof. by destruct o. Qed.
Lemma calm_reading {S A} (f : S -> A) : calm (reading f).
Proof. done. Qed.
Lemma calm_changing {S} (f : S -> S) : calm (changing f).
Proof. done. Qed.
Lemma calm_side_read `{ZL : Zlib} : calm side_read.
Proof. intros s. apply side_read_returns. Qed.
Lemma calm_writePacketTo `{A0 : AES} `{ZL : Zlib} p : calm (writePacketTo p).
Proof. intros s. by destruct (writePacketTo_returns p s) as [-> | ->]. Qed.

Lemma tame_side_Write `{A0 : AES} b : tame id (fun _ => True) (side_Write b).
Proof.
  intros s r s' _ He E. destruct (side_Write_plain b s r s' He E) as (He' & more & Ho & _).
  destruct (only_writes_run _ _ _ _ (only_writes_write b) E) as (H1 & H2 & _). split; [done|]. split; [by split_and!; eauto|].
  revert E. unfold side_Write, zoom, link_Write. destruct (seal _ b). destruct (l_room _); [destruct (_ <=? _)%nat|]; by intros [= <- _].
Qed.

Lemma tame_writePacketTo `{A0 : AES} `{ZL : Zlib} p : tame id (fun _ => True) (writePacketTo p).
Proof.
  intros s r s' Hq He. unfold writePacketTo. destruct (EncodeWithLen p (side_client s)) as [e|].
  - by apply (tame_side_Write e).
  - intros [= <- <-]. split_and!; try done. by apply grows_refl.
Qed.

(** Computations that do not run out of fuel. *)
Definition ends {S A} (m : ST S A) : Prop := forall s, fst (m s) <> NoFuel.

Lemma calm_ends {S A} (m : ST S A) : calm m -> ends m.
Proof. intros H s. apply H. Qed.

Lemma ends_bind {S A B} (m : ST S A) (k : A -> ST S B) : ends m -> (forall a, ends (k a)) -> ends (mbind k m).
Proof.
  intros Hm Hk s. specialize (Hm s). unfold mbind, ST_bind. destruct (m s) as [[a| | |] s1]; [apply Hk|done..].
Qed.

Lemma ends_ret {S A} (a : A) : ends (S := S) (mret a).
Proof. done. Qed.

(** Computations that leave the protocol state of the side [get] alone. *)
Definition stays {S A} (get : S -> Side) (m : ST S A) : Prop := forall s, side_client (get (snd (m s))) = side_client (get s).

Section Stays.

Context {S : Type} (get : S -> Side).

Lemma stays_quiet {A} (m : ST S A) : (forall s, snd (m s) = s) -> stays get m.
Proof. intros H s. by rewrite H. Qed.

Lemma stays_check b : stays get (check b).
Proof. apply stays_quiet. by destruct b. Qed.

Lemma stays_of_option {A} (o : option A) : stays get (of_option o).
Proof. apply stays_quiet. by destruct o. Qed.

Lemma stays_ret {A} (a : A) : stays get (mret a).
Proof. done. Qed.

Lemma stays_bad {A} : stays get (@bad S A).
Proof. done. Qed.

Lemma stays_reading {A} (f : S -> A) : stays get (reading f).
Proof. done. Qed.

Lemma stays_bind {A B} (m : ST S A) (k : A -> ST S B) : stays get m -> (forall a, stays get (k a)) -> stays get (mbind k m).
Proof.
  intros Hm Hk s. specialize (Hm s). unfold mbind, ST_bind. destruct (m s) as [[a| | |] s1]; cbn [snd] in *; try done.
  by rewrite (Hk a s1).
Qed.

Lemma stays_zoom {A} set (m : ST Side A) : (forall s x, get (set s x) = s) -> only_writes m -> stays get (zoom get set m).
Proof.
  intros Hg Hm s. unfold zoom. specialize (Hm (get s)). destruct (m (get s)) as [a t]. cbn [snd] in *. rewrite Hg. apply Hm.
Qed.

Lemma stays_elsewhere {T A} (get' : S -> T) set (m : ST T A) : (forall s x, get (set s x) = get x) -> stays get (zoom get' set m).
Proof. intros Hg s. unfold zoom. destruct (m (get' s)) as [a t]. cbn [snd]. by rewrite Hg. Qed.

End Stays.

Create HintDb stays.
#[export] Hint Resolve stays_check stays_of_option stays_ret stays_bad stays_reading : stays.
#[export] Hint Resolve only_writes_ret only_writes_bad only_writes_write only_writes_packet : stays.

Create HintDb tame.
#[export] Hint Resolve tame_ret tame_bad tame_check tame_of_option tame_reading tame_bind tame_each tame_side_Write tame_writePacketTo : tame.
#[export] Hint Resolve calm_bind calm_ret calm_bad calm_check calm_of_option calm_reading calm_changing calm_side_read calm_writePacketTo : tame.
