(* ===== verification/Profile.v ===== *)
(** Player identities: UUIDs ([src/mc/uuid.go], [hyphenatedUUID] of
    [src/lobby.go]) and the session lookup of online mode
    ([src/online_auth.go]).

    MD5 and SHA-1 are the parameters of the classes [MD5] and [SHA1], with the
    length of their digests as law; the case folding of the code points
    outside ASCII is the parameter of [UnicodeFold]. *)
From S2P Require Import Prelude VarInt Wire Packet Packets Json Net Config.

Class MD5 := { md5 : bytes -> bytes; md5_length d : length (md5 d) = 16%nat }.
Class SHA1 := { sha1 : bytes -> bytes; sha1_length d : length (sha1 d) = 20%nat }.

(** The representative of a code point's folding orbit; the orbits of the
    ASCII letters are written out in [fold_rune]. *)
Class UnicodeFold := { unicode_fold : Z -> Z; unicode_fold_high r : 128 <= unicode_fold r }.

(** ** src/mc/uuid.go *)

Definition offlinePlayerNamespace : bytes := str "OfflinePlayer:".

(** [sum[i] &= and; sum[i] |= or] *)
Definition mask_byte (band bor : Z) (b : byte) : byte := z2b (Z.lor (Z.land (b2z b) band) bor).

Definition javaNameUUIDFromBytes `{MD5} (data : bytes) : bytes :=
  let sum := md5 data in
  let sum := alter (mask_byte 0x0f 0x30) 6%nat sum in
  alter (mask_byte 0x3f 0x80) 8%nat sum.

Definition OfflinePlayerUUID `{MD5} (username : bytes) : bytes :=
  javaNameUUIDFromBytes (offlinePlayerNamespace ++ username).

Definition UuidVersion (u : bytes) : Z := Z.shiftr (b2z (default x00 (u !! 6%nat))) 4.
Definition UUIDVersionMd5 : Z := 3.

(** ** hyphenatedUUID *)

Definition hexDigits : bytes := str "0123456789abcdef".
Definition hexDigit (d : Z) : byte := default x00 (hexDigits !! Z.to_nat d).
Definition hex_of_byte (b : byte) : bytes := [hexDigit (Z.shiftr (b2z b) 4); hexDigit (Z.land (b2z b) 0x0F)].

Fixpoint hyphenate (i : nat) (u : bytes) : bytes :=
  match u with
  | [] => []
  | b :: u' => (if bool_decide (i ∈ [4; 6; 8; 10]%nat) then [x2d] else []) ++ hex_of_byte b ++ hyphenate (S i) u'
  end.

Definition hyphenatedUUID (u : bytes) : bytes := hyphenate 0 u.

(** ** parseProfileUUID *)

(** [hex.DecodeString] *)
Fixpoint hex_DecodeString (s : bytes) : option bytes :=
  match s with
  | [] => Some []
  | [_] => None
  | a :: b :: s' =>
      h ← hex_digit a; l ← hex_digit b;
      d ← hex_DecodeString s';
      Some (z2b (h * 16 + l) :: d)
  end.

Definition parseProfileUUID (raw : bytes) : option bytes :=
  let raw := filter (fun c => c <> x2d) raw in
  if negb (length raw =? 32)%nat then None else hex_DecodeString raw.

(** ** minecraftServerHash *)

(** [big.Int.Text(16)]: the digits of the absolute value after the sign. *)
Fixpoint text16_loop (fuel : nat) (n : Z) (buf : bytes) : bytes :=
  match fuel with
  | O => buf
  | S fuel' => if n =? 0 then buf else text16_loop fuel' (n / 16) (hexDigit (n mod 16) :: buf)
  end.

Definition Text16 (n : Z) : bytes :=
  let digits := if n =? 0 then [x30] else text16_loop (Z.to_nat (Z.log2 (Z.abs n)) + 1) (Z.abs n) [] in
  if n <? 0 then x2d :: digits else digits.

Definition minecraftServerHash `{SHA1} (serverID secret publicKey : bytes) : bytes :=
  let digest := sha1 (serverID ++ secret ++ publicKey) in
  let n := be_val digest in
  let n := if negb (Z.land (b2z (default x00 (head digest))) 0x80 =? 0)
           then n - Z.shiftl 1 (Zlen digest * 8) else n in
  Text16 n.

(** ** readLoginByteArray *)

Definition readLoginByteArray (data : bytes) (max : Z) : option (bytes * bytes) :=
  match ReadVarInt data with
  | None => None
  | Some (n, len) =>
      if (len <? 0) || (max <? len) || (Zlen data <? Z.of_nat n + len) then None
      else Some (take (Z.to_nat len) (drop n data), drop (n + Z.to_nat len) data)
  end.

(** ** strings.EqualFold *)

Definition rune_of (n : nat) (s : bytes) : Z :=
  match n, map b2z s with
  | 1%nat, a :: _ => a
  | 2%nat, a :: b :: _ => (a - 0xc0) * 64 + (b - 0x80)
  | 3%nat, a :: b :: c :: _ => ((a - 0xe0) * 64 + (b - 0x80)) * 64 + (c - 0x80)
  | 4%nat, a :: b :: c :: d :: _ => (((a - 0xf0) * 64 + (b - 0x80)) * 64 + (c - 0x80)) * 64 + (d - 0x80)
  | _, _ => 0xfffd
  end.

(** The code points of a string; a byte that starts no code point counts as
    U+FFFD. *)
Fixpoint runes_fuel (fuel : nat) (s : bytes) : list Z :=
  match fuel, s with
  | S fuel', _ :: s' =>
      match utf8_len s with
      | Some n => rune_of n s :: runes_fuel fuel' (drop n s)
      | None => 0xfffd :: runes_fuel fuel' s'
      end
  | _, _ => []
  end.
Definition runes (s : bytes) : list Z := runes_fuel (length s) s.

Section Lookup.

Context `{UF : UnicodeFold}.

(** Upper-case ASCII folds to lower case, the Kelvin sign to k and the long s
    to s. *)
Definition fold_rune (r : Z) : Z :=
  if (0x41 <=? r) && (r <=? 0x5a) then r + 0x20
  else if r <? 128 then r
  else if r =? 0x212a then 0x6b
  else if r =? 0x17f then 0x73
  else unicode_fold r.

Definition EqualFold (s t : bytes) : bool := bool_decide (map fold_rune (runes s) = map fold_rune (runes t)).

(** ** lookupJoinedProfile *)

Definition maxSessionResponseSize : nat := Z.to_nat (2 ^ 20).

Record joinedProfileResponse := mkJoined { jp_ID : bytes; jp_Name : bytes; jp_Properties : Slice ProfileProperty }.

Definition zero_property : ProfileProperty := mkProfileProperty [] [] None.

Definition property_fields : Fields ProfileProperty :=
  [ (str "name", into Prop_Name (fun v p => mkProfileProperty v (Prop_Value p) (Prop_Signature p)) dec_string);
    (str "value", into Prop_Value (fun v p => mkProfileProperty (Prop_Name p) v (Prop_Signature p)) dec_string);
    (str "signature", into Prop_Signature (fun v p => mkProfileProperty (Prop_Name p) (Prop_Value p) v) dec_string_ptr) ].

Definition joined_fields : Fields joinedProfileResponse :=
  [ (str "id", into jp_ID (fun v r => mkJoined v (jp_Name r) (jp_Properties r)) dec_string);
    (str "name", into jp_Name (fun v r => mkJoined (jp_ID r) v (jp_Properties r)) dec_string);
    (str "properties", into jp_Properties (fun v r => mkJoined (jp_ID r) (jp_Name r) v)
                         (dec_slice zero_property (dec_struct property_fields))) ].

(** The answer of the session service: its status, its body, and whether
    reading failed after that body. *)
Record Response := mkResponse { StatusCode : Z; Body : bytes; BodyErr : bool }.

(** The two [Decode] calls on the limited body: a profile, then the end. *)
Definition decode_joined (resp : Response) : option joinedProfileResponse :=
  if BodyErr resp && (length (Body resp) <? maxSessionResponseSize)%nat then None
  else Unmarshal (mkJoined [] [] nil_slice) (dec_struct joined_fields) (take maxSessionResponseSize (Body resp)).

Definition property_ok (p : ProfileProperty) : bool :=
  negb (bool_decide (Prop_Name p = []) || (64 <? Zlen (Prop_Name p))
        || bool_decide (Prop_Value p = []) || (32767 <? Zlen (Prop_Value p))
        || match Prop_Signature p with Some s => 8192 <? Zlen s | None => false end).

(** A parsed URL, as far as the code looks at it. *)
Record URL := mkURL { Scheme : bytes; Hostname : bytes }.

Definition endpoint_allowed (endpoint : URL) : bool :=
  if decide (Scheme endpoint = str "https") then true
  else
    let host := Hostname endpoint in
    let ip := ParseIP host in
    bool_decide (host = str "localhost") || (negb (bool_decide (ip = [])) && IsLoopback ip).

(** [endpoint] is the result of [url.Parse]; [session username serverId] is
    what the service answers to the query, [None] a failed request. *)
Definition lookupJoinedProfile (endpoint : option URL) (session : bytes -> bytes -> option Response)
    (username serverHash : bytes) : option GameProfile :=
  endpoint ← endpoint;
  if negb (endpoint_allowed endpoint) then None
  else
    resp ← session username serverHash;
    if negb (StatusCode resp =? 200) then None
    else
      wire ← decode_joined resp;
      if negb (EqualFold (jp_Name wire) username) then None
      else
        id ← parseProfileUUID (jp_ID wire);
        let properties := slice_list (jp_Properties wire) in
        if bool_decide (jp_Name wire = []) || (16 <? Zlen (jp_Name wire)) || (64 <? Zlen properties) then None
        else if forallb property_ok properties then Some (mkGameProfile id (jp_Name wire) properties)
        else None.

End Lookup.

(** ** Lemmas *)

Lemma hex_digit_hexDigit d : 0 <= d < 16 -> hex_digit (hexDigit d) = Some d /\ hexDigit d <> x2d.
Proof.
  intros Hd.
  assert (Forall (fun d => hex_digit (hexDigit d) = Some d /\ hexDigit d <> x2d) (seqZ 0 16)) as H
    by (vm_compute; repeat constructor; discriminate).
  rewrite Forall_forall in H. apply H, elem_of_seqZ. lia.
Qed.

Lemma nibbles b : 0 <= Z.shiftr (b2z b) 4 < 16 /\ 0 <= Z.land (b2z b) 0x0F < 16
  /\ z2b (Z.shiftr (b2z b) 4 * 16 + Z.land (b2z b) 0x0F) = b.
Proof.
  pose proof (b2z_range b). rewrite Z.shiftr_div_pow2 by lia. change 0x0F with (Z.ones 4).
  rewrite Z.land_ones by lia. change (2 ^ 4) with 16.
  split_and!; try (Z.to_euclidean_division_equations; lia).
  transitivity (z2b (b2z b)); [|apply z2b_b2z]. f_equal. Z.to_euclidean_division_equations; lia.
Qed.

Lemma filter_hyphenate i u : filter (fun c => c <> x2d) (hyphenate i u) = flat_map hex_of_byte u.
Proof.
  revert i. induction u as [|b u IH]; intros i; cbn [hyphenate flat_map]; [done|].
  rewrite filter_app. cbn [app].
  destruct (nibbles b) as (H1 & H2 & _).
  transitivity ([] ++ filter (fun c => c <> x2d) (hex_of_byte b ++ hyphenate (S i) u)).
  - f_equal. by case_bool_decide.
  - rewrite app_nil_l, filter_app, IH. f_equal. unfold hex_of_byte.
    by rewrite !filter_cons_True by (apply hex_digit_hexDigit; done).
Qed.

Lemma hex_DecodeString_encoded u : hex_DecodeString (flat_map hex_of_byte u) = Some u.
Proof.
  induction u as [|b u IH]; [done|]. destruct (nibbles b) as (H1 & H2 & E).
  cbn [flat_map hex_of_byte app hex_DecodeString].
  rewrite (proj1 (hex_digit_hexDigit _ H1)), (proj1 (hex_digit_hexDigit _ H2)). cbn [mbind option_bind].
  rewrite IH. cbn [mbind option_bind]. by rewrite E.
Qed.

Lemma flat_map_hex_length u : length (flat_map hex_of_byte u) = (2 * length u)%nat.
Proof. induction u; simpl; lia. Qed.

Lemma hex_DecodeString_length s d : hex_DecodeString s = Some d -> length s = (2 * length d)%nat.
Proof.
  revert d. induction s as [s IH] using (induction_ltof1 _ (@length byte)). unfold ltof in IH.
  destruct s as [|a [|b s]]; intros d E; [by injection E as <-|done|].
  cbn [hex_DecodeString] in E. apply bind_Some in E as (h & _ & E). apply bind_Some in E as (l & _ & E).
  apply bind_Some in E as (d' & Ed & [= <-]). specialize (IH s ltac:(simpl; lia) d' Ed). simpl. lia.
Qed.

Lemma lookup_alter_byte (f : byte -> byte) (i : nat) (l : bytes) b :
  l !! i = Some b -> alter f i l !! i = Some (f b).
Proof. intros E. by rewrite list_lookup_alter_eq, E. Qed.

Lemma version_byte b :
  Z.shiftr (b2z (mask_byte 0x0f 0x30 b)) 4 = 3 /\ Z.land (b2z (mask_byte 0x0f 0x30 b)) 0x0f = Z.land (b2z b) 0x0f.
Proof. by destruct b. Qed.

Lemma variant_byte b :
  Z.shiftr (b2z (mask_byte 0x3f 0x80 b)) 6 = 2 /\ Z.land (b2z (mask_byte 0x3f 0x80 b)) 0x3f = Z.land (b2z b) 0x3f.
Proof. by destruct b. Qed.

(** The identities of offline players are well formed and survive their
    text form. The UUID derived from a name has 16 bytes, version 3 and the
    IETF variant, and agrees with the MD5 digest on every other byte; and for
    every UUID, the hyphenated text the gateway sends has 36 characters and
    reads back as the same UUID, as does the plain hexadecimal form of the
    session service. *)
Lemma uuid_wellformed_roundtrip `{MD5} (name u : bytes) :
  length u = 16%nat ->
  let id := OfflinePlayerUUID name in
  (length id = 16%nat /\ UuidVersion id = UUIDVersionMd5 /\ Z.shiftr (b2z (default x00 (id !! 8%nat))) 6 = 2
   /\ forall i, i <> 6%nat -> i <> 8%nat -> id !! i = md5 (offlinePlayerNamespace ++ name) !! i)
  /\ length (hyphenatedUUID u) = 36%nat
  /\ parseProfileUUID (hyphenatedUUID u) = Some u
  /\ parseProfileUUID (flat_map hex_of_byte u) = Some u.
Proof.
  intros Hu id. split_and!.
  - unfold id, OfflinePlayerUUID, javaNameUUIDFromBytes. by rewrite !length_alter, md5_length.
  - unfold id, OfflinePlayerUUID, javaNameUUIDFromBytes, UuidVersion.
    destruct (lookup_lt_is_Some_2 (md5 (offlinePlayerNamespace ++ name)) 6) as [b Eb]; [rewrite md5_length; lia|].
    rewrite list_lookup_alter_ne, (lookup_alter_byte _ _ _ b Eb) by lia. apply version_byte.
  - unfold id, OfflinePlayerUUID, javaNameUUIDFromBytes.
    destruct (lookup_lt_is_Some_2 (md5 (offlinePlayerNamespace ++ name)) 8) as [b Eb]; [rewrite md5_length; lia|].
    rewrite (lookup_alter_byte _ _ _ b) by by rewrite list_lookup_alter_ne by lia. apply variant_byte.
  - intros i H6 H8. unfold id, OfflinePlayerUUID, javaNameUUIDFromBytes. by rewrite !list_lookup_alter_ne by lia.
  - unfold hyphenatedUUID. do 16 (destruct u as [|? u]; [done|]). destruct u; [done|simpl in Hu; lia].
  - unfold parseProfileUUID, hyphenatedUUID. rewrite filter_hyphenate, flat_map_hex_length, Hu.
    apply hex_DecodeString_encoded.
  - unfold parseProfileUUID.
    rewrite <- (filter_hyphenate 20 u). rewrite list_filter_filter_l by done.
    rewrite filter_hyphenate, flat_map_hex_length, Hu. apply hex_DecodeString_encoded.
Qed.

(** ** The session hash *)

(** The reference reading of a signed hexadecimal text. *)
Definition hex_value (s : bytes) : option Z :=
  fold_left (fun acc c => a ← acc; d ← hex_digit c; Some (a * 16 + d)) s (Some 0).

Definition signed_hex_value (s : bytes) : option Z :=
  match s with
  | x2d :: s' => Z.opp <$> hex_value s'
  | _ => hex_value s
  end.

Lemma hex_value_acc s a : fold_left (fun acc c => a ← acc; d ← hex_digit c; Some (a * 16 + d)) s (Some a)
  = (fun v => a * 16 ^ Zlen s + v) <$> hex_value s.
Proof.
  unfold hex_value. revert a. induction s as [|c s IH] using rev_ind; intros a.
  - cbn. f_equal. unfold Zlen. simpl. lia.
  - rewrite !fold_left_app. cbn [fold_left]. rewrite IH.
    destruct (fold_left _ s (Some 0)) as [v|]; cbn; [|done].
    destruct (hex_digit c) as [d|]; cbn; [|done]. f_equal. unfold Zlen. rewrite length_app. cbn [length].
    rewrite Nat2Z.inj_add, Z.pow_add_r by lia. lia.
Qed.

Lemma hex_value_cons c s d : hex_digit c = Some d -> hex_value (c :: s) = (fun v => d * 16 ^ Zlen s + v) <$> hex_value s.
Proof.
  intros E. unfold hex_value at 1. cbn [fold_left mbind option_bind]. rewrite E. cbn [mbind option_bind].
  apply hex_value_acc.
Qed.

Lemma text16_loop_value fuel n buf v :
  0 <= n < 2 ^ Z.of_nat fuel -> hex_value buf = Some v ->
  hex_value (text16_loop fuel n buf) = Some (n * 16 ^ Zlen buf + v).
Proof.
  revert n buf v. induction fuel as [|fuel IH]; intros n buf v Hn Hv.
  - cbn [text16_loop]. rewrite Hv. change (2 ^ Z.of_nat 0) with 1 in Hn. f_equal. replace n with 0 by lia. lia.
  - cbn [text16_loop]. destruct (Z.eqb_spec n 0) as [->|Hne]; [rewrite Hv; f_equal; lia|].
    rewrite Nat2Z.inj_succ, Z.pow_succ_r in Hn by lia.
    pose proof (Z.mod_pos_bound n 16 ltac:(lia)) as Hm.
    assert (hex_value (hexDigit (n mod 16) :: buf) = Some (n mod 16 * 16 ^ Zlen buf + v)) as Hv'.
    { rewrite (hex_value_cons _ _ (n mod 16)) by (apply hex_digit_hexDigit; done). by rewrite Hv. }
    rewrite (IH (n / 16) _ _ ltac:(Z.to_euclidean_division_equations; lia) Hv'). f_equal.
    unfold Zlen. cbn [length]. rewrite Nat2Z.inj_succ, Z.pow_succ_r by lia.
    rewrite (Z_div_mod_eq_full n 16) at 3. lia.
Qed.

Lemma Text16_value n : signed_hex_value (Text16 n) = Some n.
Proof.
  unfold Text16. destruct (Z.eqb_spec n 0) as [->|Hne]; [done|].
  pose proof (text16_loop_value (Z.to_nat (Z.log2 (Z.abs n)) + 1) (Z.abs n) [] 0) as H.
  rewrite Nat2Z.inj_add, Z2Nat.id in H by apply Z.log2_nonneg.
  specialize (H ltac:(split; [lia|apply Z.log2_spec; lia]) eq_refl).
  set (digits := text16_loop _ _ _) in *. rewrite Z.mul_1_r, Z.add_0_r in H.
  destruct (Z.ltb_spec n 0).
  - cbn [signed_hex_value]. rewrite H. cbn. f_equal. lia.
  - destruct digits as [|c digits]; [by injection H; lia|].
    replace n with (Z.abs n) by lia. rewrite <- H. unfold signed_hex_value.
    destruct c; try reflexivity. exfalso. unfold hex_value in H. cbn [fold_left mbind option_bind] in H.
    change (hex_digit x2d) with (@None Z) in H. cbn [mbind option_bind] in H.
    clear -H. induction digits; [done|]. by apply IHdigits.
Qed.

(** The session hash sent to Mojang is the signed hexadecimal form Java
    prints. Read back, it is the SHA-1 digest of the server id, the shared
    secret and the public key, taken as a 160-bit two's complement number;
    hence two sessions with the same hash text have the same digest. *)
Lemma session_hash_signed `{SHA1} (id secret key id' secret' key' : bytes) :
  signed_hex_value (minecraftServerHash id secret key) = Some (sintw 160 (be_val (sha1 (id ++ secret ++ key))))
  /\ (minecraftServerHash id secret key = minecraftServerHash id' secret' key' ->
      sha1 (id ++ secret ++ key) = sha1 (id' ++ secret' ++ key')).
Proof.
  assert (forall a b c, signed_hex_value (minecraftServerHash a b c) = Some (sintw 160 (be_val (sha1 (a ++ b ++ c))))) as Hv.
  { intros a b c. unfold minecraftServerHash. rewrite Text16_value. f_equal.
    pose proof (sha1_length (a ++ b ++ c)) as Hl. set (d := sha1 _) in *.
    destruct d as [|x d]; [done|]. change (default x00 (head (x :: d))) with x. unfold Zlen. rewrite Hl.
    pose proof (be_val_range d) as Hr. rewrite be_val_cons. unfold Zlen in *.
    cbn [length] in Hl. replace (length d) with 19%nat in * by lia.
    change (256 ^ Z.of_nat 19) with (2 ^ 152) in *. rewrite Z.shiftl_mul_pow2, Z.mul_1_l by lia.
    change (Z.of_nat 20 * 8) with 160. unfold sintw. change (160 - 1) with 159.
    change (2 ^ 160) with (256 * 2 ^ 152). change (2 ^ 159) with (128 * 2 ^ 152).
    assert ((Z.land (b2z x) 0x80 =? 0) = (b2z x <? 128)) as -> by (by destruct x).
    pose proof (b2z_range x). set (p := 2 ^ 152) in *.
    destruct (Z.ltb_spec (b2z x) 128); cbn [negb].
    - rewrite Z.mod_small; nia.
    - replace (b2z x * p + be_val d + 128 * p) with ((b2z x - 128) * p + be_val d + 1 * (256 * p)) by lia.
      rewrite Z_mod_plus_full, Z.mod_small; nia. }
  split; [apply Hv|]. intros E. apply (f_equal signed_hex_value) in E. rewrite !Hv in E. injection E as E.
  rewrite <- (be_bytes_val (sha1 (id ++ _))), <- (be_bytes_val (sha1 (id' ++ _))), !sha1_length. f_equal.
  assert (forall d : bytes, length d = 20%nat -> 0 <= be_val d < 2 ^ 160) as Hb.
  { intros d Hd. pose proof (be_val_range d) as Hr. unfold Zlen in Hr. by rewrite Hd in Hr. }
  pose proof (Hb _ (sha1_length (id ++ secret ++ key))). pose proof (Hb _ (sha1_length (id' ++ secret' ++ key'))).
  unfold sintw in E. change (160 - 1) with 159 in E. change (2 ^ 160) with (2 * 2 ^ 159) in *. set (p := 2 ^ 159) in *.
  Z.to_euclidean_division_equations; nia.
Qed.

(** ** The session lookup *)

Lemma runes_fuel_ascii n s : (length s <= n)%nat -> Forall (fun b => b2z b < 128) s -> runes_fuel n s = map b2z s.
Proof.
  revert n. induction s as [|b s IH]; intros [|n] Hn H; simpl in Hn; try lia; [done|done|].
  inversion_clear H as [|? ? Hb Hs]. cbn [runes_fuel map].
  assert (utf8_len (b :: s) = Some 1%nat) as ->.
  { unfold utf8_len. apply Z.ltb_lt in Hb. change 0x80 with 128. by rewrite Hb. }
  cbn [drop rune_of map]. by rewrite IH by (lia || done).
Qed.

Lemma fold_rune_ascii `{UnicodeFold} b : b2z b < 128 -> fold_rune (b2z b) = b2z (to_lower b).
Proof.
  intros Hb. unfold fold_rune, to_lower. destruct ((65 <=? b2z b) && (b2z b <=? 90)) eqn:E.
  - apply andb_true_iff in E as [E1%Z.leb_le E2%Z.leb_le]. by rewrite b2z_z2b_small by lia.
  - by rewrite (proj2 (Z.ltb_lt _ _) Hb).
Qed.

Lemma EqualFold_ascii `{UnicodeFold} s t :
  Forall (fun b => b2z b < 128) s -> Forall (fun b => b2z b < 128) t -> EqualFold s t = true ->
  map to_lower s = map to_lower t.
Proof.
  intros Hs Ht E. apply bool_decide_eq_true in E. unfold runes in E.
  rewrite !runes_fuel_ascii, !map_map in E by done.
  assert (forall l, Forall (fun b => b2z b < 128) l -> map (fun b => fold_rune (b2z b)) l = map b2z (map to_lower l)) as Hm.
  { intros l Hl. rewrite map_map. apply map_ext_in. intros b Hb. apply fold_rune_ascii.
    rewrite Forall_forall in Hl. by apply Hl, list_elem_of_In. }
  rewrite (Hm s Hs), (Hm t Ht) in E. revert E. generalize (map to_lower s), (map to_lower t). clear.
  intros l. induction l as [|x l IH]; intros [|y k] E; try done. injection E as E1 E2. by rewrite (b2z_inj _ _ E1), (IH _ E2).
Qed.

Definition property_bounded (p : ProfileProperty) : Prop :=
  1 <= Zlen (Prop_Name p) <= 64 /\ 1 <= Zlen (Prop_Value p) <= 32767
  /\ from_option (fun s => Zlen s <= 8192) True (Prop_Signature p).

Definition profile_bounded (p : GameProfile) : Prop :=
  length (Profile_UUID p) = 16%nat /\ 1 <= Zlen (Profile_Name p) <= 16 /\ Zlen (Profile_Properties p) <= 64
  /\ Forall property_bounded (Profile_Properties p).

Lemma Zlen_nonempty {A} (l : list A) : l <> [] <-> 1 <= Zlen l.
Proof. unfold Zlen. destruct l; simpl; split; try done; lia. Qed.

Lemma property_ok_bounded p : property_ok p = true -> property_bounded p.
Proof.
  unfold property_ok, property_bounded. rewrite negb_true_iff, !orb_false_iff, !bool_decide_eq_false, !Z.ltb_ge.
  intros ((((Hn & Hn2) & Hv) & Hv2) & Hs). rewrite <- !Zlen_nonempty. split_and!; try done.
  destruct (Prop_Signature p); [|done]. by apply Z.ltb_ge in Hs.
Qed.

(** The addresses of the local host: 127.0.0.0/8, also written as an IPv4-mapped
    IPv6 address, and ::1. *)
Definition loopback_address (ip : IP) : Prop :=
  ip = replicate 15 x00 ++ [x01]
  \/ exists b c d, ip = [x7f; b; c; d] \/ ip = replicate 10 x00 ++ [xff; xff; x7f; b; c; d].

(** Where a session service may be asked: over HTTPS, or on the local host. *)
Definition trusted_endpoint (url : URL) : Prop :=
  Scheme url = str "https" \/ Hostname url = str "localhost" \/ loopback_address (ParseIP (Hostname url)).

Lemma IsLoopback_address ip : IsLoopback ip = true -> loopback_address ip.
Proof.
  unfold IsLoopback, To4. case_decide as H4; [|case_decide as H16].
  - destruct ip as [|a [|b [|c [|d []]]]]; try done. intros ->%bool_decide_eq_true. right. exists b, c, d. by left.
  - destruct H16 as [Hl Ht]. pose proof (take_drop 12 ip) as E. rewrite Ht in E. assert (length (drop 12 ip) = 4%nat) as Hd by (rewrite length_drop; lia).
    destruct (drop 12 ip) as [|a [|b [|c [|d []]]]]; try done. rewrite <- E. intros ->%bool_decide_eq_true. right. exists b, c, d. by right.
  - intros ->%bool_decide_eq_true. by left.
Qed.

Lemma endpoint_allowed_trusted url : endpoint_allowed url = true -> trusted_endpoint url.
Proof.
  unfold endpoint_allowed, trusted_endpoint. case_decide; [by left|].
  intros [H2%bool_decide_eq_true|[_ H2]%andb_prop]%orb_prop; [by right; left|]. right. right. by apply IsLoopback_address.
Qed.

Lemma lookup_verified `{UnicodeFold} endpoint session (username hash : bytes) (profile : GameProfile) :
  lookupJoinedProfile endpoint session username hash = Some profile ->
  (exists url, endpoint = Some url /\ trusted_endpoint url)
  /\ (exists resp wire, session username hash = Some resp /\ StatusCode resp = 200 /\ decode_joined resp = Some wire
      /\ Profile_Name profile = jp_Name wire /\ parseProfileUUID (jp_ID wire) = Some (Profile_UUID profile))
  /\ EqualFold (Profile_Name profile) username = true
  /\ (Forall (fun b => b2z b < 128) (Profile_Name profile) -> Forall (fun b => b2z b < 128) username ->
      map to_lower (Profile_Name profile) = map to_lower username)
  /\ profile_bounded profile.
Proof.
  unfold lookupJoinedProfile. intros E. apply bind_Some in E as (url & Hu & E).
  destruct (endpoint_allowed url) eqn:Ha; [|done]. cbn [negb] in E. apply bind_Some in E as (resp & Hr & E).
  destruct (Z.eqb_spec (StatusCode resp) 200) as [Hc|]; [|done]. cbn [negb] in E.
  apply bind_Some in E as (wire & Hw & E). destruct (EqualFold (jp_Name wire) username) eqn:Hf; [|done]. cbn [negb] in E.
  apply bind_Some in E as (id & Hid & E).
  destruct (_ || _ || _) eqn:Hb in E; [done|]. apply orb_false_iff in Hb as [[Hb1 Hb2]%orb_false_iff Hb3].
  destruct (forallb property_ok _) eqn:Hp in E; [|done]. injection E as <-. cbn [Profile_Name Profile_UUID].
  apply endpoint_allowed_trusted in Ha. apply bool_decide_eq_false in Hb1. apply Z.ltb_ge in Hb2, Hb3. split_and!; eauto 10.
  - intros Hn Hun. by apply EqualFold_ascii.
  - unfold profile_bounded. cbn [Profile_UUID Profile_Name Profile_Properties]. split_and!; try done.
    + unfold parseProfileUUID in Hid. destruct (_ =? 32)%nat eqn:E32; [|done]. apply Nat.eqb_eq in E32.
      apply hex_DecodeString_length in Hid. lia.
    + by apply Zlen_nonempty.
    + apply Is_true_true in Hp. rewrite forallb_True in Hp. eapply Forall_impl; [exact Hp|].
      intros p Hp'. apply property_ok_bounded. by apply Is_true_true.
Qed.

(** C17: a player counts as authenticated only on the session service's word.
    When the lookup returns a profile, the service is one reached over HTTPS,
    or at the name localhost, an address in 127.0.0.0/8 or ::1, and it answered
    200 for this user name and this session hash with a document whose name is
    the user name up to case folding (up to ASCII case, when both are ASCII);
    and the profile is within the bounds that every later packet relies on: a
    16-byte UUID, a name of 1 to 16 bytes, at most 64 properties of bounded
    sizes. *)
Theorem joined_profile_verified `{UnicodeFold} endpoint session (username hash : bytes) (profile : GameProfile) :
  lookupJoinedProfile endpoint session username hash = Some profile ->
  (exists url, endpoint = Some url /\ trusted_endpoint url)
  /\ (exists resp wire, session username hash = Some resp /\ StatusCode resp = 200 /\ decode_joined resp = Some wire
      /\ Profile_Name profile = jp_Name wire /\ parseProfileUUID (jp_ID wire) = Some (Profile_UUID profile))
  /\ EqualFold (Profile_Name profile) username = true
  /\ (Forall (fun b => b2z b < 128) (Profile_Name profile) -> Forall (fun b => b2z b < 128) username ->
      map to_lower (Profile_Name profile) = map to_lower username)
  /\ profile_bounded profile.
Proof. apply lookup_verified. Qed.

(** ** Witnesses *)

Definition pad (n : nat) (d : bytes) : bytes := take n (d ++ replicate n x00).
Lemma pad_length n d : length (pad n d) = n.
Proof. unfold pad. rewrite length_take, length_app, length_replicate. lia. Qed.

Definition toy_md5 : MD5 := {| md5 := pad 16; md5_length := pad_length 16 |}.
Definition toy_sha1 : SHA1 := {| sha1 d := xff :: pad 19 d; sha1_length d := f_equal S (pad_length 19 d) |}.
Definition toy_fold : UnicodeFold := {| unicode_fold r := Z.max 128 r; unicode_fold_high r := Z.le_max_l 128 r |}.

Definition sample_uuid : bytes := map z2b (seqZ 240 16).

Lemma uuid_wellformed_roundtrip_witness :
  length sample_uuid = 16%nat /\ parseProfileUUID (hyphenatedUUID sample_uuid) = Some sample_uuid
  /\ hyphenatedUUID sample_uuid = str "f0f1f2f3-f4f5-f6f7-f8f9-fafbfcfdfeff"
  /\ UuidVersion (OfflinePlayerUUID (H := toy_md5) (str "Steve")) = 3.
Proof.
  pose proof (uuid_wellformed_roundtrip (H := toy_md5) (str "Steve") sample_uuid eq_refl) as (H1 & _ & H2 & _).
  split_and!; [reflexivity|exact H2|vm_compute; reflexivity|exact (proj1 (proj2 H1))].
Defined.

Lemma session_hash_signed_witness :
  minecraftServerHash (H := toy_sha1) [] (str "Notch") [] = str "-b1908b9c980000000000000000000000000000"
  /\ signed_hex_value (minecraftServerHash (H := toy_sha1) [] (str "Notch") [])
     = Some (sintw 160 (be_val (sha1 (SHA1 := toy_sha1) (str "Notch")))).
Proof.
  split; [vm_compute; reflexivity|].
  exact (proj1 (session_hash_signed (H := toy_sha1) [] (str "Notch") [] [] [] [])).
Defined.

Definition sample_answer : bytes :=
  [x7b] ++ q "id" ++ [x3a] ++ q "f0f1f2f3f4f5f6f7f8f9fafbfcfdfeff" ++ [x2c] ++ q "name" ++ [x3a] ++ q "Steve" ++ [x2c]
  ++ q "properties" ++ str ":[{" ++ q "name" ++ [x3a] ++ q "textures" ++ [x2c] ++ q "value" ++ [x3a] ++ q "AAAA" ++ str "}]}".

Definition sample_profile : GameProfile :=
  mkGameProfile sample_uuid (str "Steve") [mkProfileProperty (str "textures") (str "AAAA") None].

Definition sample_session (username hash : bytes) : option Response := Some (mkResponse 200 sample_answer false).
Definition mojang : option URL := Some (mkURL (str "https") (str "sessionserver.mojang.com")).

Definition local_session : option URL := Some (mkURL (str "http") (str "127.0.0.1")).

Lemma joined_profile_verified_witness :
  (lookupJoinedProfile (UF := toy_fold) mojang sample_session (str "steve") (str "-7c9d") = Some sample_profile
   /\ profile_bounded sample_profile)
  /\ exists url, local_session = Some url /\ trusted_endpoint url.
Proof.
  assert (lookupJoinedProfile (UF := toy_fold) mojang sample_session (str "steve") (str "-7c9d") = Some sample_profile) as E
    by (vm_compute; reflexivity).
  split; [split; [exact E|]; apply (joined_profile_verified (H := toy_fold) _ _ _ _ _ E)|].
  apply (joined_profile_verified (H := toy_fold) local_session sample_session (str "steve") (str "-7c9d") sample_profile).
  vm_compute. reflexivity.
Defined.
