(* ===== verification/Velocity.v ===== *)
(** Velocity modern forwarding: [src/velocity_forwarding.go].

    The gateway vouches for an authenticated player to the backend with a
    message signed under a shared secret. HMAC-SHA256 is the parameter of the
    class [HMAC], with the length of its result as law. *)
From S2P Require Import Prelude VarInt Wire Packet Packets Net Config Access Profile.

Class HMAC := { hmac_sha256 : bytes -> bytes -> bytes; hmac_length k m : length (hmac_sha256 k m) = 32%nat }.

Definition velocityPlayerInfoChannel : bytes := str "velocity:player_info".
Definition velocityModernDefault : Z := 1.
Definition velocityModernLazySession : Z := 4.
Definition minimumForwardingSecret : Z := 16.
Definition maximumForwardingSecret : Z := 4096.

(** ** forwardingSecret *)

(** The file a path leads to: [os.Stat] fails, or it gives the mode; then
    opening fails, or reading gives the bytes and whether it failed after
    them. *)
(* The permission mask 0o077 is 0x3f. *)
Inductive SecretPath := Configured (path : bytes) | Credential (dir : bytes).
Inductive SecretFile :=
| StatFails
| StatMode (regular : bool) (perm : Z) (opened : option (bytes * bool)).

(** [bytes.TrimRight(data, CR LF)] *)
Fixpoint drop_crlf (s : bytes) : bytes :=
  match s with
  | b :: s' => if bool_decide (b = x0d \/ b = x0a) then drop_crlf s' else s
  | [] => []
  end.
Definition TrimRight_crlf (s : bytes) : bytes := rev (drop_crlf (rev s)).

(** [credentialsDir] is the environment's CREDENTIALS_DIRECTORY. *)
Definition forwardingSecret (config : Config) (credentialsDir : bytes) (fs : SecretPath -> SecretFile) : option bytes :=
  path ← (if decide (ForwardingSecretFile (Config_Auth config) = [])
          then if decide (credentialsDir = []) then None else Some (Credential credentialsDir)
          else Some (Configured (ForwardingSecretFile (Config_Auth config))));
  match fs path with
  | StatFails => None
  | StatMode regular perm opened =>
      if negb regular || negb (Z.land perm 0x3f =? 0) then None
      else
        '(contents, err) ← opened;
        if err && (Zlen contents <? maximumForwardingSecret + 1) then None
        else
          let data := take (Z.to_nat (maximumForwardingSecret + 1)) contents in
          if maximumForwardingSecret <? Zlen data then None
          else
            let data := TrimRight_crlf data in
            if Zlen data <? minimumForwardingSecret then None else Some data
  end.

(** ** respondVelocityForwarding *)

(** The property loop, shared with the login success packet. *)
Definition WriteProperty (p : ProfileProperty) (w : PacketWriter) : PacketWriter :=
  let w := w |> WriteString (Prop_Name p) |> WriteString (Prop_Value p)
             |> WriteBool (bool_decide (is_Some (Prop_Signature p))) in
  match Prop_Signature p with
  | Some s => w |> WriteString s
  | None => w
  end.

Definition WriteProperties (ps : list ProfileProperty) (w : PacketWriter) : PacketWriter :=
  fold_left (fun w p => WriteProperty p w) ps (WriteVarInt (i32 (Zlen ps)) w).

(** The version the backend asks for, between the default and the latest one
    known. *)
Definition forwarding_version (data : bytes) : Z :=
  match data with
  | [v] =>
      if velocityModernDefault <=? b2z v
      then if velocityModernLazySession <? b2z v then velocityModernLazySession else b2z v
      else velocityModernDefault
  | _ => velocityModernDefault
  end.

Section Velocity.

Context `{ZL : Zlib} `{HM : HMAC}.

(** The frame that is written to the backend; [None] is an error. [secret] is
    the result of [forwardingSecret] and [peer] the text of the peer's
    address. *)
Definition respondVelocityForwarding (client : Client) (request : LoginPluginRequest) (profile : option GameProfile)
    (peer : bytes) (secret : option bytes) : option bytes :=
  if negb (bool_decide (Req_Channel request = velocityPlayerInfoChannel)) then None
  else
    profile ← profile;
    secret ← secret;
    let address := match SplitHostPort peer with Some (host, _) => host | None => peer end in
    if decide (TrimSpace address = []) then None
    else
      let payload := Bytes (NewPacketWriter |> WriteVarInt (forwarding_version (Req_Data request)) |> WriteString address
                              |> Write (Profile_UUID profile) |> WriteString (Profile_Name profile)
                              |> WriteProperties (Profile_Properties profile)) in
      let responseData := hmac_sha256 secret payload ++ payload in
      EncodeWithLen (NewRawPacket PacketServerLoginPluginResponse
        (Bytes (NewPacketWriter |> WriteVarInt (Req_MessageID request) |> WriteBool true |> Write responseData))) client.

(** ** What a backend does with it *)

Definition read_bytes (n : nat) : Rd bytes := fun r =>
  if remaining r <? Z.of_nat n then (None, r) else (Some (take n (unread r)), advance n r).

Definition read_property : Rd ProfileProperty :=
  name ← read_str 32767; value ← read_str 32767; signed ← read_bool;
  if signed : bool then sig ← read_str 32767; mret (mkProfileProperty name value (Some sig))
  else mret (mkProfileProperty name value None).

Fixpoint read_many {A} (n : nat) (m : Rd A) : Rd (list A) :=
  match n with
  | O => mret []
  | S n' => a ← m; l ← read_many n' m; mret (a :: l)
  end.

Definition read_forwarded : Rd (Z * bytes * GameProfile) :=
  version ← varInt; address ← read_str 32767; id ← read_bytes 16; name ← read_str 16;
  n ← varInt; ps ← read_many (Z.to_nat n) read_property;
  mret (version, address, mkGameProfile id name ps).

(** The backend checks the signature over the message with its own secret and
    then reads the message. *)
Definition backend_accepts (secret data : bytes) : option (Z * bytes * GameProfile) :=
  let mac := take 32 data in
  let payload := drop 32 data in
  if decide (hmac_sha256 secret payload = mac) then decode_with read_forwarded payload else None.

(** ** Lemmas *)

Definition property_enc (p : ProfileProperty) : bytes :=
  str_enc (Prop_Name p) ++ str_enc (Prop_Value p)
  ++ match Prop_Signature p with Some s => [x01] ++ str_enc s | None => [x00] end.

Lemma wbuf_WriteProperty p w : wbuf (WriteProperty p w) = wbuf w ++ property_enc p.
Proof.
  unfold WriteProperty, property_enc. destruct (Prop_Signature p) as [s|]; cbn beta iota zeta.
  - rewrite wbuf_WriteString, wbuf_WriteBool, !wbuf_WriteString, <- !app_assoc. done.
  - rewrite wbuf_WriteBool, !wbuf_WriteString, <- !app_assoc. done.
Qed.

Lemma wbuf_WriteProperties ps w :
  wbuf (WriteProperties ps w) = wbuf w ++ EncodeVarInt (i32 (Zlen ps)) ++ concat (map property_enc ps).
Proof.
  unfold WriteProperties. rewrite app_assoc, <- wbuf_WriteVarInt.
  generalize (WriteVarInt (i32 (Zlen ps)) w). induction ps as [|p ps IH]; intros w'; cbn [fold_left map concat].
  - by rewrite app_nil_r.
  - by rewrite IH, wbuf_WriteProperty, <- app_assoc.
Qed.

Lemma read_property_reads p : property_bounded p -> reads read_property (property_enc p) p.
Proof.
  destruct p as [name value sig]. intros (Hn & Hv & Hs). unfold read_property, property_enc.
  cbn [Prop_Name Prop_Value Prop_Signature] in *.
  eapply reads_bind; [apply str_codec_reads; lia|]. eapply reads_bind; [apply str_codec_reads; lia|].
  destruct sig as [s|]; cbn in Hs.
  - eapply reads_bind; [apply (bool_codec true I)|]. cbn iota. apply (reads_bind_ret _ (fun sig => mkProfileProperty name value (Some sig))), str_codec_reads; lia.
  - rewrite <- (app_nil_r [x00]). eapply reads_bind; [apply (bool_codec false I)|]. apply reads_ret.
Qed.

Lemma read_many_reads {A} (m : Rd A) (enc : A -> bytes) (l : list A) :
  Forall (fun a => reads m (enc a) a) l -> reads (read_many (length l) m) (concat (map enc l)) l.
Proof.
  induction 1 as [|a l Ha _ IH]; cbn [length read_many map concat]; [apply reads_ret|].
  eapply reads_bind; [exact Ha|]. by apply reads_bind_ret.
Qed.

Lemma read_bytes_reads b : b <> [] -> reads (read_bytes (length b)) b b.
Proof.
  intros Hne d p tail E. unfold read_bytes. rewrite (remaining_unread d p _ _ E) by done. unfold Zlen.
  rewrite (proj2 (Z.ltb_ge _ _)) by lia. unfold unread. cbn [rdata rpos]. by rewrite E, take_app_length.
Qed.

Lemma properties_reads {B} (ps : list ProfileProperty) (f : list ProfileProperty -> B) :
  Forall property_bounded ps -> Zlen ps < 2 ^ 31 ->
  reads (n ← varInt; ps ← read_many (Z.to_nat n) read_property; mret (f ps))
    (EncodeVarInt (i32 (Zlen ps)) ++ concat (map property_enc ps)) (f ps).
Proof.
  intros Hp Hl. assert (is_i32 (Zlen ps)) by (unfold is_sint, Zlen in *; zpow; lia). rewrite sintw_id by done.
  eapply reads_bind; [by apply codec_reads|]. apply reads_bind_ret. unfold Zlen. rewrite Nat2Z.id.
  apply read_many_reads. eapply Forall_impl; [exact Hp|]. intros p. apply read_property_reads.
Qed.

Lemma forwarding_version_range data : 1 <= forwarding_version data <= 4.
Proof.
  unfold forwarding_version, velocityModernDefault, velocityModernLazySession.
  destruct data as [|v [|]]; try lia. destruct (Z.leb_spec 1 (b2z v)); [|lia]. destruct (Z.ltb_spec 4 (b2z v)); lia.
Qed.

Lemma read_forwarded_payload version address p tail :
  1 <= version <= 4 -> Zlen address <= 32767 -> profile_bounded p ->
  decode_with read_forwarded
    (Bytes (NewPacketWriter |> WriteVarInt version |> WriteString address |> Write (Profile_UUID p)
             |> WriteString (Profile_Name p) |> WriteProperties (Profile_Properties p)) ++ tail)
  = Some (version, address, p).
Proof.
  intros Hv Ha (Hu & Hn & Hps & Hp). unfold Bytes. rewrite wbuf_WriteProperties.
  rewrite wbuf_WriteString, wbuf_Write, wbuf_WriteString, wbuf_WriteVarInt, wbuf_New, app_nil_l, <- !app_assoc.
  destruct p as [id name ps]. cbn [Profile_UUID Profile_Name Profile_Properties] in *.
  assert (reads read_forwarded (EncodeVarInt version ++ str_enc address ++ id ++ str_enc name
    ++ EncodeVarInt (i32 (Zlen ps)) ++ concat (map property_enc ps)) (version, address, mkGameProfile id name ps)) as H.
  { unfold read_forwarded. eapply reads_bind; [apply codec_reads; unfold is_sint; zpow; lia|].
    eapply reads_bind; [apply str_codec_reads; lia|].
    eapply reads_bind; [rewrite <- Hu; apply read_bytes_reads; by intros ->|].
    eapply reads_bind; [apply str_codec_reads; lia|].
    apply (properties_reads ps (fun ps => (version, address, mkGameProfile id name ps))); [done|lia]. }
  unfold decode_with. rewrite (H _ 0%nat tail); [done|]. by rewrite drop_0, <- !app_assoc.
Qed.

(** The forwarding reply authenticates the player to the backend. For a
    profile the session lookup verified, the reply answers the request's id
    with success, and a backend that holds the same secret accepts its
    signature and reads back exactly the negotiated version (1 to 4), the
    client's address and the profile with all its properties. The reply exists
    only for the forwarding channel, an authenticated profile and a loaded
    secret. *)
Lemma velocity_reply (client : Client) (request : LoginPluginRequest) (profile : option GameProfile)
    (peer frame : bytes) (secret : option bytes) :
  respondVelocityForwarding client request profile peer secret = Some frame ->
  exists p s address data,
    profile = Some p /\ secret = Some s /\ Req_Channel request = velocityPlayerInfoChannel
    /\ EncodeWithLen (NewRawPacket PacketServerLoginPluginResponse data) client = Some frame
    /\ (is_i32 (Req_MessageID request) -> profile_bounded p -> Zlen peer <= 32767 ->
        exists reply, DecodeLoginPluginResponse data = Some (mkLoginPluginResponse (Req_MessageID request) true reply)
        /\ backend_accepts s reply = Some (forwarding_version (Req_Data request), address, p)
        /\ 1 <= forwarding_version (Req_Data request) <= 4 /\ address = peerIP peer).
Proof.
  unfold respondVelocityForwarding. case_bool_decide as Hc; [|done]. cbn [negb]. intros E.
  apply bind_Some in E as (p & Hp & E). apply bind_Some in E as (s & Hs & E).
  set (address := match SplitHostPort peer with Some (host, _) => host | None => peer end) in *.
  destruct (decide (TrimSpace address = [])); [done|]. cbn zeta in E.
  exists p, s, address. eexists. split_and!; [done|done|done|exact E|]. intros Hid Hb Hpeer.
  eexists. split; [|split_and!; [|apply forwarding_version_range..|done]].
  - unfold DecodeLoginPluginResponse. wire_bytes. apply decode_two_rest; [by apply codec_reads|apply (bool_codec true I)].
  - unfold backend_accepts. set (payload := wbuf (WriteProperties _ _)).
    change (hmac_sha256 s (Bytes _)) with (hmac_sha256 s payload).
    rewrite take_app_length', drop_app_length' by (by rewrite hmac_length). rewrite decide_True by done.
    rewrite <- (app_nil_r payload). apply read_forwarded_payload; [apply forwarding_version_range| |done].
    transitivity (Zlen peer); [|done]. unfold address. destruct (SplitHostPort peer) as [[host port]|] eqn:Eh; [|done].
    clear -Eh. unfold SplitHostPort in Eh. repeat (case_match; try done); injection Eh as <- <-;
      unfold Zlen; rewrite ?length_take, ?length_drop; lia.
Qed.

End Velocity.

Lemma last_rev {A} (l : list A) : last (rev l) = head l.
Proof. rewrite rev_alt. apply last_reverse. Qed.

Lemma drop_crlf_head b s : head (drop_crlf s) = Some b -> b <> x0d /\ b <> x0a.
Proof.
  induction s as [|c s IH]; [done|]. cbn [drop_crlf]. case_bool_decide as Hb; [exact IH|].
  intros [= ->]. split; intros ->; apply Hb; auto.
Qed.

(** The forwarding secret is bounded and private. Whatever file is found,
    an accepted secret has 16 to 4096 bytes, does not end in a line break, is
    a prefix of the file's contents and comes from a regular file that only
    its owner can access; anything else is refused. *)
Lemma forwarding_secret_bounds (config : Config) (credentialsDir : bytes) (fs : SecretPath -> SecretFile) (secret : bytes) :
  forwardingSecret config credentialsDir fs = Some secret ->
  16 <= Zlen secret <= 4096
  /\ (last secret <> Some x0d /\ last secret <> Some x0a)
  /\ exists path perm contents err,
       fs path = StatMode true perm (Some (contents, err)) /\ Z.land perm 0x3f = 0 /\ secret `prefix_of` contents.
Proof.
  unfold forwardingSecret. intros E. apply bind_Some in E as (path & _ & E).
  destruct (fs path) as [|regular perm opened] eqn:Ef; [done|].
  destruct (negb regular || negb (Z.land perm 0x3f =? 0)) eqn:Em; [done|].
  apply orb_false_iff in Em as [Hreg%negb_false_iff Hperm%negb_false_iff]. apply Z.eqb_eq in Hperm. subst regular.
  apply bind_Some in E as ([contents err] & -> & E). destruct (err && _); [done|].
  set (data := take _ contents) in *. cbn zeta in E.
  destruct (Z.ltb_spec maximumForwardingSecret (Zlen data)) as [|Hmax]; [done|].
  destruct (Z.ltb_spec (Zlen (TrimRight_crlf data)) minimumForwardingSecret) as [|Hmin]; [done|]. injection E as <-.
  assert (exists t, data = TrimRight_crlf data ++ t) as [t Ht].
  { unfold TrimRight_crlf. assert (exists l, rev data = l ++ drop_crlf (rev data)) as [l Hl].
    { induction (rev data) as [|b s IH]; [by exists []|]. cbn [drop_crlf]. case_bool_decide; [|by exists []].
      destruct IH as [l Hl]. exists (b :: l). cbn. by rewrite <- Hl. }
    exists (rev l). rewrite <- rev_app_distr, <- Hl. by rewrite rev_involutive. }
  unfold minimumForwardingSecret in Hmin. split_and!; [done| | | |].
  - transitivity (Zlen data); [|exact Hmax]. rewrite Ht at 2. unfold Zlen. rewrite length_app. lia.
  - unfold TrimRight_crlf. rewrite last_rev. by intros [[] _]%drop_crlf_head.
  - unfold TrimRight_crlf. rewrite last_rev. by intros [_ []]%drop_crlf_head.
  - exists path, perm, contents, err. split_and!; [done|done|].
    exists (t ++ drop (Z.to_nat (maximumForwardingSecret + 1)) contents). rewrite app_assoc, <- Ht. symmetry. apply take_drop.
Qed.

(** ** Witnesses *)

Definition toy_hmac : HMAC := {| hmac_sha256 k m := pad 32 (k ++ m); hmac_length k m := pad_length 32 (k ++ m) |}.

Definition velocity_request : LoginPluginRequest := mkLoginPluginRequest 3 velocityPlayerInfoChannel [x04].

Definition secret_fs (path : SecretPath) : SecretFile := StatMode true 0x180 (Some (str "0123456789abcdef" ++ [x0d; x0a], false)).

Lemma forwarding_secret_bounds_witness :
  forwardingSecret defaultConfig (str "/run/credentials") secret_fs = Some (str "0123456789abcdef")
  /\ 16 <= Zlen (str "0123456789abcdef") <= 4096.
Proof.
  assert (forwardingSecret defaultConfig (str "/run/credentials") secret_fs = Some (str "0123456789abcdef")) as E
    by (vm_compute; reflexivity).
  split; [exact E|]. apply (forwarding_secret_bounds _ _ _ _ E).
Defined.
