(* ===== verification/OnlineAuth.v ===== *)
(** The login encryption of online mode: [authenticateLobbyClient] of
    [src/online_auth.go].

    The RSA key pair, the random token, the parsing of the service's URL and
    the session service itself are the environment [AuthEnv]; [Cipher] has the
    encrypted connection and [Profile] the session hash and lookup. *)
From S2P Require Import Prelude VarInt Wire Packet Stream Config Net Packets Access GoFloat Nbt Cipher Profile Link.

(** ** The key pair

    The key pair is made once per process and kept, with its error, in a
    variable guarded by a [sync.Once]. *)
Section Key.

Context {PrivateKey : Type} (MarshalPKIXPublicKey : PrivateKey -> option bytes).

Record RSAKey := mkRSAKey { once_done : bool; key_private : option PrivateKey; key_public : option bytes; key_err : bool }.

Definition no_key : RSAKey := mkRSAKey false None None false.

(** [generated]: the answer of [rsa.GenerateKey], should it be called. The
    result: the keys, or an error. *)
Definition getLobbyRSAKey (generated : option PrivateKey) (k : RSAKey) : option (PrivateKey * bytes) * RSAKey :=
  let k :=
    if once_done k then k
    else match generated with
         | None => mkRSAKey true None None true
         | Some private =>
             match MarshalPKIXPublicKey private with
             | Some public => mkRSAKey true (Some private) (Some public) false
             | None => mkRSAKey true (Some private) None true
             end
         end in
  (if key_err k then None else private ← key_private k; public ← key_public k; Some (private, public), k).

(** All clients get the same key pair. So do they get the same error: a failure
    at the first client is never tried again. *)
Lemma rsa_key_settled (first later : option PrivateKey) :
  let '(keys, k) := getLobbyRSAKey first no_key in
  getLobbyRSAKey later k = (keys, k)
  /\ keys = (private ← first; public ← MarshalPKIXPublicKey private; Some (private, public)).
Proof. unfold getLobbyRSAKey. destruct first as [private|]; cbn; [|done]. by destruct (MarshalPKIXPublicKey private). Qed.

End Key.

(** ** The exchange *)

(** What the environment answers: the public key of [getLobbyRSAKey] and
    [rsa.DecryptPKCS1v15] with its private key, the verify token of
    [rand.Read], [url.Parse], and the HTTP answer of the session service. *)
Record AuthEnv := mkAuthEnv {
  ae_publicKey : option bytes;
  ae_decrypt : bytes -> option bytes;
  ae_token : option bytes;
  ae_parse : bytes -> option URL;
  ae_session : bytes -> bytes -> option Response }.

Definition defaultSessionServer : bytes := str "https://sessionserver.mojang.com".

Definition session_base (config : Config) : bytes :=
  if decide (SessionServer (Config_Auth config) = []) then defaultSessionServer else SessionServer (Config_Auth config).

Definition EncryptionRequest (publicKey verifyToken : bytes) : RawPacket :=
  NewRawPacket PacketClientEncryptionRequest
    (Bytes (NewPacketWriter |> WriteString [] |> WriteByteArray publicKey |> WriteByteArray verifyToken)).

(** The shared secret and the token of an encryption response. *)
Definition decode_response (env : AuthEnv) (verifyToken data : bytes) : option bytes :=
  '(encryptedSecret, rest) ← readLoginByteArray data 512;
  '(encryptedToken, rest) ← readLoginByteArray rest 512;
  if negb (bool_decide (rest = [])) then None
  else
    secret ← ae_decrypt env encryptedSecret;
    if negb (length secret =? 16)%nat then None
    else
      token ← ae_decrypt env encryptedToken;
      if negb (bool_decide (token = verifyToken)) then None else Some secret.

Section Auth.

Context `{A0 : AES} `{ZL : Zlib} `{S1 : SHA1} `{UF : UnicodeFold}.
Context (env : AuthEnv) (config : Config).

(** The result is the encrypted connection, which the caller switches to, with
    the profile. *)
Definition authenticateLobbyClient (username : bytes) : ST Side (minecraftEncryptedConn * GameProfile) :=
  publicKey ← of_option (ae_publicKey env);
  verifyToken ← of_option (ae_token env);
  _ ← writePacketTo (EncryptionRequest publicKey verifyToken);
  answer ← side_read;
  match answer with
  | None => bad
  | Some (packet, _) =>
      _ ← check (bool_decide (ID packet = PacketServerEncryptionResponse));
      buf ← reading (fun s => l_buf (side_link s));
      _ ← check (bool_decide (buf = []));
      secret ← of_option (decode_response env verifyToken (Data packet));
      encryptedConn ← of_option (newMinecraftEncryptedConn secret);
      profile ← of_option (lookupJoinedProfile (ae_parse env (session_base config)) (ae_session env) username
                             (minecraftServerHash [] secret publicKey));
      mret (encryptedConn, profile)
  end.

(** What an authenticated client has shown: it holds the secret the session
    was joined with, and the session service vouches for its name. *)
Definition vouched (username : bytes) (conn : minecraftEncryptedConn) (profile : GameProfile) : Prop :=
  exists publicKey verifyToken encryptedSecret encryptedToken secret,
    ae_publicKey env = Some publicKey /\ ae_token env = Some verifyToken
    /\ ae_decrypt env encryptedSecret = Some secret /\ length secret = 16%nat
    /\ ae_decrypt env encryptedToken = Some verifyToken
    /\ conn = mkEncrypted (newCFB8 secret secret true) (newCFB8 secret secret false)
    /\ lookupJoinedProfile (ae_parse env (session_base config)) (ae_session env) username
         (minecraftServerHash [] secret publicKey) = Some profile.

Lemma of_option_Ret {S A} (o : option A) (s : S) a s' : of_option o s = (Ret a, s') -> o = Some a /\ s' = s.
Proof. destruct o; [|done]. by intros [= <- <-]. Qed.

Lemma check_Ret {S} b (s : S) u s' : check b s = (Ret u, s') -> b = true /\ s' = s.
Proof. destruct b; [|done]. by intros [= _ <-]. Qed.

Lemma decode_response_Some verifyToken data secret : decode_response env verifyToken data = Some secret ->
  exists encryptedSecret encryptedToken, ae_decrypt env encryptedSecret = Some secret /\ length secret = 16%nat
    /\ ae_decrypt env encryptedToken = Some verifyToken.
Proof.
  unfold decode_response. intros E. apply bind_Some in E as ([es r] & _ & E). apply bind_Some in E as ([et r'] & _ & E).
  case_bool_decide; [|done]. cbn [negb] in E. apply bind_Some in E as (s & Hs & E).
  destruct (Nat.eqb_spec (length s) 16); [|done]. cbn [negb] in E. apply bind_Some in E as (t & Ht & E).
  case_bool_decide; [|done]. injection E as <-. subst t. eauto.
Qed.

(** The exchange up to the client's answer, whatever comes of it. *)
Lemma authenticate_silent username s r s' : l_enc (side_link s) = None -> authenticateLobbyClient username s = (r, s') ->
  r <> NoFuel /\ r <> Panic /\ side_client s' = side_client s
  /\ exists more, side_out s' = side_out s ++ more
     /\ (more = [] \/ exists publicKey verifyToken e, ae_publicKey env = Some publicKey /\ ae_token env = Some verifyToken
           /\ EncodeWithLen (EncryptionRequest publicKey verifyToken) (side_client s) = Some e /\ more `prefix_of` e).
Proof.
  intros He. unfold authenticateLobbyClient, mbind, ST_bind, of_option, check, bad, reading, mret, ST_ret.
  assert (forall r' : Out (minecraftEncryptedConn * GameProfile), (r', s) = (r, s') -> r' <> NoFuel -> r' <> Panic ->
    r <> NoFuel /\ r <> Panic /\ side_client s' = side_client s /\ exists more, side_out s' = side_out s ++ more
     /\ (more = [] \/ exists publicKey verifyToken e, ae_publicKey env = Some publicKey /\ ae_token env = Some verifyToken
           /\ EncodeWithLen (EncryptionRequest publicKey verifyToken) (side_client s) = Some e /\ more `prefix_of` e)) as Hend.
  { intros r' [= <- <-] H1 H2. split_and!; [done..|]. exists []. rewrite app_nil_r. auto. }
  destruct (ae_publicKey env) as [pk|] eqn:Epk; [|by intros E; eapply Hend].
  destruct (ae_token env) as [tok|] eqn:Etok; [|by intros E; eapply Hend].
  destruct (writePacketTo (EncryptionRequest pk tok) s) as [rw s1] eqn:Ew.
  destruct (writePacketTo_plain _ _ _ _ He Ew) as (He1 & more & Hout & Hmore & _).
  destruct (only_writes_run _ _ _ _ (only_writes_packet _) Ew) as (_ & _ & Hc & _).
  assert (forall r2 s2, (r2, s2) = (r, s') -> r2 <> NoFuel -> r2 <> Panic -> side_client s2 = side_client s1 -> side_out s2 = side_out s1 ->
    r <> NoFuel /\ r <> Panic /\ side_client s' = side_client s /\ exists more, side_out s' = side_out s ++ more
     /\ (more = [] \/ exists publicKey verifyToken e, Some pk = Some publicKey /\ Some tok = Some verifyToken
           /\ EncodeWithLen (EncryptionRequest publicKey verifyToken) (side_client s) = Some e /\ more `prefix_of` e)) as Hend1.
  { intros r2 s2 [= <- <-] H1 H2 H3 H4. split_and!; [done|done|congruence|]. exists more. rewrite H4. split; [done|].
    destruct Hmore as [->|(e & H5 & H6)]; [by left|right; eauto 10]. }
  pose proof (writePacketTo_returns (EncryptionRequest pk tok) s) as Hr. rewrite Ew in Hr. cbn [fst] in Hr.
  destruct rw; try (by destruct Hr); [|by intros E; eapply Hend1].
  destruct (side_read s1) as [rr s2] eqn:Er. pose proof (side_read_returns s1) as Hrr. rewrite Er in Hrr. cbn [fst] in Hrr.
  destruct (side_read_conserves _ _ _ Er) as (Hc2 & Ho2 & _).
  destruct rr as [[[p raw]|]| | |]; try (by destruct Hrr); try (by intros E; eapply Hend1).
  destruct (bool_decide _); [|by intros E; eapply Hend1].
  destruct (bool_decide _); [|by intros E; eapply Hend1].
  destruct (decode_response _ _ _); [|by intros E; eapply Hend1].
  destruct (newMinecraftEncryptedConn _); [|by intros E; eapply Hend1].
  destruct (lookupJoinedProfile _ _ _ _); by intros E; eapply Hend1.
Qed.

Lemma authenticate_sound username s conn profile s' : l_enc (side_link s) = None ->
  authenticateLobbyClient username s = (Ret (conn, profile), s') ->
  vouched username conn profile /\ EqualFold (Profile_Name profile) username = true /\ profile_bounded profile
  /\ l_buf (side_link s') = [] /\ side_client s' = side_client s /\ l_enc (side_link s') = None
  /\ (exists raw, raw ++ conn_bytes (l_conn (side_link s')) = side_stream s)
  /\ (exists publicKey verifyToken e, EncodeWithLen (EncryptionRequest publicKey verifyToken) (side_client s) = Some e
        /\ side_out s' = side_out s ++ e).
Proof.
  intros He E. unfold authenticateLobbyClient in E.
  apply ST_bind_Ret in E as (pk & s1 & [Hpk ->]%of_option_Ret & E).
  apply ST_bind_Ret in E as (tok & s1 & [Htok ->]%of_option_Ret & E).
  apply ST_bind_Ret in E as ([] & s1 & Ew & E).
  destruct (writePacketTo_plain _ _ _ _ He Ew) as (He1 & more & Hout & _ & Hmore).
  destruct (only_writes_run _ _ _ _ (only_writes_packet _) Ew) as (Hl1 & Hb1 & Hc1 & _).
  apply ST_bind_Ret in E as (answer & s2 & Er & E). destruct (side_read_conserves _ _ _ Er) as (Hc2 & Ho2 & He2 & _ & Hs2).
  destruct answer as [[p raw]|]; [|done].
  apply ST_bind_Ret in E as ([] & s3 & [_ ->]%check_Ret & E).
  apply ST_bind_Ret in E as (buf & s3 & [= <- <-] & E).
  apply ST_bind_Ret in E as ([] & s3 & [Hbuf%bool_decide_eq_true ->]%check_Ret & E).
  apply ST_bind_Ret in E as (secret & s3 & [Hsec ->]%of_option_Ret & E).
  apply ST_bind_Ret in E as (ec & s3 & [Hec ->]%of_option_Ret & E).
  apply ST_bind_Ret in E as (pr & s3 & [Hpr ->]%of_option_Ret & E). injection E as <- <- <-.
  apply decode_response_Some in Hsec as (es & et & H1 & H2 & H3).
  destruct (lookup_verified _ _ _ _ _ Hpr) as (_ & _ & Hf & _ & Hb).
  split_and!; try done.
  - exists pk, tok, es, et, secret. split_and!; try done.
    unfold newMinecraftEncryptedConn in Hec. rewrite decide_True in Hec by (rewrite H2; left). by injection Hec as <-.
  - congruence.
  - congruence.
  - exists raw. destruct Hs2 as [Hs2 _]. revert Hs2. unfold side_stream at 1. rewrite Hbuf. cbn [app]. intros ->.
    unfold side_stream. by rewrite Hl1, Hb1.
  - exists pk, tok, more. split; [by apply Hmore|]. by rewrite Ho2.
Qed.

End Auth.
