(* ===== verification/PlayPackets.v ===== *)
(** The play packets of the lobby: [src/proto/packets/play].

    The join game packet in both directions (the probe decodes it, the lobby
    builds it) and the other packets the lobby sends, each for the three
    protocol layouts the code knows: 1.16, 1.17 and 1.20.1. *)
From S2P Require Import Prelude VarInt Wire Packet Stream GoFloat Nbt Packets Net JoinGame Cipher Link.

Definition ProtocolV1_16_3 : Z := 753.
Definition ProtocolV1_17 : Z := 755.
Definition ProtocolV1_20_1 : Z := 763.

Definition isV1_20_1 (protocol : option Z) : bool := bool_decide (protocol = Some ProtocolV1_20_1).

(** [protocol != nil && *protocol < ProtocolV1_17], and with [>=]. *)
Definition before_1_17 (protocol : option Z) : bool :=
  match protocol with Some p => p <? ProtocolV1_17 | None => false end.
Definition since_1_17 (protocol : option Z) : bool :=
  match protocol with Some p => ProtocolV1_17 <=? p | None => false end.

(** [isForgeFML3] of [src/forge.go] *)
Definition isForgeFML3 (info : ClientInfo) : bool :=
  match GetProtocol info with Some p => ProtocolV1_20_1 <=? p | None => false end.

(** The ids for 1.16, 1.17 and 1.20.1. *)
Record Ids := mkIds { v1_16_3 : byte; v1_17 : byte; v1_20_1 : byte }.

Definition PluginMessage_ids := mkIds x17 x18 x17.
Definition NamedSoundEffect_ids := mkIds x18 x19 x62.
Definition JoinGame_ids := mkIds x24 x26 x28.
Definition PlayerPositionAndLook_ids := mkIds x34 x38 x3c.
Definition Respawn_ids := mkIds x39 x3d x41.
Definition TimeUpdate_ids := mkIds x4e x58 x5e.
Definition KeepAlive_ids := mkIds x1f x21 x23.
Definition V1_16_3Title : byte := x4f.
Definition V1_17SetTitleSubtitle : byte := x57.
Definition V1_17SetTitleText : byte := x59.
Definition V1_17SetTitleTimes : byte := x5a.
Definition V1_20_1SetTitleSubtitle : byte := x5d.
Definition V1_20_1SetTitleText : byte := x5f.
Definition V1_20_1SetTitleTimes : byte := x60.

(** The selection all packets but the join game packet use. *)
Definition packet_id (ids : Ids) (protocol : option Z) : byte :=
  if isV1_20_1 protocol then v1_20_1 ids
  else if since_1_17 protocol then v1_17 ids
  else v1_16_3 ids.

(** ** Decoding join game *)

Definition JoinGamePacketID (protocol : option Z) : byte :=
  if isV1_20_1 protocol then v1_20_1 JoinGame_ids
  else if before_1_17 protocol then v1_16_3 JoinGame_ids
  else v1_17 JoinGame_ids.

Definition JoinGameIsPacket (info : ClientInfo) (packetID : byte) : bool :=
  let protocol := GetProtocol info in
  if isV1_20_1 protocol then bool_decide (packetID = v1_20_1 JoinGame_ids)
  else if before_1_17 protocol then bool_decide (packetID = v1_16_3 JoinGame_ids)
  else bool_decide (packetID = v1_17 JoinGame_ids).

(** [joinGameReader] has the fields of [packetReader], and its [varInt] is the
    same loop. *)
Abbreviation JG := (ST packetReader).

Definition j_varInt : JG Z := fun r =>
  match varInt r with
  | (Some v, r) => (Ret v, r)
  | (None, r) => (Bad, r)
  end.

Definition j_bool : JG bool := fun r =>
  match rdata r !! rpos r with
  | None => (Bad, r)
  | Some v => (Ret (negb (b2z v =? 0)), advance 1 r)
  end.

Definition j_slice (n : Z) : JG bytes := fun r =>
  if (n <? 0) || (remaining r <? n) then (Bad, r)
  else (Ret (take (Z.to_nat n) (unread r)), advance (Z.to_nat n) r).

Definition j_str : JG bytes := n ← j_varInt; j_slice n.

Definition j_skip (count : Z) : JG unit := fun r =>
  if (count <? 0) || (remaining r <? count) then (Bad, r) else (Ret tt, advance (Z.to_nat count) r).

(** The fixed-width fields: a length check, then the bytes. *)
Definition j_fixed (n : nat) : JG bytes := fun r =>
  if remaining r <? Z.of_nat n then (Bad, r) else (Ret (take n (unread r)), advance n r).

Definition j_two : JG (byte * byte) :=
  b ← j_fixed 2; match b with [x; y] => mret (x, y) | _ => bad end.

Definition j_seed : JG Z := b ← j_fixed 8; mret (i64 (be_val b)).

Fixpoint j_strings (n : nat) : JG (list bytes) :=
  match n with
  | O => mret []
  | S n' => s ← j_str; l ← j_strings n'; mret (s :: l)
  end.

Definition j_worldNames : JG (list bytes) :=
  n ← j_varInt; if n <? 0 then bad else j_strings (Z.to_nat n).

(** A compound through a reader of its own on the unread bytes. *)
Definition j_nbt : JG Compound := fun r =>
  match ReadCompoundTag (mkNReader (unread r) 0) with
  | Ret (c, nr) => (Ret c, mkReader (rdata r) (length (rdata r) - Z.to_nat (Remaining nr)))
  | Bad => (Bad, r)
  | Panic => (Panic, r)
  | NoFuel => (NoFuel, r)
  end.

Definition run_JG (m : JG JoinGameData) (data : bytes) : Out JoinGameData := fst (m (mkReader data 0)).

Definition decodeJoinGameV1_16_3 : bytes -> Out JoinGameData := run_JG (
  _ ← j_skip 4;
  hardcore ← j_bool;
  '(gameMode, prev) ← j_two;
  worldNames ← j_worldNames;
  codec ← j_nbt;
  dim ← j_nbt;
  worldName ← j_str;
  seed ← j_seed;
  maxPlayers ← j_varInt;
  viewDistance ← j_varInt;
  reducedDebugInfo ← j_bool;
  enableRespawnScreen ← j_bool;
  isDebug ← j_bool;
  isFlat ← j_bool;
  mret (mkJoinGameData (Some hardcore) (Some gameMode) (Some prev) (Some worldNames) (Some dim) (Some codec) None
          (Some worldName) (Some seed) (Some maxPlayers) (Some viewDistance) None (Some reducedDebugInfo)
          (Some enableRespawnScreen) (Some isDebug) (Some isFlat))).

Definition decodeJoinGameV1_17 (data : bytes) : Out JoinGameData := decodeJoinGameV1_16_3 data.

Definition decodeJoinGameV1_20_1 : bytes -> Out JoinGameData := run_JG (
  _ ← j_skip 4;
  hardcore ← j_bool;
  '(gameMode, prev) ← j_two;
  worldNames ← j_worldNames;
  codec ← j_nbt;
  dimensionType ← j_str;
  worldName ← j_str;
  seed ← j_seed;
  maxPlayers ← j_varInt;
  viewDistance ← j_varInt;
  simulationDistance ← j_varInt;
  reducedDebugInfo ← j_bool;
  enableRespawnScreen ← j_bool;
  isDebug ← j_bool;
  isFlat ← j_bool;
  death ← j_bool;
  _ ← (if death : bool then _ ← j_str; j_skip 8 else mret tt);
  _ ← j_varInt;
  mret (mkJoinGameData (Some hardcore) (Some gameMode) (Some prev) (Some worldNames) None (Some codec) (Some dimensionType)
          (Some worldName) (Some seed) (Some maxPlayers) (Some viewDistance) (Some simulationDistance)
          (Some reducedDebugInfo) (Some enableRespawnScreen) (Some isDebug) (Some isFlat))).

Definition JoinGameDataFromPacket (info : ClientInfo) (packet : RawPacket) : Out JoinGameData :=
  let protocol := GetProtocol info in
  if isV1_20_1 protocol then decodeJoinGameV1_20_1 (Data packet)
  else if before_1_17 protocol then decodeJoinGameV1_16_3 (Data packet)
  else decodeJoinGameV1_17 (Data packet).

(** ** Building join game *)

Record JoinGameParams := mkParams {
  P_DimensionCodec : Compound;
  P_Dimension : Compound;
  P_MaxPlayers : Z;
  P_ViewDistance : Z;
  P_SimulationDistance : Z;
  P_Hardcore : bool;
  P_ReducedDebugInfo : bool;
  P_EnableRespawnScreen : bool;
  P_IsDebug : bool;
  P_IsFlat : bool }.

Definition DefaultWorldNames : list bytes :=
  [str "minecraft:overworld"; str "minecraft:the_nether"; str "minecraft:the_end"].

Definition WriteStrings (l : list bytes) (w : PacketWriter) : PacketWriter :=
  fold_left (fun w s => WriteString s w) l (WriteVarInt (i32 (Zlen l)) w).

Definition lobbyJoinGameDataV1_20_1 (params : JoinGameParams) : bytes :=
  let simulationDistance :=
    if P_SimulationDistance params <=? 0 then P_ViewDistance params else P_SimulationDistance params in
  Bytes (NewPacketWriter |> WriteInt32 0 |> WriteBool (P_Hardcore params) |> WriteU8 x03 |> WriteU8 xff
    |> WriteStrings DefaultWorldNames
    |> WriteCompoundTag (P_DimensionCodec params)
    |> WriteString (str "minecraft:overworld") |> WriteString (str "lazymc:lobby") |> WriteInt64 0
    |> WriteVarInt (P_MaxPlayers params) |> WriteVarInt (P_ViewDistance params) |> WriteVarInt simulationDistance
    |> WriteBool (P_ReducedDebugInfo params) |> WriteBool (P_EnableRespawnScreen params)
    |> WriteBool (P_IsDebug params) |> WriteBool (P_IsFlat params) |> WriteBool false |> WriteVarInt 0).

Definition LobbyJoinGameData (info : ClientInfo) (params : JoinGameParams) : bytes :=
  if isV1_20_1 (GetProtocol info) then lobbyJoinGameDataV1_20_1 params
  else
    Bytes (NewPacketWriter |> WriteUint32 0 |> WriteBool (P_Hardcore params) |> WriteU8 x03 |> WriteU8 xff
      |> WriteStrings DefaultWorldNames
      |> WriteCompoundTag (P_DimensionCodec params) |> WriteCompoundTag (P_Dimension params)
      |> WriteString (str "lazymc:lobby") |> WriteInt64 0
      |> WriteVarInt (P_MaxPlayers params) |> WriteVarInt (P_ViewDistance params)
      |> WriteBool (P_ReducedDebugInfo params) |> WriteBool (P_EnableRespawnScreen params)
      |> WriteBool (P_IsDebug params) |> WriteBool (P_IsFlat params)).

Section Sending.

Context `{A0 : AES} `{ZL : Zlib}.

Definition SendJoinGame (info : ClientInfo) (params : JoinGameParams) : ST Side unit :=
  writePacketTo (NewRawPacket (JoinGamePacketID (GetProtocol info)) (LobbyJoinGameData info params)).

(** ** The other packets *)

(** [id] is the value the atomic counter [keepAliveID] had. *)
Definition SendKeepAlive (info : ClientInfo) (id : Z) : ST Side unit :=
  writePacketTo (NewRawPacket (packet_id KeepAlive_ids (GetProtocol info)) (Bytes (NewPacketWriter |> WriteUint64 (u64 id)))).

Definition SendPlayerPos (info : ClientInfo) : ST Side unit :=
  let w := NewPacketWriter |> WriteFloat64 0 |> WriteFloat64 0 |> WriteFloat64 0 |> WriteFloat32 0
             |> WriteFloat32 0x42b40000 |> WriteU8 x00 |> WriteVarInt 0 in
  let protocol := GetProtocol info in
  if isV1_20_1 protocol then writePacketTo (NewRawPacket (v1_20_1 PlayerPositionAndLook_ids) (Bytes w))
  else if since_1_17 protocol then
    writePacketTo (NewRawPacket (v1_17 PlayerPositionAndLook_ids) (Bytes (w |> WriteBool true)))
  else writePacketTo (NewRawPacket (v1_16_3 PlayerPositionAndLook_ids) (Bytes w)).

Record RespawnParams := mkRespawn {
  R_Dimension : Compound;
  R_WorldName : bytes;
  R_HashedSeed : Z;
  R_GameMode : byte;
  R_PreviousGameMode : byte;
  R_IsDebug : bool;
  R_IsFlat : bool }.

Definition sendRespawnV1_20_1 (params : RespawnParams) : ST Side unit :=
  writePacketTo (NewRawPacket (v1_20_1 Respawn_ids)
    (Bytes (NewPacketWriter |> WriteString (str "minecraft:overworld") |> WriteString (R_WorldName params)
      |> WriteInt64 (R_HashedSeed params) |> WriteU8 (R_GameMode params) |> WriteU8 (R_PreviousGameMode params)
      |> WriteBool (R_IsDebug params) |> WriteBool (R_IsFlat params) |> WriteBool false |> WriteVarInt 0))).

Definition SendRespawn (info : ClientInfo) (params : RespawnParams) : ST Side unit :=
  let protocol := GetProtocol info in
  if isV1_20_1 protocol then sendRespawnV1_20_1 params
  else
    writePacketTo (NewRawPacket (if since_1_17 protocol then v1_17 Respawn_ids else v1_16_3 Respawn_ids)
      (Bytes (NewPacketWriter |> WriteCompoundTag (R_Dimension params) |> WriteString (R_WorldName params)
        |> WriteInt64 (R_HashedSeed params) |> WriteU8 (R_GameMode params) |> WriteU8 (R_PreviousGameMode params)
        |> WriteBool (R_IsDebug params) |> WriteBool (R_IsFlat params) |> WriteBool false))).

Definition brandChannel : bytes := str "minecraft:brand".
Definition serverBrand : bytes := str "lazymc".

Definition SendServerBrand (info : ClientInfo) : ST Side unit :=
  let w := NewPacketWriter |> WriteString brandChannel in
  let protocol := GetProtocol info in
  let w := if isV1_20_1 protocol then w |> Write serverBrand else w |> WriteByteArray serverBrand in
  writePacketTo (NewRawPacket (packet_id PluginMessage_ids protocol) (Bytes w)).

(** 1.0 as a [float32] *)
Definition f32_one : Z := 0x3f800000.

Definition sendSoundV1_20_1 (soundName : bytes) : ST Side unit :=
  writePacketTo (NewRawPacket (v1_20_1 NamedSoundEffect_ids)
    (Bytes (NewPacketWriter |> WriteVarInt 0 |> WriteString soundName |> WriteBool false |> WriteVarInt 0
      |> WriteInt32 0 |> WriteInt32 0 |> WriteInt32 0 |> WriteFloat32 f32_one |> WriteFloat32 f32_one |> WriteInt64 0))).

Definition SendSound (info : ClientInfo) (soundName : bytes) : ST Side unit :=
  let protocol := GetProtocol info in
  if isV1_20_1 protocol then sendSoundV1_20_1 soundName
  else
    writePacketTo (NewRawPacket (if since_1_17 protocol then v1_17 NamedSoundEffect_ids else v1_16_3 NamedSoundEffect_ids)
      (Bytes (NewPacketWriter |> WriteString soundName |> WriteVarInt 0 |> WriteInt32 0 |> WriteInt32 0 |> WriteInt32 0
        |> WriteFloat32 f32_one |> WriteFloat32 f32_one))).

Definition SendTimeUpdate (info : ClientInfo) : ST Side unit :=
  writePacketTo (NewRawPacket (packet_id TimeUpdate_ids (GetProtocol info))
    (Bytes (NewPacketWriter |> WriteInt64 0 |> WriteInt64 0))).

(** ** Titles *)

Definition displayTime : Z := 10 * 20 * 2.

Fixpoint join_newline (ls : list bytes) : bytes :=
  match ls with
  | [] => []
  | [l] => l
  | l :: ls' => l ++ [x0a] ++ join_newline ls'
  end.

(** The title and the subtitle of a message. *)
Definition title_lines (text : bytes) : bytes * bytes :=
  match filter (fun l => l <> []) (map TrimSuffix_cr (split_lines text)) with
  | [] => ([], [])
  | title :: ls => (title, join_newline ls)
  end.

Definition chatMessageBytes (text : bytes) : bytes := StringBytes (ChatMessageJSON text).

Definition titleTimes (fadeIn stay fadeOut : Z) : bytes :=
  Bytes (NewPacketWriter |> WriteInt32 fadeIn |> WriteInt32 stay |> WriteInt32 fadeOut).

Definition title_times_for (title subtitle : bytes) : bytes :=
  if bool_decide (title = [] /\ subtitle = []) then titleTimes 10 70 20 else titleTimes 0 displayTime 0.

Definition sendTitleV1_16_3 (title subtitle : bytes) : ST Side unit :=
  _ ← writePacketTo (NewRawPacket V1_16_3Title (Bytes (NewPacketWriter |> WriteU8 x00 |> Write (chatMessageBytes title))));
  _ ← writePacketTo (NewRawPacket V1_16_3Title (Bytes (NewPacketWriter |> WriteU8 x01 |> Write (chatMessageBytes subtitle))));
  writePacketTo (NewRawPacket V1_16_3Title (Bytes (NewPacketWriter |> WriteU8 x03 |> Write (title_times_for title subtitle)))).

Definition sendTitleV1_17 (title subtitle : bytes) : ST Side unit :=
  _ ← writePacketTo (NewRawPacket V1_17SetTitleText (chatMessageBytes title));
  _ ← writePacketTo (NewRawPacket V1_17SetTitleSubtitle (chatMessageBytes subtitle));
  writePacketTo (NewRawPacket V1_17SetTitleTimes (title_times_for title subtitle)).

Definition sendTitleV1_20_1 (title subtitle : bytes) : ST Side unit :=
  _ ← writePacketTo (NewRawPacket V1_20_1SetTitleText (chatMessageBytes title));
  _ ← writePacketTo (NewRawPacket V1_20_1SetTitleSubtitle (chatMessageBytes subtitle));
  writePacketTo (NewRawPacket V1_20_1SetTitleTimes (title_times_for title subtitle)).

Definition SendTitle (info : ClientInfo) (text : bytes) : ST Side unit :=
  let '(title, subtitle) := title_lines text in
  let protocol := GetProtocol info in
  if isV1_20_1 protocol then sendTitleV1_20_1 title subtitle
  else if since_1_17 protocol then sendTitleV1_17 title subtitle
  else sendTitleV1_16_3 title subtitle.

End Sending.

(** ** Reading back what is written *)

(** [jreads m e a]: on unread bytes that start with [e], [m] returns [a] and
    stops after [e]. *)
Definition jreads {A} (m : JG A) (e : bytes) (a : A) : Prop :=
  forall d p tail, (p <= length d)%nat -> drop p d = e ++ tail ->
  m (mkReader d p) = (Ret a, mkReader d (p + length e)).

Lemma jreads_ret {A} (a : A) : jreads (mret a) [] a.
Proof. intros d p tail _ _. cbn. by rewrite Nat.add_0_r. Qed.

Lemma jreads_bind {A B} (m : JG A) (k : A -> JG B) e1 e2 a b :
  jreads m e1 a -> jreads (k a) e2 b -> jreads (mbind k m) (e1 ++ e2) b.
Proof.
  intros Hm Hk d p tail Hp E. rewrite <- app_assoc in E. unfold mbind, ST_bind. rewrite (Hm d p _ Hp E).
  rewrite (Hk d _ tail); [by rewrite length_app, Nat.add_assoc| |by apply drop_add_app in E].
  apply (f_equal length) in E. rewrite length_drop, !length_app in E. lia.
Qed.

Lemma jreads_varInt v : is_i32 v -> jreads j_varInt (EncodeVarInt v) v.
Proof. intros Hv d p tail _ E. unfold j_varInt. by rewrite (codec_reads v Hv d p tail E). Qed.

Lemma jreads_bool b : jreads j_bool (bool_enc b) b.
Proof. intros d p tail _ E. unfold j_bool. cbn [rdata rpos]. rewrite (drop_lookup d p _ _ E). by destruct b. Qed.

Lemma remaining_drop d p e tail : (p <= length d)%nat -> drop p d = e ++ tail -> remaining (mkReader d p) = Zlen (e ++ tail).
Proof.
  intros Hp E. unfold remaining, Zlen. cbn [rdata rpos]. rewrite <- E, length_drop. lia.
Qed.

Lemma jreads_slice s : jreads (j_slice (Zlen s)) s s.
Proof.
  intros d p tail Hp E. unfold j_slice. rewrite (remaining_drop d p s tail Hp E). unfold Zlen. rewrite length_app.
  rewrite (proj2 (Z.ltb_ge _ 0)), (proj2 (Z.ltb_ge _ _)) by lia. cbn [orb].
  unfold unread, advance. cbn [rdata rpos]. by rewrite E, Nat2Z.id, take_app_length.
Qed.

Lemma jreads_str s : Zlen s < 2 ^ 31 -> jreads j_str (str_enc s) s.
Proof.
  intros Hs. assert (is_i32 (Zlen s)) by (unfold is_sint, Zlen in *; zpow; lia).
  unfold j_str, str_enc. rewrite sintw_id by done. eapply jreads_bind; [by apply jreads_varInt|apply jreads_slice].
Qed.

Lemma jreads_fixed b : jreads (j_fixed (length b)) b b.
Proof.
  intros d p tail Hp E. unfold j_fixed. rewrite (remaining_drop d p b tail Hp E). unfold Zlen. rewrite length_app.
  rewrite (proj2 (Z.ltb_ge _ _)) by lia. unfold unread, advance. cbn [rdata rpos]. by rewrite E, take_app_length.
Qed.

Lemma jreads_skip b : jreads (j_skip (Zlen b)) b tt.
Proof.
  intros d p tail Hp E. unfold j_skip. rewrite (remaining_drop d p b tail Hp E). unfold Zlen. rewrite length_app.
  rewrite (proj2 (Z.ltb_ge _ 0)), (proj2 (Z.ltb_ge _ _)) by lia. unfold advance. cbn [rdata rpos orb]. by rewrite Nat2Z.id.
Qed.

Lemma jreads_two x y : jreads j_two [x; y] (x, y).
Proof. unfold j_two. change [x; y] with ([x; y] ++ []). eapply jreads_bind; [apply (jreads_fixed [x; y])|apply jreads_ret]. Qed.

Lemma jreads_seed v : is_i64 v -> jreads j_seed (be_bytes 8 (u64 v)) v.
Proof.
  intros Hv. unfold j_seed. rewrite <- (app_nil_r (be_bytes 8 _)).
  eapply jreads_bind; [rewrite <- (be_bytes_length 8 (u64 v)) at 1; apply jreads_fixed|].
  rewrite be_val_bytes. change (256 ^ Z.of_nat 8) with (2 ^ 64). rewrite (Z.mod_small (u64 v)) by (apply (uintw_range 64); lia).
  rewrite (sintw_uintw 64 v) by done. apply jreads_ret.
Qed.

Lemma jreads_strings l : Forall (fun s => Zlen s < 2 ^ 31) l -> jreads (j_strings (length l)) (concat (map str_enc l)) l.
Proof.
  induction 1 as [|s l Hs _ IH]; cbn [length j_strings map concat]; [apply jreads_ret|].
  eapply jreads_bind; [by apply jreads_str|]. rewrite <- (app_nil_r (concat _)). eapply jreads_bind; [exact IH|apply jreads_ret].
Qed.

Definition strings_enc (l : list bytes) : bytes := EncodeVarInt (i32 (Zlen l)) ++ concat (map str_enc l).

Lemma jreads_worldNames l : Forall (fun s => Zlen s < 2 ^ 31) l -> Zlen l < 2 ^ 31 ->
  jreads j_worldNames (strings_enc l) l.
Proof.
  unfold strings_enc.
  intros Hl Hn. assert (is_i32 (Zlen l)) by (unfold is_sint, Zlen in *; zpow; lia). rewrite sintw_id by done.
  unfold j_worldNames. eapply jreads_bind; [by apply jreads_varInt|].
  rewrite (proj2 (Z.ltb_ge _ 0)) by (unfold Zlen; lia). unfold Zlen. rewrite Nat2Z.id. by apply jreads_strings.
Qed.

Definition compound_enc (c : Compound) : bytes := [TagCompound] ++ nstr_enc [] ++ tag_enc (TCompound c).

Lemma wbuf_WriteCompoundTag c (w : PacketWriter) : compound_ok c -> wbuf (WriteCompoundTag c w) = wbuf w ++ compound_enc c.
Proof. intros H. exact (WriteCompoundTag_contents (W := PacketWriter) c w H). Qed.

Lemma jreads_nbt c : compound_ok c -> jreads j_nbt (compound_enc c) c.
Proof.
  intros Hc d p tail Hp E. unfold j_nbt, unread. cbn [rdata rpos]. rewrite E.
  pose proof (ReadCompoundTag_enc c [] tail Hc) as ER. cbn zeta in ER. rewrite app_nil_l in ER.
  change ([TagCompound] ++ _ ++ tag_enc (TCompound c)) with (compound_enc c) in ER. cbn [length Nat.add] in ER.
  rewrite ER. unfold Remaining, Zlen. cbn [ndata npos length]. rewrite length_app.
  apply (f_equal length) in E. rewrite length_drop, length_app in E. do 2 f_equal. lia.
Qed.

Lemma wbuf_WriteStrings l w : wbuf (WriteStrings l w) = wbuf w ++ strings_enc l.
Proof.
  unfold WriteStrings, strings_enc. rewrite app_assoc, <- wbuf_WriteVarInt.
  generalize (WriteVarInt (i32 (Zlen l)) w). induction l as [|s l IH]; intros w'; cbn [fold_left map concat].
  - by rewrite app_nil_r.
  - by rewrite IH, wbuf_WriteString, <- app_assoc.
Qed.

Lemma wbuf_WriteUint32 v w : wbuf (WriteUint32 v w) = wbuf w ++ be_bytes 4 v. Proof. done. Qed.
Lemma wbuf_WriteInt32 v w : wbuf (WriteInt32 v w) = wbuf w ++ be_bytes 4 (u32 v). Proof. done. Qed.
Lemma wbuf_WriteInt64 v w : wbuf (WriteInt64 v w) = wbuf w ++ be_bytes 8 (u64 v). Proof. done. Qed.

#[export] Hint Rewrite wbuf_WriteUint32 wbuf_WriteInt32 wbuf_WriteInt64 wbuf_WriteStrings : wire.
#[export] Hint Rewrite wbuf_WriteCompoundTag using done : wire.

(** ** Join game *)

Definition params_ok (p : JoinGameParams) : Prop :=
  compound_ok (P_DimensionCodec p) /\ compound_ok (P_Dimension p)
  /\ is_i32 (P_MaxPlayers p) /\ is_i32 (P_ViewDistance p) /\ is_i32 (P_SimulationDistance p).

(** What a client, or the probe, finds in the lobby's join game packet. *)
Definition lobby_view (protocol : option Z) (p : JoinGameParams) : JoinGameData :=
  let modern := isV1_20_1 protocol in
  mkJoinGameData (Some (P_Hardcore p)) (Some x03) (Some xff) (Some DefaultWorldNames)
    (if modern then None else Some (P_Dimension p)) (Some (P_DimensionCodec p))
    (if modern then Some (str "minecraft:overworld") else None) (Some (str "lazymc:lobby")) (Some 0)
    (Some (P_MaxPlayers p)) (Some (P_ViewDistance p))
    (if modern then Some (if P_SimulationDistance p <=? 0 then P_ViewDistance p else P_SimulationDistance p) else None)
    (Some (P_ReducedDebugInfo p)) (Some (P_EnableRespawnScreen p)) (Some (P_IsDebug p)) (Some (P_IsFlat p)).

Lemma run_JG_reads m e d : jreads m e d -> run_JG m e = Ret d.
Proof. intros H. unfold run_JG. rewrite (H e 0%nat []); [done|lia|by rewrite drop_0, app_nil_r]. Qed.

Lemma jreads_names : jreads j_worldNames (strings_enc DefaultWorldNames) DefaultWorldNames.
Proof. apply jreads_worldNames; [|done]. repeat (apply Forall_cons; split; [done|]). apply Forall_nil_2. Qed.

(** [jg_reads] reads a packet field by field. *)
Ltac jg_field :=
  lazymatch goal with
  | |- jreads j_bool _ _ => apply jreads_bool
  | |- jreads j_two _ _ => apply jreads_two
  | |- jreads j_varInt _ _ => apply jreads_varInt; assumption
  | |- jreads j_nbt _ _ => apply jreads_nbt; assumption
  | |- jreads j_str _ _ => apply jreads_str; reflexivity
  | |- jreads j_seed _ _ => apply jreads_seed; split; vm_compute; congruence
  | |- jreads j_worldNames _ _ => apply jreads_names
  end.
Ltac jg_reads := repeat (eapply jreads_bind; [jg_field|]; cbn beta iota).

(** The join game packet of the lobby says what the lobby means, in every
    layout. For each client protocol, the packet id is the one this protocol's
    decoder recognises, and decoding the packet gives back the parameters:
    spectator mode, the lobby world, the default world names, the dimension
    codec, and the limits and flags; with the 1.20.1 layout also the
    simulation distance, which falls back to the view distance. *)
Lemma lobby_join_game_roundtrip (info : ClientInfo) (params : JoinGameParams) :
  params_ok params ->
  let packet := NewRawPacket (JoinGamePacketID (GetProtocol info)) (LobbyJoinGameData info params) in
  JoinGameIsPacket info (ID packet) = true
  /\ JoinGameDataFromPacket info packet = Ret (lobby_view (GetProtocol info) params).
Proof.
  intros (Hc & Hd & Hm & Hv & Hs) packet. split.
  - unfold packet, JoinGameIsPacket, JoinGamePacketID. cbn [ID].
    destruct (isV1_20_1 (GetProtocol info)), (before_1_17 (GetProtocol info)); by apply bool_decide_eq_true.
  - unfold packet, JoinGameDataFromPacket, LobbyJoinGameData, lobby_view, decodeJoinGameV1_17. cbn [Data].
    assert (is_i32 0) as H0 by (split; vm_compute; congruence).
    destruct (isV1_20_1 (GetProtocol info)).
    + unfold lobbyJoinGameDataV1_20_1, Bytes. set (sim := if _ <=? 0 then _ else _).
      assert (is_i32 sim) by (unfold sim; by destruct (_ <=? 0)).
      autorewrite with wire. rewrite app_nil_l, <- !app_assoc. apply run_JG_reads.
      eapply jreads_bind; [apply (jreads_skip (be_bytes 4 (u32 0)))|]. eapply jreads_bind; [apply jreads_bool|].
      rewrite (app_assoc [x03]). jg_reads.
      apply (jreads_bind (mret tt) _ [] (EncodeVarInt 0) tt); [apply jreads_ret|].
      rewrite <- (app_nil_r (EncodeVarInt 0)). jg_reads. apply jreads_ret.
    + assert (jreads_16 : decodeJoinGameV1_16_3 (Bytes (NewPacketWriter |> WriteUint32 0 |> WriteBool (P_Hardcore params)
        |> WriteU8 x03 |> WriteU8 xff |> WriteStrings DefaultWorldNames
        |> WriteCompoundTag (P_DimensionCodec params) |> WriteCompoundTag (P_Dimension params)
        |> WriteString (str "lazymc:lobby") |> WriteInt64 0
        |> WriteVarInt (P_MaxPlayers params) |> WriteVarInt (P_ViewDistance params)
        |> WriteBool (P_ReducedDebugInfo params) |> WriteBool (P_EnableRespawnScreen params)
        |> WriteBool (P_IsDebug params) |> WriteBool (P_IsFlat params)))
        = Ret (lobby_view None params)); [|destruct (before_1_17 _); exact jreads_16].
      unfold Bytes. autorewrite with wire. rewrite app_nil_l, <- !app_assoc. apply run_JG_reads.
      eapply jreads_bind; [apply (jreads_skip (be_bytes 4 0))|]. eapply jreads_bind; [apply jreads_bool|].
      rewrite (app_assoc [x03]), <- (app_nil_r (bool_enc (P_IsFlat params))). jg_reads. apply jreads_ret.
Qed.

Definition modern_info : ClientInfo := mkClientInfo (Some 763) None (Some (str "Steve")) None.
Definition sample_params : JoinGameParams :=
  mkParams [(str "height", TInt 16)] [] 20 10 0 false true false true false.

Lemma lobby_join_game_roundtrip_witness :
  JoinGameIsPacket modern_info (JoinGamePacketID (Some 763)) = true
  /\ JoinGameDataFromPacket modern_info (NewRawPacket (JoinGamePacketID (Some 763)) (LobbyJoinGameData modern_info sample_params))
     = Ret (lobby_view (Some 763) sample_params).
Proof.
  apply (lobby_join_game_roundtrip modern_info sample_params). split_and!; try (split; vm_compute; congruence).
  - apply tag_ok_compound. split; [apply (bool_decide_unpack _); vm_compute; exact I|].
    apply Forall_cons. split; [|apply Forall_nil_2]. split; [reflexivity|]. split; [discriminate|].
    split; vm_compute; congruence.
  - apply tag_ok_compound. split; [apply NoDup_nil_2|apply Forall_nil_2].
Defined.

(** ** Decoding ends *)

Lemma ends_varInt : ends j_varInt.
Proof. intros r. unfold j_varInt. by destruct (varInt r) as [[]]. Qed.
Lemma ends_bool : ends j_bool.
Proof. intros r. unfold j_bool. by destruct (rdata r !! rpos r). Qed.
Lemma ends_slice n : ends (j_slice n).
Proof. intros r. unfold j_slice. by destruct (_ || _). Qed.
Lemma ends_str : ends j_str.
Proof. apply ends_bind; [apply ends_varInt|intros; apply ends_slice]. Qed.
Lemma ends_skip n : ends (j_skip n).
Proof. intros r. unfold j_skip. by destruct (_ || _). Qed.
Lemma ends_fixed n : ends (j_fixed n).
Proof. intros r. unfold j_fixed. by destruct (_ <? _). Qed.
Lemma ends_two : ends j_two.
Proof. apply ends_bind; [apply ends_fixed|]. by intros [|x [|y [|]]]. Qed.
Lemma ends_seed : ends j_seed.
Proof. apply ends_bind; [apply ends_fixed|done]. Qed.
Lemma ends_strings n : ends (j_strings n).
Proof.
  induction n as [|n IH]; cbn [j_strings]; [done|]. apply ends_bind; [apply ends_str|]. intros s. by apply ends_bind.
Qed.
Lemma ends_worldNames : ends j_worldNames.
Proof. apply ends_bind; [apply ends_varInt|]. intros n. destruct (n <? 0); [done|apply ends_strings]. Qed.
Lemma ends_nbt : ends j_nbt.
Proof.
  intros r. unfold j_nbt. pose proof (ReadCompoundTag_fuel (mkNReader (unread r) 0)).
  by destruct (ReadCompoundTag _) as [[]| | |].
Qed.

#[export] Hint Resolve ends_varInt ends_bool ends_str ends_skip ends_two ends_seed ends_worldNames ends_nbt ends_ret : ends.

Lemma JoinGameDataFromPacket_ends info packet : JoinGameDataFromPacket info packet <> NoFuel.
Proof.
  unfold JoinGameDataFromPacket, decodeJoinGameV1_17, decodeJoinGameV1_20_1, decodeJoinGameV1_16_3, run_JG.
  destruct (isV1_20_1 _); [|destruct (before_1_17 _)].
  all: match goal with |- fst (?m _) <> _ => assert (ends m) as H; [|apply H] end.
  all: repeat first [ apply ends_bind; [solve [eauto with ends]|intros ?] | match goal with x : (_ * _)%type |- _ => destruct x end ].
  all: try apply ends_ret.
  all: apply ends_bind; [match goal with |- context [if ?b then _ else _] => destruct b end; [apply ends_bind; eauto with ends|apply ends_ret]|intros ?].
  all: apply ends_bind; eauto with ends.
Qed.

(** Clients newer than 1.20.1 get the packet ids and layouts of 1.17, whose
    fields had changed by then: the decoder of their join game packet is the
    one of 1.16. *)
Lemma newer_protocols_use_1_17 (p : Z) (packet : RawPacket) :
  763 < p ->
  let info := mkClientInfo (Some p) None None None in
  JoinGamePacketID (Some p) = x26 /\ packet_id Respawn_ids (Some p) = x3d
  /\ JoinGameDataFromPacket info packet = decodeJoinGameV1_16_3 (Data packet).
Proof.
  intros Hp info. unfold JoinGamePacketID, packet_id, JoinGameDataFromPacket, isV1_20_1, info. cbn [GetProtocol Info_Protocol].
  rewrite bool_decide_eq_false_2 by (intros [= E]; unfold ProtocolV1_20_1 in E; lia).
  unfold before_1_17, since_1_17, ProtocolV1_17. rewrite (proj2 (Z.ltb_ge p 755)), (proj2 (Z.leb_le 755 p)) by lia. done.
Qed.
