(* ===== verification/ForgeLogin.v ===== *)
(** The Forge login exchange: [src/forge.go].

    A modern Forge client is relayed live once ([relay]), the exchange is
    recorded, and later clients and later backend connections are served from
    the recording. The older protocol gets synthesised replies
    ([respondLoginPluginRequest]). The field reader [packetDecoder] of the
    source is the code of [packetReader] again, so its methods are those of
    [Wire]. *)
From S2P Require Import Prelude VarInt Wire Packet Stream Config Net Packets Access Process GoFloat Nbt JoinGame ServerState Cipher Link PlayPackets.

Definition forgeStatusMagicV2 : bytes := [x00] ++ str "FML2" ++ [x00].
Definition forgeStatusMagicV3 : bytes := [x00] ++ str "FML3" ++ [x00].

Definition forgeStatusMagic (protocol : Z) : bytes :=
  if ProtocolV1_20_1 <=? protocol then forgeStatusMagicV3 else forgeStatusMagicV2.

(** [strings.Contains] *)
Fixpoint Contains (s sub : bytes) : bool :=
  bool_decide (take (length sub) s = sub) || match s with [] => false | _ :: s' => Contains s' sub end.

Definition forgeHandshakeMarker (info : ClientInfo) : bytes :=
  match Info_Handshake info with
  | None => str "absent"
  | Some h =>
      if Contains (ServerAddr h) forgeStatusMagicV3 then str "FML3"
      else if Contains (ServerAddr h) forgeStatusMagicV2 then str "FML2"
      else str "absent"
  end.

Lemma Contains_app a sub b : Contains (a ++ sub ++ b) sub = true.
Proof.
  induction a as [|x a IH]; cbn [app Contains]; [|by rewrite IH, orb_true_r].
  assert (bool_decide (take (length sub) (sub ++ b) = sub) = true) as H by (apply bool_decide_eq_true; by rewrite take_app_length).
  destruct (sub ++ b); cbn [Contains]; by rewrite H.
Qed.

(** A handshake to a Forge server, as the gateway sends it, is recognised. *)
Lemma forge_marker_recognised addr protocol v port next p n pr :
  let h := mkHandshake v (addr ++ forgeStatusMagic protocol) port next in
  763 <= protocol -> forgeHandshakeMarker (mkClientInfo p (Some h) n pr) = str "FML3".
Proof.
  intros h Hp. unfold forgeHandshakeMarker, h, forgeStatusMagic. cbn [Info_Handshake ServerAddr].
  rewrite (proj2 (Z.leb_le ProtocolV1_20_1 protocol)) by done.
  by rewrite <- (app_nil_r forgeStatusMagicV3) at 1; rewrite Contains_app.
Qed.

Definition forgeChannelLoginWrapper : bytes := str "fml:loginwrapper".
Definition forgeChannelHandshake : bytes := str "fml:handshake".

Definition maxForgeLoginExchanges : Z := 512.
Definition maxForgeLoginCacheBytes : Z := Z.shiftl 8 20.

Definition ForgeModList : byte := x01.
Definition ForgeModListReply : byte := x02.
Definition ForgeAcknowledgement : byte := x63.

(** ** The live relay *)

Record forgeLoginRelay := mkRelay {
  fr_inbound : Side; (* client, inbound and inboundBuf *)
  fr_exchanges : list ForgeLoginExchange;
  fr_clientID : Z; (* int32 *)
  fr_cacheBytes : Z }.

Definition newForgeLoginRelay (inbound : Side) : forgeLoginRelay := mkRelay inbound [] 0 0.

(** The relay with the backend connection it works for. *)
Record RelayWorld := mkRelayWorld { rw_relay : forgeLoginRelay; rw_backend : Side }.

Definition set_inbound (s : Side) (r : forgeLoginRelay) : forgeLoginRelay :=
  mkRelay s (fr_exchanges r) (fr_clientID r) (fr_cacheBytes r).

Definition inspectForgeLoginWrapper (request : LoginPluginRequest) : option (bytes * Z) :=
  if negb (bool_decide (Req_Channel request = forgeChannelLoginWrapper)) then None
  else decode_with (
    innerChannel ← read_str 32767;
    if negb (bool_decide (innerChannel = forgeChannelHandshake)) then (fun r => (None, r)) : Rd _
    else
      innerLength ← varInt;
      (fun r => if (innerLength <=? 0) || (remaining r <? innerLength) then (None, r)
                else (innerPacketID ← varInt; mret (innerChannel, innerPacketID) : Rd _) r) : Rd _)
    (Req_Data request).

Section Forge.

Context `{A0 : AES} `{ZL : Zlib}.

Definition writeForgeLoginResponse (messageID : Z) (success : bool) (data : bytes) : ST Side unit :=
  writePacketTo (NewRawPacket PacketServerLoginPluginResponse
    (Bytes (NewPacketWriter |> LoginPluginResponse_Encode (mkLoginPluginResponse messageID success data)))).

Definition on_inbound {A} (m : ST Side A) : ST RelayWorld A :=
  zoom (fun w => fr_inbound (rw_relay w)) (fun s w => mkRelayWorld (set_inbound s (rw_relay w)) (rw_backend w)) m.
Definition on_backend {A} (m : ST Side A) : ST RelayWorld A :=
  zoom rw_backend (fun s w => mkRelayWorld (rw_relay w) s) m.

(** [r.exchanges = append(...)] and [r.cacheBytes += ...]. *)
Definition record_exchange (e : ForgeLoginExchange) (size : Z) (r : forgeLoginRelay) : forgeLoginRelay :=
  mkRelay (fr_inbound r) (fr_exchanges r ++ [e]) (fr_clientID r) (fr_cacheBytes r + size).

Definition on_relay (f : forgeLoginRelay -> forgeLoginRelay) : ST RelayWorld unit :=
  changing (fun w => mkRelayWorld (f (rw_relay w)) (rw_backend w)).

(** The one-way message of Forge: inner packet 5 of the handshake channel. *)
Definition isNoResponse (request : LoginPluginRequest) : bool :=
  match inspectForgeLoginWrapper request with
  | Some (innerChannel, innerPacketID) => bool_decide (innerChannel = forgeChannelHandshake) && (innerPacketID =? 5)
  | None => false
  end.

(** The part after the request went to the client. *)
Definition relay_response (request : LoginPluginRequest) (clientMessageID : Z) (encodedRequest : bytes) : ST RelayWorld unit :=
  answer ← on_inbound side_read;
  match answer with
  | None => bad
  | Some (responsePacket, _) =>
      _ ← check (bool_decide (ID responsePacket = PacketServerLoginPluginResponse));
      response ← of_option (DecodeLoginPluginResponse (Data responsePacket));
      _ ← check (Resp_MessageID response =? clientMessageID);
      cacheBytes ← reading (fun w => fr_cacheBytes (rw_relay w));
      _ ← check (negb ((MaxPacketLength <? Zlen (Resp_Data response))
            || (maxForgeLoginCacheBytes <? cacheBytes + Zlen encodedRequest + Zlen (Resp_Data response))));
      _ ← on_relay (record_exchange (mkExchange encodedRequest (Resp_Successful response) (Resp_Data response) false)
                      (Zlen encodedRequest + Zlen (Resp_Data response)));
      on_backend (writeForgeLoginResponse (Req_MessageID request) (Resp_Successful response) (Resp_Data response))
  end.

Definition next_clientID (request : LoginPluginRequest) (r : forgeLoginRelay) : Z * forgeLoginRelay :=
  if decide (Req_Channel request = forgeChannelLoginWrapper)
  then (i32 (fr_clientID r + 1), mkRelay (fr_inbound r) (fr_exchanges r) (i32 (fr_clientID r + 1)) (fr_cacheBytes r))
  else (Req_MessageID request, r).

Definition relay (request : LoginPluginRequest) : ST RelayWorld unit :=
  count ← reading (fun w => Zlen (fr_exchanges (rw_relay w)));
  _ ← check (negb (maxForgeLoginExchanges <=? count));
  clientMessageID ← reading (fun w => fst (next_clientID request (rw_relay w)));
  _ ← on_relay (fun r => snd (next_clientID request r));
  let encodedRequest := encodeLoginPluginRequest (mkLoginPluginRequest clientMessageID (Req_Channel request) (Req_Data request)) in
  cacheBytes ← reading (fun w => fr_cacheBytes (rw_relay w));
  _ ← check (negb ((MaxPacketLength <? Zlen encodedRequest) || (maxForgeLoginCacheBytes <? cacheBytes + Zlen encodedRequest)));
  _ ← on_inbound (writePacketTo (NewRawPacket PacketClientLoginPluginRequest encodedRequest));
  if isNoResponse request
  then on_relay (record_exchange (mkExchange encodedRequest false [] true) (Zlen encodedRequest))
  else relay_response request clientMessageID encodedRequest.

Definition relayForgeLoginRequest (request : LoginPluginRequest) : ST RelayWorld unit :=
  if negb (bool_decide (Req_Channel request = forgeChannelLoginWrapper))
  then on_backend (writeForgeLoginResponse (Req_MessageID request) false [])
  else relay request.

(** [commit]: what the server's cache becomes. *)
Definition commit (r : forgeLoginRelay) : Op unit :=
  match fr_exchanges r with [] => mret tt | _ => SetForgeLoginCache (fr_exchanges r) end.

(** ** Serving from the recording *)

Definition cachedForgeRequestMatches (exchange : ForgeLoginExchange) (request : LoginPluginRequest) : bool :=
  match DecodeLoginPluginRequest (Ex_Request exchange) with
  | Some cached => bool_decide (Req_Channel cached = Req_Channel request) && bool_decide (Req_Data cached = Req_Data request)
  | None => false
  end.

Definition replayForgeLoginResponse (exchange : ForgeLoginExchange) (messageID : Z) : ST Side unit :=
  writeForgeLoginResponse messageID (Ex_Success exchange) (Ex_Data exchange).

(** The branch of [connectToServerNoTimeout] that answers a backend from the
    recording; the result is the new replay index. *)
Definition cached_response (cache : list ForgeLoginExchange) (index : nat) (request : LoginPluginRequest) : ST Side nat :=
  match cache !! index with
  | None => _ ← writeForgeLoginResponse (Req_MessageID request) false []; mret index
  | Some exchange =>
      _ ← check (cachedForgeRequestMatches exchange request);
      if Ex_NoResponse exchange then mret (S index)
      else _ ← replayForgeLoginResponse exchange (Req_MessageID request); mret (S index)
  end.

(** Draining the answers of a client: a round per packet; a timeout and a
    closed connection end it without error. *)
Fixpoint drainForgeResponses (fuel : nat) (count : nat) : ST Side unit := fun s =>
  match count with
  | O => (Ret tt, s)
  | S count' =>
      match fuel with
      | O => (NoFuel, s)
      | S fuel' =>
          match side_ReadPacket s with
          | (Failed (ErrRead ErrTimeout), s) => (Ret tt, s)
          | (Failed _, s) => (Bad, s)
          | (Closed, s) => (Ret tt, s)
          | (Diverges, s) => (NoFuel, s)
          | (GotPacket packet _, s) =>
              if bool_decide (cstate (side_client s) = ClientStateLogin)
                 && bool_decide (ID packet = PacketServerLoginPluginResponse)
              then drainForgeResponses fuel' count' s
              else drainForgeResponses fuel' count s
          end
      end
  end.

(** Every round takes at least a byte: one more than the bytes of the stream
    is enough. *)
Definition drain (count : nat) : ST Side unit := fun s => drainForgeResponses (S (length (side_stream s))) count s.

Definition responsesExpected (cache : list ForgeLoginExchange) : nat := length (filter (fun e => Ex_NoResponse e = false) cache).

Definition replayForgeLoginPayload (cache : list ForgeLoginExchange) : ST Side unit :=
  _ ← each (fun e => writePacketTo (NewRawPacket PacketClientLoginPluginRequest (Ex_Request e))) cache;
  drain (responsesExpected cache).

Definition replayLoginPayload (payload : list bytes) : ST Side unit :=
  _ ← each (fun p => _ ← attempt (side_Write p); mret tt) payload;
  drain (length payload).

(** ** The synthesised replies of the older protocol *)

Record forgeLoginWrapper := mkWrapper { fw_messageID : Z; fw_channel : bytes; fw_packetID : byte; fw_data : bytes }.

Definition decodeForgeLoginPacket (client : Client) (request : LoginPluginRequest) : option forgeLoginWrapper :=
  if negb (bool_decide (Req_Channel request = forgeChannelLoginWrapper)) then None
  else
    '(channel, tail) ← decode_with (channel ← read_str 32767; tail ← rest; mret (channel, tail)) (Req_Data request);
    inner ← DecodeWithoutLen client tail;
    Some (mkWrapper (Req_MessageID request) channel (ID inner) (Data inner)).

(** [packetDecoder] is a second copy of the field reader. *)
Definition packetDecoder : Type := packetReader.
Definition newPacketDecoder (data : bytes) : packetDecoder := mkReader data 0.
Definition packetDecoder_varInt : Rd Z := varInt.
Definition packetDecoder_str (maxLen : Z) : Rd bytes := read_str maxLen.

Fixpoint read_strs (n : nat) : Rd (list bytes) :=
  match n with
  | O => mret []
  | S n' => s ← packetDecoder_str 32767; l ← read_strs n'; mret (s :: l)
  end.

Definition strVec : Rd (list bytes) :=
  n ← packetDecoder_varInt; if n <? 0 then (fun r => (None, r)) : Rd _ else read_strs (Z.to_nat n).

Fixpoint read_pairs (n : nat) : Rd (list (bytes * bytes)) :=
  match n with
  | O => mret []
  | S n' => a ← packetDecoder_str 32767; b ← packetDecoder_str 32767; l ← read_pairs n'; mret ((a, b) :: l)
  end.

Definition strPairVec : Rd (list (bytes * bytes)) :=
  n ← packetDecoder_varInt; if n <? 0 then (fun r => (None, r)) : Rd _ else read_pairs (Z.to_nat n).

Definition WritePairs (l : list (bytes * bytes)) (w : PacketWriter) : PacketWriter :=
  fold_left (fun w p => w |> WriteString (fst p) |> WriteString (snd p)) l (WriteVarInt (i32 (Zlen l)) w).

Definition forgeModListReply (data : bytes) : option bytes :=
  '(modNames, channels, registries) ←
    fst ((modNames ← strVec; channels ← strPairVec; registries ← strVec; mret (modNames, channels, registries)) (newPacketDecoder data));
  Some (Bytes (NewPacketWriter |> WriteStrings modNames |> WritePairs channels
                |> WritePairs (map (fun s => (s, [])) registries))).

(** The packet of a synthesised reply. *)
Definition respondForgeLoginPacket (messageID : Z) (forgeChannel : bytes) (forgePacketID : byte) (forgeData : bytes)
  : ST Side unit := fun s =>
  match EncodeWithoutLen (NewRawPacket forgePacketID forgeData) (side_client s) with
  | None => (Bad, s)
  | Some forgePayload =>
      writePacketTo (NewRawPacket PacketServerLoginPluginResponse
        (Bytes (NewPacketWriter |> WriteString forgeChannel |> Write forgePayload))) s
  end.

Definition respondLoginPluginRequest (request : LoginPluginRequest) : ST Side unit :=
  client ← reading side_client;
  wrapper ← of_option (decodeForgeLoginPacket client request);
  let isModList := bool_decide (fw_channel wrapper = forgeChannelHandshake) && bool_decide (fw_packetID wrapper = ForgeModList) in
  if negb isModList
  then respondForgeLoginPacket (fw_messageID wrapper) (fw_channel wrapper) ForgeAcknowledgement []
  else
    reply ← of_option (forgeModListReply (fw_data wrapper));
    respondForgeLoginPacket (fw_messageID wrapper) (fw_channel wrapper) ForgeModListReply reply.

End Forge.

(** ** The bounds of the recording *)

Definition exchange_size (e : ForgeLoginExchange) : Z := Zlen (Ex_Request e) + Zlen (Ex_Data e).
Definition total_size (es : list ForgeLoginExchange) : Z := fold_right (fun e n => exchange_size e + n) 0 es.

Definition relay_ok (r : forgeLoginRelay) : Prop :=
  Zlen (fr_exchanges r) <= 512 /\ fr_cacheBytes r = total_size (fr_exchanges r) /\ fr_cacheBytes r <= 8388608
  /\ Forall (fun e => Zlen (Ex_Request e) <= MaxPacketLength /\ Zlen (Ex_Data e) <= MaxPacketLength) (fr_exchanges r).

Lemma total_size_snoc es e : total_size (es ++ [e]) = total_size es + exchange_size e.
Proof. induction es as [|x es IH]; cbn [app total_size fold_right] in *; [lia|]. unfold total_size in IH. rewrite IH. lia. Qed.

Lemma record_ok e r :
  relay_ok r -> Zlen (fr_exchanges r) < 512 -> fr_cacheBytes r + exchange_size e <= 8388608 ->
  Zlen (Ex_Request e) <= MaxPacketLength -> Zlen (Ex_Data e) <= MaxPacketLength ->
  relay_ok (record_exchange e (exchange_size e) r).
Proof.
  intros (H1 & H2 & H3 & H4) Hn Hs Hr Hd. unfold relay_ok, record_exchange. cbn. split_and!.
  - unfold Zlen in *. rewrite length_app. cbn [length]. lia.
  - by rewrite total_size_snoc, H2.
  - done.
  - apply Forall_app. split; [done|]. by repeat constructor.
Qed.

Section ForgeSpec.

Context `{A0 : AES} `{ZL : Zlib}.

Lemma relay_response_ok request id e :
  Zlen e <= MaxPacketLength ->
  spec (fun w => relay_ok (rw_relay w) /\ Zlen (fr_exchanges (rw_relay w)) < 512) (relay_response request id e)
    (fun _ w => relay_ok (rw_relay w)) (fun w => relay_ok (rw_relay w)).
Proof.
  intros He. unfold relay_response.
  eapply spec_bind.
  { eapply (spec_weaken (on_inbound side_read)
      (fun w => relay_ok (rw_relay w) /\ Zlen (fr_exchanges (rw_relay w)) < 512)
      (fun w => relay_ok (rw_relay w) /\ Zlen (fr_exchanges (rw_relay w)) < 512)); [apply spec_zoom| | |]; try done.
    by intros w [? ?]. }
  intros [[p raw]|]; [|apply spec_bad; by intros w [? _]]. cbn beta iota.
  eapply spec_bind; [apply spec_check; by intros w [? _]|intros ?; cbn beta].
  eapply spec_bind; [apply spec_of_option; by intros w [[? _] _]|intros response; cbn beta].
  eapply spec_bind; [apply spec_check; by intros w [[[? _] _] _]|intros ?; cbn beta].
  eapply spec_bind; [apply spec_reading|intros cb; cbn beta].
  eapply spec_bind; [apply spec_check; by intros w [[[[[? _] _] _] _] _]|intros ?; cbn beta].
  eapply spec_bind; [apply spec_changing|intros ?; cbn beta].
  eapply (spec_weaken _ _ (fun w => relay_ok (rw_relay w))); [apply spec_zoom; by intros| |done|done].
  intros w (w0 & [[((((Hok & Hn) & _) & _) & _) Hcb] Hb] & ->). cbn [rw_relay].
  apply negb_true_iff, orb_false_iff in Hb as [Hd%Z.ltb_ge Hs%Z.ltb_ge].
  change maxForgeLoginCacheBytes with 8388608 in Hs. subst cb.
  apply record_ok; try done. unfold exchange_size. cbn. lia.
Qed.

Lemma relay_request_ok request :
  spec (fun w => relay_ok (rw_relay w)) (relay request) (fun _ w => relay_ok (rw_relay w)) (fun w => relay_ok (rw_relay w)).
Proof.
  unfold relay.
  eapply spec_bind; [apply spec_reading|intros count; cbn beta].
  eapply spec_bind; [apply spec_check; by intros w [? _]|intros ?; cbn beta].
  eapply spec_bind; [apply spec_reading|intros id; cbn beta].
  eapply spec_bind; [apply spec_changing|intros ?; cbn beta]. cbn zeta.
  eapply spec_bind; [apply spec_reading|intros cb; cbn beta].
  set (e := encodeLoginPluginRequest _).
  eapply (spec_bind _ _ _ _ (fun _ w => (relay_ok (rw_relay w) /\ Zlen (fr_exchanges (rw_relay w)) < 512)
    /\ Zlen e <= MaxPacketLength /\ fr_cacheBytes (rw_relay w) + Zlen e <= 8388608)).
  { eapply spec_weaken; [apply spec_check| | |]; [intros w Hw; exact Hw|intros w Hw; exact Hw| |].
    - intros _ w [[(w0 & [[[Hok ->] Hc%negb_true_iff] ->] & ->) ->] Hb]. cbn [rw_relay].
      apply negb_true_iff, orb_false_iff in Hb as [Hd%Z.ltb_ge Hs%Z.ltb_ge]. apply Z.leb_gt in Hc.
      change maxForgeLoginCacheBytes with 8388608 in Hs. change maxForgeLoginExchanges with 512 in Hc.
      revert Hs. cbn [rw_relay]. unfold next_clientID. by destruct (decide _).
    - intros w [(w0 & [[[Hok ->] _] _] & ->) _]. cbn [rw_relay]. unfold next_clientID. by destruct (decide _). }
  intros ?. cbn beta. eapply spec_bind.
  { eapply (spec_weaken _ _ (fun w => (relay_ok (rw_relay w) /\ Zlen (fr_exchanges (rw_relay w)) < 512)
      /\ Zlen e <= MaxPacketLength /\ fr_cacheBytes (rw_relay w) + Zlen e <= 8388608));
      [apply spec_zoom; by intros|done|intros ? ? Hw; exact Hw|by intros w [[? _] _]]. }
  intros ?. cbn beta. destruct (isNoResponse request).
  - eapply spec_weaken; [apply spec_changing|intros w Hw; exact Hw| |intros w Hw; exact Hw].
    intros _ w (w0 & [[Hok Hn] [He Hs]] & ->). cbn [rw_relay].
    clearbody e. assert (exchange_size (mkExchange e false [] true) = Zlen e) as Hz
      by (unfold exchange_size; cbn [Ex_Request Ex_Data]; change (Zlen (@nil byte)) with 0; lia).
    rewrite <- Hz. apply record_ok; try done. by rewrite Hz.
  - intros w (Hw & He & _). by apply relay_response_ok.
Qed.

Lemma relayed_ok client backend requests :
  relay_ok (rw_relay (snd (each relayForgeLoginRequest requests (mkRelayWorld (newForgeLoginRelay client) backend)))).
Proof.
  pose proof (spec_each relayForgeLoginRequest requests (fun w => relay_ok (rw_relay w))) as H.
  specialize (H (fun q => ltac:(unfold relayForgeLoginRequest; case_bool_decide;
    [apply relay_request_ok|apply spec_zoom; by intros]))).
  specialize (H (mkRelayWorld (newForgeLoginRelay client) backend)).
  destruct (each _ _ _) as [[u| | |] w]; apply H; (split_and!; [done..|apply Forall_nil_2]).
Qed.

(** ** Replaying the recording *)

(** What a relayed request leaves in the recording, and what the backend got
    for it. *)
Lemma relay_records request w w' :
  Req_Channel request = forgeChannelLoginWrapper -> relay request w = (Ret tt, w') ->
  exists e, fr_exchanges (rw_relay w') = fr_exchanges (rw_relay w) ++ [e]
  /\ (forall q, cachedForgeRequestMatches e q = true
       <-> Req_Channel q = Req_Channel request /\ Req_Data q = Req_Data request)
  /\ (if Ex_NoResponse e then rw_backend w' = rw_backend w
      else replayForgeLoginResponse e (Req_MessageID request) (rw_backend w) = (Ret tt, rw_backend w')).
Proof.
  intros Hch E. unfold relay in E.
  apply ST_bind_Ret in E as (count & w1 & [= <- <-] & E).
  apply ST_bind_Ret in E as ([] & w2 & Hc & E). destruct (negb _) in Hc; [|done]. injection Hc as <-.
  apply ST_bind_Ret in E as (id & w3 & [= <- <-] & E).
  apply ST_bind_Ret in E as ([] & w4 & [= <-] & E). cbn zeta in E.
  apply ST_bind_Ret in E as (cb & w5 & [= <- <-] & E). cbn [rw_relay] in E.
  unfold next_clientID in E. rewrite decide_True in E by done. cbn [fst snd rw_backend fr_exchanges fr_cacheBytes fr_inbound] in E.
  set (q := mkLoginPluginRequest _ (Req_Channel request) (Req_Data request)) in E.
  apply ST_bind_Ret in E as ([] & w6 & Hc & E). destruct (negb _) in Hc; [|done]. injection Hc as <-.
  apply ST_bind_Ret in E as ([] & w7 & Hw & E).
  assert (fr_exchanges (rw_relay w7) = fr_exchanges (rw_relay w) /\ rw_backend w7 = rw_backend w) as [Hex Hbk].
  { unfold on_inbound, zoom in Hw. destruct (writePacketTo _ _) as [r s1] in Hw. by injection Hw as -> <-. }
  assert (forall ok data nr q', cachedForgeRequestMatches (mkExchange (encodeLoginPluginRequest q) ok data nr) q' = true
    <-> Req_Channel q' = Req_Channel request /\ Req_Data q' = Req_Data request) as Hm.
  { intros ok data nr q'. unfold cachedForgeRequestMatches. cbn [Ex_Request]. unfold q.
    rewrite LoginPluginRequest_roundtrip; [|apply sintw_range; lia|by rewrite Hch].
    cbn [Req_Channel Req_Data]. rewrite andb_true_iff, !bool_decide_eq_true. split; intros [? ?]; split; congruence. }
  destruct (isNoResponse request).
  - injection E as <-. eexists. cbn [rw_relay record_exchange fr_exchanges rw_backend]. rewrite Hex.
    split; [done|]. split; [apply Hm|exact Hbk].
  - unfold relay_response in E. apply ST_bind_Ret in E as (answer & w8 & Hr & E).
    assert (fr_exchanges (rw_relay w8) = fr_exchanges (rw_relay w) /\ rw_backend w8 = rw_backend w) as [Hex8 Hbk8].
    { unfold on_inbound, zoom in Hr. destruct (side_read _) as [r s1] in Hr. by injection Hr as -> <-. }
    destruct answer as [[p raw]|]; [|done].
    apply ST_bind_Ret in E as ([] & w9 & Hc & E). destruct (bool_decide _) in Hc; [|done]. injection Hc as <-.
    apply ST_bind_Ret in E as (response & w9 & Hc & E). destruct (DecodeLoginPluginResponse _) in Hc; [|done]. injection Hc as <- <-.
    apply ST_bind_Ret in E as ([] & w9 & Hc & E). destruct (_ =? _) in Hc; [|done]. injection Hc as <-.
    apply ST_bind_Ret in E as (cb & w9 & [= <- <-] & E).
    apply ST_bind_Ret in E as ([] & w9 & Hc & E). destruct (negb _) in Hc; [|done]. injection Hc as <-.
    apply ST_bind_Ret in E as ([] & w9 & [= <-] & E).
    unfold on_backend, zoom in E. cbn [rw_backend rw_relay] in E.
    destruct (writeForgeLoginResponse _ _ _ _) as [r s1] eqn:Ew in E. injection E as -> <-.
    eexists. cbn [rw_relay record_exchange fr_exchanges rw_backend]. rewrite Hex8. split; [done|]. split; [apply Hm|].
    cbn [Ex_NoResponse]. unfold replayForgeLoginResponse. cbn [Ex_Success Ex_Data]. by rewrite <- Hbk8.
Qed.

(** Answering a sequence of requests from the recording. *)
Fixpoint cached_responses (cache : list ForgeLoginExchange) (index : nat) (requests : list LoginPluginRequest) : ST Side nat :=
  match requests with
  | [] => mret index
  | q :: requests' => index ← cached_response cache index q; cached_responses cache index requests'
  end.

Lemma cached_response_hit cache index e q s s' :
  cache !! index = Some e -> cachedForgeRequestMatches e q = true ->
  (if Ex_NoResponse e then s' = s else replayForgeLoginResponse e (Req_MessageID q) s = (Ret tt, s')) ->
  cached_response cache index q s = (Ret (S index), s').
Proof.
  intros Hl Hm Hb. unfold cached_response. rewrite Hl, Hm. unfold check, mbind, ST_bind, mret, ST_ret.
  destruct (Ex_NoResponse e); [by subst s'|]. by rewrite Hb.
Qed.

Lemma replay_after_relay requests w w' done tail :
  Forall (fun q => Req_Channel q = forgeChannelLoginWrapper) requests ->
  fr_exchanges (rw_relay w) = done ->
  each relayForgeLoginRequest requests w = (Ret tt, w') ->
  exists more, fr_exchanges (rw_relay w') = done ++ more
  /\ cached_responses (done ++ more ++ tail) (length done) requests (rw_backend w)
     = (Ret (length done + length requests)%nat, rw_backend w').
Proof.
  intros Hf. revert w done. induction Hf as [|q requests Hq _ IH]; intros w done Hd E.
  - injection E as <-. exists []. rewrite app_nil_r, Nat.add_0_r. done.
  - cbn [each] in E. apply ST_bind_Ret in E as ([] & w1 & E1 & E).
    unfold relayForgeLoginRequest in E1. rewrite bool_decide_eq_true_2 in E1 by done. cbn [negb] in E1.
    destruct (relay_records q w w1 Hq E1) as (e & Hex & Hm & Hb). rewrite Hd in Hex.
    destruct (IH w1 (done ++ [e]) Hex E) as (more & Hmore & Hc). exists ([e] ++ more).
    rewrite <- app_assoc in Hmore. split; [done|]. cbn [cached_responses]. unfold mbind, ST_bind.
    rewrite (cached_response_hit _ _ e q (rw_backend w) (rw_backend w1)).
    + rewrite length_app, Nat.add_1_r, <- app_assoc in Hc. cbn [app length] in *. by rewrite Hc, Nat.add_succ_r.
    + rewrite lookup_app_r, Nat.sub_diag by lia. done.
    + by apply Hm.
    + destruct (Ex_NoResponse e); [by rewrite Hb|exact Hb].
Qed.

End ForgeSpec.

(** C22: the recording of a Forge login is bounded, whatever the backend asks
    and whatever the client answers. After any sequence of login requests
    relayed from a fresh relay, also when one of them failed, at most 512
    exchanges of at most 1 MiB per message are held, the byte counter is
    exactly the size of the recording and never exceeds 8 MiB; and what
    [commit] puts into the server's cache is that recording. *)
Theorem forge_recording_bounded `{A0 : AES} `{ZL : Zlib} (client backend : Side) (requests : list LoginPluginRequest)
    (server : ServerState) :
  let w := snd (each relayForgeLoginRequest requests (mkRelayWorld (newForgeLoginRelay client) backend)) in
  relay_ok (rw_relay w)
  /\ (total_size (forgeLoginCache server) <= 8388608 ->
      total_size (forgeLoginCache (final (commit (rw_relay w) server))) <= 8388608).
Proof.
  intros w.
  assert (relay_ok (rw_relay w)) as Hok by apply relayed_ok.
  split; [done|]. intros Hs. unfold commit. destruct (fr_exchanges (rw_relay w)) as [|e es] eqn:E; [done|].
  change (total_size (e :: es) <= 8388608). destruct Hok as (_ & H2 & H3 & _). rewrite E in H2. by rewrite <- H2.
Qed.

(** C10: the recording stands in for the client. If a live Forge login of a
    client ended well, then a backend connection in the same state that asks
    the same wrapper requests is answered from the recording alone, without
    any client, and receives byte for byte what the live relay had sent. *)
Theorem forge_replay_refines_relay `{A0 : AES} `{ZL : Zlib} (client backend : Side) (requests : list LoginPluginRequest)
    (w' : RelayWorld) :
  Forall (fun q => Req_Channel q = forgeChannelLoginWrapper) requests ->
  each relayForgeLoginRequest requests (mkRelayWorld (newForgeLoginRelay client) backend) = (Ret tt, w') ->
  cached_responses (fr_exchanges (rw_relay w')) 0 requests backend = (Ret (length requests), rw_backend w').
Proof.
  intros Hf E. destruct (replay_after_relay requests (mkRelayWorld (newForgeLoginRelay client) backend) w' [] [] Hf eq_refl E) as (more & Hm & Hc).
  rewrite app_nil_r in Hc. by rewrite Hm.
Qed.

(** A synthesised reply of the older Forge protocol does not answer the
    request it is meant for. The login wrapper is written where the message id
    and the success flag belong, so a backend reads every reply on the
    handshake channel, whatever request it answers, as one for message 13. *)
Theorem legacy_forge_reply_misframed `{A0 : AES} `{ZL : Zlib} (s : Side) (messageID : Z) (packetID : byte) (data : bytes) :
  IsCompressed (side_client s) = false ->
  exists reply tail,
    respondForgeLoginPacket messageID forgeChannelHandshake packetID data s
    = writePacketTo (NewRawPacket PacketServerLoginPluginResponse reply) s
    /\ DecodeLoginPluginResponse reply = Some (mkLoginPluginResponse 13 true tail).
Proof.
  intros Hc. unfold respondForgeLoginPacket, EncodeWithoutLen. unfold IsCompressed in Hc. unfold Compressed. rewrite Hc.
  unfold encodeUncompressed. set (payload := EncodeVarInt _ ++ _). do 2 eexists. split; [reflexivity|].
  wire_bytes. unfold str_enc. change (i32 (Zlen forgeChannelHandshake)) with 13. rewrite <- app_assoc.
  change (forgeChannelHandshake ++ payload) with ([x66] ++ (str "ml:handshake" ++ payload)).
  apply (decode_two_rest varInt read_bool mkLoginPluginResponse); [apply codec_reads; split; vm_compute; congruence|].
  intros d p t E. unfold read_bool. rewrite (remaining_unread d p _ _ E) by done.
  rewrite (proj2 (Z.ltb_ge _ 1)) by (unfold Zlen; cbn [length]; lia).
  cbn [rdata rpos]. by rewrite (drop_lookup d p _ _ E), advance_mk.
Qed.

(** The synthesised mod list reply repeats the mods and channels of the server
    and pairs each registry with an empty marker. *)
Lemma read_strs_reads l : Forall (fun s => Zlen s <= 32767) l -> reads (read_strs (length l)) (concat (map str_enc l)) l.
Proof.
  induction 1 as [|s l Hs _ IH]; cbn [length read_strs map concat]; [apply reads_ret|].
  eapply reads_bind; [apply str_codec_reads; lia|]. by apply reads_bind_ret.
Qed.

Lemma strVec_reads l : Forall (fun s => Zlen s <= 32767) l -> Zlen l < 2 ^ 31 -> reads strVec (strings_enc l) l.
Proof.
  intros Hl Hn. assert (is_i32 (Zlen l)) by (unfold is_sint, Zlen in *; zpow; lia).
  unfold strVec, strings_enc, packetDecoder_varInt. rewrite sintw_id by done. eapply reads_bind; [by apply codec_reads|].
  rewrite (proj2 (Z.ltb_ge _ 0)) by (unfold Zlen; lia). unfold Zlen. rewrite Nat2Z.id. by apply read_strs_reads.
Qed.

Definition pair_enc (p : bytes * bytes) : bytes := str_enc (fst p) ++ str_enc (snd p).
Definition pairs_enc (l : list (bytes * bytes)) : bytes := EncodeVarInt (i32 (Zlen l)) ++ concat (map pair_enc l).
Definition pair_ok (p : bytes * bytes) : Prop := Zlen (fst p) <= 32767 /\ Zlen (snd p) <= 32767.

Lemma read_pairs_reads l : Forall pair_ok l -> reads (read_pairs (length l)) (concat (map pair_enc l)) l.
Proof.
  induction 1 as [|[a b] l [Ha Hb] _ IH]; cbn [length read_pairs map concat]; [apply reads_ret|]. unfold pair_enc at 1.
  cbn [fst snd] in *. rewrite <- app_assoc. eapply reads_bind; [apply str_codec_reads; lia|].
  eapply reads_bind; [apply str_codec_reads; lia|]. apply (reads_bind_ret _ (fun l => (a, b) :: l)), IH.
Qed.

Lemma strPairVec_reads l : Forall pair_ok l -> Zlen l < 2 ^ 31 -> reads strPairVec (pairs_enc l) l.
Proof.
  intros Hl Hn. assert (is_i32 (Zlen l)) by (unfold is_sint, Zlen in *; zpow; lia).
  unfold strPairVec, pairs_enc, packetDecoder_varInt. rewrite sintw_id by done. eapply reads_bind; [by apply codec_reads|].
  rewrite (proj2 (Z.ltb_ge _ 0)) by (unfold Zlen; lia). unfold Zlen. rewrite Nat2Z.id. by apply read_pairs_reads.
Qed.

Lemma wbuf_WritePairs l w : wbuf (WritePairs l w) = wbuf w ++ pairs_enc l.
Proof.
  unfold WritePairs, pairs_enc. rewrite app_assoc, <- wbuf_WriteVarInt.
  generalize (WriteVarInt (i32 (Zlen l)) w). induction l as [|[a b] l IH]; intros w'; cbn [fold_left map concat].
  - by rewrite app_nil_r.
  - rewrite IH. cbn [fst snd]. unfold pair_enc at 2. cbn [fst snd]. by rewrite !wbuf_WriteString, <- !app_assoc.
Qed.

Lemma mod_list_reply_spec mods channels registries :
  Forall (fun s => Zlen s <= 32767) mods -> Forall pair_ok channels -> Forall (fun s => Zlen s <= 32767) registries ->
  Zlen mods < 2 ^ 31 -> Zlen channels < 2 ^ 31 -> Zlen registries < 2 ^ 31 ->
  forgeModListReply (strings_enc mods ++ pairs_enc channels ++ strings_enc registries)
  = Some (strings_enc mods ++ pairs_enc channels ++ pairs_enc (map (fun s => (s, [])) registries)).
Proof.
  intros H1 H2 H3 N1 N2 N3. unfold forgeModListReply.
  match goal with |- context [fst (?m (newPacketDecoder ?d))] => change (fst (m (newPacketDecoder d))) with (decode_with m d) end.
  rewrite (reads_decode _ _ (mods, channels, registries)).
  - cbn [mbind option_bind]. unfold Bytes. rewrite !wbuf_WritePairs, wbuf_WriteStrings, wbuf_New, app_nil_l, <- app_assoc. done.
  - eapply reads_bind; [by apply strVec_reads|]. eapply reads_bind; [by apply strPairVec_reads|].
    by apply (reads_bind_ret _ (fun r => (mods, channels, r))), strVec_reads.
Qed.

(** Draining ends on every stream. *)
Lemma drainForgeResponses_returns `{A0 : AES} `{ZL : Zlib} fuel count s :
  (length (side_stream s) < fuel)%nat -> fst (drainForgeResponses fuel count s) <> NoFuel.
Proof.
  revert count s. induction fuel as [|fuel IH]; intros [|count] s Hf; try done; [lia|]. cbn [drainForgeResponses].
  destruct (side_ReadPacket s) as [r s1] eqn:E. apply side_ReadPacket_conserves in E as (Hd & _ & _ & _ & _ & Hs & Hr).
  destruct r as [p raw| |e|]; [|done|by destruct e as [| | | |[]]|done]. cbn [result_raw] in Hs.
  assert (length (side_stream s1) < fuel)%nat.
  { apply (f_equal length) in Hs. rewrite length_app in Hs. destruct raw; [done|]. cbn [length] in Hs. lia. }
  destruct (_ && _); by apply IH.
Qed.

(** ** Witnesses *)

Definition login_side (conn : Conn) : Side := mkSide (SetState ClientStateLogin DummyClient) (mkLink conn [] None [] None).

Definition mod_list_request : LoginPluginRequest :=
  mkLoginPluginRequest 41 forgeChannelLoginWrapper (str_enc forgeChannelHandshake ++ [x02; x01; x00]).
Definition one_way_request : LoginPluginRequest :=
  mkLoginPluginRequest 42 forgeChannelLoginWrapper (str_enc forgeChannelHandshake ++ [x02; x05; x00]).

(** A client that answers the first request, whose id the relay replaced by 1. *)
Definition forge_client : Side :=
  login_side [mkEvent (default [] (EncodeWithLen (ZL := stored_zlib) (NewRawPacket PacketServerLoginPluginResponse
    (Bytes (NewPacketWriter |> LoginPluginResponse_Encode (mkLoginPluginResponse 1 true [x07])))) DummyClient)) None].

Lemma forge_replay_refines_relay_witness :
  match each (relayForgeLoginRequest (A0 := toy_aes)) [mod_list_request; one_way_request]
          (mkRelayWorld (newForgeLoginRelay forge_client) (login_side [])) with
  | (Ret _, w) => cached_responses (A0 := toy_aes) (fr_exchanges (rw_relay w)) 0 [mod_list_request; one_way_request] (login_side [])
                  = (Ret 2%nat, rw_backend w)
  | _ => False
  end.
Proof.
  destruct (each _ _ _) as [r w] eqn:E. assert (r = Ret tt) as -> by (vm_compute in E; by injection E as <- _).
  apply (forge_replay_refines_relay (A0 := toy_aes) forge_client (login_side []) [mod_list_request; one_way_request] w);
    [repeat constructor|exact E].
Defined.

Lemma legacy_forge_reply_misframed_witness :
  IsCompressed (side_client (login_side [])) = false
  /\ exists reply tail,
       respondForgeLoginPacket (A0 := toy_aes) 7 forgeChannelHandshake x02 [] (login_side [])
       = writePacketTo (A0 := toy_aes) (NewRawPacket PacketServerLoginPluginResponse reply) (login_side [])
       /\ DecodeLoginPluginResponse reply = Some (mkLoginPluginResponse 13 true tail).
Proof.
  split; [reflexivity|]. apply (legacy_forge_reply_misframed (A0 := toy_aes) (login_side []) 7 x02 []). reflexivity.
Defined.
