(* ===== verification/Backend.v ===== *)
(** Logging a lobby client in to the backend: [connectToServerNoTimeout] of
    [src/lobby.go].

    The dialed connection, the text of the client's address and the forwarding
    secret are inputs. With a live relay the real client takes part in the
    Forge exchange; the relay is then part of the state. *)
From S2P Require Import Prelude VarInt Wire Packet Stream Config Net Packets Access Process GoFloat Nbt JoinGame ServerState Cipher Profile Velocity Proxy Link PlayPackets ForgeLogin.

(** The backend side, the relay when there is one, and the shared server state
    ([None]: the nil server of [connectToServer]). *)
Record ConnectWorld := mkConnect {
  cw_backend : Side;
  cw_relay : option forgeLoginRelay;
  cw_server : option ServerState }.

(** What the client's connection tells: its addresses and the text of the
    remote one; and the result of [forwardingSecret]. *)
Record Origin := mkOrigin {
  or_remote : option SocketAddr;
  or_local : option SocketAddr;
  or_peer : bytes;
  or_secret : option bytes }.

Section Backend.

Context `{A0 : AES} `{ZL : Zlib} `{HM : HMAC}.
Context (config : Config) (info : ClientInfo) (origin : Origin).

Definition backend {A} (m : ST Side A) : ST ConnectWorld A :=
  zoom cw_backend (fun s w => mkConnect s (cw_relay w) (cw_server w)) m.

Definition set_relay (r : forgeLoginRelay) (w : ConnectWorld) : ConnectWorld := mkConnect (cw_backend w) (Some r) (cw_server w).

(** A computation on the relay and the backend; the callers have checked that
    there is a relay. *)
Definition with_relay {A} (m : ST RelayWorld A) : ST ConnectWorld A := fun w =>
  match cw_relay w with
  | None => (Panic, w)
  | Some r => let '(a, rw) := m (mkRelayWorld r (cw_backend w)) in (a, mkConnect (rw_backend rw) (Some (rw_relay rw)) (cw_server w))
  end.

(** ** The packets of the login *)

Definition relay_compression (packet : RawPacket) (threshold : Z) : ST Side unit :=
  client ← reading side_client;
  if IsCompressed client then check (Compressed client =? threshold)
  else
    _ ← writePacketTo packet;
    changing (on_client (SetCompression threshold)).

Definition set_compression (packet : RawPacket) : ST ConnectWorld unit :=
  threshold ← of_option (DecodeSetCompression (Data packet));
  relayed ← reading (fun w => bool_decide (is_Some (cw_relay w)));
  _ ← (if relayed : bool then with_relay (on_inbound (relay_compression packet threshold)) else mret tt);
  backend (changing (on_client (SetCompression threshold))).

(** [respondVelocityForwarding] with its write. *)
Definition forward_profile (request : LoginPluginRequest) : ST Side unit := fun s =>
  match respondVelocityForwarding (side_client s) request (Info_Profile info) (or_peer origin) (or_secret origin) with
  | None => (Bad, s)
  | Some frame => side_Write frame s
  end.

(** The answer when nothing serves the request. *)
Definition refuse (request : LoginPluginRequest) : ST Side unit :=
  writePacketTo (NewRawPacket PacketServerLoginPluginResponse
    (Bytes (NewPacketWriter |> WriteVarInt (Req_MessageID request) |> WriteBool false))).

Definition cache_of (w : ConnectWorld) : list ForgeLoginExchange :=
  match cw_server w with Some s => result (ForgeLoginCache s) | None => [] end.

(** The loop's variables: [forgeReplayIndex] and [profileForwarded]. *)
Definition plugin_request (request : LoginPluginRequest) (index : nat) (forwarded : bool) : ST ConnectWorld (nat * bool) :=
  if decide (Req_Channel request = velocityPlayerInfoChannel) then
    _ ← backend (forward_profile request); mret (index, true)
  else
    relayed ← reading (fun w => bool_decide (is_Some (cw_relay w)));
    if relayed : bool then _ ← with_relay (relayForgeLoginRequest request); mret (index, forwarded)
    else
      cache ← reading cache_of;
      if bool_decide (Req_Channel request = forgeChannelLoginWrapper) && negb (bool_decide (cache = [])) then
        index ← backend (cached_response cache index request); mret (index, forwarded)
      else if Forge (Config_Server config) && isForgeFML3 info then
        _ ← backend (writeForgeLoginResponse (Req_MessageID request) false []); mret (index, forwarded)
      else if Forge (Config_Server config) then
        _ ← backend (respondLoginPluginRequest request); mret (index, forwarded)
      else
        _ ← backend (refuse request); mret (index, forwarded).

Definition relay_success (packet : RawPacket) : ST ConnectWorld unit :=
  relayed ← reading (fun w => bool_decide (is_Some (cw_relay w)));
  if relayed : bool then
    _ ← with_relay (on_inbound (writePacketTo packet));
    _ ← changing (fun w => match cw_relay w with
                           | Some r => mkConnect (cw_backend w) (Some r) ((fun s => final (commit r s)) <$> cw_server w)
                           | None => w
                           end);
    with_relay (on_inbound (changing (on_client (SetState ClientStatePlay))))
  else mret tt.

(** One packet of the backend; [None] when the login is done. *)
Definition login_packet (packet : RawPacket) (index : nat) (forwarded : bool) : ST ConnectWorld (option (nat * bool)) :=
  clientState ← reading (fun w => cstate (side_client (cw_backend w)));
  let caught id := bool_decide (clientState = ClientStateLogin) && bool_decide (ID packet = id) in
  if caught PacketClientSetCompression then _ ← set_compression packet; mret (Some (index, forwarded))
  else if caught PacketClientEncryptionRequest then bad
  else if caught PacketClientLoginPluginRequest then
    request ← of_option (DecodeLoginPluginRequest (Data packet));
    v ← plugin_request request index forwarded; mret (Some v)
  else if caught PacketClientLoginSuccess then
    _ ← check (negb (OnlineMode (Config_Auth config) && negb forwarded));
    _ ← relay_success packet;
    _ ← backend (changing (on_client (SetState ClientStatePlay)));
    mret None
  else if caught PacketClientLoginDisconnect then bad
  else mret (Some (index, forwarded)).

(** An error, a closed connection and every [break] end the loop; the caller
    gets an error. *)
Fixpoint login_loop (fuel : nat) (index : nat) (forwarded : bool) : ST ConnectWorld unit :=
  match fuel with
  | O => nofuel
  | S fuel' =>
      answer ← backend side_read;
      match answer with
      | None => bad
      | Some (packet, _) =>
          next ← login_packet packet index forwarded;
          match next with
          | None => mret tt
          | Some (index, forwarded) => login_loop fuel' index forwarded
          end
      end
  end.

(** A round takes at least a byte of the backend's stream. *)
Definition login_rounds (w : ConnectWorld) : nat := S (length (side_stream (cw_backend w))).

Definition proxy_header : ST Side unit :=
  if Server_SendProxyV2 (Config_Server config) then
    header ← of_option (StreamHeader (or_remote origin) (or_local origin)); side_Write header
  else mret tt.

Definition LoginStart_data (username : bytes) : bytes :=
  let w := NewPacketWriter |> WriteString username in
  Bytes (match GetProtocol info with
         | Some protocol =>
             if 759 <=? protocol then
               let w := w |> WriteBool (bool_decide (is_Some (Info_Profile info))) in
               match Info_Profile info with Some p => w |> Write (Profile_UUID p) | None => w end
             else w
         | None => w
         end).

(** The handshake and the login start of the client, replayed. *)
Definition login_hello : ST Side unit :=
  handshake ← of_option (Info_Handshake info);
  _ ← writePacketTo (NewRawPacket PacketHandshake (Bytes (NewPacketWriter |> Handshake_Encode handshake)));
  username ← of_option (Info_Username info);
  writePacketTo (NewRawPacket PacketServerLoginStart (LoginStart_data username)).

(** A dialed connection: what the backend will send and how much it takes. *)
Definition dialed (conn : Conn) (room : option nat) : Side :=
  mkSide (SetState ClientStateLogin DummyClient) (mkLink conn [] None [] room).

(** [connectToServerNoTimeout] from the dialed connection on. *)
Definition connectToServerNoTimeout : ST ConnectWorld unit :=
  _ ← backend proxy_header;
  _ ← backend login_hello;
  fueled login_rounds (fun fuel => login_loop fuel 0 false).

(** ** The login only writes, and reads frame by frame *)

Abbreviation any_relay := (fun w : RelayWorld => True).
Abbreviation any_world := (fun w : ConnectWorld => True).
Abbreviation relayed_world := (fun w : ConnectWorld => is_Some (cw_relay w)).

Lemma tame_refuse request : tame id (fun _ => True) (refuse request).
Proof. apply tame_writePacketTo. Qed.

Lemma tame_forward request : tame id (fun _ => True) (forward_profile request).
Proof.
  intros s r s' Hq He. unfold forward_profile. destruct (respondVelocityForwarding _ _ _ _ _) as [b|].
  - by apply (tame_side_Write b).
  - intros [= <- <-]. split_and!; try done. by apply grows_refl.
Qed.

Lemma tame_forge_response id ok data : tame Datatypes.id (fun _ => True) (writeForgeLoginResponse id ok data).
Proof. apply tame_writePacketTo. Qed.

Lemma tame_cached cache index request : tame id (fun _ => True) (cached_response cache index request).
Proof.
  unfold cached_response. destruct (cache !! index) as [e|].
  - apply tame_bind; [auto with tame|]. intros []. destruct (Ex_NoResponse e); [auto with tame|].
    apply tame_bind; [apply tame_forge_response|auto with tame].
  - apply tame_bind; [apply tame_forge_response|auto with tame].
Qed.

Lemma tame_respondForge id ch pid data : tame Datatypes.id (fun _ => True) (respondForgeLoginPacket id ch pid data).
Proof.
  intros s r s' Hq He. unfold respondForgeLoginPacket. destruct (EncodeWithoutLen _ _).
  - by apply (tame_writePacketTo _ s).
  - intros [= <- <-]. split_and!; try done. by apply grows_refl.
Qed.

Lemma tame_legacy request : tame id (fun _ => True) (respondLoginPluginRequest request).
Proof.
  unfold respondLoginPluginRequest. repeat (apply tame_bind; [solve [auto with tame]|intros ?]). cbn zeta.
  destruct (negb _); [apply tame_respondForge|]. apply tame_bind; [auto with tame|]. intros ?. apply tame_respondForge.
Qed.

Lemma tame_on_inbound {A} (m : ST Side A) : calm m -> tame rw_backend any_relay (on_inbound m).
Proof. by apply tame_elsewhere. Qed.

Lemma tame_on_backend {A} (m : ST Side A) : tame id (fun _ => True) m -> tame rw_backend any_relay (on_backend m).
Proof. by apply tame_zoom. Qed.

Lemma tame_on_relay f : tame rw_backend any_relay (on_relay f).
Proof. by apply tame_changing. Qed.

Lemma tame_relay request : tame rw_backend any_relay (relayForgeLoginRequest request).
Proof.
  unfold relayForgeLoginRequest. destruct (negb _); [apply tame_on_backend, tame_forge_response|].
  unfold relay. repeat (apply tame_bind; [solve [auto using tame_on_relay with tame]|intros ?]).
  apply tame_bind; [apply tame_on_inbound, calm_writePacketTo|]. intros _. destruct (isNoResponse request); [apply tame_on_relay|].
  unfold relay_response. apply tame_bind; [apply tame_on_inbound, calm_side_read|]. intros [[p raw]|]; [|auto with tame].
  repeat (apply tame_bind; [solve [auto using tame_on_relay with tame]|intros ?]). apply tame_on_backend, tame_forge_response.
Qed.

Lemma tame_backend {A} (m : ST Side A) Q : (Q = any_world \/ Q = relayed_world) -> tame id (fun _ => True) m -> tame cw_backend Q (backend m).
Proof. intros HQ. apply tame_zoom; [done|]. by destruct HQ as [-> | ->]. Qed.

Lemma tame_with_relay {A} (m : ST RelayWorld A) : tame rw_backend any_relay m -> tame cw_backend relayed_world (with_relay m).
Proof.
  intros Hm w r w' [rl Hr] He. unfold with_relay. rewrite Hr. destruct (m _) as [a rw] eqn:E. intros [= <- <-].
  destruct (Hm (mkRelayWorld rl (cw_backend w)) _ _ I He E) as (_ & H2 & H3). split; [done|]. by split.
Qed.

(** The guard [relay != nil]. *)
Lemma tame_guarded {A} (m1 m2 : ST ConnectWorld A) : tame cw_backend relayed_world m1 -> tame cw_backend any_world m2 ->
  tame cw_backend any_world (relayed ← reading (fun w => bool_decide (is_Some (cw_relay w))); if relayed : bool then m1 else m2).
Proof.
  intros H1 H2 w r w' _ He. unfold mbind, ST_bind, reading. case_bool_decide as Hr; intros E.
  - destruct (H1 _ _ _ Hr He E) as (_ & H). done.
  - by apply (H2 _ _ _ I He E).
Qed.

Lemma tame_set_compression packet : tame cw_backend any_world (set_compression packet).
Proof.
  unfold set_compression. apply tame_bind; [auto with tame|]. intros threshold.
  intros w r w' _ He. unfold mbind at 1, ST_bind at 1, reading.
  assert (tame cw_backend relayed_world (_ ← with_relay (on_inbound (relay_compression packet threshold));
    backend (changing (on_client (SetCompression threshold))))) as H1.
  { apply tame_bind; [apply tame_with_relay, tame_on_inbound|intros _; apply tame_backend; [by right|by apply tame_changing]].
    unfold relay_compression. apply calm_bind; [done|]. intros c. destruct (IsCompressed c); auto with tame. }
  assert (tame cw_backend any_world (_ ← mret tt; backend (changing (on_client (SetCompression threshold))))) as H2.
  { apply tame_bind; [auto with tame|intros _; apply tame_backend; [by left|by apply tame_changing]]. }
  case_bool_decide as Hr; intros E.
  - destruct (H1 _ _ _ Hr He E) as (_ & H). done.
  - by apply (H2 _ _ _ I He E).
Qed.

Lemma tame_plugin request index forwarded : tame cw_backend any_world (plugin_request request index forwarded).
Proof.
  unfold plugin_request. destruct (decide _).
  { apply tame_bind; [apply tame_backend; [by left|apply tame_forward]|auto with tame]. }
  apply tame_guarded.
  { apply tame_bind; [apply tame_with_relay, tame_relay|auto with tame]. }
  apply tame_bind; [auto with tame|]. intros cache. destruct (_ && _).
  { apply tame_bind; [apply tame_backend; [by left|apply tame_cached]|auto with tame]. }
  destruct (_ && _); [|destruct (Forge _)]; (apply tame_bind; [apply tame_backend; [by left|]|auto with tame]).
  - apply tame_forge_response.
  - apply tame_legacy.
  - apply tame_refuse.
Qed.

Lemma tame_success packet : tame cw_backend any_world (relay_success packet).
Proof.
  unfold relay_success. apply tame_guarded; [|auto with tame].
  apply tame_bind; [apply tame_with_relay, tame_on_inbound, calm_writePacketTo|]. intros _.
  apply tame_bind; [|intros _; apply tame_with_relay, tame_on_inbound; auto with tame].
  apply tame_changing; intros w; [by intros [r ->]|by destruct (cw_relay w)].
Qed.

Lemma tame_login_packet packet index forwarded : tame cw_backend any_world (login_packet packet index forwarded).
Proof.
  unfold login_packet. apply tame_bind; [auto with tame|]. intros st. cbn zeta.
  destruct (_ && _); [apply tame_bind; [apply tame_set_compression|auto with tame]|].
  destruct (_ && _); [auto with tame|].
  destruct (_ && _); [apply tame_bind; [auto with tame|intros q; apply tame_bind; [apply tame_plugin|auto with tame]]|].
  destruct (_ && _).
  - apply tame_bind; [auto with tame|intros _]. apply tame_bind; [apply tame_success|intros _].
    apply tame_bind; [apply tame_backend; [by left|by apply tame_changing]|auto with tame].
  - destruct (_ && _); auto with tame.
Qed.

(** ** The backend's protocol state *)

(** The state after a packet: only the compression changes. *)
Definition after_packet (packet : RawPacket) (c : Client) : Client :=
  if decide (ID packet = PacketClientSetCompression) then
    match DecodeSetCompression (Data packet) with Some threshold => SetCompression threshold c | None => c end
  else c.

Lemma after_packet_state packet c : cstate (after_packet packet c) = cstate c.
Proof. unfold after_packet. case_decide; [|done]. by destruct (DecodeSetCompression _). Qed.

(** The frames a login takes, each decoded in the state its predecessors left. *)
Fixpoint login_frames (c : Client) (frames : list (RawPacket * bytes)) : Prop :=
  match frames with
  | [] => True
  | (p, raw) :: frames => whole_frame c p raw /\ login_frames (after_packet p c) frames
  end.

Lemma writes_of_option {A} (o : option A) : only_writes (of_option o).
Proof. destruct o; [apply only_writes_ret|apply only_writes_bad]. Qed.

Lemma writes_check b : only_writes (check b).
Proof. destruct b; [apply only_writes_ret|apply only_writes_bad]. Qed.

Lemma writes_reading {A} (f : Side -> A) : only_writes (reading f).
Proof. intros s. split_and!; try done. exists []. by rewrite app_nil_r. Qed.

#[local] Hint Resolve writes_of_option writes_check writes_reading only_writes_bind : stays.

Lemma writes_forward request : only_writes (forward_profile request).
Proof. intros s. unfold forward_profile. destruct (respondVelocityForwarding _ _ _ _ _); [apply only_writes_write|apply only_writes_bad]. Qed.

Lemma writes_cached cache index request : only_writes (cached_response cache index request).
Proof.
  unfold cached_response, replayForgeLoginResponse, writeForgeLoginResponse.
  destruct (cache !! index) as [e|]; [apply only_writes_bind; [auto with stays|intros _]; destruct (Ex_NoResponse e)|]; auto with stays.
Qed.

Lemma writes_respondForge id ch pid data : only_writes (respondForgeLoginPacket id ch pid data).
Proof. intros s. unfold respondForgeLoginPacket. destruct (EncodeWithoutLen _ _); [apply only_writes_packet|apply only_writes_bad]. Qed.

Lemma writes_legacy request : only_writes (respondLoginPluginRequest request).
Proof.
  unfold respondLoginPluginRequest. repeat (apply only_writes_bind; [solve [auto with stays]|intros ?]). cbn zeta.
  destruct (negb _); [apply writes_respondForge|]. apply only_writes_bind; [auto with stays|]. intros ?. apply writes_respondForge.
Qed.

Lemma stays_backend {A} (m : ST Side A) : only_writes m -> stays cw_backend (backend m).
Proof. by apply stays_zoom. Qed.

Lemma stays_relay request : stays rw_backend (relayForgeLoginRequest request).
Proof.
  assert (forall A (m : ST Side A), stays rw_backend (on_inbound m)) as Hin by (intros; by apply stays_elsewhere).
  assert (forall A (m : ST Side A), only_writes m -> stays rw_backend (on_backend m)) as Hbe by (intros; by apply stays_zoom).
  assert (forall f, stays rw_backend (on_relay f)) as Hre by done.
  unfold relayForgeLoginRequest, writeForgeLoginResponse. destruct (negb _); [auto with stays|].
  unfold relay. repeat (apply stays_bind; [solve [auto with stays]|intros ?]).
  destruct (isNoResponse request); [auto|]. unfold relay_response. apply stays_bind; [auto|].
  intros [[p raw]|]; [|auto with stays]. repeat (apply stays_bind; [solve [auto with stays]|intros ?]). apply Hbe, only_writes_packet.
Qed.

Lemma stays_with_relay {A} (m : ST RelayWorld A) : stays rw_backend m -> stays cw_backend (with_relay m).
Proof.
  intros Hm w. unfold with_relay. destruct (cw_relay w) as [r|]; [|done].
  specialize (Hm (mkRelayWorld r (cw_backend w))). by destruct (m _) as [a rw].
Qed.

Lemma stays_plugin request index forwarded : stays cw_backend (plugin_request request index forwarded).
Proof.
  assert (forall A B (m : ST Side A) (k : A -> B), only_writes m -> stays cw_backend (a ← backend m; mret (k a))) as Hb.
  { intros A B m k Hm. apply stays_bind; [by apply stays_backend|auto with stays]. }
  unfold plugin_request. destruct (decide _); [apply (Hb _ _ _ (fun _ => _)), writes_forward|].
  apply stays_bind; [auto with stays|]. intros relayed. destruct relayed.
  { apply stays_bind; [apply stays_with_relay, stays_relay|auto with stays]. }
  apply stays_bind; [auto with stays|]. intros cache. destruct (_ && _); [apply Hb, writes_cached|].
  destruct (_ && _); [|destruct (Forge _)]; apply (Hb _ _ _ (fun _ => _));
    [apply only_writes_packet|apply writes_legacy|apply only_writes_packet].
Qed.

Lemma set_compression_client packet w w' :
  set_compression packet w = (Ret tt, w') ->
  exists t, DecodeSetCompression (Data packet) = Some t
    /\ side_client (cw_backend w') = SetCompression t (side_client (cw_backend w)).
Proof.
  unfold set_compression. intros E. apply ST_bind_Ret in E as (t & w1 & Et & E).
  destruct (DecodeSetCompression _) as [t'|]; [|done]. injection Et as -> <-. exists t. split; [done|].
  apply ST_bind_Ret in E as (rel & w1 & [= <- <-] & E). apply ST_bind_Ret in E as (u & w1 & E1 & [= <-]).
  assert (side_client (cw_backend w1) = side_client (cw_backend w)) as <-; [|done].
  destruct (bool_decide _); [|by injection E1 as _ <-].
  pose proof (stays_with_relay (on_inbound (relay_compression packet t)) ltac:(by apply stays_elsewhere) w) as Hs.
  by rewrite E1 in Hs.
Qed.

(** A packet that does not end the login. *)
Lemma login_packet_client packet index forwarded w v w' :
  login_packet packet index forwarded w = (Ret (Some v), w') -> cstate (side_client (cw_backend w)) = ClientStateLogin ->
  ID packet <> PacketClientLoginSuccess /\ side_client (cw_backend w') = after_packet packet (side_client (cw_backend w)).
Proof.
  intros E Hc. unfold login_packet in E. apply ST_bind_Ret in E as (st & w1 & [= <- <-] & E). cbn zeta in E.
  rewrite Hc, bool_decide_eq_true_2 in E by done. cbn [andb] in E. unfold after_packet.
  destruct (bool_decide_reflect (ID packet = PacketClientSetCompression)) as [Hi|Hi].
  { apply ST_bind_Ret in E as ([] & w2 & E & [= _ <-]). apply set_compression_client in E as (t & Et & ->).
    rewrite decide_True, Et by done. split; [rewrite Hi; discriminate|done]. }
  rewrite decide_False by done.
  destruct (bool_decide_reflect (ID packet = PacketClientEncryptionRequest)); [done|].
  destruct (bool_decide_reflect (ID packet = PacketClientLoginPluginRequest)) as [Hp|Hp].
  { apply ST_bind_Ret in E as (q & w2 & Eq & E). destruct (DecodeLoginPluginRequest _); [|done]. injection Eq as <- <-.
    apply ST_bind_Ret in E as (x & w2 & E & [= _ <-]). pose proof (stays_plugin l index forwarded w) as Hs. rewrite E in Hs.
    split; [rewrite Hp; discriminate|exact Hs]. }
  destruct (bool_decide_reflect (ID packet = PacketClientLoginSuccess)).
  { apply ST_bind_Ret in E as (? & ? & _ & E). apply ST_bind_Ret in E as (? & ? & _ & E). by apply ST_bind_Ret in E as (? & ? & _ & [=]). }
  destruct (bool_decide_reflect (ID packet = PacketClientLoginDisconnect)); [done|]. by injection E as _ <-.
Qed.

(** The packet that ends it. *)
Lemma login_packet_success packet index forwarded w w' :
  login_packet packet index forwarded w = (Ret None, w') -> ID packet = PacketClientLoginSuccess.
Proof.
  intros E. unfold login_packet in E. apply ST_bind_Ret in E as (st & w1 & [= <- <-] & E). cbn zeta in E.
  destruct (_ && _) in E; [by apply ST_bind_Ret in E as (? & ? & _ & [=])|].
  destruct (_ && _) in E; [done|].
  destruct (_ && _) in E; [apply ST_bind_Ret in E as (? & ? & _ & E); by apply ST_bind_Ret in E as (? & ? & _ & [=])|].
  destruct (_ && bool_decide (ID packet = PacketClientLoginSuccess)) eqn:Eb in E.
  { by apply andb_prop in Eb as [_ Eb%bool_decide_eq_true]. }
  by destruct (_ && _) in E.
Qed.

(** ** What the backend has been told *)

(** Among what went out is the signed reply that vouches for the profile. *)
Definition forwarded_in (out : bytes) : Prop :=
  exists before frame after client request, out = before ++ frame ++ after /\ is_i32 (Req_MessageID request)
  /\ respondVelocityForwarding client request (Info_Profile info) (or_peer origin) (or_secret origin) = Some frame.

Lemma forwarded_grows s s' : grows s s' -> forwarded_in (side_out s) -> forwarded_in (side_out s').
Proof.
  intros (_ & _ & _ & more & ->) (b & f & a & c & q & -> & Hq & Hf). exists b, f, (a ++ more), c, q. by rewrite <- !app_assoc.
Qed.

Lemma forward_profile_out request s s' : is_i32 (Req_MessageID request) -> l_enc (side_link s) = None -> forward_profile request s = (Ret tt, s') -> forwarded_in (side_out s').
Proof.
  intros Hq He. unfold forward_profile. destruct (respondVelocityForwarding _ _ _ _ _) as [frame|] eqn:Ev; [|done].
  intros E. destruct (side_Write_plain _ _ _ _ He E) as (_ & more & -> & _ & Hm). rewrite Hm by done.
  exists (side_out s), frame, [], (side_client s), request. by rewrite app_nil_r.
Qed.

Lemma plugin_forwarded request index forwarded w index' w' : is_i32 (Req_MessageID request) -> l_enc (side_link (cw_backend w)) = None ->
  plugin_request request index forwarded w = (Ret (index', true), w') -> forwarded = true \/ forwarded_in (side_out (cw_backend w')).
Proof.
  intros Hq He E. destruct forwarded; [by left|right]. revert E. unfold plugin_request. destruct (decide _).
  - intros E. apply ST_bind_Ret in E as ([] & w1 & E & [= _ <-]). unfold backend, zoom in E.
    destruct (forward_profile request (cw_backend w)) as [a s] eqn:Ef. injection E as -> <-. by eapply forward_profile_out.
  - intros E. exfalso. revert E. unfold mbind, ST_bind, reading, mret, ST_ret.
    destruct (bool_decide (is_Some (cw_relay w))); [by destruct (with_relay _ w) as [[]]|].
    destruct (_ && _); [by destruct (backend _ w) as [[]]|].
    destruct (_ && _); [by destruct (backend _ w) as [[]]|].
    destruct (Forge _); by destruct (backend _ w) as [[]].
Qed.

Lemma DecodeLoginPluginRequest_id d request : DecodeLoginPluginRequest d = Some request -> is_i32 (Req_MessageID request).
Proof.
  unfold DecodeLoginPluginRequest, decode_with, mbind, Rd_bind, mret, Rd_ret. pose proof (varInt_ReadVarInt d 0) as Hv.
  destruct (ReadVarInt (drop 0 d)) as [[n v]|] eqn:E; [|destruct Hv as [p' ->]; done]. rewrite Hv.
  apply ReadVarInt_bounds in E as (_ & _ & Hi). destruct (read_str 32767 _) as [[ch|] r1]; [|done].
  destruct (rest r1) as [[dt|] r2]; [|done]. by intros [= <-].
Qed.

(** What is known when a packet has been handled. *)
Lemma login_packet_forwarded packet index forwarded w next w' : l_enc (side_link (cw_backend w)) = None ->
  login_packet packet index forwarded w = (Ret next, w') ->
  match next with
  | Some (_, f) => f = true -> forwarded = true \/ forwarded_in (side_out (cw_backend w'))
  | None => cstate (side_client (cw_backend w')) = ClientStatePlay /\ (OnlineMode (Config_Auth config) = true -> forwarded = true)
  end.
Proof.
  intros He E. unfold login_packet in E. apply ST_bind_Ret in E as (st & w1 & [= <- <-] & E). cbn zeta in E.
  destruct (_ && _) in E; [apply ST_bind_Ret in E as (? & w2 & _ & [= <- _]); auto|].
  destruct (_ && _) in E; [done|].
  destruct (_ && _) in E.
  { apply ST_bind_Ret in E as (q & w2 & Eq & E). destruct (DecodeLoginPluginRequest _) as [q'|] eqn:Hd; [|done]. injection Eq as <- <-.
    apply DecodeLoginPluginRequest_id in Hd.
    apply ST_bind_Ret in E as ([i f] & w2 & Ep & [= <- <-]). intros ->. by eapply plugin_forwarded. }
  destruct (_ && _) in E.
  { apply ST_bind_Ret in E as ([] & w2 & Ec & E). destruct (OnlineMode _ && _) eqn:Ho in Ec; [done|]. injection Ec as <-.
    apply ST_bind_Ret in E as ([] & w2 & _ & E). apply ST_bind_Ret in E as ([] & w3 & [= <-] & [= <- <-]). split; [done|].
    intros Hon. rewrite Hon in Ho. by destruct forwarded. }
  destruct (_ && _) in E; [done|]. injection E as <- _. auto.
Qed.

Lemma backend_read w a w' : backend side_read w = (a, w') ->
  exists s', side_read (cw_backend w) = (a, s') /\ w' = mkConnect s' (cw_relay w) (cw_server w).
Proof. unfold backend, zoom. destruct (side_read (cw_backend w)) as [b s]. intros [= -> <-]. eauto. Qed.

(** The last frame is the only login success. *)
Definition ends_login (frames : list (RawPacket * bytes)) : Prop :=
  exists before success, frames = before ++ [success] /\ ID (fst success) = PacketClientLoginSuccess
    /\ Forall (fun f => ID (fst f) <> PacketClientLoginSuccess) before.

Definition login_end (w : ConnectWorld) (r : Out unit) (w' : ConnectWorld) : Prop :=
  r <> NoFuel /\ r <> Panic /\ l_enc (side_link (cw_backend w')) = None
  /\ (exists frames, concat (map snd frames) ++ side_stream (cw_backend w') = side_stream (cw_backend w)
       /\ (cstate (side_client (cw_backend w)) = ClientStateLogin ->
            login_frames (side_client (cw_backend w)) frames /\ (r = Ret tt -> ends_login frames)))
  /\ (r = Ret tt -> cstate (side_client (cw_backend w')) = ClientStatePlay
       /\ (OnlineMode (Config_Auth config) = true -> forwarded_in (side_out (cw_backend w')))).

Lemma login_loop_end fuel : forall index forwarded w r w',
  l_enc (side_link (cw_backend w)) = None -> (length (side_stream (cw_backend w)) < fuel)%nat ->
  (forwarded = true -> forwarded_in (side_out (cw_backend w))) ->
  login_loop fuel index forwarded w = (r, w') -> login_end w r w'.
Proof.
  induction fuel as [|fuel IH]; intros index forwarded w r w' He Hlen Hf E; [lia|]. cbn [login_loop] in E.
  unfold mbind at 1, ST_bind at 1 in E. destruct (backend side_read w) as [a w1] eqn:Er.
  apply backend_read in Er as (s1 & Er & ->). pose proof (side_read_returns (cw_backend w)) as Hret. rewrite Er in Hret. cbn [fst] in Hret.
  destruct (side_read_conserves _ _ _ Er) as (Hc & Ho & He1 & _ & Hs).
  assert (forall r0, r0 <> NoFuel -> r0 <> Panic -> r0 <> Ret tt -> side_stream s1 = side_stream (cw_backend w) ->
    login_end w r0 (mkConnect s1 (cw_relay w) (cw_server w))) as Hend.
  { intros r0 H1 H2 H3 H4. split_and!; try done; [by rewrite <- He|]. exists []. by split. }
  destruct a as [[[p raw]|]| | |]; try (by destruct Hret); try (injection E as <- <-; by apply Hend).
  destruct Hs as [Hs Hraw]. unfold mbind at 1, ST_bind at 1 in E.
  destruct (login_packet p index forwarded _) as [b w2] eqn:Ep.
  destruct (tame_login_packet p index forwarded (mkConnect s1 (cw_relay w) (cw_server w)) b w2 I ltac:(cbn; congruence) Ep) as (_ & Hg & Hn1 & Hn2).
  pose proof (grows_stream _ _ Hg) as Hst. cbn [cw_backend] in Hst.
  pose proof (side_read_whole _ _ _ _ Er) as Hwhole.
  destruct b as [next| | |]; try done.
  - pose proof Ep as Ep0. apply login_packet_forwarded in Ep; [|cbn; congruence]. destruct next as [[index' forwarded']|].
    + assert (forall r0 w3, login_end w2 r0 w3 -> login_end w r0 w3) as Htrans.
      { intros r0 w3 (H1 & H2 & H3 & (fs & H4 & H6) & H5). split_and!; try done. exists ((p, raw) :: fs).
        cbn [map snd concat]. rewrite <- app_assoc, H4, Hst. split; [done|]. intros Hlog.
        destruct (login_packet_client _ _ _ _ _ _ Ep0) as [Hid Hcl]; [cbn; congruence|]. cbn [cw_backend] in Hcl.
        rewrite Hc in Hcl. rewrite Hcl in H6. destruct H6 as [Hfr Hend']; [by rewrite after_packet_state|].
        split; [by split|]. intros Hr0. destruct (Hend' Hr0) as (bf & sc & -> & Hsc & Hbf).
        exists ((p, raw) :: bf), sc. split_and!; [done|done|by constructor]. }
      apply Htrans. eapply IH; [apply Hg| | |exact E].
      * rewrite Hst. rewrite <- Hs, length_app in Hlen. destruct raw; [done|]. cbn in Hlen. lia.
      * intros Hf'. destruct (Ep Hf') as [Hfw|?]; [|done]. eapply forwarded_grows; [exact Hg|]. cbn [cw_backend]. rewrite Ho. auto.
    + injection E as <- <-. destruct Ep as [Ep1 Ep2]. split_and!; try done; [apply Hg| |].
      * exists [(p, raw)]. cbn [map snd concat]. rewrite app_nil_r, Hst. split; [done|]. intros _. split; [by split|].
        intros _. exists [], (p, raw). split_and!; [done| |constructor]. by eapply login_packet_success.
      * intros _. split; [done|]. intros Hon. eapply forwarded_grows; [exact Hg|]. cbn [cw_backend]. rewrite Ho. auto.
  - injection E as <- <-. split_and!; try done; [apply Hg|]. exists [(p, raw)]. cbn [map snd concat]. rewrite app_nil_r, Hst.
    split; [done|]. intros _. by split.
Qed.

Lemma tame_hello : tame id (fun _ => True) login_hello.
Proof.
  unfold login_hello. repeat (apply tame_bind; [solve [auto with tame]|intros ?]). apply tame_writePacketTo.
Qed.

Lemma tame_header : tame id (fun _ => True) proxy_header.
Proof.
  unfold proxy_header. destruct (Server_SendProxyV2 _); [|auto with tame]. apply tame_bind; [auto with tame|]. intros h. apply tame_side_Write.
Qed.

Lemma stays_hello : stays cw_backend (_ ← backend proxy_header; backend login_hello).
Proof.
  apply stays_bind; [|intros _]; apply stays_backend.
  - unfold proxy_header. destruct (Server_SendProxyV2 _); auto with stays.
  - unfold login_hello. repeat (apply only_writes_bind; [solve [auto with stays]|intros ?]). apply only_writes_packet.
Qed.

Lemma connect_end w r w' : l_enc (side_link (cw_backend w)) = None -> connectToServerNoTimeout w = (r, w') -> login_end w r w'.
Proof.
  intros He E. unfold connectToServerNoTimeout in E.
  assert (tame cw_backend any_world (_ ← backend proxy_header; backend login_hello)) as Ht.
  { apply tame_bind; [apply tame_backend; [by left|apply tame_header]|intros _; apply tame_backend; [by left|apply tame_hello]]. }
  assert (exists r1 w1, (_ ← backend proxy_header; backend login_hello) w = (r1, w1)
    /\ match r1 with Ret _ => login_loop (login_rounds w1) 0 false w1 = (r, w') | _ => r = r1 /\ w' = w1 end) as (r1 & w1 & E1 & E2).
  { unfold mbind, ST_bind, fueled in *. destruct (backend proxy_header w) as [[[]| | |] w1]; try (injection E as <- <-; by eexists _, _).
    destruct (backend login_hello w1) as [[[]| | |] w2] eqn:E2; try (injection E as <- <-; by eexists _, _). by eexists _, _. }
  destruct (Ht _ _ _ I He E1) as (_ & Hg & Hn1 & Hn2). pose proof (grows_stream _ _ Hg) as Hst.
  destruct r1 as [u| | |]; try done.
  - eapply login_loop_end in E2; [|apply Hg|unfold login_rounds; lia|done].
    destruct E2 as (H1 & H2 & H3 & (fs & H4 & H6) & H5). split_and!; try done. exists fs. rewrite H4.
    pose proof (stays_hello w) as Hcl. rewrite E1 in Hcl. cbn [snd] in Hcl. by rewrite <- Hcl.
  - destruct E2 as [-> ->]. split_and!; try done; [apply Hg|]. exists []. rewrite <- Hst. by split.
Qed.

End Backend.

Section BackendTheorem.

Context `{A0 : AES} `{ZL : Zlib} `{HM : HMAC}.

(** Among [out] is a reply that a backend with the gateway's secret takes as
    proof of this profile. *)
Definition told_profile (origin : Origin) (profile : GameProfile) (out : bytes) : Prop :=
  exists secret request client data frame before after,
    or_secret origin = Some secret
    /\ EncodeWithLen (NewRawPacket PacketServerLoginPluginResponse data) client = Some frame
    /\ out = before ++ frame ++ after
    /\ (profile_bounded profile -> Zlen (or_peer origin) <= 32767 ->
        exists reply version, DecodeLoginPluginResponse data = Some (mkLoginPluginResponse (Req_MessageID request) true reply)
        /\ backend_accepts secret reply = Some (version, peerIP (or_peer origin), profile)).

Lemma forwarded_told info origin out : forwarded_in info origin out ->
  exists profile, Info_Profile info = Some profile /\ told_profile origin profile out.
Proof.
  intros (b & f & a & c & q & -> & Hq & Hv).
  destruct (velocity_reply _ _ _ _ _ _ Hv) as (p & s & address & data & Hprof & Hsec & _ & He & Hacc).
  exists p. split; [done|]. exists s, q, c, data, f, b, a. split_and!; try done. intros Hb Hpeer.
  destruct (Hacc Hq Hb Hpeer) as (reply & H6 & H7 & _ & ->). eauto.
Qed.

(** C9: a lobby client only gets past the backend's login as the player it was
    authenticated as. The login of a freshly dialed backend connection always
    ends, whatever the backend sends, and takes only whole frames from the
    front of its stream, each decoded under the compression announced before
    it; if it succeeds, the last of them is the first login success, so that
    all that follows can still be relayed. If it succeeds in online mode, then
    a reply was sent to the backend that vouches for the client's profile, and
    a backend with the same secret reads exactly that profile from it; a
    backend that lets the client in without asking is dropped. *)
Theorem backend_login_vouched (config : Config) (info : ClientInfo) (origin : Origin) (conn : Conn) (room : option nat)
    (relay : option forgeLoginRelay) (server : option ServerState) (r : Out unit) (w' : ConnectWorld) :
  connectToServerNoTimeout config info origin (mkConnect (dialed conn room) relay server) = (r, w') ->
  (r = Ret tt \/ r = Bad)
  /\ (exists frames, concat (map snd frames) ++ side_stream (cw_backend w') = conn_bytes conn
       /\ login_frames (SetState ClientStateLogin DummyClient) frames /\ (r = Ret tt -> ends_login frames))
  /\ (r = Ret tt ->
       cstate (side_client (cw_backend w')) = ClientStatePlay
       /\ (OnlineMode (Config_Auth config) = true ->
            exists profile, Info_Profile info = Some profile /\ told_profile origin profile (side_out (cw_backend w')))).
Proof.
  intros E. apply connect_end in E; [|done]. destruct E as (H1 & H2 & _ & H4 & H5).
  split; [destruct r as [[]| | |]; auto; done|].
  split; [destruct H4 as (fs & H4 & H6); exists fs; split; [exact H4|by apply H6]|].
  intros Hr. destruct (H5 Hr) as [Hp Hon]. split; [done|]. intros Ho. by apply forwarded_told, Hon.
Qed.

End BackendTheorem.

(** ** Witness *)

Definition frame_to_client (id : byte) (data : bytes) : bytes :=
  default [] (EncodeWithLen (ZL := stored_zlib) (NewRawPacket id data) DummyClient).

(** A backend that asks for the profile and then accepts the login. *)
Definition asking_backend : Conn :=
  [mkEvent (frame_to_client PacketClientLoginPluginRequest (encodeLoginPluginRequest velocity_request)
            ++ frame_to_client PacketClientLoginSuccess (replicate 20 x00) ++ [x42]) None].

Definition vouched_info : ClientInfo :=
  mkClientInfo None (Some (mkHandshake 763 (str "localhost") 25565 2)) (Some (Profile_Name sample_profile)) (Some sample_profile).
Definition sample_origin : Origin := mkOrigin None None (str "[::1]:25565") (Some sample_uuid).

Definition online_backend_config : Config :=
  let c := sample_config false false false in
  mkConfig (Config_Path c) (Config_Public c) (Config_Server c) (mkAuth true [] []) (Config_Time c) (Config_Motd c)
    (Config_Join c) (Config_Lockout c) (Config_Rcon c) (Config_Advanced c) (Config_Config c).

Lemma backend_login_vouched_witness :
  match connectToServerNoTimeout (A0 := toy_aes) (HM := toy_hmac) online_backend_config vouched_info sample_origin
          (mkConnect (dialed asking_backend None) None None) with
  | (Ret _, w) => side_stream (cw_backend w) = [x42]
      /\ exists profile, Info_Profile vouched_info = Some profile
         /\ told_profile (HM := toy_hmac) sample_origin profile (side_out (cw_backend w))
  | _ => False
  end.
Proof.
  destruct (connectToServerNoTimeout _ _ _ _) as [r w] eqn:E.
  assert (r = Ret tt /\ side_stream (cw_backend w) = [x42]) as [-> Hs] by (vm_compute in E; injection E as <- <-; split; reflexivity).
  split; [exact Hs|].
  destruct (backend_login_vouched (A0 := toy_aes) (HM := toy_hmac) _ _ _ _ _ _ _ _ _ E) as (_ & _ & H).
  destruct (H eq_refl) as [_ H']. destruct (H' eq_refl) as (p & H1 & H2). exists p. split; assumption.
Defined.
