(* ===== verification/Rcon.v ===== *)
(** The RCON client: [src/mc/rcon.go].

    The connection delivers read events ([Stream]) and takes writes; the sleeps
    of the code are left out. The loops of [auth] and
    [receiveMultiPacketResponse] take one round per packet, and a packet at
    least 14 bytes, so their fuel is the length of the stream. *)
From S2P Require Import Prelude VarInt Wire Packet Stream Config Net GoFloat Nbt Proxy Cipher Link.

Definition rconInitialPacketID : Z := 1.
Definition rconMaxPayloadSize : Z := 1413.
Definition rconTypeAuth : Z := 3.
Definition rconTypeAuthResponse : Z := 2.
Definition rconTypeExecCommand : Z := 2.

(** The connection's incoming events, what was written, how many more bytes it
    takes ([None]: any number), and the next packet id. *)
Record Rcon := mkRcon { rcon_conn : Conn; rcon_out : bytes; rcon_room : option nat; nextPacketID : Z }.

(** [io.ReadFull] with a buffer of [n] bytes. *)
Fixpoint ReadFull (n : nat) (conn : Conn) : option bytes * Conn :=
  match n, conn with
  | O, _ => (Some [], conn)
  | _, [] => (None, [])
  | _, ev :: conn' =>
      let len := length (chunk ev) in
      if (n <? len)%nat then (Some (take n (chunk ev)), mkEvent (drop n (chunk ev)) (rerr ev) :: conn')
      else if (n =? len)%nat then (Some (chunk ev), conn')
      else
        match rerr ev with
        | Some _ => (None, conn')
        | None => let '(r, conn'') := ReadFull (n - len) conn' in (app (chunk ev) <$> r, conn'')
        end
  end.

Definition read_full (n : nat) : ST Rcon bytes := fun r =>
  let '(o, conn) := ReadFull n (rcon_conn r) in
  (match o with Some b => Ret b | None => Bad end, mkRcon conn (rcon_out r) (rcon_room r) (nextPacketID r)).

Definition rcon_Write (b : bytes) : ST Rcon unit := fun r =>
  match rcon_room r with
  | None => (Ret tt, mkRcon (rcon_conn r) (rcon_out r ++ b) None (nextPacketID r))
  | Some n =>
      if (length b <=? n)%nat
      then (Ret tt, mkRcon (rcon_conn r) (rcon_out r ++ b) (Some (n - length b)%nat) (nextPacketID r))
      else (Bad, mkRcon (rcon_conn r) (rcon_out r ++ take n b) (Some O) (nextPacketID r))
  end.

Definition rcon_frame (id ptype : Z) (body : bytes) : bytes :=
  le_bytes 4 (u32 (10 + Zlen body)) ++ le_bytes 4 (u32 id) ++ le_bytes 4 (u32 ptype) ++ body ++ [x00; x00].

Definition bump_id (id : Z) : Z :=
  let next := i32 (id + 1) in if next <? rconInitialPacketID then rconInitialPacketID else next.

Definition send (ptype : Z) (body : bytes) : ST Rcon Z :=
  id ← reading nextPacketID;
  _ ← changing (fun r => mkRcon (rcon_conn r) (rcon_out r) (rcon_room r) (bump_id id));
  _ ← rcon_Write (rcon_frame id ptype body);
  mret id.

Record rconPacket := mkRconPacket { rp_id : Z; rp_ptype : Z; rp_body : bytes }.

(** [bodyLen := length - 10] as an [int32], and the check that follows. *)
Definition body_length (length : Z) : option Z :=
  let bodyLen := i32 (length - 10) in
  if bodyLen <? 0 then None else Some bodyLen.

Definition receivePacket : ST Rcon rconPacket :=
  hdr ← read_full 12;
  let length := i32 (le_val (take 4 hdr)) in
  let id := i32 (le_val (take 4 (drop 4 hdr))) in
  let ptype := i32 (le_val (drop 8 hdr)) in
  bodyLen ← of_option (body_length length);
  body ← read_full (Z.to_nat bodyLen);
  _ ← read_full 2;
  mret (mkRconPacket id ptype body).

Fixpoint auth_loop (fuel : nat) : ST Rcon unit :=
  match fuel with
  | O => nofuel
  | S fuel' =>
      pkt ← receivePacket;
      if rp_ptype pkt =? rconTypeAuthResponse then check (negb (rp_id pkt <? 0)) else auth_loop fuel'
  end.

Definition rcon_fuel (r : Rcon) : nat := S (length (conn_bytes (rcon_conn r))).

Definition auth (password : bytes) : ST Rcon unit :=
  _ ← send rconTypeAuth password;
  fueled rcon_fuel auth_loop.

Fixpoint response_loop (fuel : nat) (endID : Z) (result : bytes) : ST Rcon bytes :=
  match fuel with
  | O => nofuel
  | S fuel' =>
      pkt ← receivePacket;
      if rp_id pkt =? endID then mret result else response_loop fuel' endID (result ++ rp_body pkt)
  end.

Definition receiveMultiPacketResponse : ST Rcon bytes :=
  endID ← send rconTypeExecCommand [];
  fueled rcon_fuel (fun fuel => response_loop fuel endID []).

Definition Cmd (cmd : bytes) : ST Rcon bytes :=
  if rconMaxPayloadSize <? Zlen cmd then bad
  else
    _ ← send rconTypeExecCommand cmd;
    receiveMultiPacketResponse.

(** [ConnectRcon] once the dial succeeded with [conn]. *)
Definition ConnectRcon (sendProxyV2 : bool) (pass : bytes) (conn : Conn) (room : option nat) : Out unit * Rcon :=
  (_ ← (if sendProxyV2 then rcon_Write LocalHeader else mret tt); auth pass : ST Rcon unit)
    (mkRcon conn [] room rconInitialPacketID).

(** The address [ConnectRconConfig] dials. *)
Definition rcon_addr (ip : IP) (rconPort : Z) : bytes := IP_String ip ++ [x3a] ++ itoa rconPort.

(** ** Reading what was framed *)

Lemma ReadFull_exact b conn tail :
  clean conn -> conn_bytes conn = b ++ tail ->
  exists conn', ReadFull (length b) conn = (Some b, conn') /\ clean conn' /\ conn_bytes conn' = tail.
Proof.
  revert b. induction conn as [|ev conn IH]; intros b Hc E.
  - symmetry in E. apply app_eq_nil in E as [-> ->]. by exists [].
  - destruct b as [|x b]; [by exists (ev :: conn)|]. remember (x :: b) as w eqn:Ew.
    assert (length w <> 0)%nat by (by subst w).
    inversion_clear Hc as [|? ? [Hne He] Hcl]. unfold conn_bytes in E. cbn [map concat] in E. fold (conn_bytes conn) in E.
    assert (ReadFull (length w) (ev :: conn) =
      let len := length (chunk ev) in
      if (length w <? len)%nat then (Some (take (length w) (chunk ev)), mkEvent (drop (length w) (chunk ev)) (rerr ev) :: conn)
      else if (length w =? len)%nat then (Some (chunk ev), conn)
      else match rerr ev with
           | Some _ => (None, conn)
           | None => let '(r, c) := ReadFull (length w - len) conn in (app (chunk ev) <$> r, c)
           end) as -> by (by destruct w). cbn zeta.
    destruct (Nat.ltb_spec (length w) (length (chunk ev))).
    + assert (take (length w) (chunk ev) = w /\ conn_bytes (mkEvent (drop (length w) (chunk ev)) (rerr ev) :: conn) = tail) as [-> Ht].
      { assert (chunk ev = w ++ drop (length w) (chunk ev)) as Ek.
        { rewrite <- (take_drop (length w) (chunk ev)) at 1. f_equal.
          apply (f_equal (take (length w))) in E. rewrite take_app_le, take_app_length in E by lia. exact E. }
        split; [rewrite Ek at 1; by rewrite take_app_length|]. unfold conn_bytes. cbn [map concat chunk].
        rewrite Ek, <- app_assoc in E. by apply app_inv_head in E. }
      eexists. split; [done|]. split; [|exact Ht]. constructor; [|done]. cbn. split; [|done].
      intros Hd. apply (f_equal length) in Hd. rewrite length_drop in Hd. cbn in Hd. lia.
    + destruct (Nat.eqb_spec (length w) (length (chunk ev))) as [Hl|].
      * apply app_inj_1 in E as [<- Ht]; [|done]. by exists conn.
      * rewrite He. assert (exists b', w = chunk ev ++ b' /\ conn_bytes conn = b' ++ tail) as (b' & -> & Eb).
        { exists (drop (length (chunk ev)) w). assert (w = chunk ev ++ drop (length (chunk ev)) w) as Ek.
          { rewrite <- (take_drop (length (chunk ev)) w) at 1. f_equal.
            apply (f_equal (take (length (chunk ev)))) in E. rewrite take_app_length, take_app_le in E by lia. done. }
          split; [done|]. rewrite Ek, <- app_assoc in E. by apply app_inv_head in E. }
        rewrite length_app. replace (length (chunk ev) + length b' - length (chunk ev))%nat with (length b') by lia.
        destruct (IH b' Hcl Eb) as (conn' & -> & Hcl' & Ht). by exists conn'.
Qed.

Lemma read_full_exact b tail r :
  clean (rcon_conn r) -> conn_bytes (rcon_conn r) = b ++ tail ->
  exists conn', read_full (length b) r = (Ret b, mkRcon conn' (rcon_out r) (rcon_room r) (nextPacketID r))
  /\ clean conn' /\ conn_bytes conn' = tail.
Proof.
  intros Hc E. destruct (ReadFull_exact b _ _ Hc E) as (conn' & E' & Hc' & Ht). exists conn'.
  split; [|done]. unfold read_full. by rewrite E'.
Qed.

Lemma le_i32 v : is_i32 v -> i32 (le_val (le_bytes 4 (u32 v))) = v.
Proof.
  intros Hv. unfold le_val, le_bytes. rewrite rev_involutive, be_val_bytes. change (256 ^ Z.of_nat 4) with (2 ^ 32).
  rewrite Z.mod_small by (apply (uintw_range 32); lia). by rewrite (sintw_uintw 32).
Qed.

Lemma receivePacket_frame r id ptype body tail :
  is_i32 id -> is_i32 ptype -> 10 + Zlen body < 2 ^ 31 ->
  clean (rcon_conn r) -> conn_bytes (rcon_conn r) = rcon_frame id ptype body ++ tail ->
  exists conn', receivePacket r = (Ret (mkRconPacket id ptype body), mkRcon conn' (rcon_out r) (rcon_room r) (nextPacketID r))
  /\ clean conn' /\ conn_bytes conn' = tail.
Proof.
  intros Hid Hp Hb Hc E. unfold rcon_frame in E. rewrite <- !app_assoc in E.
  assert (is_i32 (10 + Zlen body)) as Hl by (unfold is_sint, Zlen in *; zpow; lia).
  set (l4 := le_bytes 4 (u32 (10 + Zlen body))) in *. set (i4 := le_bytes 4 (u32 id)) in *. set (t4 := le_bytes 4 (u32 ptype)) in *.
  assert (length l4 = 4%nat /\ length i4 = 4%nat /\ length t4 = 4%nat) as (L1 & L2 & L3)
    by (unfold l4, i4, t4, le_bytes; by rewrite !length_rev, !be_bytes_length).
  unfold receivePacket, mbind, ST_bind.
  rewrite (app_assoc l4), (app_assoc (l4 ++ i4)) in E.
  destruct (read_full_exact _ _ r Hc E) as (c1 & E1 & Hc1 & Ht1). rewrite !length_app, L1, L2, L3 in E1. cbn [Nat.add] in E1.
  rewrite E1.
  rewrite <- (app_assoc l4), take_app_length', drop_app_length' by done. rewrite take_app_length' by done.
  assert (drop 8 (l4 ++ i4 ++ t4) = t4) as -> by (rewrite app_assoc; apply drop_app_length'; rewrite length_app; lia).
  unfold l4, i4, t4. rewrite !le_i32 by done.
  assert (body_length (10 + Zlen body) = Some (Zlen body)) as ->.
  { unfold body_length. replace (10 + Zlen body - 10) with (Zlen body) by lia.
    rewrite sintw_id by (unfold is_sint, Zlen in *; zpow; lia). by rewrite (proj2 (Z.ltb_ge _ 0)) by (unfold Zlen; lia). }
  cbn [of_option mret ST_ret]. unfold Zlen at 1. rewrite Nat2Z.id.
  destruct (read_full_exact body _ (mkRcon c1 (rcon_out r) (rcon_room r) (nextPacketID r)) Hc1 Ht1) as (c2 & E2 & Hc2 & Ht2).
  unfold mret, ST_ret. rewrite E2. cbn [rcon_out rcon_room nextPacketID].
  destruct (read_full_exact [x00; x00] tail (mkRcon c2 (rcon_out r) (rcon_room r) (nextPacketID r)) Hc2 Ht2) as (c3 & E3 & Hc3 & Ht3).
  cbn [length] in E3. rewrite E3. eauto.
Qed.

(** ** Commands *)

Definition packet_ok (p : rconPacket) : Prop := is_i32 (rp_id p) /\ is_i32 (rp_ptype p) /\ 10 + Zlen (rp_body p) < 2 ^ 31.
Definition frames (ps : list rconPacket) : bytes := concat (map (fun p => rcon_frame (rp_id p) (rp_ptype p) (rp_body p)) ps).

Lemma rcon_frame_length id ptype body : length (rcon_frame id ptype body) = (14 + length body)%nat.
Proof. unfold rcon_frame, le_bytes. rewrite !length_app, !length_rev, !be_bytes_length. cbn [length]. lia. Qed.

Lemma frames_length ps : (length ps <= length (frames ps))%nat.
Proof.
  induction ps as [|p ps IH]; [done|]. unfold frames in *. cbn [map concat length]. rewrite length_app, rcon_frame_length. lia.
Qed.

Lemma response_loop_answer fuel endID acc ps t b tail r :
  (length ps < fuel)%nat -> Forall (fun p => packet_ok p /\ rp_id p <> endID) ps -> packet_ok (mkRconPacket endID t b) ->
  clean (rcon_conn r) -> conn_bytes (rcon_conn r) = frames ps ++ rcon_frame endID t b ++ tail ->
  exists conn', response_loop fuel endID acc r
    = (Ret (acc ++ concat (map rp_body ps)), mkRcon conn' (rcon_out r) (rcon_room r) (nextPacketID r))
  /\ clean conn' /\ conn_bytes conn' = tail.
Proof.
  intros Hf Hps (He1 & He2 & He3). revert fuel acc r Hf. induction Hps as [|p ps ((Hp1 & Hp2 & Hp3) & Hne) _ IH];
    intros [|fuel] acc r Hf Hc E; cbn [length] in Hf; try lia; cbn [response_loop]; unfold mbind, ST_bind.
  - destruct (receivePacket_frame r endID t b tail He1 He2 He3 Hc E) as (c1 & -> & Hc1 & Ht1). cbn [rp_id].
    rewrite Z.eqb_refl. exists c1. cbn [map concat]. by rewrite app_nil_r.
  - unfold frames in E. cbn [map concat] in E. rewrite <- app_assoc in E.
    destruct (receivePacket_frame r _ _ _ _ Hp1 Hp2 Hp3 Hc E) as (c1 & -> & Hc1 & Ht1). cbn [rp_id rp_body].
    rewrite (proj2 (Z.eqb_neq _ _) Hne).
    destruct (IH fuel (acc ++ rp_body p) (mkRcon c1 (rcon_out r) (rcon_room r) (nextPacketID r)) ltac:(lia) Hc1 Ht1)
      as (c2 & -> & Hc2 & Ht2). exists c2. cbn [map concat rcon_out rcon_room nextPacketID]. by rewrite <- app_assoc.
Qed.

Lemma send_unlimited ptype body r :
  rcon_room r = None ->
  send ptype body r
  = (Ret (nextPacketID r),
     mkRcon (rcon_conn r) (rcon_out r ++ rcon_frame (nextPacketID r) ptype body) None (bump_id (nextPacketID r))).
Proof. intros Hr. unfold send, mbind, ST_bind, reading, changing, rcon_Write. cbn. by rewrite Hr. Qed.

Lemma bump_id_range id : 1 <= bump_id id < 2 ^ 31.
Proof.
  unfold bump_id, rconInitialPacketID. pose proof (sintw_range 32 (id + 1) ltac:(lia)) as Hr.
  unfold is_sint in Hr. set (n := i32 (id + 1)) in *. clearbody n. zpow. destruct (Z.ltb_spec n 1); lia.
Qed.

(** C31: a command over RCON gets its whole answer. The command and the empty
    marker command go out with consecutive ids; however the server splits its
    answer into packets, and however the network splits the stream, [Cmd]
    returns the bodies of the packets up to the answer to the marker, put
    together in order, and leaves what follows unread. A command longer than
    1413 bytes is refused before anything is written. *)
Theorem rcon_command_answered (r : Rcon) (cmd : bytes) (ps : list rconPacket) (t : Z) (b tail : bytes) :
  let marker := bump_id (nextPacketID r) in
  rcon_room r = None -> is_i32 (nextPacketID r) -> clean (rcon_conn r) ->
  Forall (fun p => packet_ok p /\ rp_id p <> marker) ps -> is_i32 t -> 10 + Zlen b < 2 ^ 31 ->
  conn_bytes (rcon_conn r) = frames ps ++ rcon_frame marker t b ++ tail ->
  if rconMaxPayloadSize <? Zlen cmd then Cmd cmd r = (Bad, r)
  else exists r', Cmd cmd r = (Ret (concat (map rp_body ps)), r')
    /\ conn_bytes (rcon_conn r') = tail
    /\ rcon_out r' = rcon_out r ++ rcon_frame (nextPacketID r) rconTypeExecCommand cmd
                     ++ rcon_frame marker rconTypeExecCommand [].
Proof.
  intros marker Hroom Hid Hc Hps Ht Hb E. unfold Cmd. destruct (_ <? _); [done|].
  pose proof (bump_id_range (nextPacketID r)) as Hm. fold marker in Hm.
  unfold mbind, ST_bind. rewrite (send_unlimited _ _ r Hroom). unfold receiveMultiPacketResponse, mbind, ST_bind.
  rewrite send_unlimited by done. cbn [rcon_conn rcon_out nextPacketID]. fold marker. unfold fueled, rcon_fuel. cbn [rcon_conn].
  edestruct (response_loop_answer (S (length (conn_bytes (rcon_conn r)))) marker [] ps t b tail) as (c & -> & Hcl & Htl);
    [|exact Hps| | | |].
  - pose proof (frames_length ps). rewrite E, length_app. lia.
  - split_and!; [|done|done]. cbn [rp_id]. unfold is_sint. clearbody marker. zpow. lia.
  - exact Hc.
  - exact E.
  - eexists. split; [done|]. split; [exact Htl|]. cbn [rcon_out]. by rewrite <- app_assoc.
Qed.

(** The length check of RCON packets, exactly. A length from 10 up is
    accepted with the body it announces, and a length from -2147483638 to 9 is
    refused; but the ten most negative lengths wrap around in the [int32]
    subtraction, pass the check and make the client reserve more than two
    gigabytes for the body. *)
Lemma rcon_length_check (len : Z) :
  (10 <= len < 2 ^ 31 -> body_length len = Some (len - 10))
  /\ (- 2 ^ 31 + 10 <= len < 10 -> body_length len = None)
  /\ (- 2 ^ 31 <= len < - 2 ^ 31 + 10 ->
      exists n, body_length len = Some n /\ n = len - 10 + 2 ^ 32 /\ 2 ^ 31 - 10 <= n < 2 ^ 31).
Proof.
  unfold body_length, sintw. zpow. split_and!; intros H.
  - rewrite Z.mod_small by lia. rewrite (proj2 (Z.ltb_ge _ 0)) by lia. f_equal. lia.
  - rewrite Z.mod_small by lia. by rewrite (proj2 (Z.ltb_lt _ 0)) by lia.
  - exists (len - 10 + 4294967296). split; [|lia].
    replace (len - 10 + 2147483648) with (len - 10 + 2147483648 + 4294967296 + (-1) * 4294967296) by lia.
    rewrite Z_mod_plus_full, Z.mod_small by lia. rewrite (proj2 (Z.ltb_ge _ 0)) by lia. f_equal. lia.
Qed.

(** An address that contains a colon is not bracketed, so what is dialled for
    it cannot be split into host and port. *)
Lemma rcon_ipv6_address_refused (host port : bytes) :
  head host <> Some x5b -> host <> [] -> has_byte host x3a = true -> LastIndexByte port x3a = None ->
  SplitHostPort (host ++ [x3a] ++ port) = None.
Proof.
  intros Hh Hne Hc Hp. unfold SplitHostPort. change ([x3a] ++ port) with (x3a :: port). rewrite (LastIndexByte_at x3a) by done.
  destruct host as [|b host]; [done|]. rewrite decide_False by (exact Hh).
  rewrite take_app_length. by rewrite Hc.
Qed.

Example rcon_addr_loopback_v6 : SplitHostPort (rcon_addr IPv6loopback 25575) = None.
Proof. vm_compute. reflexivity. Qed.

Definition rcon_session : Rcon :=
  mkRcon [mkEvent (take 9 (rcon_frame 2 0 (str "Stopping"))) None;
          mkEvent (drop 9 (rcon_frame 2 0 (str "Stopping")) ++ rcon_frame 2 0 (str " the server") ++ rcon_frame 3 0 []) None]
    [] None 2.

Lemma rcon_command_answered_witness :
  exists r', Cmd (str "stop") rcon_session = (Ret (str "Stopping the server"), r') /\ conn_bytes (rcon_conn r') = [].
Proof.
  pose proof (rcon_command_answered rcon_session (str "stop")
    [mkRconPacket 2 0 (str "Stopping"); mkRconPacket 2 0 (str " the server")] 0 [] []) as H.
  destruct H as (r' & H1 & H2 & _).
  - reflexivity.
  - split; vm_compute; congruence.
  - repeat constructor; vm_compute; congruence.
  - repeat constructor; try (vm_compute; congruence).
  - split; vm_compute; congruence.
  - vm_compute. reflexivity.
  - vm_compute. reflexivity.
  - exists r'. exact (conj H1 H2).
Defined.
