(* ===== verification/Monitor.v ===== *)
(** The monitor: [src/monitor.go]. Polling the server over a connection, and
    the body of the loop of [MonitorServer].

    The backend a poll talks to is a [Peer]: whether it accepts the
    connection, how it answers each write, and the byte stream it sends. The
    read loops of [waitForStatus] and [waitForPing] have no bound of their own
    (the callers give up after a timeout), so they take fuel and report when it
    runs out. *)
From S2P Require Import Prelude VarInt Wire Packet Stream Config Net Json Packets StatusJson Process Proxy Nbt JoinGame Access ServerState.

Definition monitorPollInterval : Z := 2 * second.
Definition statusTimeout : Z := 20 * second.
Definition pingTimeout : Z := 10 * second.

(** ** Waiting for an answer *)

Inductive Wait (A : Type) :=
| Found (a : A)
| Lost
| OutOfFuel.
Arguments Found {A}. Arguments Lost {A}. Arguments OutOfFuel {A}.

Section Poll.

Context `{ZL : Zlib}.

(** [waitForStatus]: malformed packets and other packets are skipped. *)
Fixpoint waitForStatus (fuel : nat) (client : Client) (buf : bytes) (conn : Conn) : Wait ServerStatus :=
  match fuel with
  | O => OutOfFuel
  | S fuel' =>
      match ReadPacket client buf conn with
      | (Failed ErrMalformedPacket, buf, conn) => waitForStatus fuel' client buf conn
      | (Failed _, _, _) => Lost
      | (Closed, _, _) => Lost
      | (Diverges, _, _) => OutOfFuel
      | (GotPacket packet _, buf, conn) =>
          if decide (ID packet = PacketClientStatusResponse) then
            match decodeStatusResponse (Data packet) with
            | None => waitForStatus fuel' client buf conn
            | Some status => Found status
            end
          else waitForStatus fuel' client buf conn
      end
  end.

(** [waitForPing] *)
Fixpoint waitForPing (fuel : nat) (client : Client) (buf : bytes) (conn : Conn) (token : Z) : Wait unit :=
  match fuel with
  | O => OutOfFuel
  | S fuel' =>
      match ReadPacket client buf conn with
      | (Failed ErrMalformedPacket, buf, conn) => waitForPing fuel' client buf conn token
      | (Failed _, _, _) => Lost
      | (Closed, _, _) => Lost
      | (Diverges, _, _) => OutOfFuel
      | (GotPacket packet _, buf, conn) =>
          if bool_decide (ID packet = PacketClientPing) && (8 <=? length (Data packet))%nat
             && (be_val (take 8 (Data packet)) =? token)
          then Found tt
          else waitForPing fuel' client buf conn token
      end
  end.

(** [waitForStatusTimeout] and [waitForPingTimeout]: a wait that has not
    finished in time fails. *)
Definition waitForStatusTimeout (fuel : nat) (client : Client) (conn : Conn) : option ServerStatus :=
  match waitForStatus fuel client [] conn with Found st => Some st | _ => None end.

Definition waitForPingTimeout (fuel : nat) (client : Client) (conn : Conn) (token : Z) : bool :=
  match waitForPing fuel client [] conn token with Found _ => true | _ => false end.

(** ** Requests *)

Definition handshake_message (client : Client) (config : Config) (addr : SocketAddr) : option bytes :=
  let w := NewPacketWriter
    |> WriteVarInt (i32 (Public_Protocol (Config_Public config)))
    |> WriteString (IP_String (SocketAddr_IP addr))
    |> WriteUint16 (u16 (SocketAddr_Port addr))
    |> WriteVarInt (ToID ClientStateStatus) in
  EncodeWithLen (NewRawPacket PacketHandshake (Bytes w)) client.

Definition status_message (client : Client) : option bytes :=
  EncodeWithLen (NewRawPacket PacketServerStatusRequest []) client.

(** [drawn]: the answer of [rand.Int]; [nano]: [time.Now().UnixNano()]. *)
Definition randomToken (drawn : option Z) (nano : Z) : Z :=
  match drawn with Some n => u64 n | None => u64 nano end.

Definition ping_message (client : Client) (token : Z) : option bytes :=
  EncodeWithLen (NewRawPacket PacketServerPing (Bytes (NewPacketWriter |> WriteUint64 token))) client.

(** A backend as one poll sees it. *)
Record Peer := mkPeer {
  dial_ok : bool;
  write_answers : list bool;
  replies : Conn }.

(** Writing messages one after the other: an encoding that failed or a refused
    write ends the sequence. The result is whether all were written, and the
    bytes that went out. *)
Fixpoint send_all (msgs : list (option bytes)) (answers : list bool) : bool * bytes :=
  match msgs with
  | [] => (true, [])
  | None :: _ => (false, [])
  | Some m :: msgs' =>
      match answers with
      | false :: _ => (false, [])
      | _ => let '(ok, out) := send_all msgs' (tail answers) in (ok, m ++ out)
      end
  end.

Definition proxy_preamble (config : Config) : list (option bytes) :=
  if Server_SendProxyV2 (Config_Server config) then [Some LocalHeader] else [].

(** The status, if any, and what was written to the connection. *)
Definition fetchStatus (fuel : nat) (config : Config) (addr : SocketAddr) (peer : Peer) : option ServerStatus * bytes :=
  if negb (dial_ok peer) then (None, [])
  else
    let client := DummyClient in
    let '(ok, out) :=
      send_all (proxy_preamble config ++ [handshake_message client config addr; status_message client]) (write_answers peer) in
    (if ok then waitForStatusTimeout fuel client (replies peer) else None, out).

Definition doPing (fuel : nat) (config : Config) (addr : SocketAddr) (peer : Peer) (token : Z) : bool * bytes :=
  if negb (dial_ok peer) then (false, [])
  else
    let client := DummyClient in
    let '(ok, out) :=
      send_all (proxy_preamble config ++ [handshake_message client config addr; ping_message client token]) (write_answers peer) in
    (if ok then waitForPingTimeout fuel client (replies peer) token else false, out).

(** [pollServer]: (status, ok, pingFallback), and what was written to the
    connection of the status request and to that of the ping. The ping uses a
    connection of its own, and only when the server is believed to be started. *)
Definition pollServer (fuel : nat) (config : Config) (cur : State) (addr : SocketAddr)
    (peer ping_peer : Peer) (token : Z) : (option ServerStatus * bool * bool) * (bytes * bytes) :=
  let '(status, asked) := fetchStatus fuel config addr peer in
  match status with
  | Some status => ((Some status, true, false), (asked, []))
  | None =>
      if decide (cur = StateStarted) then
        let '(up, pinged) := doPing fuel config addr ping_peer token in
        (if up then (None, true, true) else (None, false, false), (asked, pinged))
      else ((None, false, false), (asked, []))
  end.

End Poll.

(** ** One round of [MonitorServer] *)

(** The switch on the poll's result: a status, an error, or the ping fallback. *)
Definition observe (env : Env) (config : Config) (poll : option ServerStatus * bool * bool) : Op unit :=
  let '(st, ok, _) := poll in
  match st, ok with
  | Some v, true => UpdateStatus env config (Some v)
  | _, false => UpdateStatus env config None
  | None, true => mret tt
  end.

(** The round after the poll. A poll may take long, so the round's own clock
    readings come from [env]. Storing the Forge snapshot touches only a file. *)
Definition monitor_round (env : Env) (config : Config) (poll : option ServerStatus * bool * bool) : Op unit :=
  _ ← observe env config poll;
  sleep ← ShouldSleep env config;
  _ ← (if sleep : bool then Stop env config else mret false);
  kill ← ShouldKill env;
  if kill : bool then
    if ControllerManaged (Config_Server config) then
      _ ← ExpireControllerManagedTransition env config; mret tt
    else _ ← ForceKill env config; mret tt
  else mret tt.

(** ** Lemmas *)

Section PollLemmas.

Context `{ZL : Zlib}.

Definition ignored (p : RawPacket) : Prop :=
  Zlen (payload_of p) < 2 ^ 14
  /\ (ID p <> PacketClientStatusResponse \/ decodeStatusResponse (Data p) = None).

Lemma waitForStatus_finds `{!ZlibLaws ZL} ps p st c tail : forall fuel buf conn,
  IsCompressed c = false -> Forall ignored ps -> Zlen (payload_of p) < 2 ^ 14 ->
  ID p = PacketClientStatusResponse -> decodeStatusResponse (Data p) = Some st ->
  Zlen buf <= MaxBufferedBytes -> clean conn ->
  buf ++ conn_bytes conn = concat (map frame_of ps) ++ frame_of p ++ tail ->
  (length ps < fuel)%nat -> waitForStatus fuel c buf conn = Found st.
Proof.
  induction ps as [|x ps IH]; intros fuel buf conn Hc Hps Hp Hid Hst Hb Hcl Hs Hf;
    (destruct fuel as [|fuel]; [simpl in Hf; lia|]); cbn [waitForStatus].
  - destruct (ReadPacket_frame p c tail buf conn) as (b & k & Er & _); [done..|].
    rewrite Er, decide_True by done. by rewrite Hst.
  - apply Forall_cons in Hps as [[Hx Hi] Hps]. cbn [map concat] in Hs. rewrite <- app_assoc in Hs.
    destruct (ReadPacket_frame x c _ buf conn Hc Hx Hb Hcl Hs) as (b & k & Er & Hs' & Hcl').
    rewrite Er.
    assert (waitForStatus fuel c b k = Found st) as Hgo.
    { apply IH; try done; [|simpl in Hf; lia]. by eapply ReadPacket_bound. }
    case_decide; [|done]. destruct Hi as [Hi|Hi]; [done|]. by rewrite Hi.
Qed.

Lemma waitForStatus_stuck c fuel : forall buf conn buf' conn',
  ReadPacket c buf conn = (Failed ErrMalformedPacket, buf', conn') -> waitForStatus fuel c buf conn = OutOfFuel.
Proof.
  induction fuel as [|fuel IH]; intros buf conn buf' conn' H; [done|]. cbn [waitForStatus]. rewrite H.
  eapply IH. by eapply ReadPacket_malformed_sticky.
Qed.

(** Without a malformed packet the loop ends after at most one round per byte. *)
Lemma waitForStatus_ends c fuel : forall buf conn,
  (length (buf ++ conn_bytes conn) < fuel)%nat ->
  waitForStatus fuel c buf conn = OutOfFuel ->
  exists b k b' k', ReadPacket c b k = (Failed ErrMalformedPacket, b', k').
Proof.
  induction fuel as [|fuel IH]; intros buf conn Hl; [lia|]. cbn [waitForStatus].
  destruct (ReadPacket c buf conn) as [[r b] k] eqn:E.
  destruct r as [p raw| |e|]; [|done| |].
  - assert (length (b ++ conn_bytes k) < fuel)%nat as Hl'.
    { pose proof (ReadPacket_conserves _ _ _ _ _ _ E) as Ec. cbn [result_raw] in Ec.
      pose proof (ReadPacket_progress _ _ _ _ _ _ _ E). apply (f_equal length) in Ec.
      rewrite length_app in Ec. destruct raw; [done|]. simpl in Ec. lia. }
    case_decide; [|by apply IH]. destruct (decodeStatusResponse (Data p)); [done|by apply IH].
  - destruct e; try done. intros _. by eexists _, _, _, _.
  - intros _. by apply ReadPacket_returns in E.
Qed.

(** A poll of a backend that accepts everything and whose status response
    comes after packets that are ignored. *)
Lemma poll_delivers `{!ZlibLaws ZL} (config : Config) (addr : SocketAddr) (cur : State) (peer ping_peer : Peer)
    (token : Z) (ps : list RawPacket) (s : ServerStatus) (tail : bytes) (fuel : nat) :
  dial_ok peer = true -> Forall (fun ok => ok = true) (write_answers peer) ->
  Forall ignored ps -> status_ok s ->
  let p := NewRawPacket PacketClientStatusResponse (StringBytes (StatusResponseJSON s)) in
  Zlen (payload_of p) < 2 ^ 14 -> clean (replies peer) ->
  conn_bytes (replies peer) = concat (map frame_of ps) ++ frame_of p ++ tail ->
  (length ps < fuel)%nat ->
  fst (pollServer fuel config cur addr peer ping_peer token) = (Some s, true, false).
Proof.
  intros Hd Hw Hps Hs p Hp Hcl Hb Hf. unfold pollServer, fetchStatus. rewrite Hd. cbn [negb].
  assert (forall msgs ans, Forall (fun m => m <> None) msgs -> Forall (fun ok => ok = true) ans -> fst (send_all msgs ans) = true) as Hsend.
  { induction msgs as [|[m|] msgs IH]; intros ans Hm Ha; [done| |by apply Forall_cons in Hm as [? _]].
    apply Forall_cons in Hm as [_ Hm]. cbn [send_all].
    assert (fst (send_all msgs (List.tl ans)) = true) as E by (destruct Ha; by apply IH).
    destruct (send_all msgs (List.tl ans)) as [ok out]. cbn in E. subst. by destruct Ha as [|a ans ->]. }
  specialize (Hsend (proxy_preamble config ++ [handshake_message DummyClient config addr; status_message DummyClient]) (write_answers peer)).
  destruct (send_all _ _) as [ok out]. cbn [fst] in Hsend.
  rewrite Hsend; [|unfold proxy_preamble; case_match; repeat constructor; done|done].
  unfold waitForStatusTimeout.
  rewrite (waitForStatus_finds ps p s DummyClient tail); try done.
  cbn [Data p]. rewrite decodeStatusResponse_StringBytes; [by apply decodeStatusJSON_render|].
  subst p. unfold payload_of, StringBytes in Hp. cbn [Data ID] in Hp. unfold Zlen in *.
  rewrite !length_app in Hp. lia.
Qed.

End PollLemmas.

(** ** Properties *)

(** The monitor finds the server's status. A backend that accepts the
    connection and the requests, and sends any number of other packets before
    its status response, in any segmentation, is polled successfully: the poll
    returns the status the backend rendered. Frames are below 16 KiB, and one
    round of the read loop per packet is enough. *)
Theorem poll_finds_status `{ZlibLaws} (config : Config) (addr : SocketAddr) (cur : State) (peer ping_peer : Peer)
    (token : Z) (ps : list RawPacket) (s : ServerStatus) (tail : bytes) (fuel : nat) :
  dial_ok peer = true -> Forall (fun ok => ok = true) (write_answers peer) ->
  Forall ignored ps -> status_ok s ->
  let p := NewRawPacket PacketClientStatusResponse (StringBytes (StatusResponseJSON s)) in
  Zlen (payload_of p) < 2 ^ 14 -> clean (replies peer) ->
  conn_bytes (replies peer) = concat (map frame_of ps) ++ frame_of p ++ tail ->
  (length ps < fuel)%nat ->
  fst (pollServer fuel config cur addr peer ping_peer token) = (Some s, true, false).
Proof. apply poll_delivers. Qed.

Lemma poll_finds_status_witness :
  fst (pollServer 2 defaultConfig StateStopped (mkSocketAddr (IPv4 x7f x00 x00 x01) 25566)
    (mkPeer true [] [mkEvent (frame_of (NewRawPacket x01 [])) None;
       mkEvent (frame_of (NewRawPacket PacketClientStatusResponse (StringBytes (StatusResponseJSON sample_status)))) None])
    (mkPeer false [] []) 0) = (Some sample_status, true, false).
Proof.
  apply (poll_finds_status defaultConfig _ StateStopped _ _ 0 [NewRawPacket x01 []] sample_status []).
  - reflexivity.
  - constructor.
  - apply Forall_singleton. split; [vm_compute; reflexivity|left; discriminate].
  - repeat split; try (vm_compute; congruence); [repeat constructor|].
    right. exists (JObj []). apply (JsonText.jtext_weaken 1); [|reflexivity]. by apply deep_enough; lia.
  - vm_compute. reflexivity.
  - repeat constructor; vm_compute; discriminate.
  - vm_compute. reflexivity.
  - simpl. lia.
Defined.

(** A malformed packet makes the poll spin. [waitForStatus] goes on
    reading after a malformed packet, but the malformed bytes are still in the
    buffer, so every further round finds the same packet: whatever the number
    of rounds, no status is returned and the connection is not read any more,
    until the caller's timeout. Conversely, this is the only way to not return:
    without a malformed packet one round per byte is enough. *)
Theorem malformed_packet_spins `{Zlib} (c : Client) (buf buf' : bytes) (conn conn' : Conn) (fuel : nat) :
  (ReadPacket c buf conn = (Failed ErrMalformedPacket, buf', conn') ->
   waitForStatus fuel c buf conn = OutOfFuel
   /\ forall conn2, ReadPacket c buf' conn2 = (Failed ErrMalformedPacket, buf', conn2))
  /\ ((length (buf ++ conn_bytes conn) < fuel)%nat -> waitForStatus fuel c buf conn = OutOfFuel ->
      exists b k b' k', ReadPacket c b k = (Failed ErrMalformedPacket, b', k')).
Proof.
  split; [|apply waitForStatus_ends].
  intros Hr. split; [by eapply waitForStatus_stuck|by eapply ReadPacket_malformed_sticky].
Qed.

Example malformed_example (fuel : nat) :
  waitForStatus fuel DummyClient [] [mkEvent [xff; xff; xff; xff; xff; x01] None] = OutOfFuel.
Proof. eapply waitForStatus_stuck. vm_compute. reflexivity. Qed.
