(* ===== verification/TestServer.v ===== *)
(** The bundled test server: [src/internal/testserver/testserver.go], a minimal
    Minecraft server that the end-to-end tests use as a backend.

    A connection is handled over a [Side] like the gateway's own; the state the
    server keeps and the headers it captured are threaded through. Accepting
    connections, stopping and the state file are in [TestServerRun]. *)
From S2P Require Import Prelude VarInt Wire Packet Stream GoFloat Nbt Config Net Json Packets StatusJson Cipher Link Proxy ServerState Monitor.

(** ** The state *)

Record Login := mkLogin {
  Login_Username : bytes;
  Login_Protocol : Z;
  Login_Addr : bytes;
  Login_Packets : Z }.

Record MockState := mkMockState { Statuses : Z; Logins : list Login; Shutdown : bool }.

Definition NewState : MockState := mkMockState 0 [] false.
Definition Snapshot (s : MockState) : MockState := mkMockState (Statuses s) (Logins s) (Shutdown s).
Definition addStatus (s : MockState) : MockState := mkMockState (Statuses s + 1) (Logins s) (Shutdown s).
Definition addLogin (l : Login) (s : MockState) : MockState := mkMockState (Statuses s) (Logins s ++ [l]) (Shutdown s).
Definition setShutdown (s : MockState) : MockState := mkMockState (Statuses s) (Logins s) true.

(** [s.state.Logins[len-1] = login], when there is one. *)
Definition set_last_login (l : Login) (s : MockState) : MockState :=
  match Logins s with
  | [] => s
  | _ => mkMockState (Statuses s) (removelast (Logins s) ++ [l]) (Shutdown s)
  end.

(** ** The buffered reader *)

(** A connection whose next bytes are buffered. *)
Definition unread_conn (buffered : bytes) (conn : Conn) : Conn :=
  match buffered with [] => conn | _ => mkEvent buffered None :: conn end.

(** [bufio.Reader.Peek]: reads until [n] bytes are buffered; an error is kept
    for the reads after the buffered bytes, since a connection that failed fails
    again. *)
Fixpoint peek (n : nat) (buffered : bytes) (conn : Conn) : option bytes * Conn :=
  if (n <=? length buffered)%nat then (Some (take n buffered), unread_conn buffered conn)
  else
    match conn with
    | [] => (None, unread_conn buffered [])
    | ev :: conn' =>
        match rerr ev with
        | None => peek n (buffered ++ chunk ev) conn'
        | Some e => (None, unread_conn (buffered ++ chunk ev) (mkEvent [] (Some e) :: conn'))
        end
    end.

(** [io.ReadFull]: what has been read is gone also when it was too little. *)
Definition read_full (n : nat) (conn : Conn) : option bytes * Conn :=
  match peek n [] conn with
  | (Some b, k) => (Some b, match k with ev :: k' => unread_conn (drop n (chunk ev)) k' | [] => [] end)
  | (None, k) => (None, match k with ev :: k' => if decide (rerr ev = None) then k' else k | [] => [] end)
  end.

Definition proxy_signature : bytes := [x0d; x0a; x0d; x0a; x00; x0d; x0a; x51; x55; x49; x54; x0a].

(** The header, if the connection starts with one, and the connection then. *)
Definition peekProxyHeader (conn : Conn) : option bytes * Conn :=
  match peek 12 [] conn with
  | (None, conn) => (None, conn)
  | (Some sig, conn) =>
      if negb (bool_decide (sig = proxy_signature)) then (None, conn)
      else
        match peek 16 [] conn with
        | (None, conn) => (None, conn)
        | (Some full, conn) => read_full (16 + Z.to_nat (be_val (drop 14 full))) conn
        end
  end.

(** ** Handling a connection *)

Record Mock := mkMock { m_side : Side; m_state : MockState; m_captured : list bytes }.

Section Handle.

Context `{A0 : AES} `{ZL : Zlib}.

Definition on_side {A} (m : ST Side A) : ST Mock A := zoom m_side (fun s w => mkMock s (m_state w) (m_captured w)) m.
Definition on_state (f : MockState -> MockState) : ST Mock unit := changing (fun w => mkMock (m_side w) (f (m_state w)) (m_captured w)).

(** [writePacket]: a packet that cannot be encoded and a failed write are
    ignored. *)
Definition mock_write (id : byte) (data : bytes) : ST Mock unit :=
  _ ← attempt (on_side (writePacketTo (NewRawPacket id data))); mret tt.

(** Read a packet; anything but a packet with this id ends the handling. *)
Definition expect (id : byte) : ST Mock bytes :=
  answer ← on_side side_read;
  match answer with
  | Some (packet, _) => if decide (ID packet = id) then mret (Data packet) else bad
  | None => bad
  end.

Definition mock_status : ServerStatus :=
  mkServerStatus (mkServerVersion (str "Mock 1.20.4") 765) (mkOnlinePlayers 20 0 []) (str "Mock MOTD") None [].

Definition status_flow : ST Mock unit :=
  _ ← on_state addStatus;
  _ ← expect PacketServerStatusRequest;
  _ ← mock_write PacketClientStatusResponse (StringBytes (StatusResponseJSON mock_status));
  ping ← expect PacketServerPing;
  mock_write PacketClientPing ping.

(** [minimalCodec] *)
Definition codec_element : Compound :=
  NewCompound |> InsertByte (str "piglin_safe") 0 |> InsertByte (str "natural") 1 |> InsertFloat (str "ambient_light") 0
  |> InsertString (str "infiniburn") (str "minecraft:infiniburn_overworld") |> InsertByte (str "respawn_anchor_works") 0
  |> InsertByte (str "has_skylight") 1 |> InsertByte (str "bed_works") 1 |> InsertString (str "effects") (str "minecraft:overworld")
  |> InsertByte (str "has_raids") 1 |> InsertInt (str "min_y") 0 |> InsertInt (str "height") 256
  |> InsertInt (str "logical_height") 256 |> InsertDouble (str "coordinate_scale") 0x3ff0000000000000
  |> InsertByte (str "ultrawarm") 0 |> InsertByte (str "has_ceiling") 0.

Definition minimalCodec : Compound :=
  let dim := NewCompound |> InsertString (str "name") (str "minecraft:overworld") |> InsertInt (str "id") 0
             |> Insert (str "element") (TCompound codec_element) in
  let dimTypes := NewCompound |> InsertString (str "type") (str "minecraft:dimension_type")
                  |> Insert (str "value") (TList TagCompound [TCompound dim]) in
  NewCompound |> Insert (str "minecraft:dimension_type") (TCompound dimTypes).

Definition worldNames : list bytes := [str "minecraft:overworld"; str "minecraft:the_nether"; str "minecraft:the_end"].

Definition mock_join_game : bytes :=
  let w := NewPacketWriter |> WriteUint32 1 |> WriteBool false |> WriteU8 x00 |> WriteU8 xff
           |> WriteVarInt (i32 (Zlen worldNames)) in
  let w := foldl (fun w n => w |> WriteString n) w worldNames in
  Bytes (w |> WriteCompoundTag minimalCodec |> WriteCompoundTag NewCompound |> WriteString (str "minecraft:overworld")
         |> WriteInt64 0 |> WriteVarInt 20 |> WriteVarInt 10
         |> WriteBool false |> WriteBool true |> WriteBool false |> WriteBool false).

(** The loop that records the packets of a client. [due i]: two seconds have
    passed since the last keep-alive in round [i]. *)
Fixpoint keep_loop (due : nat -> bool) (fuel i : nat) (keepAliveID : Z) (login : Login) : ST Mock unit :=
  match fuel with
  | O => nofuel
  | S fuel' =>
      answer ← attempt (on_side side_read);
      let got := match answer with Some (Some _) => true | _ => false end in
      let login := if got then mkLogin (Login_Username login) (Login_Protocol login) (Login_Addr login) (Login_Packets login + 1) else login in
      _ ← (if got then on_state (set_last_login login) else mret tt);
      _ ← (if due i then mock_write x21 (Bytes (NewPacketWriter |> WriteUint64 keepAliveID)) else mret tt);
      if got then keep_loop due fuel' (S i) (if due i then u64 (keepAliveID + 1) else keepAliveID) login else mret tt
  end.

Definition mock_uuid : bytes := str "9e5f3c9a-2b1d-4e6f-8a7c-0d1e2f3a4b5c".

(** [addr]: the text of the client's address. *)
Definition login_flow (due : nat -> bool) (addr : bytes) (protocol : Z) : ST Mock unit :=
  data ← expect PacketServerLoginStart;
  ls ← of_option (DecodeLoginStart data);
  let login := mkLogin (LoginStart_Name ls) protocol addr 0 in
  _ ← on_state (addLogin login);
  _ ← mock_write PacketClientSetCompression (Bytes (NewPacketWriter |> WriteVarInt CompressionThreshold));
  _ ← on_side (changing (on_client (SetCompression CompressionThreshold)));
  _ ← mock_write PacketClientLoginSuccess
        (Bytes (NewPacketWriter |> WriteString mock_uuid |> WriteString (LoginStart_Name ls)));
  _ ← on_side (changing (on_client (SetState ClientStatePlay)));
  _ ← mock_write x26 mock_join_game;
  fueled (fun w => S (length (side_stream (m_side w)))) (fun fuel => keep_loop due fuel 0 0 login).

(** [saveCapture]: the captures are files numbered in order. *)
Definition saveCapture (header : bytes) : ST Mock unit := changing (fun w => mkMock (m_side w) (m_state w) (m_captured w ++ [header])).

(** [handle]; [capture]: whether a directory for captures is set. *)
Definition handle (due : nat -> bool) (capture : bool) (addr : bytes) : ST Mock unit :=
  header ← (fun w =>
    let l := side_link (m_side w) in
    let '(h, conn) := peekProxyHeader (l_conn l) in
    (Ret h, mkMock (mkSide (side_client (m_side w)) (mkLink conn (l_buf l) (l_enc l) (l_out l) (l_room l))) (m_state w) (m_captured w)));
  _ ← match header with
      | Some h => if capture then saveCapture h else mret tt
      | None => mret tt
      end;
  data ← expect PacketHandshake;
  handshake ← of_option (DecodeHandshake data);
  if NextState handshake =? 1 then status_flow
  else if NextState handshake =? 2 then login_flow due addr (ProtocolVersion handshake)
  else mret tt.

(** A fresh connection that delivers [conn]. *)
Definition accepted (conn : Conn) (s : MockState) : Mock := mkMock (mkSide DummyClient (mkLink conn [] None [] None)) s [].

End Handle.

(** ** The buffered reader on a clean connection *)

Lemma unread_conn_bytes b conn : conn_bytes (unread_conn b conn) = b ++ conn_bytes conn.
Proof. by destruct b. Qed.

Lemma unread_conn_clean b conn : clean conn -> clean (unread_conn b conn).
Proof. intros H. destruct b as [|x b]; [done|]. by constructor. Qed.

(** Peeking changes neither the bytes to come nor that they come cleanly, and
    answers when there are enough of them. *)
Lemma peek_clean n conn : forall b, clean conn ->
  exists r k, peek n b conn = (r, k) /\ conn_bytes k = b ++ conn_bytes conn /\ clean k
    /\ (if (n <=? length (b ++ conn_bytes conn))%nat
        then r = Some (take n (b ++ conn_bytes conn)) /\ exists b' k', (n <= length b')%nat /\ k = unread_conn b' k' /\ clean k'
        else r = None).
Proof.
  induction conn as [|ev conn IH]; intros b Hc; cbn [peek].
  - change (conn_bytes []) with (@nil byte). rewrite app_nil_r. destruct (n <=? length b)%nat eqn:E.
    + eexists _, _. split; [done|]. rewrite unread_conn_bytes, app_nil_r. split_and!; [done|by apply unread_conn_clean|done|].
      apply Nat.leb_le in E. by exists b, [].
    + eexists _, _. split; [done|]. rewrite unread_conn_bytes, app_nil_r. split_and!; [done|by apply unread_conn_clean|done].
  - apply Forall_cons in Hc as [[Hne Hr] Hc]. destruct (n <=? length b)%nat eqn:E.
    + eexists _, _. split; [done|]. rewrite unread_conn_bytes. split_and!; [done|apply unread_conn_clean; by constructor|].
      apply Nat.leb_le in E. rewrite length_app, (proj2 (Nat.leb_le _ _)) by lia. rewrite take_app_le by done.
      split; [done|]. exists b, (ev :: conn). split_and!; [done|done|by constructor].
    + rewrite Hr. destruct (IH (b ++ chunk ev) Hc) as (r & k & Ek & Hb & Hk & H). exists r, k.
      cbn [conn_bytes map concat] in *. rewrite <- app_assoc in *. done.
Qed.

Lemma read_full_clean n conn : (0 < n <= length (conn_bytes conn))%nat -> clean conn ->
  exists k, read_full n conn = (Some (take n (conn_bytes conn)), k) /\ conn_bytes k = drop n (conn_bytes conn) /\ clean k.
Proof.
  intros Hn Hc. unfold read_full. destruct (peek_clean n conn [] Hc) as (r & k & -> & Hb & _ & H).
  rewrite app_nil_l, (proj2 (Nat.leb_le _ _)) in * by lia. destruct H as [-> (b & k' & Hl & -> & Hk)].
  eexists. split; [done|]. rewrite unread_conn_bytes in Hb. destruct b as [|x b]; [simpl in Hl; lia|].
  cbn [unread_conn chunk]. rewrite <- Hb, unread_conn_bytes. rewrite drop_app_le by lia.
  split; [done|by apply unread_conn_clean].
Qed.

(** The header the gateway sends to a backend without a player behind it is
    taken off the connection. *)
Lemma peekProxyHeader_local rest conn : clean conn -> conn_bytes conn = LocalHeader ++ rest ->
  exists k, peekProxyHeader conn = (Some LocalHeader, k) /\ conn_bytes k = rest /\ clean k.
Proof.
  intros Hc Hb. unfold peekProxyHeader.
  destruct (peek_clean 12 conn [] Hc) as (r & k & -> & Hb1 & Hk & H).
  rewrite app_nil_l, Hb, (proj2 (Nat.leb_le _ _)) in * by (simpl; lia). destruct H as [-> _].
  change (take 12 (LocalHeader ++ rest)) with proxy_signature. rewrite bool_decide_true by done. cbn [negb].
  destruct (peek_clean 16 k [] Hk) as (r & k2 & -> & Hb2 & Hk2 & H).
  rewrite app_nil_l, Hb1, (proj2 (Nat.leb_le _ _)) in * by (simpl; lia). destruct H as [-> _].
  replace (16 + Z.to_nat (be_val (drop 14 (take 16 (LocalHeader ++ rest)))))%nat with 16%nat by reflexivity.
  destruct (read_full_clean 16 k2) as (k3 & -> & Hb3 & Hk3); [rewrite Hb2; simpl; lia|done|].
  exists k3. rewrite Hb3, Hb2. done.
Qed.

(** Anything else is left alone. *)
Lemma peekProxyHeader_none conn : clean conn -> take 2 (conn_bytes conn) <> [x0d; x0a] ->
  exists k, peekProxyHeader conn = (None, k) /\ conn_bytes k = conn_bytes conn /\ clean k.
Proof.
  intros Hc Hne. unfold peekProxyHeader.
  destruct (peek_clean 12 conn [] Hc) as (r & k & -> & Hb1 & Hk & H). rewrite app_nil_l in *.
  destruct (12 <=? _)%nat in H; [|subst r; eauto]. destruct H as [-> _].
  rewrite bool_decide_false; [eauto|]. intros E. apply Hne. apply (f_equal (take 2)) in E. by rewrite take_take in E.
Qed.

(** A frame whose packet id is zero does not look like the start of a header. *)
Lemma frame_no_header d tail : take 2 (frame_of (NewRawPacket x00 d) ++ tail) <> [x0d; x0a].
Proof.
  unfold frame_of. rewrite <- app_assoc. destruct (EncodeVarInt_spec (Zlen (payload_of (NewRawPacket x00 d)))) as (Ht & _).
  destruct (EncodeVarInt _) as [|x [|y l]]; [done|done|]. intros [= -> ->].
  destruct Ht as [Ht _]. by vm_compute in Ht.
Qed.

(** ** A side that is read and written without trouble *)

Section Ready.

Context `{A0 : AES} `{ZL : Zlib}.

Definition ready (c : Client) (stream out : bytes) (s : Side) : Prop :=
  side_client s = c /\ clean (l_conn (side_link s)) /\ Zlen (l_buf (side_link s)) <= MaxBufferedBytes
  /\ side_stream s = stream /\ l_enc (side_link s) = None /\ l_room (side_link s) = None /\ side_out s = out.

Lemma side_read_ready `{!ZlibLaws ZL} p payload c tail out s : EncodeWithoutLen p c = Some payload ->
  Zlen (payload_of p) <= MaxPacketLength -> 0 < Zlen payload < 2 ^ 14 ->
  ready c ((EncodeVarInt (Zlen payload) ++ payload) ++ tail) out s ->
  exists s', side_read s = (Ret (Some (p, EncodeVarInt (Zlen payload) ++ payload)), s') /\ ready c tail out s'.
Proof.
  intros Hw Hp Hl (<- & Hcl & Hb & Hs & He & Hr & Ho). pose proof (EncodeVarInt_two (Zlen payload)) as H2.
  pose proof (EncodeVarInt_length (Zlen payload)) as H1.
  destruct (ReadPacket_delivers p (side_client s) payload tail (l_buf (side_link s)) (l_conn (side_link s))) as (b & k & Er & Hs' & Hk);
    [done|done|rewrite MaxPacketLength_eq; lia|done|done|done|rewrite length_app; unfold Zlen in *; lia|unfold Zlen in *; lia|].
  eexists. unfold side_read, side_ReadPacket. rewrite Er. split; [done|].
  unfold ready, side_stream in *. cbn [side_client side_link l_conn l_buf l_enc l_room].
  split_and!; try done. by eapply ReadPacket_bound.
Qed.

Lemma expect_ready `{!ZlibLaws ZL} p c tail out s st cap : IsCompressed c = false -> Zlen (payload_of p) < 2 ^ 14 ->
  ready c (frame_of p ++ tail) out s ->
  exists s', expect (ID p) (mkMock s st cap) = (Ret (Data p), mkMock s' st cap) /\ ready c tail out s'.
Proof.
  intros Hc Hp Hr. destruct (side_read_ready p (payload_of p) c tail out s) as (s' & E & Hr').
  - unfold EncodeWithoutLen, Compressed, IsCompressed in *. by rewrite Hc.
  - rewrite MaxPacketLength_eq. lia.
  - split; [|done]. pose proof (EncodeVarInt_length (b2z (ID p))). unfold payload_of, Zlen. rewrite length_app. lia.
  - done.
  - exists s'. split; [|done]. unfold expect, mbind, ST_bind, on_side, zoom. cbn [m_side]. rewrite E. by rewrite decide_True.
Qed.

Lemma writePacketTo_ready c str out s p e : EncodeWithLen p c = Some e -> ready c str out s ->
  exists s', writePacketTo p s = (Ret tt, s') /\ ready c str (out ++ e) s'.
Proof.
  intros He (<- & Hcl & Hb & Hs & Hn & Hr & Ho).
  eexists. unfold writePacketTo, side_Write, link_Write, zoom. rewrite He, Hn, Hr. cbn [seal]. split; [done|].
  unfold ready, side_stream, side_out in *. cbn [side_client side_link l_conn l_buf l_enc l_room l_out]. split_and!; congruence.
Qed.

Lemma on_client_ready f c str out s : ready c str out s -> ready (f c) str out (on_client f s).
Proof. intros (<- & H). by split. Qed.

Lemma mock_write_ready c str out s st cap id data e : EncodeWithLen (NewRawPacket id data) c = Some e -> ready c str out s ->
  exists s', mock_write id data (mkMock s st cap) = (Ret tt, mkMock s' st cap) /\ ready c str (out ++ e) s'.
Proof.
  intros He Hr. destruct (writePacketTo_ready _ _ _ _ _ _ He Hr) as (s' & E & Hr').
  exists s'. split; [|done]. unfold mock_write, mbind, ST_bind, attempt, on_side, zoom. cbn [m_side]. by rewrite E.
Qed.

(** At the end of the stream there is nothing to read. *)
Lemma side_read_end c out s : ready c [] out s -> exists s', side_read s = (Ret None, s') /\ ready c [] out s'.
Proof.
  intros (<- & Hcl & Hb & Hs & He & Hr & Ho). unfold side_stream in Hs. apply app_eq_nil in Hs as [Hl Hs].
  assert (l_conn (side_link s) = []) as Hk.
  { destruct (l_conn (side_link s)) as [|ev k]; [done|]. apply Forall_cons in Hcl as [[Hne _] _].
    cbn [conn_bytes map concat] in Hs. by apply app_eq_nil in Hs as [? _]. }
  eexists. unfold side_read, side_ReadPacket. rewrite Hl, Hk. split; [done|].
  unfold ready, side_stream. cbn [side_client side_link l_conn l_buf l_enc l_room]. split_and!; try done; constructor.
Qed.

Lemma expect_end id c out s st cap : ready c [] out s ->
  exists s', expect id (mkMock s st cap) = (Bad, mkMock s' st cap) /\ ready c [] out s'.
Proof.
  intros Hr. destruct (side_read_end _ _ _ Hr) as (s' & E & Hr'). exists s'. split; [|done].
  unfold expect, mbind, ST_bind, on_side, zoom. cbn [m_side]. by rewrite E.
Qed.

End Ready.

(** ** What a client that logs in is sent *)

Section Login.

Context `{A0 : AES} `{ZL : Zlib} `{!ZlibLaws ZL}.

Definition compression_packet : RawPacket :=
  NewRawPacket PacketClientSetCompression (Bytes (NewPacketWriter |> WriteVarInt CompressionThreshold)).
Definition success_packet (name : bytes) : RawPacket :=
  NewRawPacket PacketClientLoginSuccess (Bytes (NewPacketWriter |> WriteString mock_uuid |> WriteString name)).
Definition join_packet : RawPacket := NewRawPacket x26 mock_join_game.
Definition compressing : Client := SetCompression CompressionThreshold DummyClient.
Definition playing : Client := SetState ClientStatePlay compressing.

(** With compression on, a packet can always be sent. *)
Lemma encode_total p c : exists e, EncodeWithLen p c = Some e.
Proof.
  unfold EncodeWithLen, EncodeWithoutLen, encodeCompressed, encodeUncompressed, zlibCompress. destruct (Compressed c >=? 0); [|eauto].
  destruct (zlib_deflate_total (EncodeVarInt (b2z (ID p)) ++ Data p)) as [z ->]. destruct (_ >? _); eauto.
Qed.

(** A client that sends nothing is only ever sent a keep-alive. *)
Lemma keep_loop_silent due fuel keepAliveID login out s st cap : ready playing [] out s ->
  exists s' more, keep_loop due (S fuel) 0 keepAliveID login (mkMock s st cap) = (Ret tt, mkMock s' st cap)
    /\ side_out s' = out ++ more.
Proof.
  intros Hr. destruct (side_read_end _ _ _ Hr) as (s1 & E1 & H1).
  destruct (encode_total (NewRawPacket x21 (Bytes (NewPacketWriter |> WriteUint64 keepAliveID))) playing) as [e He].
  destruct (mock_write_ready playing [] out s1 st cap _ _ e He H1) as (s2 & E2 & H2).
  cbn [keep_loop]. unfold mbind, ST_bind, attempt, on_side, zoom. cbn [m_side m_state m_captured]. rewrite E1.
  unfold mret, ST_ret. destruct (due 0%nat); [rewrite E2; exists s2, e|exists s1, []]; (split; [done|]).
  - apply H2.
  - rewrite app_nil_r. apply H1.
Qed.

Lemma login_flow_answers due addr protocol name data out s st cap e2 e3 :
  Zlen (payload_of (NewRawPacket PacketServerLoginStart data)) < 2 ^ 14 -> DecodeLoginStart data = Some (mkLoginStart name) ->
  EncodeWithLen (success_packet name) compressing = Some e2 -> EncodeWithLen join_packet playing = Some e3 ->
  ready DummyClient (frame_of (NewRawPacket PacketServerLoginStart data)) out s ->
  exists s' more, login_flow due addr protocol (mkMock s st cap)
      = (Ret tt, mkMock s' (addLogin (mkLogin name protocol addr 0) st) cap)
    /\ side_out s' = out ++ frame_of compression_packet ++ e2 ++ e3 ++ more.
Proof.
  intros Hl Hd He2 He3 Hr. set (start := NewRawPacket PacketServerLoginStart data) in *.
  rewrite <- (app_nil_r (frame_of start)) in Hr. set (st' := addLogin (mkLogin name protocol addr 0) st).
  destruct (expect_ready start DummyClient [] out s st cap eq_refl Hl Hr) as (s1 & E1 & H1).
  destruct (mock_write_ready DummyClient [] out s1 st' cap (ID compression_packet) (Data compression_packet)
              (frame_of compression_packet) eq_refl H1) as (s2 & E2 & H2).
  cbn [compression_packet ID Data] in E2. apply (on_client_ready (SetCompression CompressionThreshold)) in H2.
  destruct (mock_write_ready compressing [] _ _ st' cap _ _ e2 He2 H2) as (s3 & E3 & H3).
  apply (on_client_ready (SetState ClientStatePlay)) in H3.
  destruct (mock_write_ready playing [] _ _ st' cap _ _ e3 He3 H3) as (s4 & E4 & H4).
  assert (length (side_stream s4) = 0)%nat as Hz by (destruct H4 as (_ & _ & _ & -> & _); done).
  destruct (keep_loop_silent due 0 0 (mkLogin name protocol addr 0) _ s4 st' cap H4) as (s5 & more & E5 & H5).
  exists s5, more. split; [|by rewrite H5, <- !app_assoc].
  unfold login_flow, mbind, ST_bind. change PacketServerLoginStart with (ID start). rewrite E1. cbn [Data start].
  rewrite Hd. cbn [of_option mret ST_ret LoginStart_Name on_state changing m_side m_state m_captured]. fold st'.
  rewrite E2. cbn [on_side zoom changing m_side m_state m_captured]. rewrite E3. cbn [on_side zoom changing m_side m_state m_captured].
  rewrite E4. unfold fueled. cbn [m_side]. rewrite Hz. exact E5.
Qed.

End Login.

(** ** Properties *)

Section Polled.

Context `{A0 : AES} `{ZL : Zlib} `{!ZlibLaws ZL}.

(** The handshake of the gateway's own connections. *)
Definition own_handshake (config : Config) (addr : SocketAddr) (next : Z) : Handshake :=
  mkHandshake (i32 (Public_Protocol (Config_Public config))) (IP_String (SocketAddr_IP addr)) (u16 (SocketAddr_Port addr)) next.

Definition own_data (config : Config) (addr : SocketAddr) (next : Z) : bytes :=
  Bytes (NewPacketWriter |> Handshake_Encode (own_handshake config addr next)).

Lemma encode_plain p c : IsCompressed c = false -> Zlen (payload_of p) < 2 ^ 31 -> EncodeWithLen p c = Some (frame_of p).
Proof.
  intros Hc Hp. unfold EncodeWithLen.
  assert (EncodeWithoutLen p c = Some (payload_of p)) as ->
    by (unfold EncodeWithoutLen, Compressed, IsCompressed in *; by rewrite Hc).
  assert (is_i32 (Zlen (payload_of p))) as Hi by (unfold is_sint, Zlen in *; zpow; lia).
  by rewrite sintw_id.
Qed.

Lemma own_data_short config addr next : Zlen (IP_String (SocketAddr_IP addr)) <= 255 ->
  Zlen (payload_of (NewRawPacket PacketHandshake (own_data config addr next))) < 2 ^ 14.
Proof.
  intros Hl. unfold payload_of, own_data, Handshake_Encode, own_handshake. cbn [ProtocolVersion ServerAddr ServerPort NextState Data ID].
  wire_bytes. unfold str_enc, Zlen in *. rewrite !length_app.
  repeat match goal with |- context [EncodeVarInt ?v] => lazymatch goal with H : (1 <= length (EncodeVarInt v) <= 5)%nat |- _ => fail | _ => pose proof (EncodeVarInt_length v) end end.
  pose proof (be_bytes_length 2 (u16 (SocketAddr_Port addr))). lia.
Qed.

(** What a status poll writes to a backend that accepts everything. *)
Definition poll_request (config : Config) (addr : SocketAddr) : bytes :=
  (if Server_SendProxyV2 (Config_Server config) then LocalHeader else [])
    ++ frame_of (NewRawPacket PacketHandshake (own_data config addr 1)) ++ frame_of (NewRawPacket PacketServerStatusRequest []).

Lemma poll_bytes fuel config addr replies : Zlen (IP_String (SocketAddr_IP addr)) <= 255 ->
  snd (fetchStatus fuel config addr (mkPeer true [] replies)) = poll_request config addr.
Proof.
  intros Hl. pose proof (own_data_short config addr 1 Hl) as Hs. unfold fetchStatus, proxy_preamble, handshake_message, poll_request.
  change (Bytes _) with (own_data config addr 1).
  rewrite encode_plain by (done || (zpow; lia)). unfold status_message. rewrite encode_plain by (vm_compute; congruence).
  cbn [dial_ok negb write_answers Monitor.replies]. destruct (Server_SendProxyV2 _); cbn [app send_all tail snd]; by rewrite ?app_nil_r.
Qed.

(** Reading the header off the connection of a fresh mock. *)
Lemma handle_start due capture a w h k : peekProxyHeader (l_conn (side_link (m_side w))) = (h, k) ->
  handle due capture a w
  = (data ← expect PacketHandshake; handshake ← of_option (DecodeHandshake data);
     if NextState handshake =? 1 then status_flow
     else if NextState handshake =? 2 then login_flow due a (ProtocolVersion handshake) else mret tt)
    (let l := side_link (m_side w) in
     mkMock (mkSide (side_client (m_side w)) (mkLink k (l_buf l) (l_enc l) (l_out l) (l_room l))) (m_state w)
       (m_captured w ++ match h with Some h => if capture then [h] else [] | None => [] end)).
Proof.
  intros E. unfold handle. unfold mbind at 1, ST_bind at 1. rewrite E. destruct w as [[c l] st cap], h as [h|]; [destruct capture|];
    cbn [m_side m_state m_captured side_link side_client]; by rewrite ?app_nil_r.
Qed.

Lemma own_handshake_decoded config addr next : is_i32 next -> Zlen (IP_String (SocketAddr_IP addr)) <= 255 ->
  DecodeHandshake (own_data config addr next) = Some (own_handshake config addr next).
Proof.
  intros Hn Ha. refine (proj1 (login_packets_roundtrip (own_handshake config addr next) (mkLoginStart []) 0 false [] [] _ _ _ _)); [|done|done|done].
  unfold handshake_ok, own_handshake. cbn [ProtocolVersion ServerAddr ServerPort NextState].
  split_and!; [apply sintw_range; lia|done|apply uintw_range; lia|done].
Qed.

Definition mock_answer : RawPacket := NewRawPacket PacketClientStatusResponse (StringBytes (StatusResponseJSON mock_status)).

(** The status flow answers the request and then finds no ping. *)
Lemma status_flow_answers out s st cap :
  ready DummyClient (frame_of (NewRawPacket PacketServerStatusRequest [])) out s ->
  exists s', status_flow (mkMock s st cap) = (Bad, mkMock s' (addStatus st) cap) /\ side_out s' = out ++ frame_of mock_answer.
Proof.
  intros Hr. set (rq := NewRawPacket PacketServerStatusRequest []) in *. rewrite <- (app_nil_r (frame_of rq)) in Hr.
  destruct (expect_ready rq DummyClient [] out s (addStatus st) cap eq_refl eq_refl Hr) as (s1 & E1 & H1).
  destruct (mock_write_ready DummyClient [] out s1 (addStatus st) cap PacketClientStatusResponse
              (StringBytes (StatusResponseJSON mock_status)) (frame_of mock_answer)) as (s2 & E2 & H2); [by vm_compute|done|].
  destruct (expect_end PacketServerPing DummyClient _ s2 (addStatus st) cap H2) as (s3 & E3 & H3).
  exists s3. split; [|apply H3]. unfold status_flow, mbind, ST_bind, on_state, changing. cbn [m_side m_state m_captured].
  change PacketServerStatusRequest with (ID rq). by rewrite E1, E2, E3.
Qed.

(** A connection of the gateway's own, with or without a PROXY header, gets to
    the flow its handshake asks for. *)
Lemma handle_hello config addr next (proxied : bool) due capture a s request rest :
  is_i32 next -> Zlen (IP_String (SocketAddr_IP addr)) <= 255 -> clean request ->
  conn_bytes request = (if proxied then LocalHeader else []) ++ frame_of (NewRawPacket PacketHandshake (own_data config addr next)) ++ rest ->
  exists s1, handle due capture a (accepted request s)
    = (if next =? 1 then status_flow
       else if next =? 2 then login_flow due a (i32 (Public_Protocol (Config_Public config))) else mret tt : ST Mock unit)
      (mkMock s1 s (if capture && proxied then [LocalHeader] else []))
    /\ ready DummyClient rest [] s1.
Proof.
  intros Hn Ha Hcl Hb. set (hs := NewRawPacket PacketHandshake (own_data config addr next)) in *.
  assert (exists h k, peekProxyHeader request = (h, k) /\ conn_bytes k = frame_of hs ++ rest /\ clean k
    /\ h = if proxied then Some LocalHeader else None) as (h & k & Ek & Hk & Hck & ->).
  { destruct proxied.
    - destruct (peekProxyHeader_local _ _ Hcl Hb) as (k & ? & ? & ?). by eexists _, _.
    - destruct (peekProxyHeader_none request Hcl) as (k & ? & Hk & ?); [rewrite Hb; apply frame_no_header|].
      eexists _, _. split_and!; [done|by rewrite Hk, Hb|done|done]. }
  rewrite (handle_start due capture a (accepted request s) _ k Ek).
  cbn [accepted m_side m_state m_captured side_link side_client l_buf l_enc l_out l_room app].
  set (cap := match _ with Some _ => _ | None => _ end).
  assert (ready DummyClient (frame_of hs ++ rest) [] (mkSide DummyClient (mkLink k [] None [] None))) as Hr
    by (unfold ready, side_stream; cbn; split_and!; done).
  destruct (expect_ready hs DummyClient rest [] _ s cap eq_refl (own_data_short config addr next Ha) Hr) as (s1 & E1 & H1).
  exists s1. split; [|done]. unfold mbind at 1, ST_bind at 1. change PacketHandshake with (ID hs). rewrite E1.
  cbn [hs Data]. rewrite own_handshake_decoded by done. cbn [of_option]. unfold mbind, ST_bind, mret, ST_ret.
  cbn [own_handshake NextState ProtocolVersion]. do 2 f_equal. subst cap. by destruct capture, proxied.
Qed.

(** The whole connection of a poll. *)
Lemma mock_serves_poll config addr due capture a s request :
  Zlen (IP_String (SocketAddr_IP addr)) <= 255 -> clean request -> conn_bytes request = poll_request config addr ->
  exists side, handle due capture a (accepted request s)
    = (Bad, mkMock side (addStatus s) (if capture && Server_SendProxyV2 (Config_Server config) then [LocalHeader] else []))
    /\ side_out side = frame_of mock_answer.
Proof.
  intros Ha Hcl Hb.
  destruct (handle_hello config addr 1 _ due capture a s request _ ltac:(done) Ha Hcl Hb) as (s1 & E & H1). rewrite E.
  apply (status_flow_answers [] s1 s _ H1).
Qed.

Lemma mock_status_ok : status_ok mock_status.
Proof. repeat split; try (vm_compute; congruence); [repeat constructor|by left]. Qed.

(** C25: the monitor sees the test server as a running server. For every
    configuration and every address whose text is at most 255 bytes, the bytes
    the monitor's poll writes to its status connection (with or without the
    PROXY header), cut into any segments, make the test server count one status
    query, capture the PROXY header exactly when one was sent and captures are
    on, and write bytes from which, again in any segmentation, the poll returns
    the test server's own status, without a ping. *)
Theorem monitor_polls_mock (config : Config) (addr : SocketAddr) (due : nat -> bool) (capture : bool) (a : bytes)
    (s : MockState) (request replies : Conn) (cur : State) (ping_peer : Peer) (token : Z) (fuel : nat) :
  let poll := pollServer fuel config cur addr (mkPeer true [] replies) ping_peer token in
  let served := snd (handle due capture a (accepted request s)) in
  Zlen (IP_String (SocketAddr_IP addr)) <= 255 ->
  clean request -> conn_bytes request = fst (snd poll) ->
  clean replies -> conn_bytes replies = side_out (m_side served) ->
  (0 < fuel)%nat ->
  m_state served = addStatus s
  /\ m_captured served = (if capture && Server_SendProxyV2 (Config_Server config) then [LocalHeader] else [])
  /\ fst poll = (Some mock_status, true, false) /\ snd (snd poll) = [].
Proof.
  intros poll served Ha Hcl Hb Hcr Hbr Hf.
  assert (fst (snd poll) = poll_request config addr) as Ew.
  { rewrite <- (poll_bytes fuel config addr replies Ha). unfold poll, pollServer.
    destruct (fetchStatus _ _ _ _) as [[st|] out]; [done|]. case_decide; [|done]. by destruct (doPing _ _ _ _ _). }
  rewrite Ew in Hb. destruct (mock_serves_poll config addr due capture a s request Ha Hcl Hb) as (side & E & Ho).
  unfold served in *. rewrite E in *. cbn [snd m_side m_state m_captured] in *. split; [done|]. split; [done|].
  assert (fst poll = (Some mock_status, true, false)) as Ep.
  { apply (poll_delivers config addr cur _ ping_peer token [] mock_status []); try done; [apply mock_status_ok|].
    cbn [Monitor.replies map concat]. by rewrite Hbr, Ho, app_nil_r. }
  split; [exact Ep|]. revert Ep. unfold poll, pollServer.
  destruct (fetchStatus _ _ _ _) as [[st|] out]; [done|]. case_decide; [|done]. by destruct (doPing _ _ _ _ _) as [[] ?].
Qed.

End Polled.

(** A configuration with PROXY headers on. *)
Definition proxied_config : Config :=
  let s := Config_Server defaultConfig in
  mkConfig (Config_Path defaultConfig) (Config_Public defaultConfig)
    (mkServer (Directory s) (Command s) (ControllerManaged s) (Server_Address s) (FreezeProcess s) (WakeOnStart s)
       (WakeOnCrash s) (ProbeOnStart s) (Forge s) (ForgeStatusFile s) (StartTimeout s) (StopTimeout s) (WakeWhitelist s)
       (BlockBannedIps s) (DropBannedIps s) true)
    (Config_Auth defaultConfig) (Config_Time defaultConfig) (Config_Motd defaultConfig) (Config_Join defaultConfig)
    (Config_Lockout defaultConfig) (Config_Rcon defaultConfig) (Config_Advanced defaultConfig) (Config_Config defaultConfig).

(** A header and a poll of an address, in two segments. *)
Lemma monitor_polls_mock_witness :
  let config := proxied_config in
  let addr := mkSocketAddr (IPv4 x7f x00 x00 x01) 25566 in
  let poll := pollServer 1 config StateStarting addr (mkPeer true [] [mkEvent (frame_of mock_answer) None]) (mkPeer false [] []) 0 in
  let request := [mkEvent (take 20 (fst (snd poll))) None; mkEvent (drop 20 (fst (snd poll))) None] in
  m_captured (snd (handle (A0 := toy_aes) (fun _ => false) true (str "127.0.0.1:50000") (accepted request NewState))) = [LocalHeader]
  /\ fst poll = (Some mock_status, true, false).
Proof.
  intros config addr poll request.
  destruct (monitor_polls_mock (A0 := toy_aes) config addr (fun _ => false) true (str "127.0.0.1:50000")
    NewState request [mkEvent (frame_of mock_answer) None] StateStarting (mkPeer false [] []) 0 1) as (_ & Hc & Hp & _).
  - vm_compute. congruence.
  - repeat constructor; vm_compute; congruence.
  - vm_compute. reflexivity.
  - repeat constructor; vm_compute; congruence.
  - vm_compute. reflexivity.
  - lia.
  - split; [exact Hc|exact Hp].
Defined.
