(* ===== verification/TestServerRun.v ===== *)
(** The test server around its connections: [NewServer], [acceptLoop], [Stop],
    [Shutdown] and [writeState] of [src/internal/testserver/testserver.go].

    The goroutines are the accept loop, one per accepted connection, and the
    caller that stops the server; a step is a part of one of them that the
    others can see. Handling a connection is any sequence of the changes
    [TestServer.handle] makes to the shared state, and ends. The state file is
    the value whose JSON text it holds; it is written to a temporary file and
    renamed, under a mutex, so a write is taking a copy and, later, replacing
    the file. *)
From stdpp Require Import relations.
From S2P Require Import Prelude TestServer.

(** ** The goroutines *)

(** A goroutine of a connection: in [handle] (with its connection closed by
    [Stop] or not), waiting for the mutex in [writeState], holding it, done. *)
Inductive HandlerPc := HServing (closed : bool) | HWants | HHolds | HDone.

#[export] Instance HandlerPc_eq_dec : EqDecision HandlerPc.
Proof. solve_decision. Defined.

(** The accept loop: accepting, waiting for the mutex, holding it, or done. *)
Inductive AcceptPc := Accepting | AWants | AHolds | AcceptDone.

(** The caller of [Stop] or [Shutdown]. *)
Inductive StopPc := Running | SWants | SHolds | Closing | WaitAccept | CloseConns | WaitHandlers | Stopped.

#[export] Instance StopPc_eq_dec : EqDecision StopPc.
Proof. solve_decision. Defined.

Record Run := mkRun {
  r_state : MockState;
  r_file : MockState;
  r_copy : option MockState; (* the copy of the goroutine that holds the mutex *)
  r_accept : AcceptPc;
  r_handlers : list HandlerPc;
  r_listening : bool;
  r_stop : StopPc }.

Definition NewServer : Run := mkRun NewState NewState None Accepting [] true Running.

(** The changes a connection makes to the state. *)
Inductive change : MockState -> MockState -> Prop :=
| change_status s : change s (addStatus s)
| change_login l s : change s (addLogin l s)
| change_packets l s : change s (set_last_login l s).

Definition close_conn (h : HandlerPc) : HandlerPc := match h with HServing _ => HServing true | _ => h end.

(** What makes a run go on. *)
Inductive go : Run -> Run -> Prop :=
(* the accept loop *)
| go_accept_error s f c hs b p : go (mkRun s f c Accepting hs b p) (mkRun (setShutdown s) f c AWants hs b p)
| go_accept_copy s f hs b p : go (mkRun s f None AWants hs b p) (mkRun s f (Some (Snapshot s)) AHolds hs b p)
| go_accept_store s f c hs b p : go (mkRun s f (Some c) AHolds hs b p) (mkRun s c None AcceptDone hs b p)
(* a connection *)
| go_handled s f c a l1 l2 b p x : go (mkRun s f c a (l1 ++ HServing x :: l2) b p) (mkRun s f c a (l1 ++ HWants :: l2) b p)
| go_copy s f a l1 l2 b p : go (mkRun s f None a (l1 ++ HWants :: l2) b p) (mkRun s f (Some (Snapshot s)) a (l1 ++ HHolds :: l2) b p)
| go_store s f c a l1 l2 b p : go (mkRun s f (Some c) a (l1 ++ HHolds :: l2) b p) (mkRun s c None a (l1 ++ HDone :: l2) b p)
(* the caller *)
| go_shutdown_copy s f a hs b : go (mkRun s f None a hs b SWants) (mkRun s f (Some (Snapshot s)) a hs b SHolds)
| go_shutdown_store s f c a hs b : go (mkRun s f (Some c) a hs b SHolds) (mkRun s c None a hs b Closing)
| go_close s f c a hs b : go (mkRun s f c a hs b Closing) (mkRun s f c a hs false WaitAccept)
| go_accepted s f c hs b : go (mkRun s f c AcceptDone hs b WaitAccept) (mkRun s f c AcceptDone hs b CloseConns)
| go_close_conns s f c a hs b : go (mkRun s f c a hs b CloseConns) (mkRun s f c a (map close_conn hs) b WaitHandlers)
| go_stopped s f c a hs b : Forall (eq HDone) hs -> go (mkRun s f c a hs b WaitHandlers) (mkRun s f c a hs b Stopped).

(** The peers: a connection is opened, a client does something; and the calls
    of [Stop] and [Shutdown]. *)
Inductive happens : Run -> Run -> Prop :=
| happens_accept s f c hs p : happens (mkRun s f c Accepting hs true p) (mkRun s f c Accepting (hs ++ [HServing false]) true p)
| happens_change s s' f c a l1 l2 b p x : change s s' ->
    happens (mkRun s f c a (l1 ++ HServing x :: l2) b p) (mkRun s' f c a (l1 ++ HServing x :: l2) b p)
| happens_stop s f c a hs b : happens (mkRun s f c a hs b Running) (mkRun s f c a hs b Closing)
| happens_shutdown s f c a hs b : happens (mkRun s f c a hs b Running) (mkRun (setShutdown s) f c a hs b SWants).

Definition run_step (r r' : Run) : Prop := go r r' \/ happens r r'.

(** ** The invariant *)

(** A goroutine that has still to copy the state. *)
Definition pending (r : Run) : Prop :=
  r_accept r = AWants \/ r_stop r = SWants \/ HWants ∈ r_handlers r \/ exists x, HServing x ∈ r_handlers r.

(** How many hold the mutex. *)
Definition holders (r : Run) : nat :=
  ((match r_accept r with AHolds => 1 | _ => 0 end) + (match r_stop r with SHolds => 1 | _ => 0 end)
   + length (filter (fun h => h = HHolds) (r_handlers r)))%nat.

Definition Inv (r : Run) : Prop :=
  holders r = (match r_copy r with Some _ => 1 | None => 0 end)%nat
  /\ (default (r_file r) (r_copy r) = r_state r \/ pending r)
  /\ (r_accept r <> Accepting -> Shutdown (r_state r) = true)
  /\ (r_stop r = CloseConns \/ r_stop r = WaitHandlers \/ r_stop r = Stopped -> r_accept r = AcceptDone)
  /\ (r_stop r = Stopped -> Forall (eq HDone) (r_handlers r)).

Lemma mock_inv_init : Inv NewServer.
Proof. unfold Inv. cbn. split_and!; try done; [by left|by intros [?|[?|?]]]. Qed.

Lemma change_shutdown s s' : change s s' -> Shutdown s' = Shutdown s.
Proof. destruct 1; try done. unfold set_last_login. by destruct (Logins s). Qed.

Lemma Snapshot_eq s : Snapshot s = s.
Proof. by destruct s. Qed.

Lemma holds_mid l1 h l2 : length (filter (fun x => x = HHolds) (l1 ++ h :: l2))
  = (length (filter (fun x => x = HHolds) (l1 ++ l2)) + (if decide (h = HHolds) then 1 else 0))%nat.
Proof. rewrite !filter_app, filter_cons, !length_app. destruct (decide (h = HHolds)); cbn [length]; lia. Qed.

Lemma close_conn_holds hs : length (filter (fun x => x = HHolds) (map close_conn hs)) = length (filter (fun x => x = HHolds) hs).
Proof.
  induction hs as [|h hs IH]; [done|]. cbn [map]. rewrite !filter_cons.
  destruct h; cbn [close_conn]; repeat case_decide; cbn [length]; congruence.
Qed.

Lemma close_conn_pending hs : (HWants ∈ map close_conn hs <-> HWants ∈ hs) /\ ((exists x, HServing x ∈ map close_conn hs) <-> exists x, HServing x ∈ hs).
Proof.
  split; [|split; intros [x H]].
  - rewrite list_elem_of_fmap. split; [intros ([] & ? & ?); done|]. intros H. by exists HWants.
  - apply list_elem_of_fmap in H as ([y| | |] & ? & ?); try done. by exists y.
  - exists true. apply list_elem_of_fmap. by exists (HServing x).
Qed.

(** A goroutine that goes on replaces its entry; nobody else is concerned. *)
Lemma others_pending l1 h h' l2 : h <> HWants -> (forall x, h <> HServing x) ->
  HWants ∈ l1 ++ h :: l2 \/ (exists x, HServing x ∈ l1 ++ h :: l2) -> HWants ∈ l1 ++ h' :: l2 \/ exists x, HServing x ∈ l1 ++ h' :: l2.
Proof.
  intros Hw Hs. setoid_rewrite elem_of_app. setoid_rewrite elem_of_cons. intros [[?|[?|?]]|[x [?|[Hx|?]]]].
  - left. auto.
  - congruence.
  - left. auto.
  - right. exists x. auto.
  - by destruct (Hs x).
  - right. exists x. auto.
Qed.

Lemma mid_not_done l1 h l2 : h <> HDone -> Forall (eq HDone) (l1 ++ h :: l2) -> False.
Proof. intros Hh H. apply Forall_app in H as [_ H]. apply Forall_cons in H as [? _]. congruence. Qed.

Ltac run_fields := cbn [r_state r_file r_copy r_accept r_handlers r_listening r_stop default from_option] in *.

Lemma pending_go r r' : default (r_file r) (r_copy r) = r_state r \/ pending r -> go r r' ->
  default (r_file r') (r_copy r') = r_state r' \/ pending r'.
Proof.
  intros H E. destruct E; unfold pending in *; run_fields; rewrite ?Snapshot_eq; try (by left).
  - right. by left.
  - destruct H as [H|[H|[H|H]]]; [by left|done|right; right..]; auto.
  - right. right. right. left. apply elem_of_app. right. apply list_elem_of_here.
  - destruct H as [H|[H|[H|H]]]; [by left|right; by left|right; right; by left|].
    right. right. right. by apply (others_pending l1 HHolds).
  - destruct H as [H|[H|[H|H]]]; [by left|right; by left|done|right; right; right; auto].
  - destruct H as [H|[H|[H|H]]]; [by left|right; by left|done|right; right; right; auto].
  - destruct H as [H|[H|[H|H]]]; [by left|right; by left|done|right; right; right; auto].
  - destruct (close_conn_pending hs) as [-> ->]. destruct H as [H|[H|[H|H]]]; [by left|right; by left|done|right; right; right; auto].
  - destruct H as [H|[H|[H|H]]]; [by left|right; by left|done|right; right; right; auto].
Qed.

Lemma Inv_go r r' : Inv r -> go r r' -> Inv r'.
Proof.
  intros (H1 & H2 & H3 & H4 & H5) E. pose proof (pending_go _ _ H2 E) as H2'. clear H2. unfold Inv. split_and!; [|exact H2'| | |]; clear H2'.
  - destruct E; unfold holders in *; run_fields; rewrite ?holds_mid, ?close_conn_holds in *; repeat case_decide; done || lia.
  - destruct E; run_fields; auto.
  - destruct E; run_fields; intros Hs; first [by apply H4|by apply H4 in Hs|reflexivity|apply H4; by auto|by destruct Hs as [?|[?|?]]].
  - destruct E; run_fields; intros Hs; try done; try (by apply H5);
      exfalso; refine (mid_not_done _ _ _ _ (H5 Hs)); discriminate.
Qed.

Lemma Inv_happens r r' : Inv r -> happens r r' -> Inv r'.
Proof.
  intros (H1 & H2 & H3 & H4 & H5) E. unfold Inv. destruct E; unfold holders, pending in *; run_fields; split_and!; auto;
    try (intros; by destruct_or!).
  - rewrite filter_app, length_app, filter_cons, decide_False by done. cbn [filter list_filter length]. lia.
  - destruct H2 as [H2|[H2|[H2|H2]]]; [by left|done|right; right; by left|].
    right. right. right. right. exists false. apply elem_of_app. right. apply list_elem_of_here.
  - intros Hs. assert (Accepting = AcceptDone) by auto. done.
  - right. right. right. right. exists x. apply elem_of_app. right. apply list_elem_of_here.
  - intros Ha. erewrite change_shutdown by done. auto.
  - destruct H2 as [H2|[H2|[H2|H2]]]; [by left|right; by left|done|right; right; right; auto].
Qed.

Lemma mock_inv_reachable r : rtc run_step NewServer r -> Inv r.
Proof.
  apply (rtc_ind_r Inv); [apply mock_inv_init|]. intros r1 r2 _ [E|E] H; [by eapply Inv_go|by eapply Inv_happens].
Qed.

(** ** Stopping ends *)

Definition handler_work (h : HandlerPc) : nat := match h with HServing _ => 3 | HWants => 2 | HHolds => 1 | HDone => 0 end.

Definition work (r : Run) : nat :=
  (match r_accept r with Accepting => 3 | AWants => 2 | AHolds => 1 | AcceptDone => 0 end
   + match r_stop r with Running => 7 | SWants => 6 | SHolds => 5 | Closing => 4 | WaitAccept => 3 | CloseConns => 2 | WaitHandlers => 1 | Stopped => 0 end
   + sum_list_with handler_work (r_handlers r))%nat.

Lemma go_work r r' : go r r' -> (work r' < work r)%nat.
Proof.
  assert (forall hs, sum_list_with handler_work (map close_conn hs) = sum_list_with handler_work hs) as Hc.
  { induction hs as [|h hs IH]; [done|]. cbn. rewrite IH. by destruct h. }
  destruct 1; unfold work; run_fields; rewrite ?sum_list_with_app, ?Hc; cbn [sum_list_with handler_work]; lia.
Qed.

Lemma go_run_bound n r r' : nsteps go n r r' -> (n + work r' <= work r)%nat.
Proof. induction 1 as [|n r r1 r' E _ IH]; [lia|]. apply go_work in E. lia. Qed.

Lemma filter_holds hs h l : filter (fun h => h = HHolds) hs = h :: l -> HHolds ∈ hs.
Proof.
  intros Hf. assert (h ∈ filter (fun h => h = HHolds) hs) as Hh by (rewrite Hf; apply list_elem_of_here).
  by apply list_elem_of_filter in Hh as [-> ?].
Qed.

(** The one that holds the mutex can give it back. *)
Lemma holder_goes r c : Inv r -> r_copy r = Some c -> exists r', go r r'.
Proof.
  intros (H1 & _) Hc. destruct r as [s f cp a hs b p]. unfold holders in H1. run_fields. subst cp.
  destruct a; try (by eexists; apply go_accept_store); destruct p; try (by eexists; apply go_shutdown_store).
  all: destruct (filter (fun h => h = HHolds) hs) as [|h l] eqn:Hf; [simpl in H1; lia|];
    pose proof (filter_holds _ _ _ Hf) as Hin;
    apply list_elem_of_split in Hin as (l1 & l2 & ->); eexists; apply go_store.
Qed.

(** Once stopping has begun, something can be done until it is over. *)
Lemma stopping_goes r : Inv r -> r_stop r <> Running -> r_stop r <> Stopped -> exists r', go r r'.
Proof.
  intros HI Hr Hs. destruct (r_copy r) as [c|] eqn:Hc; [by eapply holder_goes|].
  destruct HI as (H1 & _ & _ & H4 & _). destruct r as [s f cp a hs b p]. unfold holders in H1. run_fields. subst cp.
  destruct a; [by eexists; apply go_accept_error|by eexists; apply go_accept_copy|simpl in H1; lia|].
  destruct p; [done|eexists; apply go_shutdown_copy|simpl in H1; lia|eexists; apply go_close|eexists; apply go_accepted
    |eexists; apply go_close_conns| |done].
  destruct (decide (Forall (eq HDone) hs)) as [Hd|Hd]; [by eexists; apply go_stopped|].
  apply not_Forall_Exists in Hd; [|apply _]. apply Exists_exists in Hd as (h & Hin & Hh).
  apply list_elem_of_split in Hin as (l1 & l2 & ->). rewrite holds_mid in H1.
  destruct h; [by eexists; apply go_handled|by eexists; apply go_copy|rewrite decide_True in H1 by done; lia|done].
Qed.

Lemma stopping_stays r r' : go r r' -> r_stop r <> Running -> r_stop r' <> Running.
Proof. destruct 1; run_fields; done. Qed.

Lemma stop_returns n : forall r, (work r < n)%nat -> Inv r -> r_stop r <> Running -> exists r', rtc go r r' /\ r_stop r' = Stopped.
Proof.
  induction n as [|n IH]; intros r Hn HI Hr; [lia|].
  destruct (decide (r_stop r = Stopped)) as [|Hs]; [by exists r|]. destruct (stopping_goes r HI Hr Hs) as [r1 E].
  pose proof (go_work r r1 E). destruct (IH r1) as (r' & Hr1 & Hs'); [lia|by eapply Inv_go|by eapply stopping_stays|].
  exists r'. split; [by eapply rtc_l|done].
Qed.

(** ** What is left when it is over *)

Lemma stopped_facts r : Inv r -> r_stop r = Stopped ->
  r_accept r = AcceptDone /\ Forall (eq HDone) (r_handlers r) /\ r_copy r = None /\ r_file r = r_state r.
Proof.
  intros (H1 & H2 & _ & H4 & H5) Hs. assert (r_accept r = AcceptDone) as Ha by (apply H4; auto). specialize (H5 Hs).
  assert (forall h, h <> HDone -> h ∉ r_handlers r) as Hn.
  { intros h Hh Hin. rewrite Forall_forall in H5. by destruct Hh; rewrite (H5 h Hin). }
  assert (r_copy r = None) as Hc.
  { unfold holders in H1. rewrite Ha, Hs in H1. destruct (filter (fun h => h = HHolds) (r_handlers r)) as [|h l] eqn:Hf; [by destruct (r_copy r)|].
    pose proof (filter_holds _ _ _ Hf) as Hin. by apply (Hn HHolds) in Hin. }
  split_and!; try done. rewrite Hc in H2. destruct H2 as [H2|[H2|[H2|[H2|[x H2]]]]]; [done|congruence|congruence|..].
  - by apply Hn in H2.
  - by apply Hn in H2.
Qed.

Lemma stopped_still r r' : Inv r -> r_stop r = Stopped -> run_step r r' -> False.
Proof.
  intros HI Hs E. destruct (stopped_facts r HI Hs) as (Ha & Hd & Hc & _).
  destruct E as [E|E]; destruct E; run_fields; try done; refine (mid_not_done _ _ _ _ Hd); done.
Qed.

(** ** Property *)

(** Stopping the test server is clean. In every interleaving of its
    goroutines with its clients: when [Stop] or [Shutdown] has returned, no
    connection is being handled, the state says that the server is shut down,
    the state file holds exactly the final state, and nothing can happen any
    more; and once stopping has begun it does return, whatever the clients do
    not do, and no run of the goroutines stops short of it. *)
Theorem mock_stop_clean (r : Run) : rtc run_step NewServer r ->
  (r_stop r = Stopped ->
     Forall (eq HDone) (r_handlers r) /\ Shutdown (r_state r) = true /\ r_file r = r_state r /\ forall r', ~ run_step r r')
  /\ (r_stop r <> Running ->
     (exists r', rtc go r r' /\ r_stop r' = Stopped)
     /\ forall n r', nsteps go n r r' -> (n <= work r)%nat /\ ((forall r'', ~ go r' r'') -> r_stop r' = Stopped)).
Proof.
  intros Hr. apply mock_inv_reachable in Hr as HI. split.
  - intros Hs. destruct (stopped_facts r HI Hs) as (Ha & Hd & Hc & Hf). pose proof HI as (_ & _ & H3 & _).
    split_and!; [done|apply H3; by rewrite Ha|done|]. intros r' E. exact (stopped_still r r' HI Hs E).
  - intros Hne. split; [by apply (stop_returns (S (work r))); [lia|..]|]. intros n r' Hn. split; [apply go_run_bound in Hn; lia|].
    intros Hstuck. assert (Inv r' /\ r_stop r' <> Running) as [HI' Hne'].
    { clear Hstuck Hr. induction Hn as [|n r r1 r' E _ IH]; [done|]. apply IH; [by eapply Inv_go|exact (stopping_stays _ _ E Hne)]. }
    destruct (decide (r_stop r' = Stopped)) as [|Hs]; [done|]. destruct (stopping_goes r' HI' Hne' Hs) as [r'' E]. by destruct (Hstuck r'').
Qed.

(** A server with a client that asked for the status: stopped while the
    client's goroutine waits to write the state. *)
Lemma mock_stop_clean_witness :
  let s := setShutdown (addStatus NewState) in
  rtc run_step NewServer (mkRun s s None AcceptDone [HDone] false Stopped)
  /\ forall r', ~ run_step (mkRun s s None AcceptDone [HDone] false Stopped) r'.
Proof.
  intros s. set (s1 := addStatus NewState). set (r := mkRun s s None AcceptDone [HDone] false Stopped).
  assert (rtc run_step NewServer r) as Hr.
  { eapply rtc_l; [right; apply happens_accept|].
    eapply rtc_l; [right; apply (happens_change _ s1 _ _ _ [] []); apply change_status|].
    eapply rtc_l; [right; apply happens_stop|]. eapply rtc_l; [left; apply (go_handled _ _ _ _ [] [])|].
    eapply rtc_l; [left; apply go_close|]. eapply rtc_l; [left; apply go_accept_error|].
    eapply rtc_l; [left; apply go_accept_copy|]. eapply rtc_l; [left; apply go_accept_store|].
    eapply rtc_l; [left; apply (go_copy _ _ _ [] [])|]. eapply rtc_l; [left; apply go_accepted|].
    eapply rtc_l; [left; apply go_close_conns|]. eapply rtc_l; [left; apply (go_store _ _ _ _ [] [])|].
    apply rtc_once. left. apply go_stopped. by constructor. }
  split; [exact Hr|]. apply (proj1 (mock_stop_clean r Hr)). reflexivity.
Defined.
