(* ===== verification/MockMain.v ===== *)
(** The command that runs the test server: [src/cmd/mockserver/main.go], with
    the part of the [flag] package it uses (string flags, exit on error). *)
From S2P Require Import Prelude TestServer TestServerRun.

(** ** Flags *)

Record Flags := mkFlags { f_addr : bytes; f_state : bytes; f_capture : bytes }.

Definition default_flags : Flags := mkFlags (str "127.0.0.1:25566") [] [].

(** Setting a flag by its name; [None] when there is no such flag. *)
Definition set_flag (name value : bytes) (f : Flags) : option Flags :=
  if decide (name = str "addr") then Some (mkFlags value (f_state f) (f_capture f))
  else if decide (name = str "state") then Some (mkFlags (f_addr f) value (f_capture f))
  else if decide (name = str "capture") then Some (mkFlags (f_addr f) (f_state f) value)
  else None.

(** [name=value] is cut at the first equals sign after the first byte. *)
Fixpoint cut_equals (seen : bytes) (s : bytes) : bytes * option bytes :=
  match s with
  | [] => (seen, None)
  | c :: s' => if decide (c = x3d /\ seen <> []) then (seen, Some s') else cut_equals (seen ++ [c]) s'
  end.

(** How parsing ends: with the flags, with the help text, with a complaint. *)
Inductive Parsed := ParsedFlags (f : Flags) | ParsedHelp | ParsedBad.

(** The name and the value in an argument that is a flag: [None] when the
    arguments end here, which [--] and anything without a dash do. *)
Definition flag_text (arg : bytes) : option bytes :=
  match arg with
  | x2d :: x2d :: name => if decide (name = []) then None else Some name
  | x2d :: c :: name => Some (c :: name)
  | _ => None
  end.

Fixpoint Parse (args : list bytes) (f : Flags) : Parsed :=
  match args with
  | [] => ParsedFlags f
  | arg :: rest =>
      match flag_text arg with
      | None => ParsedFlags f
      | Some text =>
          if decide (head text = Some x2d \/ head text = Some x3d) then ParsedBad
          else
            let '(name, inline) := cut_equals [] text in
            match set_flag name [] f with
            | None => if decide (name = str "help" \/ name = str "h") then ParsedHelp else ParsedBad
            | Some _ =>
                match inline, rest with
                | Some value, _ => match set_flag name value f with Some f => Parse rest f | None => ParsedBad end
                | None, value :: rest' => match set_flag name value f with Some f => Parse rest' f | None => ParsedBad end
                | None, [] => ParsedBad
                end
            end
      end
  end.

(** ** The command *)

(** How the command ends: with an exit code, by a panic, or it serves until a
    signal and then shuts down. *)
Inductive MockEnd := MockExit (code : Z) | MockPanics | MockServes (server : Run) (capture : bool) (addr stateFile : bytes).

(** [listen]: whether the address can be listened on. The pointer returned by
    [NewServer] is [None] together with its error. *)
Definition new_server (listen : bytes -> bool) (addr : bytes) : option Run := if listen addr then Some NewServer else None.

Definition mock_main (listen : bytes -> bool) (args : list bytes) : MockEnd :=
  match Parse args default_flags with
  | ParsedHelp => MockExit 0
  | ParsedBad => MockExit 2
  | ParsedFlags f =>
      match new_server listen (f_addr f) with
      | None => MockPanics (* srv.CaptureDir = *captureDir *)
      | Some server => MockServes server (bool_decide (f_capture f <> [])) (f_addr f) (f_state f)
      end
  end.

(** ** Properties *)

(** Every spelling of the flags sets them, whatever the values are. *)
Theorem mock_flags_set (a s c : bytes) (f : Flags) :
  Parse [str "-addr"; a; str "--state"; s; str "-capture=" ++ c] f = ParsedFlags (mkFlags a s c).
Proof. by destruct f. Qed.

(** The flags come out as values, as help or as a complaint, and the exit codes
    follow; but an address that cannot be listened on is never reported with
    exit code 1, as the code after the assignment intends: the server is nil
    there, and the command panics. *)
Theorem mock_listen_error_panics (listen : bytes -> bool) (args : list bytes) :
  mock_main listen args <> MockExit 1
  /\ forall f, Parse args default_flags = ParsedFlags f ->
     mock_main listen args
     = if listen (f_addr f) then MockServes NewServer (bool_decide (f_capture f <> [])) (f_addr f) (f_state f) else MockPanics.
Proof.
  unfold mock_main, new_server. split; [|intros f ->; by destruct (listen (f_addr f))].
  destruct (Parse args default_flags) as [f| |]; [destruct (listen (f_addr f))|..]; discriminate.
Qed.
