(* ===== verification/Sections.v ===== *)
(** The operations of [src/server.go] as sequences of critical sections.

    Every field of the server state has a mutex of its own, so an operation is
    not atomic: it is a program over atomic sections, each the code between a
    Lock and its Unlock, a clock reading, or a call that leaves the state alone
    (a signal, the RCON peer, the child process). A [Prog] is such a program;
    the goroutines of [Lifecycle] interleave their sections.

    [Prog] is the free monad over the sections. Run without interference a
    program is the operation of [ServerState] ([*_alone]).

    Two simplifications, both of which only add interleavings: [rconLock] is
    not taken, and [time.Sleep] may return at any time. The loop of
    [broadcastState] and the body of [Subscribe] hold [subsMu] throughout and
    are one section each. *)
From S2P Require Import Prelude Packet Packets Config Net Access Process Nbt JoinGame ServerState Monitor.

(** ** Sections *)

(** What the monitor's poll returned: (status, ok, pingFallback). *)
Abbreviation PollResult := (option ServerStatus * bool * bool)%type.

(** A section and the type of its answer. *)
Inductive Sec : Type -> Type :=
| Clock : Sec Z                                               (* time.Now *)
| Swap (from : option State) (new : State) : Sec bool         (* stateMu, in updateStateFrom *)
| ReadState : Sec State                                       (* stateMu, GetState *)
| Broadcast (new : State) : Sec unit                          (* subsMu *)
| SetKillAt (t : option Z) : Sec unit                         (* killAtMu *)
| Overdue : Sec bool                                          (* killAtMu, ShouldKill *)
| SetLastActive (t : Z) : Sec unit                            (* lastActiveMu *)
| ReadLastActive : Sec (option Z)
| SetKeepOnline (t : option Z) : Sec unit                     (* keepOnlineMu *)
| KeptOnline : Sec bool
| SetStatus (v : ServerStatus) : Sec unit                     (* statusMu *)
| PlayersOnline : Sec bool
| ReadPid : Sec Z                                             (* pidMu *)
| SetPid (p generation : Z) : Sec unit
| ClearPid : Sec unit
| PidRelease (generation : Z) : Sec unit
| HelperBegin : Sec (Z * bool)                                (* helperMu *)
| HelperRelease (generation : Z) : Sec bool
| RconCool : Sec bool                                         (* rconLastStopMu *)
| SetRconLastStop (t : Z) : Sec unit
| RconConnect : Sec bool                                      (* no mutex *)
| RconStop : Sec bool
| SendSignal (p : Z) (sig : Signal) : Sec bool
| Go (generation : Z) : Sec unit                              (* go s.invokeServerCmd *)
| StartCommand : Sec (option Z)
| WaitChild : Sec WaitResult
| Sleep : Sec unit
| Poll : Sec PollResult.

(** What the outside answers to a section. *)
Record Answers := mkAnswers {
  ans_env : Env;
  ans_child : option Z;
  ans_exit : WaitResult;
  ans_poll : PollResult }.

Definition sec_op (w : Answers) {X} (c : Sec X) : Op X :=
  let env := ans_env w in
  match c in Sec X return Op X with
  | Clock => mret (now env)
  | Swap from new => us_swap from new
  | ReadState => GetState
  | Broadcast new => broadcastState new
  | SetKillAt t => modify (set_killAt t)
  | Overdue => ShouldKill env
  | SetLastActive t => modify (set_lastActive (Some t))
  | ReadLastActive => gets lastActive
  | SetKeepOnline t => modify (set_keepOnline t)
  | KeptOnline => gets (fun s => match keepOnline s with Some t => now env <=? t | None => false end)
  | SetStatus v => modify (set_status (Some v))
  | PlayersOnline => gets players_online
  | ReadPid => gets pid
  | SetPid p g => modify (fun s => set_pidGeneration g (set_pid p s))
  | ClearPid => modify (set_pid 0)
  | PidRelease g => pid_release g
  | HelperBegin => beginControllerHelper
  | HelperRelease g => helper_release g
  | RconCool => gets (fun s => match rconLastStop s with None => true | Some t => rconCooldown <=? now env - t end)
  | SetRconLastStop t => modify (set_rconLastStop (Some t))
  | RconConnect => mret (rcon_connect env)
  | RconStop => _ ← emit EvRconStop; mret (rcon_cmd env)
  | SendSignal p sig => unixSignal env p sig
  | Go g => emit (EvSpawn g)
  | StartCommand => mret (ans_child w)
  | WaitChild => mret (ans_exit w)
  | Sleep => mret tt
  | Poll => mret (ans_poll w)
  end.

(** ** Programs *)

Inductive Prog (A : Type) : Type :=
| Return (a : A)
| Do {X : Type} (c : Sec X) (k : X -> Prog A).
Arguments Return {A} a.
Arguments Do {A X} c k.

Fixpoint prog_bind {A B} (p : Prog A) (f : A -> Prog B) : Prog B :=
  match p with
  | Return a => f a
  | Do c k => Do c (fun x => prog_bind (k x) f)
  end.

#[export] Instance Prog_ret : MRet Prog := fun A => Return.
#[export] Instance Prog_bind : MBind Prog := fun A B f p => prog_bind p f.

Definition sec {X} (c : Sec X) : Prog X := Do c Return.

(** Running a program without interference, with the same answers throughout. *)
Fixpoint alone (w : Answers) {A} (p : Prog A) : Op A :=
  match p with
  | Return a => mret a
  | Do c k => x ← sec_op w c; alone w (k x)
  end.

(** ** The operations *)

Section Programs.

Context (config : Config).

Abbreviation managed := (ControllerManaged (Config_Server config)).
Abbreviation freezes := (FreezeProcess (Config_Server config)).

Definition updateLastActive_p : Prog unit :=
  t ← sec Clock; sec (SetLastActive t).

Definition keepOnlineFor_p (duration : Z) : Prog unit :=
  if 0 <? duration then t ← sec Clock; sec (SetKeepOnline (Some (t + duration * second)))
  else sec (SetKeepOnline None).

(** The kill time of a new state: the clock is read before the lock is taken. *)
Definition killAt_p (new : State) : Prog unit :=
  let after timeout :=
    if 0 <? timeout then t ← sec Clock; sec (SetKillAt (Some (t + timeout * second))) else sec (SetKillAt None) in
  match new with
  | StateStarting => after (StartTimeout (Config_Server config))
  | StateStopping => after (StopTimeout (Config_Server config))
  | _ => sec (SetKillAt None)
  end.

Definition started_p (new : State) : Prog unit :=
  if decide (new = StateStarted) then
    _ ← updateLastActive_p; keepOnlineFor_p (MinOnlineTime (Config_Time config))
  else mret tt.

Definition updateStateFrom_p (from : option State) (new : State) : Prog bool :=
  changed ← sec (Swap from new);
  if changed : bool then
    _ ← sec (Broadcast new);
    _ ← killAt_p new;
    _ ← started_p new;
    mret true
  else mret false.

Definition updateState_p (new : State) : Prog bool := updateStateFrom_p None new.

(** The cases of the switch read the state each for itself. *)
Definition switch_p (st : option ServerStatus) : Prog bool :=
  s1 ← sec ReadState;
  down ← (if decide (s1 = StateStopped) then mret true
          else s2 ← sec ReadState; mret (bool_decide (s2 = StateStarting)));
  if (down : bool) && bool_decide (st <> None) then updateState_p StateStarted
  else
    s3 ← sec ReadState;
    if bool_decide (s3 = StateStarted) && bool_decide (st = None) then updateState_p StateStopped else mret false.

Definition UpdateStatus_p (st : option ServerStatus) : Prog unit :=
  _ ← switch_p st;
  match st with
  | None => mret tt
  | Some v =>
      _ ← (if 0 <? Online (Players v) then updateLastActive_p else mret tt);
      sec (SetStatus v)
  end.

Definition unfreezeServerSignal_p : Prog bool :=
  if managed then mret false
  else
    p ← sec ReadPid;
    if p =? 0 then mret false
    else
      _ ← sec (SendSignal p SIGCONT);
      _ ← updateStateFrom_p (Some StateStopping) StateStarting;
      _ ← updateStateFrom_p (Some StateStopped) StateStarting;
      mret true.

Definition freezeServerSignal_p : Prog bool :=
  p ← sec ReadPid;
  if p =? 0 then mret false
  else
    _ ← sec (SendSignal p SIGSTOP);
    _ ← updateStateFrom_p (Some StateStarting) StateStopped;
    _ ← updateStateFrom_p (Some StateStarted) StateStopped;
    mret true.

Definition stopServerSignal_p : Prog bool :=
  p ← sec ReadPid;
  if p =? 0 then mret false
  else
    ok ← sec (SendSignal p SIGTERM);
    if negb ok then mret false
    else
      _ ← updateStateFrom_p (Some StateStarting) StateStopping;
      _ ← updateStateFrom_p (Some StateStarted) StateStopping;
      mret true.

Definition stopServerRcon_p : Prog bool :=
  if negb (Rcon_Enabled (Config_Rcon config)) then mret false
  else
    cooled ← sec RconCool;
    if negb cooled then mret false
    else
      connected ← sec RconConnect;
      if negb connected then mret false
      else
        ok ← sec RconStop;
        if negb ok then mret false
        else
          t ← sec Clock;
          _ ← sec (SetRconLastStop t);
          _ ← updateState_p StateStopping;
          mret true.

Definition Start_p : Prog bool :=
  if managed && freezes then mret false
  else
    ok ← updateStateFrom_p (Some StateStopped) StateStarting;
    if negb ok then mret false
    else
      unfrozen ← (if freezes then unfreezeServerSignal_p else mret false);
      if unfrozen : bool then mret true
      else if managed then
        '(generation, launch) ← sec HelperBegin;
        if launch : bool then _ ← sec (Go generation); mret true else mret true
      else _ ← sec (Go 0); mret true.

Definition Stop_p : Prog bool :=
  if managed then mret false
  else
    frozen ← (if freezes then freezeServerSignal_p else mret false);
    if frozen : bool then mret true
    else
      cur ← sec ReadState;
      viaRcon ← (if decide (cur = StateStarted) then stopServerRcon_p else mret false);
      if viaRcon : bool then mret true else stopServerSignal_p.

Definition ForceKill_p : Prog bool :=
  if managed then mret false
  else
    p ← sec ReadPid;
    if negb (p =? 0) then sec (SendSignal p SIGKILL) else mret false.

Definition ShouldSleep_p : Prog bool :=
  if managed then mret false
  else
    cur ← sec ReadState;
    if decide (cur <> StateStarted) then mret false
    else
      playing ← sec PlayersOnline;
      if playing : bool then mret false
      else
        kept ← sec KeptOnline;
        if kept : bool then mret false
        else
          last ← sec ReadLastActive;
          match last with
          | Some t => t' ← sec Clock; mret (SleepAfter (Config_Time config) * second <=? t' - t)
          | None => mret false
          end.

Definition Expire_p : Prog bool :=
  if negb managed then mret false
  else
    kill ← sec Overdue;
    if negb kill then mret false else updateStateFrom_p (Some StateStarting) StateStopped.

(** One round of the monitor loop, the poll included. *)
Definition MonitorServer_p : Prog unit :=
  poll ← sec Poll;
  _ ← (match poll with
       | (Some v, true, _) => UpdateStatus_p (Some v)
       | (_, false, _) => UpdateStatus_p None
       | (None, true, _) => mret tt
       end);
  sleep ← ShouldSleep_p;
  _ ← (if sleep : bool then Stop_p else mret false);
  kill ← sec Overdue;
  if kill : bool then
    if managed then _ ← Expire_p; mret tt else _ ← ForceKill_p; mret tt
  else mret tt.

Definition finishControllerHelper_p (generation : Z) : Prog unit :=
  released ← sec (HelperRelease generation);
  if released : bool then sec (PidRelease generation) else mret tt.

Definition invoke_failed_p (generation : Z) : Prog unit :=
  if managed then finishControllerHelper_p generation else mret tt.

(** The whole goroutine. *)
Definition invokeServerCmd_p (generation : Z) : Prog unit :=
  match shlexSplit (Command (Config_Server config)) with
  | [] => invoke_failed_p generation
  | _ =>
      child ← sec StartCommand;
      match child with
      | None => invoke_failed_p generation
      | Some p =>
          _ ← sec (SetPid p generation);
          w ← sec WaitChild;
          if managed then finishControllerHelper_p generation
          else
            crashed ← (match w with
                       | WaitStatus code =>
                           if exitCodeAllowed (Some code) then mret false
                           else cur ← sec ReadState; mret (bool_decide (cur = StateStarted))
                       | WaitOk | WaitError => mret false
                       end);
            _ ← sec ClearPid;
            _ ← sec Sleep;
            _ ← updateState_p StateStopped;
            if (crashed : bool) && WakeOnCrash (Config_Server config) then _ ← Start_p; mret tt else mret tt
      end
  end.

End Programs.

(** ** Run alone, the programs are the operations *)

Section Alone.

Context (config : Config) (w : Answers).

Abbreviation env := (ans_env w).

(** [does_op p m]: without interference [p] is the operation [m]. *)
Definition does_op {A} (p : Prog A) (m : Op A) : Prop := forall s, alone w p s = m s.

Lemma alone_bind {A B} (p : Prog A) (f : A -> Prog B) s :
  alone w (p ≫= f) s = (alone w p ≫= fun a => alone w (f a)) s.
Proof.
  revert s. induction p as [a|X c k IH]; intros s.
  - cbn. unfold mbind, Op_bind, mret, Op_ret. by destruct (alone w (f a) s) as [[? ?] ?].
  - cbn. unfold mbind, Prog_bind, Op_bind in *. destruct (sec_op w c s) as [[x s1] e1]. rewrite IH.
    destruct (alone w (k x) s1) as [[a s2] e2]. destruct (alone w (f a) s2) as [[b s3] e3]. by rewrite app_assoc.
Qed.

Lemma does_ret {A} (a : A) : does_op (mret a) (mret a).
Proof. done. Qed.

Lemma does_sec {X} (c : Sec X) (m : Op X) : (forall s, sec_op w c s = m s) -> does_op (sec c) m.
Proof.
  intros H s. cbn. unfold mbind, Op_bind, mret, Op_ret. rewrite H. destruct (m s) as [[x s1] e1]. by rewrite app_nil_r.
Qed.

Lemma does_bind {A B} (p : Prog A) (m : Op A) (f : A -> Prog B) (k : A -> Op B) :
  does_op p m -> (forall a, does_op (f a) (k a)) -> does_op (p ≫= f) (m ≫= k).
Proof.
  intros Hp Hf s. rewrite alone_bind. unfold mbind, Op_bind. rewrite Hp.
  destruct (m s) as [[a s1] e1]. by rewrite (Hf a).
Qed.

(** A section without events, in front of the rest. *)
Lemma alone_sec {X A} (c : Sec X) x s' (f : X -> Prog A) s :
  sec_op w c s = (x, s', []) -> alone w (sec c ≫= f) s = alone w (f x) s'.
Proof.
  intros Hc. cbn. unfold mbind, Op_bind. rewrite Hc. by destruct (alone w (f x) s') as [[a s1] e1].
Qed.

Lemma alone_read {X A} (c : Sec X) (g : ServerState -> X) (f : X -> Prog A) s :
  sec_op w c s = (g s, s, []) -> alone w (sec c ≫= f) s = alone w (f (g s)) s.
Proof. apply alone_sec. Qed.

End Alone.

Create HintDb alone.
#[export] Hint Resolve does_ret : alone.

(** Follows the two monadic terms in parallel. *)
Ltac follow :=
  repeat first
    [ solve [auto with alone nocore]
    | apply does_sec; done
    | apply does_bind; [|intros ?]
    | case_match ].

Section AloneOps.

Context (config : Config) (w : Answers).

Abbreviation env := (ans_env w).
Abbreviation does := (does_op w).

Lemma updateLastActive_alone : does updateLastActive_p (updateLastActive env).
Proof. by intros s. Qed.
#[local] Hint Resolve updateLastActive_alone : alone.

Lemma started_alone new : does (started_p config new) (us_started env new config).
Proof.
  intros s. unfold started_p, us_started, keepOnlineFor_p, keepOnlineFor. case_decide; [|done].
  by destruct (0 <? MinOnlineTime (Config_Time config)).
Qed.
#[local] Hint Resolve started_alone : alone.

Lemma killAt_alone new : does (killAt_p config new) (us_killAt env new config).
Proof. intros s. unfold killAt_p, us_killAt. destruct new; try done; by case_match. Qed.
#[local] Hint Resolve killAt_alone : alone.

(** The state change of [ServerState] is the one of the sections. *)
Lemma updateStateFrom_alone from new :
  does (updateStateFrom_p config from new) (updateStateFrom env from new config).
Proof.
  unfold updateStateFrom_p, updateStateFrom. follow.
Qed.
#[local] Hint Resolve updateStateFrom_alone : alone.

Lemma updateState_alone new : does (updateState_p config new) (updateState env new config).
Proof. apply updateStateFrom_alone. Qed.
#[local] Hint Resolve updateState_alone : alone.

Lemma switch_alone st s :
  alone w (switch_p config st) s =
  (match state s, st with
   | (StateStopped | StateStarting), Some _ => updateState env StateStarted config
   | StateStarted, None => updateState env StateStopped config
   | _, _ => mret false
   end) s.
Proof.
  unfold switch_p. rewrite (alone_read w ReadState state) by done.
  rewrite alone_bind. unfold mbind at 1, Op_bind at 1.
  assert (alone w (if decide (state s = StateStopped) then mret true
          else s2 ← sec ReadState; mret (bool_decide (s2 = StateStarting))) s
    = (bool_decide (state s = StateStopped \/ state s = StateStarting), s, [])) as ->.
  { case_decide as H; [by rewrite bool_decide_true by auto|].
    rewrite (alone_read w ReadState state) by done. cbn. unfold mret, Op_ret. repeat f_equal.
    apply bool_decide_ext. tauto. }
  assert (forall m : Op bool, (let '(b, s2, e2) := m s in (b, s2, [] ++ e2)) = m s) as Hid.
  { intros m. by destruct (m s) as [[? ?] ?]. }
  destruct (bool_decide (state s = StateStopped \/ state s = StateStarting) && bool_decide (st <> None)) eqn:E.
  - rewrite Hid, updateState_alone. apply andb_prop in E as [E1 E2].
    apply bool_decide_eq_true in E1, E2. by destruct E1 as [-> | ->], st.
  - rewrite Hid, (alone_read w ReadState state) by done.
    destruct (state s) eqn:Es, st as [v|]; cbn in *; try done; apply updateState_alone.
Qed.

Lemma gets_bind {X A} (g : ServerState -> X) (k : X -> Op A) s : (gets g ≫= k) s = k (g s) s.
Proof. unfold mbind, Op_bind, gets. by destruct (k (g s) s) as [[? ?] ?]. Qed.

Lemma bind_cong {A B} (m m' : Op A) (k k' : A -> Op B) s :
  m s = m' s -> (forall a s', k a s' = k' a s') -> (m ≫= k) s = (m' ≫= k') s.
Proof. intros Hm Hk. unfold mbind, Op_bind. rewrite Hm. destruct (m' s) as [[a s1] e1]. by rewrite Hk. Qed.

Lemma UpdateStatus_alone st : does (UpdateStatus_p config st) (UpdateStatus env config st).
Proof.
  intros s. unfold UpdateStatus, GetState. rewrite gets_bind. unfold UpdateStatus_p. rewrite alone_bind.
  apply bind_cong; [apply switch_alone|]. intros _.
  change (does (match st with None => mret tt
    | Some v => _ ← (if 0 <? Online (Players v) then updateLastActive_p else mret tt); sec (SetStatus v) end)
    (match st with None => mret tt
    | Some v => _ ← (if 0 <? Online (Players v) then updateLastActive env else mret tt); modify (set_status (Some v)) end)).
  follow.
Qed.
#[local] Hint Resolve UpdateStatus_alone : alone.

Lemma unfreeze_alone : does (unfreezeServerSignal_p config) (unfreezeServerSignal env config).
Proof.
  unfold unfreezeServerSignal_p, unfreezeServerSignal. follow.
Qed.
#[local] Hint Resolve unfreeze_alone : alone.

Lemma freeze_alone : does (freezeServerSignal_p config) (freezeServerSignal env config).
Proof.
  unfold freezeServerSignal_p, freezeServerSignal. follow.
Qed.
#[local] Hint Resolve freeze_alone : alone.

Lemma stopSignal_alone : does (stopServerSignal_p config) (stopServerSignal env config).
Proof.
  unfold stopServerSignal_p, stopServerSignal. follow.
Qed.
#[local] Hint Resolve stopSignal_alone : alone.

Lemma stopRcon_alone : does (stopServerRcon_p config) (stopServerRcon env config).
Proof.
  unfold stopServerRcon_p, stopServerRcon. destruct (negb _); [apply does_ret|]. intros s.
  rewrite (alone_read w RconCool (fun s => match rconLastStop s with None => true | Some t => rconCooldown <=? now env - t end)) by done.
  rewrite gets_bind. destruct (negb _); [done|]. rewrite (alone_read w RconConnect (fun _ => rcon_connect env)) by done.
  destruct (negb (rcon_connect env)); [done|].
  assert (does (ok ← sec RconStop; if negb ok then mret false else
      t ← sec Clock; _ ← sec (SetRconLastStop t); _ ← updateState_p config StateStopping; mret true)
    (ok ← (_ ← emit EvRconStop; mret (rcon_cmd env)); if negb ok then mret false else
      _ ← modify (set_rconLastStop (Some (now env))); _ ← updateState env StateStopping config; mret true)) as ->.
  { apply does_bind; [by apply does_sec|]. intros ok. destruct (negb ok); [apply does_ret|]. intros s'.
    rewrite (alone_read w Clock (fun _ => now env)) by done.
    rewrite (does_bind w _ (modify (set_rconLastStop (Some (now env)))) _ (fun _ => _ ← updateState env StateStopping config; mret true)); [done|by apply does_sec|].
    intros _. follow. }
  by destruct (rcon_cmd env).
Qed.
#[local] Hint Resolve stopRcon_alone : alone.

Lemma Start_alone : does (Start_p config) (Start env config).
Proof.
  unfold Start_p, Start. follow.
Qed.
#[local] Hint Resolve Start_alone : alone.

Lemma Stop_alone : does (Stop_p config) (Stop env config).
Proof.
  unfold Stop_p, Stop. follow. intros s. rewrite stopSignal_alone. unfold mbind, Op_bind, mret, Op_ret.
  destruct (stopServerSignal env config s) as [[[] s1] e1]; by rewrite app_nil_r.
Qed.
#[local] Hint Resolve Stop_alone : alone.

Lemma ForceKill_alone : does (ForceKill_p config) (ForceKill env config).
Proof. unfold ForceKill_p, ForceKill. follow. Qed.
#[local] Hint Resolve ForceKill_alone : alone.

Lemma ShouldSleep_alone : does (ShouldSleep_p config) (ShouldSleep env config).
Proof.
  intros s. unfold ShouldSleep_p, ShouldSleep, gets. destruct (ControllerManaged _); [done|].
  rewrite (alone_read w ReadState state) by done. case_decide; [done|].
  rewrite (alone_read w PlayersOnline players_online) by done. destruct (players_online s); [done|].
  rewrite (alone_read w KeptOnline (fun s => match keepOnline s with Some t => now env <=? t | None => false end)) by done.
  destruct (keepOnline s) as [k|]; [destruct (now env <=? k); [done|]|];
    rewrite (alone_read w ReadLastActive lastActive) by done; by destruct (lastActive s).
Qed.
#[local] Hint Resolve ShouldSleep_alone : alone.

Lemma Expire_alone : does (Expire_p config) (ExpireControllerManagedTransition env config).
Proof.
  intros s. unfold Expire_p, ExpireControllerManagedTransition. unfold ShouldKill. rewrite gets_bind.
  destruct (ControllerManaged _); [|done]. cbn [negb orb].
  rewrite (alone_read w Overdue (fun s => match killAt s with Some t => t <=? now env | None => false end)) by done.
  destruct (negb _); [done|]. apply updateStateFrom_alone.
Qed.
#[local] Hint Resolve Expire_alone : alone.

(** A round of the monitor. *)
Lemma MonitorServer_alone : does (MonitorServer_p config) (monitor_round env config (ans_poll w)).
Proof.
  intros s. unfold MonitorServer_p. rewrite (alone_read w Poll (fun _ => ans_poll w)) by done.
  match goal with |- alone w ?p s = _ => enough (does p (monitor_round env config (ans_poll w))) as -> by done end.
  unfold monitor_round, observe. follow.
Qed.

Lemma finish_alone g : does (finishControllerHelper_p g) (finishControllerHelper g).
Proof. unfold finishControllerHelper_p, finishControllerHelper. follow. Qed.
#[local] Hint Resolve finish_alone : alone.

Lemma quiet_bind {A B} (m : Op A) (k : A -> Op B) a s s' : m s = (a, s', []) -> (m ≫= k) s = k a s'.
Proof. intros H. unfold mbind, Op_bind. rewrite H. by destruct (k a s') as [[? ?] ?]. Qed.

Lemma finish_quiet g s : exists s', finishControllerHelper g s = (tt, s', []).
Proof.
  unfold finishControllerHelper, helper_release, pid_release, gets, modify, mbind, Op_bind, mret, Op_ret.
  destruct (_ || _); eauto.
Qed.

Lemma failed_alone g s :
  alone w (invoke_failed_p config g) s
  = ((_ ← (if ControllerManaged (Config_Server config) then finishControllerHelper g else mret tt); mret false) ≫=
     fun ok => if ok : bool then
       next ← invoke_exit config g (ans_exit w);
       match next with Some crashed => invoke_after env config crashed | None => mret tt end
     else mret tt) s.
Proof.
  unfold invoke_failed_p. destruct (ControllerManaged (Config_Server config)) eqn:E; [|done].
  rewrite finish_alone. destruct (finish_quiet g s) as [s' Hs].
  rewrite (quiet_bind _ _ false s s'); [done|]. by rewrite (quiet_bind _ _ tt s s').
Qed.

Lemma after_alone crashed :
  does (_ ← updateState_p config StateStopped;
        if (crashed : bool) && WakeOnCrash (Config_Server config) then _ ← Start_p config; mret tt else mret tt)
    (invoke_after env config crashed).
Proof. unfold invoke_after. follow. Qed.

(** The goroutine of the command: its three phases. *)
Lemma invokeServerCmd_alone g :
  does (invokeServerCmd_p config g)
    (ok ← invoke_begin config g (ans_child w);
     if ok : bool then
       next ← invoke_exit config g (ans_exit w);
       match next with Some crashed => invoke_after env config crashed | None => mret tt end
     else mret tt).
Proof.
  unfold invokeServerCmd_p, invoke_begin. intros s.
  destruct (shlexSplit _); [apply failed_alone|]. rewrite (alone_sec w StartCommand (ans_child w) s) by done.
  destruct (ans_child w) as [p|]; [|apply failed_alone].
  set (s1 := set_pidGeneration g (set_pid p s)).
  rewrite (alone_sec w (SetPid p g) tt s1), (alone_sec w WaitChild (ans_exit w) s1) by done.
  rewrite (quiet_bind _ _ true s s1) by done. unfold invoke_exit.
  destruct (ControllerManaged (Config_Server config)).
  - rewrite finish_alone. destruct (finish_quiet g s1) as [s' Hs].
    rewrite Hs. rewrite (quiet_bind _ _ None s1 s'); [done|]. by rewrite (quiet_bind _ _ tt s1 s').
  - unfold GetState. pose (crashed := match ans_exit w with WaitStatus code => if exitCodeAllowed (Some code) then false else bool_decide (state s1 = StateStarted)
      | WaitOk | WaitError => false end).
    rewrite (quiet_bind _ _ (Some crashed) s1 (set_pid 0 s1)) by done.
    rewrite alone_bind, (quiet_bind _ _ crashed s1 s1) by (unfold crashed; destruct (ans_exit w); try done; by case_match).
    rewrite (alone_sec w ClearPid tt (set_pid 0 s1)), (alone_sec w Sleep tt (set_pid 0 s1)) by done.
    apply after_alone.
Qed.

End AloneOps.
