(* ===== verification/Rounds.v ===== *)
(** The operations of [ServerState] as functions of the state: what a state
    change, a poll result, a round of the monitor and a stop do when nothing
    else runs, and when the shared state is consistent. *)
From S2P Require Import Prelude Packet Stream Config Net Packets Access Process Nbt JoinGame ServerState Monitor.

(** ** Running operations one after the other *)

Lemma Op_bind_assoc {A B C} (m : Op A) (f : A -> Op B) (g : B -> Op C) s :
  ((m ≫= f) ≫= g) s = (m ≫= fun a => f a ≫= g) s.
Proof.
  unfold mbind, Op_bind. destruct (m s) as [[a s1] e1]. destruct (f a s1) as [[b s2] e2].
  destruct (g b s2) as [[c s3] e3]. by rewrite app_assoc.
Qed.

Lemma Op_bind_ext {A B} (m : Op A) (f g : A -> Op B) s :
  (forall a s', f a s' = g a s') -> (m ≫= f) s = (m ≫= g) s.
Proof. intros H. unfold mbind, Op_bind. destruct (m s) as [[a s1] e1]. by rewrite H. Qed.

Lemma final_bind {A B} (m : Op A) (k : A -> Op B) s :
  final ((m ≫= k) s) = final (k (result (m s)) (final (m s))).
Proof.
  unfold final, result, mbind, Op_bind. destruct (m s) as [[a s1] e1]. cbn. by destruct (k a s1) as [[b s2] e2].
Qed.

Lemma events_bind {A B} (m : Op A) (k : A -> Op B) s :
  events ((m ≫= k) s) = events (m s) ++ events (k (result (m s)) (final (m s))).
Proof.
  unfold events, result, final, mbind, Op_bind. destruct (m s) as [[a s1] e1]. cbn. by destruct (k a s1) as [[b s2] e2].
Qed.

(** ** Timers and subscribers *)

(** A deadline is armed in the transitional states, when a timeout is
    configured, and in no other state. *)
Definition timers_ok (config : Config) (s : ServerState) : Prop :=
  match state s with
  | StateStopped | StateStarted => killAt s = None
  | StateStarting => killAt s = None <-> StartTimeout (Config_Server config) <= 0
  | StateStopping => killAt s = None <-> StopTimeout (Config_Server config) <= 0
  end.

(** A subscriber's channel is empty or holds the current state. *)
Definition subs_ok (s : ServerState) : Prop :=
  Forall (fun ch => ch = None \/ ch = Some (state s)) (subs s).

Lemma enter_fields env new config s :
  state (enter env new config s) = new /\ killAt (enter env new config s) = deadline env new config
  /\ subs (enter env new config s) = map (fun _ => Some new) (subs s)
  /\ status (enter env new config s) = status s
  /\ pid (enter env new config s) = pid s /\ pidGeneration (enter env new config s) = pidGeneration s
  /\ helperGeneration (enter env new config s) = helperGeneration s
  /\ helperActive (enter env new config s) = helperActive s.
Proof. unfold enter. by case_decide. Qed.

Lemma deadline_ok env new config s :
  state s = new -> killAt s = deadline env new config -> timers_ok config s.
Proof.
  unfold timers_ok. intros -> ->. unfold deadline.
  destruct new; try done.
  - destruct (Z.ltb_spec 0 (StartTimeout (Config_Server config))); (split; [done || lia|done || lia]).
  - destruct (Z.ltb_spec 0 (StopTimeout (Config_Server config))); (split; [done || lia|done || lia]).
Qed.

(** ** A round of the monitor *)

(** The first part of a monitor round, up to the test for a force kill. *)
Definition round_head (env : Env) (config : Config) (poll : option ServerStatus * bool * bool) : Op bool :=
  _ ← observe env config poll;
  sleep ← ShouldSleep env config;
  if sleep : bool then Stop env config else mret false.

(** What a poll result does to the state. *)
Definition observed (env : Env) (config : Config) (poll : option ServerStatus * bool * bool) (s : ServerState) : ServerState :=
  let '(st, ok, _) := poll in
  match st, ok with
  | Some v, true => record_status env (Some v) (polled env config (Some v) s)
  | _, false => polled env config None s
  | None, true => s
  end.

Lemma observe_eq env config poll s : observe env config poll s = (tt, observed env config poll s, []).
Proof. destruct poll as [[[v|] []] fb]; unfold observe; by rewrite ?UpdateStatus_eq. Qed.

Definition round_tail (env : Env) (config : Config) : Op unit :=
  kill ← ShouldKill env;
  if kill : bool then
    if ControllerManaged (Config_Server config) then
      _ ← ExpireControllerManagedTransition env config; mret tt
    else _ ← ForceKill env config; mret tt
  else mret tt.

Lemma monitor_round_split env config poll s :
  monitor_round env config poll s = (round_head env config poll ≫= fun _ => round_tail env config) s.
Proof.
  unfold monitor_round, round_head. rewrite Op_bind_assoc.
  apply Op_bind_ext. intros [] s'. rewrite Op_bind_assoc. by apply Op_bind_ext.
Qed.

(** The deadline of the current transition has passed. *)
Definition overdue (env : Env) (s : ServerState) : bool :=
  match killAt s with Some t => t <=? now env | None => false end.

Lemma round_tail_eq env config s :
  round_tail env config s =
  if overdue env s then
    if ControllerManaged (Config_Server config) then
      (tt, if decide (state s = StateStarting) then enter env StateStopped config s else s, [])
    else (tt, s, if pid s =? 0 then [] else [EvSignal (pid s) SIGKILL])
  else (tt, s, []).
Proof.
  unfold round_tail, ForceKill, ExpireControllerManagedTransition.
  assert (ShouldKill env s = (overdue env s, s, [])) as E by done.
  unfold mbind at 1, Op_bind at 1. rewrite E. destruct (overdue env s) eqn:Eo; [|done].
  destruct (ControllerManaged (Config_Server config)).
  - unfold mbind, Op_bind. rewrite E. cbn [negb orb]. rewrite updateStateFrom_eq.
    unfold moves. destruct (decide (state s = StateStarting)) as [H|H].
    + rewrite bool_decide_true, bool_decide_false by congruence. done.
    + by rewrite bool_decide_false.
  - unfold mbind, Op_bind, gets. by destruct (pid s =? 0).
Qed.

(** ** A start under a controller *)

Lemma managed_Start_eq config env s :
  ControllerManaged (Config_Server config) = true ->
  Start env config s =
  if FreezeProcess (Config_Server config) then (false, s, [])
  else if decide (state s = StateStopped) then
    let s1 := enter env StateStarting config s in
    if helperActive s then (true, s1, [])
    else let g := u64 (helperGeneration s + 1) in (true, set_helper g true s1, [EvSpawn g])
  else (false, s, []).
Proof.
  intros managed. unfold Start. rewrite managed. destruct (FreezeProcess (Config_Server config)); [done|]. cbn [andb].
  unfold mbind at 1, Op_bind at 1. rewrite updateStateFrom_eq. unfold moves.
  destruct (decide (state s = StateStopped)) as [E|E]; [|by rewrite bool_decide_false].
  rewrite bool_decide_true, bool_decide_false by congruence. cbn [andb negb].
  unfold beginControllerHelper, gets, modify, emit, mbind, Op_bind, mret, Op_ret.
  destruct (enter_fields env StateStarting config s) as (_ & _ & _ & _ & _ & _ & Hg & Ha). rewrite Ha.
  destruct (helperActive s); [done|]. cbn. by rewrite Hg.
Qed.

(** A failed poll after the deadline of a start. *)
Lemma expired_round config env fallback s t :
  ControllerManaged (Config_Server config) = true -> state s = StateStarting -> killAt s = Some t -> t <= now env ->
  final (monitor_round env config (None, false, fallback) s) = enter env StateStopped config s.
Proof.
  intros managed Hst Ek Hnow.
  assert (round_head env config (None, false, fallback) s = (false, s, [])) as Eh.
  { unfold round_head, ShouldSleep, gets, mbind, Op_bind. rewrite observe_eq. unfold observed, polled.
    by rewrite Hst, managed. }
  rewrite monitor_round_split, final_bind, Eh. cbn [final result fst snd].
  rewrite round_tail_eq, managed. unfold overdue. rewrite Ek, (proj2 (Z.leb_le _ _)) by done.
  by rewrite decide_True.
Qed.

(** ** Sample environment *)

(** ** A stop *)

(** RCON is enabled, has cooled down and accepts a connection. *)
Definition rcon_ready (env : Env) (config : Config) (s : ServerState) : bool :=
  Rcon_Enabled (Config_Rcon config)
  && match rconLastStop s with None => true | Some t => rconCooldown <=? now env - t end && rcon_connect env.

Section StopEq.

Context (env : Env) (config : Config) (s : ServerState).

(** A server that is starting or started goes to a new state; one that is
    stopping or stopped stays. *)
Definition leave (new : State) : ServerState :=
  match state s with
  | StateStarting | StateStarted => enter env new config s
  | StateStopping | StateStopped => s
  end.

Lemma leave_eq new : new = StateStopped \/ new = StateStopping ->
  (_ ← updateStateFrom env (Some StateStarting) new config; _ ← updateStateFrom env (Some StateStarted) new config; mret true) s
  = (true, leave new, []).
Proof.
  intros Hn. unfold leave, mbind, Op_bind, mret, Op_ret. rewrite updateStateFrom_eq.
  destruct (enter_fields env new config s) as (He & _).
  assert (moves (Some StateStarted) new new = false) as Hnew by (by destruct Hn as [-> | ->]).
  destruct (state s) eqn:Hs.
  all: destruct Hn as [-> | ->]; cbv beta iota; rewrite ?updateStateFrom_eq.
  all: try (change (moves (Some StateStarting) _ StateStarting) with true; cbv iota; by rewrite updateStateFrom_eq, He, Hnew).
  all: match goal with |- context [moves (Some StateStarting) ?n ?c] => change (moves (Some StateStarting) n c) with false end;
    cbv iota; by rewrite updateStateFrom_eq, Hs.
Qed.

Lemma freeze_eq :
  freezeServerSignal env config s =
  if pid s =? 0 then (false, s, []) else (true, leave StateStopped, [EvSignal (pid s) SIGSTOP]).
Proof.
  unfold freezeServerSignal. unfold mbind at 1, Op_bind at 1, gets. destruct (pid s =? 0); [done|].
  unfold mbind at 1, Op_bind at 1, unixSignal, emit. unfold mbind at 1, Op_bind at 1, mret at 1, Op_ret at 1.
  cbv beta iota. by rewrite leave_eq by auto.
Qed.

Lemma rcon_eq : state s = StateStarted ->
  stopServerRcon env config s =
  if rcon_ready env config s then
    if rcon_cmd env then (true, enter env StateStopping config (set_rconLastStop (Some (now env)) s), [EvRconStop])
    else (false, s, [EvRconStop])
  else (false, s, []).
Proof.
  intros Hs. unfold stopServerRcon, rcon_ready. destruct (Rcon_Enabled _); [|done]. unfold updateState.
  unfold mbind, Op_bind, gets, emit, modify, mret, Op_ret. cbn [negb andb].
  destruct (rconLastStop s) as [t|]; [destruct (rconCooldown <=? now env - t); [|done]|]; cbn [negb andb];
    (destruct (rcon_connect env); [|done]); (destruct (rcon_cmd env); [|done]); cbn [negb];
    rewrite updateStateFrom_eq; cbn; by rewrite Hs.
Qed.

Lemma term_eq :
  stopServerSignal env config s =
  if pid s =? 0 then (false, s, [])
  else if kill_ok env (pid s) SIGTERM then (true, leave StateStopping, [EvSignal (pid s) SIGTERM])
  else (false, s, [EvSignal (pid s) SIGTERM]).
Proof.
  unfold stopServerSignal. unfold mbind at 1, Op_bind at 1, gets. destruct (pid s =? 0); [done|].
  unfold mbind at 1, Op_bind at 1, unixSignal, emit. unfold mbind at 1, Op_bind at 1, mret at 1, Op_ret at 1.
  cbv beta iota. destruct (kill_ok env (pid s) SIGTERM); [|done]. cbn [negb]. by rewrite leave_eq by auto.
Qed.

(** Everything a stop does. *)
Lemma Stop_eq :
  Stop env config s =
  if ControllerManaged (Config_Server config) then (false, s, [])
  else if FreezeProcess (Config_Server config) && negb (pid s =? 0) then (true, leave StateStopped, [EvSignal (pid s) SIGSTOP])
  else
    let asked := bool_decide (state s = StateStarted) && rcon_ready env config s in
    let rcon := if asked then [EvRconStop] else [] in
    if asked && rcon_cmd env then (true, enter env StateStopping config (set_rconLastStop (Some (now env)) s), rcon)
    else if pid s =? 0 then (false, s, rcon)
    else if kill_ok env (pid s) SIGTERM then (true, leave StateStopping, rcon ++ [EvSignal (pid s) SIGTERM])
    else (false, s, rcon ++ [EvSignal (pid s) SIGTERM]).
Proof.
  unfold Stop. destruct (ControllerManaged _); [done|]. unfold mbind at 1, Op_bind at 1.
  assert ((if FreezeProcess (Config_Server config) then freezeServerSignal env config else mret false) s
    = if FreezeProcess (Config_Server config) && negb (pid s =? 0) then (true, leave StateStopped, [EvSignal (pid s) SIGSTOP]) else (false, s, [])) as ->.
  { destruct (FreezeProcess _); [|done]. rewrite freeze_eq. by destruct (pid s =? 0). }
  destruct (_ && _); [done|]. unfold mbind, Op_bind, GetState, gets, mret, Op_ret. cbv beta iota zeta.
  destruct (decide (state s = StateStarted)) as [Hs|Hs].
  - rewrite (bool_decide_true _ Hs), rcon_eq by done.
    destruct (rcon_ready env config s), (rcon_cmd env); cbn [andb app]; try done; rewrite term_eq;
      by destruct (pid s =? 0), (kill_ok env (pid s) SIGTERM).
  - rewrite (bool_decide_false _ Hs), term_eq. cbn [andb app]. by destruct (pid s =? 0), (kill_ok env (pid s) SIGTERM).
Qed.

End StopEq.

Definition env_at (t : Z) : Env := mkEnv t (fun _ _ => true) false false.
