(* ===== verification/Lifecycle.v ===== *)
(** The lifecycle of the server as a transition system of goroutines.

    A [System] is the shared state of [src/server.go], the goroutines that work
    on it, the log of everything done to the outside, and the clock. The
    goroutines are the clients that ask for the server ([src/status.go],
    [src/lobby.go], [src/service_server.go]), the signal handler that stops it
    ([src/service_tasks.go]), the rounds of the monitor ([src/monitor.go], one
    at a time) and the commands of [invokeServerCmd]. A step runs the next
    critical section of one goroutine; sections of different goroutines
    interleave in any way, and the environment (clock, kernel, RCON peer, poll
    results, children) is arbitrary.

    Each goroutine carries two ghost fields, computed from the sections it has
    run: its [Duty] (why it acts, and what is left of a state change) and its
    [Stage] (its part in the life of a controller helper). The code does not
    look at them. *)
From S2P Require Import Prelude Packet Stream Config Net Packets Access Process Nbt JoinGame ServerState Monitor Sections Rounds.

(** ** Ghost state *)

(** What entitles a goroutine to act. *)
Inductive Cause :=
| Idle                      (* nothing happened yet *)
| SeenUp | SeenDown         (* its poll succeeded, failed *)
| Exited                    (* its child ended *)
| Frozen                    (* it has sent SIGSTOP *)
| Asked                     (* SIGTERM was accepted, or the RCON stop answered *)
| Resumed                   (* it has sent SIGCONT *)
| Expired                   (* it has seen the deadline passed *)
| Granted                   (* it moved the server from stopped to starting *)
| Slot (generation : Z).    (* and took the helper slot *)

(** A state change goes through three duties: announce the new state, fix its
    deadline, arm it. *)
Inductive Duty :=
| At (c : Cause)
| Announce (new : State) (c : Cause)
| Arm (new : State) (c : Cause)
| ArmAt (new : State) (t : option Z) (c : Cause).

(** The life of a controller helper. *)
Inductive Stage :=
| NoHelper
| Launching (generation : Z)        (* has the slot, about to start the goroutine *)
| Begun (generation : Z)            (* the goroutine, without a child *)
| Child (generation child : Z)      (* the child runs, its pid is not recorded *)
| Running (generation child : Z)    (* its pid is recorded *)
| Finishing (generation : Z).       (* gave the slot back, not yet the pid *)

(** The deadline of a state that is entered at time [t]. *)
Definition due_at (config : Config) (t : Z) (new : State) : option Z :=
  let after timeout := if 0 <? timeout then Some (t + timeout * second) else None in
  match new with
  | StateStarting => after (StartTimeout (Config_Server config))
  | StateStopping => after (StopTimeout (Config_Server config))
  | StateStarted | StateStopped => None
  end.

(** An observation counts for one attempt to change the state. *)
Definition spent (c : Cause) : Cause :=
  match c with SeenUp | SeenDown | Exited => Idle | _ => c end.

Definition entered (c : Cause) : Cause :=
  match c with Idle => Granted | _ => spent c end.

Definition saw (poll : PollResult) : Cause :=
  match poll with
  | (Some _, true, _) => SeenUp
  | (_, false, _) => SeenDown
  | (None, true, _) => Idle
  end.

Definition next_cause (c : Cause) {X} (sec : Sec X) : X -> Cause :=
  match sec in Sec X return X -> Cause with
  | Swap _ _ => fun _ => spent c
  | Overdue => fun passed => if passed then Expired else c
  | SendSignal _ SIGSTOP => fun _ => Frozen
  | SendSignal _ SIGCONT => fun _ => Resumed
  | SendSignal _ SIGTERM => fun ok => if ok then Asked else c
  | RconStop => fun ok => if ok then Asked else c
  | HelperBegin => fun r => if snd r : bool then Slot (fst r) else Idle
  | Go _ => fun _ => Idle
  | Poll => saw
  | WaitChild => fun _ => Exited
  | _ => fun _ => c
  end.

Definition next_duty (config : Config) (d : Duty) {X} (sec : Sec X) : X -> Duty :=
  match d with
  | At c =>
      match sec in Sec X return X -> Duty with
      | Swap from new => fun changed => if changed then Announce new (entered c) else At (spent c)
      | sec => fun x => At (next_cause c sec x)
      end
  | Announce new c => match sec with Broadcast _ => fun _ => Arm new c | _ => fun _ => d end
  | Arm new c =>
      match sec in Sec X return X -> Duty with
      | Clock => fun t => ArmAt new (due_at config t new) c
      | SetKillAt _ => fun _ => At c
      | _ => fun _ => d
      end
  | ArmAt new t c => match sec with SetKillAt _ => fun _ => At c | _ => fun _ => d end
  end.

Definition next_stage (st : Stage) {X} (sec : Sec X) : X -> Stage :=
  match sec in Sec X return X -> Stage with
  | HelperBegin => fun r => if snd r : bool then Launching (fst r) else st
  | Go _ => fun _ => NoHelper
  | StartCommand => fun child => match st, child with Begun g, Some p => Child g p | _, _ => st end
  | SetPid p g => fun _ => Running g p
  | HelperRelease g => fun released => if released then Finishing g else NoHelper
  | PidRelease _ => fun _ => NoHelper
  | _ => fun _ => st
  end.

(** ** The system *)

Inductive Kind := KClient | KHandler | KRound | KCommand (generation : Z).

Record Thread := mkThread {
  kind : Kind;
  code : Prog unit;
  duty : Duty;
  stage : Stage }.

Record System := mkSystem {
  srv : ServerState;
  threads : list Thread;
  log : list Event;
  clock : Z }.

Definition init (t : Z) : System := mkSystem NewServerState [] [] t.

(** A subscriber takes the value out of its channel. *)
Definition receive (i : nat) : Op (option State) := fun s =>
  (subs s !! i ≫= id, set_subs (<[i := None]> (subs s)) s, []).

(** The updates of lists and caches, none of which concerns the lifecycle. *)
Inductive Update :=
| UpSeed (st : option ServerStatus)
| UpBans (ips : BannedIps)
| UpWhitelist (w : option Whitelist)
| UpProbed (d : option JoinGameData)
| UpForge (p : list bytes)
| UpForgeLogin (c : list ForgeLoginExchange).

Definition update_op (u : Update) : Op unit :=
  match u with
  | UpSeed st => SeedStatus st
  | UpBans ips => SetBannedIPs ips
  | UpWhitelist w => SetWhitelist w
  | UpProbed d => SetProbedJoinGame d
  | UpForge p => SetForgePayload p
  | UpForgeLogin c => SetForgeLoginCache c
  end.

Inductive Act :=
| ANew (k : Kind)                   (* a client, a handler or a monitor round begins *)
| ARun (i : nat) (w : Answers)      (* the next section of goroutine [i] *)
| ASubscribe
| AReceive (i : nat)
| AUpdate (u : Update).

Section Steps.

Context (config : Config).

Definition code_of (k : Kind) : Prog unit :=
  match k with
  | KClient => _ ← Start_p config; mret tt
  | KHandler => _ ← Stop_p config; mret tt
  | KRound => MonitorServer_p config
  | KCommand g => invokeServerCmd_p config g
  end.

Definition new_thread (k : Kind) : Thread :=
  mkThread k (code_of k) (At Idle)
    (match k with KCommand g => Begun g | _ => NoHelper end).

(** The goroutines that events start. *)
Definition started (evs : list Event) : list Thread :=
  omap (fun e => match e with EvSpawn g => Some (new_thread (KCommand g)) | _ => None end) evs.

Definition finished (th : Thread) : bool := match code th with Return _ => true | Do _ _ => false end.

Definition is_round (th : Thread) : bool := match kind th with KRound => true | _ => false end.

(** Commands are only begun by [Go], and a round only after the last one. *)
Definition can_begin (k : Kind) (sys : System) : bool :=
  match k with
  | KCommand _ => false
  | KRound => forallb (fun th => negb (is_round th) || finished th) (threads sys)
  | KClient | KHandler => true
  end.

(** What the outside may answer: the clock does not go back, a child has a
    positive pid. *)
Definition answers_ok (w : Answers) (sys : System) : bool :=
  (clock sys <=? now (ans_env w)) && match ans_child w with Some p => 0 <? p | None => true end.

(** The next section of a goroutine. *)
Definition run_next (w : Answers) (th : Thread) (s : ServerState) : option (Thread * ServerState * list Event) :=
  match code th with
  | Return _ => None
  | Do c k =>
      let '(x, s', evs) := sec_op w c s in
      Some (mkThread (kind th) (k x) (next_duty config (duty th) c x) (next_stage (stage th) c x), s', evs)
  end.

Definition do_act (a : Act) (sys : System) : option System :=
  match a with
  | ANew k =>
      if can_begin k sys then Some (mkSystem (srv sys) (threads sys ++ [new_thread k]) (log sys) (clock sys)) else None
  | ARun i w =>
      if answers_ok w sys then
        th ← threads sys !! i;
        '(th', s, evs) ← run_next w th (srv sys);
        Some (mkSystem s (<[i := th']> (threads sys) ++ started evs) (log sys ++ evs) (now (ans_env w)))
      else None
  | ASubscribe => Some (mkSystem (final (Subscribe (srv sys))) (threads sys) (log sys) (clock sys))
  | AReceive i => Some (mkSystem (final (receive i (srv sys))) (threads sys) (log sys) (clock sys))
  | AUpdate u => Some (mkSystem (final (update_op u (srv sys))) (threads sys) (log sys) (clock sys))
  end.

Inductive reachable (t0 : Z) : System -> Prop :=
| reach_init : reachable t0 (init t0)
| reach_act a sys sys' : reachable t0 sys -> do_act a sys = Some sys' -> reachable t0 sys'.

(** Running a schedule. *)
Fixpoint do_acts (l : list Act) (sys : System) : option System :=
  match l with
  | [] => Some sys
  | a :: l => sys' ← do_act a sys; do_acts l sys'
  end.

Lemma do_acts_reachable t0 l : forall sys sys', reachable t0 sys -> do_acts l sys = Some sys' -> reachable t0 sys'.
Proof.
  induction l as [|a l IH]; intros sys sys' Hr; cbn [do_acts]; [by intros [= <-]|].
  intros (s1 & E1 & E2)%bind_Some. eapply IH; [|exact E2]. by eapply reach_act.
Qed.

(** A step by one goroutine. *)
Lemma do_run i w sys sys' :
  do_act (ARun i w) sys = Some sys' ->
  exists th X (c : Sec X) k x s evs,
    answers_ok w sys = true /\ threads sys !! i = Some th /\ code th = Do c k /\ sec_op w c (srv sys) = (x, s, evs)
    /\ sys' = mkSystem s (<[i := mkThread (kind th) (k x) (next_duty config (duty th) c x) (next_stage (stage th) c x)]>
                            (threads sys) ++ started evs) (log sys ++ evs) (now (ans_env w)).
Proof.
  cbn [do_act]. destruct (answers_ok w sys) eqn:Ea; [|done]. intros (th & Ht & H)%bind_Some.
  unfold run_next in H. destruct (code th) as [a|X c k] eqn:Ec; [done|].
  destruct (sec_op w c (srv sys)) as [[x s] evs] eqn:Es. injection H as <-. by exists th, X, c, k, x, s, evs.
Qed.

End Steps.

(** ** Disciplines

    A discipline says which sections a goroutine may run in which ghost state.
    [follows d p Q]: from [d] the program [p] keeps to the discipline, whatever
    the answers, and ends with [Q]. *)

Section Discipline.

Context {D : Type} (permits : forall X, D -> Sec X -> Prop) (next : forall X, D -> Sec X -> X -> D).

Fixpoint follows {A} (d : D) (p : Prog A) (Q : A -> D -> Prop) : Prop :=
  match p with
  | Return a => Q a d
  | Do c k => permits _ d c /\ forall x, follows (next _ d c x) (k x) Q
  end.

Lemma follows_mono {A} (p : Prog A) : forall d (Q Q' : A -> D -> Prop),
  follows d p Q -> (forall a d', Q a d' -> Q' a d') -> follows d p Q'.
Proof.
  induction p as [a|X c k IH]; intros d Q Q' H HQ; cbn in *; [by apply HQ|].
  destruct H as [Hc Hk]. split; [done|]. intros x. by eapply IH.
Qed.

Lemma follows_bind {A B} (p : Prog A) (f : A -> Prog B) : forall d Q,
  follows d p (fun a d' => follows d' (f a) Q) -> follows d (p ≫= f) Q.
Proof.
  induction p as [a|X c k IH]; intros d Q H; [exact H|]. destruct H as [Hc Hk]. split; [exact Hc|].
  intros x. apply IH, Hk.
Qed.

Lemma follows_sec {X} (c : Sec X) d (Q : X -> D -> Prop) :
  permits _ d c -> (forall x, Q x (next _ d c x)) -> follows d (sec c) Q.
Proof. by split. Qed.

End Discipline.

(** ** The discipline of state changes *)

Section Duties.

Context (config : Config).

Abbreviation managed := (ControllerManaged (Config_Server config)).
Abbreviation freezes := (FreezeProcess (Config_Server config)).

Definition observing (c : Cause) : Prop := c = Idle \/ c = SeenUp \/ c = SeenDown.

(** Which state change a cause justifies. *)
Definition may_enter (c : Cause) (from : option State) (new : State) : Prop :=
  match c with
  | Idle => from = Some StateStopped /\ new = StateStarting /\ managed && freezes = false
  | SeenUp => from = None /\ new = StateStarted
  | SeenDown => from = None /\ new = StateStopped
  | Exited => managed = false /\ from = None /\ new = StateStopped
  | Frozen => (from = Some StateStarting \/ from = Some StateStarted) /\ new = StateStopped
  | Asked => (from = None \/ from = Some StateStarting \/ from = Some StateStarted) /\ new = StateStopping
  | Resumed => (from = Some StateStopping \/ from = Some StateStopped) /\ new = StateStarting
  | Expired => managed = true /\ from = Some StateStarting /\ new = StateStopped
  | Granted | Slot _ => False
  end.

Definition permits_at (c : Cause) {X} (sec : Sec X) : Prop :=
  match sec with
  | Swap from new => may_enter c from new
  | Broadcast _ | SetKillAt _ => False
  | SendSignal p sig =>
      managed = false /\ p <> 0 /\
      match sig with
      | SIGSTOP => freezes = true /\ observing c
      | SIGCONT => freezes = true /\ c = Granted
      | SIGTERM => observing c
      | SIGKILL => c = Expired
      end
  | RconStop => managed = false /\ Rcon_Enabled (Config_Rcon config) = true /\ observing c
  | HelperBegin => managed = true /\ c = Granted
  | Go g => (managed = true /\ c = Slot g) \/ (managed = false /\ c = Granted /\ g = 0)
  | Poll | WaitChild => c = Idle
  | _ => True
  end.

Definition permits (X : Type) (d : Duty) (sec : Sec X) : Prop :=
  match d with
  | At c => permits_at c sec
  | Announce new c => match sec with Broadcast new' => new' = new | _ => False end
  | Arm new c =>
      match sec with
      | Clock => True
      | SetKillAt v => v = None /\ forall t, due_at config t new = None
      | _ => False
      end
  | ArmAt new v c => match sec with SetKillAt v' => v' = v | _ => False end
  end.

Definition dutiful {A} (d : Duty) (p : Prog A) (Q : A -> Duty -> Prop) : Prop :=
  follows permits (fun X d sec => next_duty config d sec) d p Q.

(** A goroutine ends with nothing left to do. *)
Definition at_rest (d : Duty) : Prop := exists c, d = At c /\ forall g, c <> Slot g.

Lemma dutiful_bind {A B} (p : Prog A) (f : A -> Prog B) d Q :
  dutiful d p (fun a d' => dutiful d' (f a) Q) -> dutiful d (p ≫= f) Q.
Proof. apply follows_bind. Qed.

Lemma dutiful_sec {X} (c : Sec X) d (Q : X -> Duty -> Prop) :
  permits _ d c -> (forall x, Q x (next_duty config d c x)) -> dutiful d (sec c) Q.
Proof. exact (follows_sec permits (fun X d sec => next_duty config d sec) c d Q). Qed.

Lemma dutiful_ret {A} (a : A) d (Q : A -> Duty -> Prop) : Q a d -> dutiful d (mret a) Q.
Proof. done. Qed.

Lemma dutiful_mono {A} (p : Prog A) d (Q Q' : A -> Duty -> Prop) :
  dutiful d p Q -> (forall a d', Q a d' -> Q' a d') -> dutiful d p Q'.
Proof. apply follows_mono. Qed.

(** A state change: announced, its deadline armed. *)
Lemma update_dutiful c from new (Q : bool -> Duty -> Prop) :
  may_enter c from new -> Q true (At (entered c)) -> Q false (At (spent c)) ->
  dutiful (At c) (updateStateFrom_p config from new) Q.
Proof.
  intros He Ht Hf. unfold updateStateFrom_p. apply dutiful_bind, dutiful_sec; [exact He|].
  intros x. cbn [next_duty]. destruct x; [|exact Hf]. apply dutiful_bind, dutiful_sec; [done|]. intros x.
  apply dutiful_bind. cbn [next_duty].
  apply (dutiful_mono _ _ (fun _ d => d = At (entered c))).
  - unfold killAt_p. destruct new; try (by apply dutiful_sec);
      (case_match eqn:E; [apply dutiful_bind, dutiful_sec; [done|]; intros t|]; apply dutiful_sec; try done; cbn; try by rewrite E).
  - intros _ d ->. apply dutiful_bind. unfold started_p, keepOnlineFor_p, updateLastActive_p.
    case_decide; [|done]. case_match; cbn; auto.
Qed.

(** Splits a program into its sections and state changes. *)
Ltac dutifully :=
  repeat first
    [ done
    | progress cbn [next_duty next_cause entered spent]
    | apply update_dutiful; [cbn; by auto| |]
    | apply dutiful_ret
    | apply dutiful_bind
    | apply dutiful_sec; [cbn; by auto|intros ?]
    | case_match | case_decide ].

Lemma unfreeze_dutiful (Q : bool -> Duty -> Prop) :
  freezes = true -> Q true (At Resumed) -> Q false (At Granted) ->
  dutiful (At Granted) (unfreezeServerSignal_p config) Q.
Proof.
  intros Hf Ht Hn. unfold unfreezeServerSignal_p. destruct managed eqn:Em; [done|].
  apply dutiful_bind, dutiful_sec; [done|]. intros p. destruct (Z.eqb_spec p 0); [done|]. dutifully.
Qed.

Lemma freeze_dutiful c (Q : bool -> Duty -> Prop) :
  managed = false -> freezes = true -> observing c -> Q true (At Frozen) -> Q false (At c) ->
  dutiful (At c) (freezeServerSignal_p config) Q.
Proof.
  intros Hm Hf Hc Ht Hn. unfold freezeServerSignal_p.
  apply dutiful_bind, dutiful_sec; [done|]. intros p. destruct (Z.eqb_spec p 0); [done|]. dutifully.
Qed.

Lemma stopSignal_dutiful c (Q : bool -> Duty -> Prop) :
  managed = false -> observing c -> Q true (At Asked) -> Q false (At c) ->
  dutiful (At c) (stopServerSignal_p config) Q.
Proof.
  intros Hm Hc Ht Hn. unfold stopServerSignal_p.
  apply dutiful_bind, dutiful_sec; [done|]. intros p. destruct (Z.eqb_spec p 0); [done|].
  apply dutiful_bind, dutiful_sec; [done|]. intros ok. cbn [next_duty next_cause]. destruct ok; [|done]. dutifully.
Qed.

Lemma stopRcon_dutiful c (Q : bool -> Duty -> Prop) :
  managed = false -> observing c -> Q true (At Asked) -> Q false (At c) ->
  dutiful (At c) (stopServerRcon_p config) Q.
Proof.
  intros Hm Hc Ht Hn. unfold stopServerRcon_p, updateState_p. destruct (Rcon_Enabled (Config_Rcon config)) eqn:Er; [|done].
  cbn [negb]. apply dutiful_bind, dutiful_sec; [done|]. intros cooled. destruct cooled; [|done].
  apply dutiful_bind, dutiful_sec; [done|]. intros conn. destruct conn; [|done].
  apply dutiful_bind, dutiful_sec; [done|]. intros ok. cbn [next_duty next_cause]. destruct ok; [|done]. dutifully.
Qed.

Lemma Start_dutiful : dutiful (At Idle) (Start_p config) (fun _ => at_rest).
Proof.
  unfold Start_p. destruct (managed && freezes) eqn:Emf; [by exists Idle|].
  apply dutiful_bind, update_dutiful; [done| |by exists Idle]. cbn [negb entered].
  assert (forall Q, Q true (At Resumed) -> Q false (At Granted) ->
    dutiful (At Granted) (if freezes then unfreezeServerSignal_p config else mret false) Q) as Hu.
  { intros Q Ht Hf. destruct freezes eqn:Ef; [by apply unfreeze_dutiful|done]. }
  apply dutiful_bind, Hu; [by exists Resumed|].
  destruct managed eqn:Em.
  - apply dutiful_bind, dutiful_sec; [done|]. intros [g []]; cbn [next_duty next_cause fst snd].
    + apply dutiful_bind, dutiful_sec; [by left|]. intros x. by exists Idle.
    + by exists Idle.
  - apply dutiful_bind, dutiful_sec; [by right|]. intros x. by exists Idle.
Qed.

Lemma Stop_dutiful c :
  observing c -> dutiful (At c) (Stop_p config) (fun _ d => d = At c \/ d = At Frozen \/ d = At Asked).
Proof.
  intros Hc. unfold Stop_p. destruct managed eqn:Em; [by left|].
  apply dutiful_bind.
  assert (forall Q, Q true (At Frozen) -> Q false (At c) ->
    dutiful (At c) (if freezes then freezeServerSignal_p config else mret false) Q) as Hz.
  { intros Q Ht Hf. destruct freezes eqn:Ef; [by apply freeze_dutiful|done]. }
  apply Hz; [by right; left|]. apply dutiful_bind, dutiful_sec; [done|]. intros cur. cbn [next_duty next_cause].
  apply dutiful_bind.
  assert (forall Q, Q true (At Asked) -> Q false (At c) ->
    dutiful (At c) (if decide (cur = StateStarted) then stopServerRcon_p config else mret false) Q) as Hr.
  { intros Q Ht Hf. case_decide; [by apply stopRcon_dutiful|done]. }
  apply Hr; [by right; right|]. apply stopSignal_dutiful; auto.
Qed.

(** What a poll result that is not the ping fallback shows. *)
Definition shown (st : option ServerStatus) : Cause := match st with Some _ => SeenUp | None => SeenDown end.

Lemma UpdateStatus_dutiful (st : option ServerStatus) :
  dutiful (At (shown st)) (UpdateStatus_p config st) (fun _ d => d = At (shown st) \/ d = At Idle).
Proof.
  unfold UpdateStatus_p, switch_p, updateState_p, updateLastActive_p. apply dutiful_bind.
  apply (dutiful_mono _ _ (fun (_ : bool) d => d = At (shown st) \/ d = At Idle)).
  - apply dutiful_bind, dutiful_sec; [done|]. intros s1. cbn [next_duty next_cause].
    apply dutiful_bind, (dutiful_mono _ _ (fun (_ : bool) d => d = At (shown st))).
    { case_decide; [done|]. by apply dutiful_bind, dutiful_sec. }
    intros down d ->. destruct (down && _) eqn:Ed.
    + apply andb_prop in Ed as [_ Ed%bool_decide_eq_true]. destruct st as [v|]; [|done].
      apply update_dutiful; [done|by right..].
    + apply dutiful_bind, dutiful_sec; [done|]. intros s3. cbn [next_duty next_cause].
      destruct (bool_decide (s3 = StateStarted) && _) eqn:Ee; [|apply dutiful_ret; by left]. apply andb_prop in Ee as [_ Ee%bool_decide_eq_true]. subst st.
      apply update_dutiful; [done|by right..].
  - intros _ d Hd. destruct st as [v|]; [|done]. destruct Hd as [-> | ->]; dutifully; auto.
Qed.

Lemma ShouldSleep_dutiful c : dutiful (At c) (ShouldSleep_p config) (fun _ d => d = At c).
Proof. unfold ShouldSleep_p. dutifully. Qed.

(** The end of a round. *)
Lemma kill_dutiful c :
  (forall g, c <> Slot g) ->
  dutiful (At c)
    (kill ← sec Overdue;
     if kill : bool then
       if managed then _ ← Expire_p config; mret tt else _ ← ForceKill_p config; mret tt
     else mret tt) (fun _ => at_rest).
Proof.
  intros Hc. apply dutiful_bind, dutiful_sec; [done|]. intros kill. cbn [next_duty next_cause].
  destruct kill; [|by exists c]. unfold Expire_p, ForceKill_p.
  destruct managed eqn:Em; cbn [negb].
  - apply dutiful_bind, dutiful_bind, dutiful_sec; [done|]. intros kill. cbn [next_duty next_cause].
    destruct kill; [|by exists Expired]. apply update_dutiful; [done|by exists Expired..].
  - apply dutiful_bind, dutiful_bind, dutiful_sec; [done|]. intros p. cbn [next_duty next_cause].
    destruct (Z.eqb_spec p 0); [by exists Expired|]. apply dutiful_sec; [done|]. intros x. by exists Expired.
Qed.

Lemma MonitorServer_dutiful : dutiful (At Idle) (MonitorServer_p config) (fun _ => at_rest).
Proof.
  unfold MonitorServer_p. apply dutiful_bind, dutiful_sec; [done|]. intros poll. cbn [next_duty next_cause].
  apply dutiful_bind, (dutiful_mono _ _ (fun (_ : unit) d => exists c, d = At c /\ observing c)).
  { unfold observing. destruct poll as [[[v|] []] fb]; cbn [saw].
    - eapply dutiful_mono; [apply (UpdateStatus_dutiful (Some v))|]. intros _ d [-> | ->]; eauto.
    - eapply dutiful_mono; [apply (UpdateStatus_dutiful None)|]. intros _ d [-> | ->]; eauto.
    - exists Idle. auto.
    - eapply dutiful_mono; [apply (UpdateStatus_dutiful None)|]. intros _ d [-> | ->]; eauto. }
  intros _ d (c & -> & Hc). apply dutiful_bind.
  eapply dutiful_mono; [apply ShouldSleep_dutiful|]. intros sleep d ->.
  apply dutiful_bind, (dutiful_mono _ _ (fun (_ : bool) d => exists c, d = At c /\ forall g, c <> Slot g)).
  { destruct sleep; [eapply dutiful_mono; [by apply Stop_dutiful|]|].
    - intros _ d [-> | [-> | ->]]; [exists c|exists Frozen|exists Asked]; split; try done. by destruct Hc as [-> | [-> | ->]].
    - exists c. split; [done|]. by destruct Hc as [-> | [-> | ->]]. }
  intros _ d (c' & -> & Hc'). by apply kill_dutiful.
Qed.

Lemma finish_dutiful c g :
  (forall g, c <> Slot g) -> dutiful (At c) (finishControllerHelper_p g) (fun _ => at_rest).
Proof. intros Hc. unfold finishControllerHelper_p. dutifully; by exists c. Qed.

Lemma failed_dutiful g : dutiful (At Idle) (invoke_failed_p config g) (fun _ => at_rest).
Proof. unfold invoke_failed_p. case_match; [by apply finish_dutiful|by exists Idle]. Qed.

Lemma invokeServerCmd_dutiful g : dutiful (At Idle) (invokeServerCmd_p config g) (fun _ => at_rest).
Proof.
  unfold invokeServerCmd_p, updateState_p. destruct (shlexSplit _); [apply failed_dutiful|].
  apply dutiful_bind, dutiful_sec; [done|]. intros child. cbn [next_duty next_cause].
  destruct child as [p|]; [|apply failed_dutiful].
  apply dutiful_bind, dutiful_sec; [done|]. intros x. apply dutiful_bind, dutiful_sec; [done|]. intros w.
  cbn [next_duty next_cause]. destruct managed eqn:Em; [by apply finish_dutiful|].
  apply dutiful_bind, (dutiful_mono _ _ (fun (_ : bool) d => d = At Exited)).
  { destruct w; dutifully. }
  intros crashed d ->. apply dutiful_bind, dutiful_sec; [done|]. intros y. apply dutiful_bind, dutiful_sec; [done|].
  intros z. cbn [next_duty next_cause]. apply dutiful_bind, (dutiful_mono _ _ (fun (_ : bool) d => d = At Idle)).
  { by apply update_dutiful. }
  intros _ d ->. destruct (crashed && _); [|by exists Idle]. apply dutiful_bind.
  eapply dutiful_mono; [apply Start_dutiful|]. by intros.
Qed.

(** Every goroutine keeps to the discipline. *)
Lemma code_dutiful k : dutiful (At Idle) (code_of config k) (fun _ => at_rest).
Proof.
  destruct k; cbn [code_of].
  - apply dutiful_bind. eapply dutiful_mono; [apply Start_dutiful|]. by intros.
  - apply dutiful_bind. eapply dutiful_mono; [apply (Stop_dutiful Idle); by left|].
    intros _ d [-> | [-> | ->]]; by eexists.
  - apply MonitorServer_dutiful.
  - apply invokeServerCmd_dutiful.
Qed.

End Duties.

(** ** What a section does to the phase, the deadline and the channels *)

Definition core (s : ServerState) : State * list (option State) * option Z := (state s, subs s, killAt s).

Section Effects.

Context (config : Config).

Definition thread_ok (th : Thread) : Prop := dutiful config (duty th) (code th) (fun _ => at_rest).

(** The four sections of a state change, and everything else. *)
Inductive effect (t : Z) : Duty -> ServerState -> Duty -> ServerState -> list Event -> Prop :=
| eff_other c c' s s' evs : core s' = core s -> effect t (At c) s (At c') s' evs
| eff_swap c from new s s' :
    may_enter config c from new -> (forall f, from = Some f -> state s = f) -> state s <> new ->
    core s' = (new, subs s, killAt s) -> effect t (At c) s (Announce new (entered c)) s' []
| eff_tell new c s s' :
    core s' = (state s, map (fun _ => Some new) (subs s), killAt s) -> effect t (Announce new c) s (Arm new c) s' []
| eff_clock new c s : effect t (Arm new c) s (ArmAt new (due_at config t new) c) s []
| eff_untimed new c s s' :
    (forall t', due_at config t' new = None) -> core s' = (state s, subs s, None) -> effect t (Arm new c) s (At c) s' []
| eff_arm new v c s s' : core s' = (state s, subs s, v) -> effect t (ArmAt new v c) s (At c) s' [].

Lemma helper_core g s :
  core (final (beginControllerHelper s)) = core s /\ core (final (helper_release g s)) = core s
  /\ core (final (pid_release g s)) = core s.
Proof.
  unfold beginControllerHelper, helper_release, pid_release, gets, modify, mbind, Op_bind, mret, Op_ret, final.
  split_and!; [by destruct (helperActive s)|by destruct (_ || _)|by cbn; destruct (_ =? _)].
Qed.

Lemma swap_cases from new s :
  us_swap from new s = (false, s, [])
  \/ us_swap from new s = (true, set_state new s, []) /\ (forall f, from = Some f -> state s = f) /\ state s <> new.
Proof.
  rewrite us_swap_eq. unfold moves. destruct from as [f|]; cbn [andb].
  - destruct (bool_decide_reflect (state s = f)); cbn [andb]; [|by left].
    destruct (bool_decide_reflect (state s = new)); cbn [negb]; [by left|right]. split_and!; [done|by intros ? [= <-]|done].
  - destruct (bool_decide_reflect (state s = new)); cbn [negb]; [by left|right]. done.
Qed.

Lemma section_effect w {X} (c : Sec X) d s x s' evs :
  permits config X d c -> sec_op w c s = (x, s', evs) ->
  effect (now (ans_env w)) d s (next_duty config d c x) s' evs.
Proof.
  intros Hp Hs. destruct d as [k|new k|new k|new v k].
  - destruct c; cbn [permits permits_at] in Hp; try done; cbn [next_duty];
      try (apply eff_other; injection Hs as <- <- <-; done).
    + cbn [sec_op] in Hs. destruct (swap_cases from new s) as [E|(E & Hf & Hn)]; rewrite E in Hs; injection Hs as <- <- <-.
      * by apply eff_other.
      * by apply (eff_swap _ _ from).
    + apply eff_other. pose proof (helper_core generation s) as (_ & _ & H). cbn [sec_op] in Hs. unfold final in H. by rewrite Hs in H.
    + apply eff_other. pose proof (helper_core 0 s) as (H & _ & _). cbn [sec_op] in Hs. unfold final in H. by rewrite Hs in H.
    + apply eff_other. pose proof (helper_core generation s) as (_ & H & _). cbn [sec_op] in Hs. unfold final in H. by rewrite Hs in H.
  - destruct c; try done. cbn [permits] in Hp. subst. injection Hs as <- <- <-. apply eff_tell.
    unfold core. cbn. f_equal. f_equal. apply map_ext. intros ch. apply send_latest_new.
  - destruct c; try done; injection Hs as <- <- <-; [apply eff_clock|]. destruct Hp as [-> Hd]. by apply eff_untimed.
  - destruct c; try done; injection Hs as <- <- <-. cbn [permits] in Hp. subst. by apply eff_arm.
Qed.

End Effects.

(** ** Steps of dutiful systems *)

Section Reach.

Context (config : Config).

Lemma new_thread_ok k : thread_ok config (new_thread config k).
Proof. apply code_dutiful. Qed.

Lemma started_ok evs : Forall (thread_ok config) (started config evs).
Proof.
  induction evs as [|e evs IH]; [constructor|]. destruct e; try done. by constructor; [apply new_thread_ok|].
Qed.

Lemma run_effect i w sys sys' :
  Forall (thread_ok config) (threads sys) -> do_act config (ARun i w) sys = Some sys' ->
  exists th th' s evs, threads sys !! i = Some th /\ thread_ok config th'
    /\ effect config (now (ans_env w)) (duty th) (srv sys) (duty th') s evs
    /\ sys' = mkSystem s (<[i := th']> (threads sys) ++ started config evs) (log sys ++ evs) (now (ans_env w)).
Proof.
  intros Hok H. apply do_run in H as (th & X & c & k & x & s & evs & _ & Ht & Ec & Es & ->).
  pose proof (Forall_lookup_1 _ _ _ _ Hok Ht) as Hth. unfold thread_ok, dutiful in Hth. rewrite Ec in Hth.
  destruct Hth as [Hp Hk]. eexists th, _, s, evs. split_and!; [done| | |reflexivity].
  - exact (Hk x).
  - by apply section_effect.
Qed.

Lemma do_act_ok a sys sys' :
  Forall (thread_ok config) (threads sys) -> do_act config a sys = Some sys' -> Forall (thread_ok config) (threads sys').
Proof.
  intros Hok H. destruct a as [k|i w| |i|u].
  - cbn in H. destruct (can_begin k sys); [|done]. injection H as <-. cbn.
    apply Forall_app. split; [done|]. apply Forall_singleton, new_thread_ok.
  - destruct (run_effect i w sys sys' Hok H) as (th & th' & s & evs & _ & Hth & _ & ->). cbn.
    apply Forall_app. split; [by apply Forall_insert|apply started_ok].
  - by injection H as <-.
  - by injection H as <-.
  - by injection H as <-.
Qed.

Lemma reachable_ok t0 sys : reachable config t0 sys -> Forall (thread_ok config) (threads sys).
Proof. induction 1 as [|a sys sys' _ IH H]; [constructor|by eapply do_act_ok]. Qed.

End Reach.

(** ** Changes that do not overlap *)

Definition changing (d : Duty) : bool := match d with At _ => false | _ => true end.

(** The state changes that are in progress. *)
Definition changes (l : list Thread) : list Duty := List.filter changing (map duty l).

Lemma changes_app l1 l2 : changes (l1 ++ l2) = changes l1 ++ changes l2.
Proof. unfold changes. by rewrite map_app, List.filter_app. Qed.

Lemma changes_started config evs : changes (started config evs) = [].
Proof.
  unfold changes, started. induction evs as [|e evs IH]; [done|]. by destruct e.
Qed.

Lemma changes_insert i th th' l :
  l !! i = Some th ->
  exists p q, changes l = p ++ changes [th] ++ q /\ changes (<[i := th']> l) = p ++ changes [th'] ++ q.
Proof.
  intros Ht. exists (changes (take i l)), (changes (drop (S i) l)).
  rewrite <- !changes_app. split.
  - by rewrite <- (take_drop_middle l i th Ht) at 1.
  - by rewrite insert_take_drop by (by eapply lookup_lt_Some).
Qed.

Section Calm.

Context (config : Config).

(** Runs in which at most one state change is in progress at any time: the
    sections between the swap of the state and the arming of the deadline of
    one change do not interleave with those of another. Everything else does. *)
Inductive calm (t0 : Z) : System -> Prop :=
| calm_init : calm t0 (init t0)
| calm_act a sys sys' :
    calm t0 sys -> do_act config a sys = Some sys' -> (length (changes (threads sys')) <= 1)%nat -> calm t0 sys'.

Lemma calm_reachable t0 sys : calm t0 sys -> reachable config t0 sys.
Proof. induction 1 as [|a sys sys' _ IH H _]; [constructor|by eapply reach_act]. Qed.

(** How far the change in progress, if any, has come. *)
Definition settled (pending : list Duty) (s : ServerState) : Prop :=
  match pending with
  | [] => timers_ok config s /\ subs_ok s
  | [Announce new _] => state s = new
  | [Arm new _] => state s = new /\ subs_ok s
  | [ArmAt new v _] => state s = new /\ subs_ok s /\ exists t, v = due_at config t new
  | _ => False
  end.

Lemma settled_one p d q s : settled (p ++ d :: q) s -> p = [] /\ q = [].
Proof.
  destruct p as [|d1 [|d2 p]]; cbn; [|by destruct d1..]. by destruct d, q.
Qed.

Lemma settled_frame pending s s' :
  state s' = state s -> killAt s' = killAt s -> (subs_ok s -> subs_ok s') -> settled pending s -> settled pending s'.
Proof.
  intros E1 E2 E3. unfold settled, timers_ok. rewrite E1, E2.
  destruct pending as [|[] []]; cbn; tauto.
Qed.

Lemma core_eq s st ch t : core s = (st, ch, t) -> state s = st /\ subs s = ch /\ killAt s = t.
Proof. unfold core. by intros [= -> -> ->]. Qed.

Lemma subs_frame s s' : state s' = state s -> subs s' = subs s -> subs_ok s -> subs_ok s'.
Proof. intros E1 E2. unfold subs_ok. by rewrite E1, E2. Qed.

Lemma due_timers t s : killAt s = due_at config t (state s) -> timers_ok config s.
Proof.
  intros H. apply (deadline_ok (mkEnv t (fun _ _ => true) true true) (state s)); [done|]. rewrite H. by destruct (state s).
Qed.

(** One section: [p] and [q] are the changes of the other goroutines. *)
Lemma settled_effect t d s d' s' evs p q :
  effect config t d s d' s' evs ->
  (length (p ++ List.filter changing [d'] ++ q) <= 1)%nat ->
  settled (p ++ List.filter changing [d] ++ q) s -> settled (p ++ List.filter changing [d'] ++ q) s'.
Proof.
  intros He Hlen Hs.
  destruct He as [c c' s s' evs Hc|c from new s s' _ _ _ Hc|new c s s' Hc|new c s|new c s s' Hd Hc|new v c s s' Hc];
    cbn [List.filter changing app] in *; try apply core_eq in Hc as (E1 & E2 & E3).
  - apply (settled_frame _ s); try done. by apply subs_frame.
  - rewrite length_app in Hlen. cbn in Hlen. destruct p, q; cbn in Hlen; try lia. done.
  - destruct (settled_one _ _ _ _ Hs) as [-> ->]. cbn in *. split; [congruence|].
    unfold subs_ok. rewrite E1, E2, Hs. apply Forall_map, Forall_forall. auto.
  - destruct (settled_one _ _ _ _ Hs) as [-> ->]. cbn in *. split_and!; [apply Hs..|by eexists].
  - destruct (settled_one _ _ _ _ Hs) as [-> ->]. cbn in *. destruct Hs as [Hst Hsub].
    split; [|by apply (subs_frame s)]. apply (due_timers 0). by rewrite E3, E1, Hst, Hd.
  - destruct (settled_one _ _ _ _ Hs) as [-> ->]. cbn in *. destruct Hs as (Hst & Hsub & t' & Hv).
    split; [|by apply (subs_frame s)]. apply (due_timers t'). by rewrite E3, E1, Hst, Hv.
Qed.

Lemma update_frame u s :
  core (final (update_op u s)) = core s.
Proof. destruct u as [[v|]| | | | |]; try done. unfold final. cbn. by destruct (status s). Qed.

Lemma settled_act a sys sys' :
  Forall (thread_ok config) (threads sys) -> do_act config a sys = Some sys' ->
  (length (changes (threads sys')) <= 1)%nat ->
  settled (changes (threads sys)) (srv sys) -> settled (changes (threads sys')) (srv sys').
Proof.
  intros Hok H Hlen Hs. destruct a as [k|i w| |i|u].
  - cbn in H. destruct (can_begin k sys); [|done]. injection H as <-. cbn [threads srv] in *. rewrite changes_app.
    assert (changes [new_thread config k] = []) as -> by done. by rewrite app_nil_r.
  - destruct (run_effect config i w sys sys' Hok H) as (th & th' & s & evs & Ht & _ & He & ->). cbn [threads srv] in *.
    destruct (changes_insert i th th' _ Ht) as (p & q & El & El').
    rewrite changes_app, changes_started, app_nil_r, El' in Hlen |- *. rewrite El in Hs.
    by eapply settled_effect.
  - injection H as <-. apply (settled_frame _ (srv sys)); try done. cbn. unfold subs_ok. cbn.
    intros Hsub. apply Forall_app. split; [done|]. apply Forall_singleton. by right.
  - injection H as <-. apply (settled_frame _ (srv sys)); try done. cbn. unfold subs_ok. cbn.
    intros Hsub. apply Forall_insert; [done|]. by left.
  - injection H as <-. pose proof (update_frame u (srv sys)) as Hc. apply core_eq in Hc as (E1 & E2 & E3).
    apply (settled_frame _ (srv sys)); try done. by apply subs_frame.
Qed.

Lemma calm_settled t0 sys : calm t0 sys -> settled (changes (threads sys)) (srv sys).
Proof.
  induction 1 as [|a sys sys' Hc IH H Hlen]; [split; [done|constructor]|].
  eapply settled_act; try done. by eapply reachable_ok, calm_reachable.
Qed.

(** C7: the shared state is consistent between state changes. In every run in
    which the sections of two state changes do not overlap (all other sections
    of all goroutines interleave freely), whenever no change is in progress a
    start or stop deadline is armed exactly while the server is starting or
    stopping (and a timeout is configured), and every subscriber's channel is
    empty or holds the current state. *)
Theorem lifecycle_consistent (t0 : Z) (sys : System) :
  calm t0 sys -> changes (threads sys) = [] -> timers_ok config (srv sys) /\ subs_ok (srv sys).
Proof. intros Hc He. pose proof (calm_settled t0 sys Hc) as Hs. by rewrite He in Hs. Qed.

End Calm.

(** ** Controller-managed configurations *)

Definition only_spawn (e : Event) : Prop := exists g, e = EvSpawn g.

Section ControllerManaged.

Context (config : Config).
Hypothesis managed : ControllerManaged (Config_Server config) = true.

Lemma managed_section w {X} (c : Sec X) d s x s' evs :
  permits config X d c -> sec_op w c s = (x, s', evs) -> Forall only_spawn evs.
Proof.
  intros Hp Hs. destruct d as [k|new k|new k|new v k]; [|by destruct c; try done; injection Hs as <- <- <-..].
  destruct c; cbn [permits permits_at] in Hp; rewrite ?managed in Hp; try (by injection Hs as <- <- <-);
    try (by destruct Hp); cbn [sec_op] in Hs.
  - destruct (swap_cases from new s) as [E|(E & _)]; rewrite E in Hs; by injection Hs as <- <- <-.
  - unfold beginControllerHelper, gets, modify, mbind, Op_bind in Hs. destruct (helperActive s); by injection Hs as <- <- <-.
  - unfold helper_release, gets, modify, mbind, Op_bind in Hs. destruct (_ || _); by injection Hs as <- <- <-.
  - injection Hs as <- <- <-. apply Forall_singleton. by eexists.
Qed.

(** C4: a controller-managed gateway never touches the backend. Whatever the
    clients, the monitor, the signal handler and the helper processes do, and
    however their critical sections interleave, the only thing the gateway ever
    does to the outside is to launch its controller helper: no signal of any
    kind is sent and no RCON stop command issued. *)
Theorem controller_managed_hands_off (t0 : Z) (sys : System) :
  reachable config t0 sys -> Forall only_spawn (log sys).
Proof.
  induction 1 as [|a sys sys' Hr IH H]; [constructor|]. pose proof (reachable_ok config t0 sys Hr) as Hok.
  destruct a as [k|i w| |i|u]; try (by injection H as <-).
  - cbn in H. destruct (can_begin k sys); [|done]. by injection H as <-.
  - apply do_run in H as (th & X & c & k & x & s & evs & _ & Ht & Ec & Es & ->). cbn [log].
    apply Forall_app. split; [done|]. pose proof (Forall_lookup_1 _ _ _ _ Hok Ht) as Hth.
    unfold thread_ok, dutiful in Hth. rewrite Ec in Hth. destruct Hth as [Hp _]. by eapply managed_section.
Qed.

(** C21: a controller-managed start that never becomes ready is closed. In a
    run whose state changes do not overlap, while the server is starting under
    a start timeout and no change is in progress there is a deadline; and from
    such a state the first monitor round after that deadline whose poll fails,
    if nothing interferes with it, puts the server back to stopped, tells every
    subscriber so and disarms the deadline, after which a client's start is
    granted again. *)
Theorem managed_start_expires (t0 : Z) (sys : System) :
  calm config t0 sys -> changes (threads sys) = [] ->
  state (srv sys) = StateStarting -> 0 < StartTimeout (Config_Server config) ->
  exists t, killAt (srv sys) = Some t /\
    forall w fallback, t <= now (ans_env w) -> ans_poll w = (None, false, fallback) ->
      let s' := final (alone w (MonitorServer_p config) (srv sys)) in
      state s' = StateStopped /\ killAt s' = None /\ Forall (fun ch => ch = Some StateStopped) (subs s')
      /\ (FreezeProcess (Config_Server config) = false -> result (alone w (Start_p config) s') = true).
Proof.
  intros Hc He Hst Hto. pose proof (calm_settled config t0 sys Hc) as Hs. rewrite He in Hs. destruct Hs as [Ht _].
  unfold timers_ok in Ht. rewrite Hst in Ht.
  destruct (killAt (srv sys)) as [t|] eqn:Ek; [|destruct Ht as [Ht _]; specialize (Ht eq_refl); lia].
  exists t. split; [done|]. intros w fallback Hnow Hp. cbv zeta. rewrite MonitorServer_alone, Hp.
  rewrite (expired_round config (ans_env w) fallback (srv sys) t) by done.
  destruct (enter_fields (ans_env w) StateStopped config (srv sys)) as (E1 & E2 & E3 & _).
  split_and!; [done|done| |].
  - rewrite E3. apply Forall_map, Forall_forall. auto.
  - intros Hf. rewrite Start_alone, managed_Start_eq, Hf, decide_True by done. cbv zeta. by destruct (helperActive _).
Qed.

End ControllerManaged.

(** ** The controller helper is single-flight *)

Definition stage_permits (X : Type) (st : Stage) (c : Sec X) : Prop :=
  match c with
  | HelperBegin => st = NoHelper
  | Go g => st = Launching g
  | StartCommand => exists g, st = Begun g
  | SetPid p g => st = Child g p
  | HelperRelease g => st = Begun g \/ exists p, st = Running g p
  | PidRelease g => st = Finishing g
  | ClearPid => False
  | _ => True
  end.

Definition staged {A} (st : Stage) (p : Prog A) (Q : A -> Stage -> Prop) : Prop :=
  follows stage_permits (fun X st sec => next_stage st sec) st p Q.

Lemma staged_bind {A B} (p : Prog A) (f : A -> Prog B) st Q :
  staged st p (fun a st' => staged st' (f a) Q) -> staged st (p ≫= f) Q.
Proof. apply follows_bind. Qed.

Lemma staged_sec {X} (c : Sec X) st (Q : X -> Stage -> Prop) :
  stage_permits _ st c -> (forall x, Q x (next_stage st c x)) -> staged st (sec c) Q.
Proof. exact (follows_sec stage_permits (fun X st sec => next_stage st sec) c st Q). Qed.

Lemma staged_ret {A} (a : A) st (Q : A -> Stage -> Prop) : Q a st -> staged st (mret a) Q.
Proof. done. Qed.

Lemma staged_mono {A} (p : Prog A) st (Q Q' : A -> Stage -> Prop) :
  staged st p Q -> (forall a st', Q a st' -> Q' a st') -> staged st p Q'.
Proof. apply follows_mono. Qed.

Section Stages.

Context (config : Config).
Hypothesis managed : ControllerManaged (Config_Server config) = true.

Lemma update_staged st from new (Q : bool -> Stage -> Prop) :
  (forall b, Q b st) -> staged st (updateStateFrom_p config from new) Q.
Proof.
  intros HQ. unfold updateStateFrom_p, killAt_p, started_p, updateLastActive_p, keepOnlineFor_p.
  apply staged_bind, staged_sec; [done|]. intros changed. cbn [next_stage]. destruct changed; [|apply HQ].
  apply staged_bind, staged_sec; [done|]. intros x. cbn [next_stage].
  destruct new; repeat first [apply staged_ret; apply HQ | apply staged_ret; done | apply staged_bind | apply staged_sec; [done|intros ?; cbn [next_stage]]
    | case_decide; try done | case_match].
Qed.

Ltac stagely :=
  repeat first
    [ done
    | progress cbn [next_stage]
    | apply update_staged; intros ?
    | apply staged_ret
    | apply staged_bind
    | apply staged_sec; [done|intros ?]
    | case_match | case_decide ].

Lemma Start_staged : staged NoHelper (Start_p config) (fun _ st => st = NoHelper).
Proof.
  unfold Start_p, unfreezeServerSignal_p. rewrite managed. cbn [andb].
  destruct (FreezeProcess _); [done|]. apply staged_bind, update_staged. intros []; [|done]. cbn [negb].
  apply staged_bind, staged_ret, staged_bind, staged_sec; [done|]. intros [g []]; cbn [next_stage fst snd]; [|done].
  by apply staged_bind, staged_sec.
Qed.

Lemma Stop_staged : staged NoHelper (Stop_p config) (fun _ st => st = NoHelper).
Proof. unfold Stop_p. by rewrite managed. Qed.

Lemma MonitorServer_staged : staged NoHelper (MonitorServer_p config) (fun _ st => st = NoHelper).
Proof.
  unfold MonitorServer_p, ShouldSleep_p, Expire_p. rewrite managed.
  apply staged_bind, staged_sec; [done|]. intros poll. cbn [next_stage].
  apply staged_bind, (staged_mono _ _ (fun (_ : unit) st => st = NoHelper)).
  { assert (forall st, staged NoHelper (UpdateStatus_p config st) (fun _ st => st = NoHelper)) as Hu.
    { intros st. unfold UpdateStatus_p, switch_p, updateState_p, updateLastActive_p. stagely. }
    destruct poll as [[[v|] []] fb]; try done; apply Hu. }
  intros _ st ->. stagely.
Qed.

Lemma invokeServerCmd_staged g : staged (Begun g) (invokeServerCmd_p config g) (fun _ st => st = NoHelper).
Proof.
  assert (forall st, st = Begun g \/ (exists p, st = Running g p) ->
    staged st (finishControllerHelper_p g) (fun _ st => st = NoHelper)) as Hf.
  { intros st Hst. unfold finishControllerHelper_p. apply staged_bind, staged_sec; [done|]. intros released.
    cbn [next_stage]. destruct released; [|done]. by apply staged_sec. }
  unfold invokeServerCmd_p, invoke_failed_p. rewrite managed. destruct (shlexSplit _); [apply Hf; by left|].
  apply staged_bind, staged_sec; [by exists g|]. intros child. cbn [next_stage]. destruct child as [p|]; [|apply Hf; by left].
  apply staged_bind, staged_sec; [done|]. intros x. apply staged_bind, staged_sec; [done|]. intros w. cbn [next_stage].
  apply Hf. right. by exists p.
Qed.

Lemma code_staged k : staged (stage (new_thread config k)) (code_of config k) (fun _ st => st = NoHelper).
Proof.
  destruct k; cbn.
  - apply staged_bind. eapply staged_mono; [apply Start_staged|]. by intros.
  - apply staged_bind. eapply staged_mono; [apply Stop_staged|]. by intros.
  - apply MonitorServer_staged.
  - apply invokeServerCmd_staged.
Qed.

End Stages.

(** The generation of the helper slot a goroutine holds. *)
Definition holder (st : Stage) : option Z :=
  match st with
  | Launching g | Begun g | Child g _ | Running g _ => Some g
  | NoHelper | Finishing _ => None
  end.

Definition is_launching (st : Stage) : option unit := match st with Launching _ => Some tt | _ => None end.

(** How many helpers were ever launched. *)
Definition launches (l : list Event) : Z :=
  Zlen (omap (fun e => match e with EvSpawn g => Some g | _ => None end) l).

Lemma launches_app l1 l2 : launches (l1 ++ l2) = launches l1 + launches l2.
Proof. unfold launches, Zlen. rewrite omap_app, length_app. lia. Qed.

Lemma omap_insert {A B} (f : A -> option B) i x x' l :
  l !! i = Some x ->
  exists p q, omap f l = p ++ option_list (f x) ++ q /\ omap f (<[i := x']> l) = p ++ option_list (f x') ++ q.
Proof.
  intros Hx. exists (omap f (take i l)), (omap f (drop (S i) l)).
  assert (forall y, omap f (take i l) ++ option_list (f y) ++ omap f (drop (S i) l) = omap f (take i l ++ y :: drop (S i) l)) as Hy.
  { intros y. rewrite omap_app. cbn. by destruct (f y). }
  rewrite !Hy, (take_drop_middle l i x Hx). split; [done|].
  by rewrite insert_take_drop by (by eapply lookup_lt_Some).
Qed.

Lemma omap_unique {A B} (f : A -> option B) l : forall i j x y,
  (length (omap f l) <= 1)%nat -> l !! i = Some x -> l !! j = Some y -> f x <> None -> f y <> None -> i = j.
Proof.
  induction l as [|a l IH]; intros i j x y Hlen Hi Hj Hx Hy; [done|].
  assert (forall k z, l !! k = Some z -> f z <> None -> (0 < length (omap f l))%nat) as Hpos.
  { intros k z Hz Hfz. destruct (omap_insert f k z z l Hz) as (p & q & -> & _). destruct (f z); [|done].
    rewrite !length_app. cbn. lia. }
  cbn in Hlen. destruct i as [|i], j as [|j]; cbn in Hi, Hj; simplify_eq; try done.
  - exfalso. pose proof (Hpos _ _ Hj Hy). destruct (f x); [|done]. cbn in Hlen. lia.
  - exfalso. pose proof (Hpos _ _ Hi Hx). destruct (f y); [|done]. cbn in Hlen. lia.
  - f_equal. eapply IH; try done. destruct (f a); cbn in Hlen; lia.
Qed.

Record slot_inv (l : list Stage) (s : ServerState) (n : Z) : Prop := mkSlotInv {
  si_holder : omap holder l = (if helperActive s then [helperGeneration s] else []);
  si_count : helperGeneration s = n + Zlen (omap is_launching l);
  si_pos : helperActive s = true -> 0 < helperGeneration s;
  si_finishing i g : l !! i = Some (Finishing g) ->
    0 < g <= helperGeneration s /\ (helperActive s = true -> g < helperGeneration s);
  si_child i g p : l !! i = Some (Child g p) -> 0 < p;
  si_running i g p : l !! i = Some (Running g p) -> 0 < p /\ pid s = p /\ pidGeneration s = g;
  si_pid : (pid s = 0 /\ pidGeneration s = 0)
    \/ exists i, (exists p, l !! i = Some (Running (pidGeneration s) p)) \/ l !! i = Some (Finishing (pidGeneration s)) }.

Section SlotInv.

Context (l : list Stage) (s : ServerState) (n : Z) (Hinv : slot_inv l s n).

(** The goroutine that holds the slot is the only one. *)
Lemma holder_current i st g : l !! i = Some st -> holder st = Some g -> helperActive s = true /\ g = helperGeneration s.
Proof.
  intros Hi Hg. destruct (omap_insert holder i st st l Hi) as (p & q & E & _). rewrite (si_holder _ _ _ Hinv), Hg in E.
  destruct (helperActive s); [|by destruct p]. split; [done|]. destruct p as [|? [|? ?]]; by simplify_list_eq.
Qed.

Lemma holder_unique i j st st' : l !! i = Some st -> l !! j = Some st' -> holder st <> None -> holder st' <> None -> i = j.
Proof.
  apply omap_unique. rewrite (si_holder _ _ _ Hinv). destruct (helperActive s); cbn; lia.
Qed.

(** Replacing the holder, or a goroutine that holds nothing. *)
Lemma holders_replaced i st st' g :
  l !! i = Some st -> holder st = Some g -> omap holder (<[i := st']> l) = option_list (holder st').
Proof.
  intros Hi Hg. destruct (omap_insert holder i st st' l Hi) as (p & q & E & ->). rewrite (si_holder _ _ _ Hinv), Hg in E.
  destruct (helperActive s); [|by destruct p]. destruct p as [|? [|? ?]]; simplify_list_eq. by rewrite ?app_nil_r.
Qed.

Lemma holders_kept i st st' :
  l !! i = Some st -> holder st = None -> helperActive s = false -> omap holder (<[i := st']> l) = option_list (holder st').
Proof.
  intros Hi Hg Ha. destruct (omap_insert holder i st st' l Hi) as (p & q & E & ->).
  rewrite (si_holder _ _ _ Hinv), Hg, Ha in E. destruct p, q; try done. by rewrite ?app_nil_r.
Qed.

Lemma launching_replaced i st st' :
  l !! i = Some st ->
  Zlen (omap is_launching (<[i := st']> l)) + Zlen (option_list (is_launching st))
  = Zlen (omap is_launching l) + Zlen (option_list (is_launching st')).
Proof.
  intros Hi. destruct (omap_insert is_launching i st st' l Hi) as (p & q & -> & ->).
  unfold Zlen. rewrite !length_app. lia.
Qed.

End SlotInv.

Definition helper_fields (s : ServerState) : Z * Z * Z * bool :=
  (pid s, pidGeneration s, helperGeneration s, helperActive s).

Lemma slot_same l s s' n : helper_fields s' = helper_fields s -> slot_inv l s n -> slot_inv l s' n.
Proof.
  unfold helper_fields. intros [= E1 E2 E3 E4] [H1 H2 H3 H4 H5 H6 H7].
  constructor; rewrite ?E1, ?E2, ?E3, ?E4; done.
Qed.

(** A goroutine other than [i], or the one at [i]. *)
Lemma lookup_replaced {A} (l : list A) i j x y :
  <[i := x]> l !! j = Some y -> (j = i /\ y = x) \/ (j <> i /\ l !! j = Some y).
Proof. intros H. apply list_lookup_insert_Some in H as [(-> & -> & _)|[? ?]]; auto. Qed.

Lemma slot_idle l s n : slot_inv l s n -> slot_inv (l ++ [NoHelper]) s n.
Proof.
  intros [H1 H2 H3 H4 H5 H6 H7].
  assert (forall j st, (l ++ [NoHelper]) !! j = Some st -> st = NoHelper \/ l !! j = Some st) as Hl.
  { intros j st [Hj|[_ Hj]]%lookup_app_Some; [by right|]. apply list_lookup_singleton_Some in Hj as [_ <-]. by left. }
  constructor; rewrite ?omap_app; cbn; rewrite ?app_nil_r; try done.
  - intros j g Hj. destruct (Hl _ _ Hj) as [|Hj']; [done|]. by eapply H4.
  - intros j g p Hj. destruct (Hl _ _ Hj) as [|Hj']; [done|]. by eapply H5.
  - intros j g p Hj. destruct (Hl _ _ Hj) as [|Hj']; [done|]. by eapply H6.
  - destruct H7 as [H|[j H]]; [by left|right]. exists j.
    destruct H as [[p H]|H]; [left; exists p|right]; by apply lookup_app_l_Some.
Qed.

Section SlotSteps.

Context (l : list Stage) (s : ServerState) (n : Z) (Hinv : slot_inv l s n) (i : nat).

(** A goroutine that neither is nor becomes part of the pid's record. *)
Definition bystander (st : Stage) : Prop :=
  match st with Running _ _ | Finishing _ => False | _ => True end.

Lemma pid_kept st st' :
  l !! i = Some st -> bystander st -> (pid s = 0 /\ pidGeneration s = 0)
    \/ exists j, (exists p, <[i := st']> l !! j = Some (Running (pidGeneration s) p))
                 \/ <[i := st']> l !! j = Some (Finishing (pidGeneration s)).
Proof.
  intros Hi Hb. destruct (si_pid _ _ _ Hinv) as [H|[j H]]; [by left|right]. exists j.
  assert (i <> j) as Hij by (intros <-; rewrite Hi in H; destruct H as [[p [= ->]]|[= ->]]; done).
  by rewrite list_lookup_insert_ne.
Qed.

Lemma slot_begin :
  l !! i = Some NoHelper -> helperActive s = false -> n + 1 < 2 ^ 64 -> 0 <= n ->
  slot_inv (<[i := Launching (u64 (helperGeneration s + 1))]> l) (set_helper (u64 (helperGeneration s + 1)) true s) n.
Proof.
  intros Hi Ha Hn Hn0. pose proof Hinv as [H1 H2 H3 H4 H5 H6 H7].
  assert (omap is_launching l = []) as El.
  { rewrite Ha in H1. clear - H1. induction l as [|[] l' IH]; try done; by apply IH. }
  assert (helperGeneration s = n) as Eg by (rewrite H2, El; unfold Zlen; cbn; lia).
  assert (u64 (helperGeneration s + 1) = helperGeneration s + 1) as Eu by (apply uintw_id; unfold is_uint; lia).
  rewrite Eu. constructor; cbn.
  - by rewrite (holders_kept l s n Hinv i NoHelper).
  - pose proof (launching_replaced l i NoHelper (Launching (helperGeneration s + 1)) Hi) as El'.
    rewrite El in El'. unfold Zlen in *. cbn in El'. lia.
  - lia.
  - intros j g [[_ [=]]|[_ Hj]]%lookup_replaced. pose proof (H4 _ _ Hj). lia.
  - intros j g p [[_ [=]]|[_ Hj]]%lookup_replaced. by eapply H5.
  - intros j g p [[_ [=]]|[_ Hj]]%lookup_replaced. by eapply H6.
  - by eapply pid_kept.
Qed.

Lemma slot_go g :
  l !! i = Some (Launching g) -> slot_inv (<[i := NoHelper]> l ++ [Begun g]) s (n + 1).
Proof.
  intros Hi. pose proof Hinv as [H1 H2 H3 H4 H5 H6 H7].
  destruct (holder_current l s n Hinv i (Launching g) g Hi eq_refl) as [Ha Hg].
  assert (forall j x, (<[i := NoHelper]> l ++ [Begun g]) !! j = Some x -> bystander x \/ l !! j = Some x) as Hl.
  { intros j x [Hj|[_ Hj]]%lookup_app_Some.
    - apply lookup_replaced in Hj as [[_ ->]|[_ Hj]]; [by left|by right].
    - apply list_lookup_singleton_Some in Hj as [_ <-]. by left. }
  constructor.
  - rewrite omap_app, (holders_replaced l s n Hinv i (Launching g) NoHelper g) by done. cbn. by rewrite Ha, Hg.
  - rewrite omap_app. pose proof (launching_replaced l i (Launching g) NoHelper Hi) as El.
    cbn in El. rewrite app_nil_r, H2. unfold Zlen in *. cbn in *. lia.
  - done.
  - intros j g' Hj. destruct (Hl _ _ Hj) as [Hb|Hb]; [done|]. by eapply H4.
  - intros j g' p [Hj|[_ Hj]]%lookup_app_Some.
    + apply lookup_replaced in Hj as [[_ [=]]|[_ Hj]]. by eapply H5.
    + by apply list_lookup_singleton_Some in Hj as [_ [=]].
  - intros j g' p Hj. destruct (Hl _ _ Hj) as [Hb|Hb]; [done|]. by eapply H6.
  - destruct (pid_kept (Launching g) NoHelper Hi I) as [H|(j & H)]; [by left|right]. exists j.
    destruct H as [[p H]|H]; [left; exists p|right]; by apply lookup_app_l_Some.
Qed.

Lemma slot_child g p :
  l !! i = Some (Begun g) -> 0 < p -> slot_inv (<[i := Child g p]> l) s n.
Proof.
  intros Hi Hp. pose proof Hinv as [H1 H2 H3 H4 H5 H6 H7].
  destruct (holder_current l s n Hinv i (Begun g) g Hi eq_refl) as [Ha Hg].
  constructor.
  - rewrite (holders_replaced l s n Hinv i (Begun g) (Child g p) g) by done. cbn. by rewrite Ha, Hg.
  - pose proof (launching_replaced l i (Begun g) (Child g p) Hi) as El. cbn in El. lia.
  - done.
  - intros j g' [[_ [=]]|[_ Hj]]%lookup_replaced. by eapply H4.
  - intros j g' p' [[_ [= -> ->]]|[_ Hj]]%lookup_replaced; [done|]. by eapply H5.
  - intros j g' p' [[_ [=]]|[_ Hj]]%lookup_replaced. by eapply H6.
  - by eapply pid_kept.
Qed.

Lemma slot_running g p :
  l !! i = Some (Child g p) -> slot_inv (<[i := Running g p]> l) (set_pidGeneration g (set_pid p s)) n.
Proof.
  intros Hi. pose proof Hinv as [H1 H2 H3 H4 H5 H6 H7].
  destruct (holder_current l s n Hinv i (Child g p) g Hi eq_refl) as [Ha Hg].
  constructor; cbn.
  - rewrite (holders_replaced l s n Hinv i (Child g p) (Running g p) g) by done. cbn. by rewrite Ha, Hg.
  - pose proof (launching_replaced l i (Child g p) (Running g p) Hi) as El. cbn in El. lia.
  - done.
  - intros j g' [[_ [=]]|[_ Hj]]%lookup_replaced. by eapply H4.
  - intros j g' p' [[_ [=]]|[_ Hj]]%lookup_replaced. by eapply H5.
  - intros j g' p' [[_ [= -> ->]]|[Hne Hj]]%lookup_replaced; [split; [by eapply H5|done]|].
    destruct Hne. by apply (holder_unique l s n Hinv j i (Running g' p') (Child g p)).
  - right. exists i. left. exists p. apply list_lookup_insert_eq. by eapply lookup_lt_Some.
Qed.

Lemma slot_release g st :
  l !! i = Some st -> st = Begun g \/ (exists p, st = Running g p) ->
  slot_inv (<[i := Finishing g]> l) (set_helper (helperGeneration s) false s) n.
Proof.
  intros Hi Hst. pose proof Hinv as [H1 H2 H3 H4 H5 H6 H7].
  assert (holder st = Some g) as Hh by (by destruct Hst as [->|[p ->]]).
  destruct (holder_current l s n Hinv i st g Hi Hh) as [Ha Hg].
  constructor; cbn.
  - by rewrite (holders_replaced l s n Hinv i st (Finishing g) g).
  - pose proof (launching_replaced l i st (Finishing g) Hi) as El.
    assert (is_launching st = None) as E by (by destruct Hst as [->|[p ->]]). rewrite E in El. cbn in El. lia.
  - done.
  - intros j g' [[_ [= ->]]|[_ Hj]]%lookup_replaced; [specialize (H3 Ha); split; [lia|done]|].
    pose proof (H4 _ _ Hj). split; [lia|done].
  - intros j g' p' [[_ [=]]|[_ Hj]]%lookup_replaced. by eapply H5.
  - intros j g' p' [[_ [=]]|[Hne Hj]]%lookup_replaced. by eapply H6.
  - destruct H7 as [H|[j H]]; [by left|right]. destruct (decide (j = i)) as [->|Hne].
    + exists i. right. rewrite list_lookup_insert_eq by (by eapply lookup_lt_Some).
      rewrite Hi in H. destruct H as [[p H]|H], Hst as [Hst|[p' Hst]]; congruence.
    + exists j. by rewrite list_lookup_insert_ne.
Qed.

Lemma slot_finish g :
  l !! i = Some (Finishing g) ->
  slot_inv (<[i := NoHelper]> l) (if pidGeneration s =? g then set_pidGeneration 0 (set_pid 0 s) else s) n.
Proof.
  intros Hi. pose proof Hinv as [H1 H2 H3 H4 H5 H6 H7].
  assert (omap holder (<[i := NoHelper]> l) = omap holder l) as Eh.
  { by destruct (omap_insert holder i (Finishing g) NoHelper l Hi) as (p & q & -> & ->). }
  assert (Zlen (omap is_launching (<[i := NoHelper]> l)) = Zlen (omap is_launching l)) as El.
  { pose proof (launching_replaced l i (Finishing g) NoHelper Hi) as El. cbn in El. lia. }
  assert (forall j g' p', l !! j = Some (Running g' p') -> (pidGeneration s =? g) = false) as Hr.
  { intros j g' p' Hj. destruct (holder_current l s n Hinv j _ g' Hj eq_refl) as [Ha Hg].
    destruct (H6 _ _ _ Hj) as (_ & _ & ->). destruct (H4 _ _ Hi) as [_ Hlt]. specialize (Hlt Ha). apply Z.eqb_neq. lia. }
  constructor.
  - rewrite Eh, H1. by destruct (_ =? g).
  - rewrite El. by destruct (_ =? g).
  - by destruct (_ =? g).
  - intros j g' [[_ [=]]|[_ Hj]]%lookup_replaced. pose proof (H4 _ _ Hj). by destruct (_ =? g).
  - intros j g' p' [[_ [=]]|[_ Hj]]%lookup_replaced. by eapply H5.
  - intros j g' p' [[_ [=]]|[Hne Hj]]%lookup_replaced. rewrite (Hr _ _ _ Hj). by eapply H6.
  - destruct (Z.eqb_spec (pidGeneration s) g) as [Eg|Eg]; [by left|].
    destruct H7 as [H|[j H]]; [by left|right]. exists j.
    assert (i <> j) as Hij by (intros <-; rewrite Hi in H; destruct H as [[p [=]]|[= E]]; by destruct Eg).
    by rewrite list_lookup_insert_ne.
Qed.

End SlotSteps.

Section SingleFlight.

Context (config : Config).
Hypothesis managed : ControllerManaged (Config_Server config) = true.

(** Sections that leave the slot and the pid alone. *)
Lemma slot_neutral l i st s s' n evs :
  l !! i = Some st -> slot_inv l s n -> helper_fields s' = helper_fields s -> started config evs = [] -> launches evs = 0 ->
  slot_inv (<[i := st]> l ++ map stage (started config evs)) s' (n + launches evs).
Proof.
  intros Hi Hinv Hh -> ->. rewrite list_insert_id by done. rewrite app_nil_r, Z.add_0_r. by apply (slot_same l s).
Qed.

Lemma slot_quiet l s n : slot_inv l s n -> slot_inv (l ++ map stage (started config [])) s (n + launches []).
Proof. cbn. unfold launches, Zlen. cbn. by rewrite app_nil_r, Z.add_0_r. Qed.

Lemma slot_section w {X} (c : Sec X) l i st s n x s' evs :
  stage_permits X st c -> sec_op w c s = (x, s', evs) -> l !! i = Some st ->
  (forall p, ans_child w = Some p -> 0 < p) -> 0 <= n -> n + 1 < 2 ^ 64 -> slot_inv l s n ->
  slot_inv (<[i := next_stage st c x]> l ++ map stage (started config evs)) s' (n + launches evs).
Proof.
  intros Hp Hs Hi Hchild Hn0 Hn Hinv. destruct c;
    try (injection Hs as <- <- <-; by apply (slot_neutral _ _ _ s)); cbn [sec_op stage_permits next_stage] in *.
  - destruct (swap_cases from new s) as [E|(E & _)]; rewrite E in Hs; injection Hs as <- <- <-; by apply (slot_neutral _ _ _ s).
  - injection Hs as <- <- <-. subst st. by apply slot_quiet, slot_running.
  - injection Hs as <- <- <-. subst st. by apply slot_quiet, slot_finish.
  - subst st. unfold beginControllerHelper, gets, modify, mbind, Op_bind in Hs.
    destruct (helperActive s) eqn:Ha; injection Hs as <- <- <-; cbn [fst snd].
    + by apply (slot_neutral _ _ _ s).
    + by apply slot_quiet, slot_begin.
  - assert (holder st = Some generation) as Hh by (by destruct Hp as [->|[p ->]]).
    destruct (holder_current l s n Hinv i st generation Hi Hh) as [Ha Hg].
    pose proof (si_pos _ _ _ Hinv Ha). unfold helper_release, gets, modify, mbind, Op_bind in Hs.
    rewrite <- Hg, Z.eqb_refl, (proj2 (Z.eqb_neq generation 0)) in Hs by lia. injection Hs as <- <- <-.
    rewrite Hg. apply slot_quiet. rewrite <- Hg at 1. by eapply slot_release.
  - injection Hs as <- <- <-. subst st. cbn. by apply slot_go.
  - injection Hs as <- <- <-. destruct Hp as [g ->]. destruct (ans_child w) as [p|] eqn:Ec.
    + apply slot_quiet, slot_child; auto.
    + by apply (slot_neutral _ _ _ s).
Qed.

Definition stage_ok (th : Thread) : Prop := staged (stage th) (code th) (fun _ st => st = NoHelper).

Lemma launches_pos l : 0 <= launches l.
Proof. unfold launches, Zlen. lia. Qed.

Lemma started_stage_ok evs : Forall stage_ok (started config evs).
Proof.
  induction evs as [|e evs IH]; [constructor|]. destruct e; try done. constructor; [|done]. by apply (code_staged config managed (KCommand _)).
Qed.

Lemma slot_reachable t0 sys :
  reachable config t0 sys -> launches (log sys) + 1 < 2 ^ 64 ->
  Forall stage_ok (threads sys) /\ slot_inv (map stage (threads sys)) (srv sys) (launches (log sys)).
Proof.
  induction 1 as [|a sys sys' Hr IH H]; intros Hb.
  { split; [constructor|]. constructor; try done. by left. }
  destruct a as [k|i w| |i|u].
  - cbn in H. destruct (can_begin k sys) eqn:Ek; [|done]. injection H as <-. cbn in *. destruct (IH Hb) as [Hok Hinv].
    split; [apply Forall_app; split; [done|]; apply Forall_singleton; by apply code_staged|].
    rewrite map_app. assert (map stage [new_thread config k] = [NoHelper]) as -> by (by destruct k).
    by apply slot_idle.
  - apply do_run in H as (th & X & c & k & x & s & evs & Ha & Ht & Ec & Es & ->). cbn [log srv threads] in *.
    rewrite launches_app in *. pose proof (launches_pos evs). pose proof (launches_pos (log sys)).
    destruct IH as [Hok Hinv]; [lia|]. pose proof (Forall_lookup_1 _ _ _ _ Hok Ht) as Hth.
    unfold stage_ok, staged in Hth. rewrite Ec in Hth. destruct Hth as [Hp Hk].
    split; [apply Forall_app; split; [apply Forall_insert; [done|exact (Hk x)]|apply started_stage_ok]|].
    rewrite map_app, list_fmap_insert. cbn [stage].
    eapply (slot_section w c _ i (stage th) (srv sys)); try done; [by rewrite list_lookup_fmap, Ht| |lia].
    intros p Hc. unfold answers_ok in Ha. rewrite Hc in Ha. lia.
  - injection H as <-. destruct (IH Hb) as [Hok Hinv]. split; [done|]. by apply (slot_same _ (srv sys)).
  - injection H as <-. destruct (IH Hb) as [Hok Hinv]. split; [done|]. by apply (slot_same _ (srv sys)).
  - injection H as <-. destruct (IH Hb) as [Hok Hinv]. split; [done|]. apply (slot_same _ (srv sys)); [|done].
    destruct u as [[v|]| | | | |]; try done. unfold final. cbn. by destruct (status (srv sys)).
Qed.

(** C5: the controller helper is single-flight, however the critical sections
    of clients, monitor and helper goroutines interleave. In every reachable
    controller-managed system (with fewer than 2^64 - 1 helpers launched so
    far, so that generations do not wrap): at most one goroutine holds the
    helper slot, from the moment it is reserved to the moment it is given back;
    the slot is taken exactly while one does, and that one owns the current
    generation; once a helper's pid is recorded it stays the recorded pid, with
    the helper's generation, until the helper gives its slot back, even while
    the goroutine of an older helper is still finishing; no pid is recorded
    when no helper runs or finishes; and a goroutine that has ended holds
    nothing. *)
Theorem helper_single_flight (t0 : Z) (sys : System) :
  reachable config t0 sys -> launches (log sys) + 1 < 2 ^ 64 ->
  let s := srv sys in
  (forall i j th th', threads sys !! i = Some th -> threads sys !! j = Some th' ->
     holder (stage th) <> None -> holder (stage th') <> None -> i = j)
  /\ (helperActive s = true <-> exists th, th ∈ threads sys /\ holder (stage th) <> None)
  /\ (forall th g, th ∈ threads sys -> holder (stage th) = Some g -> g = helperGeneration s)
  /\ (forall th g p, th ∈ threads sys -> stage th = Running g p -> pid s = p /\ pidGeneration s = g /\ p <> 0)
  /\ ((forall th, th ∈ threads sys -> bystander (stage th)) -> pid s = 0)
  /\ (forall th, th ∈ threads sys -> finished th = true -> stage th = NoHelper).
Proof.
  intros Hr Hb. destruct (slot_reachable t0 sys Hr Hb) as [Hok Hinv].
  assert (forall i th, threads sys !! i = Some th -> map stage (threads sys) !! i = Some (stage th)) as Hm.
  { intros i th Ht. by rewrite list_lookup_fmap, Ht. }
  cbv zeta. split_and!.
  - intros i j th th' Hi Hj. eapply holder_unique; [exact Hinv|by apply Hm..].
  - split.
    + intros Ha. destruct Hinv as [H1 _ _ _ _ _ _]. rewrite Ha in H1.
      assert (helperGeneration (srv sys) ∈ omap holder (map stage (threads sys))) as Hin by (rewrite H1; by left).
      apply list_elem_of_omap in Hin as (st & (th & -> & Hin)%list_elem_of_fmap & Hh). exists th. split; [done|congruence].
    + intros (th & [i Hi]%list_elem_of_lookup & Hh). destruct (holder (stage th)) as [g|] eqn:E; [|done].
      by eapply holder_current; [exact Hinv|by apply Hm|].
  - intros th g [i Hi]%list_elem_of_lookup Hh. by eapply holder_current; [exact Hinv|by apply Hm|].
  - intros th g p [i Hi]%list_elem_of_lookup Hs. pose proof (Hm _ _ Hi) as Hl. rewrite Hs in Hl.
    destruct (si_running _ _ _ Hinv _ _ _ Hl) as (? & ? & ?). split_and!; [done|done|lia].
  - intros Hall. destruct (si_pid _ _ _ Hinv) as [[H _]|[i H]]; [done|]. exfalso.
    assert (forall st, map stage (threads sys) !! i = Some st -> bystander st) as Hby.
    { intros st Hl. rewrite list_lookup_fmap in Hl. apply fmap_Some in Hl as (th & Ht & ->).
      apply Hall. by eapply list_elem_of_lookup_2. }
    destruct H as [[p H]|H]; exact (Hby _ H).
  - intros th [i Hi]%list_elem_of_lookup Hf. pose proof (Forall_lookup_1 _ _ _ _ Hok Hi) as Hs.
    unfold stage_ok, finished in *. by destruct (code th).
Qed.

End SingleFlight.

(** ** Sample runs *)

Definition empty_status : ServerStatus := mkServerStatus (mkServerVersion [] 0) (mkOnlinePlayers 20 0 []) [] None [].

Definition at_time (t : Z) : Answers := mkAnswers (env_at t) None WaitOk (None, false, false).
Definition poll_up (t : Z) : Answers := mkAnswers (env_at t) None WaitOk (Some empty_status, true, false).
Definition child_at (t p : Z) : Answers := mkAnswers (env_at t) (Some p) WaitOk (None, false, false).

(** [n] sections of goroutine [i]. *)
Definition burst (i : nat) (w : Answers) (n : nat) : list Act := replicate n (ARun i w).

(** A client starts the helper; it runs with pid 77, ends and gives its slot
    back; before its goroutine clears the pid, the server is seen up and down
    again, the next client starts the next helper, and that one records its pid
    88. *)
Definition two_helpers : list Act :=
  [ANew KClient] ++ burst 0 (at_time 1) 6 ++ burst 1 (child_at 2 77) 4
  ++ [ANew KRound] ++ burst 2 (poll_up 3) 12 ++ [ANew KRound] ++ burst 3 (at_time 4) 8
  ++ [ANew KClient] ++ burst 4 (at_time 5) 6 ++ burst 5 (child_at 6 88) 2.

(** For a gateway that owns the process. A client starts the server, which runs
    with pid 77; a subscriber comes; a poll succeeds and the next one fails; the
    next client swaps the state to starting. Before it goes on, a poll succeeds
    and its change to started runs to the end. Then the client announces
    "starting", arms its deadline and runs the command again, which fails. *)
Definition stale_start : list Act :=
  [ANew KClient] ++ burst 0 (at_time 0) 5 ++ burst 1 (child_at 0 77) 2 ++ [ASubscribe]
  ++ [ANew KRound] ++ burst 2 (poll_up 0) 15 ++ [ANew KRound] ++ burst 3 (at_time 0) 9
  ++ [ANew KClient] ++ burst 4 (at_time 0) 1
  ++ [ANew KRound] ++ burst 5 (poll_up 0) 15
  ++ burst 4 (at_time 0) 4 ++ burst 6 (at_time 0) 1.

Definition run_of (config : Config) (l : list Act) : System := default (init 0) (do_acts config l (init 0)).

Lemma run_of_reachable config l : is_Some (do_acts config l (init 0)) -> reachable config 0 (run_of config l).
Proof.
  intros [sys E]. unfold run_of. rewrite E. eapply do_acts_reachable; [apply reach_init|exact E].
Qed.

Ltac run_exists := eexists; vm_compute; reflexivity.

(** Then the older goroutine runs its last section: the newer pid stays. *)
Lemma helper_single_flight_witness :
  let c := sample_config true false false in
  let sys := run_of c (two_helpers ++ [ARun 1 (at_time 7)]) in
  map stage (threads sys) !! 5%nat = Some (Running 2 88) /\ pid (srv sys) = 88.
Proof.
  split; [vm_compute; reflexivity|].
  set (th := default (new_thread (sample_config true false false) KClient)
    (threads (run_of (sample_config true false false) (two_helpers ++ [ARun 1 (at_time 7)])) !! 5%nat)).
  apply (helper_single_flight (sample_config true false false) eq_refl 0
           (run_of (sample_config true false false) (two_helpers ++ [ARun 1 (at_time 7)]))) with (th := th) (g := 2).
  - apply run_of_reachable. run_exists.
  - vm_compute. reflexivity.
  - apply (list_elem_of_lookup_2 _ 5). vm_compute. reflexivity.
  - vm_compute. reflexivity.
Defined.

Lemma controller_managed_hands_off_witness :
  let sys := run_of (sample_config true false false) two_helpers in
  log sys = [EvSpawn 1; EvSpawn 2] /\ Forall only_spawn (log sys).
Proof.
  split; [vm_compute; reflexivity|].
  apply (controller_managed_hands_off (sample_config true false false) eq_refl 0).
  apply run_of_reachable. run_exists.
Defined.

(** A schedule whose steps are all calm. *)
Fixpoint calm_acts (config : Config) (l : list Act) (sys : System) : option System :=
  match l with
  | [] => Some sys
  | a :: l =>
      sys' ← do_act config a sys;
      if bool_decide (length (changes (threads sys')) <= 1)%nat then calm_acts config l sys' else None
  end.

Lemma calm_acts_calm config t0 l : forall sys sys', calm config t0 sys -> calm_acts config l sys = Some sys' -> calm config t0 sys'.
Proof.
  induction l as [|a l IH]; intros sys sys' Hr; cbn [calm_acts]; [by intros [= <-]|].
  intros (s1 & E1 & E2)%bind_Some. destruct (bool_decide_reflect (length (changes (threads s1)) <= 1)%nat); [|done].
  eapply IH; [|exact E2]. by eapply calm_act.
Qed.

Definition calm_of (config : Config) (l : list Act) : System := default (init 0) (calm_acts config l (init 0)).

Lemma calm_of_calm config l : is_Some (calm_acts config l (init 0)) -> calm config 0 (calm_of config l).
Proof. intros [sys E]. unfold calm_of. rewrite E. eapply calm_acts_calm; [apply calm_init|exact E]. Qed.

(** A subscriber comes, a client's start is under way (its helper is not yet
    launched), and a second client is refused. *)
Definition waiting : list Act :=
  [ASubscribe; ANew KClient; ANew KClient] ++ burst 0 (at_time 1) 1 ++ burst 1 (at_time 1) 1 ++ burst 0 (at_time 1) 3.

Lemma lifecycle_consistent_witness :
  let c := sample_config true false false in
  changes (threads (calm_of c waiting)) = []
  /\ timers_ok c (srv (calm_of c waiting)) /\ subs_ok (srv (calm_of c waiting)).
Proof.
  split; [vm_compute; reflexivity|].
  apply (lifecycle_consistent (sample_config true false false) 0).
  - apply calm_of_calm. run_exists.
  - vm_compute. reflexivity.
Defined.

Lemma managed_start_expires_witness :
  let c := sample_config true false false in
  let s' := final (alone (at_time (301 * second)) (MonitorServer_p c) (srv (calm_of c waiting))) in
  exists t, killAt (srv (calm_of c waiting)) = Some t /\ (t <= 301 * second -> state s' = StateStopped /\ subs s' = [Some StateStopped]).
Proof.
  destruct (managed_start_expires (sample_config true false false) eq_refl 0 (calm_of (sample_config true false false) waiting))
    as (t & Ht & Hr).
  - apply calm_of_calm. run_exists.
  - vm_compute. reflexivity.
  - vm_compute. reflexivity.
  - vm_compute. reflexivity.
  - exists t. split; [exact Ht|]. intros Hle.
    destruct (Hr (at_time (301 * second)) false Hle eq_refl) as (Hs & _). split; [exact Hs|vm_compute; reflexivity].
Defined.
