(* ===== verification/LifecycleSpec.v ===== *)
(** What the shared server state promises: an abstract machine, and the proof
    that every interleaving of the goroutines of [Lifecycle] is one of its runs.

    The clients of [src/server.go] (the join methods, the lobby, the status
    server, the monitor) see a phase, a deadline and channels that announce
    phases; the outside sees signals, RCON stops and started commands. The
    machine has tasks, of which it knows only what entitles them to act (a
    [Cause]) and how much of a phase change they still owe (a [Duty]), and one
    rule for each thing that can happen. A phase is entered for a cause, and
    the task that enters it announces it and then sets its deadline; between
    these rules other tasks may act, so a deadline or an announcement may be
    that of an older change (the rules allow what [Races] exhibits). A signal,
    an RCON stop or a command needs its cause, and a start lets its task launch
    at most once.

    Program text, process ids, helper generations, statuses, activity times and
    kernel answers are left out: the machine does not know them. *)
From S2P Require Import Prelude Packet Stream Config Net Packets Access Process Nbt JoinGame ServerState Monitor Sections Rounds Lifecycle.

(** ** The machine *)

Record AState := mkA {
  phase : State;
  due : option Z;
  channels : list (option State);
  tasks : list Duty }.

Definition a_init : AState := mkA StateStopped None [] [].

(** Task [i] goes from duty [d] to [d']; nothing else changes. *)
Definition task (i : nat) (d d' : Duty) (a a' : AState) : Prop :=
  tasks a !! i = Some d /\ a' = mkA (phase a) (due a) (channels a) (<[i := d']> (tasks a)).

Section Machine.

Context (config : Config).

Abbreviation managed := (ControllerManaged (Config_Server config)).
Abbreviation freezes := (FreezeProcess (Config_Server config)).

Inductive a_step (t : Z) : AState -> list Event -> AState -> Prop :=
(* a client, a handler, a round begins *)
| a_begin a : a_step t a [] (mkA (phase a) (due a) (channels a) (tasks a ++ [At Idle]))
(* the phase changes, for a cause *)
| a_enter a i c from new :
    tasks a !! i = Some (At c) -> may_enter config c from new ->
    (forall f, from = Some f -> phase a = f) -> phase a <> new ->
    a_step t a [] (mkA new (due a) (channels a) (<[i := Announce new (entered c)]> (tasks a)))
(* then its task announces it *)
| a_tell a i new c :
    tasks a !! i = Some (Announce new c) ->
    a_step t a [] (mkA (phase a) (due a) (map (fun _ => Some new) (channels a)) (<[i := Arm new c]> (tasks a)))
(* and sets the deadline, if the phase has one *)
| a_fix a a' i new c : task i (Arm new c) (ArmAt new (due_at config t new) c) a a' -> a_step t a [] a'
| a_arm a i new v c :
    tasks a !! i = Some (ArmAt new v c) ->
    a_step t a [] (mkA (phase a) v (channels a) (<[i := At c]> (tasks a)))
| a_disarm a i new c :
    tasks a !! i = Some (Arm new c) -> (forall t', due_at config t' new = None) ->
    a_step t a [] (mkA (phase a) None (channels a) (<[i := At c]> (tasks a)))
(* a task learns something *)
| a_polled a a' i up : task i (At Idle) (At (if up : bool then SeenUp else SeenDown)) a a' -> a_step t a [] a'
| a_exited a a' i : task i (At Idle) (At Exited) a a' -> a_step t a [] a'
| a_overdue a a' i c x : due a = Some x -> x <= t -> task i (At c) (At Expired) a a' -> a_step t a [] a'
| a_forget a a' i c : (forall g, c <> Slot g) -> task i (At c) (At Idle) a a' -> a_step t a [] a'
(* or does something to the outside *)
| a_freeze a a' i p c : managed = false -> freezes = true -> p <> 0 -> observing c ->
    task i (At c) (At Frozen) a a' -> a_step t a [EvSignal p SIGSTOP] a'
| a_resume a a' i p : managed = false -> freezes = true -> p <> 0 ->
    task i (At Granted) (At Resumed) a a' -> a_step t a [EvSignal p SIGCONT] a'
| a_terminate a a' i p c (ok : bool) : managed = false -> p <> 0 -> observing c ->
    task i (At c) (At (if ok then Asked else c)) a a' -> a_step t a [EvSignal p SIGTERM] a'
| a_rcon a a' i c (ok : bool) : managed = false -> Rcon_Enabled (Config_Rcon config) = true -> observing c ->
    task i (At c) (At (if ok then Asked else c)) a a' -> a_step t a [EvRconStop] a'
| a_kill a i p : managed = false -> p <> 0 -> tasks a !! i = Some (At Expired) -> a_step t a [EvSignal p SIGKILL] a
| a_slot a a' i g : managed = true -> task i (At Granted) (At (Slot g)) a a' -> a_step t a [] a'
| a_launch a i c g :
    (managed = true /\ c = Slot g) \/ (managed = false /\ c = Granted /\ g = 0) -> tasks a !! i = Some (At c) ->
    a_step t a [EvSpawn g] (mkA (phase a) (due a) (channels a) (<[i := At Idle]> (tasks a) ++ [At Idle]))
(* subscribers *)
| a_subscribe a : a_step t a [] (mkA (phase a) (due a) (channels a ++ [Some (phase a)]) (tasks a))
| a_receive a j : a_step t a [] (mkA (phase a) (due a) (<[j := None]> (channels a)) (tasks a)).

(** A run between two times, with everything it did to the outside. *)
Inductive a_run (t0 : Z) : list Event -> Z -> AState -> Prop :=
| run_init : a_run t0 [] t0 a_init
| run_wait es t t' a : a_run t0 es t a -> t <= t' -> a_run t0 es t' a
| run_step es t a e a' : a_run t0 es t a -> a_step t a e a' -> a_run t0 (es ++ e) t a'.

(** ** The goroutines implement it *)

Definition abs (sys : System) : AState :=
  mkA (state (srv sys)) (killAt (srv sys)) (subs (srv sys)) (map duty (threads sys)).

(** At most one step of the machine. *)
Definition a_opt (t : Z) (a : AState) (e : list Event) (a' : AState) : Prop :=
  (e = [] /\ a' = a) \/ a_step t a e a'.

Lemma run_opt t0 es t t' a e a' : a_run t0 es t a -> t <= t' -> a_opt t' a e a' -> a_run t0 (es ++ e) t' a'.
Proof.
  intros Hr Ht [[-> ->]|Hs]; [rewrite app_nil_r; by eapply run_wait|]. eapply run_step; [|exact Hs]. by eapply run_wait.
Qed.

Lemma same_core s s' ts : core s' = core s -> mkA (state s') (killAt s') (subs s') ts = mkA (state s) (killAt s) (subs s) ts.
Proof. unfold core. by intros [= -> -> ->]. Qed.

Section Sections.

Context (t : Z) (s : ServerState) (ts : list Duty) (i : nat).

(** The machine before and after a section. *)
Abbreviation before := (mkA (state s) (killAt s) (subs s) ts).

Lemma opt_stutter d s' : ts !! i = Some d -> core s' = core s -> a_opt t before [] (mkA (state s') (killAt s') (subs s') (<[i := d]> ts ++ [])).
Proof. intros Hi Hc. left. split; [done|]. rewrite list_insert_id, app_nil_r by done. by apply same_core. Qed.

(** A rule that changes the duty only. *)
Lemma opt_task d d' s' e :
  ts !! i = Some d -> core s' = core s -> (forall a', task i d d' before a' -> a_step t before e a') ->
  a_opt t before e (mkA (state s') (killAt s') (subs s') (<[i := d']> ts ++ [])).
Proof.
  intros Hi Hc Hs. right. apply Hs. split; [done|]. rewrite app_nil_r. by apply same_core.
Qed.

Lemma opt_forget k s' :
  ts !! i = Some (At k) -> core s' = core s -> (forall g, k <> Slot g) ->
  a_opt t before [] (mkA (state s') (killAt s') (subs s') (<[i := At Idle]> ts ++ [])).
Proof. intros Hi Hc Hk. apply (opt_task (At k)); [done|done|]. intros a'. by apply a_forget. Qed.

Lemma opt_spent k s' :
  ts !! i = Some (At k) -> core s' = core s ->
  a_opt t before [] (mkA (state s') (killAt s') (subs s') (<[i := At (spent k)]> ts ++ [])).
Proof. intros Hi Hc. destruct k; cbn; try (by apply opt_stutter); by eapply opt_forget. Qed.

End Sections.

(** The sections of a goroutine that owes nothing. *)
Lemma at_section w {X} (c : Sec X) k s x s' evs ts i :
  permits_at config k c -> sec_op w c s = (x, s', evs) -> ts !! i = Some (At k) ->
  a_opt (now (ans_env w)) (mkA (state s) (killAt s) (subs s) ts) evs
    (mkA (state s') (killAt s') (subs s')
       (<[i := next_duty config (At k) c x]> ts ++ map duty (started config evs))).
Proof.
  intros Hp Hs Hi. destruct c; cbn [permits_at] in Hp; try done;
    try (injection Hs as <- <- <-; by apply opt_stutter); cbn [sec_op next_duty next_cause] in *.
  - destruct (swap_cases from new s) as [E|(E & Hf & Hn)]; rewrite E in Hs; injection Hs as <- <- <-.
    + by apply opt_spent.
    + right. cbn. rewrite app_nil_r. by apply (a_enter _ (mkA (state s) (killAt s) (subs s) ts) i k from new).
  - injection Hs as <- <- <-.
    destruct (match killAt s with Some t => t <=? now (ans_env w) | None => false end) eqn:Eb; [|by apply opt_stutter].
    apply (opt_task _ _ _ i (At k)); try done. intros a'. destruct (killAt s) as [y|] eqn:Ek; [|done].
    apply (a_overdue _ _ _ i k y); [done|lia].
  - pose proof (helper_core generation s) as (_ & _ & H). unfold final in H. rewrite Hs in H. injection Hs as <- <- <-.
    by apply opt_stutter.
  - pose proof (helper_core 0 s) as (H & _ & _). unfold final in H. rewrite Hs in H.
    unfold beginControllerHelper, gets, modify, mbind, Op_bind in Hs. destruct Hp as [Hm ->].
    destruct (helperActive s); injection Hs as <- <- <-; cbn [fst snd].
    + by eapply opt_forget.
    + apply (opt_task _ _ _ i (At Granted)); try done. intros a'. by apply a_slot.
  - pose proof (helper_core generation s) as (_ & H & _). unfold final in H. rewrite Hs in H.
    unfold helper_release, gets, modify, mbind, Op_bind in Hs.
    destruct (_ || _); injection Hs as <- <- <-; by apply opt_stutter.
  - injection Hs as <- <- <-. destruct Hp as (Hm & Hr & Hk). apply (opt_task _ _ _ i (At k)); try done. intros a'. by apply a_rcon.
  - injection Hs as <- <- <-. destruct Hp as (Hm & Hp0 & Hk). destruct sig.
    + subst k. right. cbn. rewrite list_insert_id, app_nil_r by done. by eapply a_kill.
    + apply (opt_task _ _ _ i (At k)); try done. intros a'. by apply a_terminate.
    + apply (opt_task _ _ _ i (At k)); try done. intros a'. destruct Hk. by eapply a_freeze.
    + destruct Hk as [Hf ->]. apply (opt_task _ _ _ i (At Granted)); try done. intros a'. by eapply a_resume.
  - injection Hs as <- <- <-. right. by apply (a_launch _ (mkA (state s) (killAt s) (subs s) ts) i k generation).
  - injection Hs as <- <- <-. subst k. apply (opt_task _ _ _ i (At Idle)); try done. intros a'. by apply a_exited.
  - injection Hs as <- <- <-. subst k. destruct (ans_poll w) as [[[v|] []] fb]; cbn [saw]; try (by apply opt_stutter);
      apply (opt_task _ _ _ i (At Idle)); try done; intros a'.
    + by apply (a_polled _ _ _ i true).
    + by apply (a_polled _ _ _ i false).
    + by apply (a_polled _ _ _ i false).
Qed.

Lemma sim_section w {X} (c : Sec X) d s x s' evs ts i :
  permits config X d c -> sec_op w c s = (x, s', evs) -> ts !! i = Some d ->
  a_opt (now (ans_env w)) (mkA (state s) (killAt s) (subs s) ts) evs
    (mkA (state s') (killAt s') (subs s')
       (<[i := next_duty config d c x]> ts ++ map duty (started config evs))).
Proof.
  intros Hp Hs Hi. pose proof (section_effect config w c d s x s' evs Hp Hs) as He.
  destruct d as [k|new k|new k|new v k]; [by eapply at_section|..];
    match goal with |- context [next_duty config ?d c x] => generalize dependent (next_duty config d c x) end; intros d' He;
    inversion He as [|?|? ? ? ? Hc|? ? ?|? ? ? ? Hd Hc|? ? ? ? ? Hc]; subst; try apply core_eq in Hc as (-> & -> & ->);
    right; cbn; rewrite app_nil_r.
  - by apply (a_tell _ (mkA (state s) (killAt s) (subs s) ts) i new k).
  - by apply (a_fix _ _ _ i new k).
  - by apply (a_disarm _ (mkA (state s) (killAt s) (subs s) ts) i new k).
  - by apply (a_arm _ (mkA (state s) (killAt s) (subs s) ts) i new v k).
Qed.

Lemma abs_act t0 es a sys sys' :
  Forall (thread_ok config) (threads sys) -> do_act config a sys = Some sys' ->
  es = log sys -> a_run t0 es (clock sys) (abs sys) -> a_run t0 (log sys') (clock sys') (abs sys').
Proof.
  intros Hok H -> Hr. destruct a as [k|i w| |j|u].
  - cbn in H. destruct (can_begin k sys); [|done]. injection H as <-. cbn. rewrite <- (app_nil_r (log sys)).
    eapply run_step; [exact Hr|]. unfold abs. cbn. rewrite map_app. apply (a_begin _ (abs sys)).
  - apply do_run in H as (th & X & c & k & x & s & evs & Ha & Ht & Ec & Es & ->).
    pose proof (Forall_lookup_1 _ _ _ _ Hok Ht) as Hth. unfold thread_ok, dutiful in Hth. rewrite Ec in Hth.
    destruct Hth as [Hp _]. eapply run_opt; [exact Hr|unfold answers_ok in Ha; cbn; lia|].
    unfold abs. cbn [srv threads]. rewrite map_app, list_fmap_insert. cbn [duty].
    eapply sim_section; [exact Hp|exact Es|]. by rewrite list_lookup_fmap, Ht.
  - injection H as <-. cbn. rewrite <- (app_nil_r (log sys)). eapply run_step; [exact Hr|]. apply (a_subscribe _ (abs sys)).
  - injection H as <-. cbn. rewrite <- (app_nil_r (log sys)). eapply run_step; [exact Hr|]. apply (a_receive _ (abs sys) j).
  - injection H as <-. cbn. pose proof (update_frame u (srv sys)) as Hc. apply core_eq in Hc as (E1 & E2 & E3).
    unfold abs in *. cbn. by rewrite E1, E2, E3.
Qed.

(** C3: every interleaving is a run of the machine. However the critical
    sections of clients, signal handler, monitor and commands interleave, and
    whatever the environment answers, what the program has done to the outside
    is the log of a run of the abstract machine that ends in the program's
    phase, deadline and channels, with one machine task per goroutine. So each
    phase is entered for its cause (starting only from stopped, or by a task
    that has sent SIGCONT; stopping only after SIGTERM or an RCON stop and
    never under a controller; expiry only under a controller and after its task
    saw the deadline passed) and is announced and then given its deadline by
    the task that entered it; SIGKILL is sent only by a task that saw the
    deadline passed; and a command is launched only by a task that moved the
    server from stopped to starting, once. *)
Theorem lifecycle_refines_machine (t0 : Z) (sys : System) :
  reachable config t0 sys -> a_run t0 (log sys) (clock sys) (abs sys).
Proof.
  induction 1 as [|a sys sys' Hr IH H]; [apply run_init|].
  eapply abs_act; [by eapply reachable_ok|exact H|reflexivity|exact IH].
Qed.

End Machine.

(** A race of a start with a poll is a run of the machine too. *)
Lemma lifecycle_refines_machine_witness :
  let c := sample_config false false false in
  let sys := run_of c stale_start in
  log sys = [EvSpawn 0; EvSpawn 0] /\ state (srv sys) = StateStarted /\ subs (srv sys) = [Some StateStarting]
  /\ a_run c 0 (log sys) (clock sys) (abs sys).
Proof.
  split_and!; [vm_compute; reflexivity..|].
  apply (lifecycle_refines_machine (sample_config false false false) 0).
  apply run_of_reachable. run_exists.
Defined.
