(* ===== verification/Owned.v ===== *)
(** The server process the gateway owns (no controller): when it is put to
    sleep, and two runs in which the bookkeeping of [src/server.go] loses
    track of it. *)
From S2P Require Import Prelude Packet Stream Config Net Packets Access Process Nbt JoinGame ServerState Monitor Sections Rounds Lifecycle.

(** ** Going to sleep *)

(** The parts of a round as functions of the state. *)
Definition should_sleep (env : Env) (config : Config) (s : ServerState) : bool := result (ShouldSleep env config s).

Lemma monitor_round_eq env config poll s :
  let s1 := observed env config poll s in
  let r := if should_sleep env config s1 then Stop env config s1 else (false, s1, []) in
  final (monitor_round env config poll s) = final (round_tail env config (final r))
  /\ events (monitor_round env config poll s) = events r ++ events (round_tail env config (final r)).
Proof.
  cbv zeta. rewrite monitor_round_split, final_bind, events_bind.
  assert (round_head env config poll s =
    if should_sleep env config (observed env config poll s) then Stop env config (observed env config poll s)
    else (false, observed env config poll s, [])) as ->; [|done].
  unfold round_head, mbind, Op_bind. rewrite observe_eq. unfold should_sleep, ShouldSleep, gets, result.
  cbn [fst]. destruct (if ControllerManaged _ then _ else _); [|done].
  by destruct (Stop env config (observed env config poll s)) as [[? ?] ?].
Qed.

Lemma players_no_sleep env config s v :
  status s = Some v -> 0 < Online (Players v) -> should_sleep env config s = false.
Proof.
  intros Hs Hv. unfold should_sleep, ShouldSleep, gets, result, players_online. cbn. rewrite Hs.
  rewrite (proj2 (Z.ltb_lt _ _)) by done.
  destruct (ControllerManaged _); [done|]. by case_decide.
Qed.

(** The server is never put to sleep while players are online. A round
    whose poll reports players does nothing to the process, unless a start or
    stop is overdue, when it kills it. *)
Lemma no_sleep_with_players (env : Env) (config : Config) (s : ServerState) (v : ServerStatus) (fb : bool) :
  0 < Online (Players v) ->
  forall e, e ∈ events (monitor_round env config (Some v, true, fb) s) -> exists p, e = EvSignal p SIGKILL.
Proof.
  intros Hv e. destruct (monitor_round_eq env config (Some v, true, fb) s) as [_ ->].
  rewrite (players_no_sleep _ _ _ v); [|done|done]. cbn [events snd final fst app].
  rewrite round_tail_eq. destruct (overdue _ _); [|by intros ?%not_elem_of_nil].
  destruct (ControllerManaged _); [by intros ?%not_elem_of_nil|]. cbn.
  destruct (pid _ =? 0); [by intros ?%not_elem_of_nil|]. intros ->%list_elem_of_singleton. by eexists.
Qed.

(** The server is up, nobody plays, and both waiting times have passed. *)
Definition idle (env : Env) (config : Config) (s : ServerState) : Prop :=
  state s = StateStarted /\ pid s <> 0 /\ killAt s = None
  /\ (forall t, keepOnline s = Some t -> t < now env)
  /\ exists t, lastActive s = Some t /\ SleepAfter (Config_Time config) * second <= now env - t.

Lemma idle_sleeps env config s v fb :
  ControllerManaged (Config_Server config) = false -> idle env config s -> Online (Players v) <= 0 ->
  let s1 := observed env config (Some v, true, fb) s in
  should_sleep env config s1 = true /\ s1 = set_status (Some v) s.
Proof.
  intros Hcm (Hs & Hp & Hk & Hko & t & Hl & Ht) Hv.
  assert (observed env config (Some v, true, fb) s = set_status (Some v) s) as ->.
  { unfold observed, polled, record_status. rewrite Hs. by rewrite (proj2 (Z.ltb_ge _ _)) by done. }
  split; [|done]. unfold should_sleep, ShouldSleep, gets, result, players_online. cbn.
  rewrite Hcm, Hs, Hl, (proj2 (Z.ltb_ge _ _)), decide_False by naive_solver.
  destruct (keepOnline s) as [k|]; [rewrite (proj2 (Z.leb_gt _ _)) by (by apply Hko)|]; by apply Z.leb_le.
Qed.

Lemma tail_not_overdue env config s : overdue env s = false -> round_tail env config s = (tt, s, []).
Proof. intros H. rewrite round_tail_eq. by rewrite H. Qed.

Lemma entered_not_overdue env new config s : overdue env (enter env new config s) = false.
Proof.
  unfold overdue. destruct (enter_fields env new config s) as (_ & -> & _). unfold deadline.
  destruct new; try done.
  - destruct (Z.ltb_spec 0 (StartTimeout (Config_Server config))); [|done]. apply Z.leb_gt. unfold second. lia.
  - destruct (Z.ltb_spec 0 (StopTimeout (Config_Server config))); [|done]. apply Z.leb_gt. unfold second. lia.
Qed.

(** C28: an idle server goes to sleep in the next round, with the means that
    are available. When the server is up and its process known, nobody is
    online, the minimum online time is over and the sleep delay has passed, a
    round that nothing interferes with stops it. With freezing enabled it sends
    exactly SIGSTOP and the server counts as stopped. Otherwise it sends the
    RCON stop command if RCON is enabled, has cooled down and connects, and
    SIGTERM exactly when there was no answered RCON stop; the server is then
    stopping, with its stop deadline armed, if the RCON stop was answered or
    the kernel accepted the signal, and stays started if neither. Nothing else
    is sent. *)
Theorem idle_server_sleeps (env : Env) (config : Config) (s : ServerState) (v : ServerStatus) (fb : bool) :
  ControllerManaged (Config_Server config) = false ->
  idle env config s -> Online (Players v) <= 0 ->
  let r := monitor_round env config (Some v, true, fb) s in
  let rcon := rcon_ready env config s in
  if FreezeProcess (Config_Server config) then
    state (final r) = StateStopped /\ killAt (final r) = None /\ events r = [EvSignal (pid s) SIGSTOP]
  else
    events r = (if rcon then [EvRconStop] else []) ++ (if rcon && rcon_cmd env then [] else [EvSignal (pid s) SIGTERM])
    /\ if (rcon && rcon_cmd env) || kill_ok env (pid s) SIGTERM
       then state (final r) = StateStopping /\ killAt (final r) = deadline env StateStopping config
       else state (final r) = StateStarted /\ killAt (final r) = None.
Proof.
  intros Hcm Hidle Hv. cbv zeta.
  destruct (monitor_round_eq env config (Some v, true, fb) s) as [-> ->].
  destruct (idle_sleeps env config s v fb Hcm Hidle Hv) as [-> ->].
  destruct Hidle as (Hs & Hp & Hk & _). set (s1 := set_status (Some v) s).
  assert (forall new s0, round_tail env config (enter env new config s0) = (tt, enter env new config s0, [])) as Ht.
  { intros new s0. apply tail_not_overdue, entered_not_overdue. }
  rewrite (Stop_eq env config s1), Hcm. change (state s1) with (state s). change (rcon_ready env config s1) with (rcon_ready env config s).
  change (pid s1) with (pid s). unfold leave. change (state s1) with (state s).
  rewrite Hs, (proj2 (Z.eqb_neq _ 0)) by done. rewrite (bool_decide_true (StateStarted = StateStarted)) by done. cbn [negb andb].
  rewrite andb_true_r. destruct (FreezeProcess _); cbn [final events fst snd].
  { rewrite Ht. cbn [final events fst snd app]. by destruct (enter_fields env StateStopped config s1) as (-> & -> & _). }
  cbv zeta. destruct (rcon_ready env config s && rcon_cmd env) eqn:E; cbn [orb].
  { apply andb_prop in E as [-> _]. cbn [final events fst snd]. rewrite Ht. cbn [final events fst snd app]. split; [done|].
    by destruct (enter_fields env StateStopping config (set_rconLastStop (Some (now env)) s1)) as (-> & -> & _). }
  destruct (kill_ok env (pid s) SIGTERM); cbn [final events fst snd].
  - rewrite Ht. cbn [final events fst snd]. rewrite app_nil_r. split; [done|].
    by destruct (enter_fields env StateStopping config s1) as (-> & -> & _).
  - rewrite tail_not_overdue by (unfold overdue, s1; cbn; by rewrite Hk). cbn [final events fst snd].
    rewrite app_nil_r. by split.
Qed.

Definition idle_state : ServerState := set_lastActive (Some 0) (set_pid 77 (set_state StateStarted NewServerState)).

(** RCON connects and fails: SIGTERM follows. *)
Definition rcon_config : Config :=
  let c := sample_config false false false in
  mkConfig (Config_Path c) (Config_Public c) (Config_Server c) (Config_Auth c) (Config_Time c) (Config_Motd c)
    (Config_Join c) (Config_Lockout c)
    (mkRcon true (Rcon_Port (Config_Rcon c)) (Password (Config_Rcon c)) (RandomizePassword (Config_Rcon c)) (Rcon_SendProxyV2 (Config_Rcon c)))
    (Config_Advanced c) (Config_Config c).

Lemma idle_server_sleeps_witness :
  let r := monitor_round (mkEnv (100 * second) (fun _ _ => true) true false) rcon_config (Some empty_status, true, false) idle_state in
  events r = [EvRconStop; EvSignal 77 SIGTERM] /\ state (final r) = StateStopping.
Proof.
  destruct (idle_server_sleeps (mkEnv (100 * second) (fun _ _ => true) true false) rcon_config idle_state empty_status false)
    as (He & Hs & _).
  - reflexivity.
  - split_and!; [reflexivity|discriminate|reflexivity|discriminate|].
    exists 0. split; [reflexivity|vm_compute; congruence].
  - vm_compute; congruence.
  - split; [exact He|exact Hs].
Defined.

(** ** A start that cannot succeed *)

(** The server counts as starting and no process is known. *)
Definition stuck (s : ServerState) : Prop := state s = StateStarting /\ pid s = 0.

Lemma stuck_Stop env config s :
  ControllerManaged (Config_Server config) = false -> stuck s -> Stop env config s = (false, s, []).
Proof.
  intros Hcm [Hs Hp]. destruct s. cbn in Hs, Hp. subst. unfold Stop. rewrite Hcm.
  by destruct (FreezeProcess (Config_Server config)).
Qed.

Definition owned_config : Config := sample_config false false false.

(** A client's start, and a command that cannot be started. *)
Definition spawn_failed : list Act :=
  [ANew KClient] ++ burst 0 (at_time 1) 5 ++ burst 1 (at_time 2) 1.

(** A start whose command cannot be spawned is never given up. When the
    process of an owned server fails to spawn, the server stays "starting" for
    good: no goroutine is left to change it, failed polls leave it alone, even
    after the start timeout (there is no process to kill), a client's start
    request is refused because the server is not stopped, and a stop request
    fails. *)
Theorem spawn_failure_stuck :
  (exists sys, reachable owned_config 0 sys /\ Forall (fun th => finished th = true) (threads sys) /\ stuck (srv sys))
  /\ forall config env fb s, ControllerManaged (Config_Server config) = false -> stuck s ->
       monitor_round env config (None, false, fb) s = (tt, s, [])
       /\ Start env config s = (false, s, []) /\ Stop env config s = (false, s, []).
Proof.
  split.
  - exists (run_of owned_config spawn_failed). split; [apply run_of_reachable; run_exists|].
    split; [vm_compute; by repeat constructor|split; vm_compute; reflexivity].
  - intros config env fb s Hcm Hst. destruct (Hst) as [Hs Hp]. split_and!.
    + assert (round_head env config (None, false, fb) s = (false, s, [])) as Eh.
      { unfold round_head, ShouldSleep, gets, mbind, Op_bind. rewrite observe_eq. unfold observed, polled.
        rewrite Hs. cbv beta iota. rewrite Hcm, Hs. by rewrite decide_True. }
      rewrite monitor_round_split. unfold mbind, Op_bind. rewrite Eh, round_tail_eq, Hcm, Hp.
      by destruct (overdue env s).
    + unfold Start. rewrite Hcm. cbn [andb]. unfold mbind at 1, Op_bind at 1. rewrite updateStateFrom_eq.
      unfold moves. by rewrite Hs.
    + by apply stuck_Stop.
Qed.

(** ** Two server processes *)

(** A goroutine that waits for its child. *)
Definition waits (th : Thread) : bool := match code th with Do WaitChild _ => true | _ => false end.

(** The server is started with pid 77; one poll succeeds, the next one fails
    although the process is alive; the next client starts it again, with pid 88. *)
Definition two_processes : list Act :=
  [ANew KClient] ++ burst 0 (at_time 1) 5 ++ burst 1 (child_at 2 77) 2
  ++ [ANew KRound] ++ burst 2 (poll_up 3) 15 ++ [ANew KRound] ++ burst 3 (at_time 4) 9
  ++ [ANew KClient] ++ burst 4 (at_time 5) 5 ++ burst 5 (child_at 6 88) 2.

(** A second server process can be started beside the first. A poll that
    fails while the owned process is alive marks the server as stopped, so the
    next client starts the command again: two server processes run and only the
    newer pid is known. When the older one then exits, the recorded pid is
    cleared although the newer process is still running. *)
Lemma second_process_reachable :
  (exists sys, reachable owned_config 0 sys
     /\ map stage (List.filter waits (threads sys)) = [Running 0 77; Running 0 88] /\ pid (srv sys) = 88)
  /\ exists sys, reachable owned_config 0 sys
     /\ map stage (List.filter waits (threads sys)) = [Running 0 88] /\ pid (srv sys) = 0.
Proof.
  split; [exists (run_of owned_config two_processes)|exists (run_of owned_config (two_processes ++ burst 1 (at_time 7) 2))];
    (split; [apply run_of_reachable; run_exists|vm_compute; auto]).
Qed.
