(* ===== verification/Races.v ===== *)
(** State changes that overlap. Only the swap of the state runs under
    [stateMu]; the broadcast, the kill time and the activity are written
    afterwards, each under its own lock. When the sections of two changes
    interleave, the older change can overwrite the newer one's kill time and
    its message to the subscribers: the consistency that [Lifecycle] proves for
    changes that do not overlap fails, in a run of the whole program. *)
From S2P Require Import Prelude Packet Config Net Packets Access Process Nbt JoinGame ServerState Monitor Sections Rounds Lifecycle Owned.

(** Five players are online. *)
Definition busy_status : ServerStatus := mkServerStatus (mkServerVersion [] 0) (mkOnlinePlayers 20 5 []) [] None [].

(** C40: an outdated deadline can survive and kill a healthy server. There is
    a run of the whole program, from its start, in which a client's start
    (stopped to starting) overlaps with a successful poll (starting to
    started); every operation has run to its end except the goroutine of the
    command, which waits for the live process 77. The server is started and 77
    is its recorded pid, yet the kill time of the start is armed and the
    subscriber's channel says starting. When that time comes, the monitor sends
    SIGKILL to the healthy server even though its poll just reported players
    online. *)
Theorem stale_deadline_kills :
  exists sys, reachable owned_config 0 sys
    /\ map stage (List.filter (fun th => negb (finished th)) (threads sys)) = [Running 0 77]
    /\ state (srv sys) = StateStarted /\ pid (srv sys) = 77
    /\ killAt (srv sys) = Some (300 * second) /\ subs (srv sys) = [Some StateStarting]
    /\ events (monitor_round (env_at (300 * second)) owned_config (Some busy_status, true, false) (srv sys))
       = [EvSignal 77 SIGKILL].
Proof.
  exists (run_of owned_config stale_start). split; [apply run_of_reachable; run_exists|].
  split_and!; vm_compute; reflexivity.
Qed.
