(* ===== verification/Admission.v ===== *)
(** Admission of public connections and their routing: the first half of
    [src/service_server.go].

    The two semaphores are channels of empty structs, so a channel is the
    number of values it holds. [connectionAdmission] objects are shared by
    pointer (the configuration and the global [activeAdmission] point to the
    same one), so they live in a heap and the pointers are locations. *)
From stdpp Require Import gmap.
From S2P Require Import Prelude Packet Packets Config Net Access ServerState Proxy.

Definition maxStatusClients : nat := 128.
Definition maxProxyClients : nat := 256.

(** ** The semaphores *)

Record connectionAdmission := mkAdmission { adm_status : nat; adm_proxy : nat }.

Definition newConnectionAdmission : connectionAdmission := mkAdmission 0 0.

Definition acquireStatus (a : connectionAdmission) : bool * connectionAdmission :=
  if (adm_status a <? maxStatusClients)%nat then (true, mkAdmission (S (adm_status a)) (adm_proxy a)) else (false, a).

Definition releaseStatus (a : connectionAdmission) : connectionAdmission :=
  match adm_status a with O => a | S n => mkAdmission n (adm_proxy a) end.

Definition acquireProxy (a : connectionAdmission) : bool * connectionAdmission :=
  if (adm_proxy a <? maxProxyClients)%nat then (true, mkAdmission (adm_status a) (S (adm_proxy a))) else (false, a).

Definition releaseProxy (a : connectionAdmission) : connectionAdmission :=
  match adm_proxy a with O => a | S n => mkAdmission (adm_status a) n end.

(** ** Pointers *)

Definition Loc : Type := nat.

(** The process-wide part of the service: the allocated admission objects, the
    [admission] field of the configuration and the global [activeAdmission]. *)
Record Edge := mkEdge {
  heap : gmap Loc connectionAdmission;
  config_admission : option Loc;
  activeAdmission : option Loc }.

(** Before [Service] runs. *)
Definition initial_edge : Edge := mkEdge ∅ None None.

(** The part of [Service] that installs the admission object. *)
Definition install_admission (e : Edge) : Edge :=
  let l := fresh (dom (heap e)) in
  mkEdge (<[l := newConnectionAdmission]> (heap e)) (Some l) (Some l).

(** [admissionFor]; [with_config] is whether the configuration is passed (the
    queued route passes [nil]). *)
Definition admissionFor (with_config : bool) (e : Edge) : option Loc :=
  match config_admission e with
  | Some l => if with_config then Some l else activeAdmission e
  | None => activeAdmission e
  end.

(** A semaphore operation through a pointer. *)
Definition acquire (f : connectionAdmission -> bool * connectionAdmission) (p : option Loc) (e : Edge) : bool * Edge :=
  match p with
  | None => (true, e)
  | Some l =>
      match heap e !! l with
      | None => (true, e) (* never: pointers are to allocated objects *)
      | Some a => let '(ok, a') := f a in (ok, mkEdge (<[l := a']> (heap e)) (config_admission e) (activeAdmission e))
      end
  end.

Definition release (f : connectionAdmission -> connectionAdmission) (p : option Loc) (e : Edge) : Edge :=
  match p with
  | None => e
  | Some l => mkEdge (alter f l (heap e)) (config_admission e) (activeAdmission e)
  end.

(** ** Routes *)

(** A spawned goroutine, with the admission it captured. *)
Inductive TaskKind :=
| StatusTask                                              (* Serve *)
| ProxyTask (h : ProxyHeader) (addr : SocketAddr) (queue : bytes). (* Proxy, ProxyWithQueue *)

Record Task := mkTask { task_kind : TaskKind; task_admission : option Loc }.

(** The result of a route is the started task, or [None] when the connection
    is closed at once. *)
Definition routeStatus (e : Edge) : option Task * Edge :=
  let p := admissionFor true e in
  let '(ok, e) := acquire acquireStatus p e in
  (if ok : bool then Some (mkTask StatusTask p) else None, e).

Definition routeProxy (config : Config) (e : Edge) : option Task * Edge :=
  let p := admissionFor true e in
  let '(ok, e) := acquire acquireProxy p e in
  let task := ProxyTask (NotNone ProxyHeaderProxy (Server_SendProxyV2 (Config_Server config)))
                (Server_Address (Config_Server config)) [] in
  (if ok : bool then Some (mkTask task p) else None, e).

Definition routeProxyAddressQueue (h : ProxyHeader) (addr : SocketAddr) (queue : bytes) (e : Edge) : option Task * Edge :=
  let p := admissionFor false e in
  let '(ok, e) := acquire acquireProxy p e in
  (if ok : bool then Some (mkTask (ProxyTask h addr queue) p) else None, e).

Definition routeProxyQueue (config : Config) (queue : bytes) (e : Edge) : option Task * Edge :=
  routeProxyAddressQueue (NotNone ProxyHeaderProxy (Server_SendProxyV2 (Config_Server config)))
    (Server_Address (Config_Server config)) queue e.

Definition shouldRouteDirectProxy (config : Config) (server : ServerState) (is_banned : bool) : bool :=
  negb is_banned && bool_decide (result (GetState server) = StateStarted)
  && negb (Lockout_Enabled (Config_Lockout config)) && negb (OnlineMode (Config_Auth config)).

(** [route]; [peer] is the text of the remote address, [None] when there is
    none. *)
Definition route (env : Env) (config : Config) (server : ServerState) (peer : option bytes) (e : Edge) : option Task * Edge :=
  match peer with
  | None => (None, e)
  | Some peer =>
      let is_banned := result (IsBannedIP env (peerIP peer) server) in
      if is_banned && DropBannedIps (Config_Server config) then (None, e)
      else if shouldRouteDirectProxy config server is_banned then routeProxy config e
      else routeStatus e
  end.

(** The deferred release of a finished task. *)
Definition task_end (t : Task) (e : Edge) : Edge :=
  match task_kind t with
  | StatusTask => release releaseStatus (task_admission t) e
  | ProxyTask _ _ _ => release releaseProxy (task_admission t) e
  end.

(** ** The service as a transition system

    [Accepted] is an accepted connection (in whatever server state and at
    whatever time), [Queued] is a status task that hands its client over to
    the proxy, [Ended] is the end of the [i]-th live task. *)
Record Gateway := mkGateway { edge : Edge; tasks : list Task }.

Definition spawn (r : option Task * Edge) (g : Gateway) : Gateway :=
  mkGateway (snd r) (match fst r with Some t => tasks g ++ [t] | None => tasks g end).

Inductive gateway_step (config : Config) : Gateway -> Gateway -> Prop :=
| Accepted env server peer g : gateway_step config g (spawn (route env config server peer (edge g)) g)
| Queued h addr queue g i p : tasks g !! i = Some (mkTask StatusTask p) ->
    gateway_step config g (spawn (routeProxyAddressQueue h addr queue (edge g)) g)
| Ended g i t : tasks g !! i = Some t -> gateway_step config g (mkGateway (task_end t (edge g)) (delete i (tasks g))).

(** The gateway when [Service] starts to accept connections. *)
Definition initial_gateway : Gateway := mkGateway (install_admission initial_edge) [].

Inductive gateway_reachable (config : Config) : Gateway -> Prop :=
| gateway_start : gateway_reachable config initial_gateway
| gateway_next g g' : gateway_reachable config g -> gateway_step config g g' -> gateway_reachable config g'.

(** ** The accounting invariant *)

Definition is_status (t : Task) : bool := match task_kind t with StatusTask => true | _ => false end.

Fixpoint count (f : Task -> bool) (l : list Task) : nat :=
  match l with [] => 0 | t :: l' => (if f t then S (count f l') else count f l') end.

Definition live_status (g : Gateway) : nat := count is_status (tasks g).
Definition live_proxy (g : Gateway) : nat := count (fun t => negb (is_status t)) (tasks g).

(** Both pointers are to one object, every task captured it, and its counters
    are the numbers of live tasks, within the limits. *)
Definition accounted (g : Gateway) : Prop :=
  exists l, config_admission (edge g) = Some l /\ activeAdmission (edge g) = Some l
    /\ heap (edge g) !! l = Some (mkAdmission (live_status g) (live_proxy g))
    /\ Forall (fun t => task_admission t = Some l) (tasks g)
    /\ (live_status g <= maxStatusClients)%nat /\ (live_proxy g <= maxProxyClients)%nat.

Lemma count_snoc f l t : count f (l ++ [t]) = if f t then S (count f l) else count f l.
Proof. induction l as [|x l IH]; simpl; [done|]. rewrite IH. by destruct (f x), (f t). Qed.

Lemma count_delete f l i t :
  l !! i = Some t -> count f l = if f t then S (count f (delete i l)) else count f (delete i l).
Proof.
  revert i. induction l as [|x l IH]; intros [|i] Hi; simplify_eq/=; [done|].
  rewrite (IH i Hi). by destruct (f x), (f t).
Qed.

Lemma admissionFor_accounted g b l :
  config_admission (edge g) = Some l -> activeAdmission (edge g) = Some l -> admissionFor b (edge g) = Some l.
Proof. unfold admissionFor. intros -> ->. by destruct b. Qed.

(** A spawned status task is counted, a refused one changes nothing. *)
Lemma spawn_status_accounted g :
  accounted g -> accounted (spawn (routeStatus (edge g)) g)
  /\ (fst (routeStatus (edge g)) = None <-> live_status g = maxStatusClients).
Proof.
  intros (l & Hc & Ha & Hl & Ht & Hs & Hp). unfold routeStatus.
  rewrite (admissionFor_accounted g true l) by done.
  unfold acquire, acquireStatus. rewrite Hl. cbn [adm_status adm_proxy].
  destruct (Nat.ltb_spec (live_status g) maxStatusClients) as [Hlt|Hge]; cbn [fst snd].
  - split; [|split; [done|lia]]. exists l. unfold spawn, live_status, live_proxy in *. cbn [edge tasks heap config_admission activeAdmission fst snd].
    rewrite !count_snoc. cbn [is_status task_kind negb]. split_and!; try done; [apply lookup_insert_eq|].
    by apply Forall_app_2, Forall_singleton.
  - split; [|split; [lia|done]]. exists l. unfold spawn, live_status, live_proxy in *. cbn [edge tasks heap config_admission activeAdmission fst snd].
    split_and!; try done. by rewrite insert_id.
Qed.

Lemma spawn_proxy_accounted g b h addr queue :
  accounted g ->
  let r := let p := admissionFor b (edge g) in
           let '(ok, e) := acquire acquireProxy p (edge g) in
           (if ok : bool then Some (mkTask (ProxyTask h addr queue) p) else None, e) in
  accounted (spawn r g) /\ (fst r = None <-> live_proxy g = maxProxyClients).
Proof.
  intros (l & Hc & Ha & Hl & Ht & Hs & Hp).
  rewrite (admissionFor_accounted g b l) by done. cbn zeta.
  unfold acquire, acquireProxy. rewrite Hl. cbn [adm_status adm_proxy].
  destruct (Nat.ltb_spec (live_proxy g) maxProxyClients) as [Hlt|Hge]; cbn [fst snd].
  - split; [|split; [done|lia]]. exists l. unfold spawn, live_status, live_proxy in *. cbn [edge tasks heap config_admission activeAdmission fst snd].
    rewrite !count_snoc. cbn [is_status task_kind negb]. split_and!; try done; [apply lookup_insert_eq|].
    by apply Forall_app_2, Forall_singleton.
  - split; [|split; [lia|done]]. exists l. unfold spawn, live_status, live_proxy in *. cbn [edge tasks heap config_admission activeAdmission fst snd].
    split_and!; try done. by rewrite insert_id.
Qed.

Lemma end_accounted g i t :
  accounted g -> tasks g !! i = Some t -> accounted (mkGateway (task_end t (edge g)) (delete i (tasks g))).
Proof.
  intros (l & Hc & Ha & Hl & Ht & Hs & Hp) Hi. exists l.
  assert (task_admission t = Some l) as Et by (by eapply Forall_lookup_1 in Ht).
  pose proof (count_delete is_status _ _ _ Hi) as Cs.
  pose proof (count_delete (fun t => negb (is_status t)) _ _ _ Hi) as Cp.
  unfold live_status, live_proxy, task_end, release in *. rewrite Et.
  destruct (is_status t) eqn:E; unfold is_status in E; destruct (task_kind t); try done;
    cbn [negb edge tasks config_admission activeAdmission heap] in *;
    rewrite Cs in Hl, Hs; rewrite Cp in Hl, Hp; split_and!; try done; try lia;
    try (by apply Forall_delete); by rewrite lookup_alter_eq, Hl.
Qed.

Lemma step_accounted config g g' : accounted g -> gateway_step config g g' -> accounted g'.
Proof.
  intros Hg Hs. revert Hg. destruct Hs as [env server peer g|h addr queue g i p Hi|g i t Hi]; intros Hg.
  - unfold route. destruct peer as [peer|]; [|destruct g; exact Hg].
    destruct (_ && _); [destruct g; exact Hg|].
    destruct (shouldRouteDirectProxy _ _ _); [by apply (spawn_proxy_accounted _ true)|by apply spawn_status_accounted].
  - by apply (spawn_proxy_accounted _ false).
  - by apply end_accounted.
Qed.

Lemma initial_accounted : accounted initial_gateway.
Proof.
  exists (fresh (dom (heap initial_edge))). split_and!; [done|done|apply lookup_insert_eq|constructor|vm_compute; lia..].
Qed.

Lemma reachable_accounted config g : gateway_reachable config g -> accounted g.
Proof. induction 1 as [|g g' _ IH Hs]; [apply initial_accounted|by eapply step_accounted]. Qed.

(** C16: admission bounds the public edge exactly. In every reachable state of
    the service at most 128 connections are being served and at most 256 are
    being proxied, however accepts, hand-overs and ends interleave; the two
    semaphores count exactly the live tasks, so no slot is ever lost or
    released twice; and a new status or proxy connection is refused if and
    only if its limit is reached. *)
Theorem admission_exact (config : Config) (g : Gateway) :
  gateway_reachable config g ->
  (live_status g <= 128)%nat /\ (live_proxy g <= 256)%nat
  /\ (exists l, admissionFor true (edge g) = Some l /\ admissionFor false (edge g) = Some l
        /\ heap (edge g) !! l = Some (mkAdmission (live_status g) (live_proxy g)))
  /\ (fst (routeStatus (edge g)) = None <-> live_status g = 128%nat)
  /\ (fst (routeProxy config (edge g)) = None <-> live_proxy g = 256%nat)
  /\ (forall h addr queue, fst (routeProxyAddressQueue h addr queue (edge g)) = None <-> live_proxy g = 256%nat).
Proof.
  intros Hg. apply reachable_accounted in Hg. split_and!.
  - by destruct Hg as (l & _ & _ & _ & _ & Hs & _).
  - by destruct Hg as (l & _ & _ & _ & _ & _ & Hp).
  - destruct Hg as (l & Hc & Ha & Hl & _). exists l. by rewrite !(admissionFor_accounted g _ l).
  - by apply spawn_status_accounted.
  - by apply (spawn_proxy_accounted _ true).
  - intros h addr queue. by apply (spawn_proxy_accounted _ false).
Qed.

(** A client is being served, hands over to a proxy task, and its first task
    ends. *)
Definition served : Gateway :=
  spawn (route (mkEnv 0 (fun _ _ => true) false false) (sample_config false false false) NewServerState
    (Some (str "10.0.0.7:4000")) (edge initial_gateway)) initial_gateway.
Definition queued : Gateway :=
  spawn (routeProxyAddressQueue ProxyHeaderNone (mkSocketAddr (IPv4 x7f x00 x00 x01) 25566) [] (edge served)) served.
Definition handed_over : Gateway :=
  mkGateway (task_end (mkTask StatusTask (Some 0%nat)) (edge queued)) (delete 0%nat (tasks queued)).

Lemma admission_exact_witness :
  live_status handed_over = 0%nat /\ live_proxy handed_over = 1%nat
  /\ (fst (routeStatus (edge handed_over)) = None <-> live_status handed_over = 128%nat).
Proof.
  split; [vm_compute; reflexivity|]. split; [vm_compute; reflexivity|].
  apply (admission_exact (sample_config false false false) handed_over).
  apply (gateway_next _ queued); [apply (gateway_next _ served); [apply (gateway_next _ initial_gateway)|]|].
  - apply gateway_start.
  - apply Accepted.
  - apply (Queued _ _ _ _ served 0 (Some 0%nat)). vm_compute. reflexivity.
  - apply (Ended _ queued 0). vm_compute. reflexivity.
Defined.
