(* ===== verification/Status.v ===== *)
(** Serving a connection while the server is not proxied directly:
    [src/status.go], with the favicon of [src/mc/favicon.go].

    The embedded default icon and the server's icon file are arguments. The
    answers of the connection to the writes of [Serve] are a list; an exhausted
    list means that writes succeed. *)
From S2P Require Import Prelude VarInt Wire Packet Stream Config Net Json Packets JsonText StatusJson Access Process Nbt JoinGame ServerState.

(** ** Favicon *)

Definition faviconProtocolVersion : Z := 4.

Definition SupportsFavicon (protocol : option Z) : bool :=
  match protocol with None => true | Some p => faviconProtocolVersion <=? p end.

(** The 64 digits of [base64.StdEncoding]. *)
Definition base64_char (v : Z) : byte :=
  if v <? 26 then z2b (0x41 + v)
  else if v <? 52 then z2b (0x61 + v - 26)
  else if v <? 62 then z2b (0x30 + v - 52)
  else if v =? 62 then x2b else x2f.

Fixpoint base64 (d : bytes) : bytes :=
  match d with
  | a :: b :: c :: d' =>
      let v := be_val [a; b; c] in
      [base64_char (v / 2 ^ 18); base64_char (v / 2 ^ 12 mod 64); base64_char (v / 2 ^ 6 mod 64); base64_char (v mod 64)]
      ++ base64 d'
  | [a; b] =>
      let v := be_val [a; b; x00] in
      [base64_char (v / 2 ^ 18); base64_char (v / 2 ^ 12 mod 64); base64_char (v / 2 ^ 6 mod 64); x3d]
  | [a] =>
      let v := be_val [a; x00; x00] in
      [base64_char (v / 2 ^ 18); base64_char (v / 2 ^ 12 mod 64); x3d; x3d]
  | [] => []
  end.

Definition EncodeFavicon (data : bytes) : bytes := str "data:image/png;base64," ++ base64 data.

(** [serverFavicon]: [icon] is the content of server-icon.png when it is a
    readable regular file. *)
Definition serverFavicon (defaultPNG : bytes) (icon : option bytes) : bytes :=
  match icon with Some data => EncodeFavicon data | None => EncodeFavicon defaultPNG end.

(** ** The status response *)

Definition statusForgeData (st : option ServerStatus) : bytes :=
  match st with None => [] | Some s => ForgeData s end.

Definition serverStatusResponse (defaultPNG : bytes) (icon : option bytes)
    (clientInfo : ClientInfo) (config : Config) (server : ServerState) : ServerStatus :=
  let st := status server in
  match state server, st with
  | StateStarted, Some s => s
  | serverState, _ =>
      let version := match st with
                     | Some s => Version s
                     | None => mkServerVersion (Public_Version (Config_Public config)) (Public_Protocol (Config_Public config))
                     end in
      let max := match st with Some s => Max (Players s) | None => 0 end in
      let configured := match serverState with
                        | StateStopped | StateStarted => Motd_Sleeping (Config_Motd config)
                        | StateStarting => Motd_Starting (Config_Motd config)
                        | StateStopping => Motd_Stopping (Config_Motd config)
                        end in
      let description := match st with
                         | Some s => if FromServer (Config_Motd config) then Description s else configured
                         | None => configured
                         end in
      let favicon :=
        if SupportsFavicon (GetProtocol clientInfo) then
          let known := match st with
                       | Some s => if FromServer (Config_Motd config) then Favicon s else None
                       | None => None
                       end in
          match known with
          | Some f => Some f
          | None => Some (serverFavicon defaultPNG icon)
          end
        else None in
      {| Version := version;
         Players := mkOnlinePlayers max 0 [];
         Description := description;
         Favicon := favicon;
         ForgeData := statusForgeData st |}
  end.

(** ** Serve *)

Definition banMessagePrefix : bytes := str "Your IP address is banned from this server." ++ [x0a] ++ str "Reason: ".
Definition whitelistMessage : bytes := str "You are not white-listed on this server!".

(** The local variables of [Serve], with what it wrote to the client and did
    to the server state so far. *)
Record Serving := mkServing {
  sv_client : Client;
  sv_info : ClientInfo;
  sv_history : bytes;
  sv_server : ServerState;
  sv_events : list Event;
  sv_out : list bytes;
  sv_answers : list bool }.

(** What happens after a packet: read the next one, close the connection, or
    hand the client over to [Occupy] with its history and login queue. *)
Inductive Next :=
| Continue (v : Serving)
| Break (v : Serving)
| Occupied (v : Serving) (history queue : bytes).

(** [inbound.Write]: the bytes count as written when the write succeeds. *)
Definition write (b : bytes) (v : Serving) : bool * Serving :=
  match sv_answers v with
  | false :: l => (false, mkServing (sv_client v) (sv_info v) (sv_history v) (sv_server v) (sv_events v) (sv_out v) l)
  | l => (true, mkServing (sv_client v) (sv_info v) (sv_history v) (sv_server v) (sv_events v) (sv_out v ++ [b]) (tail l))
  end.

Definition set_info (i : ClientInfo) (v : Serving) : Serving :=
  mkServing (sv_client v) i (sv_history v) (sv_server v) (sv_events v) (sv_out v) (sv_answers v).

Section Serve.

Context `{ZL : Zlib}.
Context (defaultPNG : bytes) (icon : option bytes) (config : Config) (env : Env).

(** [proto.Kick] ignores a failed write. *)
Definition kick (msg : bytes) (v : Serving) : Serving :=
  match Kick (sv_client v) msg with
  | None => v
  | Some b => snd (write b v)
  end.

Definition serve_handshake (packet : RawPacket) (raw : bytes) (v : Serving) : Next :=
  match DecodeHandshake (Data packet) with
  | None => Break v
  | Some handshake =>
      let '(newState, ok) := FromID (cstate (sv_client v)) (NextState handshake) in
      if negb ok then Break v
      else
        let info := mkClientInfo (Some (u32 (ProtocolVersion handshake))) (Some handshake)
                      (Info_Username (sv_info v)) (Info_Profile (sv_info v)) in
        let history := if decide (newState = ClientStateLogin) then sv_history v ++ raw else sv_history v in
        Continue (mkServing (SetState newState (sv_client v)) info history (sv_server v) (sv_events v) (sv_out v) (sv_answers v))
  end.

Definition serve_status (v : Serving) : Next :=
  let st := serverStatusResponse defaultPNG icon (sv_info v) config (sv_server v) in
  match EncodeWithLen (NewRawPacket PacketClientStatusResponse (StringBytes (StatusResponseJSON st))) (sv_client v) with
  | None => Break v
  | Some response => let '(ok, v) := write response v in if ok then Continue v else Break v
  end.

Definition ban_in_force (server : ServerState) (ip : bytes) : option BannedIp :=
  match result (BanEntry ip server) with
  | Some ban => if entry_IsBanned (now env) ban then Some ban else None
  | None => None
  end.

Definition serve_login (packet : RawPacket) (raw buf : bytes) (v : Serving) : Next :=
  let v := match DecodeLoginStart (Data packet) with
           | Some l => set_info (mkClientInfo (Info_Protocol (sv_info v)) (Info_Handshake (sv_info v))
                                   (Some (LoginStart_Name l)) (Info_Profile (sv_info v))) v
           | None => v
           end in
  if Lockout_Enabled (Config_Lockout config) then Break (kick (Lockout_Message (Config_Lockout config)) v)
  else
    match ban_in_force (sv_server v) (peerIP (Peer (sv_client v))) with
    | Some ban => Break (kick (banMessagePrefix ++ default DefaultBanReason (Ban_Reason ban)) v)
    | None =>
        let allowed := match Info_Username (sv_info v) with
                       | Some u => result (IsWhitelisted u (sv_server v))
                       | None => true
                       end in
        if negb allowed then Break (kick whitelistMessage v)
        else
          let '(_, server, evs) :=
            if OnlineMode (Config_Auth config) then (true, sv_server v, []) else Start env config (sv_server v) in
          let v := mkServing (sv_client v) (sv_info v) (sv_history v) server (sv_events v ++ evs) (sv_out v) (sv_answers v) in
          Occupied v (sv_history v ++ raw ++ buf) (raw ++ buf)
    end.

(** One packet; [buf] is what is buffered behind it. *)
Definition serve_packet (packet : RawPacket) (raw buf : bytes) (v : Serving) : Next :=
  match cstate (sv_client v) with
  | ClientStateHandshake =>
      if decide (ID packet = PacketHandshake) then serve_handshake packet raw v else Continue v
  | ClientStateStatus =>
      if decide (ID packet = PacketServerStatusRequest) then serve_status v
      else if decide (ID packet = PacketServerPing) then
        let '(ok, v) := write raw v in if ok then Continue v else Break v
      else Continue v
  | ClientStateLogin =>
      if decide (ID packet = PacketServerLoginStart) then serve_login packet raw buf v else Continue v
  | ClientStatePlay => Continue v
  end.

(** How [Serve] ends, with the unread connection. *)
Inductive Served :=
| ServedClosed (v : Serving)
| ServedOccupied (v : Serving) (history queue : bytes) (conn : Conn)
| ServedOutOfFuel.

Fixpoint Serve (fuel : nat) (buf : bytes) (conn : Conn) (v : Serving) : Served :=
  match fuel with
  | O => ServedOutOfFuel
  | S fuel' =>
      match ReadPacket (sv_client v) buf conn with
      | (GotPacket packet raw, buf, conn) =>
          match serve_packet packet raw buf v with
          | Continue v => Serve fuel' buf conn v
          | Break v => ServedClosed v
          | Occupied v history queue => ServedOccupied v history queue conn
          end
      | (Diverges, _, _) => ServedOutOfFuel
      | _ => ServedClosed v
      end
  end.

(** The start of [Serve]. *)
Definition serving (client : Client) (server : ServerState) (answers : list bool) : Serving :=
  mkServing client EmptyClientInfo [] server [] [] answers.

(** ** Termination *)

(** Serving a connection ends: one round of the loop per byte of the
    stream is enough, whatever the client sends. *)
Theorem Serve_terminates (fuel : nat) (buf : bytes) (conn : Conn) (v : Serving) :
  (length (buf ++ conn_bytes conn) < fuel)%nat -> Serve fuel buf conn v <> ServedOutOfFuel.
Proof.
  revert buf conn v. induction fuel as [|fuel IH]; intros buf conn v Hl; [lia|]. cbn [Serve].
  destruct (ReadPacket (sv_client v) buf conn) as [[r b] k] eqn:E.
  destruct r as [p raw| |e|]; [|done|done|by apply ReadPacket_returns in E].
  assert (length (b ++ conn_bytes k) < fuel)%nat as Hl'.
  { pose proof (ReadPacket_conserves _ _ _ _ _ _ E) as Ec. cbn [result_raw] in Ec.
    pose proof (ReadPacket_progress _ _ _ _ _ _ _ E). apply (f_equal length) in Ec.
    rewrite length_app in Ec. destruct raw; [done|]. simpl in Ec. lia. }
  destruct (serve_packet p raw b v); [by apply IH|done|done].
Qed.

End Serve.

(** ** Who may wake the server *)

Section Access.

Context `{ZL : Zlib}.
Context (defaultPNG : bytes) (icon : option bytes) (config : Config) (env : Env).

(** The checks of [serve_login] that a client passed. *)
Definition admitted (v : Serving) (server : ServerState) : Prop :=
  Lockout_Enabled (Config_Lockout config) = false
  /\ ban_in_force env server (peerIP (Peer (sv_client v))) = None
  /\ (forall u, Info_Username (sv_info v) = Some u -> result (IsWhitelisted u server) = true).

Definition untouched (v v' : Serving) : Prop :=
  sv_server v' = sv_server v /\ sv_events v' = sv_events v /\ Peer (sv_client v') = Peer (sv_client v).

Lemma write_untouched b v : untouched v (snd (write b v)).
Proof. unfold write, untouched. by destruct (sv_answers v) as [|[] ?]. Qed.

Lemma kick_untouched msg v : untouched v (kick msg v).
Proof. unfold kick. destruct (Kick _ _); [apply write_untouched|done]. Qed.

Lemma serve_login_spec packet raw buf v :
  match serve_login config env packet raw buf v with
  | Continue v' => untouched v v'
  | Break v' => untouched v v'
  | Occupied v' h q =>
      admitted v' (sv_server v) /\ Peer (sv_client v') = Peer (sv_client v)
      /\ (OnlineMode (Config_Auth config) = true -> sv_server v' = sv_server v /\ sv_events v' = sv_events v)
      /\ h = sv_history v ++ raw ++ buf /\ q = raw ++ buf
  end.
Proof.
  unfold serve_login.
  set (v1 := match DecodeLoginStart (Data packet) with Some l => _ | None => v end).
  assert (sv_server v1 = sv_server v /\ sv_events v1 = sv_events v /\ sv_client v1 = sv_client v /\ sv_history v1 = sv_history v)
    as (Es & Ee & Ec & Eh) by (subst v1; by destruct (DecodeLoginStart _)).
  assert (forall msg, untouched v (kick msg v1)) as Hk.
  { intros msg. destruct (kick_untouched msg v1) as (K1 & K2 & K3). split_and!; congruence. }
  destruct (Lockout_Enabled (Config_Lockout config)) eqn:El; [apply Hk|].
  destruct (ban_in_force env (sv_server v1) (peerIP (Peer (sv_client v1)))) as [ban|] eqn:Eb; [apply Hk|].
  destruct (negb _) eqn:Ew; [apply Hk|].
  destruct (if OnlineMode _ then _ else _) as [[ok server] evs] eqn:Est. cbn.
  unfold admitted. cbn. split_and!; try congruence.
  - intros u Hu. rewrite <- Es. apply negb_false_iff in Ew. by rewrite Hu in Ew.
  - intros Hon. rewrite Hon in Est. injection Est as _ <- <-. by rewrite app_nil_r.
Qed.

Lemma serve_packet_spec packet raw buf v :
  match serve_packet defaultPNG icon config env packet raw buf v with
  | Continue v' => untouched v v'
  | Break v' => untouched v v'
  | Occupied v' h q =>
      admitted v' (sv_server v) /\ Peer (sv_client v') = Peer (sv_client v)
      /\ (OnlineMode (Config_Auth config) = true -> sv_server v' = sv_server v /\ sv_events v' = sv_events v)
      /\ h = sv_history v ++ raw ++ buf /\ q = raw ++ buf
  end.
Proof.
  unfold serve_packet.
  assert (forall b, match (let '(ok, v') := write b v in if ok : bool then Continue v' else Break v') with
                    | Continue v' => untouched v v' | Break v' => untouched v v' | Occupied _ _ _ => False end) as Hw.
  { intros b. pose proof (write_untouched b v). by destruct (write b v) as [[] v']. }
  destruct (cstate (sv_client v)).
  - case_decide; [|done]. unfold serve_handshake. destruct (DecodeHandshake _); [|done].
    destruct (FromID _ _) as [ns []]; done.
  - case_decide.
    + unfold serve_status. destruct (EncodeWithLen _ _) as [b|]; [|done].
      specialize (Hw b). by destruct (write b v) as [[] v'].
    + case_decide; [|done]. specialize (Hw raw). by destruct (write raw v) as [[] v'].
  - case_decide; [apply serve_login_spec|done].
  - done.
Qed.

Lemma Serve_admits (fuel : nat) (buf : bytes) (conn : Conn) (v : Serving) :
  match Serve defaultPNG icon config env fuel buf conn v with
  | ServedClosed v' => untouched v v'
  | ServedOccupied v' _ _ _ =>
      admitted v' (sv_server v) /\ Peer (sv_client v') = Peer (sv_client v)
      /\ (OnlineMode (Config_Auth config) = true -> sv_server v' = sv_server v /\ sv_events v' = sv_events v)
  | ServedOutOfFuel => True
  end.
Proof.
  revert buf conn v. induction fuel as [|fuel IH]; intros buf conn v; cbn [Serve]; [done|].
  destruct (ReadPacket (sv_client v) buf conn) as [[[p raw| |e|] b] k]; try done.
  pose proof (serve_packet_spec p raw b v) as Hp.
  destruct (serve_packet defaultPNG icon config env p raw b v) as [v1|v1|v1 h q].
  - destruct Hp as (E1 & E2 & E3). specialize (IH b k v1). destruct (Serve _ _ _ _ fuel b k v1) as [v2|v2 h q k2|]; [..|done].
    + unfold untouched. by rewrite <- E1, <- E2, <- E3.
    + by rewrite <- E1, <- E2, <- E3.
  - done.
  - by destruct Hp as (Ha & Hpe & Ho & _).
Qed.

(** C11: only an admitted client can wake the server. Whatever a client sends,
    serving it leaves the server state alone and causes no event, unless the
    client is handed over to the join methods; and then lockout is off, its IP
    is not banned, the username it gave (if it could be read) is whitelisted,
    and in online mode the server has still not been started: the start waits
    for the authenticated login. *)
Theorem wake_requires_admission (fuel : nat) (buf : bytes) (conn : Conn) (v : Serving) :
  match Serve defaultPNG icon config env fuel buf conn v with
  | ServedClosed v' => sv_server v' = sv_server v /\ sv_events v' = sv_events v
  | ServedOccupied v' _ _ _ =>
      admitted v' (sv_server v)
      /\ (OnlineMode (Config_Auth config) = true -> sv_server v' = sv_server v /\ sv_events v' = sv_events v)
  | ServedOutOfFuel => True
  end.
Proof.
  pose proof (Serve_admits fuel buf conn v) as H.
  destruct (Serve defaultPNG icon config env fuel buf conn v) as [v'|v' h q k|]; [|by destruct H as (Ha & _ & Ho)|done].
  by destruct H as (E1 & E2 & _).
Qed.

End Access.

(** ** A login is handed over byte for byte *)

Section Handover.

Context `{ZL : Zlib} `{!ZlibLaws ZL}.
Context (defaultPNG : bytes) (icon : option bytes) (config : Config) (env : Env).

(** A handshake that asks for the login state. *)
Definition login_handshake (p : RawPacket) (h : Handshake) : Prop :=
  ID p = PacketHandshake /\ DecodeHandshake (Data p) = Some h /\ NextState h = 2 /\ Zlen (payload_of p) < 2 ^ 14.

Definition login_start (p : RawPacket) : Prop := ID p = PacketServerLoginStart /\ Zlen (payload_of p) < 2 ^ 14.

(** The username of a login start packet, when it can be read. *)
Definition login_name (p : RawPacket) : option bytes := LoginStart_Name <$> DecodeLoginStart (Data p).

Lemma serve_login_admits packet raw buf v :
  Lockout_Enabled (Config_Lockout config) = false ->
  ban_in_force env (sv_server v) (peerIP (Peer (sv_client v))) = None ->
  Info_Username (sv_info v) = None ->
  (forall u, login_name packet = Some u -> result (IsWhitelisted u (sv_server v)) = true) ->
  exists v', serve_login config env packet raw buf v = Occupied v' (sv_history v ++ raw ++ buf) (raw ++ buf)
    /\ (sv_server v', sv_events v') =
       if OnlineMode (Config_Auth config) then (sv_server v, sv_events v)
       else (final (Start env config (sv_server v)), sv_events v ++ events (Start env config (sv_server v))).
Proof.
  intros Hl Hb Hn Hw. unfold serve_login, login_name in *.
  destruct (DecodeLoginStart (Data packet)) as [l|]; cbn [set_info sv_server sv_client sv_info sv_history sv_events Info_Username].
  - rewrite Hl, Hb, (Hw (LoginStart_Name l) eq_refl). cbn [negb].
    destruct (OnlineMode _); [eexists; by rewrite app_nil_r|].
    unfold final, events. destruct (Start env config (sv_server v)) as [[? ?] ?]. by eexists.
  - rewrite Hl, Hb, Hn. cbn [negb].
    destruct (OnlineMode _); [eexists; by rewrite app_nil_r|].
    unfold final, events. destruct (Start env config (sv_server v)) as [[? ?] ?]. by eexists.
Qed.

(** A joining client is handed over without losing a byte. A client that
    sends a login handshake and a login start, in any segmentation and with
    anything behind them, and passes the access checks, ends up at the join
    methods: the recorded history followed by what is still unread on the
    connection is exactly the byte stream the client sent, the login queue is
    that stream from the login start on, and (outside online mode) the server
    has been asked to start. *)
Lemma login_handover (peer : bytes) (server : ServerState) (answers : list bool)
    (hs ls : RawPacket) (h : Handshake) (conn : Conn) (tail : bytes) (fuel : nat) :
  login_handshake hs h -> login_start ls -> clean conn ->
  conn_bytes conn = frame_of hs ++ frame_of ls ++ tail ->
  Lockout_Enabled (Config_Lockout config) = false ->
  ban_in_force env server (peerIP peer) = None ->
  (forall u, login_name ls = Some u -> result (IsWhitelisted u server) = true) ->
  exists v' history queue conn',
    Serve defaultPNG icon config env (S (S fuel)) [] conn (serving (NewClient peer) server answers)
    = ServedOccupied v' history queue conn'
    /\ history ++ conn_bytes conn' = conn_bytes conn
    /\ queue ++ conn_bytes conn' = frame_of ls ++ tail
    /\ (sv_server v', sv_events v') =
       if OnlineMode (Config_Auth config) then (server, [])
       else (final (Start env config server), events (Start env config server)).
Proof.
  intros (Hid & Hdec & Hnext & Hlen) (Hlid & Hllen) Hcl Hs Hlock Hban Hwl.
  assert (0 <= MaxBufferedBytes) as Hmax by (rewrite MaxBufferedBytes_eq; lia).
  destruct (ReadPacket_frame hs (NewClient peer) (frame_of ls ++ tail) [] conn) as (b1 & k1 & Er1 & Hs1 & Hc1); [done..|].
  set (v0 := serving (NewClient peer) server answers).
  set (v1 := mkServing (SetState ClientStateLogin (NewClient peer)) (mkClientInfo (Some (u32 (ProtocolVersion h))) (Some h) None None)
               (frame_of hs) server [] [] answers).
  assert (serve_packet defaultPNG icon config env hs (frame_of hs) b1 v0 = Continue v1) as E1.
  { unfold serve_packet. cbn [v0 serving sv_client cstate NewClient]. rewrite decide_True by done.
    unfold serve_handshake. rewrite Hdec, Hnext. reflexivity. }
  assert (Zlen b1 <= MaxBufferedBytes) as Hb1 by (by eapply ReadPacket_bound; [exact Er1|]).
  destruct (ReadPacket_frame ls (sv_client v1) tail b1 k1) as (b2 & k2 & Er2 & Hs2 & Hc2); [done..|].
  destruct (serve_login_admits ls (frame_of ls) b2 v1 Hlock Hban eq_refl Hwl) as (v' & El & Hv').
  assert (serve_packet defaultPNG icon config env ls (frame_of ls) b2 v1
          = Occupied v' (frame_of hs ++ frame_of ls ++ b2) (frame_of ls ++ b2)) as E2.
  { unfold serve_packet. cbn [v1 sv_client cstate SetState]. by rewrite decide_True. }
  cbn [Serve]. change (sv_client v0) with (NewClient peer). rewrite Er1, E1. cbn [Serve]. rewrite Er2, E2.
  eexists v', _, _, k2. split; [done|]. rewrite Hs, <- !app_assoc, Hs2. done.
Qed.

End Handover.

(** The stream of a client "Steve" that connects to log in. *)
Definition steve_handshake : RawPacket :=
  NewRawPacket PacketHandshake (Bytes (NewPacketWriter |> Handshake_Encode (mkHandshake 763 (str "localhost") 25565 2))).
Definition login_of (name : bytes) : RawPacket :=
  NewRawPacket PacketServerLoginStart (Bytes (NewPacketWriter |> LoginStart_Encode (mkLoginStart name))).
Definition client_stream (name : bytes) : Conn :=
  [mkEvent (frame_of steve_handshake ++ take 2 (frame_of (login_of name))) None;
   mkEvent (drop 2 (frame_of (login_of name))) None].

(** ** An unreadable name is not checked *)

(** Only "Alex" is whitelisted. *)
Definition alex_only : ServerState := set_whitelist (Some (mkWhitelist [str "Alex"] [])) NewServerState.

Definition sv_state_of (r : Served) : option State :=
  match r with ServedOccupied v _ _ _ => Some (state (sv_server v)) | ServedClosed v => Some (state (sv_server v)) | _ => None end.

(** The whitelist does not stop a client whose name cannot be read. With
    only "Alex" whitelisted, a login as "Steve" is kicked and leaves the server
    stopped, but a login start with a 17-byte name, which the decoder rejects,
    skips the check and starts the server. *)
Theorem whitelist_bypass :
  let run name := Serve [] None (sample_config false false false) (mkEnv 0 (fun _ _ => true) false false) 8 []
                    (client_stream name) (serving (NewClient (str "10.0.0.7:4000")) alex_only []) in
  sv_state_of (run (str "Steve")) = Some StateStopped
  /\ sv_state_of (run (str "Alex")) = Some StateStarting
  /\ sv_state_of (run (str "SteveSteveSteveXY")) = Some StateStarting.
Proof. split_and!; vm_compute; reflexivity. Qed.

Lemma Serve_terminates_witness :
  (length ([] ++ conn_bytes (client_stream (str "Steve"))) < 64)%nat
  /\ Serve [] None (sample_config false false false) (mkEnv 0 (fun _ _ => true) false false) 64 []
       (client_stream (str "Steve")) (serving (NewClient []) alex_only []) <> ServedOutOfFuel.
Proof.
  split; [vm_compute; lia|]. apply Serve_terminates. vm_compute. lia.
Defined.

(** ** The announced status *)

Lemma valid_utf8_ascii n s : Forall (fun c => b2z c < 0x80) s -> (length s <= n)%nat -> valid_utf8_fuel n s = true.
Proof.
  revert s. induction n as [|n IH]; intros s Hs Hl; [by destruct s; [|simpl in Hl; lia]|].
  destruct Hs as [|c s Hc Hs]; [done|].
  change (match utf8_len (c :: s) with Some k => valid_utf8_fuel n (drop k (c :: s)) | None => false end = true).
  cbn [utf8_len]. rewrite (proj2 (Z.ltb_lt _ _)) by done.
  change (drop 1 (c :: s)) with (drop 0 s). rewrite drop_0. apply IH; [done|]. simpl in Hl. lia.
Qed.

Lemma base64_char_ascii v : 0 <= v < 64 -> b2z (base64_char v) < 0x80.
Proof.
  intros Hv. unfold base64_char.
  destruct (Z.ltb_spec v 26); [rewrite b2z_z2b_small by lia; lia|].
  destruct (Z.ltb_spec v 52); [rewrite b2z_z2b_small by lia; lia|].
  destruct (Z.ltb_spec v 62); [rewrite b2z_z2b_small by lia; lia|].
  by destruct (v =? 62).
Qed.

Lemma base64_ascii d : Forall (fun c => b2z c < 0x80) (base64 d).
Proof.
  assert (forall v, 0 <= v < 2 ^ 24 -> b2z (base64_char (v / 2 ^ 18)) < 0x80) as H1.
  { intros v Hv. apply base64_char_ascii. split; [apply Z.div_pos; lia|apply Z.div_lt_upper_bound; lia]. }
  assert (forall v, b2z (base64_char (v mod 64)) < 0x80) as H2.
  { intros v. apply base64_char_ascii, Z.mod_pos_bound. lia. }
  assert (forall a b c, 0 <= be_val [a; b; c] < 2 ^ 24) as H3.
  { intros a b c. pose proof (b2z_range a). pose proof (b2z_range b). pose proof (b2z_range c). cbn. lia. }
  remember (length d) as n eqn:Hn. revert d Hn. induction (lt_wf n) as [n _ IH]. intros d ->.
  destruct d as [|a [|b [|c d]]]; cbn [base64].
  - constructor.
  - repeat constructor; [apply H1, H3|apply H2].
  - repeat constructor; [apply H1, H3|apply H2|apply H2].
  - apply Forall_app. split; [repeat constructor; [apply H1, H3|apply H2..]|].
    apply (IH (length d)); [simpl; lia|done].
Qed.

Lemma favicon_utf8 data : valid_utf8 (EncodeFavicon data) = true.
Proof.
  unfold valid_utf8. apply valid_utf8_ascii; [|done]. unfold EncodeFavicon. apply Forall_app.
  split; [|apply base64_ascii]. apply Forall_forall. intros c Hc.
  assert (Forall (fun c => b2z c < 0x80) (str "data:image/png;base64,")) as H
    by (repeat constructor; vm_compute; reflexivity).
  rewrite Forall_forall in H. by apply H.
Qed.

(** The texts of the configuration are UTF-8 and the protocol hint is 32-bit,
    as TOML decoding guarantees. *)
Definition config_texts_ok (config : Config) : Prop :=
  valid_utf8 (Public_Version (Config_Public config)) = true /\ is_uint 32 (Public_Protocol (Config_Public config))
  /\ valid_utf8 (Motd_Sleeping (Config_Motd config)) = true /\ valid_utf8 (Motd_Starting (Config_Motd config)) = true
  /\ valid_utf8 (Motd_Stopping (Config_Motd config)) = true.

Lemma response_ok png icon info config server :
  config_texts_ok config -> (forall s, status server = Some s -> status_ok s) ->
  status_ok (serverStatusResponse png icon info config server).
Proof.
  intros (Hv & Hp & Hs1 & Hs2 & Hs3) Hst. unfold serverStatusResponse.
  assert (forall d, valid_utf8 (serverFavicon png d) = true) as Hfav by (intros [d|]; apply favicon_utf8).
  assert (forall f, (if SupportsFavicon (GetProtocol info) then Some (serverFavicon png icon) else None) = Some f -> valid_utf8 f = true) as Hf.
  { intros f. destruct (SupportsFavicon _); intros [= <-]; apply Hfav. }
  destruct (status server) as [s|] eqn:E.
  - specialize (Hst s eq_refl). destruct Hst as (H1 & (H2 & H3 & H4) & H5 & H6 & H7).
    assert (forall c, valid_utf8 c = true -> status_ok (mkServerStatus (Version s) (mkOnlinePlayers (Max (Players s)) 0 [])
      (if FromServer (Config_Motd config) then Description s else c)
      (if SupportsFavicon (GetProtocol info) then
         match (if FromServer (Config_Motd config) then Favicon s else None) with
         | Some f => Some f | None => Some (serverFavicon png icon) end else None) (ForgeData s))) as Hgen.
    { intros c Hc. split; [done|]. split; [split; [done|split; [unfold is_uint; simpl; lia|constructor]]|].
      split; [by destruct (FromServer _)|]. split; [|done]. cbn [Favicon].
      intros f. destruct (SupportsFavicon _); [|done]. destruct (FromServer _); [|intros [= <-]; apply Hfav].
      destruct (Favicon s) as [f'|] eqn:Ef; intros [= <-]; [by apply H6|apply Hfav]. }
    destruct (state server); try (by apply Hgen). split_and!; try done.
  - assert (forall c, valid_utf8 c = true -> status_ok (mkServerStatus
      (mkServerVersion (Public_Version (Config_Public config)) (Public_Protocol (Config_Public config))) (mkOnlinePlayers 0 0 []) c
      (if SupportsFavicon (GetProtocol info) then Some (serverFavicon png icon) else None) [])) as Hgen.
    { intros c Hc. split; [done|]. split; [split; [unfold is_uint; simpl; lia|split; [unfold is_uint; simpl; lia|constructor]]|].
      split; [done|]. split; [exact Hf|by left]. }
    destruct (state server); by apply Hgen.
Qed.

(** C30: what a client sees in its server list. When a client in the status
    state asks for the status and the answer can be written, the gateway writes
    one packet, and a client decoding it reads exactly the status the gateway
    composed: the backend's own status while the server is online; otherwise
    the last known version and player limit (or the configured hints), nobody
    online, the message for the current state and the Forge metadata last
    seen. *)
Theorem status_request_answered `{ZlibLaws} (png : bytes) (icon : option bytes) (config : Config) (env : Env)
    (raw buf : bytes) (v : Serving) :
  cstate (sv_client v) = ClientStateStatus -> IsCompressed (sv_client v) = false ->
  config_texts_ok config -> (forall s, status (sv_server v) = Some s -> status_ok s) ->
  sv_answers v = [] ->
  let response := serverStatusResponse png icon (sv_info v) config (sv_server v) in
  Zlen (StatusResponseJSON response) < 2 ^ 30 ->
  exists v' packet answer,
    serve_packet png icon config env (NewRawPacket PacketServerStatusRequest []) raw buf v = Continue v'
    /\ sv_out v' = sv_out v ++ [answer]
    /\ DecodeWithLen (sv_client v) answer = Some packet
    /\ ID packet = PacketClientStatusResponse
    /\ decodeStatusResponse (Data packet) = Some response
    /\ (state (sv_server v) <> StateStarted -> Online (Players response) = 0).
Proof.
  intros Hst Hc Hcfg Hok Ha response Hlen.
  set (p := NewRawPacket PacketClientStatusResponse (StringBytes (StatusResponseJSON response))).
  assert (EncodeWithoutLen p (sv_client v) = Some (payload_of p)) as Ee
    by (unfold EncodeWithoutLen, Compressed, IsCompressed in *; by rewrite Hc).
  assert (Zlen (Data p) <= Zlen (StatusResponseJSON response) + 5) as Hd.
  { unfold p, StringBytes, Zlen. cbn [Data]. rewrite length_app.
    pose proof (EncodeVarInt_length (i32 (Z.of_nat (length (StatusResponseJSON response))))). lia. }
  assert (Zlen (payload_of p) < 2 ^ 31) as Hp.
  { unfold payload_of. unfold Zlen in *. rewrite length_app. pose proof (EncodeVarInt_length (b2z (ID p))). lia. }
  assert (is_i32 (Zlen (payload_of p))) as Hi by (unfold is_sint, Zlen in *; zpow; lia).
  exists (mkServing (sv_client v) (sv_info v) (sv_history v) (sv_server v) (sv_events v) (sv_out v ++ [frame_of p]) []), p, (frame_of p).
  assert (EncodeWithLen p (sv_client v) = Some (frame_of p)) as Ew
    by (unfold EncodeWithLen; rewrite Ee; by rewrite sintw_id).
  split_and!; [|done| |done| |].
  - unfold serve_packet. rewrite Hst. cbn [ID]. rewrite decide_True by done. unfold serve_status. fold response. fold p.
    rewrite Ew. unfold write. by rewrite Ha.
  - rewrite <- (app_nil_r (frame_of p)). apply (DecodeWithLen_encode p (sv_client v) (frame_of p) (payload_of p)); try done.
    unfold Zlen in *. zpow. lia.
  - cbn [p Data]. rewrite decodeStatusResponse_StringBytes by lia. apply decodeStatusJSON_render. by apply response_ok.
  - intros Hne. unfold response, serverStatusResponse. destruct (status (sv_server v)), (state (sv_server v)); done.
Qed.

Lemma status_request_answered_witness :
  exists v' packet answer,
    serve_packet [x01] None (sample_config false false false) (mkEnv 0 (fun _ _ => true) false false)
      (NewRawPacket PacketServerStatusRequest []) [] []
      (mkServing (SetState ClientStateStatus (NewClient [])) EmptyClientInfo [] NewServerState [] [] []) = Continue v'
    /\ sv_out v' = [] ++ [answer] /\ DecodeWithLen (SetState ClientStateStatus (NewClient [])) answer = Some packet.
Proof.
  destruct (status_request_answered [x01] None (sample_config false false false) (mkEnv 0 (fun _ _ => true) false false) [] []
    (mkServing (SetState ClientStateStatus (NewClient [])) EmptyClientInfo [] NewServerState [] [] []))
    as (v' & packet & answer & H1 & H2 & H3 & _).
  - reflexivity.
  - reflexivity.
  - repeat split; vm_compute; congruence.
  - discriminate.
  - reflexivity.
  - vm_compute. reflexivity.
  - exists v', packet, answer. split; [exact H1|]. split; [exact H2|exact H3].
Defined.
