(* ===== verification/Join.v ===== *)
(** Occupying a joining client until the server can take it: [src/join.go]
    with its methods [src/join_kick.go], [src/join_hold.go],
    [src/join_forward.go] and [src/join_lobby.go].

    A hold takes time: what the held client's subscription delivers, with the
    time of each delivery, and the server state afterwards are the input
    [HoldRun] of each hold. A client given to the lobby ends in [InLobby];
    what [LobbyServe] does with it is in [Lobby]. *)
From S2P Require Import Prelude VarInt Wire Packet Stream Config Net Packets Access Nbt JoinGame PlayPackets Process ServerState Proxy Admission Status.

(** ** The hold method *)

(** The waiting goroutine of [holdClient]: the time and the answer of its
    first decision; [None] when it still waits. *)
Fixpoint await (deliveries : list (Z * State)) : option (Z * bool) :=
  match deliveries with
  | [] => None
  | (t, st) :: deliveries' =>
      match st with
      | StateStarting => await deliveries'
      | StateStarted => Some (t, true)
      | StateStopping | StateStopped => Some (t, false)
      end
  end.

(** What happens during a hold: the deliveries with their times since the hold
    began, which branch the [select] takes when the answer and the timeout are
    ready together, and the server state when the hold is over. *)
Record HoldRun := mkHoldRun {
  deliveries : list (Z * State);
  answer_first : bool;
  server_after : ServerState }.

Definition holdClient (config : Config) (run : HoldRun) : bool :=
  let timeout := Hold_Timeout (Join_Hold (Config_Join config)) * second in
  match await (deliveries run) with
  | None => false
  | Some (t, ok) =>
      if t <? timeout then ok
      else if t =? timeout then (if answer_first run then ok else false)
      else false
  end.

(** ** The methods *)

(** What finally happened to the client. *)
Inductive Fate :=
| Kicked (out : option bytes)        (* the disconnect packet, when it could be encoded; then closed *)
| Routed (task : option Task)        (* given to a proxy task, or closed when none is free *)
| InLobby (queue : bytes)            (* LobbyServe *)
| Disconnected.                      (* no method left *)

Section Join.

Context `{ZL : Zlib}.
Context (config : Config).

(** A method either consumes the client, with its fate, or leaves it to the
    next method ([None]). *)
Definition kickOccupy (client : Client) (server : ServerState) : Fate :=
  let msg := match result (GetState server) with
             | StateStarting | StateStopped | StateStarted => Kick_Starting (Join_Kick (Config_Join config))
             | StateStopping => Kick_Stopping (Join_Kick (Config_Join config))
             end in
  Kicked (Kick client msg).

Definition holdOccupy (server : ServerState) (history : bytes) (run : HoldRun) (e : Edge)
    : option Fate * ServerState * Edge :=
  if negb (bool_decide (result (GetState server) = StateStarting)) then (None, server, e)
  else if holdClient config run then
    let '(task, e) := routeProxyQueue config history e in
    (Some (Routed task), server_after run, e)
  else (None, server_after run, e).

Definition forwardOccupy (history : bytes) (e : Edge) : Fate * Edge :=
  let '(task, e) := routeProxyAddressQueue
    (NotNone ProxyHeaderProxy (Forward_SendProxyV2 (Join_Forward (Config_Join config))))
    (Forward_Address (Join_Forward (Config_Join config))) history e in
  (Routed task, e).

Definition mustProbe : bool := Forge (Config_Server config).

Definition mustStillProbe (server : ServerState) (info : ClientInfo) : bool :=
  if Forge (Config_Server config) && isForgeFML3 info then false
  else mustProbe && bool_decide (result (ProbedJoinGame server) = None).

Definition lobbyOccupy (info : ClientInfo) (server : ServerState) (queue : bytes) : option Fate :=
  if mustStillProbe server info then None else Some (InLobby queue).

(** [Occupy]: the loop over the configured methods; [runs] are the holds to
    come (with none left, a hold times out and the server stays as it is). *)
Fixpoint Occupy_loop (client : Client) (info : ClientInfo) (history queue : bytes)
    (methods : list Method) (runs : list HoldRun) (server : ServerState) (e : Edge) : Fate * Edge :=
  match methods with
  | [] => (Disconnected, e)
  | method :: methods' =>
      match method with
      | MethodKick => (kickOccupy client server, e)
      | MethodHold =>
          let run := default (mkHoldRun [] false server) (head runs) in
          match holdOccupy server history run e with
          | (Some fate, _, e) => (fate, e)
          | (None, server', e) =>
              let runs' := if bool_decide (result (GetState server) = StateStarting) then tail runs else runs in
              Occupy_loop client info history queue methods' runs' server' e
          end
      | MethodForward => forwardOccupy history e
      | MethodLobby =>
          match lobbyOccupy info server queue with
          | Some fate => (fate, e)
          | None => Occupy_loop client info history queue methods' runs server e
          end
      end
  end.

Definition Occupy (client : Client) (info : ClientInfo) (history queue : bytes)
    (runs : list HoldRun) (server : ServerState) (e : Edge) : Fate * Edge :=
  Occupy_loop client info history queue (Methods (Config_Join config)) runs server e.

End Join.

(** ** What a held client sees of the server

    The subscription of a held client is a channel of capacity one. Its
    operations interleave: a broadcast of [broadcastState], or a receive of the
    waiting goroutine, which blocks while the channel is empty. *)
Inductive ChanOp := Broadcast (st : State) | Receive.

Definition opt_list {A} (o : option A) : list A := match o with Some a => [a] | None => [] end.

(** What was received, and when, and what is left in the channel. *)
Fixpoint channel (ops : list (Z * ChanOp)) (ch : option State) : list (Z * State) * option State :=
  match ops with
  | [] => ([], ch)
  | (_, Broadcast st) :: ops' => channel ops' (send_latest st ch)
  | (t, Receive) :: ops' =>
      match ch with
      | None => channel ops' None
      | Some st => let '(r, ch') := channel ops' None in ((t, st) :: r, ch')
      end
  end.

Definition broadcasts (ops : list (Z * ChanOp)) : list State :=
  omap (fun o => match snd o with Broadcast st => Some st | Receive => None end) ops.

(** Values may be replaced before they are read, but the newest one is read or
    still in the channel. *)
Lemma channel_latest ops ch r ch' :
  channel ops ch = (r, ch') ->
  last (map snd r ++ opt_list ch') = last (opt_list ch ++ broadcasts ops)
  /\ Forall (fun x => x ∈ opt_list ch ++ broadcasts ops) (map snd r)
  /\ Forall (fun x => exists o, (fst x, o) ∈ ops) r.
Proof.
  revert ch r ch'. induction ops as [|[t [st|]] ops IH]; intros ch r ch'; cbn [channel].
  - intros [= <- <-]. cbn. rewrite app_nil_r. split; [done|split; constructor].
  - rewrite send_latest_new. intros E. apply IH in E as (E & F & T). cbn [broadcasts omap list_omap snd] in *.
    change (opt_list (Some st) ++ ?l) with (st :: l) in *. split; [|split].
    + rewrite E. destruct ch; cbn [opt_list app]. all: reflexivity.
    + eapply Forall_impl; [exact F|]. intros x Hx. apply elem_of_app. by right.
    + eapply Forall_impl; [exact T|]. intros x [o Ho]. exists o. by right.
  - destruct ch as [st|].
    + destruct (channel ops None) as [r1 ch1] eqn:E1. intros [= <- <-]. apply IH in E1 as (E & F & T).
      cbn [map snd opt_list app broadcasts omap list_omap fst] in *. split; [|split].
      * fold (broadcasts ops). rewrite !last_cons, E. done.
      * constructor; [by left|]. eapply Forall_impl; [exact F|]. intros x Hx. by right.
      * constructor; [exists Receive; by left|]. eapply Forall_impl; [exact T|]. intros x [o Ho]. exists o. by right.
    + intros E. apply IH in E as (E & F & T). split; [done|split; [done|]].
      eapply Forall_impl; [exact T|]. intros x [o Ho]. exists o. by right.
Qed.

Definition verdict (st : State) : bool := bool_decide (st = StateStarted).

Lemma await_starting r st :
  Forall (fun x => x = StateStarting \/ x = st) (map snd r) -> st <> StateStarting -> last (map snd r) = Some st ->
  exists t, await r = Some (t, verdict st) /\ exists x, (t, x) ∈ r.
Proof.
  intros F Hst. induction r as [|[t x] r IH]; intros Hl; [done|]. cbn [map snd] in *. inversion_clear F as [|? ? Hx F'].
  destruct (decide (x = StateStarting)) as [->|Hne].
  - cbn [await]. destruct (map snd r) eqn:Er; [by injection Hl as Hl|]. rewrite <- Er in *.
    rewrite last_cons in Hl. destruct (last (map snd r)) as [y|] eqn:Ey; [|by rewrite last_None, Er in Ey].
    destruct (IH F' Hl) as (t' & E & x & Hx'). exists t'. split; [done|]. exists x. by right.
  - destruct Hx as [->| ->]; [done|]. exists t. split; [by destruct st|]. exists st. by left.
Qed.

(** A hold that began while the server was starting: the operations on the
    held client's channel, all before the timeout, with one state change,
    which the client has read. *)
Definition held_until (config : Config) (run : HoldRun) (st : State) : Prop :=
  exists ops, channel ops (Some StateStarting) = (deliveries run, None)
    /\ broadcasts ops = [st] /\ st <> StateStarting
    /\ Forall (fun o => fst o < Hold_Timeout (Join_Hold (Config_Join config)) * second) ops.

Lemma holdClient_verdict config run st : held_until config run st -> holdClient config run = verdict st.
Proof.
  intros (ops & Ec & Hb & Hst & Ht). apply channel_latest in Ec as (El & Fl & Tl).
  rewrite Hb in El, Fl. cbn [opt_list] in El. rewrite app_nil_r in El.
  destruct (await_starting (deliveries run) st) as (t & E & x & Hx); [|done|done|].
  { eapply Forall_impl; [exact Fl|]. intros y. cbn. rewrite !elem_of_cons, elem_of_nil. tauto. }
  unfold holdClient. rewrite E. rewrite Forall_forall in Tl. destruct (Tl _ Hx) as [o Ho].
  rewrite Forall_forall in Ht. apply Ht in Ho. by rewrite (proj2 (Z.ltb_lt _ _)).
Qed.

(** ** Starting for a client *)

Lemma unfreeze_starting env config s :
  state s = StateStarting -> exists b evs, unfreezeServerSignal env config s = (b, s, evs).
Proof.
  intros Hs. unfold unfreezeServerSignal. destruct (ControllerManaged (Config_Server config)); [by do 2 eexists|].
  unfold gets at 1, mbind at 1, Op_bind at 1. destruct (pid s =? 0); [by do 2 eexists|].
  unfold unixSignal, emit, mbind, Op_bind, mret, Op_ret. rewrite updateStateFrom_eq, Hs.
  change (moves (Some StateStopping) StateStarting StateStarting) with false. cbn iota.
  rewrite updateStateFrom_eq, Hs.
  change (moves (Some StateStopped) StateStarting StateStarting) with false. by do 2 eexists.
Qed.

Lemma Start_starting env config s :
  ControllerManaged (Config_Server config) && FreezeProcess (Config_Server config) = false ->
  state s = StateStopped \/ state s = StateStarting -> state (final (Start env config s)) = StateStarting.
Proof.
  intros Hm Hs. unfold Start. rewrite Hm. unfold final, mbind, Op_bind. rewrite updateStateFrom_eq.
  destruct Hs as [Hs|Hs]; rewrite Hs;
    [|change (moves (Some StateStopped) StateStarting StateStarting) with false; done].
  change (moves (Some StateStopped) StateStarting StateStopped) with true. cbn iota.
  assert (state (enter env StateStarting config s) = StateStarting) as He by done.
  set (s1 := enter env StateStarting config s) in *.
  destruct (ControllerManaged (Config_Server config)) eqn:Em, (FreezeProcess (Config_Server config)) eqn:Ef; [done| | |done].
  { cbn -[updateStateFrom]. unfold beginControllerHelper, gets, modify, mbind, Op_bind. by destruct (helperActive s1). }
  destruct (unfreeze_starting env config s1 He) as (b & evs & E).
  cbn -[unfreezeServerSignal]. rewrite E. by destruct b.
Qed.

(** What a granted start does to the outside: under a controller it launches
    the helper, unless one is at work; otherwise it wakes the frozen process, or
    runs the command. *)
Definition start_events (config : Config) (s : ServerState) : list Event :=
  if ControllerManaged (Config_Server config) then
    if helperActive s then [] else [EvSpawn (u64 (helperGeneration s + 1))]
  else if FreezeProcess (Config_Server config) && negb (pid s =? 0) then [EvSignal (pid s) SIGCONT]
  else [EvSpawn 0].

Lemma Start_events env config s :
  ControllerManaged (Config_Server config) && FreezeProcess (Config_Server config) = false ->
  events (Start env config s) = if decide (state s = StateStopped) then start_events config s else [].
Proof.
  intros Hm. unfold Start, events. rewrite Hm. unfold mbind at 1, Op_bind at 1. rewrite updateStateFrom_eq.
  unfold moves. case_decide as Hs; [|by rewrite bool_decide_eq_false_2].
  rewrite bool_decide_eq_true_2, bool_decide_eq_false_2 by congruence. cbn [andb negb]. unfold start_events.
  assert (state (enter env StateStarting config s) = StateStarting) as He by done.
  set (s1 := enter env StateStarting config s) in *.
  assert (pid s1 = pid s /\ helperActive s1 = helperActive s /\ helperGeneration s1 = helperGeneration s) as (E1 & E2 & E3) by done.
  destruct (ControllerManaged (Config_Server config)) eqn:Em, (FreezeProcess (Config_Server config)) eqn:Ef; [done| | |done].
  - unfold beginControllerHelper, gets, modify, emit, mbind, Op_bind, mret, Op_ret. rewrite E2, <- E3. by destruct (helperActive s).
  - unfold unfreezeServerSignal. rewrite Em. unfold unixSignal, gets, emit, mbind, Op_bind, mret, Op_ret. rewrite E1.
    destruct (pid s =? 0); [done|]. rewrite updateStateFrom_eq, He.
    change (moves (Some StateStopping) StateStarting StateStarting) with false. cbn iota. by rewrite updateStateFrom_eq, He.
Qed.

Lemma validated_not_both config :
  validateControllerManagedConfig config = None ->
  ControllerManaged (Config_Server config) && FreezeProcess (Config_Server config) = false.
Proof.
  unfold validateControllerManagedConfig.
  by destruct (ControllerManaged _), (FreezeProcess _).
Qed.

(** The header a proxy task writes in front of the client's bytes. *)
Definition header_for (config : Config) (inbound : Endpoint) : option bytes :=
  if Server_SendProxyV2 (Config_Server config) then StreamHeader (RemoteAddr inbound) (LocalAddr inbound) else Some [].

Lemma ProxyWithQueue_stream config inbound outbound queue header :
  header_for config inbound = Some header -> write_ok inbound = true -> write_ok outbound = true ->
  let r := ProxyWithQueue inbound (NotNone ProxyHeaderProxy (Server_SendProxyV2 (Config_Server config))) (Some outbound) queue in
  to_server r = header ++ queue ++ sends inbound /\ to_client r = sends outbound.
Proof.
  intros Hh Hi Ho. unfold ProxyWithQueue, NotNone, header_for in *.
  destruct (Server_SendProxyV2 (Config_Server config)); [rewrite Hh, Ho|injection Hh as <-];
    unfold ProxyInboundOutboundWithQueue; rewrite Hi, Ho; cbn [negb]; by rewrite !andb_false_r.
Qed.

Section EndToEnd.

Context `{ZL : Zlib} `{!ZlibLaws ZL}.

(** C2: a client that joins a sleeping server reaches it as if it had connected
    directly. Take a client whose byte stream starts with a login handshake and
    a login start, in any segmentation, and that passes the access checks, and
    a gateway outside online mode whose first join method is hold. When the
    server comes up while the client is held and a proxy slot is free, the
    gateway has started the server if it was stopped (launched the controller's
    helper unless one is at work, sent SIGCONT to the frozen process, or run
    the command; nothing more when the server was already starting), and the
    proxy task it spawns sends the server the client's complete byte stream
    from its first byte (behind a PROXY header when configured) and the client
    everything the server sends. *)
Theorem held_client_reaches_server (defaultPNG : bytes) (icon : option bytes) (config : Config) (env : Env)
    (peer : bytes) (server : ServerState) (answers : list bool) (hs ls : RawPacket) (h : Handshake)
    (conn : Conn) (rest : bytes) (fuel : nat) (run : HoldRun) (e : Edge) (inbound outbound : Endpoint) (header : bytes) :
  login_handshake hs h -> login_start ls -> clean conn ->
  conn_bytes conn = frame_of hs ++ frame_of ls ++ rest ->
  Lockout_Enabled (Config_Lockout config) = false ->
  ban_in_force env server (peerIP peer) = None ->
  (forall u, login_name ls = Some u -> result (IsWhitelisted u server) = true) ->
  validateControllerManagedConfig config = None -> OnlineMode (Config_Auth config) = false ->
  head (Methods (Config_Join config)) = Some MethodHold ->
  state server = StateStopped \/ state server = StateStarting ->
  held_until config run StateStarted ->
  fst (routeProxyQueue config [] e) <> None ->
  header_for config inbound = Some header -> write_ok inbound = true -> write_ok outbound = true ->
  exists v history queue conn' task e' proxyHeader addr,
    Serve defaultPNG icon config env (S (S fuel)) [] conn (serving (NewClient peer) server answers)
      = ServedOccupied v history queue conn'
    /\ state (sv_server v) = StateStarting
    /\ sv_events v = (if decide (state server = StateStopped) then start_events config server else [])
    /\ Occupy config (sv_client v) (sv_info v) history queue [run] (sv_server v) e = (Routed (Some task), e')
    /\ task_kind task = ProxyTask proxyHeader addr history
    /\ addr = Server_Address (Config_Server config)
    /\ (sends inbound = conn_bytes conn' ->
         let r := ProxyWithQueue inbound proxyHeader (Some outbound) history in
         to_server r = header ++ conn_bytes conn /\ to_client r = sends outbound).
Proof.
  intros Hhs Hls Hcl Hs Hlock Hban Hwl Hval Hon Hm Hst Hrun Hslot Hh Hi Ho.
  destruct (login_handover defaultPNG icon config env peer server answers hs ls h conn rest fuel)
    as (v & history & queue & conn' & E & Ehist & _ & Ev); [done..|].
  rewrite Hon in Ev. injection Ev as Ev Evs. rewrite Start_events in Evs by (by apply validated_not_both).
  assert (state (sv_server v) = StateStarting) as Est
    by (rewrite Ev; apply Start_starting; [by apply validated_not_both|done]).
  unfold routeProxyQueue, routeProxyAddressQueue in Hslot.
  destruct (acquire acquireProxy (admissionFor false e) e) as [ok e'] eqn:Ea.
  destruct ok; [|done].
  set (hd := NotNone ProxyHeaderProxy (Server_SendProxyV2 (Config_Server config))).
  exists v, history, queue, conn', (mkTask (ProxyTask hd (Server_Address (Config_Server config)) history) (admissionFor false e)),
    e', hd, (Server_Address (Config_Server config)).
  split; [exact E|]. split; [done|]. split; [exact Evs|]. split; [|split; [done|split; [done|]]].
  - unfold Occupy. destruct (Methods (Config_Join config)) as [|m ms]; [done|]. injection Hm as ->.
    cbn [Occupy_loop head from_option id]. unfold holdOccupy. cbn [result GetState gets fst].
    rewrite bool_decide_true by done. cbn [negb].
    rewrite (holdClient_verdict config run StateStarted) by done. change (verdict StateStarted) with true.
    unfold routeProxyQueue, routeProxyAddressQueue. rewrite Ea. reflexivity.
  - intros Hsend. cbn zeta. destruct (ProxyWithQueue_stream config inbound outbound history header) as [E1 E2]; [done..|].
    unfold hd. rewrite E1, E2, Hsend, Ehist. done.
Qed.

End EndToEnd.

(** ** Samples *)

Definition joined_runs : HoldRun :=
  mkHoldRun [(1, StateStarting); (7 * second, StateStarted)] false NewServerState.

Lemma held_client_reaches_server_witness :
  exists v history queue conn' task e' proxyHeader addr,
    Serve [] None (sample_config false false false) (mkEnv 0 (fun _ _ => true) false false) 2 []
        (client_stream (str "Steve")) (serving (NewClient (str "10.0.0.7:4000")) NewServerState [])
      = ServedOccupied v history queue conn'
    /\ state (sv_server v) = StateStarting /\ sv_events v = [EvSpawn 0]
    /\ Occupy (sample_config false false false) (sv_client v) (sv_info v) history queue [joined_runs] (sv_server v)
         (edge initial_gateway) = (Routed (Some task), e')
    /\ task_kind task = ProxyTask proxyHeader addr history
    /\ addr = Server_Address (Config_Server (sample_config false false false))
    /\ (sends (mkEndpoint None None [] true true) = conn_bytes conn' ->
         let r := ProxyWithQueue (mkEndpoint None None [] true true) proxyHeader (Some (mkEndpoint None None [x01] true true)) history in
         to_server r = [] ++ conn_bytes (client_stream (str "Steve")) /\ to_client r = [x01]).
Proof.
  apply (held_client_reaches_server [] None (sample_config false false false) (mkEnv 0 (fun _ _ => true) false false)
    (str "10.0.0.7:4000") NewServerState [] steve_handshake (login_of (str "Steve"))
    (mkHandshake 763 (str "localhost") 25565 2) (client_stream (str "Steve")) [] 0 joined_runs (edge initial_gateway)
    (mkEndpoint None None [] true true) (mkEndpoint None None [x01] true true) []).
  - repeat split; vm_compute; congruence.
  - repeat split; vm_compute; congruence.
  - repeat constructor; vm_compute; discriminate.
  - vm_compute. reflexivity.
  - reflexivity.
  - reflexivity.
  - intros u _. reflexivity.
  - reflexivity.
  - reflexivity.
  - reflexivity.
  - left. reflexivity.
  - exists [(1, Receive); (2, Receive); (6 * second, Broadcast StateStarted); (7 * second, Receive)].
    split; [reflexivity|]. split; [reflexivity|]. split; [discriminate|].
    repeat (apply Forall_cons_2; [vm_compute; reflexivity|]). apply Forall_nil_2.
  - vm_compute. discriminate.
  - reflexivity.
  - reflexivity.
  - reflexivity.
Defined.

(** ** Who is relayed *)

Section Relay.

Context `{ZL : Zlib}.
Context (config : Config).

Lemma Occupy_loop_routed client info history queue methods runs server e task e' :
  Occupy_loop config client info history queue methods runs server e = (Routed task, e') ->
  (MethodHold ∈ methods /\ (exists run, run ∈ runs /\ holdClient config run = true)
   /\ routeProxyQueue config history e = (task, e'))
  \/ (MethodForward ∈ methods /\ forwardOccupy config history e = (Routed task, e')).
Proof.
  revert runs server. induction methods as [|m ms IH]; intros runs server; cbn [Occupy_loop]; [done|].
  assert (forall runs' server', (forall x, x ∈ runs' -> x ∈ runs) ->
    Occupy_loop config client info history queue ms runs' server' e = (Routed task, e') ->
    (MethodHold ∈ m :: ms /\ (exists run, run ∈ runs /\ holdClient config run = true)
     /\ routeProxyQueue config history e = (task, e'))
    \/ (MethodForward ∈ m :: ms /\ forwardOccupy config history e = (Routed task, e'))) as IH'.
  { intros runs' server' Hr H. apply IH in H as [(H1 & (run & H2 & H3) & H4)|(H1 & H2)].
    - left. split; [by right|]. split; [exists run; auto|done].
    - right. split; [by right|done]. }
  destruct m; [done| | |].
  - unfold holdOccupy. destruct (bool_decide (result (GetState server) = StateStarting)); cbn [negb].
    + destruct (holdClient config _) eqn:Eh.
      * destruct (routeProxyQueue config history e) as [t e1]. intros [= -> ->]. left. split; [by left|]. split; [|done].
        destruct runs as [|run runs]; [done|]. exists run. split; [by left|exact Eh].
      * apply IH'. by destruct runs as [|? ?]; [|right].
    + by apply IH'.
  - intros E. right. split; [by left|exact E].
  - unfold lobbyOccupy. destruct (mustStillProbe config server info); [by apply IH'|done].
Qed.

(** An occupied client is only relayed when there is a server to relay it
    to, and then from its first byte: either the hold method saw the server
    come up before its timeout, and the proxy task goes to the server's
    address, or the forward method is configured and the task goes to the
    forward address; both queue the client's whole recorded history. *)
Lemma relay_only_when_ready (client : Client) (info : ClientInfo) (history queue : bytes)
    (runs : list HoldRun) (server : ServerState) (e e' : Edge) (task : Task) :
  Occupy config client info history queue runs server e = (Routed (Some task), e') ->
  (MethodHold ∈ Methods (Config_Join config)
   /\ (exists run t, run ∈ runs /\ await (deliveries run) = Some (t, true)
         /\ t <= Hold_Timeout (Join_Hold (Config_Join config)) * second)
   /\ task_kind task = ProxyTask (NotNone ProxyHeaderProxy (Server_SendProxyV2 (Config_Server config)))
                         (Server_Address (Config_Server config)) history)
  \/ (MethodForward ∈ Methods (Config_Join config)
      /\ task_kind task = ProxyTask (NotNone ProxyHeaderProxy (Forward_SendProxyV2 (Join_Forward (Config_Join config))))
                            (Forward_Address (Join_Forward (Config_Join config))) history).
Proof.
  assert (forall h addr (r : option Task * Edge), r = routeProxyAddressQueue h addr history e -> fst r = Some task ->
            task_kind task = ProxyTask h addr history) as Hroute.
  { intros h addr r ->. unfold routeProxyAddressQueue. destruct (acquire _ _ e) as [[] ?]; cbn [fst]; [|done].
    by intros [= <-]. }
  intros E. apply Occupy_loop_routed in E as [(Hm & (run & Hr & Hh) & E)|(Hm & E)].
  - left. split; [done|]. split; [|by eapply Hroute; [symmetry; exact E|]].
    exists run. unfold holdClient in Hh. destruct (await (deliveries run)) as [[t ok]|] eqn:Ea; [|done].
    exists t. destruct (Z.ltb_spec t (Hold_Timeout (Join_Hold (Config_Join config)) * second)).
    + subst ok. split_and!; [done|done|lia].
    + destruct (Z.eqb_spec t (Hold_Timeout (Join_Hold (Config_Join config)) * second)); [|done].
      destruct (answer_first run); [subst ok; split_and!; [done|done|lia]|done].
  - right. split; [done|]. unfold forwardOccupy in E.
    destruct (routeProxyAddressQueue _ _ history e) as [t e1] eqn:Er. injection E as -> ->.
    by eapply Hroute; [symmetry; exact Er|].
Qed.

(** C12: in online mode nobody reaches the backend past the lobby. For a
    configuration [Service] accepts in online mode without Forge, [route]
    starts no direct proxy for any connection in any server state, and every
    client that logs in is given to the lobby, which authenticates it, with its
    login bytes. *)
Theorem online_clients_pass_lobby (secret_ok : bool) :
  config_accepted config secret_ok -> OnlineMode (Config_Auth config) = true -> Forge (Config_Server config) = false ->
  (forall env server peer e task e', route env config server peer e = (Some task, e') -> task_kind task = StatusTask)
  /\ (forall client info history queue runs server e,
        Occupy config client info history queue runs server e = (InLobby queue, e)).
Proof.
  intros [_ Hv] Hon Hf. unfold validateOnlineModeConfig in Hv. rewrite Hon in Hv. cbn [negb] in Hv.
  destruct (negb (IsLoopback _)); [done|]. destruct (bool_decide_reflect (head (Methods (Config_Join config)) <> Some MethodLobby)) as [|Hm]; [done|].
  split.
  - intros env server [peer|] e task e'; [|done]. unfold route. destruct (_ && _); [done|].
    unfold shouldRouteDirectProxy. rewrite Hon, andb_false_r. unfold routeStatus.
    destruct (acquire _ _ e) as [[] ?]; [|done]. by intros [= <- _].
  - intros client info history queue runs server e. unfold Occupy.
    destruct (Methods (Config_Join config)) as [|m ms]; [by contradict Hm|].
    assert (m = MethodLobby) as -> by (destruct (decide (m = MethodLobby)); [done|]; contradict Hm; intros [= ?]; done).
    cbn [Occupy_loop]. unfold lobbyOccupy, mustStillProbe, mustProbe. by rewrite Hf.
Qed.

End Relay.

(** An accepted online configuration with a Forge server, and hold as the
    second method. *)
Definition online_config (forge : bool) : Config :=
  let c := sample_config false false false in
  let s := Config_Server c in
  let server := mkServer (Directory s) (Command s) false (Server_Address s) false false false false forge [] 300 150 true true false false in
  let j := Config_Join c in
  mkConfig (Config_Path c) (Config_Public c) server (mkAuth true (SessionServer (Config_Auth c)) (str "secret"))
    (Config_Time c) (Config_Motd c)
    (mkJoin [MethodLobby; MethodHold] (Join_Kick j) (Join_Hold j) (Join_Forward j) (Join_Lobby j))
    (Config_Lockout c) (Config_Rcon c) (Config_Advanced c) (Config_Config c).

Lemma online_clients_pass_lobby_witness :
  OnlineMode (Config_Auth (online_config false)) = true
  /\ (forall client info history queue runs server e,
        Occupy (online_config false) client info history queue runs server e = (InLobby queue, e)).
Proof.
  split; [reflexivity|].
  apply (online_clients_pass_lobby (online_config false) true); [split; reflexivity|reflexivity|reflexivity].
Defined.

Lemma relay_only_when_ready_witness :
  exists task e', Occupy (sample_config false false false) (NewClient []) EmptyClientInfo [x01] [] [joined_runs]
      (set_state StateStarting NewServerState) (edge initial_gateway) = (Routed (Some task), e')
    /\ ((MethodHold ∈ Methods (Config_Join (sample_config false false false))
         /\ (exists run t, run ∈ [joined_runs] /\ await (deliveries run) = Some (t, true) /\ t <= 25 * second)
         /\ task_kind task = ProxyTask ProxyHeaderNone (Server_Address (Config_Server (sample_config false false false))) [x01])
        \/ (MethodForward ∈ Methods (Config_Join (sample_config false false false))
            /\ task_kind task = ProxyTask ProxyHeaderNone (mkSocketAddr (IPv4 x7f x00 x00 x01) 25565) [x01])).
Proof.
  eexists _, _. split; [reflexivity|].
  eapply (relay_only_when_ready (sample_config false false false) (NewClient []) EmptyClientInfo [x01] [] [joined_runs]
    (set_state StateStarting NewServerState) (edge initial_gateway)). reflexivity.
Defined.

(** ** An old client of an online Forge server *)

(** The gateway while another player's login has the server starting. *)
Definition starting_server : ServerState := set_state StateStarting NewServerState.

(** The stream of a 1.19.4 client that claims to be "Steve". *)
Definition old_client : Conn :=
  [mkEvent (frame_of (NewRawPacket PacketHandshake
      (Bytes (NewPacketWriter |> Handshake_Encode (mkHandshake 762 (str "localhost") 25565 2))))
    ++ frame_of (login_of (str "Steve"))) None].

(** C39: with Forge, online mode can be passed by without authentication. In an
    accepted online configuration with the methods lobby and hold, a client
    with a protocol below 1.20.1 is not taken by the lobby while the server has
    not been probed; the hold method then relays its unauthenticated login,
    byte for byte, to the backend. *)
Theorem online_forge_unauthenticated :
  config_accepted (online_config true) true /\ OnlineMode (Config_Auth (online_config true)) = true
  /\ match Serve [] None (online_config true) (mkEnv 0 (fun _ _ => true) false false) 8 [] old_client
             (serving (NewClient (str "10.0.0.7:4000")) starting_server []) with
     | ServedOccupied v history queue _ =>
         match Occupy (online_config true) (sv_client v) (sv_info v) history queue [joined_runs] (sv_server v)
                 (edge initial_gateway) with
         | (Routed (Some task), _) =>
             task_kind task = ProxyTask ProxyHeaderNone (Server_Address (Config_Server (online_config true))) (conn_bytes old_client)
         | _ => False
         end
     | _ => False
     end.
Proof. split; [split; reflexivity|]. split; [reflexivity|]. vm_compute. reflexivity. Qed.
