(* ===== verification/Service.v ===== *)
(** The service: start-up ([Service] of [src/service_server.go]), the signal
    handler and the reload of the access files ([src/service_tasks.go]).

    Files are inputs: what the file system answers for a path. *)
From stdpp Require Import gmap.
From S2P Require Import Prelude Packet Config Net Json Packets Access ServerProperties Process Nbt JoinGame ServerState Proxy Stream Admission Status Files ForgeStatus Rounds.

(** ** Start-up *)

Inductive BootError := BadConfig (e : ConfigErr) | BadSnapshot | CannotListen.

(** [Service] up to its accept loop: the server state, the events of a start at
    boot, and the installed admission; or why it did not start. *)
Definition Service (env : Env) (config : Config) (secret_ok : bool) (lstat : bytes -> Lstat) (listen_ok : bool) (e : Edge)
    : (ServerState * list Event * Edge) + BootError :=
  match validateControllerManagedConfig config with
  | Some err => inr (BadConfig err)
  | None =>
      match validateOnlineModeConfig config secret_ok with
      | Some err => inr (BadConfig err)
      | None =>
          let seeded :=
            if decide (ForgeStatusFile (Config_Server config) = []) then Some NewServerState
            else match loadForgeStatusSnapshot config lstat with
                 | None => None
                 | Some st => Some (final (SeedStatus st NewServerState))
                 end in
          match seeded with
          | None => inr BadSnapshot
          | Some server =>
              let e := install_admission e in
              if negb listen_ok then inr CannotListen
              else
                let '(_, server, evs) :=
                  if WakeOnStart (Config_Server config) then Start env config server else (false, server, []) in
                inl (server, evs, e)
          end
      end
  end.

(** ** Signals *)

(** One SIGINT or SIGTERM: whether the gateway quits. *)
Definition handle_signal (env : Env) (config : Config) : Op bool :=
  if ControllerManaged (Config_Server config) then mret true
  else
    cur ← GetState;
    if decide (cur = StateStopped) then mret true
    else
      stopping ← Stop env config;
      mret (negb stopping).

(** ** Access files *)

Definition reloadBans (config : Config) (file : File) : Op unit :=
  if negb (BlockBannedIps (Config_Server config)) && negb (DropBannedIps (Config_Server config)) then mret tt
  else
    match file with
    | NoFile => SetBannedIPs NewBannedIps
    | Unreadable => mret tt
    | Contents c => match LoadBannedIps c with Some ips => SetBannedIPs ips | None => mret tt end
    end.

(** [LoadWhitelistDir] on files: an unreadable file is an error. *)
Definition load_whitelist_files (whitelistFile opsFile : File) : option Whitelist :=
  let contents f := match f with NoFile => Some None | Unreadable => None | Contents c => Some (Some c) end in
  w ← contents whitelistFile;
  o ← contents opsFile;
  LoadWhitelistDir w o.

Definition reloadWhitelist (config : Config) (props whitelistFile opsFile : File) : Op unit :=
  if negb (WakeWhitelist (Config_Server config)) then mret tt
  else
    let enabled := match ReadServerProperties props (str "white-list") with
                   | Some v => bool_decide (v = str "true")
                   | None => false
                   end in
    if negb enabled then SetWhitelist None
    else
      match load_whitelist_files whitelistFile opsFile with
      | None => mret tt
      | Some w => SetWhitelist (Some w)
      end.

Example white_list_on :
  ReadServerProperties (Contents (str "#White-List=false" ++ [x0d; x0a] ++ str "White-List = true" ++ [x0d; x0a])) (str "white-list")
  = Some (str "true").
Proof. vm_compute. reflexivity. Qed.

(** ** Bans in force *)

Lemma peerIP_v4 a b c d port :
  Forall (fun x => is_digit x = true) port -> peerIP (v4_String [a; b; c; d] ++ x3a :: port) = v4_String [a; b; c; d].
Proof.
  intros Hp. unfold peerIP. rewrite SplitHostPort_plain; [done|]. apply Forall_app. split; apply Forall_forall; intros x Hx.
  - destruct (v4_String_digits _ _ _ _ _ Hx) as [Hd| ->]; [|done]. split_and!; intros ->; done.
  - rewrite Forall_forall in Hp. apply Hp in Hx. split_and!; intros ->; done.
Qed.

Section Bans.

Context `{ZL : Zlib}.

(** C13: a ban in the server's ban file locks the address out. After the file
    has been loaded, a connection from an IPv4 address whose last entry is
    still in force is never proxied to the server: it is closed at once when
    dropping is configured, and otherwise only served by the status server,
    where no packet sequence gets it past the login to the join methods. *)
Theorem banned_client_locked_out (defaultPNG : bytes) (icon : option bytes) (env : Env) (config : Config)
    (server : ServerState) (contents : bytes) (entries : Slice BannedIp) (entry : BannedIp) (a b c d : byte) (port : bytes) :
  BlockBannedIps (Config_Server config) = true \/ DropBannedIps (Config_Server config) = true ->
  Unmarshal nil_slice (dec_slice zero_ban (dec_struct ban_fields)) contents = Some entries ->
  last (filter (fun ip => Ban_IP ip = v4_String [a; b; c; d]) (slice_list entries)) = Some entry ->
  (forall t, expiry entry = Some (Some t) -> now env < t) ->
  Forall (fun x => is_digit x = true) port ->
  let server' := final (reloadBans config (Contents contents) server) in
  let peer := v4_String [a; b; c; d] ++ x3a :: port in
  (forall e, (DropBannedIps (Config_Server config) = true -> route env config server' (Some peer) e = (None, e))
     /\ forall task, fst (route env config server' (Some peer) e) = Some task -> task_kind task = StatusTask)
  /\ (forall fuel buf conn answers v history queue conn',
        Serve defaultPNG icon config env fuel buf conn (serving (NewClient peer) server' answers)
        <> ServedOccupied v history queue conn').
Proof.
  intros Hcfg Hdec Hent Hexp Hport server' peer.
  assert (banned server' = ban_map (slice_list entries)) as Hb.
  { unfold server', reloadBans, LoadBannedIps. rewrite Hdec.
    destruct Hcfg as [-> | ->]; [|rewrite andb_false_r]; done. }
  assert (peerIP peer = v4_String [a; b; c; d]) as Hpeer by (by apply peerIP_v4).
  assert (Ban_Get (banned server') (ParseIP (v4_String [a; b; c; d])) = Some entry) as Hget.
  { unfold Ban_Get. by rewrite Hb, ParseIP_v4_String, IP_String_IPv4, ban_map_lookup. }
  assert (entry_IsBanned (now env) entry = true) as Hin.
  { unfold entry_IsBanned. destruct (expiry entry) as [[t|]|] eqn:E; [|done..]. apply Z.ltb_lt. by apply Hexp. }
  assert (result (IsBannedIP env (peerIP peer) server') = true) as Hban.
  { unfold IsBannedIP, result, gets, parseIP. cbn [fst]. rewrite Hpeer. unfold Ban_IsBanned. unfold Ban_Get in Hget. by rewrite Hget. }
  split.
  - intros e. unfold route. rewrite Hban. unfold shouldRouteDirectProxy. cbn [negb andb]. split; [by intros ->|].
    intros task. destruct (DropBannedIps (Config_Server config)); [done|].
    unfold routeStatus. destruct (acquire _ _ e) as [[] ?]; cbn [fst]; [|done]. by intros [= <-].
  - intros fuel buf conn answers v history queue conn' E.
    pose proof (Serve_admits defaultPNG icon config env fuel buf conn (serving (NewClient peer) server' answers)) as H.
    rewrite E in H. destruct H as ((_ & Hno & _) & Hpe & _). rewrite Hpe in Hno. cbn [serving sv_client Peer NewClient sv_server] in Hno.
    unfold ban_in_force, BanEntry, result, gets, parseIP in Hno. cbn [fst] in Hno. rewrite Hpeer, Hget, Hin in Hno. done.
Qed.

End Bans.

(** A ban file with one permanent entry. *)
Definition ban_file : bytes :=
  [x5b; x7b] ++ q "ip" ++ [x3a] ++ q "10.0.0.7" ++ [x2c] ++ q "expires" ++ [x3a] ++ q "forever" ++ [x7d; x5d].

Definition banned_entry : BannedIp := mkBannedIp (str "10.0.0.7") None None (Some (str "forever")) None.

Lemma banned_client_locked_out_witness :
  fst (route (mkEnv 0 (fun _ _ => true) false false) (sample_config false false false)
         (final (reloadBans (sample_config false false false) (Contents ban_file) (set_state StateStarted NewServerState)))
         (Some (v4_String [x0a; x00; x00; x07] ++ x3a :: str "4000")) (edge initial_gateway)) <> None
  /\ forall task,
    fst (route (mkEnv 0 (fun _ _ => true) false false) (sample_config false false false)
         (final (reloadBans (sample_config false false false) (Contents ban_file) (set_state StateStarted NewServerState)))
         (Some (v4_String [x0a; x00; x00; x07] ++ x3a :: str "4000")) (edge initial_gateway)) = Some task ->
    task_kind task = StatusTask.
Proof.
  split; [vm_compute; discriminate|].
  apply (banned_client_locked_out [] None (mkEnv 0 (fun _ _ => true) false false) (sample_config false false false)
    (set_state StateStarted NewServerState) ban_file (mkSlice [banned_entry] 1 false) banned_entry x0a x00 x00 x07 (str "4000")).
  - left. reflexivity.
  - vm_compute. reflexivity.
  - vm_compute. reflexivity.
  - vm_compute. discriminate.
  - repeat (apply Forall_cons_2; [reflexivity|]). apply Forall_nil_2.
Defined.

(** ** A termination signal *)

Lemma handle_signal_eq env config s :
  handle_signal env config s =
  if ControllerManaged (Config_Server config) || bool_decide (state s = StateStopped) then (true, s, [])
  else (negb (result (Stop env config s)), final (Stop env config s), events (Stop env config s)).
Proof.
  unfold handle_signal. destruct (ControllerManaged (Config_Server config)); [done|].
  unfold GetState, gets, mbind, Op_bind, mret, Op_ret. cbn [orb]. case_decide as Hs.
  - by rewrite bool_decide_true by done.
  - rewrite bool_decide_false by done. unfold result, final, events. destruct (Stop env config s) as [[b s'] evs]. cbn. by rewrite app_nil_r.
Qed.

(** A gateway with nothing to stop. *)
Lemma signal_quits env config s : ControllerManaged (Config_Server config) = true \/ state s = StateStopped ->
  handle_signal env config s = (true, s, []).
Proof. intros H. rewrite handle_signal_eq. destruct H as [->| ->]; [done|]. by rewrite orb_true_r. Qed.

(** C29: a termination signal, handled while nothing else changes the state,
    stops an owned server before the gateway quits. A controller-managed
    gateway, and one whose server is stopped, quits at once and sends nothing.
    Otherwise the gateway sends SIGSTOP to a known process if freezing is
    enabled; if not, or with no known process, the RCON stop command to a
    started server when RCON is enabled, has cooled down and connects, and
    then, unless that was answered, SIGTERM to the process if it is known; and
    nothing else. It keeps running exactly if it froze the server, the RCON
    stop was answered or the kernel accepted the SIGTERM, and then the server
    is stopping (stopped if frozen, unless it was stopping already) with the
    deadline of that state; if it quits, the state is as it was. Once the
    server's exit has been handled (and it is not restarted after a crash), the
    next signal quits and sends nothing. *)
Theorem signal_stops_server_first (env : Env) (config : Config) (s : ServerState) :
  let r := handle_signal env config s in
  let owned := negb (ControllerManaged (Config_Server config) || bool_decide (state s = StateStopped)) in
  let known := owned && negb (pid s =? 0) in
  let frozen := known && FreezeProcess (Config_Server config) in
  let asked := owned && negb frozen && bool_decide (state s = StateStarted) && rcon_ready env config s in
  let answered := asked && rcon_cmd env in
  let termed := known && negb frozen && negb answered in
  events r = (if frozen then [EvSignal (pid s) SIGSTOP] else []) ++ (if asked then [EvRconStop] else [])
             ++ (if termed then [EvSignal (pid s) SIGTERM] else [])
  /\ result r = negb (frozen || answered || termed && kill_ok env (pid s) SIGTERM)
  /\ (if result r then final r = s
      else if decide (state s = StateStopping) then final r = s
      else state (final r) = (if frozen then StateStopped else StateStopping)
           /\ killAt (final r) = deadline env (state (final r)) config)
  /\ (forall env' crashed, result r = false -> crashed && WakeOnCrash (Config_Server config) = false ->
       let s2 := final (invoke_after env' config crashed (final r)) in
       state s2 = StateStopped /\ handle_signal env' config s2 = (true, s2, [])).
Proof.
  cbv zeta. assert (forall env' crashed s1, crashed && WakeOnCrash (Config_Server config) = false ->
    let s2 := final (invoke_after env' config crashed s1) in
    state s2 = StateStopped /\ handle_signal env' config s2 = (true, s2, [])) as Hnext.
  { intros env' crashed s1 Hw. cbv zeta.
    assert (state (final (invoke_after env' config crashed s1)) = StateStopped) as Hst.
    { unfold invoke_after, updateState, mbind, Op_bind, final. rewrite updateStateFrom_eq, Hw. unfold moves.
      case_bool_decide as Hs; cbn [negb andb fst snd mret Op_ret]; [done|]. by destruct (enter_fields env' StateStopped config s1) as (-> & _). }
    split; [done|]. apply signal_quits. by right. }
  rewrite handle_signal_eq. destruct (_ || _) eqn:Eo; [done|]. apply orb_false_iff in Eo as [Hm Hs%bool_decide_eq_false].
  assert (forall new, state s <> StateStopping -> state (leave env config s new) = new /\ killAt (leave env config s new) = deadline env new config) as Hl.
  { intros new H. unfold leave. destruct (state s); try done; by destruct (enter_fields env new config s) as (-> & -> & _). }
  assert (forall new, state s = StateStopping -> leave env config s new = s) as Hl2 by (intros new H; unfold leave; by rewrite H).
  rewrite Stop_eq, Hm. cbn [negb andb]. rewrite (andb_comm (negb (pid s =? 0)) (FreezeProcess _)).
  destruct (_ && negb (pid s =? 0)) eqn:Ef; cbn [negb andb orb result final events fst snd app].
  { rewrite andb_false_r. split_and!; try done; [|intros; by apply Hnext]. case_decide; [by apply Hl2|].
    destruct (Hl StateStopped) as [-> ->]; done. }
  rewrite andb_true_r. set (asked := bool_decide _ && _). destruct (asked && rcon_cmd env) eqn:Ea; cbn [negb andb orb result final events fst snd app].
  { apply andb_prop in Ea as [Ea _]. rewrite Ea, andb_false_r, app_nil_r. split_and!; try done; [|intros; by apply Hnext].
    apply andb_prop in Ea as [Ea%bool_decide_eq_true _]. rewrite decide_False by congruence.
    by destruct (enter_fields env StateStopping config (set_rconLastStop (Some (now env)) s)) as (-> & -> & _). }
  rewrite andb_true_r. destruct (pid s =? 0); cbn [negb andb result final events fst snd]; [by rewrite app_nil_r|].
  destruct (kill_ok env (pid s) SIGTERM); cbn [negb result final events fst snd]; [|done].
  split_and!; try done; [|intros; by apply Hnext]. case_decide; [by apply Hl2|]. destruct (Hl StateStopping) as [-> ->]; done.
Qed.

(** ** The Forge snapshot across restarts *)

(** A start at boot, when no process is known, leaves the seeded status alone. *)
Lemma boot_start env config s : state s = StateStopped -> pid s = 0 ->
  let s' := final (Start env config s) in status s' = status s /\ state s' <> StateStarted.
Proof.
  intros Hs Hp. unfold Start, final. destruct (_ && _); [cbn; by rewrite Hs|].
  unfold mbind, Op_bind. rewrite updateStateFrom_eq, Hs.
  change (moves (Some StateStopped) StateStarting StateStopped) with true. cbn iota beta zeta.
  assert (pid (enter env StateStarting config s) = 0) as Hp1 by exact Hp.
  unfold unfreezeServerSignal, beginControllerHelper, emit, gets, modify, mret, Op_ret, mbind, Op_bind.
  destruct (FreezeProcess _), (ControllerManaged _); cbn; rewrite ?Hp1; cbn; try done;
    by destruct (helperActive (enter env StateStarting config s)).
Qed.

(** The gateway comes up and, before the server was ever woken, advertises
    exactly this Forge data. *)
Definition boots_advertising (env : Env) (config : Config) (secret_ok : bool) (lstat : bytes -> Lstat) (e : Edge) (v : bytes) : Prop :=
  exists server evs e', Service env config secret_ok lstat true e = inl (server, evs, e')
    /\ forall png icon info, ForgeData (serverStatusResponse png icon info config server) = v.

(** The service of an accepted configuration that loads a snapshot, or finds
    none. *)
Lemma Service_boots env config secret_ok lstat e loaded :
  config_accepted config secret_ok -> ForgeStatusFile (Config_Server config) <> [] ->
  loadForgeStatusSnapshot config lstat = Some loaded ->
  boots_advertising env config secret_ok lstat e (from_option ForgeData [] loaded).
Proof.
  intros [Hc Ho] Hf Hl. unfold boots_advertising, Service. rewrite Hc, Ho, decide_False, Hl by done.
  set (s := final (SeedStatus loaded NewServerState)). cbn [negb].
  assert (state s = StateStopped /\ pid s = 0 /\ status s = loaded) as (Hs & Hp & Hst0) by by destruct loaded.
  destruct (boot_start env config s Hs Hp) as [Hst Hne].
  assert (forall s', status s' = loaded -> state s' <> StateStarted ->
    forall png icon info, ForgeData (serverStatusResponse png icon info config s') = from_option ForgeData [] loaded) as Hresp.
  { intros s' H1 H2 png icon info. unfold serverStatusResponse. rewrite H1. by destruct (state s'), loaded. }
  destruct (WakeOnStart (Config_Server config)).
  - unfold final in Hst, Hne. destruct (Start env config s) as [[b s'] evs]. do 3 eexists. split; [done|].
    apply Hresp; [|done]. by rewrite <- Hst0.
  - do 3 eexists. split; [done|]. apply Hresp; [done|]. by rewrite Hs.
Qed.

Lemma load_same_path config path lstat lstat' : forgeStatusPath config = Some path -> lstat path = lstat' path ->
  loadForgeStatusSnapshot config lstat = loadForgeStatusSnapshot config lstat'.
Proof. intros Hp Hl. unfold loadForgeStatusSnapshot. rewrite Hp. cbn. by rewrite Hl. Qed.


Definition forge_answer : ServerStatus :=
  mkServerStatus (mkServerVersion (str "1.20.1") 763) (mkOnlinePlayers 20 0 []) (str "A server") None (forge_snapshot ++ [x0a]).

(** The disk with a snapshot the gateway stored before. *)
Definition old_snapshot : bytes :=
  [x7b] ++ quoted "fmlNetworkVersion" ++ str ":2," ++ quoted "channels" ++ str ":[]}".
Definition stored_disk : FS :=
  <[str "/srv/mc" := NDir]> (<[str "/srv/mc/forge.json" := NFile (mkFileNode old_snapshot 5 true true)]> ∅).

