(* ===== verification/Watcher.v ===== *)
(** The file watcher of [src/service_tasks.go]: [fileWatcherService],
    [watchServer] and [updateFiles].

    The watcher polls while other processes change the files, so each of its
    accesses has its own time: [hist t] is the file system at time [t]. *)
From stdpp Require Import gmap.
From S2P Require Import Prelude Packet Config Net Json Access ServerProperties Files Process JoinGame ServerState Service.

(** ** The watcher *)

Definition BanFile : bytes := str "banned-ips.json".
Definition WhitelistFile : bytes := str "whitelist.json".
Definition OpsFile : bytes := str "ops.json".
Definition ServerPropertiesFile : bytes := str "server.properties".

Section Watcher.

Context (config : Config) (dir : bytes).

Definition banPath : bytes := JoinPath [dir; BanFile].
Definition whitelistPath : bytes := JoinPath [dir; WhitelistFile].
Definition opsPath : bytes := JoinPath [dir; OpsFile].
Definition propsPath : bytes := JoinPath [dir; ServerPropertiesFile].

(** [reloadWhitelist] reads its three files in [dir]; [load] is what each read
    is given. *)
Definition reload_whitelist_dir (load : bytes -> File) : Op unit :=
  reloadWhitelist config (load propsPath) (load whitelistPath) (load opsPath).

Definition updateFiles (load : bytes -> File) (path : bytes) : Op unit :=
  _ ← (if decide (Base path = BanFile) then reloadBans config (load path) else mret tt);
  if decide (Base path = WhitelistFile \/ Base path = OpsFile \/ Base path = ServerPropertiesFile)
  then reload_whitelist_dir load else mret tt.

(** The map [states] of [watchServer] with the shared server state. *)
Record Watching := mkWatching { w_states : gmap bytes fileState; w_server : ServerState }.

(** The zero value of a missing map entry *)
Definition zero_state : fileState := mkFileState false 0 0.

(** The closure [check]: [cur] is the answer of [currentFileState]. *)
Definition check_path (cur : fileState) (load : bytes -> File) (path : bytes) (w : Watching) : Watching :=
  if decide (cur = default zero_state (w_states w !! path)) then w
  else mkWatching (<[path := cur]> (w_states w)) (final (updateFiles load path (w_server w))).

(** ** In time *)

Context (hist : nat -> FS).

(** One call of [check]: when it looks at the file, when it reads each file if
    it reloads, and when it is done. *)
Record Check := mkCheck { ck_path : bytes; ck_stat : nat; ck_load : bytes -> nat; ck_end : nat }.

Definition load_at (times : bytes -> nat) : bytes -> File := fun p => file_at (hist (times p)) p.

Definition run_check (w : Watching) (c : Check) : Watching :=
  check_path (currentFileState (hist (ck_stat c)) (ck_path c)) (load_at (ck_load c)) (ck_path c) w.

(** A round of the loop: the four files in order; [Times] are the times of one
    check. *)
Definition Times : Type := nat * (bytes -> nat) * nat.
Definition check_times (path : bytes) (t : Times) : Check := mkCheck path (fst (fst t)) (snd (fst t)) (snd t).

Record Round := mkRound { r_ban : Times; r_whitelist : Times; r_ops : Times; r_props : Times }.

Definition round_checks (r : Round) : list Check :=
  [check_times banPath (r_ban r); check_times whitelistPath (r_whitelist r);
   check_times opsPath (r_ops r); check_times propsPath (r_props r)].

(** The initial states of [watchServer], each file at its own time. *)
Definition watch_states (record : bytes -> nat) : gmap bytes fileState :=
  let at_ p := currentFileState (hist (record p)) p in
  <[propsPath := at_ propsPath]> (<[opsPath := at_ opsPath]>
    (<[whitelistPath := at_ whitelistPath]> (<[banPath := at_ banPath]> ∅))).

(** [watchServer] for the given rounds: it never returns once it has begun;
    [None] is the return when the directory is gone. *)
Definition watchServer (begin : nat) (record : bytes -> nat) (rounds : list Round) (server : ServerState) : option Watching :=
  if negb (isDir (hist begin) dir) then None
  else Some (foldl run_check (mkWatching (watch_states record) server) (concat (map round_checks rounds))).

(** [fileWatcherService]: the server state after the given rounds; [init] are
    the times of the first reads. *)
Definition fileWatcherService (start : nat) (init : bytes -> nat) (begin : nat) (record : bytes -> nat) (rounds : list Round)
    (server : ServerState) : ServerState :=
  if negb (isDir (hist start) dir) then server
  else
    let server := final ((_ ← reloadBans config (load_at init banPath); reload_whitelist_dir (load_at init)) server) in
    match watchServer begin record rounds server with
    | None => server
    | Some w => w_server w
    end.

End Watcher.

(** ** The watched paths *)

Lemma watched_name dir name : bool_decide ((slash ∉ name) /\ name <> [] /\ name <> dot /\ name <> dotdot) = true ->
  Base (JoinPath [dir; name]) = name.
Proof. intros H%bool_decide_eq_true. by apply Base_JoinPath. Qed.

Lemma Base_paths dir : Base (banPath dir) = BanFile /\ Base (whitelistPath dir) = WhitelistFile
  /\ Base (opsPath dir) = OpsFile /\ Base (propsPath dir) = ServerPropertiesFile.
Proof. split_and!; apply watched_name; vm_compute; reflexivity. Qed.

Lemma paths_distinct dir : NoDup [banPath dir; whitelistPath dir; opsPath dir; propsPath dir].
Proof.
  apply (NoDup_fmap_1 Base). rewrite !fmap_cons, fmap_nil. destruct (Base_paths dir) as (-> & -> & -> & ->).
  eapply bool_decide_unpack. vm_compute. exact I.
Qed.

Lemma updateFiles_ban config dir load s : updateFiles config dir load (banPath dir) s = reloadBans config (load (banPath dir)) s.
Proof.
  destruct (Base_paths dir) as (Hb & _). unfold updateFiles. rewrite Hb.
  rewrite decide_False by (intros [H|[H|H]]; vm_compute in H; discriminate H). rewrite decide_True by done.
  unfold mbind, Op_bind, mret, Op_ret. destruct (reloadBans _ _ _) as [[[] s'] ev]. by rewrite app_nil_r.
Qed.

Lemma updateFiles_whitelist config dir load p s : p ∈ [whitelistPath dir; opsPath dir; propsPath dir] ->
  updateFiles config dir load p s = reload_whitelist_dir config dir load s.
Proof.
  intros Hp. destruct (Base_paths dir) as (_ & Hw & Ho & Hq). unfold updateFiles.
  assert (Base p <> BanFile /\ (Base p = WhitelistFile \/ Base p = OpsFile \/ Base p = ServerPropertiesFile)) as [H1 H2].
  { repeat (apply elem_of_cons in Hp as [->|Hp]; [rewrite ?Hw, ?Ho, ?Hq; split; [vm_compute; discriminate|tauto]|]). by apply not_elem_of_nil in Hp. }
  rewrite decide_True, decide_False by done. unfold mbind, Op_bind, mret, Op_ret.
  by destruct (reload_whitelist_dir _ _ _ _) as [[[] s'] ev].
Qed.

(** ** What a reload leaves alone *)

Lemma reloadBans_whitelist config f s : st_whitelist (final (reloadBans config f s)) = st_whitelist s.
Proof.
  unfold reloadBans, SetBannedIPs, modify, mret, Op_ret, final. destruct (_ && _); [done|]. destruct f as [| |c]; [done..|].
  by destruct (LoadBannedIps c).
Qed.

Lemma reloadWhitelist_banned config a b c s : banned (final (reloadWhitelist config a b c s)) = banned s.
Proof.
  unfold reloadWhitelist, SetWhitelist, modify, mret, Op_ret, final. destruct (negb _); [done|].
  destruct (ReadServerProperties _ _) as [v|]; [destruct (bool_decide _)|]; cbn [negb]; [|done..].
  by destruct (load_whitelist_files b c).
Qed.

(** ** Catching up *)

#[local] Opaque currentFileState file_at.

Section CatchUp.

Context (config : Config) (dir : bytes) (hist : nat -> FS).

Definition watched (p : bytes) : Prop := p ∈ [banPath dir; whitelistPath dir; opsPath dir; propsPath dir].

(** The stamps of a file tell its versions apart: when the stamp at two times
    is the same, the file was the same all the time between. *)
Definition faithful_stamps (p : bytes) : Prop := forall r l t, (r <= l <= t)%nat ->
  currentFileState (hist r) p = currentFileState (hist t) p -> file_at (hist l) p = file_at (hist t) p.

(** The checks happen one after the other, each reading after it has looked. *)
Fixpoint in_order (now : nat) (cs : list Check) : Prop :=
  match cs with
  | [] => True
  | c :: cs' => (now <= ck_stat c)%nat /\ (forall p, (ck_stat c <= ck_load c p <= ck_end c)%nat) /\ in_order (ck_end c) cs'
  end.

Fixpoint end_time (now : nat) (cs : list Check) : nat := match cs with [] => now | c :: cs' => end_time (ck_end c) cs' end.

(** The access lists are what reloads made of files read at the times [read]. *)
Definition loaded (read : bytes -> nat) (s : ServerState) : Prop :=
  (exists s0, banned s = banned (final (reloadBans config (load_at hist read (banPath dir)) s0)))
  /\ exists s1, st_whitelist s = st_whitelist (final (reload_whitelist_dir config dir (load_at hist read) s1)).

(** Every file was read at or after the time of its recorded stamp. *)
Definition tracking (now : nat) (w : Watching) : Prop := exists seen read,
  (forall p, watched p -> (seen p <= read p <= now)%nat /\ w_states w !! p = Some (currentFileState (hist (seen p)) p))
  /\ loaded read (w_server w).

Lemma watched_paths : watched (banPath dir) /\ watched (whitelistPath dir) /\ watched (opsPath dir) /\ watched (propsPath dir).
Proof. unfold watched. rewrite !elem_of_cons. tauto. Qed.

Lemma loaded_ext read read' s : (forall p, watched p -> load_at hist read p = load_at hist read' p) -> loaded read s -> loaded read' s.
Proof.
  intros Hr [[s0 H0] [s1 H1]]. unfold reload_whitelist_dir in H1. destruct watched_paths as (W1 & W2 & W3 & W4).
  rewrite (Hr _ W1) in H0. rewrite (Hr _ W2), (Hr _ W3), (Hr _ W4) in H1. split; eauto.
Qed.

Definition point (f : bytes -> nat) (p : bytes) (t : nat) : bytes -> nat := fun q => if decide (q = p) then t else f q.

(** The read times after a reload triggered by [p]. *)
Definition reread (read load : bytes -> nat) (p : bytes) : bytes -> nat := fun q =>
  if decide (p = banPath dir) then (if decide (q = p) then load q else read q)
  else (if decide (q = banPath dir) then read q else load q).

Lemma updateFiles_loaded read load p s : watched p -> loaded read s ->
  loaded (reread read load p) (final (updateFiles config dir (load_at hist load) p s)).
Proof.
  intros Hp [[s0 H0] [s1 H1]]. pose proof (paths_distinct dir) as Hnd.
  rewrite !NoDup_cons, !not_elem_of_cons in Hnd. destruct Hnd as ((Hn1 & Hn2 & Hn3 & _) & _).
  unfold loaded, reread, reload_whitelist_dir, load_at in *. destruct (decide (p = banPath dir)) as [->|Hne].
  - rewrite updateFiles_ban. split.
    + exists s. rewrite decide_True by done. done.
    + exists s1. rewrite !decide_False by congruence. by rewrite reloadBans_whitelist.
  - rewrite updateFiles_whitelist by (unfold watched in Hp; rewrite elem_of_cons in Hp; by destruct Hp). unfold reload_whitelist_dir. split.
    + exists s0. rewrite decide_True by done. by rewrite reloadWhitelist_banned.
    + exists s. rewrite !decide_False by congruence. done.
Qed.

Lemma run_check_tracking now w c : watched (ck_path c) -> (now <= ck_stat c)%nat ->
  (forall p, (ck_stat c <= ck_load c p <= ck_end c)%nat) -> tracking now w -> tracking (ck_end c) (run_check config dir hist w c).
Proof.
  intros Hp Hnow Hload (seen & read & Hs & Hl). unfold run_check, check_path.
  assert (now <= ck_end c)%nat as Hend by (specialize (Hload (ck_path c)); lia).
  case_decide as Hd.
  - exists seen, read. split; [|done]. intros p Hw. destruct (Hs p Hw) as [Ht Hst]. split; [lia|done].
  - exists (point seen (ck_path c) (ck_stat c)), (reread read (ck_load c) (ck_path c)). split; [|by apply updateFiles_loaded].
    intros p Hw. destruct (Hs p Hw) as [Ht Hst]. specialize (Hload p). unfold point. cbn [w_states]. split.
    + unfold reread. repeat case_decide; subst; first [lia|congruence].
    + case_decide as Hpp; [subst; apply lookup_insert_eq|by rewrite lookup_insert_ne].
Qed.

Lemma run_checks_tracking cs : forall now w, Forall (fun c => watched (ck_path c)) cs -> in_order now cs ->
  tracking now w -> tracking (end_time now cs) (foldl (run_check config dir hist) w cs).
Proof.
  induction cs as [|c cs IH]; [done|]. intros now w [Hc Hcs]%Forall_cons (H1 & H2 & H3) Ht. cbn [foldl end_time].
  apply IH; [done..|]. by eapply run_check_tracking.
Qed.

(** From [since] on the watched files no longer change. *)
Definition settled (since : nat) : Prop := forall p t, watched p -> (since <= t)%nat ->
  file_at (hist t) p = file_at (hist since) p /\ currentFileState (hist t) p = currentFileState (hist since) p.

(** The recorded stamp of [p] is the final one. *)
Definition caught (since : nat) (p : bytes) (w : Watching) : Prop :=
  default zero_state (w_states w !! p) = currentFileState (hist since) p.

Lemma run_check_catches since w c : settled since -> watched (ck_path c) -> (since <= ck_stat c)%nat ->
  let w' := run_check config dir hist w c in
  caught since (ck_path c) w' /\ forall p, caught since p w -> caught since p w'.
Proof.
  intros Hset Hc Hst. unfold run_check, check_path, caught. destruct (Hset _ _ Hc Hst) as [_ ->].
  case_decide as Hd; cbn [w_states]; [auto|]. split; [by rewrite lookup_insert_eq|]. intros p Hp.
  destruct (decide (p = ck_path c)) as [->|Hne]; [by rewrite lookup_insert_eq|by rewrite lookup_insert_ne].
Qed.

Lemma run_checks_catch since cs : settled since -> forall w, Forall (fun c => watched (ck_path c) /\ (since <= ck_stat c)%nat) cs ->
  forall p, caught since p w \/ p ∈ map ck_path cs -> caught since p (foldl (run_check config dir hist) w cs).
Proof.
  intros Hset. induction cs as [|c cs IH]; intros w Hcs p; cbn [map foldl]; [by intros [?|?%not_elem_of_nil]|].
  apply Forall_cons in Hcs as [[Hc Hst] Hcs]. destruct (run_check_catches since w c Hset Hc Hst) as [H1 H2].
  rewrite elem_of_cons. intros [H|[Hp|H]]; apply IH; [done| |done| |done|by right].
  - left. by apply H2.
  - left. by rewrite Hp.
Qed.

Lemma caught_loaded since now w : settled since -> (forall p, watched p -> faithful_stamps p) ->
  (forall p, watched p -> caught since p w) -> tracking now w -> loaded (fun _ => since) (w_server w).
Proof.
  intros Hset Hf Hc (seen & read & Hs & Hl). eapply loaded_ext; [|exact Hl]. intros p Hp. destruct (Hs p Hp) as [Ht Hst].
  specialize (Hc p Hp). unfold caught in Hc. rewrite Hst in Hc. cbn [default] in Hc. unfold load_at.
  destruct (Hset p (Nat.max now since) Hp (Nat.le_max_r _ _)) as [Hfile Hstamp]. rewrite <- Hfile.
  apply (Hf p Hp (seen p)); [lia|]. exact (eq_trans Hc (eq_sym Hstamp)).
Qed.

Lemma round_checks_watched r : Forall (fun c => watched (ck_path c)) (round_checks dir r).
Proof. destruct watched_paths as (W1 & W2 & W3 & W4). by repeat (apply Forall_cons_2; [done|]). Qed.

Lemma rounds_watched rounds : Forall (fun c => watched (ck_path c)) (concat (map (round_checks dir) rounds)).
Proof. induction rounds as [|r rounds IH]; [done|]. cbn [map concat]. apply Forall_app. split; [apply round_checks_watched|done]. Qed.

Lemma watch_states_at record p : watched p -> watch_states dir hist record !! p = Some (currentFileState (hist (record p)) p).
Proof.
  pose proof (paths_distinct dir) as Hnd. rewrite !NoDup_cons, !not_elem_of_cons in Hnd.
  destruct Hnd as ((N1 & N2 & N3 & _) & (N4 & N5 & _) & (N6 & _) & _). unfold watched, watch_states. rewrite !elem_of_cons.
  intros [->|[->|[->|[->|H%not_elem_of_nil]]]]; [| | | |done];
    repeat first [rewrite lookup_insert_eq; reflexivity | rewrite lookup_insert_ne by congruence].
Qed.

(** The access lists are those of the files of a file system. *)
Definition bans_current (fs : FS) (s : ServerState) : Prop :=
  match file_at fs (banPath dir) with
  | NoFile => banned s = NewBannedIps
  | Contents c => forall ips, LoadBannedIps c = Some ips -> banned s = ips
  | Unreadable => True
  end.

Definition whitelist_on (fs : FS) : Prop := ReadServerProperties (file_at fs (propsPath dir)) (str "white-list") = Some (str "true").

Definition whitelist_current (fs : FS) (s : ServerState) : Prop :=
  (~ whitelist_on fs -> st_whitelist s = None)
  /\ (whitelist_on fs -> forall wl, load_whitelist_files (file_at fs (whitelistPath dir)) (file_at fs (opsPath dir)) = Some wl ->
        st_whitelist s = Some wl).

Lemma loaded_current since s :
  BlockBannedIps (Config_Server config) = true \/ DropBannedIps (Config_Server config) = true ->
  WakeWhitelist (Config_Server config) = true -> loaded (fun _ => since) s ->
  bans_current (hist since) s /\ whitelist_current (hist since) s.
Proof.
  intros Hb Hw [[s0 H0] [s1 H1]]. unfold load_at in *. split.
  - unfold bans_current. rewrite H0. unfold reloadBans.
    replace (negb (BlockBannedIps (Config_Server config)) && negb (DropBannedIps (Config_Server config))) with false
      by (destruct Hb as [-> | ->]; [done|by rewrite andb_false_r]).
    destruct (file_at (hist since) (banPath dir)) as [| |c]; [done..|]. by intros ips ->.
  - unfold whitelist_current, whitelist_on. rewrite H1. unfold reload_whitelist_dir, load_at, reloadWhitelist. rewrite Hw. cbn [negb].
    split.
    + intros Hon. destruct (ReadServerProperties _ _) as [v|]; [|done]. by rewrite bool_decide_false by congruence.
    + intros -> wl ->. by rewrite bool_decide_true.
Qed.

(** C14: the watcher catches up with the access files. Banning and the wake
    whitelist are enabled, the directory of the server is there, the stamps of
    a file tell its versions apart, and no file changed between its first load
    and its first stamp ([early_change_lost] shows that this is needed). Then,
    whatever happened to the files in later rounds, once they have settled the
    first full round of polls leaves the gateway with exactly their bans and
    whitelist: the bans of a valid ban file (none if it is missing), no
    whitelist unless the server properties turn it on, and else the users of
    the whitelist and the operators. *)
Theorem watcher_catches_up (start begin now since : nat) (init record : bytes -> nat) (rounds : list Round) (final_round : Round)
    (server : ServerState) :
  BlockBannedIps (Config_Server config) = true \/ DropBannedIps (Config_Server config) = true ->
  WakeWhitelist (Config_Server config) = true ->
  isDir (hist start) dir = true -> isDir (hist begin) dir = true ->
  (forall p, watched p -> faithful_stamps p) ->
  (forall p, watched p -> (record p <= now)%nat /\ file_at (hist (init p)) p = file_at (hist (record p)) p) ->
  in_order now (concat (map (round_checks dir) (rounds ++ [final_round]))) ->
  settled since -> Forall (fun c => (since <= ck_stat c)%nat) (round_checks dir final_round) ->
  let s := fileWatcherService config dir hist start init begin record (rounds ++ [final_round]) server in
  bans_current (hist since) s /\ whitelist_current (hist since) s.
Proof.
  intros Hb Hw Hd1 Hd2 Hf Hq Hord Hset Hlast. cbn zeta. apply loaded_current; [done..|].
  unfold fileWatcherService, watchServer. rewrite Hd1, Hd2. cbn [negb].
  set (s0 := final _). set (w0 := mkWatching (watch_states dir hist record) s0).
  assert (tracking now w0) as Ht.
  { exists record, record. split.
    - intros p Hp. destruct (Hq p Hp) as [Hr _]. split; [lia|by apply watch_states_at].
    - apply (loaded_ext init record); [intros p Hp; by apply Hq|]. unfold w0, s0, final, mbind, Op_bind. cbn [w_server].
      split; [exists server|exists (final (reloadBans config (load_at hist init (banPath dir)) server))];
        unfold final; destruct (reloadBans _ _ server) as [[[] s1] e1]; cbn [fst snd];
        [pose proof (reloadWhitelist_banned config (load_at hist init (propsPath dir)) (load_at hist init (whitelistPath dir)) (load_at hist init (opsPath dir)) s1) as Hk
        |]; unfold reload_whitelist_dir, final in *; destruct (reloadWhitelist _ _ _ _ s1) as [[[] s2] e2]; done. }
  assert (Forall (fun c => watched (ck_path c) /\ (since <= ck_stat c)%nat) (round_checks dir final_round)) as Hfinal.
  { apply Forall_and. split; [apply round_checks_watched|done]. }
  eapply (caught_loaded since _ _ Hset Hf); [|apply run_checks_tracking; [apply rounds_watched|exact Hord|exact Ht]].
  intros p Hp. rewrite map_app, concat_app, foldl_app. cbn [map concat]. rewrite app_nil_r.
  apply run_checks_catch; [done..|]. right. exact Hp.
Qed.

End CatchUp.

#[local] Transparent currentFileState file_at.

(** ** An example *)

Definition watch_dir : bytes := str "/srv/mc".

Definition ban_entry_file : Node := NFile (mkFileNode ban_file 7 true true).

(** A directory to which a ban file is added at time [at_]. *)
Definition banning (at_ t : nat) : FS :=
  let before : FS := <[watch_dir := NDir]> ∅ in
  if (t <? at_)%nat then before else <[banPath watch_dir := ban_entry_file]> before.

Lemma ban_path_not_dir : banPath watch_dir <> watch_dir.
Proof. vm_compute. discriminate. Qed.

Lemma banning_Stat at_ t p : Stat (banning at_ t) p =
  if decide (p = banPath watch_dir /\ (at_ <= t)%nat) then Some ban_entry_file
  else if decide (p = watch_dir) then Some NDir else None.
Proof.
  assert (banning at_ t !! p = if decide (p = banPath watch_dir /\ (at_ <= t)%nat) then Some ban_entry_file
    else if decide (p = watch_dir) then Some NDir else None) as E.
  { unfold banning. pose proof ban_path_not_dir as Hn. destruct (t <? at_)%nat eqn:Et.
    - apply Nat.ltb_lt in Et. rewrite decide_False by lia. case_decide as Hp; [subst; apply lookup_insert_eq|].
      by rewrite lookup_insert_ne, lookup_empty.
    - apply Nat.ltb_ge in Et. case_decide as Hp.
      + destruct Hp as [-> _]. apply lookup_insert_eq.
      + rewrite lookup_insert_ne by (intros E0; apply Hp; by rewrite E0). case_decide as Hp2; [subst; apply lookup_insert_eq|].
        by rewrite lookup_insert_ne, lookup_empty. }
  rewrite Stat_direct, E; [done|]. intros l. rewrite E. by repeat case_decide.
Qed.

Lemma banning_ban at_ t : Stat (banning at_ t) (banPath watch_dir) = if decide (at_ <= t)%nat then Some ban_entry_file else None.
Proof.
  rewrite banning_Stat, (decide_False (P := banPath watch_dir = watch_dir)) by apply ban_path_not_dir.
  destruct (decide (at_ <= t)%nat); [by rewrite decide_True|by rewrite decide_False by tauto].
Qed.

Lemma banning_file at_ t : file_at (banning at_ t) (banPath watch_dir) = if decide (at_ <= t)%nat then Contents ban_file else NoFile.
Proof. unfold file_at. rewrite banning_ban. by case_decide. Qed.

Lemma banning_dir at_ t : isDir (banning at_ t) watch_dir = true.
Proof.
  unfold isDir. rewrite banning_Stat, decide_False; [by rewrite decide_True|]. intros [E _]. by apply ban_path_not_dir.
Qed.

Lemma banning_faithful at_ p : faithful_stamps (banning at_) p.
Proof.
  intros r l t Hrl. unfold currentFileState, file_at. destruct (decide (p = banPath watch_dir)) as [->|Hp].
  - rewrite !banning_ban. repeat case_decide; first [done|lia].
  - rewrite !banning_Stat, !(decide_False (P := p = banPath watch_dir /\ _)) by tauto. done.
Qed.

Lemma banning_settled at_ since : (at_ <= since)%nat -> settled watch_dir (banning at_) since.
Proof.
  intros Hs p t _ Ht. unfold file_at, currentFileState. rewrite !banning_Stat.
  by rewrite (decide_ext (p = banPath watch_dir /\ (at_ <= t)%nat) (p = banPath watch_dir /\ (at_ <= since)%nat)) by (split; intros [? ?]; split; [done|lia|done|lia]).
Qed.

Lemma load_ban_file : LoadBannedIps ban_file = Some (ban_map [banned_entry]).
Proof.
  assert (Unmarshal nil_slice (dec_slice zero_ban (dec_struct ban_fields)) ban_file = Some (mkSlice [banned_entry] 1 false)) as E
    by (vm_compute; reflexivity).
  unfold LoadBannedIps. rewrite E. reflexivity.
Qed.

Definition at_time (t : nat) : Times := (t, fun _ => t, t).
Definition round_at (t : nat) : Round := mkRound (at_time t) (at_time (t + 1)) (at_time (t + 2)) (at_time (t + 3)).

Lemma watcher_catches_up_witness :
  banned (fileWatcherService defaultConfig watch_dir (banning 10) 0 (fun _ => 1%nat) 2 (fun _ => 3%nat)
            ([round_at 5] ++ [round_at 11]) NewServerState) = ban_map [banned_entry].
Proof.
  pose proof (watcher_catches_up defaultConfig watch_dir (banning 10) 0 2 3 10 (fun _ => 1%nat) (fun _ => 3%nat)
    [round_at 5] (round_at 11) NewServerState) as H.
  assert (bans_current watch_dir (banning 10 10) (fileWatcherService defaultConfig watch_dir (banning 10) 0 (fun _ => 1%nat) 2
    (fun _ => 3%nat) ([round_at 5] ++ [round_at 11]) NewServerState)) as Hb.
  { apply H; clear H.
    - left. reflexivity.
    - reflexivity.
    - apply banning_dir.
    - apply banning_dir.
    - intros p _. apply banning_faithful.
    - intros p _. split; [lia|]. unfold file_at. rewrite !banning_Stat. by rewrite !(decide_False (P := p = banPath watch_dir /\ _)) by lia.
    - cbn. repeat split; intros; lia.
    - apply banning_settled. lia.
    - repeat (apply Forall_cons_2; [cbn; lia|]). apply Forall_nil_2. }
  unfold bans_current in Hb. rewrite banning_file in Hb. apply Hb, load_ban_file.
Defined.

(** ** A change that is lost *)

Lemma run_checks_idle config dir hist since cs : settled dir hist since -> forall w,
  (forall p, watched dir p -> caught hist since p w) ->
  Forall (fun c => watched dir (ck_path c) /\ (since <= ck_stat c)%nat) cs -> foldl (run_check config dir hist) w cs = w.
Proof.
  intros Hset w Hc. induction cs as [|c cs IH]; [done|]. intros [[Hw Hst] Hcs]%Forall_cons. cbn [foldl].
  assert (run_check config dir hist w c = w) as ->; [|by apply IH].
  unfold run_check, check_path. rewrite decide_True; [done|]. rewrite (Hc _ Hw). by apply Hset.
Qed.

Lemma early_bans_kept rounds : Forall (fun c => (1 <= ck_stat c)%nat) (concat (map (round_checks watch_dir) rounds)) ->
  banned (fileWatcherService defaultConfig watch_dir (banning 1) 0 (fun _ => 0%nat) 1 (fun _ => 1%nat) rounds NewServerState) = NewBannedIps.
Proof.
  intros Hr. unfold fileWatcherService, watchServer. rewrite !banning_dir. cbn [negb].
  rewrite (run_checks_idle _ _ _ 1).
  - cbn [w_server]. unfold mbind, Op_bind, final, load_at. rewrite banning_file, decide_False by lia.
    unfold reloadBans. cbn [negb andb BlockBannedIps Config_Server defaultConfig]. unfold SetBannedIPs, modify.
    pose proof (reloadWhitelist_banned defaultConfig (file_at (banning 1 0) (propsPath watch_dir)) (file_at (banning 1 0) (whitelistPath watch_dir))
      (file_at (banning 1 0) (opsPath watch_dir)) (set_banned NewBannedIps NewServerState)) as H. unfold reload_whitelist_dir, final in *.
    destruct (reloadWhitelist _ _ _ _ _) as [[[] s] e]. exact H.
  - by apply banning_settled.
  - intros p Hp. unfold caught. cbn [w_states]. by rewrite watch_states_at.
  - apply Forall_and. split; [apply rounds_watched|done].
Qed.

(** A change between the first load of the files and the first record of
    their stamps is never noticed. With a ban file written in that moment and
    unchanged since, the gateway has no bans after any number of rounds. *)
Theorem early_change_lost (rounds : list Round) :
  Forall (fun c => (1 <= ck_stat c)%nat) (concat (map (round_checks watch_dir) rounds)) ->
  let s := fileWatcherService defaultConfig watch_dir (banning 1) 0 (fun _ => 0%nat) 1 (fun _ => 1%nat) rounds NewServerState in
  banned s = NewBannedIps /\ ~ bans_current watch_dir (banning 1 1) s.
Proof.
  intros Hr. cbn zeta. rewrite <- early_bans_kept with (1 := Hr) at 1. split; [done|].
  intros H. unfold bans_current in H. rewrite banning_file in H. specialize (H _ load_ban_file).
  rewrite early_bans_kept in H by done. apply (f_equal (lookup (str "10.0.0.7"))) in H.
  rewrite ban_map_lookup in H. vm_compute in H. discriminate H.
Qed.

Lemma early_change_lost_witness :
  banned (fileWatcherService defaultConfig watch_dir (banning 1) 0 (fun _ => 0%nat) 1 (fun _ => 1%nat) [round_at 2; round_at 8] NewServerState)
  = NewBannedIps.
Proof.
  apply (early_change_lost [round_at 2; round_at 8]). repeat (apply Forall_cons_2; [cbn; lia|]). apply Forall_nil_2.
Defined.
