(* ===== verification/Probe.v ===== *)
(** Probing the server: [src/probe.go].

    The probe logs in to the started server as a user of its own, records the
    Forge requests it is asked and the join game packet, which the lobby later
    imitates. [waitForServerJoinGameNoTimeout] is shared with the lobby. A
    timeout only abandons the goroutine that does the work: it is an input
    ([in_time]) that decides whether the result is used. *)
From S2P Require Import Prelude VarInt Wire Packet Stream Config Net Packets Access Process GoFloat Nbt JoinGame ServerState Cipher Profile Velocity Proxy Admission Status Link PlayPackets ForgeLogin Join Backend.

Definition probeUser : bytes := str "_lazymc_probe".
Definition probeOnlineTimeout : Z := 600 * second.

(** ** Waiting for the join game packet *)

Section JoinGame.

Context `{ZL : Zlib}.

Definition of_out {S A} (o : Out A) : ST S A := fun s =>
  match o with Ret a => (Ret a, s) | Bad => (Bad, s) | Panic => (Panic, s) | NoFuel => (NoFuel, s) end.

(** [*buf = append(queued, remaining...)] *)
Definition requeue (queued : bytes) (s : Side) : Side :=
  let l := side_link s in
  mkSide (side_client s) (mkLink (l_conn l) (queued ++ l_buf l) (l_enc l) (l_out l) (l_room l)).

Fixpoint join_loop (info : ClientInfo) (fuel : nat) (queued : bytes) : ST Side JoinGameData :=
  match fuel with
  | O => nofuel
  | S fuel' =>
      answer ← side_read;
      match answer with
      | None => bad
      | Some (packet, raw) =>
          if JoinGameIsPacket info (ID packet) then
            joinGameData ← of_out (JoinGameDataFromPacket info packet);
            _ ← changing (requeue queued);
            mret joinGameData
          else
            _ ← check (negb (MaxBufferedBytes <? Zlen queued + Zlen raw));
            join_loop info fuel' (queued ++ raw)
      end
  end.

(** A round takes at least a byte of the stream. *)
Definition waitForServerJoinGameNoTimeout (info : ClientInfo) : ST Side JoinGameData :=
  fueled (fun s => S (length (side_stream s))) (fun fuel => join_loop info fuel []).

(** The wrapper with the timeout; a panic of the goroutine is one of the
    program. *)
Definition with_timeout {S A} (in_time : bool) (m : ST S A) : ST S A := fun s =>
  let '(r, s) := m s in
  (match r with
   | Ret _ | Bad => if in_time then r else Bad
   | Panic => Panic
   | NoFuel => NoFuel
   end, s).

Definition waitForServerJoinGame (in_time : bool) (info : ClientInfo) : ST Side JoinGameData :=
  with_timeout in_time (waitForServerJoinGameNoTimeout info).

(** *** Nothing but the join game packet is taken *)

(** [frames client ps stream tail]: the stream starts with the whole frames of
    packets [ps], and [tail] follows. *)
Fixpoint frames (client : Client) (ps : list (RawPacket * bytes)) (stream tail : bytes) : Prop :=
  match ps with
  | [] => stream = tail
  | (p, raw) :: ps' => exists rest, stream = raw ++ rest /\ whole_frame client p raw /\ frames client ps' rest tail
  end.

Definition raw_bytes (ps : list (RawPacket * bytes)) : bytes := concat (map snd ps).

Lemma frames_stream client ps stream tail : frames client ps stream tail -> stream = raw_bytes ps ++ tail.
Proof.
  revert stream. induction ps as [|[p raw] ps IH]; intros stream; cbn [frames]; [done|].
  intros (rest & -> & _ & H). unfold raw_bytes. cbn [map concat snd]. rewrite <- app_assoc. f_equal. by apply IH.
Qed.

Lemma frames_whole client ps stream tail : frames client ps stream tail -> Forall (fun f => whole_frame client (fst f) (snd f)) ps.
Proof.
  revert stream. induction ps as [|[p raw] ps IH]; intros stream; cbn [frames]; [constructor|].
  intros (rest & _ & Hw & H). constructor; [done|by eapply IH].
Qed.

Lemma side_read_frame s p raw s' : side_read s = (Ret (Some (p, raw)), s') ->
  whole_frame (side_client s) p raw /\ side_stream s = raw ++ side_stream s' /\ raw <> [].
Proof.
  intros E. destruct (side_read_conserves _ _ _ E) as (_ & _ & _ & _ & H1 & H2). split_and!; try done. by eapply side_read_whole.
Qed.

Lemma join_loop_spec info fuel : forall queued s r s',
  (length (side_stream s) < fuel)%nat -> join_loop info fuel queued s = (r, s') ->
  r <> NoFuel /\ side_client s' = side_client s /\ side_out s' = side_out s /\ l_enc (side_link s') = l_enc (side_link s)
  /\ (forall d, r = Ret d -> exists ps p raw tail,
        Forall (fun q => JoinGameIsPacket info (ID (fst q)) = false) ps
        /\ JoinGameIsPacket info (ID p) = true /\ JoinGameDataFromPacket info p = Ret d
        /\ frames (side_client s) (ps ++ [(p, raw)]) (side_stream s) tail
        /\ side_stream s' = queued ++ raw_bytes ps ++ tail
        /\ (Zlen queued <= MaxBufferedBytes -> Zlen (queued ++ raw_bytes ps) <= MaxBufferedBytes)).
Proof.
  induction fuel as [|fuel IH]; intros queued s r s' Hlen E; [lia|]. cbn [join_loop] in E.
  unfold mbind at 1, ST_bind at 1 in E. destruct (side_read s) as [a s1] eqn:Er.
  pose proof (side_read_returns s) as Hret. rewrite Er in Hret. cbn [fst] in Hret.
  destruct (side_read_conserves _ _ _ Er) as (Hc & Ho & He & _ & _).
  destruct a as [[[p raw]|]| | |]; try (by destruct Hret); try (injection E as <- <-; by split_and!).
  apply side_read_frame in Er as (Hd & Hs & Hraw). destruct (JoinGameIsPacket info (ID p)) eqn:Hj.
  - unfold mbind at 1, ST_bind at 1, of_out in E. pose proof (JoinGameDataFromPacket_ends info p) as Hends.
    destruct (JoinGameDataFromPacket info p) as [d| | |] eqn:Ej; try done; try (injection E as <- <-; by split_and!).
    injection E as <- <-. split_and!; try done. intros d' [= <-]. exists [], p, raw, (side_stream s1).
    split_and!; try done.
    + cbn [app frames]. eexists. split_and!; [exact Hs|done|done].
    + unfold side_stream, requeue. cbn. by rewrite app_assoc.
    + unfold raw_bytes. cbn [map concat]. by rewrite app_nil_r.
  - unfold mbind, ST_bind, check in E. destruct (Z.ltb_spec MaxBufferedBytes (Zlen queued + Zlen raw)) as [|Hmax]; cbn [negb] in E.
    + injection E as <- <-. by split_and!.
    + change (join_loop info fuel (queued ++ raw) s1 = (r, s')) in E.
      apply IH in E as (H1 & H2 & H3 & H4 & H5).
      * split_and!; try congruence. intros d Hr. destruct (H5 d Hr) as (ps & p' & raw' & tail & K1 & K2 & K3 & K4 & K5 & K6).
        exists ((p, raw) :: ps), p', raw', tail. split_and!; try done.
        -- by constructor.
        -- cbn [app frames]. eexists. split_and!; [exact Hs|done|]. by rewrite <- Hc.
        -- rewrite K5. unfold raw_bytes. cbn [map concat snd]. by rewrite <- !app_assoc.
        -- intros _. unfold raw_bytes in *. cbn [map concat snd]. rewrite app_assoc. apply K6. unfold Zlen in *. rewrite length_app. lia.
      * rewrite Hs, length_app in Hlen. destruct raw; [done|]. cbn in Hlen. lia.
Qed.

Lemma wait_join_spec info s r s' : waitForServerJoinGameNoTimeout info s = (r, s') ->
  r <> NoFuel /\ side_client s' = side_client s /\ side_out s' = side_out s /\ l_enc (side_link s') = l_enc (side_link s)
  /\ (forall d, r = Ret d -> exists ps p raw tail,
        Forall (fun q => JoinGameIsPacket info (ID (fst q)) = false) ps
        /\ JoinGameIsPacket info (ID p) = true /\ JoinGameDataFromPacket info p = Ret d
        /\ frames (side_client s) (ps ++ [(p, raw)]) (side_stream s) tail
        /\ side_stream s' = raw_bytes ps ++ tail /\ Zlen (raw_bytes ps) <= MaxBufferedBytes).
Proof.
  intros E. apply join_loop_spec in E as (H1 & H2 & H3 & H4 & H5); [|lia]. split_and!; try done.
  intros d Hd. destruct (H5 d Hd) as (ps & p & raw & tail & K1 & K2 & K3 & K4 & K5 & K6).
  exists ps, p, raw, tail. split_and!; try done. apply K6. rewrite MaxBufferedBytes_eq. vm_compute. congruence.
Qed.

End JoinGame.

(** Waiting for the backend's join game packet loses nothing else. The wait
    always ends; when it delivers the join data, the packets the backend sent
    before it (at most 1 MiB of them) are put back in front of what the backend
    sent after it, byte for byte and in order, so that exactly the join game
    frame is missing from what will be relayed to the client. *)
Theorem join_game_taken_alone `{ZL : Zlib} (info : ClientInfo) (s : Side) (r : Out JoinGameData) (s' : Side) :
  waitForServerJoinGameNoTimeout info s = (r, s') ->
  r <> NoFuel
  /\ forall d, r = Ret d -> exists ps p raw tail,
       Forall (fun q => JoinGameIsPacket info (ID (fst q)) = false) ps
       /\ JoinGameIsPacket info (ID p) = true /\ JoinGameDataFromPacket info p = Ret d
       /\ frames (side_client s) (ps ++ [(p, raw)]) (side_stream s) tail
       /\ side_stream s = raw_bytes ps ++ raw ++ tail
       /\ side_stream s' = raw_bytes ps ++ tail
       /\ Zlen (raw_bytes ps) <= MaxBufferedBytes.
Proof.
  intros E. apply wait_join_spec in E as (H1 & _ & _ & _ & H5). split; [done|]. intros d Hd.
  destruct (H5 d Hd) as (ps & p & raw & tail & K1 & K2 & K3 & K4 & K5 & K6). exists ps, p, raw, tail.
  split_and!; try done. apply frames_stream in K4. rewrite K4. unfold raw_bytes. rewrite map_app, concat_app, <- app_assoc.
  cbn [map concat snd]. by rewrite app_nil_r.
Qed.

(** ** The probe *)

Record ProbeWorld := mkProbe { pw_backend : Side; pw_server : ServerState }.

(** Waiting for the server with a timeout: [waitUntilOnline] here,
    [waitForServer] in the lobby. The answer of the waiting goroutine counts
    when it comes first; [answer_first] decides a tie. *)
Definition wait_state (timeout : Z) (run : HoldRun) : bool :=
  match await (deliveries run) with
  | None => false
  | Some (t, ok) =>
      if t <? timeout then ok
      else if t =? timeout then (if answer_first run then ok else false)
      else false
  end.

Definition waitUntilOnline (run : HoldRun) : bool := wait_state probeOnlineTimeout run.

Section Probe.

Context `{A0 : AES} `{ZL : Zlib} `{HM : HMAC} `{M5 : MD5}.
Context (config : Config).

(** [local]: the text of the probe connection's own address; [secret]: the
    result of [forwardingSecret]. *)
Context (loc : bytes) (secret : option bytes).

Definition probeProfile : GameProfile := mkGameProfile (OfflinePlayerUUID probeUser) probeUser [].
Definition probe_info : ClientInfo := mkClientInfo (Some (Public_Protocol (Config_Public config))) None None (Some probeProfile).
Definition probe_origin : Origin := mkOrigin None None loc secret.

Definition probe_hello : ST Side unit :=
  let protocol := Public_Protocol (Config_Public config) in
  let address := Server_Address (Config_Server config) in
  let serverAddr := IP_String (SocketAddr_IP address)
                    ++ (if Forge (Config_Server config) then forgeStatusMagic protocol else []) in
  _ ← writePacketTo (NewRawPacket PacketHandshake
        (Bytes (NewPacketWriter |> WriteVarInt (i32 protocol) |> WriteString serverAddr
                  |> WriteUint16 (u16 (SocketAddr_Port address)) |> WriteVarInt (ToID ClientStateLogin))));
  let w := NewPacketWriter |> WriteString probeUser in
  let w := if 759 <=? protocol then w |> WriteBool true |> Write (OfflinePlayerUUID probeUser) else w in
  writePacketTo (NewRawPacket PacketServerLoginStart (Bytes w)).

(** The loop's variables: [forgePayload] and [profileForwarded]. *)
Definition probe_request (request : LoginPluginRequest) (raw : bytes) (payload : list bytes) (forwarded : bool)
    : ST Side (list bytes * bool) :=
  if decide (Req_Channel request = velocityPlayerInfoChannel) then
    _ ← forward_profile probe_info probe_origin request; mret (payload, true)
  else if Forge (Config_Server config) && bool_decide (Req_Channel request = forgeChannelLoginWrapper) then
    _ ← respondLoginPluginRequest request; mret (payload ++ [raw], forwarded)
  else
    _ ← refuse request; mret (payload, forwarded).

Definition on_probe {A} (m : ST Side A) : ST ProbeWorld A := zoom pw_backend (fun s w => mkProbe s (pw_server w)) m.

(** A packet: the new variables ([inl]), or the payload of a finished probe. *)
Definition probe_packet (join_in_time : bool) (packet : RawPacket) (raw : bytes) (payload : list bytes) (forwarded : bool)
    : ST ProbeWorld (list bytes * bool + list bytes) :=
  clientState ← reading (fun w => cstate (side_client (pw_backend w)));
  let caught id := bool_decide (clientState = ClientStateLogin) && bool_decide (ID packet = id) in
  if caught PacketClientSetCompression then
    threshold ← of_option (DecodeSetCompression (Data packet));
    _ ← on_probe (changing (on_client (SetCompression threshold)));
    mret (inl (payload, forwarded))
  else if caught PacketClientLoginPluginRequest then
    match DecodeLoginPluginRequest (Data packet) with
    | None => mret (inl (payload, forwarded))
    | Some request => v ← on_probe (probe_request request raw payload forwarded); mret (inl v)
    end
  else if caught PacketClientLoginSuccess then
    _ ← check (negb (OnlineMode (Config_Auth config) && negb forwarded));
    _ ← on_probe (changing (on_client (SetState ClientStatePlay)));
    joinGameData ← on_probe (waitForServerJoinGame join_in_time probe_info);
    _ ← changing (fun w => mkProbe (pw_backend w) (final (SetProbedJoinGame (Some joinGameData) (pw_server w))));
    mret (inr payload)
  else mret (inl (payload, forwarded)).

Fixpoint probe_loop (join_in_time : bool) (fuel : nat) (payload : list bytes) (forwarded : bool) : ST ProbeWorld (list bytes) :=
  match fuel with
  | O => nofuel
  | S fuel' =>
      answer ← on_probe side_read;
      match answer with
      | None => bad
      | Some (packet, raw) =>
          next ← probe_packet join_in_time packet raw payload forwarded;
          match next with
          | inl (payload, forwarded) => probe_loop join_in_time fuel' payload forwarded
          | inr payload => mret payload
          end
      end
  end.

(** [probeConnectToServerNoTimeout] from the dialed connection on. *)
Definition probeConnectToServerNoTimeout (join_in_time : bool) : ST ProbeWorld (list bytes) :=
  _ ← on_probe probe_hello;
  fueled (fun w => S (length (side_stream (pw_backend w)))) (fun fuel => probe_loop join_in_time fuel [] false).

(** What happens around the probe: the wait for the server, the connection
    when it can be dialed, and which of the steps end in time. *)
Record ProbeRun := mkProbeRun {
  pr_wait : HoldRun;
  pr_dial : option (Conn * option nat);
  pr_in_time : bool;
  pr_join_in_time : bool }.

Definition Probe (env : Env) (run : ProbeRun) : ST (ServerState * list Event) unit := fun '(server, events) =>
  let '(_, server, evs) := Start env config server in
  let events := events ++ evs in
  if negb (waitUntilOnline (pr_wait run)) then (Bad, (server_after (pr_wait run), events))
  else
    let server := server_after (pr_wait run) in
    match pr_dial run with
    | None => (Bad, (server, events))
    | Some (conn, room) =>
        match with_timeout (pr_in_time run) (probeConnectToServerNoTimeout (pr_join_in_time run)) (mkProbe (dialed conn room) server) with
        | (Ret forgePayload, w) => (Ret tt, (final (SetForgePayload forgePayload (pw_server w)), events))
        | (Bad, w) => (Bad, (pw_server w, events))
        | (Panic, w) => (Panic, (pw_server w, events))
        | (NoFuel, w) => (NoFuel, (pw_server w, events))
        end
    end.

(** [probeMustProbe] and [probeService] of [src/service_tasks.go]: a failed
    probe at boot is only logged. *)
Definition probeMustProbe : bool := ProbeOnStart (Config_Server config).

Definition probeService (env : Env) (run : ProbeRun) : ST (ServerState * list Event) unit :=
  if negb probeMustProbe then mret tt
  else _ ← attempt (Probe env run); mret tt.

(** Without probing on start the server is not even started. *)
Lemma probeService_off env run w : ProbeOnStart (Config_Server config) = false -> probeService env run w = (Ret tt, w).
Proof. intros H. unfold probeService, probeMustProbe. by rewrite H. Qed.

(** ** What a probe leaves behind *)

(** A recorded payload: the frame of a Forge login request. *)
Definition recorded (raw : bytes) : Prop :=
  exists client packet request, DecodeWithLen client raw = Some packet /\ ID packet = PacketClientLoginPluginRequest
  /\ DecodeLoginPluginRequest (Data packet) = Some request /\ Req_Channel request = forgeChannelLoginWrapper
  /\ Forge (Config_Server config) = true.

Lemma tame_probe_request request raw payload forwarded : tame id (fun _ => True) (probe_request request raw payload forwarded).
Proof.
  unfold probe_request. destruct (decide _); [apply tame_bind; [apply tame_forward|auto with tame]|].
  destruct (_ && _); apply tame_bind; auto using tame_legacy, tame_refuse with tame.
Qed.

Lemma probe_request_spec request raw payload forwarded s payload' forwarded' s' :
  is_i32 (Req_MessageID request) -> l_enc (side_link s) = None ->
  probe_request request raw payload forwarded s = (Ret (payload', forwarded'), s') ->
  (forwarded' = true -> forwarded = true \/ forwarded_in probe_info probe_origin (side_out s'))
  /\ (payload' = payload \/ payload' = payload ++ [raw] /\ Req_Channel request = forgeChannelLoginWrapper /\ Forge (Config_Server config) = true).
Proof.
  intros Hq He. unfold probe_request. destruct (decide _).
  - intros E. apply ST_bind_Ret in E as ([] & s1 & E & [= <- <- <-]). split; [|by left]. right. by eapply forward_profile_out.
  - destruct (Forge _ && _) eqn:Ef; intros E; apply ST_bind_Ret in E as ([] & s1 & _ & [= <- <- _]); (split; [by left|]).
    + apply andb_true_iff in Ef as [Ef Hc%bool_decide_eq_true]. by right.
    + by left.
Qed.

Lemma with_timeout_spec {S A} b (m : ST S A) s r s' : with_timeout b m s = (r, s') ->
  exists r0, m s = (r0, s') /\ (r = NoFuel -> r0 = NoFuel) /\ (forall a, r = Ret a -> r0 = Ret a).
Proof.
  unfold with_timeout. destruct (m s) as [r0 s0]. intros [= <- <-]. exists r0. destruct r0, b; split_and!; done.
Qed.

Definition probe_end (w : ProbeWorld) (r : Out (list bytes)) (w' : ProbeWorld) : Prop :=
  r <> NoFuel
  /\ (forall payload, r = Ret payload -> Forall recorded payload
       /\ (exists d, pw_server w' = final (SetProbedJoinGame (Some d) (pw_server w)))
       /\ (OnlineMode (Config_Auth config) = true -> forwarded_in probe_info probe_origin (side_out (pw_backend w')))).

(** One packet: either the probe goes on, with its server untouched, or it is
    over. *)
Lemma probe_packet_spec jt packet raw payload forwarded w r w' :
  l_enc (side_link (pw_backend w)) = None -> DecodeWithLen (side_client (pw_backend w)) raw = Some packet ->
  (forwarded = true -> forwarded_in probe_info probe_origin (side_out (pw_backend w))) -> Forall recorded payload ->
  probe_packet jt packet raw payload forwarded w = (r, w') ->
  match r with
  | Ret (inl (payload', forwarded')) =>
      grows (pw_backend w) (pw_backend w') /\ pw_server w' = pw_server w /\ Forall recorded payload'
      /\ (forwarded' = true -> forwarded_in probe_info probe_origin (side_out (pw_backend w')))
  | Ret (inr payload') => probe_end w (Ret payload') w'
  | NoFuel => False
  | _ => True
  end.
Proof.
  intros He Hd Hf Hp E. unfold probe_packet in E. unfold mbind at 1, ST_bind at 1, reading in E. cbn zeta in E.
  destruct (_ && _) in E.
  { unfold mbind, ST_bind, of_option, mret, ST_ret in E. destruct (DecodeSetCompression _); injection E as <- <-; [|done].
    split_and!; try done. exact (grows_refl (pw_backend w) He). }
  destruct (_ && bool_decide (ID packet = PacketClientLoginPluginRequest)) eqn:Hid in E.
  { apply andb_true_iff in Hid as [_ Hid%bool_decide_eq_true].
    destruct (DecodeLoginPluginRequest (Data packet)) as [q|] eqn:Eq; [|injection E as <- <-; split_and!; try done; by apply grows_refl].
    unfold mbind, ST_bind, on_probe, zoom in E. destruct (probe_request q raw payload forwarded (pw_backend w)) as [a s1] eqn:Er.
    destruct (tame_probe_request _ _ _ _ _ _ _ I He Er) as (_ & Hg & Hn1 & Hn2).
    destruct a as [[payload' forwarded']| | |]; try done; injection E as <- <-; [|done].
    destruct (probe_request_spec _ _ _ _ _ _ _ _ (DecodeLoginPluginRequest_id _ _ Eq) He Er) as [H1 H2]. cbn [pw_backend pw_server].
    split_and!; try done.
    - destruct H2 as [->|(-> & Hc & Hfo)]; [done|]. apply Forall_app. split; [done|]. apply Forall_singleton.
      by exists (side_client (pw_backend w)), packet, q.
    - intros Hfw. destruct (H1 Hfw) as [H|H]; [|done]. eapply forwarded_grows; [exact Hg|auto]. }
  destruct (_ && _) in E; [|injection E as <- <-; split_and!; try done; by apply grows_refl].
  unfold mbind at 1, ST_bind at 1, check in E. destruct (OnlineMode _ && negb forwarded) eqn:Hon in E; [by injection E as <- <-|].
  cbn [negb] in E. unfold mret at 1, ST_ret at 1 in E. unfold mbind at 1, ST_bind at 1 in E. cbn [on_probe zoom changing] in E.
  unfold mbind at 1, ST_bind at 1, on_probe at 1, zoom at 1 in E. cbn [pw_backend pw_server] in E.
  destruct (waitForServerJoinGame _ _ _) as [a s1] eqn:Ew in E. apply with_timeout_spec in Ew as (a0 & Ew & Hnf & Hret).
  apply wait_join_spec in Ew as (H1 & _ & Ho & _). destruct a as [d| | |]; injection E as <- <-; try done.
  - split; [done|]. intros pl [= <-]. split; [done|]. split; [by exists d|]. intros Ho2. rewrite Ho2 in Hon. cbn [pw_backend].
    rewrite Ho. apply Hf. by destruct forwarded.
  - by apply H1, Hnf.
Qed.

Lemma probe_loop_spec jt fuel : forall payload forwarded w r w',
  l_enc (side_link (pw_backend w)) = None -> (length (side_stream (pw_backend w)) < fuel)%nat ->
  (forwarded = true -> forwarded_in probe_info probe_origin (side_out (pw_backend w))) -> Forall recorded payload ->
  probe_loop jt fuel payload forwarded w = (r, w') -> probe_end w r w'.
Proof.
  induction fuel as [|fuel IH]; intros payload forwarded w r w' He Hlen Hf Hp E; [lia|]. cbn [probe_loop] in E.
  unfold mbind at 1, ST_bind at 1, on_probe at 1, zoom at 1 in E. destruct (side_read (pw_backend w)) as [a s1] eqn:Er.
  pose proof (side_read_returns (pw_backend w)) as Hret. rewrite Er in Hret. cbn [fst] in Hret.
  destruct (side_read_conserves _ _ _ Er) as (Hc & Ho & He1 & _ & _).
  destruct a as [[[p raw]|]| | |]; try (by destruct Hret); try (injection E as <- <-; by split).
  apply side_read_frame in Er as ((n & len & _ & _ & _ & Hd) & Hs & Hraw). unfold mbind at 1, ST_bind at 1 in E.
  destruct (probe_packet jt p raw payload forwarded _) as [b w2] eqn:Ep.
  apply probe_packet_spec in Ep; cbn [pw_backend pw_server] in *; [|congruence|congruence|by rewrite Ho|done].
  destruct b as [[[payload' forwarded']|payload']| | |]; try done; try (injection E as <- <-; by split).
  - destruct Ep as (Hg & Hsv & Hp' & Hf'). eapply IH in E; [|apply Hg| |exact Hf'|exact Hp'].
    + destruct E as (H1 & H2). split; [done|]. intros pl Hpl. rewrite Hsv in H2. by apply H2.
    + rewrite (grows_stream _ _ Hg). rewrite Hs, length_app in Hlen. destruct raw; [done|]. cbn in Hlen. lia.
  - injection E as <- <-. exact Ep.
Qed.

Lemma tame_probe_hello : tame id (fun _ => True) probe_hello.
Proof. unfold probe_hello. cbn zeta. apply tame_bind; auto with tame. Qed.

Lemma probe_connect_spec jt w r w' : l_enc (side_link (pw_backend w)) = None ->
  probeConnectToServerNoTimeout jt w = (r, w') -> probe_end w r w'.
Proof.
  intros He E. unfold probeConnectToServerNoTimeout in E. unfold mbind, ST_bind, on_probe, zoom in E.
  destruct (probe_hello (pw_backend w)) as [a s1] eqn:Eh. destruct (tame_probe_hello _ _ _ I He Eh) as (_ & Hg & Hn1 & Hn2).
  destruct a as [u| | |]; try done; [|injection E as <- <-; by split].
  eapply probe_loop_spec in E; [exact E|apply Hg|lia|done|apply Forall_nil_2].
Qed.

End Probe.

(** C23: a probe that succeeds opens the lobby. Whatever the server sends, the
    probe ends; when it reports success, the server was seen started within
    ten minutes, the join game data is stored, so that the lobby method no
    longer turns any client away for want of it, the stored Forge payload
    consists of frames of Forge login requests only (of none without Forge),
    and in online mode the forwarding secret could be read. *)
Theorem probe_unlocks_lobby `{A0 : AES} `{ZL : Zlib} `{HM : HMAC} `{M5 : MD5} (config : Config) (loc : bytes) (secret : option bytes)
    (env : Env) (run : ProbeRun) (server server' : ServerState) (events events' : list Event) (r : Out unit) :
  Probe config loc secret env run (server, events) = (r, (server', events')) ->
  r <> NoFuel
  /\ (r = Ret tt ->
       (exists t, await (deliveries (pr_wait run)) = Some (t, true) /\ t <= 600 * second)
       /\ (exists d, probed server' = Some d)
       /\ (forall info client history queue runs e, head (Methods (Config_Join config)) = Some MethodLobby ->
             Occupy config client info history queue runs server' e = (InLobby queue, e))
       /\ Forall (recorded config) (forge server') /\ (Forge (Config_Server config) = false -> forge server' = [])
       /\ (OnlineMode (Config_Auth config) = true -> exists s, secret = Some s)).
Proof.
  unfold Probe. destruct (Start env config server) as [[b s1] evs]. destruct (waitUntilOnline (pr_wait run)) eqn:Hw; cbn [negb];
    [|intros [= <- _ _]; done].
  destruct (pr_dial run) as [[conn room]|]; [|intros [= <- _ _]; done].
  destruct (with_timeout _ _ _) as [a w] eqn:Ep. apply with_timeout_spec in Ep as (a0 & Ep & Hnf & Hret).
  apply probe_connect_spec in Ep as [Hend Hok]; [|done].
  destruct a as [payload| | |]; intros [= <- <- _]; [| done..|exfalso; by apply Hend, Hnf].
  destruct (Hok payload (Hret _ eq_refl)) as (Hrec & (d & Hd) & Hon). split; [done|]. intros _.
  assert (probed (final (SetForgePayload payload (pw_server w))) = Some d) as Hpd by (cbn; by rewrite Hd).
  split_and!.
  - revert Hw. unfold waitUntilOnline, wait_state. destruct (await _) as [[t ok]|]; [|done].
    destruct (Z.ltb_spec t probeOnlineTimeout) as [Ht|Ht]; [intros ->; exists t; unfold probeOnlineTimeout in Ht; split; [done|lia]|].
    destruct (Z.eqb_spec t probeOnlineTimeout) as [->|]; [|done]. destruct (answer_first _); [intros ->|done]. by eexists.
  - by exists d.
  - intros info client history queue runs e Hm. unfold Occupy. destruct (Methods _) as [|m ms]; [done|]. injection Hm as ->.
    cbn [Occupy_loop]. unfold lobbyOccupy, mustStillProbe. cbn [result ProbedJoinGame gets fst]. rewrite Hpd.
    rewrite bool_decide_eq_false_2, andb_false_r by done. by destruct (_ && _).
  - done.
  - intros Hf. destruct Hrec as [|raw pl Hr _]; [done|]. exfalso. destruct Hr as (? & ? & ? & _ & _ & _ & _ & ?). congruence.
  - intros Ho. destruct (Hon Ho) as (? & ? & ? & c & q & _ & _ & Hv).
    destruct (velocity_reply _ _ _ _ _ _ Hv) as (? & s & ? & ? & _ & Hs & _). by exists s.
Qed.

(** ** Witnesses *)

Definition play_side (conn : Conn) : Side := mkSide (SetState ClientStatePlay DummyClient) (mkLink conn [] None [] None).

(** A server that sends a plugin message before and after its join game
    packet. *)
Definition joining_backend (info : ClientInfo) : bytes :=
  frame_to_client x17 [x01; x02]
  ++ frame_to_client (JoinGamePacketID (GetProtocol info)) (LobbyJoinGameData info sample_params)
  ++ frame_to_client x17 [x03].

Lemma join_game_taken_alone_witness :
  match waitForServerJoinGameNoTimeout modern_info (play_side [mkEvent (joining_backend modern_info) None]) with
  | (Ret d, s) => side_stream s = frame_to_client x17 [x01; x02] ++ frame_to_client x17 [x03]
      /\ exists p, JoinGameDataFromPacket modern_info p = Ret d
  | _ => False
  end.
Proof.
  destruct (waitForServerJoinGameNoTimeout _ _) as [r s] eqn:E.
  destruct r as [d| | |]; [|vm_compute in E; discriminate..].
  destruct (join_game_taken_alone modern_info _ _ _ E) as [_ H].
  split; [vm_compute in E; injection E as _ <-; vm_compute; reflexivity|].
  destruct (H d eq_refl) as (_ & p & _ & _ & _ & _ & Hp & _). exists p. exact Hp.
Defined.

(** A Forge server that asks one question of the Forge handshake. *)
Definition probed_backend (config : Config) : Conn :=
  [mkEvent (frame_to_client PacketClientLoginPluginRequest (encodeLoginPluginRequest one_way_request)
            ++ frame_to_client PacketClientLoginSuccess (replicate 20 x00)
            ++ joining_backend (probe_info (M5 := toy_md5) config)) None].

Definition probe_run : ProbeRun :=
  mkProbeRun (mkHoldRun [(1, StateStarting); (9 * second, StateStarted)] false (set_state StateStarted NewServerState))
    (Some (probed_backend (online_config true), None)) true true.

Definition forge_lobby_config : Config :=
  let c := online_config true in
  mkConfig (Config_Path c) (Config_Public c) (Config_Server c) (mkAuth false [] []) (Config_Time c) (Config_Motd c)
    (Config_Join c) (Config_Lockout c) (Config_Rcon c) (Config_Advanced c) (Config_Config c).

Lemma probe_unlocks_lobby_witness :
  match Probe (A0 := toy_aes) (HM := toy_hmac) (M5 := toy_md5) forge_lobby_config [] None (mkEnv 0 (fun _ _ => true) false false) probe_run
          (NewServerState, []) with
  | (Ret _, (server, _)) =>
      length (forge server) = 1%nat /\ Forall (recorded forge_lobby_config) (forge server)
      /\ forall info client history queue runs e, Occupy forge_lobby_config client info history queue runs server e = (InLobby queue, e)
  | _ => False
  end.
Proof.
  destruct (Probe _ _ _ _ _ _) as [r [server evs]] eqn:E.
  assert (r = Ret tt /\ length (forge server) = 1%nat) as [-> Hl] by (vm_compute in E; injection E as <- <- _; split; reflexivity).
  destruct (probe_unlocks_lobby (A0 := toy_aes) (HM := toy_hmac) (M5 := toy_md5) _ _ _ _ _ _ _ _ _ _ E) as [_ H].
  destruct (H eq_refl) as (_ & _ & Hocc & Hrec & _). split; [exact Hl|]. split; [exact Hrec|].
  intros info client history queue runs e. apply Hocc. reflexivity.
Defined.
