(* ===== verification/Interop.v ===== *)
(** The probe against the test server: [src/probe.go] talking to
    [src/internal/testserver/testserver.go].

    The probe writes its hello before it reads, and the test server writes its
    three login packets without waiting for an answer, so a run of the two is
    the test server on the probe's bytes followed by the probe on the test
    server's bytes. *)
From S2P Require Import Prelude VarInt Wire Packet Stream Config Net Packets Access Process GoFloat Nbt JoinGame ServerState Cipher Profile Velocity Proxy Link PlayPackets Join Backend TestServer Probe.

(** What the probe finds in the test server's join game packet. *)
Definition mock_join_data : JoinGameData :=
  mkJoinGameData (Some false) (Some x00) (Some xff) (Some worldNames) (Some NewCompound) (Some minimalCodec) None
    (Some (str "minecraft:overworld")) (Some 0) (Some 20) (Some 10) None (Some false) (Some true) (Some false) (Some false).

Lemma mock_join_decoded : decodeJoinGameV1_16_3 mock_join_game = Ret mock_join_data.
Proof. vm_compute. reflexivity. Qed.

(** The protocols with the layout the test server uses. *)
Definition layout_1_17 (protocol : Z) : Prop := 755 <= protocol /\ protocol <> 763.

Section Interop.

Context `{A0 : AES} `{ZL : Zlib} `{HM : HMAC} `{M5 : MD5} `{!ZlibLaws ZL}.
Context (config : Config) (loc : bytes) (secret : option bytes).

Hypothesis Hprotocol : layout_1_17 (Public_Protocol (Config_Public config)).
Hypothesis Hforge : Forge (Config_Server config) = false.
Hypothesis Haddr : Zlen (IP_String (SocketAddr_IP (Server_Address (Config_Server config)))) <= 255.

Lemma join_recognised :
  JoinGameIsPacket (probe_info config) (ID join_packet) = true
  /\ JoinGameDataFromPacket (probe_info config) join_packet = Ret mock_join_data.
Proof.
  destruct Hprotocol as [Hge Hne].
  unfold JoinGameIsPacket, JoinGameDataFromPacket, probe_info, GetProtocol, isV1_20_1, before_1_17. cbn [Info_Protocol].
  rewrite bool_decide_eq_false_2 by (intros [= E]; unfold ProtocolV1_20_1 in E; lia).
  unfold ProtocolV1_17. rewrite (proj2 (Z.ltb_ge _ 755)) by lia. split; [by apply bool_decide_eq_true|apply mock_join_decoded].
Qed.

(** ** The hello *)

Definition start_data : bytes :=
  let w := NewPacketWriter |> WriteString probeUser in
  Bytes (if 759 <=? Public_Protocol (Config_Public config) then w |> WriteBool true |> Write (OfflinePlayerUUID probeUser) else w).

Definition hello_bytes : bytes :=
  frame_of (NewRawPacket PacketHandshake (own_data config (Server_Address (Config_Server config)) 2))
  ++ frame_of (NewRawPacket PacketServerLoginStart start_data).

Lemma probe_uuid_length : length (OfflinePlayerUUID probeUser) = 16%nat.
Proof. unfold OfflinePlayerUUID, javaNameUUIDFromBytes. by rewrite !length_alter, md5_length. Qed.

(** Newer clients append whether there is an id, and the id. *)
Lemma start_data_tail : exists tail, start_data = str_enc probeUser ++ tail /\ (length tail <= 17)%nat.
Proof.
  unfold start_data. cbn zeta. destruct (759 <=? _); wire_bytes.
  - eexists. split; [done|]. rewrite length_app, probe_uuid_length. vm_compute. lia.
  - exists []. rewrite app_nil_r. split; [done|]. simpl. lia.
Qed.

Lemma start_data_short : Zlen (payload_of (NewRawPacket PacketServerLoginStart start_data)) < 2 ^ 14.
Proof.
  destruct start_data_tail as (tail & -> & Hl). unfold payload_of, Zlen. cbn [ID Data]. rewrite !length_app.
  change (length (str_enc probeUser)) with 14%nat. pose proof (EncodeVarInt_length (b2z PacketServerLoginStart)). lia.
Qed.

Lemma start_decoded : DecodeLoginStart start_data = Some (mkLoginStart probeUser).
Proof.
  destruct start_data_tail as (tail & -> & _).
  assert (reads (name ← read_str 16; mret (mkLoginStart name)) (str_enc probeUser) (mkLoginStart probeUser)) as Hr
    by (apply reads_bind_ret, str_codec_reads; vm_compute; congruence).
  unfold DecodeLoginStart, decode_with. by rewrite (Hr _ 0%nat tail).
Qed.

Lemma probe_hello_ready c str out s : c = SetState ClientStateLogin DummyClient -> ready c str out s ->
  exists s', probe_hello config s = (Ret tt, s') /\ ready c str (out ++ hello_bytes) s'.
Proof.
  intros -> Hr. set (addr := Server_Address (Config_Server config)). pose proof (own_data_short config addr 2 Haddr) as Hs1.
  pose proof start_data_short as Hs2. assert (2 ^ 14 < 2 ^ 31) as Hpow by done.
  pose proof (encode_plain _ (SetState ClientStateLogin DummyClient) eq_refl (Z.lt_trans _ _ _ Hs1 Hpow)) as Hw1.
  pose proof (encode_plain _ (SetState ClientStateLogin DummyClient) eq_refl (Z.lt_trans _ _ _ Hs2 Hpow)) as Hw2.
  destruct (writePacketTo_ready _ _ _ _ _ _ Hw1 Hr) as (s1 & E1 & H1).
  destruct (writePacketTo_ready _ _ _ _ _ _ Hw2 H1) as (s2 & E2 & H2).
  exists s2. split; [|unfold hello_bytes; by rewrite app_assoc].
  unfold probe_hello. cbn zeta. rewrite Hforge, app_nil_r. unfold mbind, ST_bind.
  change (Bytes (WriteVarInt (ToID ClientStateLogin) _)) with (own_data config addr 2). rewrite E1. exact E2.
Qed.

(** ** The login *)

Definition success_payload : bytes := EncodeVarInt 0 ++ payload_of (success_packet probeUser).
Definition framed (payload : bytes) : bytes := EncodeVarInt (Zlen payload) ++ payload.

Lemma EncodeWithLen_framed p c payload : EncodeWithoutLen p c = Some payload -> Zlen payload < 2 ^ 14 -> EncodeWithLen p c = Some (framed payload).
Proof.
  intros E Hl. unfold EncodeWithLen, framed. rewrite E.
  assert (is_i32 (Zlen payload)) by (unfold is_sint, Zlen in *; zpow; lia). by rewrite sintw_id.
Qed.

Lemma EncodeWithoutLen_pos p c payload : EncodeWithoutLen p c = Some payload -> 0 < Zlen payload.
Proof.
  assert (forall v b, 0 < Zlen (EncodeVarInt v ++ b)) as H
    by (intros v b; pose proof (EncodeVarInt_length v); unfold Zlen; rewrite length_app; lia).
  unfold EncodeWithoutLen, encodeCompressed, encodeUncompressed. destruct (_ >=? _); [|intros [= <-]; apply H].
  match goal with |- match ?o with Some _ => _ | None => _ end = _ -> _ => destruct o as [z|] end; [|discriminate].
  intros E. apply (inj Some) in E as <-. apply H.
Qed.

(** The client the probe keeps for the connection, before and after the
    compression packet, and in play. *)
Definition probe_client : Client := SetState ClientStateLogin DummyClient.
Definition probe_compressing : Client := SetCompression CompressionThreshold probe_client.
Definition probe_playing : Client := SetState ClientStatePlay probe_compressing.

Context (join_payload : bytes).
Hypothesis Hjoin : EncodeWithoutLen join_packet playing = Some join_payload.
Hypothesis Hshort : Zlen join_payload < 2 ^ 14.

(** The test server's whole connection. *)
Lemma mock_serves_probe due capture a st request : clean request -> conn_bytes request = hello_bytes ->
  exists s more, handle due capture a (accepted request st)
    = (Ret tt, mkMock s (addLogin (mkLogin probeUser (i32 (Public_Protocol (Config_Public config))) a 0) st) [])
    /\ side_out s = frame_of compression_packet ++ framed success_payload ++ framed join_payload ++ more.
Proof.
  intros Hcl Hb. destruct (handle_hello config (Server_Address (Config_Server config)) 2 false due capture a st request
    (frame_of (NewRawPacket PacketServerLoginStart start_data)) ltac:(done) Haddr Hcl Hb) as (s1 & E & H1).
  rewrite E, andb_false_r. cbn [Z.eqb Pos.eqb].
  apply (login_flow_answers due a _ probeUser start_data [] s1 st [] _ _ start_data_short start_decoded); [|by apply EncodeWithLen_framed|done].
  by apply EncodeWithLen_framed.
Qed.

Lemma probe_waits_for_join tail out s : ready probe_playing (framed join_payload ++ tail) out s ->
  exists s', waitForServerJoinGame true (probe_info config) s = (Ret mock_join_data, s').
Proof.
  intros Hr. destruct (side_read_ready join_packet join_payload probe_playing tail out s) as (s1 & E & H1);
    [exact Hjoin|by vm_compute|pose proof (EncodeWithoutLen_pos _ _ _ Hjoin); lia|exact Hr|].
  destruct join_recognised as [Hj Hd].
  eexists. unfold waitForServerJoinGame, with_timeout, waitForServerJoinGameNoTimeout, fueled. cbn [join_loop].
  unfold mbind, ST_bind. rewrite E, Hj, Hd. done.
Qed.

Hypothesis Honline : OnlineMode (Config_Auth config) = false.

Lemma probe_on_compression s server raw : cstate (side_client s) = ClientStateLogin ->
  probe_packet config loc secret true compression_packet raw [] false (mkProbe s server)
  = (Ret (inl ([], false)), mkProbe (on_client (SetCompression CompressionThreshold) s) server).
Proof. intros H. unfold probe_packet, mbind, ST_bind, reading. cbn [pw_backend]. by rewrite H. Qed.

Lemma probe_on_success s s' server raw d : cstate (side_client s) = ClientStateLogin ->
  waitForServerJoinGame true (probe_info config) (on_client (SetState ClientStatePlay) s) = (Ret d, s') ->
  probe_packet config loc secret true (success_packet probeUser) raw [] false (mkProbe s server)
  = (Ret (inr []), mkProbe s' (final (SetProbedJoinGame (Some d) server))).
Proof.
  intros H E. unfold probe_packet, mbind, ST_bind, reading. cbn [pw_backend]. rewrite H, Honline.
  cbn [success_packet ID].
  rewrite (bool_decide_eq_false_2 (PacketClientLoginSuccess = PacketClientSetCompression)),
    (bool_decide_eq_false_2 (PacketClientLoginSuccess = PacketClientLoginPluginRequest)), !bool_decide_eq_true_2 by done.
  cbn [andb negb check mret ST_ret]. unfold on_probe, zoom, changing. cbn [pw_backend pw_server]. by rewrite E.
Qed.

(** The two rounds of the probe's loop. *)
Lemma probe_loop_mock more out s server fuel :
  ready probe_client (frame_of compression_packet ++ framed success_payload ++ framed join_payload ++ more) out s ->
  exists s', probe_loop config loc secret true (S (S fuel)) [] false (mkProbe s server)
    = (Ret [], mkProbe s' (final (SetProbedJoinGame (Some mock_join_data) server))).
Proof.
  intros Hr.
  destruct (side_read_ready compression_packet (payload_of compression_packet) probe_client _ out s eq_refl ltac:(done) ltac:(done) Hr)
    as (s1 & E1 & H1). assert (cstate (side_client s1) = ClientStateLogin) as Hc1 by (by destruct H1 as [-> _]).
  apply (on_client_ready (SetCompression CompressionThreshold)) in H1.
  destruct (side_read_ready (success_packet probeUser) success_payload probe_compressing _ out _ eq_refl ltac:(done) ltac:(done) H1)
    as (s2 & E2 & H2). assert (cstate (side_client s2) = ClientStateLogin) as Hc2 by (by destruct H2 as [-> _]).
  apply (on_client_ready (SetState ClientStatePlay)) in H2. destruct (probe_waits_for_join more out _ H2) as (s3 & E3).
  exists s3. cbn [probe_loop]. unfold mbind, ST_bind, on_probe, zoom. cbn [pw_backend pw_server]. rewrite E1.
  rewrite probe_on_compression by done. cbn [pw_backend pw_server]. rewrite E2. by rewrite (probe_on_success s2 s3 server _ _ Hc2 E3).
Qed.

Lemma probe_connects more replies server : clean replies ->
  conn_bytes replies = frame_of compression_packet ++ framed success_payload ++ framed join_payload ++ more ->
  exists s', probeConnectToServerNoTimeout config loc secret true (mkProbe (dialed replies None) server)
    = (Ret [], mkProbe s' (final (SetProbedJoinGame (Some mock_join_data) server))).
Proof.
  intros Hcl Hb.
  assert (ready probe_client (conn_bytes replies) [] (dialed replies None)) as Hr
    by (unfold ready, side_stream, dialed; cbn; split_and!; done).
  destruct (probe_hello_ready _ _ _ _ eq_refl Hr) as (s1 & E1 & H1). rewrite Hb in H1.
  assert (exists n, length (side_stream s1) = S n) as [n Hn].
  { destruct H1 as (_ & _ & _ & -> & _). exists (pred (length (frame_of compression_packet ++ framed success_payload ++ framed join_payload ++ more))).
    rewrite length_app. pose proof (frame_of_length compression_packet). lia. }
  unfold probeConnectToServerNoTimeout, mbind, ST_bind, on_probe, zoom, fueled. cbn [pw_backend pw_server]. rewrite E1.
  cbn [pw_backend]. rewrite Hn. exact (probe_loop_mock more _ s1 server n H1).
Qed.

End Interop.

(** C24: probing the test server succeeds. For every configuration in offline
    mode without Forge whose protocol has the 1.17 layout, the test server, fed
    the probe's hello in any segmentation, records exactly one login of the
    probe's user and no PROXY header; and the probe, fed what the test server
    wrote in any segmentation, ends, and stores the join game data the test
    server encoded. The compressed join game frame has to stay below 16 KiB,
    where the reader takes its length from two bytes. *)
Theorem probe_of_mock_succeeds `{A0 : AES} `{ZL : Zlib} `{HM : HMAC} `{M5 : MD5} `{!ZlibLaws ZL}
    (config : Config) (loc : bytes) (secret : option bytes) (due : nat -> bool) (capture : bool) (a : bytes) (st : MockState)
    (request replies : Conn) (server : ServerState) (join_payload : bytes) :
  OnlineMode (Config_Auth config) = false -> Forge (Config_Server config) = false ->
  layout_1_17 (Public_Protocol (Config_Public config)) ->
  Zlen (IP_String (SocketAddr_IP (Server_Address (Config_Server config)))) <= 255 ->
  EncodeWithoutLen join_packet playing = Some join_payload -> Zlen join_payload < 2 ^ 14 ->
  clean request -> conn_bytes request = side_out (snd (probe_hello config (dialed [] None))) ->
  clean replies -> conn_bytes replies = side_out (m_side (snd (handle due capture a (accepted request st)))) ->
  m_state (snd (handle due capture a (accepted request st)))
    = addLogin (mkLogin probeUser (i32 (Public_Protocol (Config_Public config))) a 0) st
  /\ m_captured (snd (handle due capture a (accepted request st))) = []
  /\ exists s', probeConnectToServerNoTimeout config loc secret true (mkProbe (dialed replies None) server)
       = (Ret [], mkProbe s' (final (SetProbedJoinGame (Some mock_join_data) server))).
Proof.
  intros Ho Hf Hp Ha Hj Hl Hcq Hbq Hcr Hbr.
  assert (ready (SetState ClientStateLogin DummyClient) [] [] (dialed [] None)) as Hr
    by (unfold ready, side_stream, dialed; cbn; split_and!; try done; constructor).
  destruct (probe_hello_ready config Hf Ha _ _ _ _ eq_refl Hr) as (s1 & E1 & H1). rewrite E1 in Hbq. cbn [snd] in Hbq.
  destruct H1 as (_ & _ & _ & _ & _ & _ & Ho1). rewrite Ho1 in Hbq.
  destruct (mock_serves_probe config Ha join_payload Hj Hl due capture a st request Hcq Hbq) as (s2 & more & E2 & Ho2).
  rewrite E2 in *. cbn [snd m_side m_state m_captured] in *. split_and!; [done|done|].
  rewrite Ho2 in Hbr. by eapply probe_connects.
Qed.

(** A 1.20.4 gateway, with the bytes in two segments each way. *)
Definition probing_config : Config :=
  let c := defaultConfig in
  mkConfig (Config_Path c) (mkPublic (Public_Address (Config_Public c)) (str "1.20.4") 765) (Config_Server c) (Config_Auth c) (Config_Time c)
    (Config_Motd c) (Config_Join c) (Config_Lockout c) (Config_Rcon c) (Config_Advanced c) (Config_Config c).

Definition halves (b : bytes) : Conn := [mkEvent (take 30 b) None; mkEvent (drop 30 b) None].

Lemma probe_of_mock_succeeds_witness :
  let request := halves (side_out (snd (probe_hello (A0 := toy_aes) (M5 := toy_md5) probing_config (dialed [] None)))) in
  let w := snd (handle (A0 := toy_aes) (fun _ => true) true (str "127.0.0.1:50000") (accepted request NewState)) in
  Logins (m_state w) = [mkLogin probeUser 765 (str "127.0.0.1:50000") 0]
  /\ exists s', probeConnectToServerNoTimeout (A0 := toy_aes) (HM := toy_hmac) (M5 := toy_md5) probing_config [] None true
       (mkProbe (dialed (halves (side_out (m_side w))) None) NewServerState)
     = (Ret [], mkProbe s' (final (SetProbedJoinGame (Some mock_join_data) NewServerState))).
Proof.
  intros request w.
  destruct (probe_of_mock_succeeds (A0 := toy_aes) (HM := toy_hmac) (M5 := toy_md5) probing_config [] None (fun _ => true) true
    (str "127.0.0.1:50000") NewState request (halves (side_out (m_side w))) NewServerState
    (default [] (EncodeWithoutLen join_packet playing))) as (Hst & _ & Hp).
  - reflexivity.
  - reflexivity.
  - split; vm_compute; congruence.
  - vm_compute. congruence.
  - vm_compute. reflexivity.
  - vm_compute. reflexivity.
  - repeat constructor; vm_compute; congruence.
  - vm_compute. reflexivity.
  - repeat constructor; vm_compute; congruence.
  - vm_compute. reflexivity.
  - split; [|exact Hp]. fold w in Hst. rewrite Hst. reflexivity.
Defined.
