(* ===== verification/Lobby.v ===== *)
(** The lobby: [src/lobby.go].

    A client that joins while the server starts is taken into a lobby world
    and handed over once the server is there. The lobby authenticates it in
    online mode ([OnlineAuth]), starts the server, plays the client's part of
    the login ([Backend]) and relays. What the surroundings do during one
    session (the wait for the server, the keep-alive rounds that fall into it,
    the dialed connection, the timeouts) is its input [LobbyRun]. The
    keep-alive rounds are taken to be over when the wait is; [KeepAlive] has
    them beside their caller. *)
From S2P Require Import Prelude VarInt Wire Packet Stream Config Net Packets Access Process GoFloat Nbt Snbt Resources Dimension JoinGame ServerState Cipher Profile Velocity Proxy Admission Status Link OnlineAuth PlayPackets ForgeLogin Join Backend Probe.

(** ** Packets of the lobby *)

Section LobbyPackets.

Context `{A0 : AES} `{ZL : Zlib} `{M5 : MD5}.

Definition respondSetCompression (threshold : Z) : ST Side unit :=
  writePacketTo (NewRawPacket PacketClientSetCompression (Bytes (NewPacketWriter |> WriteVarInt threshold))).

(** The result: whether compression is active. *)
Definition ensureClientCompression : ST Side bool :=
  if CompressionThreshold <? 0 then mret false
  else
    client ← reading side_client;
    if IsCompressed client then
      _ ← check (Compressed client =? CompressionThreshold); mret true
    else
      _ ← respondSetCompression CompressionThreshold;
      _ ← changing (on_client (SetCompression CompressionThreshold));
      mret true.

(** [cache]: the recording of [server.ForgeLoginCache()]. *)
Definition replayColdForgeLogin (cache : list ForgeLoginExchange) : ST Side bool :=
  compressionSent ← ensureClientCompression;
  _ ← replayForgeLoginPayload cache;
  mret compressionSent.

Definition LoginSuccess_data (info : ClientInfo) (name : bytes) : bytes :=
  let uuid := match Info_Profile info with Some p => Profile_UUID p | None => OfflinePlayerUUID name end in
  let since v := match GetProtocol info with Some p => v <=? p | None => false end in
  let w := NewPacketWriter in
  let w := if since 735 then w |> Write uuid else w |> WriteString (hyphenatedUUID uuid) in
  let w := w |> WriteString name in
  Bytes (if since 759
         then w |> WriteProperties (match Info_Profile info with Some p => Profile_Properties p | None => [] end)
         else w).

Definition respondLoginSuccess (info : ClientInfo) (name : bytes) : ST Side unit :=
  writePacketTo (NewRawPacket PacketClientLoginSuccess (LoginSuccess_data info name)).

Definition allSpaces (s : bytes) : bool := forallb (fun c => bool_decide (c = x20 \/ c = x09)) s.

Definition playLobbyReadySound (config : Config) (info : ClientInfo) : ST Side unit :=
  match ReadySound (Join_Lobby (Config_Join config)) with
  | None => mret tt
  | Some soundName =>
      if bool_decide (soundName = []) || allSpaces soundName then mret tt
      else _ ← SendPlayerPos info; SendSound info soundName
  end.

Definition lobbyJoinGameParams (server : ServerState) : Out JoinGameParams :=
  let status := result (Status server) in
  let probed := result (ProbedJoinGame server) in
  let from {A} (f : JoinGameData -> option A) (d : A) : A := default d (probed ≫= f) in
  match (match probed ≫= DimensionCodec with Some c => Ret c | None => DefaultDimensionCodec end) with
  | Ret dimensionCodec =>
      match LobbyDimension dimensionCodec with
      | Ret dimension =>
          Ret (mkParams dimensionCodec dimension
            (match status with Some st => i32 (Max (Players st)) | None => from MaxPlayers 20 end)
            (from ViewDistance 10) 0 (from Hardcore false) (from ReducedDebugInfo false)
            (from EnableRespawnScreen true) (from IsDebug false) (from IsFlat false))
      | Bad => Bad | Panic => Panic | NoFuel => NoFuel
      end
  | Bad => Bad | Panic => Panic | NoFuel => NoFuel
  end.

Definition sendLobbyPlayPackets (info : ClientInfo) (server : ServerState) : ST Side unit :=
  params ← of_out (lobbyJoinGameParams server);
  _ ← SendJoinGame info params;
  _ ← SendServerBrand info;
  _ ← SendPlayerPos info;
  SendTimeUpdate info.

Definition respawn_dimension (data : JoinGameData) : Out Compound :=
  match Dimension data with
  | Some d => Ret d
  | None =>
      match (match DimensionCodec data with Some c => Ret c | None => DefaultDimensionCodec end) with
      | Ret codec => LobbyDimension codec
      | Bad => Bad | Panic => Panic | NoFuel => NoFuel
      end
  end.

Definition sendLobbyRespawn (info : ClientInfo) (data : JoinGameData) : ST Side unit :=
  dimension ← of_out (respawn_dimension data);
  SendRespawn info (mkRespawn dimension (default (str "minecraft:overworld") (WorldName data)) (default 0 (HashedSeed data))
    (default x00 (GameMode data)) (default xff (PreviousGameMode data)) (default false (IsDebug data)) (default false (IsFlat data))).

(** The rounds of [keepAliveLoop] until it is stopped or a write fails; [ids]
    are the keep-alive ids. *)
Definition keepAliveLoop (config : Config) (info : ClientInfo) (ids : list Z) : ST Side unit :=
  each (fun id => _ ← SendKeepAlive info id; SendTitle info (Lobby_Message (Join_Lobby (Config_Join config)))) ids.

(** A [Read] after [SetReadDeadline(time.Now())]: the deadline is an absolute
    time after which reads fail with a timeout at once. *)
Definition expired_Read (size : nat) (conn : Conn) : bytes * option ReadErr * Conn := ([], Some ErrTimeout, conn).

Fixpoint drain_loop (read : nat -> Conn -> bytes * option ReadErr * Conn) (fuel : nat) (conn : Conn) : Conn :=
  match fuel with
  | O => conn
  | S fuel' =>
      match read (Z.to_nat (8 * 1024)) conn with
      | (_, Some _, conn) => conn
      | ([], None, conn) => conn
      | (_, None, conn) => drain_loop read fuel' conn
      end
  end.

Definition drainStream : ST Side unit := changing (fun s =>
  let l := side_link s in
  mkSide (side_client s) (mkLink (drain_loop expired_Read (S (length (conn_bytes (l_conn l)))) (l_conn l)) (l_buf l) (l_enc l) (l_out l) (l_room l))).

End LobbyPackets.

(** ** A session *)

Record LobbyWorld := mkLobby {
  lw_inbound : Side;
  lw_server : ServerState;
  lw_events : list Event;
  lw_backend : option Side }.

Record LobbyRun := mkLobbyRun {
  lr_auth : AuthEnv;
  lr_env : Env;
  lr_origin : Origin;
  lr_wait : HoldRun;
  lr_ticks : list Z;
  lr_dial : option (Conn * option nat);
  lr_in_time : bool;
  lr_join_in_time : bool }.

Section Lobby.

Context `{A0 : AES} `{ZL : Zlib} `{HM : HMAC} `{M5 : MD5} `{S1 : SHA1} `{UF : UnicodeFold}.
Context (config : Config) (run : LobbyRun).

Definition client {A} (m : ST Side A) : ST LobbyWorld A :=
  zoom lw_inbound (fun s w => mkLobby s (lw_server w) (lw_events w) (lw_backend w)) m.

Definition server_op {A} (o : Op A) : ST LobbyWorld A := fun w =>
  let '(a, s, ev) := o (lw_server w) in (Ret a, mkLobby (lw_inbound w) s (lw_events w ++ ev) (lw_backend w)).

Definition waitForServer : ST LobbyWorld unit := fun w =>
  (if wait_state (Lobby_Timeout (Join_Lobby (Config_Join config)) * second) (lr_wait run) then Ret tt else Bad,
   mkLobby (lw_inbound w) (server_after (lr_wait run)) (lw_events w) (lw_backend w)).

(** The keep-alive goroutine's error is not looked at. *)
Definition stageWait (info : ClientInfo) : ST LobbyWorld unit :=
  _ ← client (attempt (keepAliveLoop config info (lr_ticks run)));
  waitForServer.

(** [hot]: with a live relay of the client. *)
Definition connectToServerWithForge (info : ClientInfo) (hot : bool) : ST LobbyWorld unit := fun w =>
  match lr_dial run with
  | None => (Bad, w)
  | Some (conn, room) =>
      let relay := if hot then Some (newForgeLoginRelay (lw_inbound w)) else None in
      let '(r, cw) := with_timeout (lr_in_time run) (connectToServerNoTimeout config info (lr_origin run))
                        (mkConnect (dialed conn room) relay (Some (lw_server w))) in
      (r, mkLobby (match cw_relay cw with Some rl => fr_inbound rl | None => lw_inbound w end)
            (default (lw_server w) (cw_server cw)) (lw_events w) (Some (cw_backend cw)))
  end.

(** A computation on the backend connection. *)
Definition outbound {A} (m : ST Side A) : ST LobbyWorld A := fun w =>
  match lw_backend w with
  | None => (Panic, w)
  | Some s => let '(a, s) := m s in (a, mkLobby (lw_inbound w) (lw_server w) (lw_events w) (Some s))
  end.

(** A link that stops taking bytes makes the relay's writes fail. *)
Definition endpoint_of (s : Side) : Endpoint :=
  mkEndpoint None None (conn_bytes (l_conn (side_link s))) (bool_decide (l_room (side_link s) = None)) true.

(** [lobbyRouteProxy(inbound, outbound, serverBuf)] *)
Definition lobbyRouteProxy : ST LobbyWorld Relay := fun w =>
  match lw_backend w with
  | None => (Panic, w)
  | Some s => (Ret (ProxyInboundOutboundWithQueue (endpoint_of (lw_inbound w)) (endpoint_of s) (l_buf (side_link s)) []), w)
  end.

(** The online part: the connection is switched to encryption and the client
    goes on under the name of its profile. *)
Definition authenticate (info : ClientInfo) (name : bytes) : ST LobbyWorld (ClientInfo * bytes) :=
  if OnlineMode (Config_Auth config) then
    '(conn, profile) ← client (authenticateLobbyClient (lr_auth run) config name);
    _ ← client (changing (fun s => mkSide (side_client s) (encrypt_link conn (side_link s))));
    mret (mkClientInfo (Info_Protocol info) (Info_Handshake info) (Some (Profile_Name profile)) (Some profile), Profile_Name profile)
  else mret (info, name).

(** The first modern Forge client: a live login on the backend. *)
Definition serve_hot (info : ClientInfo) : ST LobbyWorld Relay :=
  _ ← waitForServer;
  _ ← client ensureClientCompression;
  _ ← connectToServerWithForge info true;
  lobbyRouteProxy.

(** The Forge part of the client's login; the result: whether compression has
    been announced. *)
Definition forge_login (info : ClientInfo) : ST LobbyWorld bool :=
  if Forge (Config_Server config) && isForgeFML3 info then
    cache ← server_op ForgeLoginCache; client (replayColdForgeLogin cache)
  else if Forge (Config_Server config) then
    payload ← server_op ForgePayload; _ ← client (replayLoginPayload payload); mret false
  else mret false.

(** Into the lobby world. *)
Definition enter_lobby (info : ClientInfo) (name : bytes) : ST LobbyWorld unit :=
  compressionSent ← forge_login info;
  _ ← (if (0 <=? CompressionThreshold) && negb compressionSent
       then client (_ ← respondSetCompression CompressionThreshold; changing (on_client (SetCompression CompressionThreshold)))
       else mret tt);
  _ ← client (respondLoginSuccess info name);
  _ ← client (changing (on_client (SetState ClientStatePlay)));
  server ← reading lw_server;
  client (sendLobbyPlayPackets info server).

(** From the lobby world to the server. *)
Definition leave_lobby (info : ClientInfo) : ST LobbyWorld Relay :=
  _ ← stageWait info;
  _ ← connectToServerWithForge info false;
  joinGameData ← outbound (waitForServerJoinGame (lr_join_in_time run) info);
  _ ← client (SendTitle info []);
  _ ← client (playLobbyReadySound config info);
  _ ← client (sendLobbyRespawn info joinGameData);
  _ ← client drainStream;
  lobbyRouteProxy.

(** The login start packet. *)
Definition serve_login (info : ClientInfo) (packet : RawPacket) : ST LobbyWorld Relay :=
  loginStart ← of_option (DecodeLoginStart (Data packet));
  '(info, name) ← authenticate info (LoginStart_Name loginStart);
  _ ← server_op (Start (lr_env run) config);
  cache ← server_op ForgeLoginCache;
  if Forge (Config_Server config) && isForgeFML3 info && bool_decide (cache = []) then serve_hot info
  else
    _ ← enter_lobby info name;
    leave_lobby info.

Fixpoint lobby_loop (info : ClientInfo) (fuel : nat) : ST LobbyWorld Relay :=
  match fuel with
  | O => nofuel
  | S fuel' =>
      answer ← client side_read;
      match answer with
      | None => bad
      | Some (packet, _) =>
          clientState ← reading (fun w => cstate (side_client (lw_inbound w)));
          if bool_decide (clientState = ClientStateLogin) && bool_decide (ID packet = PacketServerLoginStart)
          then serve_login info packet
          else lobby_loop info fuel'
      end
  end.

(** How a session ends: refused with an error, closed, or relayed to the
    server until one side ends. *)
Inductive Served := LobbyRefused | LobbyClosed | LobbyRelayed (r : Relay).

(** The world starts with the client's connection, [queue] in its buffer. *)
Definition LobbyServe (info : ClientInfo) : ST LobbyWorld Served := fun w =>
  if negb (bool_decide (cstate (side_client (lw_inbound w)) = ClientStateLogin)) then (Ret LobbyRefused, w)
  else if bool_decide (Info_Username info = None) then (Ret LobbyRefused, w)
  else
    match lobby_loop info (S (length (side_stream (lw_inbound w)))) w with
    | (Ret r, w) => (Ret (LobbyRelayed r), w)
    | (Bad, w) => (Ret LobbyClosed, w)
    | (Panic, w) => (Panic, w)
    | (NoFuel, w) => (NoFuel, w)
    end.

(** ** Sessions end *)

Lemma ends_reads {S A} (f : S -> A) : ends (reading f).
Proof. done. Qed.
Lemma ends_bad {S A} : ends (@bad S A).
Proof. done. Qed.
Lemma ends_changes {S} (f : S -> S) : ends (changing f).
Proof. done. Qed.
Lemma ends_writes p : ends (writePacketTo p).
Proof. apply calm_ends, calm_writePacketTo. Qed.
Lemma ends_checks {S} b : ends (S := S) (check b).
Proof. by destruct b. Qed.
Lemma ends_options {S A} (o : option A) : ends (S := S) (of_option o).
Proof. by destruct o. Qed.
Lemma ends_side_read : ends side_read.
Proof. apply calm_ends, calm_side_read. Qed.
Lemma ends_each {S A} (f : A -> ST S unit) l : (forall a, ends (f a)) -> ends (each f l).
Proof. intros Hf. induction l as [|a l IH]; cbn [each]; [done|]. by apply ends_bind. Qed.
Lemma ends_attempt {S A} (m : ST S A) : ends m -> ends (attempt m).
Proof. intros Hm s. specialize (Hm s). unfold attempt. by destruct (m s) as [[]]. Qed.
Lemma ends_client {A} (m : ST Side A) : ends m -> ends (client m).
Proof. intros Hm w. specialize (Hm (lw_inbound w)). unfold client, zoom. by destruct (m (lw_inbound w)). Qed.
Lemma ends_outbound {A} (m : ST Side A) : ends m -> ends (outbound m).
Proof. intros Hm w. unfold outbound. destruct (lw_backend w) as [s|]; [|done]. specialize (Hm s). by destruct (m s). Qed.
Lemma ends_server_op {A} (o : Op A) : ends (server_op o).
Proof. intros w. unfold server_op. by destruct (o (lw_server w)) as [[]]. Qed.
Lemma ends_of_out {S A} (o : Out A) : o <> NoFuel -> ends (S := S) (of_out o).
Proof. intros Ho s. by destruct o. Qed.
Lemma ends_waitForServer : ends waitForServer.
Proof. intros w. unfold waitForServer. by destruct (wait_state _ _). Qed.
Lemma ends_proxy : ends lobbyRouteProxy.
Proof. intros w. unfold lobbyRouteProxy. by destruct (lw_backend w). Qed.

Lemma ends_with_timeout {S A} b (m : ST S A) : ends m -> ends (with_timeout b m).
Proof.
  intros Hm s. specialize (Hm s). destruct (with_timeout b m s) as [r s'] eqn:E. cbn [fst].
  apply with_timeout_spec in E as (r0 & E & H & _). intros Hr. apply Hm. by rewrite E, H.
Qed.

Lemma ends_join_game info : ends (waitForServerJoinGameNoTimeout info).
Proof. intros s. destruct (waitForServerJoinGameNoTimeout info s) as [r s'] eqn:E. by apply wait_join_spec in E as (H & _). Qed.

Lemma ends_drain count : ends (drain count).
Proof. intros s. unfold drain. apply drainForgeResponses_returns. lia. Qed.

Lemma ends_connect info hot : ends (connectToServerWithForge info hot).
Proof.
  intros w. unfold connectToServerWithForge. destruct (lr_dial run) as [[conn room]|]; [|done].
  destruct (with_timeout _ _ _) as [r cw] eqn:E. apply with_timeout_spec in E as (r0 & E & H & _).
  apply connect_end in E as (H1 & _); [|done]. cbn [fst]. intros ->. by apply H1, H.
Qed.

Lemma LobbyDimension_ends codec : LobbyDimension codec <> NoFuel.
Proof.
  unfold LobbyDimension. rewrite lobbyDefaultDimension_eq. destruct (GetCompound _ _) as [dt|]; [|done].
  unfold lobbyBaseDimension. rewrite lobbyDefaultDimension_eq. destruct (GetCompoundVec _ _) as [ds|]; [|done].
  destruct (find_preferred _ _); [done|]. destruct ds as [|[d|] ds]; try done. by destruct (GetCompound _ d).
Qed.

Lemma lobbyJoinGameParams_ends server : lobbyJoinGameParams server <> NoFuel.
Proof.
  unfold lobbyJoinGameParams. destruct DefaultDimensionCodec_parses as [c ->].
  destruct (_ ≫= DimensionCodec) as [c'|]; cbn beta iota.
  - pose proof (LobbyDimension_ends c'). by destruct (LobbyDimension c').
  - pose proof (LobbyDimension_ends c). by destruct (LobbyDimension c).
Qed.

Lemma respawn_dimension_ends data : respawn_dimension data <> NoFuel.
Proof.
  unfold respawn_dimension. destruct (Dimension data); [done|]. destruct DefaultDimensionCodec_parses as [c ->].
  destruct (DimensionCodec data); apply LobbyDimension_ends.
Qed.

End Lobby.

#[export] Hint Resolve ends_bad ends_reads ends_changes ends_writes ends_checks ends_options ends_side_read ends_each ends_attempt ends_client ends_outbound
  ends_server_op ends_of_out ends_waitForServer ends_proxy ends_with_timeout ends_join_game ends_drain ends_connect ends_ret
  lobbyJoinGameParams_ends respawn_dimension_ends : ends.

Section LobbyEnds.

Context `{A0 : AES} `{ZL : Zlib} `{HM : HMAC} `{M5 : MD5} `{S1 : SHA1} `{UF : UnicodeFold}.
Context (config : Config) (run : LobbyRun).

Ltac ends_step :=
  first [ solve [auto 4 with ends]
        | apply ends_bind; [|intros ?]
        | match goal with
          | |- ends (if ?b then _ else _) => destruct b
          | |- ends (match ?x with _ => _ end) => destruct x
          | |- ends (client _) => apply ends_client
          | |- ends (attempt _) => apply ends_attempt
          | |- ends (each _ _) => apply ends_each; intros ?
          end
        | progress cbn zeta beta ].
Ltac solve_ends := repeat ends_step.

Lemma ends_sends info text sound : ends (SendTitle info text) /\ ends (SendSound info sound) /\ ends (SendPlayerPos info).
Proof.
  split_and!.
  - unfold SendTitle, sendTitleV1_20_1, sendTitleV1_17, sendTitleV1_16_3. solve_ends.
  - unfold SendSound, sendSoundV1_20_1. solve_ends.
  - unfold SendPlayerPos. solve_ends.
Qed.

Lemma ends_compression : ends ensureClientCompression.
Proof. unfold ensureClientCompression, respondSetCompression. solve_ends. Qed.

Lemma ends_replays cache payload : ends (replayForgeLoginPayload cache) /\ ends (replayLoginPayload payload).
Proof.
  split; [unfold replayForgeLoginPayload|unfold replayLoginPayload]; (apply ends_bind; [apply ends_each; intros ?|intros _; apply ends_drain]).
  - apply ends_writes.
  - apply ends_bind; [|done]. apply ends_attempt. intros s. destruct (side_Write a s) as [r s'] eqn:E. cbn [fst].
    revert E. unfold side_Write, zoom, link_Write. destruct (seal _ a). destruct (l_room _); [destruct (_ <=? _)%nat|]; by intros [= <- _].
Qed.

Lemma ends_authenticate info name : ends (authenticate config run info name).
Proof.
  unfold authenticate. destruct (OnlineMode _); [|done]. apply ends_bind; [apply ends_client|intros []; solve_ends].
  unfold authenticateLobbyClient. solve_ends.
Qed.

Lemma ends_enter info name : ends (enter_lobby config info name).
Proof.
  unfold enter_lobby, forge_login, replayColdForgeLogin, sendLobbyPlayPackets, respondSetCompression, respondLoginSuccess,
    SendJoinGame, SendServerBrand, SendTimeUpdate.
  destruct (ends_sends info [] []) as (_ & _ & Hp). pose proof ends_compression.
  pose proof (fun c => proj1 (ends_replays c [])). pose proof (fun p => proj2 (ends_replays [] p)). solve_ends.
Qed.

Lemma ends_leave info : ends (leave_lobby config run info).
Proof.
  unfold leave_lobby, stageWait, keepAliveLoop, playLobbyReadySound, sendLobbyRespawn, SendKeepAlive, waitForServerJoinGame.
  pose proof (fun t => proj1 (ends_sends info t [])). pose proof (fun t => proj1 (proj2 (ends_sends info [] t))).
  destruct (ends_sends info [] []) as (_ & _ & Hp).
  solve_ends; try done. all: unfold SendRespawn, sendRespawnV1_20_1; solve_ends.
Qed.

Lemma ends_serve_login info packet : ends (serve_login config run info packet).
Proof.
  unfold serve_login. apply ends_bind; [auto with ends|intros ls]. apply ends_bind; [apply ends_authenticate|intros [info' name]].
  apply ends_bind; [auto with ends|intros _]. apply ends_bind; [auto with ends|intros cache]. destruct (_ && _).
  - unfold serve_hot. pose proof ends_compression. solve_ends.
  - apply ends_bind; [apply ends_enter|intros _; apply ends_leave].
Qed.

End LobbyEnds.

(** ** Who gets through, and what *)

Section LobbySpec.

Context `{A0 : AES} `{ZL : Zlib} `{HM : HMAC} `{M5 : MD5} `{S1 : SHA1} `{UF : UnicodeFold}.
Context (config : Config) (run : LobbyRun).

(** Computations that leave the backend connection alone. *)
Definition keeps_backend {A} (m : ST LobbyWorld A) : Prop := forall w, lw_backend (snd (m w)) = lw_backend w.

Lemma keeps_client {A} (m : ST Side A) : keeps_backend (client m).
Proof. intros w. unfold client, zoom. by destruct (m (lw_inbound w)). Qed.

Lemma keeps_run {A} (m : ST LobbyWorld A) w r w' : keeps_backend m -> m w = (r, w') -> lw_backend w' = lw_backend w.
Proof. intros Hm E. specialize (Hm w). by rewrite E in Hm. Qed.

(** The backend side after a login on it. *)
Lemma connect_lobby info hot w w' : connectToServerWithForge config run info hot w = (Ret tt, w') ->
  exists conn room s logins, lr_dial run = Some (conn, room) /\ lw_backend w' = Some s
  /\ conn_bytes conn = raw_bytes logins ++ side_stream s
  /\ login_frames (SetState ClientStateLogin DummyClient) logins /\ ends_login logins
  /\ (OnlineMode (Config_Auth config) = true -> forwarded_in info (lr_origin run) (side_out s)).
Proof.
  unfold connectToServerWithForge. destruct (lr_dial run) as [[conn room]|]; [|done].
  destruct (with_timeout _ _ _) as [r cw] eqn:E. intros [= -> <-]. apply with_timeout_spec in E as (r0 & E & _ & Hr).
  rewrite (Hr tt eq_refl) in E. apply connect_end in E as (_ & _ & _ & (logins & Hl & Hw) & Hend); [|done].
  destruct (Hw eq_refl) as [Hf He]. exists conn, room, (cw_backend cw), logins. split_and!; auto.
  intros Ho. by apply (proj2 (Hend eq_refl)).
Qed.

(** A whole frame of the backend that holds a join game packet the lobby can
    use. *)
Definition join_frame (info : ClientInfo) (c : Client) (raw : bytes) : Prop :=
  exists p d, whole_frame c p raw /\ JoinGameIsPacket info (ID p) = true /\ JoinGameDataFromPacket info p = Ret d.

(** What the lobby takes from the stream a backend sends: the frames of the
    login up to its success and at most one more, the first join game packet;
    the frames in between are put back. *)
Definition taken_frames (info : ClientInfo) (c : Client) (logins before : list (RawPacket * bytes)) (taken : bytes) : Prop :=
  login_frames (SetState ClientStateLogin DummyClient) logins /\ ends_login logins
  /\ ((before = [] /\ taken = [])
      \/ (Forall (fun f => whole_frame c (fst f) (snd f) /\ JoinGameIsPacket info (ID (fst f)) = false) before
          /\ join_frame info c taken)).

(** What the relay of a session is made of: one way everything the backend sent
    but for the frames the lobby took, the other way what the client has sent
    and the lobby has not read off the connection. *)
Definition handover (info : ClientInfo) (rel : Relay) (w' : LobbyWorld) : Prop :=
  exists conn room s logins before taken after,
    lr_dial run = Some (conn, room) /\ lw_backend w' = Some s
    /\ conn_bytes conn = raw_bytes logins ++ raw_bytes before ++ taken ++ after
    /\ taken_frames info (side_client s) logins before taken
    /\ (l_room (side_link s) = None -> l_room (side_link (lw_inbound w')) = None ->
        to_client rel = raw_bytes before ++ after
        /\ side_stream (lw_inbound w') = l_buf (side_link (lw_inbound w')) ++ to_server rel)
    /\ (OnlineMode (Config_Auth config) = true -> forwarded_in info (lr_origin run) (side_out s)).

Lemma route_handover w rel w' : lobbyRouteProxy w = (Ret rel, w') ->
  w' = w /\ exists s, lw_backend w = Some s
  /\ (l_room (side_link s) = None -> l_room (side_link (lw_inbound w')) = None ->
      to_client rel = side_stream s
      /\ side_stream (lw_inbound w') = l_buf (side_link (lw_inbound w')) ++ to_server rel).
Proof.
  unfold lobbyRouteProxy. destruct (lw_backend w) as [s|]; [|done]. intros [= <- <-]. split; [done|]. exists s. split; [done|].
  intros H1 H2. unfold ProxyInboundOutboundWithQueue, endpoint_of, side_stream. cbn [write_ok sends].
  rewrite H1, H2, !(bool_decide_eq_true_2 (@None nat = None)) by done. cbn [negb]. rewrite !andb_false_r. done.
Qed.

Lemma serve_hot_handover info w rel w' : serve_hot config run info w = (Ret rel, w') -> handover info rel w'.
Proof.
  intros E. unfold serve_hot in E. apply ST_bind_Ret in E as ([] & w1 & _ & E). apply ST_bind_Ret in E as (b & w2 & _ & E).
  apply ST_bind_Ret in E as ([] & w3 & Ec & E). apply route_handover in E as (-> & s & Hs & Hr).
  apply connect_lobby in Ec as (conn & room & s' & logins & Hd & Hb & Hc & Hl & He & Hf). rewrite Hb in Hs. injection Hs as <-.
  exists conn, room, s', logins, [], [], (side_stream s'). split_and!; try done. unfold taken_frames. auto.
Qed.

Lemma leave_handover info w rel w' : leave_lobby config run info w = (Ret rel, w') -> handover info rel w'.
Proof.
  intros E. unfold leave_lobby in E. apply ST_bind_Ret in E as ([] & w1 & _ & E). apply ST_bind_Ret in E as ([] & w2 & Ec & E).
  apply connect_lobby in Ec as (conn & room & s & logins & Hd & Hb & Hc & Hl & He & Hf).
  apply ST_bind_Ret in E as (d & w3 & Ew & E). unfold outbound in Ew. rewrite Hb in Ew.
  destruct (waitForServerJoinGame _ _ _) as [a s3] eqn:Ej in Ew. injection Ew as -> <-.
  apply with_timeout_spec in Ej as (r0 & Ej & _ & Hr). rewrite (Hr d eq_refl) in Ej.
  apply wait_join_spec in Ej as (_ & Hcl & Ho & _ & Hj). destruct (Hj d eq_refl) as (ps & p & raw & tail & Hps & Hp & Hpd & Hfr & Hs3 & _).
  set (w3 := mkLobby _ _ _ (Some s3)) in E.
  assert (exists w7, lw_backend w7 = Some s3 /\ lobbyRouteProxy w7 = (Ret rel, w')) as (w7 & Hb7 & E7).
  { apply ST_bind_Ret in E as ([] & w4 & E4 & E). apply ST_bind_Ret in E as ([] & w5 & E5 & E).
    apply ST_bind_Ret in E as ([] & w6 & E6 & E). apply ST_bind_Ret in E as ([] & w7 & E7 & E). exists w7. split; [|done].
    by rewrite (keeps_run _ _ _ _ (keeps_client _) E7), (keeps_run _ _ _ _ (keeps_client _) E6),
      (keeps_run _ _ _ _ (keeps_client _) E5), (keeps_run _ _ _ _ (keeps_client _) E4). }
  apply route_handover in E7 as (-> & s7 & Hs7 & Hrt). rewrite Hb7 in Hs7. injection Hs7 as <-.
  pose proof (frames_whole _ _ _ _ Hfr) as [Hw Hwj]%Forall_app. pose proof (Forall_inv Hwj) as Hw1. apply frames_stream in Hfr.
  exists conn, room, s3, logins, ps, raw, tail. split_and!; try done.
  - rewrite Hc. f_equal. rewrite Hfr. unfold raw_bytes. rewrite map_app, concat_app, <- app_assoc. cbn [map concat snd]. by rewrite app_nil_r.
  - rewrite Hcl. split_and!; [done|done|]. right. split; [by apply Forall_and; split|by exists p, d].
  - by rewrite <- Hs3.
  - by rewrite Ho.
Qed.

(** The client's info after authentication. *)
Definition as_profile (info : ClientInfo) (profile : GameProfile) : ClientInfo :=
  mkClientInfo (Info_Protocol info) (Info_Handshake info) (Some (Profile_Name profile)) (Some profile).

(** The session service vouches for the client under the name it gave. *)
Definition admitted (name : bytes) (profile : GameProfile) : Prop :=
  exists conn, vouched (lr_auth run) config name conn profile /\ EqualFold (Profile_Name profile) name = true /\ profile_bounded profile.

(** Nothing has happened but, at most, an encryption request. *)
Definition quiet (w w' : LobbyWorld) : Prop :=
  lw_server w' = lw_server w /\ lw_events w' = lw_events w /\ lw_backend w' = lw_backend w
  /\ exists more, side_out (lw_inbound w') = side_out (lw_inbound w) ++ more
     /\ (more = [] \/ exists publicKey verifyToken e,
           EncodeWithLen (EncryptionRequest publicKey verifyToken) (side_client (lw_inbound w)) = Some e /\ more `prefix_of` e).

Lemma authenticate_online info name w r w' :
  OnlineMode (Config_Auth config) = true -> l_enc (side_link (lw_inbound w)) = None -> authenticate config run info name w = (r, w') ->
  (exists profile, admitted name profile /\ r = Ret (as_profile info profile, Profile_Name profile)) \/ (quiet w w' /\ forall x, r <> Ret x).
Proof.
  intros Ho He E. unfold authenticate in E. rewrite Ho in E. unfold mbind, ST_bind, client, zoom in E.
  destruct (authenticateLobbyClient _ _ _ _) as [a s1] eqn:Ea. destruct a as [[conn profile]| | |].
  - injection E as <- <-. left. exists profile. split; [|done].
    apply authenticate_sound in Ea as (H1 & H2 & H3 & _); [|done]. by exists conn.
  - right. injection E as <- <-. apply authenticate_silent in Ea as (_ & _ & _ & more & Hm & Hc); [|done]. split; [|done].
    split_and!; try done. exists more. split; [done|]. destruct Hc as [?|(pk & tok & e & _ & _ & ? & ?)]; [by left|right; eauto].
  - apply authenticate_silent in Ea as (_ & Hp & _); done.
  - apply authenticate_silent in Ea as (Hp & _); done.
Qed.

Lemma serve_login_cases info packet w r w' : l_enc (side_link (lw_inbound w)) = None -> serve_login config run info packet w = (r, w') ->
  exists info', (forall rel, r = Ret rel -> handover info' rel w')
  /\ (if OnlineMode (Config_Auth config)
      then (quiet w w' /\ forall x, r <> Ret x) \/ exists name profile, admitted name profile /\ info' = as_profile info profile
      else info' = info).
Proof.
  intros He E. unfold serve_login in E. unfold mbind at 1, ST_bind at 1, of_option in E.
  assert (quiet w w) as Hq by (split_and!; try done; exists []; rewrite app_nil_r; auto).
  destruct (DecodeLoginStart (Data packet)) as [ls|].
  2:{ injection E as <- <-. exists info. split; [done|]. destruct (OnlineMode _); [by left|done]. }
  unfold mret at 1, ST_ret at 1 in E. unfold mbind at 1, ST_bind at 1 in E.
  destruct (authenticate config run info (LoginStart_Name ls) w) as [a w1] eqn:Ea.
  assert (forall info' name, a = Ret (info', name) -> forall rel, r = Ret rel -> handover info' rel w') as Hh.
  { intros info' name -> rel ->. apply ST_bind_Ret in E as (b & w2 & _ & E). apply ST_bind_Ret in E as (cache & w3 & _ & E).
    destruct (_ && _) in E.
    - by apply serve_hot_handover in E.
    - apply ST_bind_Ret in E as ([] & w4 & _ & E). by apply leave_handover in E. }
  destruct (OnlineMode (Config_Auth config)) eqn:Ho.
  - apply authenticate_online in Ea as [(profile & Hp & ->)|[Hqt Hn]]; [| |done|done].
    + eexists. split; [by eapply Hh|right; eauto].
    + exists info. destruct a as [x| | |]; [by destruct (Hn x)|..]; injection E as <- <-; (split; [done|by left]).
  - unfold authenticate in Ea. rewrite Ho in Ea. injection Ea as <- <-. exists info. split; [by eapply Hh|done].
Qed.

Lemma lobby_loop_cases info fuel : forall w r w', (length (side_stream (lw_inbound w)) < fuel)%nat -> l_enc (side_link (lw_inbound w)) = None ->
  lobby_loop config run info fuel w = (r, w') ->
  r <> NoFuel /\ exists info', (forall rel, r = Ret rel -> handover info' rel w')
  /\ (if OnlineMode (Config_Auth config)
      then (quiet w w' /\ forall x, r <> Ret x) \/ exists name profile, admitted name profile /\ info' = as_profile info profile
      else info' = info).
Proof.
  induction fuel as [|fuel IH]; intros w r w' Hlen He E; [lia|]. cbn [lobby_loop] in E.
  unfold mbind at 1, ST_bind at 1, client at 1, zoom at 1 in E. destruct (side_read (lw_inbound w)) as [a s1] eqn:Er.
  pose proof (side_read_returns (lw_inbound w)) as Hret. rewrite Er in Hret. cbn [fst] in Hret.
  destruct (side_read_conserves _ _ _ Er) as (Hc & Ho & He1 & _ & Hs). set (w1 := mkLobby s1 _ _ _) in E.
  assert (forall w2, quiet w1 w2 -> quiet w w2) as Hq.
  { intros w2 (H1 & H2 & H3 & more & H4 & H5). cbn [w1 lw_inbound lw_server lw_events lw_backend] in *. unfold quiet.
    rewrite <- Ho, <- Hc. split_and!; try done. by exists more. }
  assert (quiet w1 w1) as Hq1 by (split_and!; try done; exists []; rewrite app_nil_r; auto).
  assert (forall r0 : Out Relay, r0 <> NoFuel -> (forall x, r0 <> Ret x) -> (r0, w1) = (r, w') -> r <> NoFuel /\ exists info',
    (forall rel, r = Ret rel -> handover info' rel w')
    /\ (if OnlineMode (Config_Auth config)
      then (quiet w w' /\ forall x, r <> Ret x) \/ exists name profile, admitted name profile /\ info' = as_profile info profile
      else info' = info)) as Hend.
  { intros r0 H1 H2 [= <- <-]. split; [done|]. exists info. split; [intros rel ->; by destruct (H2 rel)|].
    destruct (OnlineMode _); [left; split; [by apply Hq|done]|done]. }
  destruct a as [[[p raw]|]| | |]; try (by destruct Hret); try (by apply (Hend Bad)).
  destruct Hs as [Hs Hraw]. unfold mbind at 1, ST_bind at 1, reading in E. destruct (_ && _) in E.
  - pose proof (ends_serve_login config run info p w1) as Hends. rewrite E in Hends. split; [done|].
    apply serve_login_cases in E as (info' & Hh & Hcase); [|cbn; congruence]. exists info'. split; [done|].
    destruct (OnlineMode _); [|done]. destruct Hcase as [[H1 H2]|H]; [left; split; [by apply Hq|done]|by right].
  - apply IH in E as (H1 & info' & Hh & Hcase); [| |cbn; congruence].
    + split; [done|]. exists info'. split; [done|]. destruct (OnlineMode _); [|done].
      destruct Hcase as [[? ?]|?]; [left; split; [by apply Hq|done]|by right].
    + cbn. rewrite <- Hs, length_app in Hlen. destruct raw; [done|]. cbn in Hlen. lia.
Qed.

End LobbySpec.

Section LobbyTheorems.

Context `{A0 : AES} `{ZL : Zlib} `{HM : HMAC} `{M5 : MD5} `{S1 : SHA1} `{UF : UnicodeFold}.

Lemma LobbyServe_cases config run info w r w' : l_enc (side_link (lw_inbound w)) = None -> LobbyServe config run info w = (r, w') ->
  r <> NoFuel
  /\ exists info', (forall rel, r = Ret (LobbyRelayed rel) -> handover config run info' rel w')
  /\ (if OnlineMode (Config_Auth config)
      then (quiet w w' /\ forall rel, r <> Ret (LobbyRelayed rel)) \/ exists name profile, admitted config run name profile /\ info' = as_profile info profile
      else info' = info).
Proof.
  intros He. unfold LobbyServe.
  assert (forall w0, (Ret LobbyRefused, w) = (r, w0) -> w0 = w' -> r <> NoFuel
    /\ exists info', (forall rel, r = Ret (LobbyRelayed rel) -> handover config run info' rel w')
    /\ (if OnlineMode (Config_Auth config)
      then (quiet w w' /\ forall rel, r <> Ret (LobbyRelayed rel)) \/ exists name profile, admitted config run name profile /\ info' = as_profile info profile
      else info' = info)) as Hend.
  { intros w0 [= <- <-] <-. split; [done|]. exists info. split; [done|]. destruct (OnlineMode _); [|done]. left.
    split; [|done]. split_and!; try done. exists []. rewrite app_nil_r. auto. }
  destruct (negb _); [intros E; by eapply Hend|]. destruct (bool_decide _); [intros E; by eapply Hend|].
  destruct (lobby_loop _ _ _ _ w) as [a w1] eqn:E. apply lobby_loop_cases in E as (Hn & info' & Hh & Hc); [|lia|done].
  destruct a as [rel0| | |]; intros [= <- <-]; try done; (split; [done|]); exists info'; split; try done.
  - intros rel [= <-]. by apply Hh.
  - destruct (OnlineMode _); [|done]. destruct Hc as [[_ Hx]|?]; [by destruct (Hx rel0)|by right].
  - destruct (OnlineMode _); [|done]. destruct Hc as [[? _]|?]; [by left|by right].
  - destruct (OnlineMode _); [|done]. destruct Hc as [[? _]|?]; [by left|by right].
Qed.

(** C1: in online mode the lobby does nothing for a client before it is
    authenticated, and everything after that in its verified name. A session
    always ends. Unless the session service vouched for the client over an
    encrypted exchange under the name it gave, the server is not started, no
    backend is dialed, nothing but an encryption request is sent and nothing is
    relayed; and when a client is relayed, the backend has been sent a signed
    message from which it reads exactly the profile the session service
    returned. *)
Theorem lobby_admits_only_authenticated (config : Config) (run : LobbyRun) (info : ClientInfo) (w w' : LobbyWorld) (r : Out Served) :
  OnlineMode (Config_Auth config) = true -> l_enc (side_link (lw_inbound w)) = None -> LobbyServe config run info w = (r, w') ->
  r <> NoFuel
  /\ ((quiet w w' /\ forall rel, r <> Ret (LobbyRelayed rel))
      \/ exists name profile, admitted config run name profile
         /\ (forall rel, r = Ret (LobbyRelayed rel) ->
              exists s, lw_backend w' = Some s /\ told_profile (lr_origin run) profile (side_out s))).
Proof.
  intros Ho He E. apply LobbyServe_cases in E as (Hn & info' & Hh & Hc); [|done]. split; [done|]. rewrite Ho in Hc.
  destruct Hc as [?|(name & profile & Ha & ->)]; [by left|right]. exists name, profile. split; [done|]. intros rel Hr.
  destruct (Hh rel Hr) as (conn & room & s & _ & _ & _ & _ & _ & Hs & _ & _ & _ & Hf). exists s. split; [done|].
  by destruct (forwarded_told _ _ _ (Hf Ho)) as (p & [= <-] & Ht).
Qed.

(** C6: the hand-over from the lobby to the server loses nothing of the server's
    stream. When a session ends in a relay, the bytes the backend sent are the
    whole frames of its login, up to and including its first login success,
    then whole frames that are not join game packets, then at most one frame,
    the first join game packet, which the lobby turned into a respawn, and the
    rest; and the relay delivers to the client exactly the frames between login
    and join game followed by the rest, in order. The client's bytes that the
    lobby has not read off the connection reach the server; of what the client
    sent, the bytes still in the lobby's own buffer are the only unread ones
    that do not. *)
Theorem lobby_handover_lossless (config : Config) (run : LobbyRun) (info : ClientInfo) (w w' : LobbyWorld) (rel : Relay) :
  l_enc (side_link (lw_inbound w)) = None -> LobbyServe config run info w = (Ret (LobbyRelayed rel), w') ->
  exists conn room s info' logins before taken after,
    lr_dial run = Some (conn, room) /\ lw_backend w' = Some s
    /\ conn_bytes conn = raw_bytes logins ++ raw_bytes before ++ taken ++ after
    /\ taken_frames info' (side_client s) logins before taken
    /\ (l_room (side_link s) = None -> l_room (side_link (lw_inbound w')) = None ->
        to_client rel = raw_bytes before ++ after
        /\ side_stream (lw_inbound w') = l_buf (side_link (lw_inbound w')) ++ to_server rel).
Proof.
  intros He E. apply LobbyServe_cases in E as (_ & info' & Hh & _); [|done].
  destruct (Hh rel eq_refl) as (conn & room & s & logins & before & taken & after & H1 & H2 & H3 & H4 & H5 & _).
  exists conn, room, s, info', logins, before, taken, after. split_and!; try done; apply H5; done.
Qed.

End LobbyTheorems.

(** ** Sample sessions *)

Definition lobby_config (online : bool) : Config :=
  let c := online_config false in
  mkConfig (Config_Path c) (Config_Public c) (Config_Server c) (mkAuth online [] []) (Config_Time c) (Config_Motd c)
    (mkJoin [MethodLobby] (Join_Kick (Config_Join c)) (Join_Hold (Config_Join c)) (Join_Forward (Config_Join c))
      (mkJoinLobby 600 (str "Server is starting") (Some (str "block.note_block.chime"))))
    (Config_Lockout c) (Config_Rcon c) (Config_Advanced c) (Config_Config c).

Definition steve_info : ClientInfo :=
  mkClientInfo None (Some (mkHandshake 763 (str "localhost") 25565 2)) (Some (str "Steve")) None.

Definition no_auth : AuthEnv := mkAuthEnv None (fun _ => None) None (fun _ => None) (fun _ _ => None).

(** The server comes up after seven seconds. *)
Definition lobby_run (auth : AuthEnv) (backend : bytes) : LobbyRun :=
  mkLobbyRun auth (mkEnv 0 (fun _ _ => true) false false) sample_origin
    (mkHoldRun [(1, StateStarting); (7 * second, StateStarted)] false (set_state StateStarted NewServerState))
    [1] (Some ([mkEvent backend None], None)) true true.

Definition steve_login : bytes := frame_of (login_of (str "Steve")).

(** The server has been probed. *)
Definition lobby_world (later : Conn) : LobbyWorld :=
  mkLobby (login_side (mkEvent steve_login None :: later)) (set_probed (Some (lobby_view (Some 763) sample_params)) NewServerState) [] None.

Definition lobby_backend : bytes := frame_to_client PacketClientLoginSuccess (replicate 20 x00) ++ joining_backend steve_info.

Definition serve_sample (online : bool) (auth : AuthEnv) (backend : bytes) (later : Conn) : Out Served * LobbyWorld :=
  LobbyServe (A0 := toy_aes) (HM := toy_hmac) (M5 := toy_md5) (S1 := toy_sha1) (UF := toy_fold) (lobby_config online)
    (lobby_run auth backend) steve_info (lobby_world later).

Lemma lobby_handover_lossless_witness :
  match serve_sample false no_auth lobby_backend [] with
  | (Ret (LobbyRelayed rel), w) =>
      to_client rel = frame_to_client x17 [x01; x02] ++ frame_to_client x17 [x03]
      /\ exists s info' logins before taken after, lw_backend w = Some s
           /\ conn_bytes [mkEvent lobby_backend None] = raw_bytes logins ++ raw_bytes before ++ taken ++ after
           /\ taken_frames info' (side_client s) logins before taken
  | _ => False
  end.
Proof.
  unfold serve_sample. destruct (LobbyServe _ _ _ _) as [r w] eqn:E.
  destruct r as [[| |rel]| | |]; try (vm_compute in E; discriminate).
  destruct (lobby_handover_lossless (A0 := toy_aes) (HM := toy_hmac) (M5 := toy_md5) (S1 := toy_sha1) (UF := toy_fold) (lobby_config false)
    (lobby_run no_auth lobby_backend) steve_info (lobby_world []) w rel eq_refl E)
    as (conn & room & s & info' & logins & before & taken & after & H1 & H2 & H3 & H4 & _).
  split; [vm_compute in E; injection E as <- _; vm_compute; reflexivity|].
  exists s, info', logins, before, taken, after. split; [exact H2|]. split; [|exact H4].
  change (lr_dial (lobby_run no_auth lobby_backend)) with (Some ([mkEvent lobby_backend None], @None nat)) in H1.
  injection H1 as <- _. exact H3.
Defined.

(** An environment in which "encryption" is the identity and the session
    service knows the sample profile. *)
Definition sample_auth : AuthEnv :=
  mkAuthEnv (Some [x30; x81]) Some (Some [x01; x02; x03; x04]) (fun _ => mojang) sample_session.

Definition encryption_response : bytes :=
  frame_to_client PacketServerEncryptionResponse ([x10] ++ sample_secret ++ [x04; x01; x02; x03; x04]).

Definition online_world : LobbyWorld :=
  mkLobby (login_side [mkEvent (frame_of (login_of (Profile_Name sample_profile))) None; mkEvent encryption_response None])
    (set_probed (Some (lobby_view (Some 763) sample_params)) NewServerState) [] None.

Definition asking_lobby_backend : bytes :=
  frame_to_client PacketClientLoginPluginRequest (encodeLoginPluginRequest velocity_request) ++ lobby_backend.

Lemma lobby_admits_only_authenticated_witness :
  match LobbyServe (A0 := toy_aes) (HM := toy_hmac) (M5 := toy_md5) (S1 := toy_sha1) (UF := toy_fold) (lobby_config true)
          (lobby_run sample_auth asking_lobby_backend) steve_info online_world with
  | (Ret (LobbyRelayed rel), w) =>
      exists name profile s, admitted (S1 := toy_sha1) (UF := toy_fold) (lobby_config true) (lobby_run sample_auth asking_lobby_backend) name profile
        /\ lw_backend w = Some s /\ told_profile (HM := toy_hmac) sample_origin profile (side_out s)
  | _ => False
  end.
Proof.
  destruct (LobbyServe _ _ _ _) as [r w] eqn:E.
  destruct r as [[| |rel]| | |]; try (vm_compute in E; discriminate).
  destruct (lobby_admits_only_authenticated (A0 := toy_aes) (HM := toy_hmac) (M5 := toy_md5) (S1 := toy_sha1) (UF := toy_fold)
    (lobby_config true) (lobby_run sample_auth asking_lobby_backend) steve_info online_world w _ eq_refl eq_refl E)
    as [_ [[_ H]|(name & profile & Ha & H)]].
  - exfalso. apply (H rel). reflexivity.
  - destruct (H rel eq_refl) as (s & Hs & Ht). exists name, profile, s. split; [exact Ha|]. split; [exact Hs|exact Ht].
Defined.

(** The answer of a 1.20.1 client to the lobby's keep-alive with id 1. *)
Definition stale_keepalive : bytes := frame_to_client x12 [x00; x00; x00; x00; x00; x00; x00; x01].

(** C37: the lobby does not void what the client sent while it waited. The read
    deadline that is meant to make the draining reads non-blocking has already
    passed, so that every read fails at once and the connection is left as it
    is: in a whole session, the client's answer to the lobby's own keep-alive
    is relayed to the server, which never asked for it. *)
Theorem lobby_backlog_reaches_server :
  (forall s, drainStream s = (Ret tt, s))
  /\ match serve_sample false no_auth lobby_backend [mkEvent stale_keepalive None] with
     | (Ret (LobbyRelayed rel), _) => to_server rel = stale_keepalive
     | _ => False
     end.
Proof. split; [by intros [c [conn b e o r]]|]. vm_compute. reflexivity. Qed.

(** What the client sends in one segment with its login start is lost: the read
    of the login puts it in the lobby's buffer, and the relay starts from the
    connection. *)
Theorem lobby_drops_buffered_bytes :
  match LobbyServe (A0 := toy_aes) (HM := toy_hmac) (M5 := toy_md5) (S1 := toy_sha1) (UF := toy_fold) (lobby_config false)
          (lobby_run no_auth lobby_backend) steve_info
          (mkLobby (login_side [mkEvent (steve_login ++ stale_keepalive) None])
            (set_probed (Some (lobby_view (Some 763) sample_params)) NewServerState) [] None) with
  | (Ret (LobbyRelayed rel), w) => l_buf (side_link (lw_inbound w)) = stale_keepalive /\ to_server rel = []
  | _ => False
  end.
Proof. vm_compute. split; reflexivity. Qed.
