(* ===== verification/KeepAlive.v ===== *)
(** The keep-alive goroutine of the lobby: [stageWait] and [keepAliveLoop] of
    [src/lobby.go] with the code that takes over the connection.

    [Lobby] takes the goroutine to have finished its round when the wait for
    the server is over. In the program nothing waits for it: closing [stop]
    only asks it to end. Here the goroutine, its ticker and the caller are a
    step relation on one connection, a step of a goroutine being one [Write],
    which the connection serialises. *)
From stdpp Require Import relations sorting.
From S2P Require Import Prelude VarInt Wire Packet Stream Config Net Packets GoFloat Nbt Cipher Link PlayPackets JoinGame ServerState Lobby.

Section KeepAlive.

Context `{A0 : AES} `{ZL : Zlib}.
Context (config : Config) (info : ClientInfo).

(** ** What is sent *)

(** The packets of [SendTitle]. *)
Definition title_packets (text : bytes) : list RawPacket :=
  let '(title, subtitle) := title_lines text in
  let protocol := GetProtocol info in
  if isV1_20_1 protocol then
    [NewRawPacket V1_20_1SetTitleText (chatMessageBytes title);
     NewRawPacket V1_20_1SetTitleSubtitle (chatMessageBytes subtitle);
     NewRawPacket V1_20_1SetTitleTimes (title_times_for title subtitle)]
  else if since_1_17 protocol then
    [NewRawPacket V1_17SetTitleText (chatMessageBytes title);
     NewRawPacket V1_17SetTitleSubtitle (chatMessageBytes subtitle);
     NewRawPacket V1_17SetTitleTimes (title_times_for title subtitle)]
  else
    [NewRawPacket V1_16_3Title (Bytes (NewPacketWriter |> WriteU8 x00 |> Write (chatMessageBytes title)));
     NewRawPacket V1_16_3Title (Bytes (NewPacketWriter |> WriteU8 x01 |> Write (chatMessageBytes subtitle)));
     NewRawPacket V1_16_3Title (Bytes (NewPacketWriter |> WriteU8 x03 |> Write (title_times_for title subtitle)))].

(** A round of the loop: a keep-alive packet and the title. *)
Definition round (id : Z) : list RawPacket :=
  NewRawPacket (packet_id KeepAlive_ids (GetProtocol info)) (Bytes (NewPacketWriter |> WriteUint64 (u64 id)))
  :: title_packets (Lobby_Message (Join_Lobby (Config_Join config))).

Definition sending (ps : list RawPacket) : ST Side unit := each writePacketTo ps.

Lemma each_app (ps qs : list RawPacket) s : sending (ps ++ qs) s = (_ ← sending ps; sending qs) s.
Proof.
  revert s. induction ps as [|p ps IH]; intros s; [done|]. cbn. unfold mbind, ST_bind in *.
  by destruct (writePacketTo p s) as [[[]| | |] s1].
Qed.

Lemma three_sending p q r s : (_ ← writePacketTo p; _ ← writePacketTo q; writePacketTo r) s = sending [p; q; r] s.
Proof.
  cbn. unfold mbind, ST_bind. destruct (writePacketTo p s) as [[[]| | |] s1]; try done.
  destruct (writePacketTo q s1) as [[[]| | |] s2]; try done. by destruct (writePacketTo r s2) as [[[]| | |] s3].
Qed.

Lemma SendTitle_sending text s : SendTitle info text s = sending (title_packets text) s.
Proof.
  unfold SendTitle, title_packets. destruct (title_lines text) as [title subtitle].
  destruct (isV1_20_1 _); [|destruct (since_1_17 _)]; apply three_sending.
Qed.

Lemma keepAliveLoop_sending ids s : keepAliveLoop config info ids s = sending (concat (map round ids)) s.
Proof.
  revert s. induction ids as [|id ids IH]; intros s; [done|]. cbn [map concat]. rewrite each_app.
  unfold keepAliveLoop in *. cbn. unfold mbind, ST_bind, SendKeepAlive in *.
  destruct (writePacketTo _ s) as [[[]| | |] s1]; try done. rewrite SendTitle_sending. unfold sending at 1.
  by destruct (each writePacketTo _ s1) as [[[]| | |] s2].
Qed.

(** ** The goroutines *)

(** The goroutine: in [select], in a round with packets left to send, over. *)
Inductive LoopPc := LSelect | LSending (ps : list RawPacket) | LEnded.

(** What the caller writes after the wait: its own packets, and the chunks of
    the relay. *)
Inductive Output := Frame (p : RawPacket) | Chunk (b : bytes).

Definition write (o : Output) : ST Side unit :=
  match o with Frame p => writePacketTo p | Chunk b => side_Write b end.

(** The caller: waiting for the server, going on, or gone. *)
Inductive CallerPc := KWaiting | KGoing (os : list Output) | KGone.

Inductive Writer := ByLoop | ByCaller.

(** The connection, the two goroutines, the pending tick, whether [stop] is
    closed, the counter of the ids, the ids of the rounds begun so far, and who
    wrote what. *)
Record Stage := mkStage {
  k_side : Side;
  k_loop : LoopPc;
  k_tick : bool;
  k_stop : bool;
  k_caller : CallerPc;
  k_next : Z;
  k_ids : list Z;
  k_log : list (Writer * Output) }.

Definition stage (s : Side) (next : Z) : Stage := mkStage s LSelect false false KWaiting next [] [].

(** When a tick and [stop] are both there, [select] takes either. A caller that
    gives up closes the connection, and later writes fail. *)
Inductive loop_step : Stage -> Stage -> Prop :=
| loop_tick s b c n ids l : loop_step (mkStage s LSelect true b c n ids l) (mkStage s (LSending (round n)) false b c (n + 1) (ids ++ [n]) l)
| loop_stop s t c n ids l : loop_step (mkStage s LSelect t true c n ids l) (mkStage s LEnded t true c n ids l)
| loop_write s p ps t b c n ids l s' : writePacketTo p s = (Ret tt, s') ->
    loop_step (mkStage s (LSending (p :: ps)) t b c n ids l) (mkStage s' (LSending ps) t b c n ids (l ++ [(ByLoop, Frame p)]))
| loop_fail s p ps t b c n ids l s' : writePacketTo p s = (Bad, s') ->
    loop_step (mkStage s (LSending (p :: ps)) t b c n ids l) (mkStage s' LEnded t b c n ids l)
| loop_closed s p ps t b n ids l :
    loop_step (mkStage s (LSending (p :: ps)) t b KGone n ids l) (mkStage s LEnded t b KGone n ids l)
| loop_round s t b c n ids l : loop_step (mkStage s (LSending []) t b c n ids l) (mkStage s LSelect t b c n ids l).

(** [plan]: what the caller writes once the server is there. *)
Context (plan : list Output).

(** The caller, the ticker, and the goroutines of other clients, which share
    the counter of the ids. *)
Inductive step : Stage -> Stage -> Prop :=
| step_loop k k' : loop_step k k' -> step k k'
| step_waited s p t n ids l : step (mkStage s p t false KWaiting n ids l) (mkStage s p t true (KGoing plan) n ids l)
| step_gave_up s p t n ids l : step (mkStage s p t false KWaiting n ids l) (mkStage s p t true KGone n ids l)
| step_write s p t b o os n ids l s' : write o s = (Ret tt, s') ->
    step (mkStage s p t b (KGoing (o :: os)) n ids l) (mkStage s' p t b (KGoing os) n ids (l ++ [(ByCaller, o)]))
| step_fail s p t b o os n ids l s' : write o s = (Bad, s') ->
    step (mkStage s p t b (KGoing (o :: os)) n ids l) (mkStage s' p t b KGone n ids l)
| step_tick s p t b c n ids l : step (mkStage s p t b c n ids l) (mkStage s p true b c n ids l)
| step_others s p t b c n m ids l : n <= m -> step (mkStage s p t b c n ids l) (mkStage s p t b c m ids l).

(** ** What the client gets *)

(** The bytes of an output under the client's compression. *)
Definition out_bytes (c : Client) (o : Output) : bytes :=
  match o with Frame p => default [] (EncodeWithLen p c) | Chunk b => b end.

(** The outputs of the goroutine and of the caller. *)
Definition from_loop (l : list (Writer * Output)) : list Output :=
  flat_map (fun x => match x with (ByLoop, o) => [o] | _ => [] end) l.
Definition from_caller (l : list (Writer * Output)) : list Output :=
  flat_map (fun x => match x with (ByCaller, o) => [o] | _ => [] end) l.

(** The packets of the rounds begun that are sent. *)
Definition loop_rest (p : LoopPc) (rest : list RawPacket) : Prop :=
  match p with LSelect => rest = [] | LSending ps => rest = ps | LEnded => True end.

Section Run.

Context (s0 : Side) (next : Z).

Definition on_wire (k : Stage) : Prop :=
  side_client (k_side k) = side_client s0 /\ l_room (side_link (k_side k)) = None
  /\ exists more, seal (l_enc (side_link s0)) (concat (map (fun x => out_bytes (side_client s0) (snd x)) (k_log k))) = (more, l_enc (side_link (k_side k)))
                  /\ side_out (k_side k) = side_out s0 ++ more.

(** The goroutine sends its rounds in order and nothing else. *)
Definition rounds_sent (k : Stage) : Prop :=
  (exists done rest, concat (map round (k_ids k)) = done ++ rest /\ from_loop (k_log k) = map Frame done /\ loop_rest (k_loop k) rest)
  /\ StronglySorted Z.lt (k_ids k) /\ Forall (fun i => next <= i < k_next k) (k_ids k) /\ next <= k_next k.

(** While the caller waits, the connection is as the rounds leave it. *)
Definition waiting_ok (k : Stage) : Prop :=
  k_caller k = KWaiting ->
  k_stop k = false /\ from_caller (k_log k) = []
  /\ exists done rest, concat (map round (k_ids k)) = done ++ rest
     /\ match k_loop k with
        | LSelect => rest = [] /\ sending done s0 = (Ret tt, k_side k)
        | LSending ps => rest = ps /\ sending done s0 = (Ret tt, k_side k)
        | LEnded => exists p rest', rest = p :: rest' /\ sending (done ++ [p]) s0 = (Bad, k_side k)
        end.

Lemma seal_app enc a b : seal enc (a ++ b) = let '(x, e) := seal enc a in let '(y, e) := seal e b in (x ++ y, e).
Proof.
  destruct enc as [w|]; [|done]. unfold seal. rewrite XORKeyStream_app.
  destruct (XORKeyStream w a) as [x w1]. by destruct (XORKeyStream w1 b) as [y w2].
Qed.

(** A write on a connection that does not break. *)
Lemma write_ok o s : l_room (side_link s) = None ->
  match write o s with
  | (Ret _, s') => side_client s' = side_client s /\ l_room (side_link s') = None
      /\ exists more, seal (l_enc (side_link s)) (out_bytes (side_client s) o) = (more, l_enc (side_link s')) /\ side_out s' = side_out s ++ more
  | (_, s') => s' = s
  end.
Proof.
  intros Hr. assert (forall b, match side_Write b s with
    | (Ret _, s') => side_client s' = side_client s /\ l_room (side_link s') = None
      /\ exists more, seal (l_enc (side_link s)) b = (more, l_enc (side_link s')) /\ side_out s' = side_out s ++ more
    | (_, s') => s' = s end) as H.
  { intros b. unfold side_Write, zoom, link_Write, side_out. destruct (seal (l_enc (side_link s)) b) as [c e]. rewrite Hr. cbn. eauto. }
  destruct o as [p|b]; [|apply H]. cbn. unfold writePacketTo. destruct (EncodeWithLen p (side_client s)) as [e|]; [apply H|done].
Qed.

Lemma on_wire_write k o s' w : on_wire k -> write o (k_side k) = (Ret tt, s') -> forall p t b c n ids,
  on_wire (mkStage s' p t b c n ids (k_log k ++ [(w, o)])).
Proof.
  intros (Hc & Hr & more & Hs & Ho) E p t b c n ids. pose proof (write_ok o (k_side k) Hr) as H. rewrite E in H.
  destruct H as (H1 & H2 & x & H3 & H4). split_and!; cbn; [congruence|done|].
  rewrite map_app, concat_app, seal_app, Hs. cbn [map concat snd]. rewrite app_nil_r. rewrite Hc in H3. rewrite H3.
  eexists. split; [reflexivity|]. by rewrite H4, Ho, app_assoc.
Qed.

Lemma on_wire_frame k k' : k_side k' = k_side k -> k_log k' = k_log k -> on_wire k -> on_wire k'.
Proof. unfold on_wire. by intros -> ->. Qed.

Lemma on_wire_fail k o s' r : on_wire k -> write o (k_side k) = (r, s') -> r <> Ret tt -> s' = k_side k.
Proof.
  intros (_ & Hr & _) E Hne. pose proof (write_ok o (k_side k) Hr) as H. rewrite E in H. by destruct r as [[]| | |].
Qed.

Lemma on_wire_step k k' : step k k' -> on_wire k -> on_wire k'.
Proof.
  destruct 1 as [k k' E|s p t n ids l|s p t n ids l|s p t b o os n ids l s' E|s p t b o os n ids l s' E|s p t b c n ids l|s p t b c n m ids l Hm]; intros H;
    try by apply (on_wire_frame _ _ eq_refl eq_refl H).
  - destruct E as [s b c n ids l|s t c n ids l|s p ps t b c n ids l s' E|s p ps t b c n ids l s' E|s p ps t b n ids l|s t b c n ids l];
      try by apply (on_wire_frame _ _ eq_refl eq_refl H).
    + by apply (on_wire_write _ (Frame p) s' ByLoop H).
    + apply (on_wire_frame (mkStage s (LSending (p :: ps)) t b c n ids l)); [|done|exact H].
      by apply (on_wire_fail _ (Frame p) s' Bad H).
  - by apply (on_wire_write _ o s' ByCaller H).
  - apply (on_wire_frame (mkStage s p t b (KGoing (o :: os)) n ids l)); [|done|exact H]. by apply (on_wire_fail _ o s' Bad H).
Qed.

Lemma from_loop_snoc l w o : from_loop (l ++ [(w, o)]) = from_loop l ++ match w with ByLoop => [o] | ByCaller => [] end.
Proof. unfold from_loop. rewrite flat_map_app. by destruct w. Qed.

Lemma from_caller_snoc l w o : from_caller (l ++ [(w, o)]) = from_caller l ++ match w with ByCaller => [o] | ByLoop => [] end.
Proof. unfold from_caller. rewrite flat_map_app. by destruct w. Qed.

Lemma sorted_snoc l n : StronglySorted Z.lt l -> Forall (fun i => next <= i < n) l -> StronglySorted Z.lt (l ++ [n]).
Proof.
  induction 1 as [|i l _ IH Hi]; intros H; cbn; [repeat constructor|]. apply Forall_cons in H as [Hn H]. constructor; [by apply IH|].
  apply Forall_app. split; [done|]. constructor; [lia|constructor].
Qed.

Lemma rounds_snoc ids n : concat (map round (ids ++ [n])) = concat (map round ids) ++ round n.
Proof. rewrite map_app, concat_app. cbn. by rewrite app_nil_r. Qed.

Lemma rounds_loop k k' : loop_step k k' -> rounds_sent k -> rounds_sent k'.
Proof.
  unfold rounds_sent.
  destruct 1 as [s b c n ids l|s t c n ids l|s p ps t b c n ids l s' E|s p ps t b c n ids l s' E|s p ps t b n ids l|s t b c n ids l];
    cbn [k_ids k_log k_loop k_next]; intros [(sent & rest & Hd & Hl & Hr) H]; cbn in Hr; subst.
  - destruct H as (H1 & H2 & H3). split_and!; [|by apply sorted_snoc| |lia].
    + exists sent, (round n). rewrite rounds_snoc, Hd, app_nil_r. done.
    + apply Forall_app. split; [|repeat constructor; lia]. eapply Forall_impl; [exact H2|]. cbn. lia.
  - split; [|done]. by exists sent, [].
  - split; [|done]. exists (sent ++ [p]), ps. rewrite <- app_assoc, from_loop_snoc, Hl, map_app. done.
  - split; [|done]. by exists sent, (p :: ps).
  - split; [|done]. by exists sent, (p :: ps).
  - split; [|done]. by exists sent, [].
Qed.

Lemma rounds_step k k' : step k k' -> rounds_sent k -> rounds_sent k'.
Proof.
  destruct 1 as [k k' E|s p t n ids l|s p t n ids l|s p t b o os n ids l s' E|s p t b o os n ids l s' E| |s p t b c n m ids l Hm]; try done.
  - by apply rounds_loop.
  - unfold rounds_sent. cbn. by rewrite from_loop_snoc, app_nil_r.
  - unfold rounds_sent. cbn. intros (? & ? & H & ?). split_and!; try done; [|lia]. eapply Forall_impl; [exact H|]. cbn. lia.
Qed.

Lemma sending_snoc ps p s s1 r s2 : sending ps s = (Ret tt, s1) -> writePacketTo p s1 = (r, s2) -> sending (ps ++ [p]) s = (r, s2).
Proof.
  intros E1 E2. rewrite each_app. unfold mbind, ST_bind. rewrite E1. cbn. unfold mbind, ST_bind. rewrite E2. by destruct r as [[]| | |].
Qed.

Lemma waiting_step k k' : step k k' -> waiting_ok k -> waiting_ok k'.
Proof.
  destruct 1 as [k k' E| | | | | |]; unfold waiting_ok; cbn; try done.
  destruct E as [s b c n ids l|s t c n ids l|s p ps t b c n ids l s' E|s p ps t b c n ids l s' E|s p ps t b n ids l|s t b c n ids l]; cbn;
    intros H Hw; destruct (H Hw) as (Hs & Hl & sent & rest & Hd & Hr); (split_and!; [done| |]); try (by rewrite ?from_caller_snoc, ?app_nil_r); try done.
  - destruct Hr as [-> Hr]. exists sent, (round n). rewrite rounds_snoc, Hd, app_nil_r. done.
  - destruct Hr as [-> Hr]. exists (sent ++ [p]), ps. rewrite <- app_assoc. split_and!; [done..|by eapply sending_snoc].
  - destruct Hr as [-> Hr]. exists sent, (p :: ps). split; [done|]. exists p, ps. split; [done|by eapply sending_snoc].
  - destruct Hr as [-> Hr]. by exists sent, [].
Qed.

(** The caller writes what it has to, in order. *)
Definition caller_ok (k : Stage) : Prop :=
  match k_caller k with
  | KWaiting => from_caller (k_log k) = []
  | KGoing os => k_stop k = true /\ plan = from_caller (k_log k) ++ os
  | KGone => k_stop k = true /\ from_caller (k_log k) `prefix_of` plan
  end.

Lemma caller_step k k' : step k k' -> caller_ok k -> caller_ok k'.
Proof.
  destruct 1 as [k k' E| | |s p t b o os n ids l s' E|s p t b o os n ids l s' E| |]; unfold caller_ok; cbn; try done.
  - destruct E; cbn; try done. by rewrite from_caller_snoc, app_nil_r.
  - by intros ->.
  - intros ->. split; [done|apply prefix_nil].
  - by rewrite from_caller_snoc, <- app_assoc.
  - intros [? ->]. split; [done|by eexists].
Qed.

(** ** The goroutine ends *)

Definition loop_work (k : Stage) : nat :=
  (match k_loop k with LSelect => 1 | LSending ps => length ps + 2 | LEnded => 0 end + if k_tick k then 6 else 0)%nat.

Lemma round_length id : length (round id) = 4%nat.
Proof. unfold round, title_packets. destruct (title_lines _). destruct (isV1_20_1 _); [done|]. by destruct (since_1_17 _). Qed.

Lemma loop_step_work k k' : loop_step k k' -> (loop_work k' < loop_work k)%nat.
Proof. destruct 1; unfold loop_work; cbn [k_loop k_tick length]; rewrite ?round_length; lia. Qed.

Lemma loop_run_bound n k k' : nsteps loop_step n k k' -> (n + loop_work k' <= loop_work k)%nat.
Proof. induction 1 as [|n k k1 k' E _ IH]; [lia|]. apply loop_step_work in E. lia. Qed.

Lemma loop_enabled k : k_stop k = true -> k_loop k <> LEnded -> exists k', loop_step k k'.
Proof.
  destruct k as [s p t b c n ids l]. cbn. intros -> Hp. destruct p as [|[|p ps]|]; [by eexists; apply loop_stop|by eexists; apply loop_round| |done].
  destruct (writePacketTo p s) as [r s'] eqn:E. pose proof (writePacketTo_returns p s) as H. rewrite E in H. cbn in H.
  destruct H as [-> | ->]; eexists; [by apply loop_write|by apply loop_fail].
Qed.

Lemma loop_step_stop k k' : loop_step k k' -> k_stop k' = k_stop k.
Proof. by destruct 1. Qed.

Lemma loop_runs_out n : forall k, (loop_work k < n)%nat -> k_stop k = true -> exists k', rtc loop_step k k' /\ k_loop k' = LEnded.
Proof.
  induction n as [|n IH]; intros k Hn Hs; [lia|].
  assert (k_loop k = LEnded \/ k_loop k <> LEnded) as [Hl|Hl]; [by destruct (k_loop k); auto|by exists k|].
  destruct (loop_enabled k Hs Hl) as [k1 E]. pose proof (loop_step_work k k1 E).
  destruct (IH k1) as (k' & Hk & Hl'); [lia|by rewrite (loop_step_stop _ _ E)|]. exists k'. split; [by eapply rtc_l|done].
Qed.

(** A round has four packets, so that little is left to do. *)
Definition round_short (k : Stage) : Prop := match k_loop k with LSending ps => (length ps <= 4)%nat | _ => True end.

Lemma short_step k k' : step k k' -> round_short k -> round_short k'.
Proof.
  destruct 1 as [k k' E| | | | | |]; try done. destruct E; unfold round_short; cbn [k_loop]; try done; [by rewrite round_length|cbn; lia].
Qed.

(** ** Runs *)

Definition all_ok (k : Stage) : Prop := rounds_sent k /\ waiting_ok k /\ caller_ok k /\ round_short k /\ (l_room (side_link s0) = None -> on_wire k).

Lemma stage_inv k : rtc step (stage s0 next) k -> all_ok k.
Proof.
  apply (rtc_ind_r all_ok).
  - unfold all_ok, rounds_sent, waiting_ok, on_wire. cbn. split_and!; try done; [by exists [], []|constructor 1|intros _|].
    { split_and!; [done..|]. by exists [], []. }
    intros Hr. split_and!; [done..|]. exists []. rewrite app_nil_r. by destruct (l_enc (side_link s0)).
  - intros k1 k2 _ E (H1 & H2 & H3 & H4 & H5). split_and!; [by eapply rounds_step|by eapply waiting_step|by eapply caller_step|by eapply short_step|].
    intros Hr. by eapply on_wire_step, H5.
Qed.

Lemma sending_stops ps p rest s s' : sending (ps ++ [p]) s = (Bad, s') -> sending (ps ++ p :: rest) s = (Bad, s').
Proof.
  intros E. replace (ps ++ p :: rest) with ((ps ++ [p]) ++ rest) by (by rewrite <- app_assoc).
  rewrite each_app. unfold mbind, ST_bind. by rewrite E.
Qed.

(** C19: the keep-alive goroutine and its caller share the connection without
    mixing their packets. In every interleaving of the goroutine with its
    ticker, the caller and other clients: while the caller waits, the
    connection after a round is exactly as the rounds of [Lobby.keepAliveLoop]
    leave it; the goroutine sends whole rounds in order, with increasing ids,
    and the caller what it has to send in order; the client gets, in plain or
    encrypted, the concatenation of what the two wrote, each packet a frame of
    its own; and once it is asked to stop, the goroutine ends within twelve
    steps, unless more ticks fire, and gets stuck nowhere before. *)
Theorem keepalive_interleaves_whole_packets (k : Stage) : rtc step (stage s0 next) k ->
  (k_caller k = KWaiting -> k_loop k = LSelect \/ k_loop k = LEnded -> k_side k = snd (keepAliveLoop config info (k_ids k) s0))
  /\ StronglySorted Z.lt (k_ids k)
  /\ (exists sent, sent `prefix_of` concat (map round (k_ids k)) /\ from_loop (k_log k) = map Frame sent)
  /\ from_caller (k_log k) `prefix_of` plan
  /\ (l_room (side_link s0) = None ->
        side_out (k_side k) = side_out s0
          ++ fst (seal (l_enc (side_link s0)) (concat (map (fun x => out_bytes (side_client s0) (snd x)) (k_log k)))))
  /\ (k_caller k <> KWaiting ->
        (exists k', rtc loop_step k k' /\ k_loop k' = LEnded)
        /\ forall n k', nsteps loop_step n k k' -> (n <= 12)%nat /\ ((forall k'', ~ loop_step k' k'') -> k_loop k' = LEnded)).
Proof.
  intros Hk. destruct (stage_inv k Hk) as ((Hsent & Hsort & _) & Hwait & Hcall & Hshort & Hwire). split_and!; try done.
  - intros Hw Hl. destruct (Hwait Hw) as (_ & _ & sent & rest & Hd & H). rewrite keepAliveLoop_sending, Hd.
    destruct (k_loop k); [|by destruct Hl|].
    + destruct H as [-> H]. by rewrite app_nil_r, H.
    + destruct H as (p & rest' & -> & H). by rewrite (sending_stops _ _ _ _ _ H).
  - destruct Hsent as (sent & rest & -> & H & _). exists sent. split; [by eexists|done].
  - unfold caller_ok in Hcall. destruct (k_caller k); [rewrite Hcall; apply prefix_nil|destruct Hcall as [_ ->]; by eexists|tauto].
  - intros Hr. destruct (Hwire Hr) as (_ & _ & more & -> & ->). done.
  - intros Hg. assert (k_stop k = true) as Hs by (unfold caller_ok in Hcall; destruct (k_caller k); tauto).
    split; [by apply (loop_runs_out (S (loop_work k))); [lia|]|]. intros n k' Hn. split.
    + apply loop_run_bound in Hn. assert (loop_work k <= 12)%nat; [|lia]. unfold round_short, loop_work in *.
      destruct (k_loop k), (k_tick k); lia.
    + assert (k_stop k' = true) as Hs'.
      { clear - Hn Hs. induction Hn as [|n k k1 k' E _ IH]; [done|]. apply IH. by rewrite (loop_step_stop _ _ E). }
      intros Hstuck. destruct (k_loop k') as [| |] eqn:El; [| |done];
        (destruct (loop_enabled k') as [k'' E]; [done|by rewrite El|by destruct (Hstuck k'')]).
Qed.

End Run.

End KeepAlive.

(** ** Runs of a sample client *)

Section Sample.

#[local] Existing Instance toy_aes.

Definition sample_side : Side := mkSide (SetState ClientStatePlay DummyClient) (mkLink [] [] None [] None).
Definition sample_step : list Output -> Stage -> Stage -> Prop := step (lobby_config false) steve_info.
Definition sample_stage : Stage := stage sample_side 1.
Definition sample_round : list RawPacket := round (lobby_config false) steve_info 1.

(** The side after some outputs that are written without error. *)
Fixpoint after (os : list Output) (s : Side) : Side :=
  match os with [] => s | o :: os => after os (snd (write o s)) end.

(** A packet of the server, and its frame. *)
Definition relayed_packet : RawPacket := NewRawPacket x17 [x01; x02].
Definition relayed_frame : bytes := frame_of relayed_packet.
Definition two_chunks : list Output := [Chunk (take 2 relayed_frame); Chunk (drop 2 relayed_frame)].

(** The goroutine has just begun a round when the wait is over; it goes on when
    the relay has copied the first bytes. *)
Definition split_log : list (Writer * Output) :=
  [(ByCaller, Chunk (take 2 relayed_frame)); (ByLoop, Frame (default relayed_packet (head sample_round))); (ByCaller, Chunk (drop 2 relayed_frame))].
Definition split_stage : Stage :=
  mkStage (after (map snd split_log) sample_side) (LSending (tail sample_round)) false true (KGoing []) 2 [1] split_log.

Lemma split_reachable : rtc (sample_step two_chunks) sample_stage split_stage.
Proof.
  eapply rtc_l; [apply step_tick|]. eapply rtc_l; [apply step_loop, loop_tick|]. eapply rtc_l; [apply step_waited|].
  eapply rtc_l; [apply step_write; vm_compute; reflexivity|].
  eapply rtc_l; [apply step_loop, loop_write; vm_compute; reflexivity|].
  apply rtc_once. apply step_write. vm_compute. reflexivity.
Qed.

Lemma keepalive_interleaves_whole_packets_witness :
  StronglySorted Z.lt [1] /\ from_caller split_log `prefix_of` two_chunks
  /\ side_out (k_side split_stage) = concat (map (fun x => out_bytes DummyClient (snd x)) split_log)
  /\ exists k', rtc (loop_step (lobby_config false) steve_info) split_stage k' /\ k_loop k' = LEnded.
Proof.
  destruct (keepalive_interleaves_whole_packets (lobby_config false) steve_info two_chunks sample_side 1
    split_stage split_reachable) as (_ & H2 & _ & H4 & H5 & H6).
  split; [exact H2|]. split; [exact H4|]. split; [exact (H5 eq_refl)|]. apply H6. discriminate.
Defined.

(** C38: nothing keeps the goroutine from writing once its caller relays. There
    is a run in which the relay copies a packet of the server in two chunks and
    a keep-alive packet of the lobby goes between them: the server sent one
    well-formed packet, and the first packet the client reads is another one. *)
Theorem keepalive_splits_relayed_packet :
  exists k, rtc (sample_step two_chunks) sample_stage k
    /\ from_caller (k_log k) = two_chunks
    /\ ReadPacket DummyClient [] [mkEvent (concat (map (out_bytes DummyClient) two_chunks)) None] = (GotPacket relayed_packet relayed_frame, [], [])
    /\ match ReadPacket DummyClient [] [mkEvent (side_out (k_side k)) None] with
       | (GotPacket p _, _, _) => p <> relayed_packet
       | _ => False
       end.
Proof.
  exists split_stage. split; [apply split_reachable|]. split; [reflexivity|]. split; vm_compute; [reflexivity|discriminate].
Qed.

End Sample.
