(* ===== verification/Identity.v ===== *)
(** The identity of a player on both sides of the gateway: what the client
    reads from the login success packet of the lobby ([respondLoginSuccess] of
    [src/lobby.go]) and what the backend reads from the forwarding reply
    ([src/velocity_forwarding.go]). *)
From S2P Require Import Prelude VarInt Wire Packet Config Net Packets GoFloat Nbt Cipher Profile Velocity Link ServerState Lobby.

(** ** The client's side of the login success packet

    Written from the protocol's description: since 1.16 (735) the UUID is
    sixteen bytes, before that its text; since 1.19 (759) the properties of the
    profile follow the name. *)
Definition since (v : Z) (protocol : option Z) : bool := match protocol with Some p => v <=? p | None => false end.

Definition read_uuid (protocol : option Z) : Rd (option bytes) :=
  if since 735 protocol then id ← read_bytes 16; mret (Some id)
  else text ← read_str 36; mret (parseProfileUUID text).

Definition read_login_success (protocol : option Z) : Rd (option bytes * bytes * list ProfileProperty) :=
  id ← read_uuid protocol;
  name ← read_str 16;
  if since 759 protocol then n ← varInt; ps ← read_many (Z.to_nat n) read_property; mret (id, name, ps)
  else mret (id, name, []).

Section Identity.

Context `{HM : HMAC} `{M5 : MD5}.

Definition told_uuid (info : ClientInfo) (name : bytes) : bytes :=
  match Info_Profile info with Some p => Profile_UUID p | None => OfflinePlayerUUID name end.
Definition told_properties (info : ClientInfo) : list ProfileProperty :=
  match Info_Profile info with Some p => Profile_Properties p | None => [] end.

(** The bytes of the packet. *)
Lemma LoginSuccess_bytes info name :
  LoginSuccess_data info name
  = (if since 735 (GetProtocol info) then told_uuid info name else str_enc (hyphenatedUUID (told_uuid info name)))
    ++ str_enc name
    ++ (if since 759 (GetProtocol info)
        then EncodeVarInt (i32 (Zlen (told_properties info))) ++ concat (map property_enc (told_properties info)) else []).
Proof.
  unfold LoginSuccess_data, told_uuid, told_properties, since.
  destruct (GetProtocol info) as [p|]; [destruct (735 <=? p), (759 <=? p)|]; unfold Bytes;
    rewrite ?wbuf_WriteProperties, ?wbuf_WriteString, ?wbuf_Write, ?wbuf_WriteString, ?wbuf_New, <- ?app_assoc, ?app_nil_l, ?app_nil_r; done.
Qed.

Lemma told_uuid_length info name : from_option profile_bounded True (Info_Profile info) -> length (told_uuid info name) = 16%nat.
Proof.
  unfold told_uuid. destruct (Info_Profile info) as [p|]; [by intros [H _]|]. intros _.
  by destruct (uuid_wellformed_roundtrip name (replicate 16 x00) eq_refl) as [[H _] _].
Qed.

Lemma read_uuid_reads protocol u : length u = 16%nat ->
  reads (read_uuid protocol) (if since 735 protocol then u else str_enc (hyphenatedUUID u)) (Some u).
Proof.
  intros Hu. destruct (uuid_wellformed_roundtrip [] u Hu) as (_ & Hl & Hp & _). unfold read_uuid. destruct (since 735 protocol).
  - apply (reads_bind_ret _ Some). rewrite <- Hu. apply read_bytes_reads. by intros ->.
  - rewrite <- Hp. apply (reads_bind_ret _ parseProfileUUID), str_codec_reads; unfold Zlen; rewrite Hl; lia.
Qed.

(** The client reads the identity it was given, an offline one included. *)
Lemma login_success_read info name :
  from_option profile_bounded True (Info_Profile info) -> Zlen name <= 16 ->
  decode_with (read_login_success (GetProtocol info)) (LoginSuccess_data info name)
  = Some (Some (told_uuid info name), name, if since 759 (GetProtocol info) then told_properties info else []).
Proof.
  intros Hp Hn. rewrite LoginSuccess_bytes. apply reads_decode. unfold read_login_success.
  eapply reads_bind; [by apply read_uuid_reads, told_uuid_length|].
  assert (Forall property_bounded (told_properties info) /\ Zlen (told_properties info) <= 64) as [Hb Hl].
  { unfold told_properties. destruct (Info_Profile info); [by destruct Hp as (_ & _ & ? & ?)|]. by split; [constructor|]. }
  destruct (since 759 (GetProtocol info)).
  - eapply reads_bind; [apply str_codec_reads; lia|].
    apply (properties_reads _ (fun ps => (Some (told_uuid info name), name, ps))); [done|lia].
  - rewrite app_nil_r. apply (reads_bind_ret _ (fun n => (Some (told_uuid info name), n, []))), str_codec_reads; lia.
Qed.

(** ** Property *)

(** C18: the client and the backend are told the same player. For a profile that
    the session lookup verified, in every protocol version: the client reads
    from the lobby's login success packet the UUID and the name of the profile,
    and from 1.19 on its properties; and a backend that holds the same secret
    accepts the signature of the forwarding reply, which answers the request's
    id, and reads from it exactly this profile, the negotiated version (1 to 4)
    and the client's address. *)
Theorem client_and_backend_agree `{ZL : Zlib} (client : Client) (request : LoginPluginRequest) (info : ClientInfo) (p : GameProfile)
    (peer frame : bytes) (secret : option bytes) :
  Info_Profile info = Some p -> profile_bounded p -> is_i32 (Req_MessageID request) -> Zlen peer <= 32767 ->
  respondVelocityForwarding client request (Info_Profile info) peer secret = Some frame ->
  decode_with (read_login_success (GetProtocol info)) (LoginSuccess_data info (Profile_Name p))
  = Some (Some (Profile_UUID p), Profile_Name p, if since 759 (GetProtocol info) then Profile_Properties p else [])
  /\ exists s data reply,
    secret = Some s
    /\ EncodeWithLen (NewRawPacket PacketServerLoginPluginResponse data) client = Some frame
    /\ DecodeLoginPluginResponse data = Some (mkLoginPluginResponse (Req_MessageID request) true reply)
    /\ backend_accepts s reply = Some (forwarding_version (Req_Data request), peerIP peer, p)
    /\ 1 <= forwarding_version (Req_Data request) <= 4.
Proof.
  intros Hi Hp Hid Hpeer Hr. split.
  - rewrite login_success_read; [|by rewrite Hi|by destruct Hp as (_ & [_ ?] & _)]. unfold told_uuid, told_properties. by rewrite Hi.
  - destruct (velocity_reply _ _ _ _ _ _ Hr) as (p' & s & address & data & Ep & Es & _ & Ef & H).
    rewrite Hi in Ep. injection Ep as <-. destruct (H Hid Hp Hpeer) as (reply & H1 & H2 & H3 & ->). by exists s, data, reply.
Qed.

End Identity.

Lemma sample_profile_bounded : profile_bounded sample_profile.
Proof. repeat split; try (vm_compute; congruence). repeat constructor; vm_compute; congruence. Qed.

Lemma client_and_backend_agree_witness :
  let info := mkClientInfo (Some 763) None (Some (Profile_Name sample_profile)) (Some sample_profile) in
  match respondVelocityForwarding (HM := toy_hmac) DummyClient velocity_request (Info_Profile info) (str "[::1]:25565") (Some sample_uuid) with
  | Some frame =>
      decode_with (read_login_success (GetProtocol info)) (LoginSuccess_data (M5 := toy_md5) info (Profile_Name sample_profile))
      = Some (Some (Profile_UUID sample_profile), Profile_Name sample_profile, Profile_Properties sample_profile)
      /\ exists s data reply, Some sample_uuid = Some s
         /\ EncodeWithLen (NewRawPacket PacketServerLoginPluginResponse data) DummyClient = Some frame
         /\ DecodeLoginPluginResponse data = Some (mkLoginPluginResponse 3 true reply)
         /\ backend_accepts (HM := toy_hmac) s reply = Some (4, str "::1", sample_profile)
  | None => False
  end.
Proof.
  intros info. destruct (respondVelocityForwarding _ _ _ _ _) as [frame|] eqn:E; [|vm_compute in E; discriminate].
  destruct (client_and_backend_agree (HM := toy_hmac) (M5 := toy_md5) DummyClient velocity_request info sample_profile (str "[::1]:25565")
    frame (Some sample_uuid) eq_refl sample_profile_bounded) as [H1 (s & data & reply & H2 & H3 & H4 & H5 & _)];
    [split; vm_compute; congruence|vm_compute; congruence|exact E|].
  split; [exact H1|]. exists s, data, reply. split; [exact H2|]. split; [exact H3|]. split; [exact H4|exact H5].
Defined.
